(* ===== verification/_CoqProject ===== *)
-Q . S2P
Prelude.v
GoStrings.v
Apply.v
ApplySpec.v
ApplyThms.v
Schedule.v
ScheduleThms.v
Effects.v
Network.v
GoNet.v
Uci.v
Firewall.v
Stage.v
Discipline.v
StageThms.v
Lan.v
LanThms.v
FirewallWrite.v
UciApplier.v
UciApplierThms.v
Device.v
DeviceMem.v
FirewallRules.v
Routes.v
RoutesWrite.v
RoutesThms.v
RoutesSafety.v
Devices.v
DeviceSources.v
DeviceLimits.v
DeviceLimitsThms.v
DeviceWatch.v
DeviceWatchThms.v
FirewallThms.v
FirewallSafety.v
DeviceLimitsSafety.v
FirewallVerdict.v
WiFi.v
WiFiGuest.v
GuestIsolation.v
GuestWrite.v
GuestThms.v
GuestIsolated.v
GuestMade.v
GuestWhole.v
GuestStage.v
GuestPromise.v
GuestMem.v
GuestSafety.v
WiFiSafety.v
WiFiThms.v
StagedChanges.v
StagedThms.v
WiFiStatus.v
TunnelRoute.v
TunnelRouteThms.v
TunnelRouteMem.v
Requests.v
Http.v
Metrics.v
Config.v
ConfigThms.v
ConfigMem.v
Sha256.v
AmneziaParse.v
AmneziaThms.v
SelectiveRouting.v
SelectiveRoutingThms.v
SelectiveRoutingMem.v
VpnManager.v
Restore.v
RestoreThms.v
Api.v
ApiThms.v
System.v
Capabilities.v
ApiPanel.v
PanelThms.v
ApiSurface.v
Daemon.v
