(* ===== verification/Prelude.v ===== *)
(** * VeilBridge: a verification library for the control plane of an OpenWrt router

    VeilBridge (src/) is a daemon that shows and changes the settings of an
    OpenWrt router. A change goes through three stages, and this library follows
    them: a request of the panel writes settings into uci's draft
    (internal/adapters/openwrt), the draft is reviewed, and the apply transaction
    (internal/core/apply.go) commits it under a watchdog that puts everything back
    unless somebody who can still reach the router confirms it. The rest of the
    library is what the requests read (interfaces, leases, firewall, routes, the
    devices on the network) and what the transaction stands on (snapshots and a
    journal on flash).

    ** How code becomes definitions

    Pure functions are functions. [error] is [err]: a format with its arguments,
    what it wraps, and the sentinel it is; [(T, error)] is [res T]. A Go string is
    a sequence of bytes, Rocq's [string]; [int] is 64 bits wide and wraps where the
    code can get there ([wrap64]); a uint32 is a [Z] taken modulo 2^32. A Go map is
    a [gmap], and where the code ranges over one, an order [rng] that may be any
    ([MapOrder]).

    A method that asks the router anything - [m.run], the ubus connection, a file,
    the clock - is a tree of those calls and of what is done with each answer
    ([prog], Effects.v). A [router] interprets it: [result] is what the method
    returns, [trace] the calls with their answers, and [perform] both with the state
    the router is left in. A theorem about every router is proved with an observer
    that reads the calls ([wp], [wp_sound]; [hearing] keeps them all; [calls] looks
    at each alone); a theorem about a router that works as documented names its
    laws in a class, and a router in memory shows that the laws can hold.

    The coordinator of apply.go has its state passed explicitly. Each method that
    holds the lock is one function, so an interleaving is a sequence of steps, and
    a timer is the token its closure holds.

    ** The files

    - Foundations. Prelude.v: tactics, hint databases, sorting, lemmas on lists and
      integers. GoStrings.v: packages strings, strconv, fmt and sort. GoNet.v:
      packages net and net/netip. Effects.v: programs, routers, observers, and the
      types that cross that border (ubus/ubus.go, the neighbours of devices.go).
    - The apply transaction, internal/core/apply.go. Apply.v: [ApplyCoordinator]
      with Apply, ApplyNow, Confirm, Revert, Pending, autoRevert and RecoverPending,
      over the records [ConfigApplier], [ApplyJournal] and [Seams] (Go's interfaces
      and function fields). ApplySpec.v: the laws of the world it works in
      ([TransactionWorld]), the step relation with its timers and restarts, the
      abstract transaction. ApplyThms.v: the theorems and a world in memory.
    - The uci applier, uci.go and journal.go. UciApplier.v: Snapshot, persist and
      prune, Commit, Revert with dropStaged, the journal, the list of allowed
      commands. UciApplierThms.v: what each does on a router that keeps [UciHost],
      the laws of tar, uci and the file system. Device.v: the applier is a
      [TransactionWorld], so the theorems of ApplyThms.v hold of the router.
      DeviceMem.v: a router in memory that keeps those laws.
    - Staging, network.go, network_write.go. Network.v: the list of connections and
      the uplink. Uci.v: what [uci show] and [uci changes] print, the guards on names.
      Stage.v: [stage], the one routine that writes a section's settings, StageWAN,
      the readings with and without a draft, DiscardStaged. StageThms.v: what
      [stage] does to a store ([DraftStore]). Discipline.v: the promises of a request,
      as observers.
    - The local network, lan.go and lan_write.go: Lan.v, LanThms.v.
    - The firewall. Firewall.v: firewall.go. FirewallWrite.v: firewall_write.go, port
      forwards and the check by fw4. FirewallRules.v: firewall_rules.go, traffic
      rules. FirewallThms.v: which rule decides. FirewallSafety.v and
      FirewallVerdict.v: what the requests leave behind.
    - Routes. Routes.v: routes.go, the configured routes and the kernel's tables.
      RoutesWrite.v: routes_write.go. RoutesThms.v, RoutesSafety.v: the theorems.
    - Schedules of one device's internet, internal/core/schedule.go: Schedule.v,
      ScheduleThms.v.
    - Devices. Devices.v: internal/core/devices.go. DeviceSources.v: devices.go, the
      access points, the bridge's table and the guests. DeviceLimits.v:
      devices_internet.go and devices_schedule.go, limits as firewall rules.
      DeviceWatch.v: devices.go, devices_traffic.go and devices_wake.go, the list of
      devices, its memory and the counters. DeviceLimitsThms.v, DeviceLimitsSafety.v,
      DeviceWatchThms.v: the theorems.
    - Wi-Fi, internal/core/wifi.go, wifi.go and wifi_guest.go. WiFi.v: radios, networks
      and the requests that change them. WiFiGuest.v: the guest network as the
      configuration has it, a free network for it. GuestIsolation.v: guestBlocker and
      guestWeakened, everything that would let guests out. GuestWrite.v: StageGuest,
      StageGuestEnabled, StageGuestRemove with discard. WiFiStatus.v: the screen.
      WiFiThms.v: what is one network, which channels are written. GuestThms.v: the
      network chosen is free. GuestIsolated.v: the specification of an isolated guest
      network ([isolated]) and that what is not blocked keeps to it. GuestMade.v,
      GuestWhole.v, GuestStage.v, GuestPromise.v: the recipe StageGuest writes, on a
      router whose uci works ([UciSections]), leaves such a network; GuestMem.v: a
      router in memory for it. GuestSafety.v, WiFiSafety.v: what the requests touch.
    - StagedChanges.v: the draft in words, StagedChanges of network_write.go with the
      guest network in it (guestDraft of wifi_guest.go); StagedThms.v: the theorems.
    - Tunnel routing, tunnel_route.go. TunnelRoute.v: the policy rules, their rebuilding
      under a hold, the routes of the connection. TunnelRouteThms.v: the theorems over a
      kernel that keeps its rules ([IpRules]); TunnelRouteMem.v: one in memory.
    - Selective routing, internal/routing and routing.go, with its requests in
      internal/api/server.go. SelectiveRouting.v: the nftables script, the stored rules
      and applying them. SelectiveRoutingThms.v: the theorems, over an interpreter of the
      script's chain; SelectiveRoutingMem.v: witnesses, and what goes wrong.
    - The tunnel, internal/vpn and vpn.go. AmneziaParse.v: the file of a node, and what
      the device is told of it; Sha256.v: the hash its ID is made of. VpnManager.v: the
      nodes, the one engine, what a restart brings back (wiring.go), and the theorems on
      them. AmneziaThms.v: the theorems on the file.
    - The daemon's configuration, internal/config. Config.v: the document and its store.
      ConfigThms.v: the theorems over a file system ([StoreHost]); ConfigMem.v: one in
      memory.
    - The emergency restore, restore.go. Restore.v, RestoreThms.v.
    - The system page, system.go: System.v. What the device can do, capabilities.go, with
      the choice of an engine (adapter.go) and of a platform (detect.go): Capabilities.v.
    - The web interface, internal/api. Http.v: what a handler answers. Api.v: every edit and
      the transaction, the handlers over the coordinator's state. ApiPanel.v: who may ask,
      the screens, devices, nodes, the configuration file, the count of live streams. ApiThms.v,
      PanelThms.v: the theorems. ApiSurface.v: the operations that are registered, who may
      enter them, what a live stream says; with its theorems.
    - The daemon, cmd/veilbridged/main.go. Daemon.v: its commands, and the order of a start.
    - Graphs, internal/metrics. Metrics.v: the rings and the sampler, and the theorems.
    - Requests.v: every writing request as one type, and what all of them keep to;
      [takes_back] names those that throw away the whole configuration they wrote to
      when they fail (a guest edit takes back its own keys, GuestSafety.v).

    ** What the theorems show

    - The transaction (ApplyThms.v). It refines an abstract one; a reverted change
      leaves the configuration it started from, whatever fails in between; a pending
      change always has a watchdog; a timer that comes late changes nothing; a failed
      apply leaves the configuration; what was confirmed survives a restart and what
      was not does not.
    - The router under it (Device.v, UciApplierThms.v). The applier keeps every law
      the transaction assumes; a revert leaves nothing staged; the journal is never
      half written; pruning keeps the newest snapshots, and their names sort by age;
      no name leads out of the directory of snapshots.
    - Every request (Requests.v). Nothing is committed, on any router; a request that
      fails throws away what it wrote; only allowed commands are run.
    - Staging (StageThms.v). The draft is brought to the settings asked for, no other
      key is touched, and exactly what changed is reported.
    - The firewall. A rule refused as one that would never act would never act, where
      the reference is "the first rule that matches decides"; a moved rule lands where
      the apply bar says; nothing stays staged that fw4 would skip; what the panel
      cannot show is said.
    - Settings survive the device: address pools, lease times, routes, netmasks,
      schedules, [uci show] itself.
    - Routes (RoutesSafety.v). An accepted route leaves through a connection that can
      carry it and takes over no route that is there.
    - Schedules and devices. OffAt is membership in the windows of the week and
      NextChange the first change; the firewall rules of a schedule are its window at
      every second of the week; a limit writes to its own device's sections only; a
      limited device is always on the list; the memory stays bounded.
    - Wi-Fi. A guest network the panel made, or finds and does not complain about, has
      every protection the specification asks for; a failed edit is taken back whole and
      no edit touches anything else; the network chosen overlaps no other one. A radio is
      set to channels its driver allows, a network is everything that looks alike.
    - The apply bar (StagedThms.v). A difference between the disk and the draft has its
      row, but for the options of an entry whose section line is in the draft too; a row
      about a password or a key shows dots.
    - Tunnel routing. Packets marked for the tunnel that are confined to it or refused
      stay so at every step of bringing a connection up, the rebuilding of the rules
      included, whichever command fails; the routes are those of the listed networks.

    - The web interface (ApiThms.v, PanelThms.v). An edit is staged only where it may be:
      not under a change that waits, not next to a guest network's draft, not into a draft
      that cannot be read; a token opens the panel for twelve hours and one password; at
      most eight live streams are served. ApiSurface.v: at most one operation answers a
      request, and each but the login needs a token; a live stream shows every state of
      the transaction that was looked at and differs from the one before.
    - The daemon (Daemon.v). It comes to serve the panel only with an unconfirmed change
      of an earlier run undone, or the failure reported.
    - Capabilities. A capability is there exactly when the kernel shows the hardware, and
      every no has a reason.
    - Selective routing. The script marks, of the traffic of the local network, exactly
      the packets to a listed network that no direct rule names; nothing is marked unless
      the rules that refuse stray traffic are in place; a new rule has an ID of its own.
    - The tunnel. A printed configuration file is read back; the device is told the keys
      and parameters the file gives and nothing else of them; the engine runs exactly
      while the manager holds a node active.
    - The daemon's configuration is there whole or not at all and is read back; the notes
      on devices are a bounded map.
    - The emergency restore does not race a change that undoes itself, and replaces the
      panel's files only by whole files of a restore point.
    - The graphs show the last of the samples recorded, and the memory they take is fixed.

    ** Fuel and bounds

    Recursion that is not structural has fuel that is proved or seen to be enough:
    [NextChange] tries 7*24*60 minutes, as the code does; [mask_loop] runs 33 times
    over 32 bits ([maskBits_exact]); [fdb_records] and [runes_go] have the length of
    their input and consume at least one byte a step; the groups of an IPv6 address
    have 9, one more than there can be; [range_from] has the number of ports in the
    range ([range_from_spec]). [freeID] looks at one more number than there are rules,
    which is enough ([new_rule_has_an_id_of_its_own]). [applyUntilDone] and [bringBack] try for ever in
    the code; here their argument is how many attempts are seen.

    ** What is assumed

    - The target is 64-bit and little-endian, as every target the project names.
      (ParseIP of the kernel's IPv4 words is proved for either order.)
    - [TransactionWorld], [UciHost], [DraftStore]: the documented behaviour of uci, tar
      and the files, as classes; each has an instance in memory that the witnesses
      run. [RecordCodec]: encoding/json reads back the record it wrote. [DeviceSeams]:
      the clock and timers answer.
    - [UciSections]: uci's sections and lists as documented, for the guest network;
      [IpRules]: iproute2's rules and routes. Both have an instance in memory.
    - [rng], the order in which Go ranges over a map: any order of its keys ([MapOrder]).
      [before], how strconv.ParseFloat orders the words for two bands: any relation.
    - [decodeNft] and [parseFloat], the JSON document of nft and strconv.ParseFloat on
      /proc/uptime, are arguments of the definitions, with no hypothesis.

    - [QuietStart]: reading, probing and marking at the start leave the configuration and
      the journal alone. [shows]: the files the probes look at hold still while they do.
      [text], what an error says, is an argument.
    - [DocumentCodec]: encoding/json reads back an ASCII document; [StoreHost]: the files
      of the configuration; [PasswordHash]: bcrypt accepts the password it hashed. Each has
      an instance in memory. [JWT]: a token parses with the key it was signed with, until it
      expires. [Float64] has operations and no laws. [LookupIP] (the resolver), [members] (what a gzip archive
      holds) and how a time is printed are arguments, with no hypothesis.

    ** Findings

    Modelling showed where the code does something else than it means to; each is a
    theorem beside the component, among them: a clock that steps back makes pruning drop the
    newest snapshot (DeviceMem.v); a metric of zero written out escapes the check of
    clashes and the router's own address passes as a gateway on a connection that is
    not named (RoutesSafety.v); a rule that one draft moves and edits, or moves and
    removes, escapes the apply bar (StagedThms.v); a second address on the guests'
    interface hides a zone that holds their network (GuestSafety.v); a morning rule whose evening rule is gone can neither
    be seen nor removed (DeviceLimitsSafety.v); a clock that steps back stops the graphs
    (Metrics.v); the value of a domain rule can hold a command for nft, and storing
    rules overwrites what another request saved meanwhile (SelectiveRoutingMem.v); with no
    password set anybody can sign a token, and a changed password leaves the old tokens
    valid (PanelThms.v); an edit can slip in behind an apply, and a network's password is
    applied together with a draft that could not be read (ApiThms.v); a dash reaches ping as
    an option, and with a tunnel up an outside service is asked at every look at the
    dashboard (System.v); the engine and the capability that speaks of it are measured apart
    (Capabilities.v); an edit can be answered with a status it does not declare
    (ApiSurface.v).

    ** Not modelled

    The ubus wire protocol and netlink (an answer is what they decode to); the bodies of
    the engines, which drive a device of another package (kernel.go, netstack.go); the
    userspace network stack (internal/awgnetstack, a copy of a third-party package); what
    huma does with an operation beyond its method, its path and its middlewares; the HTTP
    server and its shutdown; the stand-in adapter, which gives canned answers, and the web
    interface's own code. *)

From stdpp Require Export base tactics list gmap strings sorting.
From Stdlib Require Export ZArith Lia Ascii.

Declare Scope go_scope.
Delimit Scope go_scope with go.
Open Scope go_scope.

(** ** Automation *)

Create HintDb vb discriminated.
Create Rewrite HintDb vbrw.

(** Case analysis on the innermost scrutinee of the goal or of a hypothesis. *)
Ltac break_match :=
  match goal with
  | |- context [match ?x with _ => _ end] =>
      lazymatch x with context [match _ with _ => _ end] => fail | _ => destruct x eqn:? end
  end.

Ltac break_match_in H :=
  match type of H with
  | context [match ?x with _ => _ end] =>
      lazymatch x with context [match _ with _ => _ end] => fail | _ => destruct x eqn:? end
  end.

(** Runs [break_match] to the end and closes what is closed by computation. *)
Ltac crush := repeat (break_match; simplify_eq/=); try done; try lia.

Ltac break_in H := repeat (break_match_in H; simplify_eq/=); try done; try lia.

(** Booleans met in the code's conditions, turned into propositions. *)
Ltac bool_to_prop :=
  repeat match goal with
  | H : (_ && _)%bool = true |- _ => apply andb_true_iff in H as [? ?]
  | H : (_ || _)%bool = false |- _ => apply orb_false_iff in H as [? ?]
  | H : negb _ = true |- _ => apply negb_true_iff in H
  | H : negb _ = false |- _ => apply negb_false_iff in H
  | H : (_ =? _)%Z = true |- _ => apply Z.eqb_eq in H
  | H : (_ =? _)%Z = false |- _ => apply Z.eqb_neq in H
  | H : (_ <? _)%Z = true |- _ => apply Z.ltb_lt in H
  | H : (_ <? _)%Z = false |- _ => apply Z.ltb_ge in H
  | H : (_ <=? _)%Z = true |- _ => apply Z.leb_le in H
  | H : (_ <=? _)%Z = false |- _ => apply Z.leb_gt in H
  | H : String.eqb _ _ = true |- _ => apply String.eqb_eq in H
  | H : String.eqb _ _ = false |- _ => apply String.eqb_neq in H
  | H : bool_decide _ = true |- _ => apply bool_decide_eq_true in H
  | H : bool_decide _ = false |- _ => apply bool_decide_eq_false in H
  end.

(** ** Errors

    A Go [error] is kept as what it is made of: the format string of the
    [fmt.Errorf] (or [errors.New]) that made it with the values it quotes, the
    error it wraps (and the one it only shows, or the two of ["%w: %w"]), or the field a
    refusal names (internal/core/refusal.go). The sentinels of internal/core and
    internal/api are constructors of their own, because
    callers compare with them. *)
Inductive err :=
| Errorf (format : string) (args : list string)
| Wrapf (format : string) (args : list string) (cause : err)
| WrapShown (format : string) (shown cause : err)
| FieldError (field : string) (cause : err)
| WrapBoth (first second : err)
| ErrNotExist
| ErrNotImplemented
| ErrNoWAN
| ErrNoLAN
| ErrApplyInFlight
| ErrNoApplyInFlight
| ErrWrongToken
| ErrChangePending
| ErrNoWiFi
| ErrGuestExists
| ErrGuestBlocked
| ErrNoGuest
| ErrDraftNotEmpty
| errGuestDraftPending
| errDraftUnreadable
| errNothingToApply
| ErrTooManyDevices
| ErrTooLong.

#[export] Instance err_eq_dec : EqDecision err.
Proof. solve_decision. Defined.

(** A Go pair [(value, error)], of which callers use one half. *)
Inductive res (A : Type) :=
| Ok (a : A)
| Err (e : err).
Arguments Ok {A} a.
Arguments Err {A} e.

#[export] Instance res_eq_dec `{EqDecision A} : EqDecision (res A).
Proof. solve_decision. Defined.

Definition res_bind {A B} (m : res A) (f : A -> res B) : res B :=
  match m with Ok a => f a | Err e => Err e end.

#[export] Instance res_mret : MRet res := @Ok.
#[export] Instance res_mbind : MBind res := fun A B f m => res_bind m f.

Definition is_ok {A} (r : res A) : bool := match r with Ok _ => true | Err _ => false end.

(** [errors.Join]: nothing when there is no error. *)
Fixpoint joined (e : err) (es : list err) : err :=
  match es with
  | [] => Wrapf "%w" [] e
  | e' :: es => WrapShown "%v\n%w" e (joined e' es)
  end.
Definition JoinErrors (es : list err) : res unit :=
  match es with [] => Ok tt | e :: es => Err (joined e es) end.

(** The error of a call, if there is one, among others. *)
Definition errs_of {A} (r : res A) : list err := match r with Ok _ => [] | Err e => [e] end.

(** [core.Refuse(field, err)] for an error that is there. *)
Definition Refuse {A} (field : string) (e : err) : res A := Err (FieldError field e).

(** [core.Refuse] around a validator's result: a nil error stays nil. *)
Definition RefuseRes {A} (field : string) (r : res A) : res A :=
  match r with Ok a => Ok a | Err e => Err (FieldError field e) end.

Lemma Ok_inj {A} (a b : A) : Ok a = Ok b -> a = b.
Proof. congruence. Qed.

Lemma res_bind_Ok {A B} (m : res A) (f : A -> res B) b :
  res_bind m f = Ok b <-> exists a, m = Ok a /\ f a = Ok b.
Proof. destruct m; cbn; naive_solver. Qed.

Lemma res_bind_Err {A B} (m : res A) (f : A -> res B) e :
  res_bind m f = Err e <-> m = Err e \/ exists a, m = Ok a /\ f a = Err e.
Proof. destruct m; cbn; naive_solver. Qed.

Notation "'let?' x := m 'in' k" := (res_bind m (fun x => k))
  (at level 10, x pattern, m at level 100, k at level 200) : go_scope.

(** Maps of strings read the way Go reads them: a missing key is [""] (or
    [false]). *)
Definition get (m : gmap string string) (k : string) : string := default "" (m !! k).

(** Sets the code keeps as [map[string]bool] with only [true] in them. *)
Definition has (s : gset string) (k : string) : bool := bool_decide (k ∈ s).

Lemma has_true s k : has s k = true <-> k ∈ s.
Proof. apply bool_decide_eq_true. Qed.

Lemma has_false s k : has s k = false <-> k ∉ s.
Proof. apply bool_decide_eq_false. Qed.

#[export] Hint Rewrite has_true has_false : vbrw.

(** ** Sorting: [sort.Strings] and the other [sort] calls of the code

    Insertion into a list kept in order; [le] is a boolean total preorder. An
    element goes after the ones equal to it, so [sort_by] is stable. *)
Section Sorting.
Context {A : Type} (le : A -> A -> bool).

Fixpoint insert_by (x : A) (l : list A) : list A :=
  match l with
  | [] => [x]
  | y :: l' => if le y x then y :: insert_by x l' else x :: l
  end.

Definition sort_by (l : list A) : list A := foldl (fun acc x => insert_by x acc) [] l.

Lemma insert_by_Permutation x l : insert_by x l ≡ₚ x :: l.
Proof. induction l as [|y l IH]; cbn; [done|]. destruct (le y x); [|done]. rewrite IH. constructor. Qed.

Lemma sort_by_acc l acc : foldl (fun a x => insert_by x a) acc l ≡ₚ l ++ acc.
Proof.
  revert acc. induction l as [|x l IH]; intros acc; cbn; [done|].
  rewrite IH, insert_by_Permutation. by rewrite Permutation_middle.
Qed.

Lemma sort_by_Permutation l : sort_by l ≡ₚ l.
Proof. unfold sort_by. by rewrite sort_by_acc, app_nil_r. Qed.

Lemma sort_by_elem l x : x ∈ sort_by l <-> x ∈ l.
Proof. by rewrite sort_by_Permutation. Qed.

Lemma sort_by_NoDup l : NoDup (sort_by l) <-> NoDup l.
Proof. by rewrite sort_by_Permutation. Qed.

Context (le_total : forall x y, le x y = false -> le y x = true).
Context (le_trans : forall x y z, le x y = true -> le y z = true -> le x z = true).

Let leR x y := le x y = true.

Lemma insert_by_sorted x l : StronglySorted leR l -> StronglySorted leR (insert_by x l).
Proof.
  induction 1 as [|y l Hs IH Hy]; cbn; [repeat constructor|].
  destruct (le y x) eqn:E.
  - constructor; [done|]. rewrite insert_by_Permutation. by constructor.
  - constructor; [by constructor|]. constructor; [by apply le_total|].
    eapply Forall_impl; [exact Hy|]. intros z Hz. eapply le_trans; [by apply le_total|done].
Qed.

Lemma sort_by_sorted l : StronglySorted leR (sort_by l).
Proof.
  unfold sort_by. assert (StronglySorted leR []) as H by constructor.
  revert H. generalize (@nil A). induction l as [|x l IH]; intros acc H; cbn; [done|].
  by apply IH, insert_by_sorted.
Qed.
End Sorting.

(** ** Lists *)

(** The first element satisfying a test, as a [for … { if … return }] finds it. *)
Fixpoint find_first {A} (p : A -> bool) (l : list A) : option A :=
  match l with [] => None | x :: l' => if p x then Some x else find_first p l' end.

(** The last one, as a loop that overwrites a variable finds it. *)
Definition find_last {A} (p : A -> bool) (l : list A) : option A :=
  foldl (fun acc x => if p x then Some x else acc) None l.

(** The index of the first one, [-1] in the code. *)
Fixpoint index_of {A} (p : A -> bool) (l : list A) : option nat :=
  match l with [] => None | x :: l' => if p x then Some 0 else S <$> index_of p l' end.

Lemma find_first_Some {A} (p : A -> bool) l x :
  find_first p l = Some x -> x ∈ l /\ p x = true.
Proof.
  induction l as [|y l IH]; cbn; [done|]. destruct (p y) eqn:E; intros H; simplify_eq.
  - split; [left|done].
  - destruct (IH H). split; [by right|done].
Qed.

Lemma find_first_None {A} (p : A -> bool) l :
  find_first p l = None <-> Forall (fun x => p x = false) l.
Proof.
  induction l as [|y l IH]; cbn; [split; by constructor|].
  rewrite Forall_cons. destruct (p y) eqn:E; naive_solver.
Qed.

Lemma find_last_snoc {A} (p : A -> bool) l x :
  find_last p (l ++ [x]) = if p x then Some x else find_last p l.
Proof. unfold find_last. by rewrite foldl_app. Qed.

Lemma find_last_Some {A} (p : A -> bool) l x : find_last p l = Some x -> x ∈ l /\ p x = true.
Proof.
  induction l as [|y l IH] using rev_ind; [done|]. rewrite find_last_snoc, elem_of_app, list_elem_of_singleton.
  destruct (p y) eqn:E; naive_solver.
Qed.

Lemma find_last_None {A} (p : A -> bool) l : find_last p l = None <-> Forall (fun x => p x = false) l.
Proof.
  induction l as [|y l IH] using rev_ind; [split; by constructor|].
  rewrite find_last_snoc, Forall_app, Forall_singleton. destruct (p y) eqn:E; naive_solver.
Qed.

Lemma index_of_Some {A} (p : A -> bool) l i :
  index_of p l = Some i ->
  exists x, l !! i = Some x /\ p x = true /\ Forall (fun y => p y = false) (take i l).
Proof.
  revert i. induction l as [|y l IH]; intros i; cbn; [done|].
  destruct (p y) eqn:E; intros H; simplify_eq; [by exists y|].
  destruct (index_of p l) as [j|] eqn:Ej; simplify_eq/=.
  destruct (IH j eq_refl) as (x & Hx & Hp & Hall). exists x. cbn. auto.
Qed.

Lemma index_of_None {A} (p : A -> bool) l :
  index_of p l = None <-> Forall (fun x => p x = false) l.
Proof.
  induction l as [|y l IH]; cbn; [split; by constructor|].
  rewrite Forall_cons. destruct (p y) eqn:E; [naive_solver|].
  rewrite fmap_None. naive_solver.
Qed.

Lemma index_of_bound {A} (p : A -> bool) l i : index_of p l = Some i -> i < length l.
Proof. intros (x & H & _)%index_of_Some. by eapply lookup_lt_Some. Qed.

#[export] Hint Resolve index_of_bound : vb.

Lemma existsb_elem {A} (p : A -> bool) l : existsb p l = true <-> exists x, x ∈ l /\ p x = true.
Proof. rewrite existsb_exists. setoid_rewrite list_elem_of_In. done. Qed.

Lemma forallb_elem {A} (p : A -> bool) l : forallb p l = true <-> forall x, x ∈ l -> p x = true.
Proof. rewrite forallb_forall. setoid_rewrite list_elem_of_In. done. Qed.

Lemma filter_none {A} (P : A -> Prop) `{forall x, Decision (P x)} (l : list A) :
  (forall x, x ∈ l -> ~ P x) -> filter P l = [].
Proof. intros HP. apply elem_of_nil_inv. intros x [Hx Hin]%list_elem_of_filter. by apply (HP x). Qed.

Lemma filter_all {A} (P : A -> Prop) `{forall x, Decision (P x)} (l : list A) :
  (forall x, x ∈ l -> P x) -> filter P l = l.
Proof.
  induction l as [|x l IH]; intros H'; [done|]. rewrite filter_cons_True by (apply H'; left).
  f_equal. apply IH. intros y Hy. apply H'. by right.
Qed.

Lemma filter_ext_elem {A} (P Q : A -> Prop) `{forall x, Decision (P x)} `{forall x, Decision (Q x)} (l : list A) :
  (forall x, x ∈ l -> P x <-> Q x) -> filter P l = filter Q l.
Proof.
  induction l as [|x l IH]; intros H1; [done|].
  rewrite !filter_cons, IH by (intros; apply H1; by right).
  assert (P x <-> Q x) by (apply H1; left). repeat case_decide; naive_solver.
Qed.

(** [slices.Contains]. *)
Definition contains (l : list string) (x : string) : bool := bool_decide (x ∈ l).

Lemma contains_true l x : contains l x = true <-> x ∈ l.
Proof. apply bool_decide_eq_true. Qed.

Lemma contains_false l x : contains l x = false <-> x ∉ l.
Proof. apply bool_decide_eq_false. Qed.

#[export] Hint Rewrite contains_true contains_false : vbrw.

(** ** Runs of a transition system *)
Section Runs.
Context {S L : Type} (step : S -> L -> S -> Prop).

Inductive run : S -> list L -> S -> Prop :=
| run_nil s : run s [] s
| run_snoc s ls t l u : run s ls t -> step t l u -> run s (ls ++ [l]) u.

Lemma run_invariant (P : S -> Prop) s ls t :
  P s -> (forall a l b, P a -> step a l b -> P b) -> run s ls t -> P t.
Proof. intros H0 Hp. induction 1; eauto. Qed.
End Runs.

(** ** Ranging over a map

    Go ranges over a map in some order of its keys. *)
Class MapOrder (rng : forall A : Type, gmap string A -> list (string * A)) : Prop :=
  map_order : forall A (m : gmap string A), rng A m ≡ₚ map_to_list m.

Section Ranging.
Context {rng : forall A : Type, gmap string A -> list (string * A)} `{!MapOrder rng}.

Lemma rng_elem {A} (m : gmap string A) k v : (k, v) ∈ rng A m <-> m !! k = Some v.
Proof. rewrite (map_order (rng:=rng)). apply elem_of_map_to_list. Qed.

Lemma rng_NoDup {A} (m : gmap string A) : NoDup (rng A m).*1.
Proof. rewrite (map_order (rng:=rng)). apply NoDup_fst_map_to_list. Qed.

Lemma rng_length {A} (m : gmap string A) : length (rng A m) = size m.
Proof. by rewrite (map_order (rng:=rng)), length_map_to_list. Qed.
End Ranging.
