(* ===== verification/GoStrings.v ===== *)
(** * Go's strings, as bytes

    The part of the packages strings, strconv, fmt and sort that the modelled
    code calls. A Go string is a sequence of bytes, so it is Rocq's [string].

    Unicode: [TrimSpace] and [Fields] know every white-space character, at its
    UTF-8 encoding. [ToLower] and [ToUpper] map ASCII letters, and the four
    other characters whose lower or upper case is an ASCII letter; any other
    non-ASCII character is left as it is. The code compares the results with
    ASCII words only, and no other character maps into those.

    [int] is 64 bits wide, as on the routers the project names (x86-64 and
    aarch64). *)

From S2P Require Import Prelude.

(** ** Bytes *)

Definition code (c : ascii) : Z := Z.of_N (N_of_ascii c).

Definition is_digit (c : ascii) : bool := ((48 <=? code c) && (code c <=? 57))%Z.
Definition is_lower (c : ascii) : bool := ((97 <=? code c) && (code c <=? 122))%Z.
Definition is_upper (c : ascii) : bool := ((65 <=? code c) && (code c <=? 90))%Z.
Definition is_alnum (c : ascii) : bool := is_digit c || is_lower c || is_upper c.

Fixpoint all_chars (p : ascii -> bool) (s : string) : bool :=
  match s with EmptyString => true | String c s' => p c && all_chars p s' end.

Fixpoint some_char (p : ascii -> bool) (s : string) : bool :=
  match s with EmptyString => false | String c s' => p c || some_char p s' end.

Fixpoint rev_onto (s acc : string) : string :=
  match s with EmptyString => acc | String c s' => rev_onto s' (String c acc) end.

Definition rev_string (s : string) : string := rev_onto s "".

(** ** White space: unicode.IsSpace *)

Definition space1 (a : ascii) : bool := ((9 <=? code a) && (code a <=? 13))%Z || (code a =? 32)%Z.
(** U+0085 and U+00A0. *)
Definition space2 (a b : ascii) : bool :=
  (code a =? 194)%Z && ((code b =? 133)%Z || (code b =? 160)%Z).
(** U+1680, U+2000..U+200A, U+2028, U+2029, U+202F, U+205F and U+3000. *)
Definition space3 (a b c : ascii) : bool :=
  ((code a =? 225) && (code b =? 154) && (code c =? 128))%Z ||
  ((code a =? 226) && (code b =? 128) &&
     (((128 <=? code c) && (code c <=? 138)) || (code c =? 168) || (code c =? 169) || (code c =? 175)))%Z ||
  ((code a =? 226) && (code b =? 129) && (code c =? 159))%Z ||
  ((code a =? 227) && (code b =? 128) && (code c =? 128))%Z.

(** How many bytes of white space a string starts with, one character of it. *)
Definition space_len (s : string) : nat :=
  match s with
  | String a r1 =>
      if space1 a then 1 else
      match r1 with
      | String b r2 =>
          if space2 a b then 2 else
          match r2 with String c _ => if space3 a b c then 3 else 0 | _ => 0 end
      | _ => 0
      end
  | _ => 0
  end.

Fixpoint trim_left (s : string) : string :=
  match s with
  | String a r1 =>
      if space1 a then trim_left r1 else
      match r1 with
      | String b r2 =>
          if space2 a b then trim_left r2 else
          match r2 with
          | String c r3 => if space3 a b c then trim_left r3 else s
          | _ => s
          end
      | _ => s
      end
  | _ => s
  end.

(** [trim_left] on a reversed string: the bytes of a character come last first. *)
Fixpoint trim_left_rev (s : string) : string :=
  match s with
  | String a r1 =>
      if space1 a then trim_left_rev r1 else
      match r1 with
      | String b r2 =>
          if space2 b a then trim_left_rev r2 else
          match r2 with
          | String c r3 => if space3 c b a then trim_left_rev r3 else s
          | _ => s
          end
      | _ => s
      end
  | _ => s
  end.

Definition trim_right (s : string) : string := rev_string (trim_left_rev (rev_string s)).
Definition TrimSpace (s : string) : string := trim_right (trim_left s).

Definition nonempty (s : string) : bool := match s with EmptyString => false | _ => true end.

(** The word being read, when there is one, in front of the words after it. *)
Definition push_word (acc : string) (ws : list string) : list string :=
  if nonempty acc then rev_string acc :: ws else ws.

(** strings.FieldsFunc for a test on single bytes. *)
Fixpoint fields_byte (p : ascii -> bool) (acc s : string) : list string :=
  match s with
  | EmptyString => push_word acc []
  | String a r => if p a then push_word acc (fields_byte p "" r) else fields_byte p (String a acc) r
  end.

Definition FieldsByte (p : ascii -> bool) (s : string) : list string := fields_byte p "" s.

(** strings.Fields. [acc] holds the current word, reversed. *)
Fixpoint fields_go (acc s : string) : list string :=
  match s with
  | EmptyString => push_word acc []
  | String a r1 =>
      if space1 a then push_word acc (fields_go "" r1) else
      match r1 with
      | String b r2 =>
          if space2 a b then push_word acc (fields_go "" r2) else
          match r2 with
          | String c r3 =>
              if space3 a b c then push_word acc (fields_go "" r3) else fields_go (String a acc) r1
          | _ => fields_go (String a acc) r1
          end
      | _ => fields_go (String a acc) r1
      end
  end.

Definition Fields (s : string) : list string := fields_go "" s.

(** ** Cutting and joining *)

(** strings.Split on a one-byte separator. *)
Fixpoint Split (sep : ascii) (s : string) : list string :=
  match s with
  | EmptyString => [""]
  | String c r =>
      if decide (c = sep) then "" :: Split sep r else
      match Split sep r with h :: t => String c h :: t | [] => [String c ""] end
  end.

(** strings.Cut on a one-byte separator: [None] is "not found". *)
Fixpoint Cut (sep : ascii) (s : string) : option (string * string) :=
  match s with
  | EmptyString => None
  | String c r =>
      if decide (c = sep) then Some ("", r) else
      match Cut sep r with Some (a, b) => Some (String c a, b) | None => None end
  end.

Definition Join (sep : string) (l : list string) : string := String.concat sep l.

Fixpoint HasPrefix (p s : string) : bool :=
  match p, s with
  | EmptyString, _ => true
  | String a p', String b s' => bool_decide (a = b) && HasPrefix p' s'
  | _, _ => false
  end.

Fixpoint drop (n : nat) (s : string) : string :=
  match n, s with S n', String _ s' => drop n' s' | _, _ => s end.

Definition TrimPrefix (p s : string) : string := if HasPrefix p s then drop (String.length p) s else s.
Definition HasSuffix (p s : string) : bool := HasPrefix (rev_string p) (rev_string s).
Definition TrimSuffix (p s : string) : string :=
  if HasSuffix p s then rev_string (drop (String.length p) (rev_string s)) else s.

(** strings.Contains. *)
Fixpoint Contains (sub s : string) : bool :=
  HasPrefix sub s || match s with EmptyString => false | String _ s' => Contains sub s' end.

(** strings.ContainsAny for a set of ASCII characters. *)
Definition ContainsAny (set s : string) : bool :=
  some_char (fun c => some_char (fun d => bool_decide (c = d)) set) s.

(** strings.Count of a one-byte separator. *)
Fixpoint Count (sep : ascii) (s : string) : nat :=
  match s with EmptyString => 0 | String c r => (if decide (c = sep) then 1 else 0) + Count sep r end.

(** strings.ReplaceAll(s, c, "") for one byte. *)
Fixpoint RemoveAll (sep : ascii) (s : string) : string :=
  match s with
  | EmptyString => ""
  | String c r => if decide (c = sep) then RemoveAll sep r else String c (RemoveAll sep r)
  end.

(** ** Case *)

Definition lower_ascii (c : ascii) : ascii :=
  if is_upper c then ascii_of_N (N_of_ascii c + 32) else c.
Definition upper_ascii (c : ascii) : ascii :=
  if is_lower c then ascii_of_N (N_of_ascii c - 32) else c.

(** U+0130 (C4 B0) becomes "i", U+212A (E2 84 AA) becomes "k". *)
Fixpoint ToLower (s : string) : string :=
  match s with
  | String a (String b r as r1) =>
      if (code a =? 196)%Z && (code b =? 176)%Z then String "i" (ToLower r) else
      match r with
      | String c r3 =>
          if (code a =? 226)%Z && (code b =? 132)%Z && (code c =? 170)%Z
          then String "k" (ToLower r3) else String (lower_ascii a) (ToLower r1)
      | _ => String (lower_ascii a) (ToLower r1)
      end
  | String a EmptyString => String (lower_ascii a) ""
  | EmptyString => ""
  end.

(** U+0131 (C4 B1) becomes "I", U+017F (C5 BF) becomes "S". *)
Fixpoint ToUpper (s : string) : string :=
  match s with
  | String a (String b r as r1) =>
      if (code a =? 196)%Z && (code b =? 177)%Z then String "I" (ToUpper r) else
      if (code a =? 197)%Z && (code b =? 191)%Z then String "S" (ToUpper r) else
      String (upper_ascii a) (ToUpper r1)
  | String a EmptyString => String (upper_ascii a) ""
  | EmptyString => ""
  end.

(** strings.EqualFold, for strings compared with ASCII words. *)
Definition EqualFold (a b : string) : bool := bool_decide (ToLower a = ToLower b).

(** ** Numbers: strconv *)

Definition digit_val (c : ascii) : Z := (code c - 48)%Z.

(** The value of a run of decimal digits after [acc]; [None] on another byte. *)
Fixpoint dec_val (acc : Z) (s : string) : option Z :=
  match s with
  | EmptyString => Some acc
  | String c r => if is_digit c then dec_val (acc * 10 + digit_val c)%Z r else None
  end.

Definition parse_udec (s : string) : option Z :=
  match s with EmptyString => None | _ => dec_val 0 s end.

Definition int_min : Z := (- 2 ^ 63)%Z.
Definition int_max : Z := (2 ^ 63 - 1)%Z.
Definition in_int (z : Z) : bool := (int_min <=? z)%Z && (z <=? int_max)%Z.

(** Go's [int] and [int64] arithmetic. *)
Definition wrap64 (z : Z) : Z := ((z + 2 ^ 63) mod 2 ^ 64 - 2 ^ 63)%Z.

Definition checked_int (o : option Z) : option Z :=
  match o with Some z => if in_int z then Some z else None | None => None end.

(** strconv.Atoi and strconv.ParseInt(s, 10, 64). *)
Definition Atoi (s : string) : option Z :=
  match s with
  | String "-" r => checked_int (Z.opp <$> parse_udec r)
  | String "+" r => checked_int (parse_udec r)
  | _ => checked_int (parse_udec s)
  end.

Definition hex_digit (c : ascii) : option Z :=
  if is_digit c then Some (code c - 48)%Z
  else if ((97 <=? code c) && (code c <=? 102))%Z then Some (code c - 87)%Z
  else if ((65 <=? code c) && (code c <=? 70))%Z then Some (code c - 55)%Z
  else None.

Fixpoint hex_val (acc : Z) (s : string) : option Z :=
  match s with
  | EmptyString => Some acc
  | String c r => match hex_digit c with Some d => hex_val (acc * 16 + d)%Z r | None => None end
  end.

(** strconv.ParseUint(s, 16, bits). *)
Definition ParseHex (bits : Z) (s : string) : option Z :=
  match s with
  | EmptyString => None
  | _ => match hex_val 0 s with Some z => if (z <? 2 ^ bits)%Z then Some z else None | None => None end
  end.

Definition digit_char (d : Z) : ascii := ascii_of_N (Z.to_N (48 + d)%Z).
Definition hex_char (d : Z) : ascii := ascii_of_N (Z.to_N (if (d <? 10)%Z then 48 + d else 87 + d)).

(** The digits of a number that is not negative, in front of [acc]; [fuel]
    bounds their count. *)
Fixpoint digits (base : Z) (ch : Z -> ascii) (fuel : nat) (n : Z) (acc : string) : string :=
  match fuel with
  | O => acc
  | S f =>
      let acc' := String (ch (n mod base)%Z) acc in
      if (n <? base)%Z then acc' else digits base ch f (n / base)%Z acc'
  end.

Definition udec (n : Z) : string := digits 10 digit_char (S (Z.to_nat (Z.log2 n))) n "".
Definition uhex (n : Z) : string := digits 16 hex_char (S (Z.to_nat (Z.log2 n))) n "".

(** strconv.Itoa. *)
Definition Itoa (z : Z) : string := if (z <? 0)%Z then String "-" (udec (- z)%Z) else udec z.

(** fmt's %02d of a number that is not negative. *)
Definition pad2 (z : Z) : string := if (z <? 10)%Z then String "0" (Itoa z) else Itoa z.

(** strconv.Quote, of a string whose characters beyond ASCII are printable. *)
Definition quote_char (c : ascii) : string :=
  let n := code c in
  if (n =? 34)%Z then String "\" (String "034" "")
  else if (n =? 92)%Z then "\\"
  else if (n =? 7)%Z then "\a" else if (n =? 8)%Z then "\b" else if (n =? 9)%Z then "\t"
  else if (n =? 10)%Z then "\n" else if (n =? 11)%Z then "\v" else if (n =? 12)%Z then "\f"
  else if (n =? 13)%Z then "\r"
  else if ((n <? 32) || (n =? 127))%Z
  then "\x" +:+ String (hex_char (n / 16)) (String (hex_char (n mod 16)) "")
  else String c "".

Fixpoint quote_body (s : string) : string :=
  match s with EmptyString => "" | String c s => quote_char c +:+ quote_body s end.

Definition Quote (s : string) : string := String "034" (quote_body s +:+ String "034" "").

(** ** Ordering: sort.Strings compares bytes *)

Definition str_le (a b : string) : bool := String.leb a b.
Definition sort_strings (l : list string) : list string := sort_by str_le l.

(** ** Lemmas *)

Lemma wrap64_id z : in_int z = true -> wrap64 z = z.
Proof. unfold in_int, int_min, int_max, wrap64. intros H. bool_to_prop. rewrite Z.mod_small; lia. Qed.

Lemma code_bound c : (0 <= code c < 256)%Z.
Proof. unfold code. pose proof (N_ascii_bounded c). lia. Qed.

Lemma ascii_of_code n : (0 <= n < 256)%Z -> code (ascii_of_N (Z.to_N n)) = n.
Proof. intros H. unfold code. rewrite N_ascii_embedding by lia. lia. Qed.

Lemma code_inj a b : code a = code b -> a = b.
Proof.
  unfold code. intros H. rewrite <- (ascii_N_embedding a), <- (ascii_N_embedding b). f_equal. lia.
Qed.

Lemma append_assoc (a b c : string) : a +:+ (b +:+ c) = (a +:+ b) +:+ c.
Proof. induction a as [|x a IH]; [done|]. exact (f_equal (String x) IH). Qed.

Lemma append_nil_l (a : string) : "" +:+ a = a.
Proof. reflexivity. Qed.

Lemma append_nil_r (a : string) : a +:+ "" = a.
Proof. induction a as [|x a IH]; [done|]. exact (f_equal (String x) IH). Qed.

Lemma append_cons x (a b : string) : String x a +:+ b = String x (a +:+ b).
Proof. done. Qed.

Lemma append_inj_l (a b c : string) : a +:+ b = a +:+ c -> b = c.
Proof. induction a as [|x a IH]; [done|]. rewrite !append_cons. intros [= H]. auto. Qed.

Lemma append_length (a b : string) : String.length (a +:+ b) = String.length a + String.length b.
Proof. induction a as [|x a IH]; [done|]. rewrite append_cons. cbn. by rewrite IH. Qed.

#[export] Hint Rewrite append_nil_r append_cons append_length : vbrw.

Lemma rev_onto_app s acc : rev_onto s acc = rev_onto s "" +:+ acc.
Proof.
  revert acc. induction s as [|c s IH]; intros acc; cbn [rev_onto]; [done|].
  rewrite (IH (String c acc)), (IH (String c "")), <- append_assoc. done.
Qed.

Lemma rev_string_cons c s : rev_string (String c s) = rev_string s +:+ String c "".
Proof. unfold rev_string. cbn [rev_onto]. by rewrite rev_onto_app. Qed.

Lemma rev_string_app s t : rev_string (s +:+ t) = rev_string t +:+ rev_string s.
Proof.
  induction s as [|c s IH].
  - change ("" +:+ t) with t. change (rev_string "") with "". by rewrite append_nil_r.
  - rewrite append_cons, !rev_string_cons, IH. by rewrite <- append_assoc.
Qed.

Lemma rev_string_involutive s : rev_string (rev_string s) = s.
Proof. induction s as [|c s IH]; [done|]. by rewrite rev_string_cons, rev_string_app, IH. Qed.

Lemma str_le_total a b : str_le a b = false -> str_le b a = true.
Proof. unfold str_le. intros H. destruct (String.leb_total a b); congruence. Qed.

Lemma str_le_refl a : str_le a a = true.
Proof. unfold str_le. destruct (String.leb_total a a); done. Qed.

Lemma str_le_antisym a b : str_le a b = true -> str_le b a = true -> a = b.
Proof. apply String.leb_antisym. Qed.

Lemma str_le_cons x a y b :
  str_le (String x a) (String y b) = (code x <? code y)%Z || ((code x =? code y)%Z && str_le a b).
Proof.
  unfold str_le, String.leb. cbn. unfold Ascii.compare, code.
  destruct (N.compare_spec (N_of_ascii x) (N_of_ascii y)) as [E|E|E].
  - rewrite E, Z.ltb_irrefl, Z.eqb_refl. done.
  - replace (_ <? _)%Z with true by (symmetry; apply Z.ltb_lt; lia). done.
  - replace (_ <? _)%Z with false by (symmetry; apply Z.ltb_ge; lia).
    replace (_ =? _)%Z with false by (symmetry; apply Z.eqb_neq; lia). done.
Qed.

Lemma str_le_trans a b c : str_le a b = true -> str_le b c = true -> str_le a c = true.
Proof.
  revert b c. induction a as [|x a IH]; intros [|y b] [|z c]; try done.
  rewrite !str_le_cons, !orb_true_iff, !andb_true_iff, !Z.ltb_lt, !Z.eqb_eq.
  intros [H1|[H1 H1']] [H2|[H2 H2']]; try (left; lia). right. split; [lia|eauto].
Qed.

Lemma sort_strings_sorted l : StronglySorted (fun a b => str_le a b = true) (sort_strings l).
Proof. apply sort_by_sorted; [apply str_le_total|apply str_le_trans]. Qed.

Lemma sort_strings_elem l x : x ∈ sort_strings l <-> x ∈ l.
Proof. apply sort_by_elem. Qed.

Lemma sort_strings_NoDup l : NoDup (sort_strings l) <-> NoDup l.
Proof. apply sort_by_NoDup. Qed.

(** Two orders of the same strings sort to the same list: what makes the
    results independent of Go's order of iteration over a map. *)
Lemma sort_strings_perm l1 l2 : l1 ≡ₚ l2 -> sort_strings l1 = sort_strings l2.
Proof.
  intros H. assert (AntiSymm (=) (fun a b : string => str_le a b = true)).
  { intros a b. apply str_le_antisym. }
  eapply (StronglySorted_unique (fun a b => str_le a b = true)); [apply sort_strings_sorted..|].
  unfold sort_strings. by rewrite !sort_by_Permutation.
Qed.

#[export] Hint Rewrite sort_strings_elem sort_strings_NoDup : vbrw.

(** *** Decimal numbers *)

Lemma digit_char_code d : (0 <= d < 10)%Z -> code (digit_char d) = (48 + d)%Z.
Proof. intros H. apply ascii_of_code. lia. Qed.

Lemma digit_char_is_digit d : (0 <= d < 10)%Z -> is_digit (digit_char d) = true.
Proof. intros H. unfold is_digit. rewrite digit_char_code by done. lia. Qed.

Lemma digits_dec fuel n acc :
  (0 <= n)%Z -> (n < 10 ^ Z.of_nat fuel)%Z ->
  exists k, (0 <= k)%Z /\ (fuel <> 0 -> exists c r, digits 10 digit_char fuel n acc = String c r /\ is_digit c = true) /\
    forall a, dec_val a (digits 10 digit_char fuel n acc) = dec_val (a * 10 ^ k + n) acc.
Proof.
  revert n acc. induction fuel as [|f IH]; intros n acc Hn Hb.
  - exists 0%Z. cbn in *. split; [done|]. split; [done|]. intros a. f_equal. lia.
  - cbn [digits]. set (acc' := String _ acc).
    assert (Hm : (0 <= n mod 10 < 10)%Z) by (apply Z.mod_pos_bound; lia).
    assert (Hd : forall a, dec_val a acc' = dec_val (a * 10 + n mod 10) acc).
    { intros a. unfold acc'. cbn [dec_val]. rewrite digit_char_is_digit by done.
      unfold digit_val. rewrite digit_char_code by done. f_equal. lia. }
    destruct (n <? 10)%Z eqn:E; bool_to_prop.
    + exists 1%Z. split; [done|]. split.
      { intros _. exists (digit_char (n mod 10)), acc. split; [done|]. by apply digit_char_is_digit. }
      intros a. rewrite Hd. f_equal. rewrite Z.mod_small by lia. lia.
    + destruct (IH (n / 10)%Z acc') as (k & Hk & Hhd & Hv).
      { apply Z.div_pos; lia. }
      { rewrite Nat2Z.inj_succ, Z.pow_succ_r in Hb by lia. apply Z.div_lt_upper_bound; lia. }
      exists (k + 1)%Z. split; [lia|]. split.
      { intros _. apply Hhd. intros ->. cbn in Hb. lia. }
      intros a. rewrite Hv, Hd. f_equal. rewrite Z.pow_add_r by lia. 
      pose proof (Z.div_mod n 10). lia.
Qed.

Lemma log2_fuel n : (0 <= n)%Z -> (n < 10 ^ Z.of_nat (S (Z.to_nat (Z.log2 n))))%Z.
Proof.
  intros H. rewrite Nat2Z.inj_succ, Z2Nat.id by apply Z.log2_nonneg.
  destruct (decide (n = 0%Z)) as [->|]; [done|].
  eapply Z.lt_le_trans; [apply Z.log2_spec; lia|].
  apply Z.pow_le_mono_l. lia.
Qed.

Lemma udec_val n : (0 <= n)%Z ->
  parse_udec (udec n) = Some n /\ exists c r, udec n = String c r /\ is_digit c = true.
Proof.
  intros H. unfold udec.
  destruct (digits_dec (S (Z.to_nat (Z.log2 n))) n "" H (log2_fuel n H)) as (k & _ & Hhd & Hv).
  destruct (Hhd ltac:(done)) as (c & r & E & Hc). split; [|by eauto].
  specialize (Hv 0%Z). rewrite E in *. unfold parse_udec. rewrite Hv. cbn [dec_val]. f_equal.
Qed.

Lemma is_digit_ne c d : is_digit c = true -> is_digit d = false -> c <> d.
Proof. congruence. Qed.

(** strconv.Atoi reads back what strconv.Itoa wrote. *)
Lemma Atoi_Itoa z : in_int z = true -> Atoi (Itoa z) = Some z.
Proof.
  intros Hz. unfold Itoa. destruct (z <? 0)%Z eqn:E; bool_to_prop.
  - destruct (udec_val (- z)) as [Hv _]; [lia|].
    change (checked_int (Z.opp <$> parse_udec (udec (- z))) = Some z). rewrite Hv. cbn.
    by rewrite Z.opp_involutive, Hz.
  - destruct (udec_val z) as [Hv (c & r & Ec & Hc)]; [lia|].
    assert (checked_int (parse_udec (udec z)) = Some z) as Hok by (rewrite Hv; cbn; by rewrite Hz).
    rewrite Ec in *. unfold Atoi.
    destruct c as [[] [] [] [] [] [] [] []]; try discriminate Hc; exact Hok.
Qed.

Lemma Itoa_inj a b : in_int a = true -> in_int b = true -> Itoa a = Itoa b -> a = b.
Proof. intros Ha Hb H. apply (f_equal Atoi) in H. rewrite !Atoi_Itoa in H by done. congruence. Qed.

(** ** Splitting what was joined *)

Definition lacks (sep : ascii) (s : string) : bool := all_chars (fun c => bool_decide (c <> sep)) s.

Lemma Split_sep sep a s : lacks sep a = true -> Split sep (a +:+ String sep s) = a :: Split sep s.
Proof.
  unfold lacks. induction a as [|c a IH]; rewrite ?append_cons; cbn [all_chars]; [unfold String.append; cbn [Split]; by rewrite decide_True|cbn [Split]].
  intros H. bool_to_prop. rewrite decide_False by done. by rewrite IH.
Qed.

Lemma Split_lacks sep a : lacks sep a = true -> Split sep a = [a].
Proof.
  unfold lacks. induction a as [|c a IH]; cbn [Split all_chars]; [done|].
  intros H. bool_to_prop. rewrite decide_False by done. by rewrite IH.
Qed.

Lemma Cut_sep sep a s : lacks sep a = true -> Cut sep (a +:+ String sep s) = Some (a, s).
Proof.
  unfold lacks. induction a as [|c a IH]; rewrite ?append_cons; cbn [all_chars]; [unfold String.append; cbn [Cut]; by rewrite decide_True|cbn [Cut]].
  intros H. bool_to_prop. rewrite decide_False by done. by rewrite IH.
Qed.

Lemma lacks_app sep a b : lacks sep (a +:+ b) = lacks sep a && lacks sep b.
Proof. unfold lacks. induction a as [|c a IH]; [done|]. rewrite append_cons. cbn. by rewrite IH, andb_assoc. Qed.

(** ** Trimming what has no white space at its ends *)

(** A byte below 128 that is no white space: no other character starts or ends
    with it. *)
Definition solid (c : ascii) : bool := negb (space1 c) && (code c <? 128)%Z.

Lemma solid_spec c : solid c = true -> space1 c = false /\ (code c < 128)%Z.
Proof. unfold solid. intros H. by bool_to_prop. Qed.

Lemma trim_left_solid c s : solid c = true -> trim_left (String c s) = String c s.
Proof.
  intros [H1 H2]%solid_spec. cbn [trim_left]. rewrite H1. destruct s as [|b s]; [done|].
  unfold space2, space3. replace (code c =? 194)%Z with false by (symmetry; apply Z.eqb_neq; lia).
  destruct s as [|d s]; [done|].
  replace (code c =? 225)%Z with false by (symmetry; apply Z.eqb_neq; lia).
  replace (code c =? 226)%Z with false by (symmetry; apply Z.eqb_neq; lia).
  replace (code c =? 227)%Z with false by (symmetry; apply Z.eqb_neq; lia). done.
Qed.

Lemma trim_left_rev_solid c s : solid c = true -> trim_left_rev (String c s) = String c s.
Proof.
  intros [H1 H2]%solid_spec. cbn [trim_left_rev]. rewrite H1. destruct s as [|b s]; [done|].
  unfold space2, space3.
  replace (code c =? 133)%Z with false by (symmetry; apply Z.eqb_neq; lia).
  replace (code c =? 160)%Z with false by (symmetry; apply Z.eqb_neq; lia).
  rewrite andb_false_r. destruct s as [|d s]; [done|].
  replace (code c =? 128)%Z with false by (symmetry; apply Z.eqb_neq; lia).
  replace (code c =? 159)%Z with false by (symmetry; apply Z.eqb_neq; lia).
  replace (128 <=? code c)%Z with false by (symmetry; apply Z.leb_gt; lia).
  replace (code c =? 168)%Z with false by (symmetry; apply Z.eqb_neq; lia).
  replace (code c =? 169)%Z with false by (symmetry; apply Z.eqb_neq; lia).
  replace (code c =? 175)%Z with false by (symmetry; apply Z.eqb_neq; lia).
  by rewrite !andb_false_r.
Qed.

Definition first_solid (s : string) : bool := match s with String c _ => solid c | _ => true end.

Lemma TrimSpace_solid s : first_solid s = true -> first_solid (rev_string s) = true -> TrimSpace s = s.
Proof.
  intros Ha Hb. unfold TrimSpace, trim_right.
  replace (trim_left s) with s by (destruct s; [done|by rewrite trim_left_solid]).
  replace (trim_left_rev (rev_string s)) with (rev_string s)
    by (destruct (rev_string s); [done|by rewrite trim_left_rev_solid]).
  apply rev_string_involutive.
Qed.

Lemma Join_empty_cons a l : Join "" (a :: l) = a +:+ Join "" l.
Proof. destruct l; cbn; [by rewrite append_nil_r|done]. Qed.

(** Lines that are each ended by [sep], split again. *)
Lemma Split_ended sep ls :
  Forall (fun l => lacks sep l = true) ls ->
  Split sep (Join "" ((fun l => l +:+ String sep "") <$> ls)) = ls ++ [""].
Proof.
  induction 1 as [|l ls Hl _ IH]; [done|].
  rewrite fmap_cons, Join_empty_cons, <- append_assoc, append_cons, append_nil_l, Split_sep by done.
  by rewrite IH.
Qed.

(** ** What the pieces of a string contain *)

Lemma lacks_cons c x s : lacks c (String x s) = bool_decide (x <> c) && lacks c s.
Proof. reflexivity. Qed.

Lemma Cut_Some sep s a b : Cut sep s = Some (a, b) -> s = a +:+ String sep b /\ lacks sep a = true.
Proof.
  revert a. induction s as [|x s IH]; intros a; cbn [Cut]; [done|]. case_decide as Hx.
  - intros [= <- <-]. subst. done.
  - destruct (Cut sep s) as [[a' b']|]; [|done]. intros [= <- <-].
    destruct (IH a' eq_refl) as [-> Hl]. rewrite append_cons. split; [done|].
    by rewrite lacks_cons, Hl, bool_decide_eq_true_2.
Qed.

Lemma Cut_lacks c sep s a b : Cut sep s = Some (a, b) -> lacks c s = true -> lacks c a = true /\ lacks c b = true.
Proof.
  intros [-> _]%Cut_Some. rewrite lacks_app, lacks_cons. intros H. by bool_to_prop.
Qed.

Lemma Split_elem sep s x :
  x ∈ Split sep s -> lacks sep x = true /\ forall c, lacks c s = true -> lacks c x = true.
Proof.
  revert x. induction s as [|y s IH]; intros x; cbn [Split].
  - rewrite list_elem_of_singleton. by intros ->.
  - case_decide as Hy.
    + rewrite elem_of_cons. intros [->|H]; [done|]. destruct (IH x H) as [H1 H2].
      split; [done|]. intros c. rewrite lacks_cons. intros H3. bool_to_prop. auto.
    + destruct (Split sep s) as [|h t].
      * rewrite list_elem_of_singleton. intros ->. rewrite lacks_cons, bool_decide_eq_true_2 by done.
        split; [done|]. intros c. rewrite !lacks_cons. intros H3. bool_to_prop. by rewrite bool_decide_eq_true_2.
      * rewrite elem_of_cons. intros [->|H].
        -- destruct (IH h ltac:(left)) as [H1 H2]. rewrite lacks_cons, bool_decide_eq_true_2 by done.
           split; [done|]. intros c. rewrite !lacks_cons. intros H3. bool_to_prop.
           rewrite bool_decide_eq_true_2 by done. by apply H2.
        -- destruct (IH x ltac:(by right)) as [H1 H2]. split; [done|]. intros c. rewrite lacks_cons.
           intros H3. bool_to_prop. auto.
Qed.

Lemma lacks_rev c s : lacks c (rev_string s) = lacks c s.
Proof.
  induction s as [|x s IH]; [done|]. rewrite rev_string_cons, lacks_app, IH, !lacks_cons.
  by rewrite andb_comm, andb_true_r.
Qed.

Lemma lacks_trim_left c s : lacks c s = true -> lacks c (trim_left s) = true.
Proof.
  remember (String.length s) as n eqn:Hn. revert s Hn.
  induction (lt_wf n) as [n _ IH]. intros s -> H.
  assert (forall r, String.length r < String.length s -> lacks c r = true -> lacks c (trim_left r) = true) as IHs
    by (intros; by eapply IH).
  destruct s as [|a [|b [|d r]]]; cbn [trim_left]; [done| | |]; cbn [String.length] in IHs;
    repeat case_match; try done; first [apply IHs; [cbn; lia|]|idtac];
    rewrite ?lacks_cons in *; bool_to_prop; by rewrite ?bool_decide_eq_true_2 by done.
Qed.

Lemma lacks_trim_left_rev c s : lacks c s = true -> lacks c (trim_left_rev s) = true.
Proof.
  remember (String.length s) as n eqn:Hn. revert s Hn.
  induction (lt_wf n) as [n _ IH]. intros s -> H.
  assert (forall r, String.length r < String.length s -> lacks c r = true -> lacks c (trim_left_rev r) = true) as IHs
    by (intros; by eapply IH).
  destruct s as [|a [|b [|d r]]]; cbn [trim_left_rev]; [done| | |]; cbn [String.length] in IHs;
    repeat case_match; try done; first [apply IHs; [cbn; lia|]|idtac];
    rewrite ?lacks_cons in *; bool_to_prop; by rewrite ?bool_decide_eq_true_2 by done.
Qed.

Lemma lacks_TrimSpace c s : lacks c s = true -> lacks c (TrimSpace s) = true.
Proof.
  intros H. unfold TrimSpace, trim_right. rewrite lacks_rev.
  apply lacks_trim_left_rev. rewrite lacks_rev. by apply lacks_trim_left.
Qed.

Lemma lacks_Join c sep l :
  lacks c sep = true -> Forall (fun x => lacks c x = true) l -> lacks c (Join sep l) = true.
Proof.
  intros Hs. induction 1 as [|x l Hx Hl IH]; [done|].
  change (Join sep (x :: l)) with (match l with [] => x | _ :: _ => x +:+ sep +:+ Join sep l end).
  destruct l; [done|]. by rewrite !lacks_app, Hx, Hs, IH.
Qed.

(** ** Prefixes and suffixes *)

Lemma HasPrefix_app a b : HasPrefix a (a +:+ b) = true.
Proof.
  induction a as [|x a IH]; [by destruct b|]. rewrite append_cons. cbn [HasPrefix].
  by rewrite bool_decide_eq_true_2.
Qed.

Lemma drop_app a b : drop (String.length a) (a +:+ b) = b.
Proof. induction a as [|c a IH]; [by destruct b|]. rewrite append_cons. exact IH. Qed.

Lemma TrimPrefix_app p s : TrimPrefix p (p +:+ s) = s.
Proof. unfold TrimPrefix. by rewrite HasPrefix_app, drop_app. Qed.

Lemma rev_string_length s : String.length (rev_string s) = String.length s.
Proof.
  induction s as [|c s IH]; [done|]. rewrite rev_string_cons, append_length, IH. cbn. lia.
Qed.

Lemma HasSuffix_app p s : HasSuffix p (s +:+ p) = true.
Proof. unfold HasSuffix. by rewrite rev_string_app, HasPrefix_app. Qed.

Lemma TrimSuffix_app p s : TrimSuffix p (s +:+ p) = s.
Proof.
  unfold TrimSuffix. rewrite HasSuffix_app, rev_string_app, <- (rev_string_length p), drop_app.
  apply rev_string_involutive.
Qed.

(** A suffix that ends in another character is none. *)
Lemma HasSuffix_last p c s d : c <> d -> HasSuffix (p +:+ String c "") (s +:+ String d "") = false.
Proof.
  intros H. unfold HasSuffix. rewrite !rev_string_app.
  change (rev_string (String c "")) with (String c ""). change (rev_string (String d "")) with (String d "").
  rewrite !append_cons. cbn [HasPrefix]. by rewrite bool_decide_eq_false_2.
Qed.

Lemma TrimSuffix_not p s : HasSuffix p s = false -> TrimSuffix p s = s.
Proof. unfold TrimSuffix. by intros ->. Qed.
