(* ===== verification/Apply.v ===== *)
(** * The apply transaction: internal/core/apply.go

    [ApplyCoordinator] is a state passed explicitly, next to a world [W] in
    which everything it calls lives: the adapter's applier, the journal, the
    clock and the timers are records of operations on [W] (Go's interfaces and
    function fields). A method that holds the lock is one function: the mutex
    makes each call one step, so interleavings are sequences of calls.

    A timer is known by the token its closure carries: the coordinator hands
    the token to [afterFunc], and the goroutine comes back as [autoRevert]. *)

From S2P Require Import Prelude.

(** ** Data *)

Record Snapshot := mkSnapshot { ID : string; Taken : Z; Payload : string }.

(** [Snapshot{}]: Go's zero value. *)
Definition noSnapshot : Snapshot := mkSnapshot "" 0 "".

Record ApplyRecord := mkRecord { SnapshotID : string; Token : string; Deadline : Z }.

Inductive ApplyPhase :=
| PhaseIdle
| PhaseAwaitingConfirm
| PhaseConfirmed
| PhaseReverted
| PhaseRevertFailed.

#[export] Instance ApplyPhase_eq_dec : EqDecision ApplyPhase.
Proof. solve_decision. Defined.

(** [None] in [stDeadline] is the zero [time.Time]; [stErr] is the error whose
    text the Go field carries. *)
Record ApplyState := mkState {
  stPhase : ApplyPhase;
  stToken : string;
  stDeadline : option Z;
  stSnapshotID : string;
  stErr : option err;
  stWindowSeconds : Z }.

(** Durations are nanoseconds. *)
Definition Second : Z := 1000000000.
Definition DefaultApplyWindow : Z := (90 * Second)%Z.

(** ** The interfaces *)

Section Interfaces.
Context (W : Type).

(** core.ConfigApplier *)
Record ConfigApplier := {
  takeSnapshot : W -> W * res Snapshot;
  commit : W -> W * option err;
  revertTo : Snapshot -> W -> W * option err }.

(** core.ApplyJournal; [Load]'s [(rec, found, err)] is a [res] of an option. *)
Record ApplyJournal := {
  save : ApplyRecord -> W -> W * option err;
  load : W -> W * res (option ApplyRecord);
  clear : W -> W * option err }.

(** core.SnapshotLoader *)
Record SnapshotLoader := { loadSnapshot : string -> W -> W * res Snapshot }.

(** The coordinator's function fields, and its timer. *)
Record Seams := {
  now : W -> W * Z;
  newToken : W -> W * string;
  afterFunc : Z -> string -> W -> W;
  stopTimer : string -> W -> W }.
End Interfaces.
Arguments takeSnapshot {W}. Arguments commit {W}. Arguments revertTo {W}.
Arguments save {W}. Arguments load {W}. Arguments clear {W}.
Arguments loadSnapshot {W}.
Arguments now {W}. Arguments newToken {W}. Arguments afterFunc {W}. Arguments stopTimer {W}.

Record ApplyCoordinator (W : Type) := mkCoordinator {
  journal : option (ApplyJournal W);
  phase : ApplyPhase;
  token : string;
  deadline : option Z;
  window : Z;
  snapshot : Snapshot;
  lastSnapshotID : string;
  watchdog : option string;
  lastErr : option err }.
Arguments mkCoordinator {W}. Arguments journal {W}. Arguments phase {W}. Arguments token {W}.
Arguments deadline {W}. Arguments window {W}. Arguments snapshot {W}.
Arguments lastSnapshotID {W}. Arguments watchdog {W}. Arguments lastErr {W}.

(** ** The coordinator *)
Section Coordinator.
Context {W : Type} (applier : ConfigApplier W) (seams : Seams W).
Abbreviation Coord := (ApplyCoordinator W).

Definition set_phase (p : ApplyPhase) (c : Coord) : Coord :=
  mkCoordinator (journal c) p (token c) (deadline c) (window c) (snapshot c)
    (lastSnapshotID c) (watchdog c) (lastErr c).
Definition set_lastErr (e : option err) (c : Coord) : Coord :=
  mkCoordinator (journal c) (phase c) (token c) (deadline c) (window c) (snapshot c)
    (lastSnapshotID c) (watchdog c) e.
Definition set_snapshot (s : Snapshot) (c : Coord) : Coord :=
  mkCoordinator (journal c) (phase c) (token c) (deadline c) (window c) s
    (lastSnapshotID c) (watchdog c) (lastErr c).
Definition set_lastSnapshotID (i : string) (c : Coord) : Coord :=
  mkCoordinator (journal c) (phase c) (token c) (deadline c) (window c) (snapshot c)
    i (watchdog c) (lastErr c).
Definition set_token_deadline (t : string) (d : option Z) (c : Coord) : Coord :=
  mkCoordinator (journal c) (phase c) t d (window c) (snapshot c)
    (lastSnapshotID c) (watchdog c) (lastErr c).
Definition set_window (d : Z) (c : Coord) : Coord :=
  mkCoordinator (journal c) (phase c) (token c) (deadline c) d (snapshot c)
    (lastSnapshotID c) (watchdog c) (lastErr c).
Definition set_watchdog (t : option string) (c : Coord) : Coord :=
  mkCoordinator (journal c) (phase c) (token c) (deadline c) (window c) (snapshot c)
    (lastSnapshotID c) t (lastErr c).

Definition NewApplyCoordinator : Coord :=
  mkCoordinator None PhaseIdle "" None 0 noSnapshot "" None None.

Definition WithJournal (j : ApplyJournal W) (c : Coord) : Coord :=
  mkCoordinator (Some j) (phase c) (token c) (deadline c) (window c) (snapshot c)
    (lastSnapshotID c) (watchdog c) (lastErr c).

Definition stateLocked (c : Coord) : ApplyState :=
  let w := if bool_decide (phase c = PhaseAwaitingConfirm) && (0 <? window c)%Z
           then window c else DefaultApplyWindow in
  mkState (phase c) (token c) (deadline c) (lastSnapshotID c) (lastErr c) (Z.quot w Second).

Definition State (c : Coord) : ApplyState := stateLocked c.

(** What a method leaves and answers: the coordinator, the world, and Go's
    [(ApplyState, error)]. *)
Definition Outcome : Type := Coord * W * (ApplyState * option err).

Definition done_ok (c : Coord) (w : W) : Outcome := (c, w, (stateLocked c, None)).
Definition done_err (c : Coord) (w : W) (e : err) : Outcome := (c, w, (stateLocked c, Some e)).

Definition clearJournalLocked (c : Coord) (w : W) : Coord * W :=
  match journal c with
  | None => (c, w)
  | Some j =>
      match clear j w with
      | (w, Some e) =>
          match lastErr c with
          | None => (set_lastErr (Some (Wrapf "clear pending-apply journal: %w" [] e)) c, w)
          | Some _ => (c, w)
          end
      | (w, None) => (c, w)
      end
  end.

Definition revertLocked (c : Coord) (w : W) : Coord * W :=
  let snap := snapshot c in
  let '(w, e) := revertTo applier snap w in
  let c := set_token_deadline "" None c in
  match e with
  | Some e =>
      (set_lastErr (Some (Wrapf "automatic revert to snapshot %s failed: %w" [ID snap] e))
         (set_phase PhaseRevertFailed c), w)
  | None =>
      clearJournalLocked (set_snapshot noSnapshot (set_lastErr None (set_phase PhaseReverted c))) w
  end.

(** What [Apply] and [ApplyNow] do when the commit failed: put the snapshot
    back right away. *)
Definition commitFailed (c : Coord) (w : W) (snap : Snapshot) (e : err) : Outcome :=
  match revertTo applier snap w with
  | (w, Some re) =>
      let e' := WrapShown "commit failed (%v) and revert failed too: %w" e re in
      done_err (set_lastErr (Some e') (set_phase PhaseRevertFailed c)) w e'
  | (w, None) =>
      let e' := Wrapf "commit failed, configuration restored: %w" [] e in
      done_err (set_lastErr (Some e') (set_phase PhaseReverted c)) w e'
  end.

(** From [c.phase = PhaseAwaitingConfirm] to the end of [Apply]. *)
Definition beginWindow (timeout : Z) (snap : Snapshot) (c : Coord) (w : W) : Outcome :=
  let c := set_phase PhaseAwaitingConfirm c in
  let '(w, tok) := newToken seams w in
  let '(w, t) := now seams w in
  let d := (t + timeout)%Z in
  let c := set_lastErr None (set_window timeout
             (set_token_deadline tok (Some d) (set_snapshot snap c))) in
  let '(c, w) :=
    match journal c with
    | None => (c, w)
    | Some j =>
        match save j (mkRecord (ID snap) tok d) w with
        | (w, Some e) =>
            (set_lastErr (Some (Wrapf
               "apply is live but not journalled, a restart will not undo it: %w" [] e)) c, w)
        | (w, None) => (c, w)
        end
    end in
  let w := afterFunc seams timeout tok w in
  done_ok (set_watchdog (Some tok) c) w.

Definition Apply (timeout : Z) (c : Coord) (w : W) : Outcome :=
  if decide (phase c = PhaseAwaitingConfirm) then done_err c w ErrApplyInFlight else
  match takeSnapshot applier w with
  | (w, Err e) =>
      let e' := Wrapf "snapshot before apply: %w" [] e in
      done_err (set_lastErr (Some e') (set_phase PhaseIdle c)) w e'
  | (w, Ok snap) =>
      let c := set_lastSnapshotID (ID snap) c in
      match commit applier w with
      | (w, Some e) => commitFailed (set_snapshot snap c) w snap e
      | (w, None) => beginWindow timeout snap c w
      end
  end.

(** [if c.watchdog != nil { c.watchdog.Stop(); c.watchdog = nil }] *)
Definition stopWatchdog (c : Coord) (w : W) : Coord * W :=
  match watchdog c with
  | Some t => (set_watchdog None c, stopTimer seams t w)
  | None => (c, w)
  end.

Definition Confirm (tok : string) (c : Coord) (w : W) : Outcome :=
  if decide (phase c <> PhaseAwaitingConfirm) then done_err c w ErrNoApplyInFlight else
  if decide (tok <> token c) then done_err c w ErrWrongToken else
  let '(c, w) := stopWatchdog c w in
  let c := set_snapshot noSnapshot (set_token_deadline "" None (set_phase PhaseConfirmed c)) in
  let '(c, w) := clearJournalLocked c w in
  done_ok c w.

(** [stage] runs under the lock and only stages: it is a step of the world. *)
Definition Stage (stage : W -> W * option err) (c : Coord) (w : W) : Coord * W * option err :=
  if decide (phase c = PhaseAwaitingConfirm) then (c, w, Some ErrApplyInFlight) else
  let '(w, e) := stage w in (c, w, e).

Definition Exclusive (fn : W -> W * option err) (c : Coord) (w : W) : Coord * W * option err :=
  let '(w, e) := fn w in (c, w, e).

Definition ApplyNow (stage : W -> W * option err) (c : Coord) (w : W) : Outcome :=
  if decide (phase c = PhaseAwaitingConfirm) then done_err c w ErrApplyInFlight else
  match stage w with
  | (w, Some e) => done_err c w e
  | (w, None) =>
      match takeSnapshot applier w with
      | (w, Err e) => done_err c w (Wrapf "snapshot before applying: %w" [] e)
      | (w, Ok snap) =>
          let c := set_lastSnapshotID (ID snap) c in
          match commit applier w with
          | (w, Some e) => commitFailed c w snap e
          | (w, None) => done_ok (set_lastErr None (set_phase PhaseIdle c)) w
          end
      end
  end.

Definition Revert (c : Coord) (w : W) : Outcome :=
  if decide (phase c <> PhaseAwaitingConfirm) then done_err c w ErrNoApplyInFlight else
  let '(c, w) := stopWatchdog c w in
  let '(c, w) := revertLocked c w in
  (c, w, (stateLocked c, lastErr c)).

Definition autoRevert (tok : string) (c : Coord) (w : W) : Coord * W :=
  if decide (phase c <> PhaseAwaitingConfirm \/ tok <> token c) then (c, w)
  else revertLocked (set_watchdog None c) w.

(** [(bool, error)]: whether anything was rolled back. *)
Definition RecoverPending (loader : SnapshotLoader W) (c : Coord) (w : W)
  : Coord * W * (bool * option err) :=
  match journal c with
  | None => (c, w, (false, None))
  | Some j =>
      match load j w with
      | (w, Err e) => (c, w, (false, Some (Wrapf "read pending apply: %w" [] e)))
      | (w, Ok None) => (c, w, (false, None))
      | (w, Ok (Some rec)) =>
          let c := set_lastSnapshotID (SnapshotID rec) c in
          match loadSnapshot loader (SnapshotID rec) w with
          | (w, Err e) =>
              let e' := Wrapf "pending apply %s cannot be undone, its snapshot is gone: %w" [SnapshotID rec] e in
              (set_lastErr (Some e') (set_phase PhaseRevertFailed c), w, (false, Some e'))
          | (w, Ok snap) =>
              match revertTo applier snap w with
              | (w, Some e) =>
                  let e' := Wrapf "undo pending apply %s after restart: %w" [SnapshotID rec] e in
                  (set_lastErr (Some e') (set_phase PhaseRevertFailed c), w, (false, Some e'))
              | (w, None) =>
                  match clear j w with
                  | (w, Some e) =>
                      (c, w, (true, Some (Wrapf "pending apply undone but the journal was not cleared: %w" [] e)))
                  | (w, None) => (set_phase PhaseReverted c, w, (true, None))
                  end
              end
          end
      end
  end.
End Coordinator.
