(* ===== verification/ApplySpec.v ===== *)
(** * What the apply transaction promises

    The laws of the world the coordinator works in ([TransactionWorld]), the
    system it forms with the timers it armed, the invariant of that system's
    reachable states, the abstract transaction it refines, and the theorems
    about reverting, confirming, late timers and restarts. *)

From S2P Require Import Prelude Apply.

(** ** The world's laws *)
Section World.
Context {W Config : Type}.

(** What is looked at in a world: the configuration the device runs, the
    record in the journal, the snapshots kept on disk, the tokens given out so
    far, and the texts the journal gives back as they were written. *)
Record Views := mkViews {
  live : W -> Config;
  record : W -> option ApplyRecord;
  kept : W -> string -> option Config;
  issued : W -> list string;
  captures : Snapshot -> Config -> Prop;
  texts : string -> Prop }.

Definition frame (v : Views) (w w' : W) : Prop :=
  live v w' = live v w /\ record v w' = record v w /\ issued v w' = issued v w.

(** A snapshot is of the live configuration and changes nothing; a revert
    that reports success brings the captured configuration back; the journal
    holds one record, replaced or removed whole; a token is a new one each
    time. Nothing is said about [commit]: it may leave any configuration. *)
Class TransactionWorld (v : Views) (applier : ConfigApplier W) (j : ApplyJournal W)
    (loader : SnapshotLoader W) (seams : Seams W) := {
  tw_snapshot w w' r : takeSnapshot applier w = (w', r) ->
    frame v w w' /\ (forall s, r = Ok s -> captures v s (live v w) /\ texts v (ID s));
  tw_commit w w' e : commit applier w = (w', e) ->
    record v w' = record v w /\ issued v w' = issued v w;
  tw_revert s w w' e : revertTo applier s w = (w', e) ->
    record v w' = record v w /\ issued v w' = issued v w /\
    (e = None -> forall cfg, captures v s cfg -> live v w' = cfg);
  tw_save r w w' e : texts v (SnapshotID r) -> texts v (Token r) -> save j r w = (w', e) ->
    live v w' = live v w /\ issued v w' = issued v w /\
    record v w' = match e with None => Some r | Some _ => record v w end;
  tw_load w w' r : load j w = (w', r) ->
    frame v w w' /\ kept v w' = kept v w /\ (forall o, r = Ok o -> o = record v w);
  tw_clear w w' e : clear j w = (w', e) ->
    live v w' = live v w /\ issued v w' = issued v w /\
    record v w' = match e with None => None | Some _ => record v w end;
  tw_loader i w w' r : loadSnapshot loader i w = (w', r) ->
    frame v w w' /\ (forall s cfg, r = Ok s -> kept v w i = Some cfg -> captures v s cfg);
  tw_now w w' t : now seams w = (w', t) -> frame v w w';
  tw_token w w' t : newToken seams w = (w', t) ->
    live v w' = live v w /\ record v w' = record v w /\
    issued v w' = t :: issued v w /\ (t ∉ issued v w) /\ t <> "" /\ texts v t;
  tw_after d t w : frame v w (afterFunc seams d t w);
  tw_stop t w : frame v w (stopTimer seams t w) }.
End World.
Arguments Views : clear implicits.

(** ** The abstract transaction *)
Section Spec.
Context (Config : Type).

(** [Settled]: nothing pending. [Trial saved running]: a change is live and
    will be undone to [saved]. [Stranded]: a revert failed. *)
Inductive Tx :=
| Settled (running : Config)
| Trial (saved running : Config)
| Stranded (running : Config).

Definition running (t : Tx) : Config :=
  match t with Settled r | Trial _ r | Stranded r => r end.

Inductive Label :=
| LApply | LApplyNow | LConfirm | LUndo | LQuiet
| LRestart (journalled : bool).

Definition is_trial (t : Tx) : Prop := match t with Trial _ _ => True | _ => False end.

Inductive tx_step : Tx -> Label -> Tx -> Prop :=
| tx_quiet t l : tx_step t l t
| tx_begin t new : ~ is_trial t -> tx_step t LApply (Trial (running t) new)
| tx_refused t l : ~ is_trial t -> l = LApply \/ l = LApplyNow -> tx_step t l (Settled (running t))
| tx_stranded t l new : ~ is_trial t -> l = LApply \/ l = LApplyNow -> tx_step t l (Stranded new)
| tx_now t new : ~ is_trial t -> tx_step t LApplyNow (Settled new)
| tx_keep a b : tx_step (Trial a b) LConfirm (Settled b)
| tx_undo a b : tx_step (Trial a b) LUndo (Settled a)
| tx_undo_failed a b new : tx_step (Trial a b) LUndo (Stranded new)
| tx_restart t jr new : tx_step t (LRestart true) (if (jr : bool) then Settled new else Stranded new)
| tx_forget t jr : tx_step t (LRestart jr) (Settled (running t)).
End Spec.
Arguments Settled {Config}. Arguments Trial {Config}. Arguments Stranded {Config}.
Arguments running {Config}. Arguments is_trial {Config}. Arguments tx_step {Config}.

(** ** The system: coordinator, world and armed timers *)
Section System.
Context {W Config : Type} (v : Views W Config).
Context (applier : ConfigApplier W) (j : ApplyJournal W) (loader : SnapshotLoader W) (seams : Seams W).

(** [armed]: the tokens of every timer this process ever armed, newest
    first; each may still fire at any moment, a stopped one included (its
    goroutine may already be waiting for the lock). [before]: the live
    configuration when the last window was opened. *)
Record Sys := mkSys {
  co : ApplyCoordinator W;
  wo : W;
  armed : list string;
  before : Config }.

Inductive Event :=
| EApply (timeout : Z)
| EApplyNow (stage : W -> W * option err)
| EStage (stage : W -> W * option err)
| EExclusive (fn : W -> W * option err)
| EConfirm (tok : string)
| ERevert
| EFire (tok : string)
| ERestart
| EWorld (f : W -> W).

(** The daemon's start: cmd/veilbridged builds the coordinator, gives it the
    journal and recovers. *)
Definition start (w : W) : ApplyCoordinator W * W * (bool * option err) :=
  RecoverPending applier loader (WithJournal j NewApplyCoordinator) w.

Inductive step : Sys -> Event -> Sys -> Prop :=
| step_apply s d c w r :
    Apply applier seams d (co s) (wo s) = (c, w, r) ->
    step s (EApply d)
      (match r.2 with
       | None => mkSys c w (token c :: armed s) (live v (wo s))
       | Some _ => mkSys c w (armed s) (before s)
       end)
| step_apply_now s stage c w r :
    (forall w, frame v w (stage w).1) ->
    ApplyNow applier stage (co s) (wo s) = (c, w, r) ->
    step s (EApplyNow stage) (mkSys c w (armed s) (before s))
| step_stage s stage c w e :
    (forall w, frame v w (stage w).1) ->
    Stage stage (co s) (wo s) = (c, w, e) ->
    step s (EStage stage) (mkSys c w (armed s) (before s))
| step_exclusive s fn c w e :
    (forall w, frame v w (fn w).1) ->
    Exclusive fn (co s) (wo s) = (c, w, e) ->
    step s (EExclusive fn) (mkSys c w (armed s) (before s))
| step_confirm s tok c w r :
    Confirm seams tok (co s) (wo s) = (c, w, r) ->
    step s (EConfirm tok) (mkSys c w (armed s) (before s))
| step_revert s c w r :
    Revert applier seams (co s) (wo s) = (c, w, r) ->
    step s ERevert (mkSys c w (armed s) (before s))
| step_fire s tok c w :
    tok ∈ armed s ->
    autoRevert applier tok (co s) (wo s) = (c, w) ->
    step s (EFire tok) (mkSys c w (armed s) (before s))
| step_restart s c w r :
    start (wo s) = (c, w, r) ->
    step s ERestart (mkSys c w [] (before s))
| step_world s f :
    frame v (wo s) (f (wo s)) ->
    step s (EWorld f) (mkSys (co s) (f (wo s)) (armed s) (before s)).

Definition initial (s : Sys) : Prop :=
  co s = WithJournal j NewApplyCoordinator /\ armed s = [].

Definition reachable (s : Sys) : Prop := exists s0 evs, initial s0 /\ run step s0 evs s.
End System.
Arguments mkSys {W Config}. Arguments co {W Config}. Arguments wo {W Config}.
Arguments armed {W Config}. Arguments before {W Config}.

(** ** Proofs *)
Section Proofs.
Context {W Config : Type} (v : Views W Config).
Context (applier : ConfigApplier W) (j : ApplyJournal W) (loader : SnapshotLoader W) (seams : Seams W).
Context {TW : TransactionWorld v applier j loader seams}.

Abbreviation Sys := (@Sys W Config).
Abbreviation step := (step v applier j loader seams).
Abbreviation reachable := (reachable v applier j loader seams).

Lemma frame_refl w : frame v w w.
Proof. done. Qed.

Lemma frame_trans w1 w2 w3 : frame v w1 w2 -> frame v w2 w3 -> frame v w1 w3.
Proof. unfold frame. intros (?&?&?) (?&?&?). split_and!; congruence. Qed.

(** Replaces every call to the world by what its law says. *)
Ltac laws :=
  repeat match goal with
  | H : takeSnapshot applier _ = _ |- _ => apply tw_snapshot in H as [? ?]
  | H : commit applier _ = _ |- _ => apply (tw_commit (TransactionWorld := TW)) in H as [? ?]
  | H : revertTo applier _ _ = _ |- _ => apply (tw_revert (TransactionWorld := TW)) in H as (? & ? & ?)
  | H : save j _ _ = _ |- _ => apply (tw_save (TransactionWorld := TW)) in H as (? & ? & ?); [|done..]
  | H : load j _ = _ |- _ => apply (tw_load (TransactionWorld := TW)) in H as (? & ? & ?)
  | H : clear j _ = _ |- _ => apply (tw_clear (TransactionWorld := TW)) in H as (? & ? & ?)
  | H : loadSnapshot loader _ _ = _ |- _ => apply (tw_loader (TransactionWorld := TW)) in H as [? ?]
  | H : now seams _ = _ |- _ => apply (tw_now (TransactionWorld := TW)) in H
  | H : newToken seams _ = _ |- _ => apply (tw_token (TransactionWorld := TW)) in H as (? & ? & ? & ? & ? & ?)
  | H : frame v _ _ |- _ => destruct H as (? & ? & ?)
  | H : forall s, Ok _ = Ok s -> _ /\ _ |- _ => destruct (H _ eq_refl); clear H
  | H : forall s, Ok _ = Ok s -> _ |- _ => specialize (H _ eq_refl)
  | H : None = None -> _ |- _ => specialize (H eq_refl)
  | H : Some _ = None -> _ |- _ => clear H
  end.

Lemma clearJournalLocked_spec c w c' w' :
  journal c = Some j -> clearJournalLocked c w = (c', w') ->
  live v w' = live v w /\ issued v w' = issued v w /\
  ((c' = c /\ (record v w' = None \/ lastErr c <> None)) \/
   exists e, c' = set_lastErr (Some e) c).
Proof.
  unfold clearJournalLocked. intros Hj H. rewrite Hj in H.
  break_in H; laws; split_and!; eauto.
Qed.

Lemma revertLocked_spec c w c' w' :
  journal c = Some j -> revertLocked applier c w = (c', w') ->
  journal c' = Some j /\ token c' = "" /\ deadline c' = None /\ watchdog c' = watchdog c /\
  lastSnapshotID c' = lastSnapshotID c /\ issued v w' = issued v w /\
  ((phase c' = PhaseReverted /\ (forall cfg, captures v (snapshot c) cfg -> live v w' = cfg)) \/
   (phase c' = PhaseRevertFailed /\ exists e, lastErr c' = Some e)).
Proof.
  unfold revertLocked. intros Hj H.
  destruct (revertTo applier (snapshot c) w) as [w1 [e|]] eqn:Hr; simplify_eq/=; laws.
  - split_and!; eauto.
  - apply clearJournalLocked_spec in H as (Hl & Hi & [[-> _]|[e ->]]); [..|done]; cbn;
      (split_and!; eauto; [congruence|]); left; split; eauto; intros cfg Hc;
      rewrite Hl; eauto.
Qed.

Lemma autoRevert_stale tok c w :
  phase c <> PhaseAwaitingConfirm \/ tok <> token c -> autoRevert applier tok c w = (c, w).
Proof. intros H. unfold autoRevert. by rewrite decide_True. Qed.

Lemma autoRevert_fires tok c w :
  phase c = PhaseAwaitingConfirm -> tok = token c ->
  autoRevert applier tok c w = revertLocked applier (set_watchdog None c) w.
Proof. intros H1 H2. unfold autoRevert. rewrite decide_False; [done|]. naive_solver. Qed.

(** The ways [Apply] ends when no change is pending. *)
Lemma Apply_spec d c w c' w' st oe :
  journal c = Some j -> phase c <> PhaseAwaitingConfirm ->
  Apply applier seams d c w = (c', w', (st, oe)) ->
  journal c' = Some j /\ st = stateLocked c' /\
  match oe with
  | None =>
      phase c' = PhaseAwaitingConfirm /\ captures v (snapshot c') (live v w) /\
      ID (snapshot c') = lastSnapshotID c' /\ watchdog c' = Some (token c') /\
      token c' <> "" /\ (token c' ∉ issued v w) /\ issued v w' = token c' :: issued v w /\
      (lastErr c' = None -> exists dl, record v w' = Some (mkRecord (lastSnapshotID c') (token c') dl))
  | Some e =>
      lastErr c' = Some e /\ token c' = token c /\ deadline c' = deadline c /\
      watchdog c' = watchdog c /\ issued v w' = issued v w /\ record v w' = record v w /\
      (((phase c' = PhaseIdle \/ phase c' = PhaseReverted) /\ live v w' = live v w) \/
       phase c' = PhaseRevertFailed)
  end.
Proof.
  intros Hj Hp. unfold Apply, commitFailed, beginWindow, done_err, done_ok.
  rewrite decide_False by done.
  destruct (takeSnapshot applier w) as [w1 [snap|e]] eqn:Hs; laws.
  2: { intros ?. simplify_eq/=. split_and!; eauto; congruence. }
  destruct (commit applier w1) as [w2 [e|]] eqn:Hc; laws.
  - destruct (revertTo applier snap w2) as [w3 [e2|]] eqn:Hr; laws; intros ?; simplify_eq/=;
      (split_and!; eauto; try congruence).
  - cbn. rewrite Hj.
    destruct (newToken seams w2) as [w3 tok] eqn:Ht.
    destruct (now seams w3) as [w4 t] eqn:Hn.
    destruct (save j _ w4) as [w5 [e|]] eqn:Hv; laws;
      pose proof (tw_after (TransactionWorld := TW) d tok w5) as (? & ? & ?);
      intros ?; simplify_eq/=; (split_and!; eauto; try congruence).
    intros _. exists (t + d)%Z. congruence.
Qed.

Lemma ApplyNow_spec stage c w c' w' st oe :
  journal c = Some j -> phase c <> PhaseAwaitingConfirm ->
  (forall w, frame v w (stage w).1) ->
  ApplyNow applier stage c w = (c', w', (st, oe)) ->
  journal c' = Some j /\ phase c' <> PhaseAwaitingConfirm /\ token c' = token c /\
  deadline c' = deadline c /\ watchdog c' = watchdog c /\
  issued v w' = issued v w /\ record v w' = record v w /\
  match oe with
  | None => phase c' = PhaseIdle /\ lastErr c' = None
  | Some _ => phase c' = PhaseRevertFailed \/ live v w' = live v w
  end.
Proof.
  intros Hj Hp Hst. unfold ApplyNow, commitFailed, done_err, done_ok.
  rewrite decide_False by done. specialize (Hst w).
  destruct (stage w) as [w0 [e|]]; cbn in Hst; laws.
  { intros ?; simplify_eq/=. split_and!; eauto. }
  destruct (takeSnapshot applier w0) as [w1 [snap|e]] eqn:Hs; laws.
  2: { intros ?; simplify_eq/=. split_and!; eauto; try congruence. right. congruence. }
  destruct (commit applier w1) as [w2 [e|]] eqn:Hc; laws.
  - destruct (revertTo applier snap w2) as [w3 [e2|]] eqn:Hr; laws; intros ?; simplify_eq/=;
      (split_and!; eauto; try congruence).
    right. transitivity (live v w0); eauto.
  - intros ?; simplify_eq/=. split_and!; eauto; congruence.
Qed.

Lemma Confirm_spec tok c w c' w' st oe :
  journal c = Some j -> Confirm seams tok c w = (c', w', (st, oe)) ->
  journal c' = Some j /\ live v w' = live v w /\ issued v w' = issued v w /\ st = stateLocked c' /\
  match oe with
  | Some _ => c' = c /\ w' = w
  | None =>
      phase c = PhaseAwaitingConfirm /\ tok = token c /\
      phase c' = PhaseConfirmed /\ token c' = "" /\ deadline c' = None /\ watchdog c' = None /\
      lastSnapshotID c' = lastSnapshotID c /\ (lastErr c' = None -> record v w' = None)
  end.
Proof.
  intros Hj. unfold Confirm, done_err, done_ok.
  destruct (decide (phase c <> PhaseAwaitingConfirm)) as [Hp|Hp];
    [intros ?; simplify_eq; split_and!; eauto|].
  destruct (decide (tok <> token c)) as [Ht|Ht]; [intros ?; simplify_eq; split_and!; eauto|].
  apply dec_stable in Hp, Ht.
  assert (exists w1, stopWatchdog seams c w = (set_watchdog None c, w1) /\ frame v w w1) as (w1 & -> & Hf).
  { unfold stopWatchdog. destruct (watchdog c) as [t|] eqn:Hw; eauto using tw_stop.
    exists w. split; [|done]. destruct c; cbn in *; by subst. }
  destruct (clearJournalLocked _ w1) as [c2 w2] eqn:Hc.
  apply clearJournalLocked_spec in Hc as (Hl & Hi & Hcase); [|done]. laws.
  intros ?; simplify_eq. destruct Hcase as [[-> [Hr|Hr]]|[e ->]]; cbn in *;
    (split_and!; eauto; try congruence; try done).
Qed.

Lemma start_spec w c w' r :
  start applier j loader w = (c, w', r) ->
  journal c = Some j /\ phase c <> PhaseAwaitingConfirm /\ token c = "" /\ deadline c = None /\
  watchdog c = None /\ issued v w' = issued v w /\
  match record v w with
  | None => live v w' = live v w /\ phase c = PhaseIdle /\ lastErr c = None
  | Some rec =>
      (live v w' = live v w /\ exists e, r.2 = Some e) \/
      (phase c = PhaseRevertFailed /\ exists e, r.2 = Some e) \/
      (r.1 = true /\ forall cfg, kept v w (SnapshotID rec) = Some cfg -> live v w' = cfg)
  end.
Proof.
  unfold start, RecoverPending. cbn.
  destruct (load j w) as [w1 [[rec|]|e]] eqn:Hl; laws.
  2: { intros ?; simplify_eq/=. split_and!; eauto. by match goal with H : None = _ |- _ => rewrite <- H end. }
  2: { intros ?; simplify_eq/=. split_and!; eauto. destruct (record v w); eauto. }
  match goal with H : Some rec = _ |- _ => rewrite <- H end.
  destruct (loadSnapshot loader (SnapshotID rec) w1) as [w2 [s|e]] eqn:Hs; laws.
  2: { intros ?; simplify_eq/=. split_and!; eauto. congruence. }
  destruct (revertTo applier s w2) as [w3 [e|]] eqn:Hr; laws.
  { intros ?; simplify_eq/=. split_and!; eauto. congruence. }
  destruct (clear j w3) as [w4 [e|]] eqn:Hc; laws; intros ?; simplify_eq/=;
    (split_and!; eauto; try congruence); right; right; (split; [done|]); intros cfg Hk;
    (transitivity (live v w3); [done|]); match goal with H : forall cfg, captures v s cfg -> _ |- _ => apply H end;
    match goal with H : forall s cfg, _ -> kept v w1 _ = _ -> _ |- _ => eapply H; [done|congruence] end.
Qed.

(** ** The invariant of the reachable states *)

Definition Inv (s : Sys) : Prop :=
  journal (co s) = Some j /\
  Forall (fun t => t <> "" /\ t ∈ issued v (wo s)) (armed s) /\ NoDup (armed s) /\
  match phase (co s) with
  | PhaseAwaitingConfirm =>
      captures v (snapshot (co s)) (before s) /\
      ID (snapshot (co s)) = lastSnapshotID (co s) /\
      watchdog (co s) = Some (token (co s)) /\
      (exists older, armed s = token (co s) :: older) /\
      (lastErr (co s) = None -> exists d,
         record v (wo s) = Some (mkRecord (lastSnapshotID (co s)) (token (co s)) d))
  | _ => token (co s) = "" /\ deadline (co s) = None /\ watchdog (co s) = None
  end.

Lemma Forall_issued_mono (l i1 i2 : list string) :
  (forall t, t ∈ i1 -> t ∈ i2) ->
  Forall (fun t => t <> "" /\ t ∈ i1) l -> Forall (fun t => t <> "" /\ t ∈ i2) l.
Proof. intros H Hl. eapply Forall_impl; [exact Hl|]. naive_solver. Qed.

Lemma Inv_initial s : initial j s -> Inv s.
Proof. intros [Hc Ha]. unfold Inv. rewrite Hc, Ha. cbn. split_and!; eauto; constructor. Qed.

(** The invariant holds after any step that leaves no change pending. *)
Lemma Inv_settled c w l b :
  journal c = Some j -> phase c <> PhaseAwaitingConfirm ->
  token c = "" -> deadline c = None -> watchdog c = None ->
  Forall (fun t => t <> "" /\ t ∈ issued v w) l -> NoDup l -> Inv (mkSys c w l b).
Proof. intros. unfold Inv. cbn. split_and!; eauto. destruct (phase c); done. Qed.

Lemma Inv_not_awaiting s :
  Inv s -> phase (co s) <> PhaseAwaitingConfirm ->
  token (co s) = "" /\ deadline (co s) = None /\ watchdog (co s) = None.
Proof. intros (_ & _ & _ & H) Hp. destruct (phase (co s)); done. Qed.

(** ... and after one that touches neither the coordinator nor the views. *)
Lemma Inv_frame s w :
  Inv s -> frame v (wo s) w -> Inv (mkSys (co s) w (armed s) (before s)).
Proof.
  intros (Hj & Ha & Hn & Hp) (Hl & Hr & Hi). unfold Inv. cbn. rewrite Hi, Hr. split_and!; auto.
Qed.

Lemma Inv_apply s d c w st oe :
  Inv s -> Apply applier seams d (co s) (wo s) = (c, w, (st, oe)) ->
  Inv (match oe with
       | None => mkSys c w (token c :: armed s) (live v (wo s))
       | Some _ => mkSys c w (armed s) (before s)
       end).
Proof.
  intros HI Ha. pose proof HI as (Hj & Hf & Hn & _).
  destruct (decide (phase (co s) = PhaseAwaitingConfirm)) as [Hp|Hp].
  { unfold Apply in Ha. rewrite decide_True in Ha by done. unfold done_err in Ha.
    simplify_eq. by destruct s. }
  pose proof (Inv_not_awaiting s HI Hp) as (Ht & Hd & Hw).
  pose proof (Apply_spec d _ _ _ _ _ _ Hj Hp Ha) as (Hj' & _ & H). destruct oe as [e|].
  - destruct H as (_ & Et & Ed & Ew & Ei & _ & Hcase). apply Inv_settled; try congruence.
    + destruct Hcase as [[[->| ->] _]| ->]; done.
    + by rewrite Ei.
  - destruct H as (Ep & Hcap & Hid & Hwd & Hne & Hfresh & Ei & Hrec).
    unfold Inv. cbn. rewrite Ep, Ei. split_and!; eauto.
    + constructor; [split; [done|left]|]. eapply Forall_issued_mono; [|exact Hf]. by right.
    + constructor; [|done]. intros Hin. rewrite Forall_forall in Hf.
      apply Hf in Hin as [_ Hin]. done.
Qed.

Lemma Inv_reverted s c0 w0 c w :
  Inv s -> journal c0 = Some j -> watchdog c0 = None -> issued v w0 = issued v (wo s) ->
  revertLocked applier c0 w0 = (c, w) -> Inv (mkSys c w (armed s) (before s)).
Proof.
  intros (_ & Hf & Hn & _) Hj Hw Hi Hr.
  apply revertLocked_spec in Hr as (Hj' & Ht & Hd & Hwd & _ & Ei & Hcase); [|done].
  apply Inv_settled; try congruence; [|by rewrite Ei, Hi].
  destruct Hcase as [[-> _]|[-> _]]; done.
Qed.

Lemma Inv_step s e s' : Inv s -> step s e s' -> Inv s'.
Proof.
  intros HI Hs. pose proof HI as (Hj & Hf & Hn & Hph).
  destruct Hs as [s d c w [st oe] H|s stage c w [st oe] Hst H|s stage c w e Hst H
                 |s fn c w e Hst H|s tok c w [st oe] H|s c w r H|s tok c w Hin H|s c w r H|s f H].
  - by apply Inv_apply in H.
  - destruct (decide (phase (co s) = PhaseAwaitingConfirm)) as [Hp|Hp].
    { unfold ApplyNow, done_err in H. rewrite decide_True in H by done. simplify_eq. by destruct s. }
    pose proof (Inv_not_awaiting s HI Hp) as (Ht & Hd & Hw).
    apply ApplyNow_spec in H as (Hj' & Hp' & Et & Ed & Ew & Ei & _ & _); try done.
    apply Inv_settled; try congruence. by rewrite Ei.
  - unfold Stage in H. destruct (decide _); simplify_eq; [by destruct s|].
    specialize (Hst (wo s)). destruct (stage (wo s)); simplify_eq/=. by apply Inv_frame.
  - unfold Exclusive in H. specialize (Hst (wo s)). destruct (fn (wo s)); simplify_eq/=.
    by apply Inv_frame.
  - apply Confirm_spec in H as (Hj' & _ & Ei & _ & H); [|done]. destruct oe as [e|].
    { destruct H as [-> ->]. by destruct s. }
    destruct H as (_ & _ & Hp & Ht & Hd & Hw & _). apply Inv_settled; try congruence; by rewrite ?Hp, ?Ei.
  - unfold Revert, done_err in H. destruct (decide _) as [|Hp]; [simplify_eq; by destruct s|].
    destruct (stopWatchdog seams (co s) (wo s)) as [c1 w1] eqn:E1.
    destruct (revertLocked applier c1 w1) as [c2 w2] eqn:E2. simplify_eq.
    unfold stopWatchdog in E1. apply dec_stable in Hp. rewrite Hp in Hph.
    destruct Hph as (_ & _ & Hwd & _). rewrite Hwd in E1. simplify_eq.
    eapply Inv_reverted; [exact HI| | | |exact E2]; try done. apply tw_stop.
  - destruct (decide (phase (co s) = PhaseAwaitingConfirm /\ tok = token (co s))) as [[Hp Ht]|Hp].
    + rewrite autoRevert_fires in H by done. eapply Inv_reverted; [exact HI| | | |exact H]; done.
    + rewrite autoRevert_stale in H by (destruct (decide (phase (co s) = PhaseAwaitingConfirm)); naive_solver).
      simplify_eq. by destruct s.
  - apply start_spec in H as (? & ? & ? & ? & ? & _). apply Inv_settled; try done; constructor.
  - by apply Inv_frame.
Qed.

Lemma reachable_Inv s : reachable s -> Inv s.
Proof.
  intros (s0 & evs & H0 & Hr). eapply (run_invariant step Inv); [by apply Inv_initial| |done].
  intros. by eapply Inv_step.
Qed.

(** *** A token is one transaction's *)

Lemma step_issued s e s' t : Inv s -> step s e s' -> t ∈ issued v (wo s) -> t ∈ issued v (wo s').
Proof.
  intros HI Hs Hin. pose proof HI as (Hj & _ & _ & Hph).
  destruct Hs as [s d c w [st oe] H|s stage c w [st oe] Hst H|s stage c w e Hst H
                 |s fn c w e Hst H|s tok c w [st oe] H|s c w r H|s tok c w Hin' H|s c w r H|s f H].
  - destruct (decide (phase (co s) = PhaseAwaitingConfirm)) as [Hp|Hp].
    { unfold Apply, done_err in H. rewrite decide_True in H by done. by simplify_eq. }
    apply Apply_spec in H as (_ & _ & H); [|done..]. destruct oe; cbn.
    + destruct H as (_ & _ & _ & _ & -> & _). done.
    + destruct H as (_ & _ & _ & _ & _ & _ & -> & _). by right.
  - destruct (decide (phase (co s) = PhaseAwaitingConfirm)) as [Hp|Hp].
    { unfold ApplyNow, done_err in H. rewrite decide_True in H by done. by simplify_eq. }
    apply ApplyNow_spec in H as (_ & _ & _ & _ & _ & Ei & _); [|done..]. cbn. by rewrite Ei.
  - unfold Stage in H. destruct (decide _); simplify_eq; [done|].
    destruct (Hst (wo s)) as (_ & _ & Ei). destruct (stage (wo s)); simplify_eq/=. by rewrite Ei.
  - unfold Exclusive in H. destruct (Hst (wo s)) as (_ & _ & Ei).
    destruct (fn (wo s)); simplify_eq/=. by rewrite Ei.
  - apply Confirm_spec in H as (_ & _ & Ei & _); [|done]. cbn. by rewrite Ei.
  - unfold Revert, done_err in H. destruct (decide _) as [|Hp]; [by simplify_eq|].
    destruct (stopWatchdog seams (co s) (wo s)) as [c1 w1] eqn:E1.
    destruct (revertLocked applier c1 w1) as [c2 w2] eqn:E2. simplify_eq/=.
    apply dec_stable in Hp. rewrite Hp in Hph. destruct Hph as (_ & _ & Hwd & _).
    unfold stopWatchdog in E1. rewrite Hwd in E1. simplify_eq.
    apply revertLocked_spec in E2 as (_ & _ & _ & _ & _ & -> & _); [|done].
    destruct (tw_stop (TransactionWorld := TW) (token (co s)) (wo s)) as (_ & _ & ->). done.
  - destruct (decide (phase (co s) = PhaseAwaitingConfirm /\ tok = token (co s))) as [[Hp Ht]|Hp].
    + rewrite autoRevert_fires in H by done.
      apply revertLocked_spec in H as (_ & _ & _ & _ & _ & Ei & _); [|done]. cbn. by rewrite Ei.
    + rewrite autoRevert_stale in H by (destruct (decide (phase (co s) = PhaseAwaitingConfirm)); naive_solver).
      by simplify_eq.
  - apply start_spec in H as (_ & _ & _ & _ & _ & Ei & _). cbn. by rewrite Ei.
  - destruct H as (_ & _ & Ei). cbn. by rewrite Ei.
Qed.

(** A step into a pending transaction begins it with a new token, or was
    already in it. *)
Lemma step_into_pending s e s' :
  Inv s -> step s e s' -> phase (co s') = PhaseAwaitingConfirm ->
  (token (co s') ∉ issued v (wo s)) \/
  (phase (co s) = PhaseAwaitingConfirm /\ token (co s') = token (co s) /\ before s' = before s /\
   lastSnapshotID (co s') = lastSnapshotID (co s)).
Proof.
  intros HI Hs Hp'. pose proof HI as (Hj & _ & _ & Hph).
  destruct Hs as [s d c w [st oe] H|s stage c w [st oe] Hst H|s stage c w e Hst H
                 |s fn c w e Hst H|s tok c w [st oe] H|s c w r H|s tok c w Hin' H|s c w r H|s f H].
  - destruct (decide (phase (co s) = PhaseAwaitingConfirm)) as [Hp|Hp].
    { unfold Apply, done_err in H. rewrite decide_True in H by done. simplify_eq. by right. }
    apply Apply_spec in H as (_ & _ & H); [|done..]. destruct oe; cbn in *.
    + destruct H as (_ & _ & _ & _ & _ & _ & [[[E|E] _]|E]); congruence.
    + destruct H as (_ & _ & _ & _ & _ & ? & _). by left.
  - destruct (decide (phase (co s) = PhaseAwaitingConfirm)) as [Hp|Hp].
    { unfold ApplyNow, done_err in H. rewrite decide_True in H by done. simplify_eq. by right. }
    apply ApplyNow_spec in H as (_ & ? & _); done.
  - unfold Stage in H. destruct (decide _); simplify_eq; [by right|].
    by destruct (stage (wo s)); simplify_eq/=.
  - unfold Exclusive in H. destruct (fn (wo s)); simplify_eq/=. by right.
  - apply Confirm_spec in H as (_ & _ & _ & _ & H); [|done]. destruct oe; cbn in *.
    + destruct H as [-> ->]. by right.
    + destruct H as (_ & _ & E & _). congruence.
  - unfold Revert, done_err in H. destruct (decide _) as [|Hp]; [simplify_eq; done|].
    destruct (stopWatchdog seams (co s) (wo s)) as [c1 w1] eqn:E1.
    destruct (revertLocked applier c1 w1) as [c2 w2] eqn:E2. simplify_eq/=.
    assert (journal c1 = Some j) as Hj1 by (unfold stopWatchdog in E1; destruct (watchdog _); by simplify_eq).
    apply revertLocked_spec in E2 as (_ & _ & _ & _ & _ & _ & [[E _]|[E _]]); [congruence..|done].
  - destruct (decide (phase (co s) = PhaseAwaitingConfirm /\ tok = token (co s))) as [[Hp Ht]|Hp].
    + rewrite autoRevert_fires in H by done.
      apply revertLocked_spec in H as (_ & _ & _ & _ & _ & _ & [[E _]|[E _]]); cbn in *; congruence.
    + rewrite autoRevert_stale in H by (destruct (decide (phase (co s) = PhaseAwaitingConfirm)); naive_solver).
      simplify_eq. by right.
  - apply start_spec in H as (_ & ? & _). done.
  - by right.
Qed.
End Proofs.
