(* ===== verification/ApplyThms.v ===== *)
(** * The theorems of the apply transaction, and a world they hold in

    Every theorem is about the reachable states of the system of ApplySpec.v;
    [Mem] is a world kept in memory, with switches that make each operation
    fail, and the witnesses run the coordinator in it. *)

From S2P Require Import Prelude GoStrings Apply ApplySpec.

Section Theorems.
Context {W Config : Type} (v : Views W Config).
Context (applier : ConfigApplier W) (j : ApplyJournal W) (loader : SnapshotLoader W) (seams : Seams W).
Context {TW : TransactionWorld v applier j loader seams}.

Abbreviation Sys := (@Sys W Config).
Abbreviation step := (step v applier j loader seams).
Abbreviation reachable := (reachable v applier j loader seams).

(** Along a run, a pending transaction with the token of an earlier state is
    that state's transaction. *)
Lemma run_same_transaction s evs s' :
  Inv v j s -> phase (co s) = PhaseAwaitingConfirm -> run step s evs s' ->
  token (co s) ∈ issued v (wo s') /\
  (phase (co s') = PhaseAwaitingConfirm -> token (co s') = token (co s) -> before s' = before s).
Proof.
  intros HI Hp Hr. assert (Inv v j s') as HI'.
  { eapply (run_invariant step (Inv v j)); [exact HI| |exact Hr]. intros. by eapply Inv_step. }
  clear HI'. induction Hr as [s|s ls t l u Hr IH Hst].
  - split; [|done]. destruct HI as (_ & Hf & _ & H). rewrite Hp in H.
    destruct H as (_ & _ & _ & (older & E) & _). rewrite E, Forall_cons in Hf. naive_solver.
  - specialize (IH HI Hp) as [Hin Hb].
    assert (Inv v j t) as HIt.
    { eapply (run_invariant step (Inv v j)); [exact HI| |exact Hr]. intros. by eapply Inv_step. }
    split; [by eapply step_issued|]. intros Hp' Ht'.
    eapply step_into_pending in Hst as [Hfr|(Hp1 & Et & Eb & _)]; [| |done..].
    + exfalso. apply Hfr. by rewrite Ht'.
    + rewrite Eb. apply Hb; congruence.
Qed.

(** ... and a transaction that has ended never has its token pending again. *)
Lemma run_ended_transaction s evs s' t :
  Inv v j s -> t ∈ issued v (wo s) ->
  (phase (co s) = PhaseAwaitingConfirm -> token (co s) <> t) -> run step s evs s' ->
  phase (co s') = PhaseAwaitingConfirm -> token (co s') <> t.
Proof.
  intros HI Hin Hne Hr.
  assert (Inv v j s' /\ t ∈ issued v (wo s') /\
          (phase (co s') = PhaseAwaitingConfirm -> token (co s') <> t)) as (_ & _ & H); [|exact H].
  eapply (run_invariant step (fun x => Inv v j x /\ t ∈ issued v (wo x) /\
    (phase (co x) = PhaseAwaitingConfirm -> token (co x) <> t))); [done| |exact Hr].
  intros a l b (Ha & Hia & Hna) Hst. split_and!; [by eapply Inv_step|by eapply step_issued|].
  intros Hp. eapply step_into_pending in Hst as [Hfr|(Hp1 & Et & _)]; [| |done..].
  - intros E. apply Hfr. by rewrite E.
  - intros E. apply (Hna Hp1). congruence.
Qed.

(** Undoing the pending change, by the button or by its timer, brings back what
    was live before it, or says why not. *)
Lemma undo_restores s e s' :
  Inv v j s -> phase (co s) = PhaseAwaitingConfirm -> e = ERevert \/ e = EFire (token (co s)) -> step s e s' ->
  (phase (co s') = PhaseReverted /\ live v (wo s') = before s) \/
  (phase (co s') = PhaseRevertFailed /\ exists err, lastErr (co s') = Some err).
Proof.
  intros (Hj & _ & _ & Hph) Hp He Hs. rewrite Hp in Hph. destruct Hph as (Hcap & _ & Hwd & _).
  assert (exists c0 w0, revertLocked applier c0 w0 = (co s', wo s') /\ journal c0 = Some j /\
            snapshot c0 = snapshot (co s)) as (c0 & w0 & E & Hj0 & Hsn).
  { destruct He as [-> | ->]; inversion Hs; subst; cbn.
    - unfold Revert, stopWatchdog in *. rewrite decide_False in * by naive_solver.
      rewrite Hwd in *. destruct (revertLocked applier _ _) eqn:Er in *; simplify_eq/=. eauto.
    - rewrite autoRevert_fires in * by done. eauto. }
  eapply (revertLocked_spec v applier j loader seams) in E as (_ & _ & _ & _ & _ & _ & [[-> Hl]|[-> He']]); [..|done]; eauto.
  left. split; [done|]. apply Hl. by rewrite Hsn.
Qed.

(** A change that is pending remembers what was live before it. *)
Lemma apply_remembers s d s' :
  Inv v j s -> phase (co s) <> PhaseAwaitingConfirm -> step s (EApply d) s' -> phase (co s') = PhaseAwaitingConfirm ->
  before s' = live v (wo s).
Proof.
  intros HI Hn Ha Hp. inversion Ha as [? ? c w [st oe] HA| | | | | | | |]; subst.
  apply (Apply_spec v applier j loader seams) in HA as (_ & _ & HA); [|apply HI|done].
  destruct oe; [|done]. cbn in *. destruct HA as (_ & _ & _ & _ & _ & _ & [[[E|E] _]|E]); congruence.
Qed.

(** Any other event leaves it pending. *)
Lemma pending_stays s e s' :
  Inv v j s -> phase (co s) = PhaseAwaitingConfirm -> step s e s' ->
  (phase (co s') = PhaseAwaitingConfirm /\ token (co s') = token (co s)) \/
  e = EConfirm (token (co s)) \/ e = ERevert \/ e = EFire (token (co s)) \/ e = ERestart.
Proof.
  intros HI Hp Hs. destruct Hs as [s d c w r H|s stage c w r Hst H|s stage c w e Hst H
                 |s fn c w e Hst H|s tok c w r H|s c w r H|s tok c w Hin' H|s c w r H|s f H]; auto.
  - unfold Apply, done_err in H. rewrite decide_True in H by done. simplify_eq/=. by left.
  - unfold ApplyNow, done_err in H. rewrite decide_True in H by done. simplify_eq/=. by left.
  - unfold Stage in H. rewrite decide_True in H by done. simplify_eq/=. by left.
  - unfold Exclusive in H. destruct (fn (wo s)); simplify_eq/=. by left.
  - unfold Confirm, done_err in H. rewrite decide_False in H by naive_solver.
    destruct (decide (tok <> token (co s))) as [Hne|Heq%dec_stable]; [simplify_eq/=; by left|].
    subst tok. auto.
  - destruct (decide (tok = token (co s))) as [->|Hne]; [by auto|].
    rewrite autoRevert_stale in H by auto. simplify_eq/=. by left.
Qed.

(** ... and these end it. *)
Lemma ending_ends s e s' :
  Inv v j s -> phase (co s) = PhaseAwaitingConfirm -> step s e s' ->
  e = EConfirm (token (co s)) \/ e = ERevert \/ e = EFire (token (co s)) \/ e = ERestart ->
  phase (co s') <> PhaseAwaitingConfirm.
Proof.
  intros HI Hp Hs [-> | [-> | [-> | ->]]].
  - inversion Hs as [| | | |? ? c w [st oe] H| | | |]; subst.
    pose proof H as Hc. cbn. apply (Confirm_spec v applier j loader seams) in Hc as (_ & _ & _ & _ & Hc); [|apply HI].
    destruct oe; [exfalso|cbn; by destruct Hc as (_ & _ & -> & _)].
    unfold Confirm, done_ok in H. rewrite !decide_False in H by naive_solver.
    destruct (stopWatchdog _ _ _), (clearJournalLocked _ _). congruence.
  - destruct (undo_restores _ _ _ HI Hp (or_introl eq_refl) Hs) as [[-> _]|[-> _]]; discriminate.
  - destruct (undo_restores _ _ _ HI Hp (or_intror eq_refl) Hs) as [[-> _]|[-> _]]; discriminate.
  - inversion Hs as [| | | | | | |? c w r H|]; subst. by apply (start_spec v applier j loader seams) in H as (_ & ? & _).
Qed.

(** C1. The safety net. Take a change applied from any reachable state and
    any run after it in which that change is still the pending one (refused
    applies, stagings, wrong tokens, late timers, anything the environment
    does). Undoing it then, by the undo button or by the watchdog, brings
    back exactly the configuration that was live before the change, or says
    that the revert failed and why. *)
Theorem revert_restores_configuration s0 d s1 evs s2 e s3 :
  reachable s0 -> phase (co s0) <> PhaseAwaitingConfirm ->
  step s0 (EApply d) s1 -> phase (co s1) = PhaseAwaitingConfirm ->
  run step s1 evs s2 ->
  phase (co s2) = PhaseAwaitingConfirm -> token (co s2) = token (co s1) ->
  e = ERevert \/ e = EFire (token (co s2)) -> step s2 e s3 ->
  (phase (co s3) = PhaseReverted /\ live v (wo s3) = live v (wo s0)) \/
  (phase (co s3) = PhaseRevertFailed /\ exists err, lastErr (co s3) = Some err).
Proof.
  intros H0 Hn0 Ha Hp1 Hr Hp2 Ht He Hs.
  pose proof (reachable_Inv _ _ _ _ _ _ H0) as HI0.
  pose proof (Inv_step _ _ _ _ _ _ _ _ HI0 Ha) as HI1.
  assert (Inv v j s2) as HI2.
  { eapply (run_invariant step (Inv v j)); [exact HI1| |exact Hr]. intros. by eapply Inv_step. }
  assert (before s2 = live v (wo s0)) as <-.
  { rewrite (proj2 (run_same_transaction _ _ _ HI1 Hp1 Hr) Hp2 Ht). by eapply apply_remembers. }
  by eapply undo_restores.
Qed.

(** A late timer. Once a pending transaction has ended - confirmed, undone
    or given up - its timer may still fire (it may have been waiting for the
    lock when it was stopped), at any later moment, with later transactions
    pending or not: it changes nothing. *)
Theorem late_timer_changes_nothing s1 e s2 evs s3 s4 :
  reachable s1 -> phase (co s1) = PhaseAwaitingConfirm ->
  step s1 e s2 -> phase (co s2) <> PhaseAwaitingConfirm ->
  run step s2 evs s3 -> step s3 (EFire (token (co s1))) s4 -> s4 = s3.
Proof.
  intros H1 Hp1 Hs Hn2 Hr Hf. pose proof (reachable_Inv _ _ _ _ _ _ H1) as HI1.
  pose proof (Inv_step _ _ _ _ _ _ _ _ HI1 Hs) as HI2.
  assert (token (co s1) ∈ issued v (wo s2)) as Hin.
  { eapply (step_issued v applier j loader seams); [exact HI1|exact Hs|]. destruct HI1 as (_ & Hf1 & _ & H).
    rewrite Hp1 in H. destruct H as (_ & _ & _ & (older & E) & _).
    rewrite E, Forall_cons in Hf1. naive_solver. }
  pose proof (run_ended_transaction s2 evs s3 (token (co s1)) HI2 Hin ltac:(done) Hr) as Hne.
  inversion Hf as [| | | | | |? tok c w Hin3 HA| |]; subst.
  rewrite autoRevert_stale in HA.
  - simplify_eq. by destruct s3.
  - destruct (decide (phase (co s3) = PhaseAwaitingConfirm)) as [Hp|Hp]; [right|by left].
    intros E. by apply (Hne Hp).
Qed.

(** The transaction of a token is pending. *)
Definition awaits (t : string) (s : Sys) : Prop := phase (co s) = PhaseAwaitingConfirm /\ token (co s) = t.

(** Along a run a pending change is still there, its timer not fired, or there
    was an event that ended it. *)
Lemma run_awaits_or_ends s evs s' t :
  Inv v j s -> awaits t s -> run step s evs s' ->
  (awaits t s' /\ EFire t ∉ evs) \/
  exists evs1 a e b evs2, evs = evs1 ++ e :: evs2 /\ run step s evs1 a /\ awaits t a /\ step a e b /\
    run step b evs2 s' /\ (e = EConfirm t \/ e = ERevert \/ e = EFire t \/ e = ERestart).
Proof.
  intros HI Hp Hr. induction Hr as [s|s ls b l u Hr IH Hst]; [left; split; [done|apply not_elem_of_nil]|].
  destruct (IH HI Hp) as [[[Hpb Htb] Hnot]|(evs1 & a & e & b' & evs2 & -> & H1 & H2 & H3 & H4 & H5)].
  - assert (Inv v j b) as HIb.
    { eapply (run_invariant step (Inv v j)); [exact HI| |exact Hr]. intros. by eapply Inv_step. }
    destruct (pending_stays _ _ _ HIb Hpb Hst) as [[H1 H2]|H].
    + left. split; [split; congruence|]. rewrite elem_of_app, list_elem_of_singleton. intros [H|H]; [done|].
      eapply ending_ends; [exact HIb|exact Hpb|exact Hst| |exact H1]. rewrite Htb, H. auto.
    + right. exists ls, b, l, u, []. rewrite Htb in H. split_and!; try done. apply run_nil.
  - right. exists evs1, a, e, b', (evs2 ++ [l]). rewrite <- app_assoc. split_and!; try done. by eapply run_snoc.
Qed.


(** The watchdog is never forgotten: whenever a change is pending, the
    timer armed for it is there to fire, and firing it ends the transaction
    with the snapshot restored or with the failure on record. *)
Theorem pending_change_has_watchdog s :
  reachable s -> phase (co s) = PhaseAwaitingConfirm ->
  exists s', step s (EFire (token (co s))) s' /\
    (phase (co s') = PhaseReverted \/ phase (co s') = PhaseRevertFailed) /\
    token (co s') = "" /\ deadline (co s') = None.
Proof.
  intros H Hp. pose proof (reachable_Inv _ _ _ _ _ _ H) as (Hj & _ & _ & Hph).
  rewrite Hp in Hph. destruct Hph as (_ & _ & _ & (older & E) & _).
  destruct (autoRevert applier (token (co s)) (co s) (wo s)) as [c w] eqn:Ea.
  exists (mkSys c w (armed s) (before s)). split.
  - constructor; [rewrite E; left|done].
  - rewrite autoRevert_fires in Ea by done.
    apply (revertLocked_spec v applier j loader seams) in Ea as (_ & Ht & Hd & _ & _ & _ & Hc); [|done].
    cbn. split_and!; try done. naive_solver.
Qed.

(** An apply that answers with an error - Apply or ApplyNow, from any
    reachable state, whichever call to the device failed - either left the
    running configuration as it was or says that the revert failed. *)
Theorem failed_apply_leaves_configuration s e s' c w st er :
  reachable s ->
  (exists d, e = EApply d /\ Apply applier seams d (co s) (wo s) = (c, w, (st, Some er))) \/
  (exists stage, e = EApplyNow stage /\ (forall w, frame v w (stage w).1) /\
     ApplyNow applier stage (co s) (wo s) = (c, w, (st, Some er))) ->
  step s e s' ->
  live v (wo s') = live v (wo s) \/
  (phase (co s') = PhaseRevertFailed /\ phase (co s) <> PhaseAwaitingConfirm).
Proof.
  intros H He Hs. pose proof (reachable_Inv _ _ _ _ _ _ H) as (Hj & _).
  destruct (decide (phase (co s) = PhaseAwaitingConfirm)) as [Hp|Hp].
  { left. destruct He as [(d & -> & HA)|(stage & -> & Hst & HA)]; inversion Hs; subst.
    - unfold Apply, done_err in *. rewrite decide_True in * by done. by simplify_eq/=.
    - unfold ApplyNow, done_err in *. rewrite decide_True in * by done. by simplify_eq/=. }
  destruct He as [(d & -> & HA)|(stage & -> & Hst & HA)].
  - inversion Hs as [? ? c' w' r HA'| | | | | | | |]; subst. rewrite HA in HA'. simplify_eq/=.
    apply (Apply_spec v applier j loader seams) in HA as (_ & _ & HA); [|done..]. naive_solver.
  - inversion Hs as [|? ? c' w' r _ HA'| | | | | | |]; subst. rewrite HA in HA'. simplify_eq/=.
    apply (ApplyNow_spec v applier j loader seams) in HA as (_ & _ & _ & _ & _ & _ & _ & HA); [|done..].
    naive_solver.
Qed.

(** The abstract state of a system. *)
Definition abs (s : Sys) : Tx Config :=
  match phase (co s) with
  | PhaseAwaitingConfirm => Trial (before s) (live v (wo s))
  | PhaseRevertFailed => Stranded (live v (wo s))
  | _ => Settled (live v (wo s))
  end.

Definition label (s : Sys) (e : @Event W) : Label :=
  match e with
  | EApply _ => LApply
  | EApplyNow _ => LApplyNow
  | EConfirm _ => LConfirm
  | ERevert | EFire _ => LUndo
  | ERestart => LRestart (match record v (wo s) with Some _ => true | None => false end)
  | EStage _ | EExclusive _ | EWorld _ => LQuiet
  end.

Lemma abs_nontrial s : phase (co s) <> PhaseAwaitingConfirm -> ~ is_trial (abs s).
Proof. unfold abs. destruct (phase (co s)); naive_solver. Qed.

Lemma abs_running s : running (abs s) = live v (wo s).
Proof. unfold abs. by destruct (phase (co s)). Qed.

Lemma abs_settled_or_stranded s :
  phase (co s) <> PhaseAwaitingConfirm ->
  (abs s = Settled (live v (wo s)) /\ phase (co s) <> PhaseRevertFailed) \/
  (abs s = Stranded (live v (wo s)) /\ phase (co s) = PhaseRevertFailed).
Proof. unfold abs. destruct (phase (co s)); naive_solver. Qed.

Lemma abs_frame s w :
  frame v (wo s) w -> abs (mkSys (co s) w (armed s) (before s)) = abs s.
Proof. intros (E & _). unfold abs. cbn. by rewrite E. Qed.

Lemma abs_same s : abs (mkSys (co s) (wo s) (armed s) (before s)) = abs s.
Proof. by apply abs_frame. Qed.

Lemma simulate_revert s c0 w0 c w :
  Inv v j s -> phase (co s) = PhaseAwaitingConfirm -> journal c0 = Some j ->
  snapshot c0 = snapshot (co s) -> revertLocked applier c0 w0 = (c, w) ->
  tx_step (abs s) LUndo (abs (mkSys c w (armed s) (before s))).
Proof.
  intros (_ & _ & _ & Hph) Hp Hj Hsn Hr. rewrite Hp in Hph. destruct Hph as (Hcap & _).
  apply (revertLocked_spec v applier j loader seams) in Hr as (_ & _ & _ & _ & _ & _ & Hc); [|done].
  unfold abs at 1. rewrite Hp. unfold abs. cbn.
  destruct Hc as [[-> Hl]|[-> _]]; [|apply tx_undo_failed].
  rewrite (Hl (before s)) by (by rewrite Hsn). apply tx_undo.
Qed.

(** C2. Refinement: the coordinator with its journal, timers and world
    implements the abstract transaction. One change at a time is on trial;
    an apply during a trial changes nothing; confirming keeps what runs,
    undoing brings back what was saved or strands the device and says so;
    staging and the environment are invisible; and a restart changes what
    runs only when the journal holds a record. *)
Theorem coordinator_refines_transaction s e s' :
  reachable s -> step s e s' -> tx_step (abs s) (label s e) (abs s').
Proof.
  intros H Hs. pose proof (reachable_Inv _ _ _ _ _ _ H) as HI. pose proof HI as (Hj & _ & _ & Hph).
  destruct Hs as [s d c w [st oe] HA|s stage c w [st oe] Hst HA|s stage c w e Hst HA
                 |s fn c w e Hst HA|s tok c w [st oe] HA|s c w r HA|s tok c w Hin HA|s c w r HA|s f HA];
    cbn [label].
  - destruct (decide (phase (co s) = PhaseAwaitingConfirm)) as [Hp|Hp].
    { unfold Apply, done_err in HA. rewrite decide_True in HA by done. simplify_eq/=.
      rewrite abs_same. constructor. }
    apply (Apply_spec v applier j loader seams) in HA as (_ & _ & HA); [|done..].
    pose proof (abs_nontrial s Hp) as Hnt. destruct oe as [e|]; cbn.
    + destruct HA as (_ & _ & _ & _ & _ & _ & [[Hc El]|Ep]); unfold abs at 2; cbn.
      * rewrite El, <- abs_running. destruct Hc as [-> | ->]; constructor; auto.
      * rewrite Ep. constructor; auto.
    + destruct HA as (Ep & _). unfold abs at 2. cbn. rewrite Ep, <- abs_running. by constructor.
  - destruct (decide (phase (co s) = PhaseAwaitingConfirm)) as [Hp|Hp].
    { unfold ApplyNow, done_err in HA. rewrite decide_True in HA by done. simplify_eq/=.
      rewrite abs_same. constructor. }
    apply (ApplyNow_spec v applier j loader seams) in HA as (_ & Hp' & _ & _ & _ & _ & _ & HA); [|done..].
    pose proof (abs_nontrial s Hp) as Hnt.
    destruct (abs_settled_or_stranded (mkSys c w (armed s) (before s)) Hp') as [[-> Er]|[-> Er]]; cbn in *.
    + destruct oe as [e|]; [destruct HA as [HA|HA]; [congruence|]|by constructor].
      rewrite HA, <- abs_running. constructor; auto.
    + constructor; auto.
  - unfold Stage in HA. destruct (decide _); simplify_eq; [rewrite abs_same; constructor|].
    specialize (Hst (wo s)). destruct (stage (wo s)); simplify_eq/=. rewrite abs_frame by done. constructor.
  - unfold Exclusive in HA. specialize (Hst (wo s)). destruct (fn (wo s)); simplify_eq/=.
    rewrite abs_frame by done. constructor.
  - apply (Confirm_spec v applier j loader seams) in HA as (_ & El & _ & _ & HA); [|done].
    destruct oe as [e|]; [destruct HA as [-> ->]; rewrite abs_same; constructor|].
    destruct HA as (Hp & _ & Hp' & _). unfold abs. cbn. rewrite Hp, Hp', El. apply tx_keep.
  - unfold Revert, done_err in HA. destruct (decide _) as [|Hp];
      [simplify_eq; rewrite abs_same; constructor|]. apply dec_stable in Hp.
    destruct (stopWatchdog seams (co s) (wo s)) as [c1 w1] eqn:E1.
    destruct (revertLocked applier c1 w1) as [c2 w2] eqn:E2. simplify_eq.
    unfold stopWatchdog in E1. rewrite Hp in Hph. destruct Hph as (_ & _ & Hwd & _).
    rewrite Hwd in E1. simplify_eq.
    eapply simulate_revert; [exact HI|done| | |exact E2]; done.
  - destruct (decide (phase (co s) = PhaseAwaitingConfirm /\ tok = token (co s))) as [[Hp Ht]|Hp].
    + rewrite autoRevert_fires in HA by done.
      eapply simulate_revert; [exact HI|done| | |exact HA]; done.
    + rewrite autoRevert_stale in HA by (destruct (decide (phase (co s) = PhaseAwaitingConfirm)); naive_solver).
      simplify_eq. rewrite abs_same. constructor.
  - apply (start_spec v applier j loader seams) in HA as (_ & Hp & _ & _ & _ & _ & HA).
    destruct (abs_settled_or_stranded (mkSys c w [] (before s)) Hp) as [[-> Er]|[-> Er]]; cbn in *;
      destruct (record v (wo s)) as [rec|]; cbn; try (destruct HA as (? & ? & ?); congruence).
    + apply (tx_restart _ _ true).
    + destruct HA as (-> & _). rewrite <- abs_running. apply tx_forget.
    + apply (tx_restart _ _ false).
  - rewrite abs_frame by done. constructor.
Qed.

(** C14. A confirmed change stays. If Confirm answers without an error, in its
    result or in the state it reports, then after a restart at any later
    moment at which nothing else touched the journal the same configuration
    runs and nothing is pending. *)
Theorem confirmed_change_survives_restart s tok c1 w0 st w1 c2 w2 r :
  reachable s ->
  Confirm seams tok (co s) (wo s) = (c1, w0, (st, None)) -> stErr st = None ->
  frame v w0 w1 -> start applier j loader w1 = (c2, w2, r) ->
  live v w2 = live v (wo s) /\ phase c2 = PhaseIdle /\ lastErr c2 = None.
Proof.
  intros H Hc Hst (El & Er & _) Hs. pose proof (reachable_Inv _ _ _ _ _ _ H) as (Hj & _).
  apply (Confirm_spec v applier j loader seams) in Hc as (_ & El' & _ & -> & Hc); [|done].
  destruct Hc as (_ & _ & _ & _ & _ & _ & _ & Hrec). cbn in Hst. specialize (Hrec Hst).
  apply (start_spec v applier j loader seams) in Hs as (_ & _ & _ & _ & _ & _ & HA).
  rewrite Er, Hrec in HA. destruct HA as (-> & ? & ?). rewrite El, El'. done.
Qed.

(** An unconfirmed change does not outlive the daemon. If a change is
    pending, was journalled without complaint and its snapshot is on disk,
    a restart either puts back the configuration from before the change or
    reports an error. *)
Theorem unconfirmed_change_undone_by_restart s c w b oe :
  reachable s -> phase (co s) = PhaseAwaitingConfirm -> lastErr (co s) = None ->
  kept v (wo s) (lastSnapshotID (co s)) = Some (before s) ->
  start applier j loader (wo s) = (c, w, (b, oe)) ->
  (b = true /\ live v w = before s) \/ (exists e, oe = Some e).
Proof.
  intros H Hp He Hk Hs. pose proof (reachable_Inv _ _ _ _ _ _ H) as (Hj & _ & _ & Hph).
  rewrite Hp in Hph. destruct Hph as (_ & _ & _ & _ & Hrec). destruct (Hrec He) as [d Er].
  apply (start_spec v applier j loader seams) in Hs as (_ & _ & _ & _ & _ & _ & HA).
  rewrite Er in HA. cbn in HA. destruct HA as [[_ ?]|[[_ ?]|[? Hl]]]; [by right..|].
  left. split; [done|]. by apply Hl.
Qed.
End Theorems.

(** ** A world in memory *)
Module Mem.
(** Switches that make one operation fail. *)
Record Faults := mkFaults { fSnapshot : bool; fCommit : bool; fRevert : bool; fSave : bool; fClear : bool }.
Definition healthy : Faults := mkFaults false false false false false.

Record World := mkWorld {
  cfg : string; draft : string; jr : option ApplyRecord; disk : gmap string string;
  toks : list string; tick : Z; faults : Faults }.

Definition fail : err := Errorf "fault" [].
Definition with_cfg (c : string) (m : World) : World :=
  mkWorld c (draft m) (jr m) (disk m) (toks m) (tick m) (faults m).
Definition with_jr (r : option ApplyRecord) (m : World) : World :=
  mkWorld (cfg m) (draft m) r (disk m) (toks m) (tick m) (faults m).
Definition with_draft (d : string) (m : World) : World :=
  mkWorld (cfg m) d (jr m) (disk m) (toks m) (tick m) (faults m).
Definition with_faults (f : Faults) (m : World) : World :=
  mkWorld (cfg m) (draft m) (jr m) (disk m) (toks m) (tick m) f.

Definition applier : ConfigApplier World := {|
  takeSnapshot m :=
    if fSnapshot (faults m) then (m, Err fail) else
    let s := mkSnapshot ("uci-" +:+ Itoa (tick m)) (tick m) (cfg m) in
    (mkWorld (cfg m) (draft m) (jr m) (<[ID s := cfg m]> (disk m)) (toks m) (tick m + 1) (faults m), Ok s);
  commit m := if fCommit (faults m) then (with_cfg "half" m, Some fail) else (with_cfg (draft m) m, None);
  revertTo s m :=
    if fRevert (faults m) then (with_cfg "broken" m, Some fail) else (with_cfg (Payload s) m, None) |}.

Definition journal : ApplyJournal World := {|
  save r m := if fSave (faults m) then (m, Some fail) else (with_jr (Some r) m, None);
  load m := (m, Ok (jr m));
  clear m := if fClear (faults m) then (m, Some fail) else (with_jr None m, None) |}.

Definition loader : SnapshotLoader World := {|
  loadSnapshot i m := (m, match disk m !! i with Some c => Ok (mkSnapshot i 0 c) | None => Err fail end) |}.

Fixpoint long (n : nat) : string := match n with O => "" | S n => String "x" (long n) end.
Definition nextToken (l : list string) : string := "apply-" +:+ long (sum_list_with String.length l).

Definition seams : Seams World := {|
  now m := (m, tick m);
  newToken m := let t := nextToken (toks m) in
    (mkWorld (cfg m) (draft m) (jr m) (disk m) (t :: toks m) (tick m) (faults m), t);
  afterFunc _ _ m := m;
  stopTimer _ m := m |}.

Definition views : Views World string := {|
  live := cfg; record := jr; kept m i := disk m !! i; issued := toks;
  captures s c := Payload s = c;
  texts _ := True |}.

Lemma long_length n : String.length (long n) = n.
Proof. induction n; cbn; auto. Qed.

Lemma sum_length_elem (l : list string) t :
  t ∈ l -> String.length t <= sum_list_with String.length l.
Proof. induction 1 as [|? ? ? ? IH]; cbn; lia. Qed.

Lemma nextToken_fresh l : nextToken l ∉ l.
Proof.
  intros H%sum_length_elem. unfold nextToken in H. rewrite append_length, long_length in H.
  cbn in H. lia.
Qed.

#[export] Instance world : TransactionWorld views applier journal loader seams.
Proof.
  split; unfold frame; cbn; intros; unfold with_cfg, with_jr in *; crush;
    repeat case_match; simplify_eq/=; split_and!; try done; try naive_solver.
  apply nextToken_fresh.
Qed.

Abbreviation sys := (@Sys World string).

(** The transitions as functions, for running examples. *)
Definition doApply (d : Z) (s : sys) : sys :=
  let '(c, w, r) := Apply applier seams d (co s) (wo s) in
  match r.2 with
  | None => mkSys c w (token c :: armed s) (cfg (wo s))
  | Some _ => mkSys c w (armed s) (before s)
  end.
Definition doRevert (s : sys) : sys :=
  let '(c, w, _) := Revert applier seams (co s) (wo s) in mkSys c w (armed s) (before s).
Definition doConfirm (t : string) (s : sys) : sys :=
  let '(c, w, _) := Confirm seams t (co s) (wo s) in mkSys c w (armed s) (before s).
Definition doFire (t : string) (s : sys) : sys :=
  let '(c, w) := autoRevert applier t (co s) (wo s) in mkSys c w (armed s) (before s).
Definition doWorld (f : World -> World) (s : sys) : sys :=
  mkSys (co s) (f (wo s)) (armed s) (before s).

Definition world0 (f : Faults) : World := mkWorld "old" "new" None ∅ [] 0 f.
Definition sys0 (f : Faults) : sys :=
  mkSys (WithJournal journal NewApplyCoordinator) (world0 f) [] "old".

Lemma sys0_reachable f : reachable views applier journal loader seams (sys0 f).
Proof. exists (sys0 f), []. split; [done|constructor]. Qed.

(** A change on trial, in a healthy world. *)
Definition sys1 : sys := doApply DefaultApplyWindow (sys0 healthy).

Lemma doApply_step s d : step views applier journal loader seams s (EApply d) (doApply d s).
Proof.
  unfold doApply. destruct (Apply applier seams d (co s) (wo s)) as [[c w] r] eqn:E.
  exact (step_apply views applier journal loader seams s d c w r E).
Qed.

Lemma doRevert_step s : step views applier journal loader seams s ERevert (doRevert s).
Proof.
  unfold doRevert. destruct (Revert applier seams (co s) (wo s)) as [[c w] r] eqn:E.
  by econstructor.
Qed.

Lemma doFire_step t s : t ∈ armed s -> step views applier journal loader seams s (EFire t) (doFire t s).
Proof.
  intros Ht. unfold doFire. destruct (autoRevert applier t (co s) (wo s)) as [c w] eqn:E. by constructor.
Qed.

Lemma doConfirm_step t s : step views applier journal loader seams s (EConfirm t) (doConfirm t s).
Proof.
  unfold doConfirm. destruct (Confirm seams t (co s) (wo s)) as [[c w] r] eqn:E.
  by econstructor.
Qed.

Lemma sys1_reachable : reachable views applier journal loader seams sys1.
Proof.
  exists (sys0 healthy), [EApply DefaultApplyWindow]. split; [done|].
  eapply (run_snoc _ _ []); [constructor|apply doApply_step].
Qed.
End Mem.

Section Witnesses.
Import Mem.

Lemma revert_restores_configuration_witness :
  cfg (wo sys1) = "new" /\
  ((phase (co (doRevert sys1)) = PhaseReverted /\ cfg (wo (doRevert sys1)) = "old") \/
   (phase (co (doRevert sys1)) = PhaseRevertFailed /\ exists e, lastErr (co (doRevert sys1)) = Some e)).
Proof.
  split; [reflexivity|].
  apply (revert_restores_configuration views applier Mem.journal loader seams
           (sys0 healthy) DefaultApplyWindow sys1 [] sys1 ERevert).
  - apply sys0_reachable.
  - discriminate.
  - apply doApply_step.
  - reflexivity.
  - constructor.
  - reflexivity.
  - reflexivity.
  - left; reflexivity.
  - apply doRevert_step.
Defined.

Lemma late_timer_changes_nothing_witness :
  let s2 := doConfirm (token (co sys1)) sys1 in
  let s3 := doApply DefaultApplyWindow s2 in
  phase (co s3) = PhaseAwaitingConfirm /\
  forall s4, step views applier Mem.journal loader seams s3 (EFire (token (co sys1))) s4 -> s4 = s3.
Proof.
  intros s2 s3. split; [reflexivity|]. intros s4.
  apply (late_timer_changes_nothing views applier Mem.journal loader seams
           sys1 (EConfirm (token (co sys1))) s2 [EApply DefaultApplyWindow] s3 s4).
  - apply sys1_reachable.
  - reflexivity.
  - apply doConfirm_step.
  - discriminate.
  - apply (run_snoc _ s2 [] s2); [constructor|apply doApply_step].
Defined.


Lemma pending_change_has_watchdog_witness :
  exists s', step views applier Mem.journal loader seams sys1 (EFire (token (co sys1))) s' /\
    (phase (co s') = PhaseReverted \/ phase (co s') = PhaseRevertFailed) /\
    token (co s') = "" /\ deadline (co s') = None.
Proof.
  apply (pending_change_has_watchdog views applier Mem.journal loader seams sys1).
  - apply sys1_reachable.
  - reflexivity.
Defined.

(** A commit that fails, in a world where the revert then works. *)
Lemma failed_apply_leaves_configuration_witness :
  let s0 := sys0 (mkFaults false true false false false) in
  let s1 := doApply DefaultApplyWindow s0 in
  phase (co s1) = PhaseReverted /\
  (cfg (wo s1) = cfg (wo s0) \/
   (phase (co s1) = PhaseRevertFailed /\ phase (co s0) <> PhaseAwaitingConfirm)).
Proof.
  intros s0 s1. split; [reflexivity|].
  eapply (failed_apply_leaves_configuration views applier Mem.journal loader seams
           s0 (EApply DefaultApplyWindow) s1).
  - apply sys0_reachable.
  - left. exists DefaultApplyWindow. split; reflexivity.
  - apply doApply_step.
Defined.

Lemma coordinator_refines_transaction_witness :
  tx_step (Settled "old") LApply (Trial "old" "new").
Proof.
  exact (coordinator_refines_transaction views applier Mem.journal loader seams
           (sys0 healthy) (EApply DefaultApplyWindow) sys1 (sys0_reachable healthy) (doApply_step _ _)).
Defined.

Lemma confirmed_change_survives_restart_witness :
  let s := doConfirm (token (co sys1)) sys1 in
  let r := start applier Mem.journal loader (wo s) in
  cfg r.1.2 = "new" /\ phase r.1.1 = PhaseIdle /\ lastErr r.1.1 = None.
Proof.
  intros s r.
  eapply (confirmed_change_survives_restart views applier Mem.journal loader seams
           sys1 (token (co sys1)) (co s) (wo s) (stateLocked (co s)) (wo s) r.1.1 r.1.2 r.2).
  - apply sys1_reachable.
  - vm_compute. reflexivity.
  - vm_compute. reflexivity.
  - split_and!; reflexivity.
  - vm_compute. reflexivity.
Defined.

Lemma unconfirmed_change_undone_by_restart_witness :
  let r := start applier Mem.journal loader (wo sys1) in
  (r.2.1 = true /\ cfg r.1.2 = "old") \/ (exists e, r.2.2 = Some e).
Proof.
  intros r.
  apply (unconfirmed_change_undone_by_restart views applier Mem.journal loader seams
           sys1 r.1.1 r.1.2 r.2.1 r.2.2).
  - apply sys1_reachable.
  - reflexivity.
  - reflexivity.
  - vm_compute. reflexivity.
  - vm_compute. reflexivity.
Defined.

(** What [clearJournalLocked] is there to prevent, and does not: after a
    revert that failed, the journal keeps its record (a restart tries again);
    an [ApplyNow] that then succeeds is final, yet the record stays, and the
    next start undoes it. *)
Definition stale_record_run : World :=
  let s := doRevert (doWorld (with_faults (mkFaults false false true false false)) sys1) in
  let s := doWorld (fun w => with_faults healthy (with_draft "wifi" w)) s in
  let '(c, w, _) := ApplyNow applier (fun w => (w, None)) (co s) (wo s) in w.

Theorem apply_now_undone_by_restart :
  cfg stale_record_run = "wifi" /\
  cfg (start applier Mem.journal loader stale_record_run).1.2 = "old".
Proof. vm_compute. split; reflexivity. Qed.

(** The journal is written after the commit: a daemon that dies in between -
    [reload_config] is part of the commit - leaves a live change that no start
    undoes. *)
Theorem crash_after_commit_is_not_undone :
  let '(w, _) := takeSnapshot applier (world0 healthy) in
  let '(w, _) := commit applier w in
  cfg w = "new" /\ cfg (start applier Mem.journal loader w).1.2 = "new" /\
  phase (start applier Mem.journal loader w).1.1 = PhaseIdle.
Proof. vm_compute. split_and!; reflexivity. Qed.

(** A failed snapshot after a failed revert: the phase that "must never be
    hidden" becomes [PhaseIdle]. *)
Theorem failed_snapshot_hides_revert_failure :
  let s := doRevert (doWorld (with_faults (mkFaults false false true false false)) sys1) in
  let s' := doApply DefaultApplyWindow (doWorld (with_faults (mkFaults true false true false false)) s) in
  phase (co s) = PhaseRevertFailed /\ phase (co s') = PhaseIdle /\ cfg (wo s') = "broken".
Proof. vm_compute. split_and!; reflexivity. Qed.
End Witnesses.
