(* ===== verification/Schedule.v ===== *)
(** * Internet schedules: internal/core/schedule.go

    The schedule of one device: its parsing and canonical spelling, whether it
    keeps the device off at a moment of the router's week, and when that next
    changes. Days and minutes are Go [int]s; every value met here is far inside
    their range, so they are [Z] without a wrap-around. *)

From S2P Require Import Prelude GoStrings.

Definition Weekdays : list string := ["mon"; "tue"; "wed"; "thu"; "fri"; "sat"; "sun"].

Record InternetSchedule := mkSchedule { Days : list string; From : string; To : string }.

#[export] Instance InternetSchedule_eq_dec : EqDecision InternetSchedule.
Proof. solve_decision. Defined.

(** The position of a weekday, [-1] when it is none. *)
Definition dayIndex (d : string) : Z :=
  match index_of (fun w => String.eqb w d) Weekdays with Some i => Z.of_nat i | None => (-1)%Z end.

(** ** fmt.Sscanf of [%d], with what it leaves unread

    Leading white space is skipped, but a line break is an error; then an
    optional sign and at least one digit. *)
Fixpoint scan_space (s : string) : option string :=
  match s with
  | String a r1 =>
      if (code a =? 10)%Z then None else
      if space1 a then scan_space r1 else
      match r1 with
      | String b r2 =>
          if space2 a b then scan_space r2 else
          match r2 with
          | String c r3 => if space3 a b c then scan_space r3 else Some s
          | _ => Some s
          end
      | _ => Some s
      end
  | _ => Some s
  end.

Fixpoint scan_digits (acc : Z) (s : string) : Z * string :=
  match s with
  | String c r => if is_digit c then scan_digits (acc * 10 + digit_val c)%Z r else (acc, s)
  | _ => (acc, s)
  end.

Definition scan_nat (s : string) : option (Z * string) :=
  match s with
  | String c _ => if is_digit c then Some (scan_digits 0 s) else None
  | _ => None
  end.

Definition scan_int (s : string) : option (Z * string) :=
  match scan_space s with
  | None => None
  | Some (String "-" r) =>
      match scan_nat r with Some (n, r) => checked_int (Some (- n)%Z) ≫= fun z => Some (z, r) | None => None end
  | Some (String "+" r) =>
      match scan_nat r with Some (n, r) => checked_int (Some n) ≫= fun z => Some (z, r) | None => None end
  | Some r =>
      match scan_nat r with Some (n, r) => checked_int (Some n) ≫= fun z => Some (z, r) | None => None end
  end.

(** A literal of the format must be the next byte. *)
Definition scan_lit (c : ascii) (s : string) : option string :=
  match s with String d r => if decide (c = d) then Some r else None | _ => None end.

(** ** clockMinutes *)

Definition clock_hm (h m sec : Z) : option Z :=
  if ((h <? 0) || (23 <? h) || (m <? 0) || (59 <? m) || (sec <? 0) || (59 <? sec))%Z then None
  else Some (h * 60 + m)%Z.

Definition clockMinutes (v : string) : option Z :=
  let v := TrimSpace v in
  match Count ":" v with
  | 1 =>
      match scan_int v with
      | Some (h, r) =>
          match scan_lit ":" r with
          | Some r =>
              match scan_int r with
              | Some (m, _) => if decide (String.length v = 5) then clock_hm h m 0 else None
              | None => None
              end
          | None => None
          end
      | None => None
      end
  | 2 =>
      match scan_int v with
      | Some (h, r) =>
          match scan_lit ":" r with
          | Some r =>
              match scan_int r with
              | Some (m, r) =>
                  match scan_lit ":" r with
                  | Some r =>
                      match scan_int r with
                      | Some (sec, _) => if decide (String.length v = 8) then clock_hm h m sec else None
                      | None => None
                      end
                  | None => None
                  end
              | None => None
              end
          | None => None
          end
      | None => None
      end
  | _ => None
  end.

(** [f, _ := clockMinutes(v)]: the value is 0 when it does not parse. *)
Definition minutesOf (v : string) : Z := default 0%Z (clockMinutes v).

Definition hhmm (minutes : Z) : string :=
  pad2 (Z.quot minutes 60) +:+ ":" +:+ pad2 (Z.rem minutes 60).

(** ** The schedule *)

Definition Overnight (s : InternetSchedule) : bool :=
  let f := minutesOf (From s) in
  let t := minutesOf (To s) in
  (t <? f)%Z && negb (t =? 0)%Z.

Definition Words (s : InternetSchedule) : string :=
  Join "," (Days s) +:+ " " +:+ From s +:+ "-" +:+ To s.

(** The days asked for, as a set; the first one that is none is the error. *)
Fixpoint cleanDays (ds : list string) (want : gset string) : res (gset string) :=
  match ds with
  | [] => Ok want
  | d :: ds =>
      let d := ToLower (TrimSpace d) in
      if (dayIndex d <? 0)%Z
      then Refuse "days" (Errorf "%q is not a day of the week (mon … sun)" [d])
      else cleanDays ds ({[d]} ∪ want)
  end.

Definition CleanSchedule (s : InternetSchedule) : res InternetSchedule :=
  let? want := cleanDays (Days s) ∅ in
  if bool_decide (want = ∅) then Refuse "days" (Errorf "choose at least one day" []) else
  let days := filter (fun d => d ∈ want) Weekdays in
  match clockMinutes (From s) with
  | None => Refuse "from" (Errorf "%q is not a time of day (HH:MM)" [From s])
  | Some f =>
      match clockMinutes (To s) with
      | None => Refuse "to" (Errorf "%q is not a time of day (HH:MM)" [To s])
      | Some t =>
          if (f =? t)%Z
          then Refuse "to" (Errorf "the window ends when it starts; for a whole day off, turn the internet off instead" [])
          else Ok (mkSchedule days (hhmm f) (hhmm t))
      end
  end.

(** One iteration of [OffAt]'s loop over the days. *)
Definition offOn (f t i day minute : Z) : bool :=
  if (f <? t)%Z then (day =? i)%Z && (f <=? minute)%Z && (minute <? t)%Z
  else ((day =? i)%Z && (f <=? minute)%Z) ||
       (negb (t =? 0)%Z && (day =? Z.rem (i + 1) 7)%Z && (minute <? t)%Z).

Definition OffAt (s : InternetSchedule) (day minute : Z) : bool :=
  existsb (fun d => offOn (minutesOf (From s)) (minutesOf (To s)) (dayIndex d) day minute) (Days s).

(** The state [n] minutes after a moment of the week. *)
Definition offAfter (s : InternetSchedule) (day minute n : Z) : bool :=
  let m := (minute + n)%Z in
  OffAt s (Z.rem (day + Z.quot m 1440) 7) (Z.rem m 1440).

(** The loop of [NextChange]: [fuel] steps are left, [step] is the next. *)
Fixpoint nextChange (s : InternetSchedule) (day minute : Z) (now : bool) (step : Z) (fuel : nat) : string :=
  match fuel with
  | O => ""
  | S fuel =>
      if Bool.eqb (offAfter s day minute step) now then nextChange s day minute now (step + 1) fuel
      else hhmm (Z.rem (minute + step) 1440)
  end.

Definition NextChange (s : InternetSchedule) (day minute : Z) : string :=
  nextChange s day minute (OffAt s day minute) 1 (7 * 24 * 60).

Definition ClockMinutes (v : string) : option Z := clockMinutes v.
Definition DayIndex (d : string) : Z := dayIndex d.
