(* ===== verification/ScheduleThms.v ===== *)
(** * What a schedule means

    The canonical schedules, the reference meaning of a schedule as a set of
    windows on the circle of the week's 10080 minutes, and the theorems that
    relate the code to both. *)

From S2P Require Import Prelude GoStrings Schedule.

(** ** Times of day *)

Lemma clock_hm_bound h m sec x : clock_hm h m sec = Some x -> (0 <= x < 1440)%Z.
Proof. unfold clock_hm. intros H. repeat (break_match_in H; simplify_eq/=). bool_to_prop. lia. Qed.

Lemma clockMinutes_bound v m : clockMinutes v = Some m -> (0 <= m < 1440)%Z.
Proof. unfold clockMinutes. intros H. repeat (break_match_in H; simplify_eq/=); eauto using clock_hm_bound. Qed.

Lemma minutesOf_bound v : (0 <= minutesOf v < 1440)%Z.
Proof.
  unfold minutesOf. destruct (clockMinutes v) eqn:E; cbn; [|lia]. by eapply clockMinutes_bound.
Qed.

(** Every minute of the day, as a list to compute over. *)
Definition all_minutes : list Z := seqZ 0 1440.

Lemma all_minutes_elem m : (0 <= m < 1440)%Z -> m ∈ all_minutes.
Proof. intros H. apply elem_of_seqZ. lia. Qed.

Lemma clockMinutes_hhmm_all :
  forallb (fun m => bool_decide (clockMinutes (hhmm m) = Some m)) all_minutes = true.
Proof. vm_compute. reflexivity. Qed.

Lemma clockMinutes_hhmm m : (0 <= m < 1440)%Z -> clockMinutes (hhmm m) = Some m.
Proof.
  intros H%all_minutes_elem. pose proof clockMinutes_hhmm_all as Ha.
  rewrite forallb_elem in Ha. specialize (Ha m H). by bool_to_prop.
Qed.

Lemma minutesOf_hhmm m : (0 <= m < 1440)%Z -> minutesOf (hhmm m) = m.
Proof. intros H. unfold minutesOf. by rewrite clockMinutes_hhmm. Qed.

(** ** Canonical schedules *)

Definition weekdays_of (want : gset string) : list string := filter (fun d => d ∈ want) Weekdays.

(** Days in the order of the week, once each, at least one; two different times
    of day spelt HH:MM. *)
Definition Canonical (s : InternetSchedule) : Prop :=
  (exists want, Days s = weekdays_of want) /\ Days s <> [] /\
  exists f t, (0 <= f < 1440)%Z /\ (0 <= t < 1440)%Z /\ f <> t /\ From s = hhmm f /\ To s = hhmm t.

Lemma dayIndex_range d : (-1 <= dayIndex d <= 6)%Z.
Proof.
  unfold dayIndex. destruct (index_of _ Weekdays) as [i|] eqn:E; [|lia].
  apply index_of_bound in E. cbn in E. lia.
Qed.

Lemma dayIndex_elem d : (0 <= dayIndex d)%Z <-> d ∈ Weekdays.
Proof.
  unfold dayIndex. destruct (index_of _ Weekdays) as [i|] eqn:E.
  - split; [|lia]. intros _. apply index_of_Some in E as (x & Hx & He & _). bool_to_prop. subst.
    by eapply list_elem_of_lookup_2.
  - rewrite index_of_None, Forall_forall in E. split; [lia|].
    intros H. specialize (E d H). bool_to_prop. done.
Qed.

Lemma ToLower_TrimSpace_weekday d : d ∈ Weekdays -> ToLower (TrimSpace d) = d.
Proof.
  intros H. assert (Forall (fun d => ToLower (TrimSpace d) = d) Weekdays) as Ha
    by (repeat constructor).
  rewrite Forall_forall in Ha. auto.
Qed.

Lemma cleanDays_Ok ds want w :
  cleanDays ds want = Ok w ->
  w = list_to_set ((fun d => ToLower (TrimSpace d)) <$> ds) ∪ want /\
  Forall (fun d => ToLower (TrimSpace d) ∈ Weekdays) ds.
Proof.
  revert want. induction ds as [|d ds IH]; intros want; cbn.
  - intros [= ->]. split; [set_solver|constructor].
  - destruct (dayIndex _ <? 0)%Z eqn:E; [done|]. intros H. apply IH in H as [-> Hf].
    bool_to_prop. split; [set_solver|]. constructor; [by apply dayIndex_elem|done].
Qed.

Lemma cleanDays_total ds want :
  Forall (fun d => d ∈ Weekdays) ds -> cleanDays ds want = Ok (list_to_set ds ∪ want).
Proof.
  revert want. induction ds as [|d ds IH]; intros want; cbn; [intros _; f_equal; set_solver|].
  rewrite Forall_cons. intros [Hd Hf]. rewrite ToLower_TrimSpace_weekday by done.
  replace (dayIndex d <? 0)%Z with false
    by (symmetry; apply Z.ltb_ge; by apply dayIndex_elem).
  rewrite IH by done. f_equal. set_solver.
Qed.

Lemma weekdays_of_list want : list_to_set (weekdays_of want) ∪ ∅ = want ∩ list_to_set Weekdays :> gset string.
Proof.
  apply set_eq. intros d. rewrite elem_of_union, elem_of_intersection, !elem_of_list_to_set.
  unfold weekdays_of. rewrite list_elem_of_filter. set_solver.
Qed.

Lemma weekdays_of_again want : weekdays_of (want ∩ list_to_set Weekdays) = weekdays_of want.
Proof.
  unfold weekdays_of. apply filter_ext_elem. intros d Hd.
  rewrite elem_of_intersection, elem_of_list_to_set. tauto.
Qed.

Lemma weekdays_of_elem want d : d ∈ want -> d ∈ Weekdays -> d ∈ weekdays_of want.
Proof. intros. unfold weekdays_of. by rewrite list_elem_of_filter. Qed.

Lemma nonempty_elem {A} (l : list A) x : x ∈ l -> l <> [].
Proof. intros H ->. by apply not_elem_of_nil in H. Qed.

Lemma CleanSchedule_Ok s c :
  CleanSchedule s = Ok c ->
  exists want f t, cleanDays (Days s) ∅ = Ok want /\ want <> ∅ /\
    clockMinutes (From s) = Some f /\ clockMinutes (To s) = Some t /\ f <> t /\
    c = mkSchedule (weekdays_of want) (hhmm f) (hhmm t).
Proof.
  unfold CleanSchedule. intros (want & Hw & H)%res_bind_Ok.
  destruct (bool_decide (want = ∅)) eqn:E; [done|].
  destruct (clockMinutes (From s)) as [f|] eqn:Ef; [|done].
  destruct (clockMinutes (To s)) as [t|] eqn:Et; [|done].
  destruct (f =? t)%Z eqn:Eft; [done|]. bool_to_prop. injection H as <-. eauto 10.
Qed.

Lemma CleanSchedule_fixed c : Canonical c -> CleanSchedule c = Ok c.
Proof.
  intros ((want & Hd) & Hne & f & t & Hf & Ht & Hft & HF & HT).
  unfold CleanSchedule. rewrite cleanDays_total.
  2: { rewrite Hd. apply Forall_forall. intros d. unfold weekdays_of. rewrite list_elem_of_filter. tauto. }
  cbn [res_bind]. rewrite bool_decide_false.
  2: { intros E. apply Hne. destruct (Days c) as [|d l]; [done|]. set_solver. }
  rewrite HF, HT, !clockMinutes_hhmm by done.
  replace (f =? t)%Z with false by (symmetry; by apply Z.eqb_neq).
  change (Ok (mkSchedule (weekdays_of (list_to_set (Days c) ∪ ∅)) (hhmm f) (hhmm t)) = Ok c).
  rewrite Hd, weekdays_of_list, weekdays_of_again, <- Hd, <- HF, <- HT. by destruct c.
Qed.

Lemma CleanSchedule_Canonical s c : CleanSchedule s = Ok c -> Canonical c.
Proof.
  intros (want & f & t & Hw & Hne & Hf & Ht & Hft & ->)%CleanSchedule_Ok.
  split; [by exists want|]. split.
  - apply cleanDays_Ok in Hw as [-> Hall].
    destruct (Days s) as [|d l]; [set_solver|]. rewrite Forall_cons in Hall. destruct Hall as [Hd _].
    eapply nonempty_elem, weekdays_of_elem, Hd. set_solver.
  - exists f, t. apply clockMinutes_bound in Hf, Ht. auto 10.
Qed.



(** clockMinutes is said to read HH:MM; [fmt.Sscanf] does not look at what
    follows the number it reads, nor mind a space or a sign in front of it. *)
Theorem clockMinutes_accepts_trailing_garbage :
  clockMinutes "1:5xx" = Some 65%Z /\ clockMinutes "-0: 7" = Some 7%Z /\
  CleanSchedule (mkSchedule ["mon"] "1:5xx" "2:300:0z") = Refuse "to" (Errorf "%q is not a time of day (HH:MM)" ["2:300:0z"]) /\
  CleanSchedule (mkSchedule ["mon"] "1:5xx" "2:30!") = Ok (mkSchedule ["mon"] "01:05" "02:30").
Proof. vm_compute. split_and!; reflexivity. Qed.

(** ** When a schedule keeps the device off

    The week is a circle of 10080 minutes; the window of a day is the part of it
    that starts at [From] on that day and lasts until [To] next comes. *)

Definition week : Z := 10080.

Definition in_window (f t i day minute : Z) : Prop :=
  ((1440 * day + minute - (1440 * i + f)) mod week < (t - f) mod 1440)%Z.

Definition OffSpec (s : InternetSchedule) (day minute : Z) : Prop :=
  exists d, d ∈ Days s /\ in_window (minutesOf (From s)) (minutesOf (To s)) (dayIndex d) day minute.

Lemma mod_eq a b r q : (a = b * q + r)%Z -> (0 <= r < b)%Z -> (a mod b = r)%Z.
Proof. intros -> H. rewrite Z.add_comm, Z.mul_comm, Z_mod_plus_full, Z.mod_small; lia. Qed.

(** [Z.rem] of a non-negative number, as a [mod] the arithmetic solvers read. *)
Lemma rem_mod a b : (0 <= a)%Z -> (0 < b)%Z -> Z.rem a b = (a mod b)%Z.
Proof. intros. by apply Z.rem_mod_nonneg. Qed.

Lemma offOn_window f t i day minute :
  (0 <= f < 1440)%Z -> (0 <= t < 1440)%Z -> f <> t -> (0 <= i < 7)%Z ->
  (0 <= day < 7)%Z -> (0 <= minute < 1440)%Z ->
  offOn f t i day minute = true <-> in_window f t i day minute.
Proof.
  intros Hf Ht Hft Hi Hd Hm. unfold offOn, in_window, week. rewrite rem_mod by lia.
  assert ((t - f) mod 1440 = if (f <? t)%Z then t - f else t - f + 1440)%Z as HL.
  { destruct (Z.ltb_spec f t); [apply (mod_eq _ _ _ 0)|apply (mod_eq _ _ _ (-1))]; lia. }
  assert (((i + 1) mod 7 = if (i =? 6)%Z then 0 else i + 1)%Z) as Hs.
  { destruct (Z.eqb_spec i 6) as [->|]; [done|apply Z.mod_small; lia]. }
  set (x := (1440 * day + minute - (1440 * i + f))%Z).
  assert (x mod 10080 = if (x <? 0)%Z then x + 10080 else x)%Z as Hx.
  { destruct (Z.ltb_spec x 0); [apply (mod_eq _ _ _ (-1))|apply (mod_eq _ _ _ 0)]; lia. }
  rewrite HL, Hs, Hx. subst x. clear HL Hs Hx.
  destruct (Z.ltb_spec f t); repeat case_match;
    rewrite ?orb_true_iff, ?andb_true_iff, ?negb_true_iff, ?Z.eqb_eq, ?Z.eqb_neq, ?Z.leb_le, ?Z.ltb_lt;
    bool_to_prop; lia.
Qed.

Lemma Canonical_times s :
  Canonical s -> minutesOf (From s) <> minutesOf (To s).
Proof.
  intros (_ & _ & f & t & Hf & Ht & Hne & -> & ->). by rewrite !minutesOf_hhmm.
Qed.

Lemma Canonical_day s d : Canonical s -> d ∈ Days s -> (0 <= dayIndex d < 7)%Z.
Proof.
  intros ((want & ->) & _). unfold weekdays_of. rewrite list_elem_of_filter. intros [_ H].
  apply dayIndex_elem in H. pose proof (dayIndex_range d). lia.
Qed.

Lemma OffAt_OffSpec s day minute :
  Canonical s -> (0 <= day < 7)%Z -> (0 <= minute < 1440)%Z ->
  OffAt s day minute = true <-> OffSpec s day minute.
Proof.
  intros Hc Hd Hm. unfold OffAt, OffSpec. rewrite existsb_elem.
  pose proof (minutesOf_bound (From s)). pose proof (minutesOf_bound (To s)).
  pose proof (Canonical_times s Hc).
  split; intros (d & Hin & H'); exists d; (split; [done|]);
    pose proof (Canonical_day s d Hc Hin); by apply offOn_window.
Qed.

(** C17. OffAt says a device is off exactly within the windows of the chosen days,
    a window running from its start on its day until its end next comes round,
    past midnight and past the end of the week. *)
Theorem OffAt_is_the_window s c day minute :
  CleanSchedule s = Ok c -> (0 <= day < 7)%Z -> (0 <= minute < 1440)%Z ->
  (OffAt c day minute = true <-> OffSpec c day minute).
Proof. intros H. apply OffAt_OffSpec. by eapply CleanSchedule_Canonical. Qed.

Lemma OffAt_is_the_window_witness :
  CleanSchedule (mkSchedule ["sun"] "22:00" "07:30") = Ok (mkSchedule ["sun"] "22:00" "07:30") /\
  OffAt (mkSchedule ["sun"] "22:00" "07:30") 0 449 = true /\
  OffSpec (mkSchedule ["sun"] "22:00" "07:30") 0 449.
Proof.
  split; [vm_compute; reflexivity|]. split; [vm_compute; reflexivity|].
  apply (OffAt_is_the_window (mkSchedule ["sun"] "22:00" "07:30")); [vm_compute; reflexivity|lia|lia|].
  vm_compute. reflexivity.
Defined.

(** ** The next change *)

Lemma nextChange_first s day minute now step fuel :
  (exists n, (step <= n < step + Z.of_nat fuel)%Z /\
     nextChange s day minute now step fuel = hhmm (Z.rem (minute + n) 1440) /\
     offAfter s day minute n = negb now /\
     forall k, (step <= k < n)%Z -> offAfter s day minute k = now) \/
  (nextChange s day minute now step fuel = "" /\
     forall k, (step <= k < step + Z.of_nat fuel)%Z -> offAfter s day minute k = now).
Proof.
  revert step. induction fuel as [|fuel IH]; intros step; cbn [nextChange]; [right; split; [done|lia]|].
  destruct (Bool.eqb _ now) eqn:E.
  - apply eqb_prop in E.
    assert (forall k, step <= k -> k = step \/ step + 1 <= k)%Z as Hk by lia.
    destruct (IH (step + 1)%Z) as [(n & Hn & Hv & Hc & Hall)|[Hv Hall]].
    + left. exists n. split_and!; [lia|lia|done|done|].
      intros k H. destruct (Hk k) as [->|]; [lia|done|apply Hall; lia].
    + right. split; [done|]. intros k H. destruct (Hk k) as [->|]; [lia|done|apply Hall; lia].
  - left. exists step. split_and!; [lia|lia|done| |lia].
    by destruct (offAfter _ _ _ _), now.
Qed.

(** A moment of the week [n] minutes on, and the number of minutes to it. *)
Lemma offAfter_at s day minute day' minute' :
  (0 <= day < 7)%Z -> (0 <= minute < 1440)%Z -> (0 <= day' < 7)%Z -> (0 <= minute' < 1440)%Z ->
  exists n, (1 <= n <= week)%Z /\ offAfter s day minute n = OffAt s day' minute'.
Proof.
  intros. set (x := (1440 * (day' - day) + (minute' - minute))%Z).
  exists (if (x <=? 0)%Z then x + week else x)%Z. unfold week, offAfter.
  destruct (Z.leb_spec x 0).
  all: split; [subst x; lia|].
  all: rewrite !Z.quot_div_nonneg, !rem_mod; [|subst x; try apply Z.add_nonneg_nonneg; try apply Z.div_pos; lia..].
  - f_equal; [apply (mod_eq _ _ _ 1); [|lia]|apply (mod_eq _ _ _ (day' - day + 7)); subst x; lia].
    replace (minute + (x + 10080))%Z with (minute' + (day' - day + 7) * 1440)%Z by (subst x; lia).
    rewrite Z_div_plus_full, Z.div_small by lia. lia.
  - f_equal; [apply (mod_eq _ _ _ 0); [|lia]|apply (mod_eq _ _ _ (day' - day)); subst x; lia].
    replace (minute + x)%Z with (minute' + (day' - day) * 1440)%Z by (subst x; lia).
    rewrite Z_div_plus_full, Z.div_small by lia. lia.
Qed.

(** A window starts on a chosen day, and none reaches its own end. *)
Lemma OffAt_start s d :
  Canonical s -> d ∈ Days s -> OffAt s (dayIndex d) (minutesOf (From s)) = true.
Proof.
  intros Hc Hin. pose proof (Canonical_day s d Hc Hin). pose proof (minutesOf_bound (From s)).
  pose proof (minutesOf_bound (To s)). pose proof (Canonical_times s Hc).
  apply OffAt_OffSpec; [done|lia|lia|]. exists d. split; [done|]. unfold in_window, week.
  rewrite Z.sub_diag, Z.mod_0_l by lia. apply Z.le_neq. split; [apply Z.mod_pos_bound; lia|].
  intros E. symmetry in E. apply Z.mod_divide in E as [q Hq]; lia.
Qed.

Lemma OffAt_end s day : Canonical s -> (0 <= day < 7)%Z -> OffAt s day (minutesOf (To s)) = false.
Proof.
  intros Hc Hd. pose proof (minutesOf_bound (To s)) as Ht. apply not_true_iff_false.
  rewrite OffAt_OffSpec by done. intros (d & Hin & Hw). unfold in_window, week in Hw.
  set (f := minutesOf (From s)) in *. set (t := minutesOf (To s)) in *. set (i := dayIndex d) in *.
  replace ((t - f) mod 1440)%Z with (((1440 * day + t - (1440 * i + f)) mod 10080) mod 1440)%Z in Hw.
  - pose proof (Z.mod_pos_bound (1440 * day + t - (1440 * i + f)) 10080) as Hb.
    pose proof (Z.mod_le ((1440 * day + t - (1440 * i + f)) mod 10080) 1440). lia.
  - rewrite Z.mod_mod_divide by (by exists 7%Z).
    replace (1440 * day + t - (1440 * i + f))%Z with (t - f + (day - i) * 1440)%Z by lia.
    apply Z_mod_plus_full.
Qed.

Lemma offAfter_changes s day minute :
  Canonical s -> (0 <= day < 7)%Z -> (0 <= minute < 1440)%Z ->
  exists n, (1 <= n <= week)%Z /\ offAfter s day minute n = negb (OffAt s day minute).
Proof.
  intros Hc Hd Hm. destruct (OffAt s day minute); cbn.
  - destruct (offAfter_at s day minute day (minutesOf (To s))) as (n & Hn & H); auto using minutesOf_bound.
    exists n. by rewrite H, OffAt_end.
  - destruct (Days s) as [|d l] eqn:E; [by destruct Hc as (_ & He & _)|].
    assert (d ∈ Days s) as Hin by (rewrite E; set_solver).
    pose proof (Canonical_day s d Hc Hin) as Hi.
    destruct (offAfter_at s day minute (dayIndex d) (minutesOf (From s))) as (n & Hn & H);
      auto using minutesOf_bound.
    exists n. by rewrite H, OffAt_start.
Qed.

(** NextChange finds a change within a week for every schedule, and it is
    the first: the state it is asked at lasts until then and is the other one
    at the time it names. *)
Theorem NextChange_is_first s c day minute :
  CleanSchedule s = Ok c -> (0 <= day < 7)%Z -> (0 <= minute < 1440)%Z ->
  exists n, (1 <= n <= week)%Z /\ NextChange c day minute = hhmm ((minute + n) mod 1440) /\
     offAfter c day minute n = negb (OffAt c day minute) /\
     forall k, (1 <= k < n)%Z -> offAfter c day minute k = OffAt c day minute.
Proof.
  intros Hc%CleanSchedule_Canonical Hd Hm. unfold NextChange.
  destruct (nextChange_first c day minute (OffAt c day minute) 1 (7 * 24 * 60))
    as [(n & Hn & -> & Hch & Hall)|[_ Hall]].
  - exists n. rewrite rem_mod by lia. unfold week. split_and!; [lia|lia|done..].
  - destruct (offAfter_changes c day minute Hc Hd Hm) as (n & Hn & Hch). unfold week in Hn.
    rewrite Hall in Hch by lia. by destruct (OffAt c day minute).
Qed.

Lemma NextChange_is_first_witness :
  NextChange (mkSchedule ["mon"] "22:00" "07:30") 0 600 = "22:00" /\
  exists n, (1 <= n <= week)%Z /\
     NextChange (mkSchedule ["mon"] "22:00" "07:30") 0 600 = hhmm ((600 + n) mod 1440) /\
     offAfter (mkSchedule ["mon"] "22:00" "07:30") 0 600 n = negb (OffAt (mkSchedule ["mon"] "22:00" "07:30") 0 600) /\
     forall k, (1 <= k < n)%Z ->
      offAfter (mkSchedule ["mon"] "22:00" "07:30") 0 600 k = OffAt (mkSchedule ["mon"] "22:00" "07:30") 0 600.
Proof.
  split; [vm_compute; reflexivity|].
  apply (NextChange_is_first (mkSchedule ["mon"] "22:00" "07:30")); [vm_compute; reflexivity|lia|lia].
Defined.
