(* ===== verification/Effects.v ===== *)
(** * Requests as programs over the router

    A method of the adapter's [networkManager] asks the router one thing after
    another and decides by the answers: it is a tree whose nodes are the calls
    that leave the program - [m.run], the ubus connection, the files and the
    clock - and whose branches are the answers ([prog]). What the router does
    is a parameter: a [router] answers each call and changes its own state.

    Theorems about every router come from an observer, an automaton that reads
    the calls and their answers ([wp]); theorems about a router that keeps its
    documented behaviour come from executing the program against it. *)

From S2P Require Import Prelude GoStrings.

(** ** What the adapter asks for *)

(** [ubus.Address], [ubus.Route] and [ubus.Interface]
    (internal/adapters/openwrt/ubus/ubus.go), the fields this package reads. *)
Record Address := mkAddress { AddressOf : string; MaskOf : Z }.
Record BusRoute := mkBusRoute { RTarget : string; RMask : Z; RNexthop : string }.
Record BusInterface := mkBusInterface {
  BName : string; BUp : bool; BUptime : Z; BProto : string; BDevice : string; BL3Device : string;
  BIPv4Address : list Address; BIPv6Address : list Address; BRoute : list BusRoute;
  BDNSServer : list string; BIPv6Prefix : list Address
}.

(** One client of an access point, as [get_clients] of hostapd lists it
    (parseClients of internal/adapters/openwrt/devices.go, the decoded body). *)
Record ApClient := mkApClient {
  acMAC : string; acAssoc : option bool; acAuthorized : option bool; acSignal : Z }.
Record ApClients := mkApClients { acFreq : Z; acClients : list ApClient }.

(** An entry of the neighbour table. *)
Record neighbour := mkNeighbour { neIP : string; neMAC : string; neFresh : bool }.

(** One entry of [iwinfo freqlist] (facts of internal/adapters/openwrt/wifi.go). *)
Record radioFreq := mkFreq { fqChannel : Z; fqMHz : Z; fqRestricted : bool }.

(** [vpn.NodeConfig] and [vpn.Stats] (internal/vpn/engine.go): what an engine is
    given and what it says of its tunnel. *)
Record NodeConfig := mkNodeConfig {
  ncPrivateKey : string; ncPeerPublicKey : string; ncPresharedKey : string; ncEndpoint : string; ncAddress : string;
  ncDNS : list string; ncAllowedIPs : list string; ncKeepalive : Z; ncObfuscation : gmap string string }.
Record Stats := mkStats { HandshakeAgeSec : Z; RxBytes : Z; TxBytes : Z }.

(** [ubus.Board] and [ubus.Info], the fields the system page reads. *)
Record Board := mkBoard { BoardModel : string; BoardKernel : string; BoardFirmware : string; BoardHostname : string }.
Record SystemReport := mkReport {
  srUptime : Z; srLoad : Z * Z * Z; srMemTotal : Z; srMemAvailable : Z; srRootTotal : Z; srRootUsed : Z }.

(** The way out of an HTTP request: as any program's, through the dialer of a userspace
    engine, or bound to the interface of a kernel engine. *)
Inductive wayOut := Directly | ThroughDialer | ThroughDevice (name : string).

Inductive op :=
| Exec (argv : list string)          (* m.run(ctx, argv...) *)
| BusInterfaces                      (* m.bus.Interfaces(ctx), decoded *)
| ReadFile (path : string)           (* os.ReadFile, m.procFile *)
| MkdirTemp (prefix : string)        (* os.MkdirTemp with this prefix *)
| Symlink (old new : string)
| RemoveAll (path : string)
| MkdirAll (path : string)           (* os.MkdirAll *)
| WriteFile (path data : string)     (* os.WriteFile *)
| Rename (old new : string)          (* os.Rename *)
| Remove (path : string)             (* os.Remove *)
| ReadDir (path : string)            (* os.ReadDir: names, and which are directories *)
| CreateTemp (pattern : string)      (* os.CreateTemp: the name of the new file *)
| WriteTemp (path data : string)     (* tmp.Write, for the file of that name *)
| CloseTemp (path : string)          (* tmp.Close *)
| Now                                (* time.Now().Unix() *)
| Monotonic                          (* m.now() of the devices, nowFunc of the system page, in nanoseconds *)
| SysExists (path : string)          (* sysReader.Exists *)
| HostapdClients (iface : string)    (* bus.Call("hostapd.<iface>", "get_clients"), decoded *)
| SystemInfo                         (* bus.SystemInfo(ctx), its Localtime *)
| Neighbours (dev : string)          (* m.neigh(dev) *)
| SendBroadcast (dev : string) (payload : list Z)   (* m.send: a UDP broadcast out of dev *)
| StatMissing (path : string)        (* os.Stat: the file does not exist *)
| IwinfoPhy (section : string)       (* bus.CallWith("iwinfo", "phyname"), the decoded name *)
| IwinfoInfo (phy : string)          (* bus.CallWith("iwinfo", "info"): the country and the modes *)
| IwinfoFreqs (phy : string)         (* bus.CallWith("iwinfo", "freqlist") *)
| WirelessStatus                     (* bus.Call("network.wireless", "status"): by radio, section and interface *)
| HostapdStatus (iface : string)     (* bus.Call("hostapd.<iface>", "get_status"): status and channel *)
| ChmodFile (path : string) (mode : Z)   (* os.Chmod, tmp.Chmod *)
| SyncTemp (path : string)           (* tmp.Sync *)
| EngineUp (cfg : NodeConfig)        (* m.engine.Up *)
| EngineDown                         (* m.engine.Down *)
| EngineStats                        (* m.engine.Stats *)
| EngineTun                          (* TunName of an InterfaceEngine *)
| EngineDialer                       (* m.engine.Dialer: there is one *)
| BusSystem                          (* bus.SystemInfo(ctx), the rest of it *)
| BusBoard                           (* bus.Board(ctx) *)
| Hostname                           (* os.Hostname *)
| StatMode (path : string)           (* os.Stat: a directory, a character device *)
| Lstat (path : string)              (* os.Lstat *)
| OpenRW (path : string)             (* os.OpenFile(path, os.O_RDWR, 0), closed again *)
| Fetch (via : wayOut) (url : string)   (* an HTTP GET: the body, as far as it could be read *)
| RunNft (script : string)           (* nft -f -, the script on its standard input *)
| Say (format : string) (args : list string).   (* fmt.Fprintf to the person, log.Printf *)

Definition ans (o : op) : Type :=
  match o with
  | Exec _ => res string
  | BusInterfaces => res (list BusInterface)
  | ReadFile _ => res string
  | MkdirTemp _ => res string
  | Symlink _ _ => res unit
  | RemoveAll _ => res unit
  | MkdirAll _ => res unit
  | WriteFile _ _ => res unit
  | Rename _ _ => res unit
  | Remove _ => res unit
  | ReadDir _ => res (list (string * bool))
  | CreateTemp _ => res string
  | WriteTemp _ _ => res unit
  | CloseTemp _ => res unit
  | Now => Z
  | Monotonic => Z
  | SysExists _ => bool
  | HostapdClients _ => res ApClients
  | SystemInfo => res Z
  | Neighbours _ => res (list neighbour)
  | SendBroadcast _ _ => res unit
  | StatMissing _ => bool
  | IwinfoPhy _ => res string
  | IwinfoInfo _ => res (string * list string)
  | IwinfoFreqs _ => res (list radioFreq)
  | WirelessStatus => res (gmap string (list (string * string)))
  | HostapdStatus _ => res (string * Z)
  | ChmodFile _ _ => res unit
  | SyncTemp _ => res unit
  | EngineUp _ => res unit
  | EngineDown => res unit
  | EngineStats => res Stats
  | EngineTun => string
  | EngineDialer => bool
  | BusSystem => res SystemReport
  | BusBoard => res Board
  | Hostname => res string
  | StatMode _ => res (bool * bool)
  | Lstat _ => res unit
  | OpenRW _ => res unit
  | Fetch _ _ => res string
  | RunNft _ => res unit
  | Say _ _ => unit
  end.

(** The answer of a router that refuses everything. *)
Definition refuse (o : op) : ans o :=
  match o return ans o with
  | Now | Monotonic => 0%Z
  | SysExists _ | StatMissing _ | EngineDialer => false
  | EngineTun => ""
  | Say _ _ => tt
  | BusSystem | BusBoard | Hostname | StatMode _ | Lstat _ | OpenRW _ | Fetch _ _ | ChmodFile _ _ | SyncTemp _ | EngineUp _ | EngineDown | EngineStats | RunNft _ | IwinfoPhy _ | IwinfoInfo _ | IwinfoFreqs _ | WirelessStatus | HostapdStatus _
  | HostapdClients _ | SystemInfo | Neighbours _ | SendBroadcast _ _ | Exec _ | BusInterfaces | ReadFile _ | MkdirTemp _ | Symlink _ _ | RemoveAll _ | MkdirAll _
  | WriteFile _ _ | Rename _ _ | Remove _ | ReadDir _ | CreateTemp _ | WriteTemp _ _ | CloseTemp _ =>
      Err (Errorf "refused" [])
  end.

Inductive prog (A : Type) : Type :=
| Ret (a : A)
| Do (o : op) (k : ans o -> prog A).
Arguments Ret {A} a.
Arguments Do {A} o k.

Fixpoint prog_bind {A B} (p : prog A) (f : A -> prog B) : prog B :=
  match p with Ret a => f a | Do o k => Do o (fun r => prog_bind (k r) f) end.

Notation "x <- p ;; k" := (prog_bind p (fun x => k))
  (at level 100, p at next level, right associativity) : go_scope.
(** [x, err := p; if err != nil { return err }]. *)
Definition try_bind {A B} (p : prog (res A)) (f : A -> prog (res B)) : prog (res B) :=
  prog_bind p (fun r => match r with Ok x => f x | Err e => Ret (Err e) end).
Notation "'let!' x := p 'in' k" := (try_bind p (fun x => k))
  (at level 10, x pattern, p at level 100, k at level 200) : go_scope.
(** The same for a part that asks nothing of the router. *)
Notation "'let*' x := m 'in' k" := (try_bind (Ret m) (fun x => k))
  (at level 10, x pattern, m at level 100, k at level 200) : go_scope.

Definition ask (o : op) : prog (ans o) := Do o Ret.
Definition exec_cmd (argv : list string) : prog (res string) := Do (Exec argv) Ret.

(** [fmt.Errorf("…: %w", err)] around an error that may be there. *)
Definition wrapping {A} (format : string) (args : list string) (r : res A) : res A :=
  match r with Ok a => Ok a | Err e => Err (Wrapf format args e) end.

Definition prog_map {A B} (f : A -> B) (p : prog A) : prog B := prog_bind p (fun a => Ret (f a)).

(** ** Execution against a router *)

Record router (W : Type) := mkRouter { answer : forall o, W -> ans o * W }.
Arguments answer {W}.

Inductive event := Did (o : op) (r : ans o).

(** A router that only answers commands. *)
Definition answering {W} (f : list string -> W -> res string * W) : router W :=
  mkRouter W (fun o w =>
    match o return ans o * W with
    | Exec argv => f argv w
    | o => (refuse o, w)
    end).

Fixpoint perform {W A} (h : router W) (p : prog A) (w : W) : A * W * list event :=
  match p with
  | Ret a => (a, w, [])
  | Do o k =>
      let '(r, w1) := answer h o w in
      let '(a, w2, tr) := perform h (k r) w1 in
      (a, w2, Did o r :: tr)
  end.

Definition result {W A} (h : router W) (p : prog A) (w : W) : A := (perform h p w).1.1.
Definition after {W A} (h : router W) (p : prog A) (w : W) : W := (perform h p w).1.2.
Definition trace {W A} (h : router W) (p : prog A) (w : W) : list event := (perform h p w).2.

Section Execution.
Context {W : Type} (h : router W).

Lemma perform_bind {A B} (p : prog A) (f : A -> prog B) w :
  perform h (prog_bind p f) w =
  (let '(a, w1, t1) := perform h p w in
   let '(b, w2, t2) := perform h (f a) w1 in (b, w2, t1 ++ t2)).
Proof.
  revert w. induction p as [a|o k IH]; intros w; cbn.
  - by destruct (perform h (f a) w) as [[? ?] ?].
  - destruct (answer h o w) as [r w1]. rewrite IH.
    destruct (perform h (k r) w1) as [[a w2] t1].
    by destruct (perform h (f a) w2) as [[? ?] ?].
Qed.

Lemma result_bind {A B} (p : prog A) (f : A -> prog B) w :
  result h (prog_bind p f) w = result h (f (result h p w)) (after h p w).
Proof.
  unfold result, after. rewrite perform_bind.
  destruct (perform h p w) as [[a w1] t1]. cbn. by destruct (perform h (f a) w1) as [[? ?] ?].
Qed.

Lemma after_bind {A B} (p : prog A) (f : A -> prog B) w :
  after h (prog_bind p f) w = after h (f (result h p w)) (after h p w).
Proof.
  unfold result, after. rewrite perform_bind.
  destruct (perform h p w) as [[a w1] t1]. cbn. by destruct (perform h (f a) w1) as [[? ?] ?].
Qed.
End Execution.

#[export] Hint Rewrite @result_bind @after_bind : vbrw.

(** ** What was asked, of a sequence *)
Section Traces.
Context {W : Type} (h : router W) (P : event -> Prop).

Lemma trace_bind {A B} (p : prog A) (f : A -> prog B) w :
  trace h (prog_bind p f) w = trace h p w ++ trace h (f (result h p w)) (after h p w).
Proof. unfold trace, result, after. rewrite perform_bind. destruct (perform h p w) as [[a w1] t1]. cbn. by destruct (perform h (f a) w1) as [[? ?] ?]. Qed.

Lemma asked_now {A B} (p : prog A) (f : A -> prog B) w : Exists P (trace h p w) -> Exists P (trace h (prog_bind p f) w).
Proof. rewrite trace_bind, Exists_app. by left. Qed.

Lemma asked_later {A B} (p : prog A) (f : A -> prog B) w :
  (forall a w', Exists P (trace h (f a) w')) -> Exists P (trace h (prog_bind p f) w).
Proof. intros Hf. rewrite trace_bind, Exists_app. by right. Qed.
End Traces.

(** ** Observers

    An observer keeps a state [S], says of each call whether it may be made in
    that state, and takes the call and its answer into account. *)
Section Observer.
Context {S : Type} (may : S -> op -> Prop) (saw : S -> event -> S).

Fixpoint wp {A} (s : S) (p : prog A) (Q : S -> A -> Prop) : Prop :=
  match p with
  | Ret a => Q s a
  | Do o k => may s o /\ forall r, wp (saw s (Did o r)) (k r) Q
  end.

Lemma wp_mono {A} s (p : prog A) (Q Q' : S -> A -> Prop) :
  wp s p Q -> (forall s a, Q s a -> Q' s a) -> wp s p Q'.
Proof. revert s. induction p as [a|o k IH]; intros s; cbn; naive_solver. Qed.

Lemma wp_bind {A B} s (p : prog A) (f : A -> prog B) Q :
  wp s p (fun s' a => wp s' (f a) Q) -> wp s (prog_bind p f) Q.
Proof. revert s. induction p as [a|o k IH]; intros s; cbn; naive_solver. Qed.

(** The rule for a sequence: what the first part leaves is where the second
    starts. *)
Lemma wp_seq {A B} s (p : prog A) (f : A -> prog B) (R : S -> A -> Prop) Q :
  wp s p R -> (forall s' a, R s' a -> wp s' (f a) Q) -> wp s (prog_bind p f) Q.
Proof. intros. apply wp_bind. eauto using wp_mono. Qed.

Definition observed (s : S) (tr : list event) : S := fold_left saw tr s.

(** Each call of a run was allowed in the state the calls before it left. *)
Fixpoint allowed (s : S) (tr : list event) : Prop :=
  match tr with
  | [] => True
  | Did o r :: tr => may s o /\ allowed (saw s (Did o r)) tr
  end.

Lemma wp_sound {W A} (h : router W) (p : prog A) s Q w :
  wp s p Q -> allowed s (trace h p w) /\ Q (observed s (trace h p w)) (result h p w).
Proof.
  unfold trace, result, observed. revert s w. induction p as [a|o k IH]; intros s w; cbn; [done|].
  intros [Hm Hk]. destruct (answer h o w) as [r w1]. specialize (IH r _ w1 (Hk r)).
  destruct (perform h (k r) w1) as [[a w2] tr]. cbn in *. tauto.
Qed.
End Observer.

(** ** What a run has heard

    The observer that remembers every call with its answer. *)
Section Heard.
Definition heard (l : list event) (e : event) : list event := l ++ [e].

(** After the calls in [l], the program ends in [Q] of all the calls so far. *)
Definition hearing {A} (l : list event) (p : prog A) (Q : list event -> A -> Prop) : Prop :=
  wp (fun _ _ => True) heard l p Q.

Lemma hearing_sound {W A} (h : router W) (p : prog A) w (Q : list event -> A -> Prop) :
  hearing [] p Q -> Q (trace h p w) (result h p w).
Proof.
  intros H. destruct (wp_sound _ _ h p [] Q w H) as [_ Hq].
  enough (forall tr l, observed heard l tr = l ++ tr) as E by (by rewrite E in Hq).
  induction tr as [|e tr IH]; intros l; cbn; [by rewrite app_nil_r|].
  unfold observed in *. rewrite IH. unfold heard. by rewrite <- app_assoc.
Qed.

(** Whatever a program asks, what was heard before stays heard. *)
Lemma hearing_any {A} l (p : prog A) (Q : list event -> A -> Prop) :
  (forall l' a, (forall e, e ∈ l -> e ∈ l') -> Q l' a) -> hearing l p Q.
Proof.
  unfold hearing. revert l. induction p as [a|o k IH]; intros l H; cbn; [by apply H|].
  split; [done|]. intros r. apply IH. intros l' a Hl. apply H. intros e He. apply Hl.
  unfold heard. set_solver.
Qed.

Lemma hearing_seq {A B} l (p : prog A) (f : A -> prog B) (R : list event -> A -> Prop) Q :
  hearing l p R -> (forall l' a, R l' a -> hearing l' (f a) Q) -> hearing l (prog_bind p f) Q.
Proof. intros. by eapply wp_seq. Qed.

(** The sequence that ends at the first error, where errors are of no concern. *)
Lemma hearing_try {A B} l (p : prog (res A)) (f : A -> prog (res B)) (R : list event -> A -> Prop)
    (Q : list event -> B -> Prop) :
  hearing l p (fun l' r => forall a, r = Ok a -> R l' a) ->
  (forall l' a, R l' a -> hearing l' (f a) (fun l'' r => forall b, r = Ok b -> Q l'' b)) ->
  hearing l (try_bind p f) (fun l'' r => forall b, r = Ok b -> Q l'' b).
Proof.
  intros Hp Hf. eapply hearing_seq; [exact Hp|]. intros l' [a|e] Hr; [by apply Hf, Hr|]. by intros b.
Qed.

Lemma hearing_ask l o (Q : list event -> ans o -> Prop) :
  (forall r, Q (l ++ [Did o r]) r) -> hearing l (ask o) Q.
Proof. intros H. by split. Qed.
End Heard.

(** ** Programs all of whose calls are of one kind *)

Section Calls.
Context (P : op -> Prop).

Fixpoint calls {A} (p : prog A) : Prop :=
  match p with Ret _ => True | Do o k => P o /\ forall r, calls (k r) end.

Lemma calls_bind {A B} (p : prog A) (f : A -> prog B) :
  calls p -> (forall a, calls (f a)) -> calls (prog_bind p f).
Proof. induction p as [a|o k IH]; cbn; naive_solver. Qed.

Lemma calls_try {A B} (p : prog (res A)) (f : A -> prog (res B)) :
  calls p -> (forall a, calls (f a)) -> calls (try_bind p f).
Proof. intros. apply calls_bind; [done|]. intros [a|e]; cbn; auto. Qed.

Lemma calls_map {A B} (g : A -> B) (p : prog A) : calls p -> calls (prog_map g p).
Proof. intros. apply calls_bind; cbn; auto. Qed.

Lemma calls_trace {W A} (h : router W) (p : prog A) w :
  calls p -> Forall (fun e => match e with Did o _ => P o end) (trace h p w).
Proof.
  unfold trace. revert w. induction p as [a|o k IH]; intros w; cbn; [constructor|].
  intros [Ho Hk]. destruct (answer h o w) as [r w1]. specialize (IH r w1 (Hk r)).
  destruct (perform h (k r) w1) as [[a w2] tr]. cbn in *. by constructor.
Qed.
End Calls.

Lemma calls_weaken (P Q : op -> Prop) {A} (p : prog A) :
  (forall o, P o -> Q o) -> calls P p -> calls Q p.
Proof. intros H. induction p as [a|o k IH]; cbn; naive_solver. Qed.

(** ** What a run ends in

    [ends h p w Q]: run from [w], the program [p] leaves a state and an answer
    in [Q]. *)
Section Ends.
Context {W : Type} (h : router W).

Definition ends {A} (p : prog A) (w : W) (Q : W -> A -> Prop) : Prop := Q (after h p w) (result h p w).

Lemma ends_Ret {A} (a : A) w (Q : W -> A -> Prop) : Q w a -> ends (Ret a) w Q.
Proof. done. Qed.

Lemma ends_Do {A} o (k : ans o -> prog A) w (Q : W -> A -> Prop) :
  (forall r w1, answer h o w = (r, w1) -> ends (k r) w1 Q) -> ends (Do o k) w Q.
Proof.
  unfold ends, after, result. cbn. destruct (answer h o w) as [r w1]. intros H.
  specialize (H r w1 eq_refl). by destruct (perform h (k r) w1) as [[a w2] tr].
Qed.

Lemma ends_ask o w (Q : W -> ans o -> Prop) :
  (forall r w1, answer h o w = (r, w1) -> Q w1 r) -> ends (ask o) w Q.
Proof. intros H. by apply ends_Do. Qed.

Lemma ends_bind {A B} (p : prog A) (f : A -> prog B) w (Q : W -> B -> Prop) :
  ends p w (fun w1 a => ends (f a) w1 Q) -> ends (prog_bind p f) w Q.
Proof. unfold ends. by rewrite result_bind, after_bind. Qed.

(** One call, and what is done with its answer. *)
Lemma ends_op {B} o (f : ans o -> prog B) w (Q : W -> B -> Prop) :
  (forall r w1, answer h o w = (r, w1) -> ends (f r) w1 Q) -> ends (prog_bind (ask o) f) w Q.
Proof. apply ends_Do. Qed.

Lemma ends_mono {A} (p : prog A) w (Q Q' : W -> A -> Prop) :
  ends p w Q -> (forall w a, Q w a -> Q' w a) -> ends p w Q'.
Proof. unfold ends. auto. Qed.

(** The rule for a sequence. *)
Lemma ends_seq {A B} (p : prog A) (f : A -> prog B) w (R : W -> A -> Prop) (Q : W -> B -> Prop) :
  ends p w R -> (forall w1 a, R w1 a -> ends (f a) w1 Q) -> ends (prog_bind p f) w Q.
Proof. intros. apply ends_bind. eauto using ends_mono. Qed.

(** ... and for one that ends at the first error. *)
Lemma ends_try {A B} (p : prog (res A)) (f : A -> prog (res B)) w (R : W -> res A -> Prop) (Q : W -> res B -> Prop) :
  ends p w R ->
  (forall w1 a, R w1 (Ok a) -> ends (f a) w1 Q) -> (forall w1 e, R w1 (Err e) -> Q w1 (Err e)) ->
  ends (try_bind p f) w Q.
Proof. intros Hp Hok Herr. eapply ends_seq; [exact Hp|]. intros w1 [a|e] Hr; [by apply Hok|by apply Herr]. Qed.

(** [if err != nil { return wrapped }] around one call. *)
Lemma ends_wrapping {A} fmt args (p : prog (res A)) w (Q : W -> res A -> Prop) :
  ends p w (fun w1 r => Q w1 (wrapping fmt args r)) ->
  ends (r <- p ;; Ret (wrapping fmt args r)) w Q.
Proof. intros H. by apply ends_bind. Qed.
End Ends.

(** The states a run passes through, the one it starts from and the one it
    ends in included: where it may be cut short, by a power cut or a kill. *)
Fixpoint stops {W A} (h : router W) (p : prog A) (w : W) : list W :=
  w :: match p with
       | Ret _ => []
       | Do o k => let '(r, w1) := answer h o w in stops h (k r) w1
       end.

Section Stops.
Context {W : Type} (h : router W) (Q : W -> Prop).

Definition throughout {A} (p : prog A) (w : W) : Prop := Forall Q (stops h p w).

Lemma throughout_Ret {A} (a : A) w : Q w -> throughout (Ret a) w.
Proof. unfold throughout. cbn. auto. Qed.

Lemma throughout_Do {A} o (k : ans o -> prog A) w :
  Q w -> (forall r w1, answer h o w = (r, w1) -> throughout (k r) w1) -> throughout (Do o k) w.
Proof.
  unfold throughout. cbn. intros Hw Hk. destruct (answer h o w) as [r w1]. constructor; auto.
Qed.

Lemma throughout_ask {A B} o (g : ans o -> res A) (f : A -> prog (res B)) w :
  Q w ->
  (forall r w1, answer h o w = (r, w1) -> match g r with Ok a => throughout (f a) w1 | Err _ => Q w1 end) ->
  throughout (let! x := r <- ask o ;; Ret (g r) in f x) w.
Proof.
  intros Hw Hk. apply throughout_Do; [done|]. intros r w1 E. specialize (Hk r w1 E). cbn.
  destruct (g r); [done|]. by apply throughout_Ret.
Qed.
End Stops.

(** ** Steps that keep something

    [keeping h R p w Q]: run from [w], each call of [p] takes the state to one
    it is related to by [R], and the run ends in [Q]. *)
Section Keeping.
Context {W : Type} (h : router W) (R : W -> W -> Prop).

Fixpoint keeping {A} (p : prog A) (w : W) (Q : W -> A -> Prop) : Prop :=
  match p with
  | Ret a => Q w a
  | Do o k => forall r w1, answer h o w = (r, w1) -> R w w1 /\ keeping (k r) w1 Q
  end.

Lemma keeping_mono {A} (p : prog A) w (Q Q' : W -> A -> Prop) :
  keeping p w Q -> (forall w a, Q w a -> Q' w a) -> keeping p w Q'.
Proof. revert w. induction p as [a|o k IH]; intros w; cbn; naive_solver. Qed.

Lemma keeping_seq {A B} (p : prog A) (f : A -> prog B) w (T : W -> A -> Prop) (Q : W -> B -> Prop) :
  keeping p w T -> (forall w1 a, T w1 a -> keeping (f a) w1 Q) -> keeping (prog_bind p f) w Q.
Proof. revert w. induction p as [a|o k IH]; intros w; cbn; naive_solver. Qed.

Lemma keeping_try {A B} (p : prog (res A)) (f : A -> prog (res B)) w (T : W -> res A -> Prop) (Q : W -> res B -> Prop) :
  keeping p w T ->
  (forall w1 a, T w1 (Ok a) -> keeping (f a) w1 Q) -> (forall w1 e, T w1 (Err e) -> Q w1 (Err e)) ->
  keeping (try_bind p f) w Q.
Proof. intros Hp Hok Herr. eapply keeping_seq; [exact Hp|]. intros w1 [a|e] Ht; [by apply Hok|by apply Herr]. Qed.

Lemma keeping_ask o w (Q : W -> ans o -> Prop) :
  (forall r w1, answer h o w = (r, w1) -> R w w1 /\ Q w1 r) -> keeping (ask o) w Q.
Proof. done. Qed.

(** Calls of one kind, each of which keeps a relation [S] to the start. *)
Lemma keeping_calls {A} (P : op -> Prop) (S : W -> W -> Prop) (p : prog A) w :
  calls P p -> Reflexive S -> Transitive S ->
  (forall o w1 w2 r, P o -> answer h o w1 = (r, w2) -> R w1 w2 /\ S w1 w2) ->
  keeping p w (fun w' _ => S w w').
Proof.
  intros Hc Hr Ht Hk. revert w. induction p as [a|o k IH]; intros w; cbn; [apply Hr|].
  destruct Hc as [Ho Hc]. intros r w1 E. destruct (Hk _ _ _ _ Ho E) as [H1 H2]. split; [done|].
  eapply keeping_mono; [by apply IH|]. intros w2 a1 H. by etrans.
Qed.

(** Of any two states on the way, the later is related to the earlier. *)
Lemma keeping_sound `{!PreOrder R} {A} (p : prog A) w (Q : W -> A -> Prop) :
  keeping p w Q -> StronglySorted R (stops h p w) /\ Q (after h p w) (result h p w).
Proof.
  unfold after, result. revert w. induction p as [a|o k IH]; intros w; cbn; [by repeat constructor|].
  destruct (answer h o w) as [r w1] eqn:E. intros Hk. destruct (Hk _ _ eq_refl) as [Hr Hp].
  destruct (IH r w1 Hp) as [Hs Hq]. split.
  - constructor; [done|]. assert (Forall (R w1) (stops h (k r) w1)) as Hall.
    { assert (exists l, stops h (k r) w1 = w1 :: l) as [l El] by (destruct (k r); eexists; reflexivity).
      rewrite El in Hs |- *. constructor; [done|]. by inversion Hs. }
    eapply Forall_impl; [exact Hall|]. intros x Hx. by etrans.
  - by destruct (perform h (k r) w1) as [[a w2] tr].
Qed.
End Keeping.
