(* ===== verification/Network.v ===== *)
(** * The connections of the router: internal/adapters/openwrt/network.go

    [networkManager] and its reading half: the list of connections, and which
    of them is the uplink. The manager's seams become the calls of [Effects];
    what remains of its fields is whether they are there at all. *)

From S2P Require Import Prelude GoStrings Effects.

(** ** internal/core/types.go *)

Record NetworkInterface := mkInterface {
  Name : string; Device : string; Up : bool; Proto : string; UptimeSec : Z;
  IPv4 : list string; IPv6 : list string; Gateway : string; Gateway6 : string; DNS : list string
}.

#[export] Instance NetworkInterface_eq_dec : EqDecision NetworkInterface.
Proof. solve_decision. Defined.

(** Go's zero value. *)
Definition noInterface : NetworkInterface := mkInterface "" "" false "" 0 [] [] "" "" [].

Definition HasDefaultRoute (i : NetworkInterface) : bool :=
  nonempty (Gateway i) || nonempty (Gateway6 i).

Record WANStatus := mkWAN { Interface : NetworkInterface; SelectedBy : string; Candidates : list string }.

(** One row of the apply bar. *)
Record ConfigChange := mkChange {
  Label : string; LabelKey : string; From : string; To : string; Dangerous : bool;
  Detail : string; Subject : string
}.

#[export] Instance ConfigChange_eq_dec : EqDecision ConfigChange.
Proof. solve_decision. Defined.

(** ** The manager *)

(** [m.bus != nil], [m.run != nil] and [m.configDir]. *)
Record networkManager := mkManager { bus : bool; runs : bool; configDir : string }.

Definition loopbackNames : gset string := {["loopback"; "lo"]}.

(** ubus.go: the IPv4 and the IPv6 default route. *)
Definition defaultVia (unspecified : string) (i : BusInterface) : option string :=
  RNexthop <$> find_first
    (fun r => String.eqb (RTarget r) unspecified && (RMask r =? 0)%Z && nonempty (RNexthop r)) (BRoute i).
Definition DefaultRoute (i : BusInterface) : option string := defaultVia "0.0.0.0" i.
Definition DefaultRoute6 (i : BusInterface) : option string := defaultVia "::" i.

Definition cidr (a : Address) : string := AddressOf a +:+ "/" +:+ Itoa (MaskOf a).

Definition toCoreInterface (i : BusInterface) : NetworkInterface :=
  mkInterface (BName i) (if nonempty (BL3Device i) then BL3Device i else BDevice i) (BUp i) (BProto i)
    (BUptime i) (cidr <$> BIPv4Address i) (cidr <$> BIPv6Address i)
    (default "" (DefaultRoute i)) (default "" (DefaultRoute6 i)) (BDNSServer i).

Definition by_name (a b : NetworkInterface) : bool := str_le (Name a) (Name b).

(** The list, in the order of the names. The bus may list one name twice only
    if netifd does; the order of such a pair is the bus's here. *)
Definition Interfaces (m : networkManager) : prog (res (list NetworkInterface)) :=
  if negb (bus m) then Ret (Err ErrNotImplemented) else
  raw <- ask BusInterfaces ;;
  match raw with
  | Err e => Ret (Err (Wrapf "openwrt: list interfaces" [] e))
  | Ok raw => Ret (Ok (sort_by by_name (toCoreInterface <$> raw)))
  end.

Definition pickByName (candidates : list NetworkInterface) : option NetworkInterface :=
  match find_first (fun c => EqualFold (Name c) "wan") candidates with
  | Some c => Some c
  | None =>
      match filter (fun c => Contains "wan" (ToLower (Name c)) = true) candidates with
      | [c] => Some c
      | _ => None
      end
  end.

Definition candidate (i : NetworkInterface) : bool :=
  negb (has loopbackNames (Name i)) && HasDefaultRoute i.

(** [WANInfo] on the list it was given. *)
Definition chooseWAN (ifaces : list NetworkInterface) : res WANStatus :=
  let candidates := filter (fun i => candidate i = true) ifaces in
  let names := Name <$> candidates in
  match candidates with
  | [] => Err ErrNoWAN
  | [c] => Ok (mkWAN c "default-route" names)
  | c :: _ =>
      match pickByName candidates with
      | Some i => Ok (mkWAN i "name" names)
      | None => Ok (mkWAN c "first-candidate" names)
      end
  end.

Definition WANInfo (m : networkManager) : prog (res WANStatus) :=
  let! ifaces := Interfaces m in Ret (chooseWAN ifaces).

(** ** Properties *)

Lemma Interfaces_calls m : calls (fun o => o = BusInterfaces) (Interfaces m).
Proof. unfold Interfaces. destruct (negb (bus m)); cbn; [done|]. split; [done|]. by intros [?|?]. Qed.

Lemma WANInfo_calls m : calls (fun o => o = BusInterfaces) (WANInfo m).
Proof. apply calls_try; [apply Interfaces_calls|done]. Qed.

(** The uplink of a list: what each rule promises. *)
Definition uplink_spec (ifaces : list NetworkInterface) (s : WANStatus) : Prop :=
  Interface s ∈ ifaces /\ candidate (Interface s) = true /\
  Candidates s = Name <$> filter (fun i => candidate i = true) ifaces /\
  ((SelectedBy s = "default-route" /\ Candidates s = [Name (Interface s)]) \/
   (SelectedBy s = "name" /\ Contains "wan" (ToLower (Name (Interface s))) = true) \/
   (SelectedBy s = "first-candidate" /\ head (Candidates s) = Some (Name (Interface s)))).

(** Letters differ from their other case in the fold only. *)
Lemma EqualFold_wan n : EqualFold n "wan" = true -> Contains "wan" (ToLower n) = true.
Proof.
  unfold EqualFold. intros H. bool_to_prop. rewrite H. reflexivity.
Qed.

Lemma pickByName_spec l c :
  pickByName l = Some c -> c ∈ l /\ Contains "wan" (ToLower (Name c)) = true.
Proof.
  unfold pickByName. destruct (find_first _ l) as [d|] eqn:E.
  - intros [= ->]. apply find_first_Some in E as [Hi Hd].
    split; [done|by apply EqualFold_wan].
  - destruct (filter _ l) as [|d [|? ?]] eqn:F; [done| |done]. intros [= ->].
    assert (c ∈ filter (fun c => Contains "wan" (ToLower (Name c)) = true) l) as H
      by (rewrite F; set_solver).
    apply list_elem_of_filter in H. tauto.
Qed.

Lemma chooseWAN_spec ifaces :
  match chooseWAN ifaces with
  | Ok s => uplink_spec ifaces s
  | Err e => e = ErrNoWAN /\ Forall (fun i => candidate i = false) ifaces
  end.
Proof.
  unfold chooseWAN, uplink_spec.
  assert (forall i, i ∈ filter (fun i => candidate i = true) ifaces ->
    i ∈ ifaces /\ candidate i = true) as Hin by (intros i; rewrite list_elem_of_filter; tauto).
  destruct (filter _ ifaces) as [|c [|d l]] eqn:E.
  - split; [done|]. apply Forall_forall. intros i Hi. destruct (candidate i) eqn:Ei; [|done].
    assert (i ∈ filter (fun i => candidate i = true) ifaces) as H by (by apply list_elem_of_filter).
    rewrite E in H. by apply not_elem_of_nil in H.
  - destruct (Hin c); [left|]. cbn. auto 10.
  - destruct (pickByName (c :: d :: l)) as [i|] eqn:Ep; cbn.
    + apply pickByName_spec in Ep as [Hi Hw]. destruct (Hin i); auto 10.
    + destruct (Hin c); [left|]. auto 10.
Qed.

(** WANInfo answers with a connection that has a default route and is not
    loopback, lists every such connection, and says truthfully by which rule it
    chose; it finds none only when there is none - whatever the bus answers. *)
Theorem WANInfo_finds_the_uplink {W} (h : router W) (m : networkManager) (w : W) ifaces :
  result h (Interfaces m) w = Ok ifaces ->
  match result h (WANInfo m) w with
  | Ok s => uplink_spec ifaces s
  | Err e => e = ErrNoWAN /\ Forall (fun i => candidate i = false) ifaces
  end.
Proof.
  intros H. unfold WANInfo, try_bind. rewrite result_bind, H. apply chooseWAN_spec.
Qed.

(** A router with a local network and two uplinks, the second named so. *)
Definition stand : router unit :=
  mkRouter unit (fun o w =>
    (match o return ans o with
     | BusInterfaces => Ok
         [mkBusInterface "lanwan" true 5 "dhcp" "eth2" "eth2" [mkAddress "10.0.0.2" 24] []
            [mkBusRoute "0.0.0.0" 0 "10.0.0.1"] [] [];
          mkBusInterface "lan" true 9 "static" "br-lan" "br-lan" [mkAddress "192.168.1.1" 24] [] [] [] [];
          mkBusInterface "WAN" true 7 "dhcp" "eth1" "" [mkAddress "10.0.0.3" 24] []
            [mkBusRoute "0.0.0.0" 0 "10.0.0.1"] [] []]
     | o => refuse o
     end, w)).

Lemma WANInfo_finds_the_uplink_witness :
  exists ifaces s, result stand (Interfaces (mkManager true true "")) tt = Ok ifaces /\
    result stand (WANInfo (mkManager true true "")) tt = Ok s /\ Network.Name (Interface s) = "WAN" /\
    match result stand (WANInfo (mkManager true true "")) tt with
    | Ok s => uplink_spec ifaces s
    | Err e => e = ErrNoWAN /\ Forall (fun i => candidate i = false) ifaces
    end.
Proof.
  eexists _, _. split; [vm_compute; reflexivity|]. split; [vm_compute; reflexivity|].
  split; [reflexivity|].
  apply (WANInfo_finds_the_uplink stand (mkManager true true "") tt). vm_compute. reflexivity.
Defined.
