(* ===== verification/GoNet.v ===== *)
(** * Go's packages net and net/netip

    The part of the two packages the modelled code calls: addresses, networks
    and hardware addresses, read and printed. An IPv4 address is its 32-bit
    value, an IPv6 address its 128-bit value with the zone it is written with.
    What a parser says when it refuses is never looked at, so parsers answer
    [None]. *)

From S2P Require Import Prelude GoStrings.

(** ** IPv4 *)

(** One field of a dotted address: no leading zero, at most 255. *)
Definition leading_zero (s : string) : bool :=
  match s with String "0" (String _ _) => true | _ => false end.

Definition octet (s : string) : option Z :=
  if leading_zero s then None else
  match parse_udec s with Some n => if (n <=? 255)%Z then Some n else None | None => None end.

Definition parse4 (s : string) : option Z :=
  match Split "." s with
  | [a; b; c; d] =>
      match octet a, octet b, octet c, octet d with
      | Some a, Some b, Some c, Some d => Some (a * 2 ^ 24 + b * 2 ^ 16 + c * 2 ^ 8 + d)%Z
      | _, _, _, _ => None
      end
  | _ => None
  end.

Definition byte_of (v i : Z) : Z := Z.land (Z.shiftr v (8 * i)) 255.

Definition string4 (v : Z) : string :=
  Itoa (byte_of v 3) +:+ "." +:+ Itoa (byte_of v 2) +:+ "." +:+
  Itoa (byte_of v 1) +:+ "." +:+ Itoa (byte_of v 0).

(** ** IPv6 *)

(** The hexadecimal digits a string starts with, and what follows them. *)
Fixpoint hex_run (s : string) : string * string :=
  match s with
  | String c r =>
      match hex_digit c with
      | Some _ => let (d, rest) := hex_run r in (String c d, rest)
      | None => ("", s)
      end
  | EmptyString => ("", "")
  end.

(** The 16-bit groups of an address without its zone. [groups] are the ones
    read, last first; [ell] is how many were before the "::". The result is
    the groups in order with the place of the "::". *)
Fixpoint groups6 (fuel : nat) (groups : list Z) (ell : option nat) (s : string)
    : option (list Z * option nat) :=
  match fuel with
  | O => None
  | S fuel =>
      if decide (8 <= length groups) then (if nonempty s then None else Some (rev groups, ell)) else
      let (d, rest) := hex_run s in
      match d with
      | EmptyString => None
      | _ =>
          if decide (4 < String.length d) then None else
          let acc := default 0%Z (hex_val 0 d) in
          match rest with
          | String "." _ =>
              if decide (ell = None /\ length groups <> 6) then None else
              if decide (6 < length groups) then None else
              match parse4 s with
              | Some v => Some (rev (Z.land v 65535 :: Z.shiftr v 16 :: groups), ell)
              | None => None
              end
          | EmptyString => Some (rev (acc :: groups), ell)
          | String ":" EmptyString => None
          | String ":" (String ":" r) =>
              match ell with
              | Some _ => None
              | None =>
                  let ell := Some (S (length groups)) in
                  if nonempty r then groups6 fuel (acc :: groups) ell r
                  else Some (rev (acc :: groups), ell)
              end
          | String ":" r => groups6 fuel (acc :: groups) ell r
          | _ => None
          end
      end
  end.

Definition value6 (groups : list Z) : Z := fold_left (fun v g => Z.lor (Z.shiftl v 16) g) groups 0%Z.

(** The "::" stands for the groups that are missing, at least one. *)
Definition expand6 (gs : list Z * option nat) : option Z :=
  let (g, ell) := gs in
  match ell with
  | None => if decide (length g = 8) then Some (value6 g) else None
  | Some e =>
      if decide (length g < 8)
      then Some (value6 (take e g ++ replicate (8 - length g) 0%Z ++ list.drop e g))
      else None
  end.

Definition parse6 (s : string) : option Z :=
  match s with
  | String ":" (String ":" EmptyString) => Some 0%Z
  | String ":" (String ":" r) => groups6 9 [] (Some 0) r ≫= expand6
  | _ => groups6 9 [] None s ≫= expand6
  end.

(** ** netip.Addr *)

Inductive Addr :=
| NoAddr                        (* the zero Addr *)
| Addr4 (v : Z)
| Addr6 (v : Z) (zone : string).

#[export] Instance Addr_eq_dec : EqDecision Addr.
Proof. solve_decision. Defined.

Fixpoint chars (s : string) : list ascii :=
  match s with EmptyString => [] | String c r => c :: chars r end.

(** netip.ParseAddr: the first ".", ":" or "%" decides the family. *)
Definition ParseAddr (s : string) : option Addr :=
  match find_first (fun c => contains ["."; ":"; "%"] (String c "")) (chars s) with
  | None => None
  | Some c =>
      if decide (c = "."%char) then Addr4 <$> parse4 s
      else if decide (c = ":"%char) then
        match Cut "%" s with
        | None => (fun v => Addr6 v "") <$> parse6 s
        | Some (a, zone) => if nonempty zone then (fun v => Addr6 v zone) <$> parse6 a else None
        end
      else None
  end.

Lemma ParseAddr_v4 s v : ParseAddr s = Some (Addr4 v) -> parse4 s = Some v.
Proof.
  unfold ParseAddr. intros H. destruct (find_first _ _) as [c|]; [|done].
  case_decide; [by destruct (parse4 s); simplify_eq/=|]. case_decide; [|done].
  destruct (Cut "%" s) as [[a zone]|]; [destruct (nonempty zone); [|done]; by destruct (parse6 a)|].
  by destruct (parse6 s).
Qed.

Definition IsValid (a : Addr) : bool := match a with NoAddr => false | _ => true end.
Definition Is4 (a : Addr) : bool := match a with Addr4 _ => true | _ => false end.
Definition Is6 (a : Addr) : bool := match a with Addr6 _ _ => true | _ => false end.
Definition BitLen (a : Addr) : Z := match a with NoAddr => 0 | Addr4 _ => 32 | Addr6 _ _ => 128 end.
Definition value (a : Addr) : Z := match a with NoAddr => 0 | Addr4 v => v | Addr6 v _ => v end.

(** The high 96 bits of an IPv4 address in IPv6 form. *)
Definition mapped (v : Z) : bool := (Z.shiftr v 32 =? 65535)%Z.
Definition Is4In6 (a : Addr) : bool := match a with Addr6 v _ => mapped v | _ => false end.
Definition Unmap (a : Addr) : Addr :=
  match a with Addr6 v _ => if mapped v then Addr4 (Z.land v (2 ^ 32 - 1)) else a | _ => a end.

Definition group6 (v : Z) (i : nat) : Z := Z.land (Z.shiftr v (16 * Z.of_nat (7 - i))) 65535.
Definition groups_of (v : Z) : list Z := group6 v <$> seq 0 8.

Fixpoint zero_run (g : list Z) : nat :=
  match g with x :: g => if (x =? 0)%Z then S (zero_run g) else 0 | [] => 0 end.

(** The longest run of two or more zero groups, the first of equal ones. *)
Fixpoint longest_run (i : nat) (best : nat * nat) (g : list Z) : nat * nat :=
  match g with
  | [] => best
  | _ :: g' =>
      let l := zero_run g in
      longest_run (S i) (if decide (2 <= l /\ snd best < l) then (i, l) else best) g'
  end.

Definition string6 (v : Z) : string :=
  let g := groups_of v in
  let (start, len) := longest_run 0 (0, 0) g in
  let hex l := Join ":" (uhex <$> l) in
  if decide (len = 0) then hex g
  else hex (take start g) +:+ "::" +:+ hex (list.drop (start + len) g).

Definition with_zone (s zone : string) : string := if nonempty zone then s +:+ "%" +:+ zone else s.

Definition AddrString (a : Addr) : string :=
  match a with
  | NoAddr => "invalid IP"
  | Addr4 v => string4 v
  | Addr6 v zone =>
      with_zone (if mapped v then "::ffff:" +:+ string4 (Z.land v (2 ^ 32 - 1)) else string6 v) zone
  end.

(** ** netip.Prefix *)

(** The zero Prefix is [mkPrefix NoAddr (-1)]. *)
Record Prefix := mkPrefix { PAddr : Addr; PBits : Z }.

#[export] Instance Prefix_eq_dec : EqDecision Prefix.
Proof. solve_decision. Defined.

Definition NoPrefix : Prefix := mkPrefix NoAddr (-1).

(** netip.PrefixFrom: a length the address does not have makes it invalid. *)
Definition PrefixFrom (a : Addr) (bits : Z) : Prefix :=
  let a := match a with Addr6 v _ => Addr6 v "" | _ => a end in
  mkPrefix a (if IsValid a && (0 <=? bits)%Z && (bits <=? BitLen a)%Z then bits else (-1)%Z).

Definition PrefixIsValid (p : Prefix) : bool := (0 <=? PBits p)%Z.

(** The part of a value its first [ones] bits of [bits] are in. *)
Definition network_part (bits ones v : Z) : Z := Z.shiftl (Z.shiftr v (bits - ones)) (bits - ones).

Definition Masked (p : Prefix) : Prefix :=
  if PrefixIsValid p then
    match PAddr p with
    | NoAddr => NoPrefix
    | Addr4 v => mkPrefix (Addr4 (network_part 32 (PBits p) v)) (PBits p)
    | Addr6 v z => mkPrefix (Addr6 (network_part 128 (PBits p) v) z) (PBits p)
    end
  else NoPrefix.

Definition PrefixContains (p : Prefix) (a : Addr) : bool :=
  PrefixIsValid p &&
  match PAddr p, a with
  | Addr4 n, Addr4 v => (network_part 32 (PBits p) n =? network_part 32 (PBits p) v)%Z
  | Addr6 n _, Addr6 v "" => (network_part 128 (PBits p) n =? network_part 128 (PBits p) v)%Z
  | _, _ => false
  end.

Definition PrefixString (p : Prefix) : string :=
  if PrefixIsValid p then AddrString (PAddr p) +:+ "/" +:+ Itoa (PBits p) else "invalid Prefix".

(** strings.LastIndexByte of the slash. *)
Definition cut_last (sep : ascii) (s : string) : option (string * string) :=
  match Cut sep (rev_string s) with
  | Some (b, a) => Some (rev_string a, rev_string b)
  | None => None
  end.

Definition prefix_bits (a : Addr) (s : string) : option Z :=
  let bad := match s with String c (String _ _) => negb (is_digit c && bool_decide (c <> "0"%char)) | _ => false end in
  if bad then None else
  match Atoi s with
  | Some n => if (0 <=? n)%Z && (n <=? BitLen a)%Z then Some n else None
  | None => None
  end.

Definition ParsePrefix (s : string) : option Prefix :=
  match cut_last "/" s with
  | None => None
  | Some (addr, bits) =>
      match ParseAddr addr with
      | None | Some NoAddr => None
      | Some (Addr6 _ (String _ _)) => None
      | Some a => PrefixFrom a <$> prefix_bits a bits
      end
  end.

(** ** net.IP *)

(** A [net.IP] is its 16-byte form; an IPv4 address has the prefix of [mapped]. *)
Definition to16 (a : Addr) : Z :=
  match a with NoAddr => 0 | Addr4 v => Z.lor (Z.shiftl 65535 32) v | Addr6 v _ => v end.

(** net.ParseIP, [None] for nil. *)
Definition ParseIP (s : string) : option Z :=
  match ParseAddr s with
  | Some (Addr6 _ (String _ _)) | Some NoAddr | None => None
  | Some a => Some (to16 a)
  end.

(** [ip.To4()], the four bytes as a number. *)
Definition To4 (ip : Z) : option Z := if mapped ip then Some (Z.land ip (2 ^ 32 - 1)) else None.

(** [ip := net.ParseIP(s); ip != nil && ip.To4() != nil]. *)
Definition ParseIP4 (s : string) : option Z := ParseIP s ≫= To4.

Definition IPString (ip : Z) : string :=
  match To4 ip with Some v => string4 v | None => string6 ip end.

(** [net.IPMask(b).Size()] of four bytes: the ones of a mask of the form 1…10…0. *)
Fixpoint mask_ones (n : nat) (v : Z) : option Z :=
  if (v =? Z.shiftl (2 ^ Z.of_nat n - 1) (32 - Z.of_nat n))%Z then Some (Z.of_nat n) else
  match n with O => None | S n => mask_ones n v end.
Definition MaskSize (v : Z) : option Z := mask_ones 32 v.

(** ** net.IPNet *)

(** The network address in 16-byte form, the mask's length, and of how many
    bits. *)
Record IPNet := mkIPNet { NetIP : Z; NetOnes : Z; NetBits : Z }.

#[export] Instance IPNet_eq_dec : EqDecision IPNet.
Proof. solve_decision. Defined.

(** The length of a mask: leading zeros are accepted, a sign is not. *)
Definition dtoi (s : string) : option Z :=
  match parse_udec s with Some n => if (n <? 16777215)%Z then Some n else None | None => None end.

Definition ParseCIDR (s : string) : option (Z * IPNet) :=
  match Cut "/" s with
  | None => None
  | Some (addr, mask) =>
      match ParseAddr addr, dtoi mask with
      | Some (Addr4 v), Some n =>
          if (n <=? 32)%Z
          then Some (to16 (Addr4 v), mkIPNet (to16 (Addr4 (network_part 32 n v))) n 32)
          else None
      | Some (Addr6 v ""), Some n =>
          if (n <=? 128)%Z then Some (v, mkIPNet (network_part 128 n v) n 128) else None
      | _, _ => None
      end
  end.

(** The ones of the mask that bear on the four bytes of an IPv4 network. *)
Definition net_ones4 (n : IPNet) : Z := if (NetBits n =? 32)%Z then NetOnes n else Z.max 0 (NetOnes n - 96).

Definition NetContains (n : IPNet) (ip : Z) : bool :=
  match To4 (NetIP n), To4 ip with
  | Some a, Some b => (network_part 32 (net_ones4 n) a =? network_part 32 (net_ones4 n) b)%Z
  | None, None => (NetBits n =? 128)%Z && (network_part 128 (NetOnes n) (NetIP n) =? network_part 128 (NetOnes n) ip)%Z
  | _, _ => false
  end.

Definition NetString (n : IPNet) : string :=
  IPString (NetIP n) +:+ "/" +:+
  Itoa (match To4 (NetIP n) with Some _ => net_ones4 n | None => NetOnes n end).

(** ** net.HardwareAddr *)

Definition hex_byte (s : string) : option Z :=
  match s with
  | String a (String b EmptyString) =>
      match hex_digit a, hex_digit b with Some x, Some y => Some (x * 16 + y)%Z | _, _ => None end
  | _ => None
  end.

Definition hex_pair (s : string) : option (list Z) :=
  match s with
  | String a (String b (String c (String d EmptyString))) =>
      match hex_byte (String a (String b "")), hex_byte (String c (String d "")) with
      | Some x, Some y => Some [x; y]
      | _, _ => None
      end
  | _ => None
  end.

Definition mac_length (l : list Z) : option (list Z) :=
  if decide (length l = 6 \/ length l = 8 \/ length l = 20) then Some l else None.

(** net.ParseMAC: bytes between ":" or "-", or pairs of bytes between ".". The
    first separator decides. *)
Definition ParseMAC (s : string) : option (list Z) :=
  if decide (String.length s < 14) then None else
  match String.get 2 s, String.get 4 s with
  | Some ":"%char, _ => mapM hex_byte (Split ":" s) ≫= mac_length
  | Some "-"%char, _ => mapM hex_byte (Split "-" s) ≫= mac_length
  | _, Some "."%char => (mjoin (M:=list) <$> mapM hex_pair (Split "." s)) ≫= mac_length
  | _, _ => None
  end.

Definition hex2 (b : Z) : string := String (hex_char (b / 16)) (String (hex_char (b mod 16)) "").
Definition MACString (hw : list Z) : string := Join ":" (hex2 <$> hw).

(** ** Addresses survive printing *)

Lemma octet_all :
  forallb (fun b => bool_decide (octet (Itoa b) = Some b) && lacks "." (Itoa b) && lacks ":" (Itoa b)
                    && lacks "%" (Itoa b) && lacks "/" (Itoa b))
    (seqZ 0 256) = true.
Proof. vm_compute. reflexivity. Qed.

Lemma octet_Itoa b : (0 <= b < 256)%Z -> octet (Itoa b) = Some b /\ lacks "." (Itoa b) = true.
Proof.
  intros H. pose proof octet_all as Ha. rewrite forallb_elem in Ha.
  specialize (Ha b). rewrite elem_of_seqZ in Ha. specialize (Ha ltac:(lia)). by bool_to_prop.
Qed.

Lemma byte_of_range v i : (0 <= byte_of v i < 256)%Z.
Proof.
  unfold byte_of. change 255%Z with (Z.ones 8). rewrite Z.land_ones by lia.
  by apply Z.mod_pos_bound.
Qed.

Lemma byte_of_div v i : (0 <= i)%Z -> byte_of v i = ((v / 2 ^ (8 * i)) mod 256)%Z.
Proof.
  intros. unfold byte_of. change 255%Z with (Z.ones 8). by rewrite Z.land_ones, Z.shiftr_div_pow2 by lia.
Qed.

Lemma bytes_value v :
  (0 <= v < 2 ^ 32)%Z ->
  (byte_of v 3 * 2 ^ 24 + byte_of v 2 * 2 ^ 16 + byte_of v 1 * 2 ^ 8 + byte_of v 0)%Z = v.
Proof.
  intros H. rewrite !byte_of_div by lia.
  change (2 ^ (8 * 3))%Z with 16777216%Z. change (2 ^ (8 * 2))%Z with 65536%Z.
  change (2 ^ (8 * 1))%Z with 256%Z. change (2 ^ (8 * 0))%Z with 1%Z.
  change (2 ^ 24)%Z with 16777216%Z. change (2 ^ 16)%Z with 65536%Z. change (2 ^ 8)%Z with 256%Z.
  change (2 ^ 32)%Z with 4294967296%Z in H. Z.to_euclidean_division_equations. lia.
Qed.

Lemma parse4_string4 v : (0 <= v < 2 ^ 32)%Z -> parse4 (string4 v) = Some v.
Proof.
  intros H. unfold parse4, string4.
  destruct (octet_Itoa _ (byte_of_range v 3)) as [Ha La]. destruct (octet_Itoa _ (byte_of_range v 2)) as [Hb Lb].
  destruct (octet_Itoa _ (byte_of_range v 1)) as [Hc Lc]. destruct (octet_Itoa _ (byte_of_range v 0)) as [Hd Ld].
  rewrite !append_cons, !append_nil_l.
  rewrite !Split_sep, Split_lacks by done.
  rewrite Ha, Hb, Hc, Hd. f_equal. by apply bytes_value.
Qed.

Lemma find_first_skip (s r : string) (p : ascii -> bool) :
  all_chars (fun c => negb (p c)) s = true -> find_first p (chars (s +:+ r)) = find_first p (chars r).
Proof.
  induction s as [|c s IH]; intros H; [done|]. rewrite append_cons. cbn in *. bool_to_prop.
  by rewrite H, IH.
Qed.

Definition addr_mark (c : ascii) : bool := contains ["."; ":"; "%"] (String c "").

Lemma octet_plain_all :
  forallb (fun b => all_chars (fun c => negb (addr_mark c)) (Itoa b)) (seqZ 0 256) = true.
Proof. vm_compute. reflexivity. Qed.

Lemma octet_plain b : (0 <= b < 256)%Z -> all_chars (fun c => negb (addr_mark c)) (Itoa b) = true.
Proof.
  intros H. pose proof octet_plain_all as Ha. rewrite forallb_elem in Ha. apply Ha.
  rewrite elem_of_seqZ. lia.
Qed.

Lemma ParseAddr_string4 v : (0 <= v < 2 ^ 32)%Z -> ParseAddr (string4 v) = Some (Addr4 v).
Proof.
  intros H. unfold ParseAddr. fold addr_mark.
  replace (find_first _ (chars (string4 v))) with (Some "."%char).
  - rewrite decide_True by done. by rewrite parse4_string4.
  - unfold string4. rewrite find_first_skip; [done|]. apply octet_plain, byte_of_range.
Qed.

Lemma mapped_to16 v : (0 <= v < 2 ^ 32)%Z -> To4 (to16 (Addr4 v)) = Some v.
Proof.
  intros H. unfold To4, mapped, to16.
  rewrite Z.shiftr_lor, Z.shiftr_shiftl_l, Z.sub_diag, Z.shiftl_0_r by lia.
  rewrite (Z.shiftr_div_pow2 v), (Z.div_small v), Z.lor_0_r by lia. cbn [Z.eqb].
  change (65535 =? 65535)%Z with true. cbn iota. f_equal.
  change (2 ^ 32 - 1)%Z with (Z.ones 32). rewrite Z.land_lor_distr_l, !Z.land_ones by lia.
  rewrite Z.shiftl_mul_pow2, Z.mod_mul, Z.lor_0_l by lia. by apply Z.mod_small.
Qed.

Lemma ParseIP4_string4 v : (0 <= v < 2 ^ 32)%Z -> ParseIP4 (string4 v) = Some v.
Proof.
  intros H. unfold ParseIP4, ParseIP. rewrite ParseAddr_string4 by done. cbn. by apply mapped_to16.
Qed.

#[export] Hint Resolve ParseAddr_string4 ParseIP4_string4 mapped_to16 : vb.
