(* ===== verification/Uci.v ===== *)
(** * What uci prints, and the names it takes

    The readers of [uci show] and [uci changes] and the guards on the names
    handed back to it, from internal/adapters/openwrt: network_write.go,
    firewall.go and lan_write.go. *)

From S2P Require Import Prelude GoStrings.

(** ** Names: the regular expressions, as they are anchored at both ends *)

Definition word_char (c : ascii) : bool := is_alnum c || bool_decide (c = "_"%char).

Definition len_between (lo hi : nat) (s : string) : bool :=
  bool_decide (lo <= String.length s) && bool_decide (String.length s <= hi).

(** [^[a-zA-Z0-9_]{1,32}$] *)
Definition sectionNameRe (s : string) : bool := all_chars word_char s && len_between 1 32 s.

(** [^@[a-zA-Z0-9_]{1,32}\[[0-9]{1,6}\]$] *)
Definition anonSectionRe (s : string) : bool :=
  match s with
  | String "@" r =>
      match Cut "[" r with
      | Some (name, rest) =>
          sectionNameRe name && HasSuffix "]" rest &&
          (let n := TrimSuffix "]" rest in all_chars is_digit n && len_between 1 6 n)
      | None => false
      end
  | _ => false
  end.

Definition sectionOk (s : string) : bool := sectionNameRe s || anonSectionRe s.

(** [[a-zA-Z0-9_][a-zA-Z0-9_-]{0,63}] *)
Definition key_part (s : string) : bool :=
  match s with
  | String c r =>
      word_char c && all_chars (fun c => word_char c || bool_decide (c = "-"%char)) r && len_between 0 63 r
  | EmptyString => false
  end.

(** [^[a-zA-Z0-9_]{1,32}(\.[a-zA-Z0-9_][a-zA-Z0-9_-]{0,63}){1,2}$] *)
Definition uciKeyRe (s : string) : bool :=
  match Split "." s with
  | [a; b] => sectionNameRe a && key_part b
  | [a; b; c] => sectionNameRe a && key_part b && key_part c
  | _ => false
  end.

(** [^cfg[0-9a-f]{6}$] *)
Definition anonInternalRe (s : string) : bool :=
  HasPrefix "cfg" s &&
  (let r := drop 3 s in
   all_chars (fun c => is_digit c || ((97 <=? code c) && (code c <=? 102))%Z) r && len_between 6 6 r).

(** [^[a-zA-Z0-9]([a-zA-Z0-9-]{0,61}[a-zA-Z0-9])?$] *)
Definition hostNameRe (s : string) : bool :=
  match s, rev_string s with
  | String a _, String b _ =>
      is_alnum a && is_alnum b && len_between 1 63 s &&
      all_chars (fun c => is_alnum c || bool_decide (c = "-"%char)) s
  | _, _ => false
  end.

(** ** Values *)

(** The items at the odd positions of a list, from its head on. *)
Fixpoint odds {A} (l : list A) : list A :=
  match l with _ :: x :: l => x :: odds l | _ => [] end.

(** A list is printed ['a' 'b'] and read as [a b]. *)
Definition unquoteUCI (v : string) : string :=
  let v := TrimSpace v in
  if negb (Contains "'" v) then v else
  Join " " (filter (fun s => nonempty s = true) (odds (Split "'" v))).

Definition isDigits (s : string) : bool := nonempty s && all_chars is_digit s.

Definition firstNonEmpty (values : list string) : string := default "" (find_first nonempty values).

Definition lines (s : string) : list string := Split "010" s.

(** ** uci show, by section *)

Record uciSection := mkSection { id : string; kind : string; options : gmap string string }.

(** The section [sid] if it is there, changed by [f]. *)
Definition on_section (sid : string) (f : uciSection -> uciSection) (l : list uciSection) : list uciSection :=
  (fun s => if decide (id s = sid) then f s else s) <$> l.

Definition known (sid : string) (l : list uciSection) : bool :=
  existsb (fun s => bool_decide (id s = sid)) l.

Definition add_line (acc : list uciSection) (line : string) : list uciSection :=
  match Cut "=" (TrimSpace line) with
  | None => acc
  | Some (key, value) =>
      match Cut "." key with
      | None => acc
      | Some (_, rest) =>
          match Cut "." rest with
          | None =>
              let acc := if known rest acc then acc else acc ++ [mkSection rest "" ∅] in
              on_section rest (fun s => mkSection (id s) (unquoteUCI value) (options s)) acc
          | Some (sid, option) =>
              on_section sid (fun s => mkSection (id s) (kind s) (<[option := unquoteUCI value]> (options s))) acc
          end
      end
  end.

Definition parseUCISections (out : string) : list uciSection := fold_left add_line (lines out) [].

(** ** uci show, by key *)

Definition show_line (config line : string) : option (string * string) :=
  match Cut "=" (TrimSpace line) with
  | None => None
  | Some (key, value) =>
      match Cut "." key with
      | None => None
      | Some (_, rest) => Some (config +:+ "." +:+ rest, unquoteUCI value)
      end
  end.

Definition parseUCIShow (config out : string) : gmap string string :=
  fold_left (fun m line => match show_line config line with Some (k, v) => <[k := v]> m | None => m end)
    (lines out) ∅.

(** The way back: what [uci show] would print for a map of keys. *)
Definition showOf (values : gmap string string) : string :=
  Join "" ((fun k => k +:+ "='" +:+ get values k +:+ "'" +:+ String "010" "") <$>
    sort_strings (elements (dom values))).

(** ** uci changes *)

Record stagedEdit := mkEdit {
  key : string; config : string; section : string; option_ : string; reorder : bool }.

Definition staged_line (line : string) : option stagedEdit :=
  let line := TrimSpace line in
  if negb (nonempty line) then None else
  let removal := HasPrefix "-" line in
  let line := TrimPrefix "+" (TrimPrefix "-" line) in
  let '(k, v, hasValue) := match Cut "=" line with Some (k, v) => (k, v, true) | None => (line, "", false) end in
  if negb hasValue && negb removal then None else
  let k := TrimSuffix "+" k in
  match Split "." k with
  | c :: s :: rest =>
      let o := default "" (last rest) in
      Some (mkEdit k c s o (negb (nonempty o) && negb removal && isDigits (unquoteUCI v)))
  | _ => None
  end.

Definition parseStagedEdits (out : string) : list stagedEdit := omap staged_line (lines out).

(** ** Which keys a draft touches *)

(** [add] of the code: each value once, in the order of first mention. *)
Definition add_once (out : list string) (k : string) : list string :=
  if negb (nonempty k) || contains out k then out else out ++ [k].

Definition wholeEntryOptions (config : string) : list string :=
  if decide (config = "dhcp") then ["mac"; "ip"; "name"]
  else if decide (config = "firewall") then
    ["weekdays"; "start_time"; "stop_time"; "enabled"; "name"; "src"; "dest"; "proto"; "dest_port";
     "target"; "family"; "src_mac"; "src_dport"; "dest_ip"]
  else [].

Definition routeEntryOptions : list string := ["name"; "target"; "netmask"; "gateway"; "interface"].

Definition edit_keys (e : stagedEdit) : list string :=
  let sec := config e +:+ "." +:+ section e in
  [key e; sec] ++
  ((fun o => sec +:+ "." +:+ o) <$> wholeEntryOptions (config e)) ++
  (if bool_decide (config e = "network") && anonInternalRe (section e)
   then (fun o => sec +:+ "." +:+ o) <$> routeEntryOptions else []).

Definition keysOf (edits : list stagedEdit) (conf : string) : list string :=
  fold_left add_once (mjoin (edit_keys <$> filter (fun e => config e = conf) edits)) [].

Definition configsOf (edits : list stagedEdit) : list string :=
  fold_left add_once (config <$> edits) [].

Definition missingKeys (values : gmap string string) (want : list string) : list string :=
  filter (fun k => values !! k = None /\ uciKeyRe k = true) want.

(** ** What was printed is read back *)

Lemma Contains_char c s : lacks c s = false -> Contains (String c "") s = true.
Proof.
  unfold lacks. induction s as [|d s IH]; [done|]. intros H. cbn in *.
  destruct (decide (d = c)) as [->|Hn].
  - by rewrite bool_decide_eq_true_2.
  - rewrite bool_decide_eq_true_2 in H by done. rewrite IH by done. apply orb_true_r.
Qed.

Lemma unquoteUCI_quoted v : lacks "'" v = true -> unquoteUCI ("'" +:+ v +:+ "'") = v.
Proof.
  intros H. unfold unquoteUCI. cbn zeta.
  assert (TrimSpace ("'" +:+ v +:+ "'") = "'" +:+ v +:+ "'") as ->.
  { by apply TrimSpace_solid; [|rewrite !rev_string_app]. }
  rewrite Contains_char by (by rewrite !lacks_app). cbn [negb].
  rewrite append_cons, append_nil_l.
  change (String "'" (v +:+ "'")) with ("" +:+ String "'" (v +:+ String "'" "")).
  rewrite !Split_sep by done. cbn. destruct v; done.
Qed.

(** A key of the configuration [conf], as uci writes one: the configuration's
    name, a dot, and more without "=" or a line break. *)
Definition key_of (conf k : string) : Prop :=
  exists rest, k = conf +:+ "." +:+ rest /\ lacks "=" rest = true /\ lacks "010" rest = true.

Definition value_ok (v : string) : Prop := lacks "'" v = true /\ lacks "010" v = true.

Definition show_text (k v : string) : string := k +:+ "='" +:+ v +:+ "'".

Lemma all_chars_mono (p q : ascii -> bool) s :
  (forall c, p c = true -> q c = true) -> all_chars p s = true -> all_chars q s = true.
Proof. intros H. induction s as [|c s IH]; cbn; [done|]. intros ?. bool_to_prop. by rewrite H, IH. Qed.

Lemma word_char_ne c d : word_char c = true -> word_char d = false -> c <> d.
Proof. intros H1 H2 ->. congruence. Qed.

Lemma word_char_solid c : word_char c = true -> solid c = true.
Proof.
  unfold word_char, is_alnum, is_digit, is_lower, is_upper, solid, space1. intros H.
  destruct (bool_decide (c = "_"%char)) eqn:E; [bool_to_prop; by subst|].
  rewrite orb_false_r in H. rewrite !orb_true_iff, !andb_true_iff, !Z.leb_le in H.
  rewrite andb_true_iff, negb_true_iff, orb_false_iff, andb_false_iff, !Z.leb_gt, Z.eqb_neq, Z.ltb_lt. lia.
Qed.

Lemma sectionNameRe_lacks s c : sectionNameRe s = true -> word_char c = false -> lacks c s = true.
Proof.
  unfold sectionNameRe. intros H Hc. bool_to_prop. eapply all_chars_mono; [|done].
  intros d Hd. apply bool_decide_eq_true. by eapply word_char_ne.
Qed.

Lemma sectionNameRe_head s : sectionNameRe s = true -> exists c r, s = String c r /\ word_char c = true.
Proof.
  unfold sectionNameRe, len_between. destruct s as [|c r]; cbn; [done|]. intros H. bool_to_prop. eauto.
Qed.

Lemma show_line_text conf k v :
  sectionNameRe conf = true -> key_of conf k -> value_ok v -> show_line conf (show_text k v) = Some (k, v).
Proof.
  intros Hc (rest & -> & He & _) [Hv _]. unfold show_line, show_text.
  assert (lacks "=" (conf +:+ "." +:+ rest) = true) as Hk.
  { rewrite !lacks_app, He, (sectionNameRe_lacks conf "=") by done. done. }
  rewrite TrimSpace_solid.
  - change ("='" +:+ v +:+ "'") with (String "=" ("'" +:+ v +:+ "'")).
    rewrite Cut_sep by done. rewrite append_cons, append_nil_l, Cut_sep by (by apply sectionNameRe_lacks).
    rewrite unquoteUCI_quoted by done. by rewrite append_cons, append_nil_l.
  - destruct (sectionNameRe_head conf Hc) as (c & r & -> & Hw). by apply word_char_solid.
  - by rewrite !rev_string_app.
Qed.

Lemma show_line_config conf : sectionNameRe conf = true -> lacks "010" conf = true.
Proof. intros. by apply sectionNameRe_lacks. Qed.

Lemma fold_insert_map (l : list (string * string)) (m : gmap string string) :
  NoDup l.*1 -> (forall kv, kv ∈ l -> m !! kv.1 = None) ->
  fold_left (fun m kv => <[kv.1 := kv.2]> m) l m = list_to_map l ∪ m.
Proof.
  revert m. induction l as [|[k v] l IH]; intros m; cbn; [by rewrite map_empty_union|].
  rewrite NoDup_cons. intros [Hk Hnd] Hm. rewrite IH; [|done|].
  - rewrite <- insert_union_r, insert_union_l; [done|]. by apply not_elem_of_list_to_map_1.
  - intros [k' v'] Hin. cbn. rewrite lookup_insert_ne; [by apply (Hm (k', v')); right|].
    intros ->. apply Hk. apply list_elem_of_fmap. by exists (k', v').
Qed.

Lemma fold_lines conf ls (kvs : list (string * string)) (m : gmap string string) :
  Forall2 (fun l kv => show_line conf l = Some kv) ls kvs ->
  fold_left (fun m line => match show_line conf line with Some (k, v) => <[k := v]> m | None => m end) ls m =
  fold_left (fun m kv => <[kv.1 := kv.2]> m) kvs m.
Proof. intros H. revert m. induction H as [|l [k v] ls kvs Hl _ IH]; intros m; cbn; [done|]. by rewrite Hl, IH. Qed.

(** The keys and values the round trip is claimed for. *)
Definition showable (conf : string) (m : gmap string string) : Prop :=
  sectionNameRe conf = true /\ map_Forall (fun k v => key_of conf k /\ value_ok v) m.

Definition pairs_of (m : gmap string string) : list (string * string) :=
  (fun k => (k, get m k)) <$> sort_strings (elements (dom m)).

Lemma pairs_of_keys m : (pairs_of m).*1 = sort_strings (elements (dom m)).
Proof. unfold pairs_of. rewrite <- list_fmap_compose. apply list_fmap_id. Qed.

Lemma pairs_of_elem m k v : (k, v) ∈ pairs_of m <-> m !! k = Some v.
Proof.
  unfold pairs_of. rewrite list_elem_of_fmap. setoid_rewrite sort_strings_elem.
  setoid_rewrite elem_of_elements. setoid_rewrite elem_of_dom. unfold get. split.
  - intros (k' & [= -> ->] & [v' Hv]). by rewrite Hv.
  - intros H. exists k. rewrite H. eauto.
Qed.

Lemma pairs_of_map m : list_to_map (pairs_of m) = m.
Proof.
  apply map_eq. intros k. apply option_eq. intros v.
  rewrite <- elem_of_list_to_map; [apply pairs_of_elem|].
  rewrite pairs_of_keys. apply sort_strings_NoDup, NoDup_elements.
Qed.

Lemma showOf_lines m :
  showOf m = Join "" ((fun l => l +:+ String "010" "") <$> ((fun kv => show_text kv.1 kv.2) <$> pairs_of m)).
Proof.
  unfold showOf, pairs_of. f_equal. rewrite <- !list_fmap_compose. apply list_fmap_ext. intros i k _. cbn.
  unfold show_text. by rewrite !append_assoc.
Qed.

(** Printing a set of configuration values the way [uci show] does and
    reading the text back gives the same values. *)
Theorem parseUCIShow_showOf conf m : showable conf m -> parseUCIShow conf (showOf m) = m.
Proof.
  intros [Hc Hm]. unfold parseUCIShow, lines. rewrite showOf_lines, Split_ended.
  - rewrite fold_left_app. cbn [fold_left]. change (show_line conf "") with (@None (string * string)).
    rewrite (fold_lines _ _ (pairs_of m)).
    + rewrite fold_insert_map; [by rewrite map_union_empty, pairs_of_map| |done].
      rewrite pairs_of_keys. apply sort_strings_NoDup, NoDup_elements.
    + apply Forall2_fmap_l, Forall_Forall2_diag, Forall_forall. intros [k v] Hin%pairs_of_elem.
      apply Hm in Hin as [Hk Hv]. by apply show_line_text.
  - apply Forall_fmap, Forall_forall. intros [k v] Hin%pairs_of_elem.
    apply Hm in Hin as [(rest & -> & _ & Hr) [_ Hv]]. change (lacks "010" (show_text (conf +:+ "." +:+ rest) v) = true). unfold show_text.
    by rewrite !lacks_app, Hr, Hv, show_line_config.
Qed.

Lemma parseUCIShow_showOf_witness :
  parseUCIShow "firewall" (showOf {["firewall.@rule[0]" := "rule"; "firewall.@rule[0].name" := "Allow-Ping = yes"]})
  = {["firewall.@rule[0]" := "rule"; "firewall.@rule[0].name" := "Allow-Ping = yes"]}.
Proof.
  apply (parseUCIShow_showOf "firewall").
  split; [reflexivity|]. apply map_Forall_insert_2; [|apply map_Forall_singleton].
  - split; [|by split]. exists "@rule[0]". by split.
  - split; [|by split]. exists "@rule[0].name". by split.
Defined.

(** ** What a reading can contain *)

Lemma odds_elem {A} (l : list A) x : x ∈ odds l -> x ∈ l.
Proof.
  remember (length l) as n eqn:Hn. revert l Hn. induction (lt_wf n) as [n _ IH]. intros l ->.
  destruct l as [|a [|b l]]; cbn [odds]; [by intros ?%not_elem_of_nil..|].
  rewrite elem_of_cons. intros [->|H]; [set_solver|].
  assert (x ∈ l); [|set_solver]. eapply IH; [|done|done]. cbn. lia.
Qed.

Lemma lacks_unquoteUCI c v : lacks c " " = true -> lacks c v = true -> lacks c (unquoteUCI v) = true.
Proof.
  intros Hc H%lacks_TrimSpace. unfold unquoteUCI. destruct (negb _); [done|].
  apply lacks_Join; [done|]. apply Forall_forall. intros x [_ Hx]%list_elem_of_filter.
  apply odds_elem, Split_elem in Hx. by apply Hx.
Qed.

(** The options of a section: keys without "=" or a line break, values without
    a line break. *)
Definition options_ok (o : gmap string string) : Prop :=
  map_Forall (fun k v => lacks "=" k = true /\ lacks "010" k = true /\ lacks "010" v = true) o.

Lemma on_section_Forall (P : uciSection -> Prop) sid f l :
  (forall s, P s -> P (f s)) -> Forall P l -> Forall P (on_section sid f l).
Proof.
  intros Hf H. apply Forall_fmap. eapply Forall_impl; [done|]. intros s Hs. cbn. case_decide; auto.
Qed.

Lemma add_line_ok acc line :
  lacks "010" line = true -> Forall (fun s => options_ok (options s)) acc ->
  Forall (fun s => options_ok (options s)) (add_line acc line).
Proof.
  intros Hl%lacks_TrimSpace Hacc. unfold add_line.
  destruct (Cut "=" _) as [[k v]|] eqn:E; [|done].
  pose proof (Cut_lacks _ _ _ _ _ E Hl) as [Hk Hv]. apply Cut_Some in E as [_ Hke].
  destruct (Cut "." k) as [[c rest]|] eqn:E2; [|done].
  pose proof (Cut_lacks _ _ _ _ _ E2 Hk) as [_ Hr]. pose proof (Cut_lacks _ _ _ _ _ E2 Hke) as [_ Hre].
  destruct (Cut "." rest) as [[sid o]|] eqn:E3.
  - pose proof (Cut_lacks _ _ _ _ _ E3 Hr) as [_ Ho]. pose proof (Cut_lacks _ _ _ _ _ E3 Hre) as [_ Hoe].
    apply on_section_Forall; [|done]. intros s Hs. cbn. apply map_Forall_insert_2; [|done].
    auto using lacks_unquoteUCI.
  - apply on_section_Forall; [by intros|]. case_match; [done|].
    apply Forall_app. split; [done|]. constructor; [|constructor]. cbn. apply map_Forall_empty.
Qed.

Lemma parseUCISections_ok out : Forall (fun s => options_ok (options s)) (parseUCISections out).
Proof.
  unfold parseUCISections. assert (Forall (fun l => lacks "010" l = true) (lines out)) as H.
  { apply Forall_forall. intros l Hl%Split_elem. tauto. }
  assert (Forall (fun s => options_ok (options s)) []) as H0 by constructor.
  revert H0. generalize (@nil uciSection). induction H as [|l ls Hl _ IH]; intros acc H0; cbn; [done|].
  by apply IH, add_line_ok.
Qed.

(** ** Sections have one name each *)

Lemma on_section_ids sid f l : (forall s, id (f s) = id s) -> id <$> on_section sid f l = id <$> l.
Proof.
  intros H. unfold on_section. rewrite <- list_fmap_compose. apply list_fmap_ext. intros i s _. cbn.
  by case_decide.
Qed.

Lemma known_false sid l : known sid l = false -> sid ∉ (id <$> l).
Proof.
  unfold known. intros H Hin. apply list_elem_of_fmap in Hin as (s & -> & Hs).
  assert (existsb (fun t => bool_decide (id t = id s)) l = true) as Ht; [|congruence].
  apply existsb_elem. exists s. split; [done|]. by apply bool_decide_eq_true.
Qed.

Lemma add_line_NoDup acc line : NoDup (id <$> acc) -> NoDup (id <$> add_line acc line).
Proof.
  intros H. unfold add_line. destruct (Cut "=" _) as [[k v]|]; [|done].
  destruct (Cut "." k) as [[c rest]|]; [|done].
  destruct (Cut "." rest) as [[sid o]|]; cbn zeta; rewrite on_section_ids by done; [done|].
  destruct (known rest acc) eqn:E; [done|]. rewrite fmap_app. apply NoDup_app.
  apply known_false in E. cbn. split_and!; [done| |apply NoDup_singleton].
  intros x Hx Hx'%list_elem_of_singleton. by subst.
Qed.

Lemma parseUCISections_NoDup out : NoDup (id <$> parseUCISections out).
Proof.
  unfold parseUCISections. assert (NoDup (id <$> @nil uciSection)) as H by constructor.
  revert H. generalize (@nil uciSection). induction (lines out) as [|l ls IH]; intros acc H; cbn; [done|].
  by apply IH, add_line_NoDup.
Qed.
