(* ===== verification/Firewall.v ===== *)
(** * Reading the firewall: internal/adapters/openwrt/firewall.go

    The zones, forwardings, port forwards and traffic rules the panel shows,
    read from [uci show firewall], with the types of internal/core/firewall.go. *)

From S2P Require Import Prelude GoStrings Effects Network Uci.

(** ** internal/core/firewall.go *)

Definition ActionAccept := "accept".
Definition ActionReject := "reject".
Definition ActionDrop := "drop".
Definition ActionOther := "other".
Definition ZoneInternet := "internet".
Definition ZoneLocal := "local".

Record FirewallZone := mkZone {
  zName : string; zRole : string; zNetworks : list string; zLive : bool;
  zInput : string; zOutput : string; zForward : string; zMasquerade : bool }.

Record ZoneForwarding := mkForwarding { fFrom : string; fTo : string }.

Record PortForward := mkPortForward {
  pfID : string; pfName : string; pfEnabled : bool; pfProtocols : list string; pfFrom : string;
  pfExternalPort : string; pfToAddress : string; pfToPort : string }.

Record FirewallRule := mkRule {
  rID : string; rName : string; rEnabled : bool; rSystem : bool; rFrom : string; rTo : string;
  rProtocols : list string; rPorts : string; rAction : string; rFamily : string;
  rUnsupported : list string }.

#[export] Instance FirewallRule_eq_dec : EqDecision FirewallRule.
Proof. solve_decision. Defined.
#[export] Instance PortForward_eq_dec : EqDecision PortForward.
Proof. solve_decision. Defined.

Definition RuleSourceAddress := "sourceAddress".
Definition RuleSourcePort := "sourcePort".
Definition RuleDestinationAddress := "destinationAddress".
Definition RuleICMPTypes := "icmpTypes".
Definition RuleSchedule := "schedule".
Definition RuleRateLimit := "rateLimit".
Definition RuleLogging := "logging".
Definition RuleOther := "other".

Record FirewallStatus := mkFirewall {
  Zones : list FirewallZone; Forwardings : list ZoneForwarding;
  PortForwards : list PortForward; Rules : list FirewallRule }.

(** ** Words *)

Definition lanSection := "lan".

Definition action (target : string) : string :=
  let t := ToUpper target in
  if decide (t = "REJECT") then ActionReject
  else if decide (t = "DROP") then ActionDrop
  else ActionAccept.

Definition ruleAction (target : string) : string :=
  if contains [""; "ACCEPT"; "REJECT"; "DROP"] (ToUpper target) then action target else ActionOther.

Definition ruleOptionsShown : gset string :=
  {["name"; "enabled"; "src"; "dest"; "proto"; "dest_port"; "target"; "family"]}.

Definition ruleConditions : gmap string string :=
  list_to_map [
    ("src_ip", RuleSourceAddress); ("src_mac", RuleSourceAddress); ("src_port", RuleSourcePort);
    ("dest_ip", RuleDestinationAddress); ("icmp_type", RuleICMPTypes); ("start_date", RuleSchedule);
    ("stop_date", RuleSchedule); ("start_time", RuleSchedule); ("stop_time", RuleSchedule);
    ("weekdays", RuleSchedule); ("monthdays", RuleSchedule); ("utc_time", RuleSchedule);
    ("limit", RuleRateLimit); ("limit_burst", RuleRateLimit); ("log", RuleLogging);
    ("log_limit", RuleLogging)].

(** The condition an option stands for, if it is not one the panel shows. *)
Definition condition_of (k : string) : option string :=
  if has ruleOptionsShown k then None else Some (default RuleOther (ruleConditions !! k)).

Definition unsupportedConditions (o : gmap string string) : list string :=
  let seen := omap condition_of (elements (dom o)) ++
    (if decide (ruleAction (get o "target") = ActionOther) then [RuleOther] else []) in
  sort_strings (remove_dups seen).

Definition protocols (proto : string) : list string :=
  let f := Fields (ToLower proto) in
  match f with
  | [] => ["tcp"; "udp"]
  | [p] => if decide (p = "tcpudp") then ["tcp"; "udp"] else f
  | _ => f
  end.

Definition canonical (o : gmap string string) : string :=
  Join "" ((fun k => k +:+ "=" +:+ get o k +:+ String "010" "") <$> sort_strings (elements (dom o))).

Definition stockFirewallRules : string := "firewall.@rule[0]=rule
firewall.@rule[0].name='Allow-DHCP-Renew'
firewall.@rule[0].src='wan'
firewall.@rule[0].proto='udp'
firewall.@rule[0].dest_port='68'
firewall.@rule[0].target='ACCEPT'
firewall.@rule[0].family='ipv4'
firewall.@rule[1]=rule
firewall.@rule[1].name='Allow-Ping'
firewall.@rule[1].src='wan'
firewall.@rule[1].proto='icmp'
firewall.@rule[1].icmp_type='echo-request'
firewall.@rule[1].family='ipv4'
firewall.@rule[1].target='ACCEPT'
firewall.@rule[2]=rule
firewall.@rule[2].name='Allow-IGMP'
firewall.@rule[2].src='wan'
firewall.@rule[2].proto='igmp'
firewall.@rule[2].family='ipv4'
firewall.@rule[2].target='ACCEPT'
firewall.@rule[3]=rule
firewall.@rule[3].name='Allow-DHCPv6'
firewall.@rule[3].src='wan'
firewall.@rule[3].proto='udp'
firewall.@rule[3].dest_port='546'
firewall.@rule[3].family='ipv6'
firewall.@rule[3].target='ACCEPT'
firewall.@rule[4]=rule
firewall.@rule[4].name='Allow-MLD'
firewall.@rule[4].src='wan'
firewall.@rule[4].proto='icmp'
firewall.@rule[4].src_ip='fe80::/10'
firewall.@rule[4].icmp_type='130/0' '131/0' '132/0' '143/0'
firewall.@rule[4].family='ipv6'
firewall.@rule[4].target='ACCEPT'
firewall.@rule[5]=rule
firewall.@rule[5].name='Allow-ICMPv6-Input'
firewall.@rule[5].src='wan'
firewall.@rule[5].proto='icmp'
firewall.@rule[5].icmp_type='echo-request' 'echo-reply' 'destination-unreachable' 'packet-too-big' 'time-exceeded' 'bad-header' 'unknown-header-type' 'router-solicitation' 'neighbour-solicitation' 'router-advertisement' 'neighbour-advertisement'
firewall.@rule[5].limit='1000/sec'
firewall.@rule[5].family='ipv6'
firewall.@rule[5].target='ACCEPT'
firewall.@rule[6]=rule
firewall.@rule[6].name='Allow-ICMPv6-Forward'
firewall.@rule[6].src='wan'
firewall.@rule[6].dest='*'
firewall.@rule[6].proto='icmp'
firewall.@rule[6].icmp_type='echo-request' 'echo-reply' 'destination-unreachable' 'packet-too-big' 'time-exceeded' 'bad-header' 'unknown-header-type'
firewall.@rule[6].limit='1000/sec'
firewall.@rule[6].family='ipv6'
firewall.@rule[6].target='ACCEPT'
firewall.@rule[7]=rule
firewall.@rule[7].name='Allow-IPSec-ESP'
firewall.@rule[7].src='wan'
firewall.@rule[7].dest='lan'
firewall.@rule[7].proto='esp'
firewall.@rule[7].target='ACCEPT'
firewall.@rule[8]=rule
firewall.@rule[8].name='Allow-ISAKMP'
firewall.@rule[8].src='wan'
firewall.@rule[8].dest='lan'
firewall.@rule[8].dest_port='500'
firewall.@rule[8].proto='udp'
firewall.@rule[8].target='ACCEPT'
".

Definition stockRules : gset string :=
  list_to_set ((fun s => canonical (options s)) <$> parseUCISections stockFirewallRules).

(** ** parseFirewall *)

Definition is_up (up : gmap string bool) (n : string) : bool := default false (up !! n).

Definition zone_of (up : gmap string bool) (o : gmap string string) : FirewallZone :=
  let networks := Fields (get o "network") in
  let masq := bool_decide (get o "masq" = "1") in
  mkZone (get o "name")
    (if masq then ZoneInternet else if contains networks lanSection then ZoneLocal else "")
    networks (existsb (is_up up) networks)
    (action (get o "input")) (action (get o "output")) (action (get o "forward")) masq.

Definition portForward_of (s : uciSection) : PortForward :=
  let o := options s in
  mkPortForward (id s) (get o "name") (bool_decide (get o "enabled" <> "0")) (protocols (get o "proto"))
    (get o "src") (get o "src_dport") (get o "dest_ip")
    (if nonempty (get o "dest_port") then get o "dest_port" else get o "src_dport").

Definition rule_of (s : uciSection) : FirewallRule :=
  let o := options s in
  mkRule (id s) (get o "name") (bool_decide (get o "enabled" <> "0")) (has stockRules (canonical o))
    (get o "src") (get o "dest") (protocols (get o "proto")) (get o "dest_port")
    (ruleAction (get o "target")) (get o "family") (unsupportedConditions o).

Definition add_section (up : gmap string bool) (st : FirewallStatus) (s : uciSection) : FirewallStatus :=
  let o := options s in
  if decide (kind s = "zone") then
    mkFirewall (Zones st ++ [zone_of up o]) (Forwardings st) (PortForwards st) (Rules st)
  else if decide (kind s = "forwarding") then
    mkFirewall (Zones st) (Forwardings st ++ [mkForwarding (get o "src") (get o "dest")])
      (PortForwards st) (Rules st)
  else if decide (kind s = "redirect") then
    if contains [""; "DNAT"] (get o "target")
    then mkFirewall (Zones st) (Forwardings st) (PortForwards st ++ [portForward_of s]) (Rules st)
    else st
  else if decide (kind s = "rule") then
    mkFirewall (Zones st) (Forwardings st) (PortForwards st) (Rules st ++ [rule_of s])
  else st.

Definition parseFirewall (show : string) (up : gmap string bool) : FirewallStatus :=
  fold_left (add_section up) (parseUCISections show) (mkFirewall [] [] [] []).

Definition ups (ifaces : list NetworkInterface) : gmap string bool :=
  fold_left (fun m i => <[Name i := Up i]> m) ifaces ∅.

Definition FirewallInfo (m : networkManager) : prog (res FirewallStatus) :=
  if negb (runs m) then Ret (Err ErrNotImplemented) else
  let! out := exec_cmd ["uci"; "-q"; "show"; "firewall"] in
  ifaces <- Interfaces m ;;
  Ret (Ok (parseFirewall out (match ifaces with Ok l => ups l | Err _ => ∅ end))).

(** ** Properties *)

(** The canonical text tells two rules apart. *)
Lemma canonical_lines o :
  options_ok o ->
  lines (canonical o) = ((fun kv => kv.1 +:+ String "=" kv.2) <$> pairs_of o) ++ [""].
Proof.
  intros Ho. unfold lines. rewrite <- (Split_ended "010").
  - f_equal. unfold canonical, pairs_of. f_equal. rewrite <- !list_fmap_compose.
    apply list_fmap_ext. intros i k _. cbn [compose fst snd].
    by rewrite <- append_assoc.
  - apply Forall_fmap, Forall_forall. intros [k v] Hin%pairs_of_elem.
    apply Ho in Hin as (_ & Hk & Hv).
    change (lacks "010" (k +:+ String "=" v) = true). by rewrite lacks_app, Hk, lacks_cons, Hv.
Qed.

Lemma pairs_of_cut o :
  options_ok o -> omap (Cut "=") ((fun kv => kv.1 +:+ String "=" kv.2) <$> pairs_of o) = pairs_of o.
Proof.
  intros Ho. assert (Forall (fun kv => lacks "=" kv.1 = true) (pairs_of o)) as H.
  { apply Forall_forall. intros [k v] Hin%pairs_of_elem. by apply Ho in Hin as (Hk & _). }
  induction H as [|[k v] l Hk _ IH]; [done|]. rewrite fmap_cons. cbn [omap list_omap fst snd].
  rewrite Cut_sep by done. by f_equal.
Qed.

Lemma canonical_inj o o' : options_ok o -> options_ok o' -> canonical o = canonical o' -> o = o'.
Proof.
  intros Ho Ho' E. apply (f_equal lines) in E. rewrite !canonical_lines in E by done.
  apply app_inj_tail in E as [E _].
  apply (f_equal (omap (Cut "="))) in E. rewrite !pairs_of_cut in E by done.
  by rewrite <- (pairs_of_map o), E, pairs_of_map.
Qed.

Lemma has_stockRules o :
  options_ok o ->
  has stockRules (canonical o) = true <->
  exists t, t ∈ parseUCISections stockFirewallRules /\ options t = o.
Proof.
  intros Ho. rewrite has_true. unfold stockRules. rewrite elem_of_list_to_set, list_elem_of_fmap.
  pose proof (parseUCISections_ok stockFirewallRules) as Hs. rewrite Forall_forall in Hs.
  split; intros (t & H1 & H2); exists t.
  - split; [done|]. symmetry. apply canonical_inj; auto.
  - by subst.
Qed.

(** Each section in turn makes at most one entry. *)
Lemma parse_rules_acc up ss st :
  Rules (fold_left (add_section up) ss st) =
  Rules st ++ (rule_of <$> filter (fun s => kind s = "rule") ss).
Proof.
  revert st. induction ss as [|s ss IH]; intros st; cbn [fold_left]; [by rewrite app_nil_r|].
  rewrite IH, filter_cons. unfold add_section.
  repeat case_decide; repeat case_match; cbn; try congruence; by rewrite <- ?app_assoc.
Qed.

Lemma parse_rules show up :
  Rules (parseFirewall show up) = rule_of <$> filter (fun s => kind s = "rule") (parseUCISections show).
Proof. unfold parseFirewall. by rewrite parse_rules_acc. Qed.

(** A rule is shown as the system's exactly when its options are, one for
    one, those of a rule the firewall package ships: no owner's rule is taken
    for one, whatever it contains. *)
Theorem system_rules_are_the_stock_ones show up s :
  s ∈ parseUCISections show -> kind s = "rule" ->
  rule_of s ∈ Rules (parseFirewall show up) /\
  (rSystem (rule_of s) = true <->
   exists t, t ∈ parseUCISections stockFirewallRules /\ options t = options s).
Proof.
  intros Hs Hk. split.
  - rewrite parse_rules. apply list_elem_of_fmap. exists s. split; [done|]. by apply list_elem_of_filter.
  - apply has_stockRules. pose proof (parseUCISections_ok show) as H. rewrite Forall_forall in H. auto.
Qed.

Lemma system_rules_are_the_stock_ones_witness :
  exists s, s ∈ parseUCISections "firewall.r=rule
firewall.r.name='Allow-IGMP'
firewall.r.src='wan'
firewall.r.family='ipv4'
firewall.r.proto='igmp'
firewall.r.target='ACCEPT'" /\ kind s = "rule" /\ rSystem (rule_of s) = true /\
  exists t, t ∈ parseUCISections stockFirewallRules /\ options t = options s.
Proof.
  eexists. split; [vm_compute; left|]. split; [reflexivity|].
  match goal with |- rSystem (rule_of ?s) = true /\ _ => set (sec := s) end.
  assert (rSystem (rule_of sec) = true) as H by (vm_compute; reflexivity).
  split; [exact H|].
  apply (system_rules_are_the_stock_ones "firewall.r=rule
firewall.r.name='Allow-IGMP'
firewall.r.src='wan'
firewall.r.family='ipv4'
firewall.r.proto='igmp'
firewall.r.target='ACCEPT'" ∅ sec); [vm_compute; left|reflexivity|exact H].
Defined.

Lemma condition_of_None k : condition_of k = None <-> k ∈ ruleOptionsShown.
Proof. unfold condition_of. rewrite <- has_true. destruct (has _ k); by split. Qed.

(** The panel says a rule has no conditions beyond the fields it shows only
    when that is so: each of its options is a shown one and its target decides
    the traffic. *)
Theorem no_condition_is_hidden s :
  rUnsupported (rule_of s) = [] <->
  dom (options s) ⊆ ruleOptionsShown /\ rAction (rule_of s) <> ActionOther.
Proof.
  cbn [rUnsupported rAction rule_of]. unfold unsupportedConditions.
  set (o := options s).
  assert (forall l, sort_strings (remove_dups l) = [] <-> l = []) as Hnil.
  { intros l. split; [|by intros ->]. intros E. destruct l as [|x l]; [done|].
    assert (x ∈ sort_strings (remove_dups (x :: l))) as Hx
      by (rewrite sort_strings_elem, elem_of_remove_dups; left).
    rewrite E in Hx. by apply not_elem_of_nil in Hx. }
  rewrite Hnil. split.
  - intros [E1 E2]%app_eq_nil. split; [|by case_decide].
    intros k Hk. apply condition_of_None. destruct (condition_of k) as [c|] eqn:Ec; [|done].
    assert (c ∈ omap condition_of (elements (dom o))) as Hc
      by (apply list_elem_of_omap; exists k; by rewrite elem_of_elements).
    rewrite E1 in Hc. by apply not_elem_of_nil in Hc.
  - intros [Hd Ha]. rewrite decide_False by done. rewrite app_nil_r.
    destruct (omap _ _) as [|c l] eqn:E; [done|].
    assert (c ∈ omap condition_of (elements (dom o))) as Hc by (rewrite E; left).
    apply list_elem_of_omap in Hc as (k & Hk & Hc). rewrite elem_of_elements in Hk.
    apply Hd, condition_of_None in Hk. congruence.
Qed.
