(* ===== verification/Stage.v ===== *)
(** * Staging: internal/adapters/openwrt/network_write.go

    The words the apply bar uses, the one routine that writes settings into the
    draft of a section, the uplink's settings, and the readings of a
    configuration with and without its draft. *)

From S2P Require Import Prelude GoStrings GoNet Effects Network Uci Firewall.

(** ** Words *)

Record phrase := mkPhrase { pKey : string; pWords : string }.

Definition table (l : list (string * string)) : gmap string string := list_to_map l.

Definition optionLabels : gmap string string := table [
  ("network.uplink.proto", "Internet connection type");
  ("network.uplink.ipaddr", "Address on the internet side");
  ("network.uplink.netmask", "Network mask");
  ("network.uplink.gateway", "Gateway");
  ("network.uplink.dns", "DNS servers");
  ("network.uplink.peerdns", "Use the provider's DNS servers");
  ("network.uplink.username", "Provider login");
  ("network.uplink.password", "Provider password");
  ("network.lan.proto", "How the local network address is set");
  ("network.lan.ipaddr", "Address of this router on the local network");
  ("network.lan.netmask", "Local network mask");
  ("network.lan.dns", "DNS servers for the local network");
  ("network.lan.ip6assign", "IPv6 addresses of the local network");
  ("dhcp.lan.start", "First address handed out");
  ("dhcp.lan.limit", "Last address handed out");
  ("dhcp.lan.leasetime", "How long an address is given for");
  ("dhcp.lan.ignore", "Hand out addresses on the local network");
  ("dhcp.host.mac", "Device");
  ("dhcp.host.ip", "Reserved address");
  ("dhcp.host.name", "Device name");
  ("firewall.redirect.name", "Port forward name");
  ("firewall.redirect.enabled", "Port forward is on");
  ("firewall.redirect.proto", "Protocols");
  ("firewall.redirect.src", "Connections from");
  ("firewall.redirect.src_dport", "Port on the router");
  ("firewall.redirect.dest", "Forwarded into");
  ("firewall.redirect.dest_ip", "Device address");
  ("firewall.redirect.dest_port", "Port on the device");
  ("firewall.redirect.target", "Kind of forward");
  ("firewall.rule.name", "Rule name");
  ("firewall.rule.enabled", "Rule is on");
  ("firewall.rule.src", "Traffic from");
  ("firewall.rule.dest", "Traffic to");
  ("firewall.rule.proto", "Protocols");
  ("firewall.rule.dest_port", "Ports");
  ("firewall.rule.target", "Action");
  ("firewall.rule.family", "IP version");
  ("firewall.rule.position", "Place in the list");
  ("network.route.name", "Route name");
  ("network.route.disabled", "Route is on");
  ("network.route.target", "Destination");
  ("network.route.netmask", "Destination mask");
  ("network.route.gateway", "Gateway");
  ("network.route.interface", "Connection");
  ("network.route.metric", "Metric");
  ("wireless.radio.disabled", "Wi-Fi band is on");
  ("wireless.radio.channel", "Channel");
  ("wireless.radio.htmode", "Channel width");
  ("wireless.radio.country", "Wi-Fi country");
  ("wireless.wifiNet.ssid", "Network name");
  ("wireless.wifiNet.key", "Wi-Fi password");
  ("wireless.wifiNet.encryption", "Network security")].

Definition configLabels : gmap string string := table [
  ("network", "Network setting");
  ("firewall", "Firewall setting");
  ("dhcp", "Local network setting");
  ("wireless", "Wi-Fi setting");
  ("system", "Device setting")].

Definition sectionLabels : gmap string string := table [
  ("network", "Network connection");
  ("firewall", "Firewall rule");
  ("dhcp", "Address handout");
  ("wireless", "Wi-Fi network")].

Definition roleUplink := "uplink".
Definition roleLAN := "lan".
Definition roleHost := "host".
Definition rolePortForward := "redirect".
Definition roleRule := "rule".
Definition roleNoInternet := "noInternet".
Definition roleSchedule := "schedule".
Definition roleRadio := "radio".
Definition roleWiFiNet := "wifiNet".
Definition roleGuest := "guest".
Definition roleRoute := "route".

Definition entryRoles (role : string) : option phrase :=
  (fun p => mkPhrase p.1 p.2) <$>
  (list_to_map (M:=gmap string (string * string)) [
    (roleHost, ("dhcp.host.section", "Reserved address"));
    (rolePortForward, ("firewall.redirect.section", "Port forward"));
    (roleRule, ("firewall.rule.section", "Firewall rule"));
    (roleRoute, ("network.route.section", "Static route"));
    (roleNoInternet, ("firewall.noInternet.section", "No internet for a device"));
    (roleSchedule, ("firewall.schedule.section", "Internet schedule"));
    (roleGuest, ("wireless.guest.section", "Guest network"))] !! role).

Definition rulePhrases (action way : string) : option phrase :=
  (fun p => mkPhrase p.1 p.2) <$>
  (list_to_map (M:=gmap string (string * string)) [
    (ActionAccept +:+ "/router", ("firewall.rule.acceptInput", "Allow access to the router"));
    (ActionReject +:+ "/router", ("firewall.rule.rejectInput", "Block access to the router"));
    (ActionDrop +:+ "/router", ("firewall.rule.dropInput", "Block access to the router without answering"));
    (ActionAccept +:+ "/through", ("firewall.rule.acceptForward", "Allow traffic through the router"));
    (ActionReject +:+ "/through", ("firewall.rule.rejectForward", "Block traffic through the router"));
    (ActionDrop +:+ "/through", ("firewall.rule.dropForward", "Block traffic through the router without answering"))]
    !! (action +:+ "/" +:+ way)).

Definition rulePhrase (target dest : string) : phrase :=
  let way := if nonempty dest then "through" else "router" in
  match rulePhrases (ruleAction target) way with
  | Some p => p
  | None => default (mkPhrase "" "") (entryRoles roleRule)
  end.

Definition describe (config role option : string) : phrase :=
  if negb (nonempty option) then
    match entryRoles role with
    | Some p => p
    | None =>
        match sectionLabels !! config with
        | Some l => mkPhrase (config +:+ ".section") l
        | None => mkPhrase "section" "Configuration section"
        end
    end
  else
    let key := config +:+ "." +:+ role +:+ "." +:+ option in
    match optionLabels !! key with
    | Some l => mkPhrase key l
    | None =>
        match configLabels !! config with
        | Some l => mkPhrase (config +:+ ".setting") l
        | None => mkPhrase "setting" "System setting"
        end
    end.

Definition secretOption (option : string) : bool := contains ["password"; "key"] option.
Definition dangerousConfig (config : string) : bool := contains ["network"; "firewall"; "wireless"] config.

Definition redact (secret : bool) (value : string) : string :=
  if negb secret then value else if nonempty value then "••••" else "".

(** Names one of several entries: by its name, else by what it is. *)
Definition entrySubject (name words : string) : string := if nonempty name then name else words.

Definition withSubject (changes : list ConfigChange) (subject : string) : list ConfigChange :=
  (fun c => mkChange (Label c) (LabelKey c) (From c) (To c) (Dangerous c) (Detail c) subject) <$> changes.

(** One row for a whole entry that appears or goes away. *)
Definition entryRow (said : phrase) (from to config detail : string) : ConfigChange :=
  mkChange (pWords said) (pKey said) from to (dangerousConfig config) detail "".

(** ** Calls to uci *)

Definition uciGet (key : string) : prog string :=
  out <- exec_cmd ["uci"; "-q"; "get"; key] ;;
  Ret (match out with Ok out => TrimSpace out | Err _ => "" end).

Definition uciDelete (key : string) : prog (res unit) :=
  r <- exec_cmd ["uci"; "delete"; key] ;;
  Ret (match r with Ok _ => Ok tt | Err e => Err (Wrapf "openwrt: stage removal of %s: %w" [key] e) end).

Definition uciSet (key value : string) : prog (res unit) :=
  r <- exec_cmd ["uci"; "set"; key +:+ "=" +:+ value] ;;
  Ret (match r with Ok _ => Ok tt | Err e => Err (Wrapf "openwrt: stage %s: %w" [key] e) end).

Definition discardConfig (config : string) : prog (res unit) :=
  if negb (sectionNameRe config)
  then Ret (Err (Errorf "openwrt: %q is not a configuration name" [config])) else
  r <- exec_cmd ["uci"; "revert"; config] ;;
  Ret (match r with Ok _ => Ok tt | Err e => Err (Wrapf "openwrt: discard staged %s changes: %w" [config] e) end).

Definition revertKey (key : string) : prog (res unit) :=
  if negb (uciKeyRe key)
  then Ret (Err (Errorf "openwrt: %q is not a configuration key" [key])) else
  r <- exec_cmd ["uci"; "revert"; key] ;;
  Ret (match r with Ok _ => Ok tt | Err e => Err (Wrapf "openwrt: discard staged %s: %w" [key] e) end).

Definition writtenConfigs : list string := ["network"; "dhcp"; "firewall"].
Definition draftConfigs : list string := writtenConfigs ++ ["wireless"].

Fixpoint discardAll (configs : list string) : prog (res unit) :=
  match configs with
  | [] => Ret (Ok tt)
  | c :: configs => let! _ := discardConfig c in discardAll configs
  end.

Definition DiscardStaged (m : networkManager) : prog (res unit) :=
  if negb (runs m) then Ret (Err ErrNotImplemented) else discardAll draftConfigs.

(** ** stage *)

Record wanSetting := mkSetting {
  sKey : string; sValue : string; sLabel : phrase; sSecret : bool; sRemove : bool;
  sSameAsAbsent : string; sShown : string; sShownBefore : string }.

(** The composite literals of the code: a value to write, a key to remove. *)
Definition set_to (key value : string) (label : phrase) : wanSetting :=
  mkSetting key value label false false "" "" "".
Definition unset (key sameAsAbsent : string) (label : phrase) : wanSetting :=
  mkSetting key "" label false true sameAsAbsent "" "".

(** Whether the setting changes nothing where it reads as [before]. *)
Definition settled (s : wanSetting) (before : string) : bool :=
  (sRemove s && (negb (nonempty before) ||
                 (nonempty (sSameAsAbsent s) && bool_decide (before = sSameAsAbsent s)))) ||
  (negb (sRemove s) && bool_decide (before = sValue s)).

Definition settingRow (config key : string) (s : wanSetting) (before : string) : ConfigChange :=
  let from := if nonempty (sShownBefore s) then sShownBefore s else redact (sSecret s) before in
  let to := if nonempty (sShown s) then sShown s else redact (sSecret s) (sValue s) in
  mkChange (pWords (sLabel s)) (pKey (sLabel s)) from (if sRemove s then "" else to)
    (dangerousConfig config) key "".

Definition settingKey (config section : string) (s : wanSetting) : string :=
  config +:+ "." +:+ section +:+ "." +:+ sKey s.

Fixpoint stageSets (config section : string) (sets : list wanSetting) : prog (res (list ConfigChange)) :=
  match sets with
  | [] => Ret (Ok [])
  | s :: sets =>
      let key := settingKey config section s in
      before <- uciGet key ;;
      if settled s before then stageSets config section sets else
      stageErr <- (if sRemove s then uciDelete key else uciSet key (sValue s)) ;;
      match stageErr with
      | Err e => _ <- discardConfig config ;; Ret (Err e)
      | Ok _ =>
          let! changes := stageSets config section sets in
          Ret (Ok (settingRow config key s before :: changes))
      end
  end.

Definition stage (config section : string) (sets : list wanSetting) : prog (res (list ConfigChange)) :=
  if negb (sectionOk section)
  then Ret (Err (Errorf "openwrt: %q is not a valid section name" [section]))
  else stageSets config section sets.

(** ** The uplink *)

Definition WANProtoDHCP := "dhcp".
Definition WANProtoStatic := "static".
Definition WANProtoPPPoE := "pppoe".

(** [core.WANConfig]. *)
Record WANConfig := mkWANConfig {
  cInterface : string; cProto : string; cAddress : string; cNetmask : string; cGateway : string;
  cDNS : list string; cUsername : string; cPassword : string }.

Definition validNetmask (mask : string) : res unit :=
  match ParseIP4 mask with
  | None => Err (Errorf "openwrt: %q is not a network mask" [mask])
  | Some v =>
      match MaskSize v with
      | None | Some 0%Z => Err (Errorf "openwrt: %q is not a contiguous network mask" [mask])
      | Some _ => Ok tt
      end
  end.

Definition uplinkSet (option value : string) : wanSetting :=
  set_to option value (describe "network" roleUplink option).

Definition appendDNS (out : list wanSetting) (dns : list string) : res (list wanSetting) :=
  match dns with
  | [] => Ok out
  | _ =>
      match find_first (fun d => bool_decide (ParseIP d = None)) dns with
      | Some d => Refuse "dns" (Errorf "openwrt: %q is not a DNS server address" [d])
      | None => Ok (out ++ [uplinkSet "dns" (Join " " dns)])
      end
  end.

Definition wanSettings (cfg : WANConfig) : res (list wanSetting) :=
  if decide (cProto cfg = WANProtoDHCP) then
    let out := [uplinkSet "proto" "dhcp"] in
    match cDNS cfg with
    | [] => Ok (out ++ [unset "peerdns" "1" (describe "network" roleUplink "peerdns");
                        unset "dns" "" (describe "network" roleUplink "dns")])
    | _ => appendDNS (out ++ [uplinkSet "peerdns" "0"]) (cDNS cfg)
    end
  else if decide (cProto cfg = WANProtoStatic) then
    if bool_decide (ParseIP4 (cAddress cfg) = None)
    then Refuse "address" (Errorf "openwrt: %q is not an IPv4 address" [cAddress cfg]) else
    let? _ := RefuseRes "netmask" (validNetmask (cNetmask cfg)) in
    if nonempty (cGateway cfg) && bool_decide (ParseIP (cGateway cfg) = None)
    then Refuse "gateway" (Errorf "openwrt: %q is not a gateway address" [cGateway cfg]) else
    let out := [uplinkSet "proto" "static"; uplinkSet "ipaddr" (cAddress cfg);
                uplinkSet "netmask" (cNetmask cfg)] in
    let out := if nonempty (cGateway cfg) then out ++ [uplinkSet "gateway" (cGateway cfg)] else out in
    appendDNS out (cDNS cfg)
  else if decide (cProto cfg = WANProtoPPPoE) then
    if negb (nonempty (TrimSpace (cUsername cfg)))
    then Refuse "username" (Errorf "openwrt: PPPoE needs a user name" []) else
    let out := [uplinkSet "proto" "pppoe"; uplinkSet "username" (cUsername cfg)] in
    let out := if nonempty (cPassword cfg)
               then out ++ [mkSetting "password" (cPassword cfg) (describe "network" roleUplink "password")
                              true false "" "" ""]
               else out in
    appendDNS out (cDNS cfg)
  else Refuse "proto" (Errorf "openwrt: unknown connection type %q" [cProto cfg]).

(** The interface to write to: the one given, or the uplink's. *)
Definition uplinkName (m : networkManager) (iface : string) : prog (res string) :=
  if nonempty iface then Ret (Ok iface) else
  wan <- WANInfo m ;;
  Ret (match wan with
       | Ok wan => Ok (Name (Interface wan))
       | Err e => Err (Wrapf "openwrt: no interface given and no uplink found: %w" [] e)
       end).

Definition StageWAN (m : networkManager) (cfg : WANConfig) : prog (res (list ConfigChange)) :=
  if negb (runs m) then Ret (Err ErrNotImplemented) else
  let! iface := uplinkName m (cInterface cfg) in
  if negb (sectionNameRe iface)
  then Ret (Refuse "interface" (Errorf "openwrt: %q is not a valid interface name" [iface])) else
  let* sets := wanSettings cfg in
  stage "network" iface sets.

(** ** A configuration with its draft and without *)

Definition getOne (args : list string) : prog (option string) :=
  r <- exec_cmd ("uci" :: args) ;;
  Ret (match r with Ok out => Some (unquoteUCI (TrimSpace out)) | Err _ => None end).

(** The wanted keys that a bulk reading did not answer, each asked for by
    [ask_for]. *)
Fixpoint fillMissing (ask_for : string -> prog (option string)) (keys : list string)
    (values : gmap string string) : prog (gmap string string) :=
  match keys with
  | [] => Ret values
  | k :: keys =>
      v <- ask_for k ;;
      fillMissing ask_for keys (match v with Some v => <[k := v]> values | None => values end)
  end.

Definition stagedValues (config : string) (want : list string) : prog (res (gmap string string)) :=
  if negb (sectionNameRe config)
  then Ret (Err (Errorf "openwrt: %q is not a configuration name" [config])) else
  let! out := (r <- exec_cmd ["uci"; "-q"; "show"; config] ;;
               Ret (wrapping "openwrt: read staged %s: %w" [config] r)) in
  let values := parseUCIShow config out in
  values <- fillMissing (fun k => getOne ["-q"; "get"; k]) (missingKeys values want) values ;;
  Ret (Ok values).

Definition committedPrefix := "veilbridge_committed_".

(** The path of a file in a directory (filepath.Join of clean parts). *)
Definition in_dir (dir file : string) : string := dir +:+ "/" +:+ file.

(** The directory is removed whatever [fn] answers. *)
Definition withCommitted {A} (m : networkManager) (config : string)
    (fn : string -> string -> prog (res A)) : prog (res A) :=
  if negb (sectionNameRe config)
  then Ret (Err (Errorf "openwrt: %q is not a configuration name" [config])) else
  let dir := if nonempty (configDir m) then configDir m else "/etc/config" in
  let! linkDir := ask (MkdirTemp "veilbridge-committed-") in
  let alias := committedPrefix +:+ config in
  out <- (let! _ := ask (Symlink (in_dir dir config) (in_dir linkDir alias)) in fn linkDir alias) ;;
  _ <- ask (RemoveAll linkDir) ;;
  Ret out.

Definition committedValues (m : networkManager) (config : string) (want : list string)
    : prog (res (gmap string string)) :=
  if negb (sectionNameRe config)
  then Ret (Err (Errorf "openwrt: %q is not a configuration name" [config])) else
  r <- withCommitted m config (fun linkDir alias =>
    let! out := exec_cmd ["uci"; "-q"; "-c"; linkDir; "show"; alias] in
    let values := parseUCIShow config out in
    values <- fillMissing
      (fun k =>
         let rest := TrimPrefix (config +:+ ".") k in
         if decide (rest = k) then Ret None
         else getOne ["-q"; "-c"; linkDir; "get"; alias +:+ "." +:+ rest])
      (missingKeys values want) values ;;
    Ret (Ok values)) ;;
  Ret (wrapping "openwrt: read committed %s: %w" [config] r).
