(* ===== verification/Discipline.v ===== *)
(** * What a request may do to the router

    Two promises of internal/adapters/openwrt/network_write.go, stated of the
    calls a request makes, for every router: it writes to the draft and never
    commits it, and when it fails it has thrown away the draft of every
    configuration it wrote to. *)

From S2P Require Import Prelude GoStrings Effects Network Uci Firewall Stage.

(** ** Staging only *)

Definition readVerbs : list string := ["show"; "get"; "changes"].
Definition draftVerbs : list string := ["set"; "delete"; "add"; "add_list"; "reorder"; "revert"].

(** The verb of a uci command, after its flags. *)
Fixpoint uci_verb (args : list string) : string :=
  match args with
  | "-q" :: r => uci_verb r
  | "-X" :: r => uci_verb r
  | "-c" :: _ :: r => uci_verb r
  | v :: _ => v
  | [] => ""
  end.

(** [fw4 check] judges the draft and changes nothing. *)
Definition staging_argv (argv : list string) : bool :=
  match argv with
  | "uci" :: args => contains (readVerbs ++ draftVerbs) (uci_verb args)
  | ["/sbin/fw4"; "check"] => true
  | _ => false
  end.

Definition staging (o : op) : Prop :=
  match o with
  | Exec argv => staging_argv argv = true
  | WriteFile _ _ | Rename _ _ | Remove _ | WriteTemp _ _ => False
  | _ => True
  end.

Create HintDb staging discriminated.

(** One call after another; a known routine by its lemma. *)
Ltac solve_calls :=
  repeat first
    [ progress (cbn beta iota zeta)
    | match goal with
      | |- calls _ (Ret _) => exact I
      | |- calls _ (try_bind (Ret _) _) => apply calls_try; [exact I|intros ?]
      | |- calls _ (if ?b then _ else _) => destruct b
      | |- calls _ (let '(_, _) := ?p in _) => destruct p
      | |- calls _ (match ?x with _ => _ end) => destruct x
      end
    | solve [eauto with staging]
    | apply calls_try; [|intros ?]
    | apply calls_bind; [|intros ?]
    | apply calls_map
    | split; [|intros ?] ].

Lemma calls_ask (P : op -> Prop) o : P o -> calls P (ask o).
Proof. cbn. auto. Qed.

Lemma calls_exec (P : op -> Prop) argv : P (Exec argv) -> calls P (exec_cmd argv).
Proof. cbn. auto. Qed.

Lemma staging_uci verb args : contains (readVerbs ++ draftVerbs) (uci_verb (verb :: args)) = true ->
  calls staging (exec_cmd ("uci" :: verb :: args)).
Proof. intros. by apply calls_exec. Qed.

#[export] Hint Extern 1 (calls staging (exec_cmd _)) => (apply calls_exec; reflexivity) : staging.
#[export] Hint Extern 1 (calls staging (ask _)) => (apply calls_ask; exact I) : staging.

Lemma Interfaces_staging m : calls staging (Interfaces m).
Proof. eapply calls_weaken; [|apply Interfaces_calls]. by intros o ->. Qed.

Lemma WANInfo_staging m : calls staging (WANInfo m).
Proof. eapply calls_weaken; [|apply WANInfo_calls]. by intros o ->. Qed.

Lemma uciGet_staging k : calls staging (uciGet k).
Proof. unfold uciGet. solve_calls. Qed.

Lemma uciSet_staging k v : calls staging (uciSet k v).
Proof. unfold uciSet. solve_calls. Qed.

Lemma uciDelete_staging k : calls staging (uciDelete k).
Proof. unfold uciDelete. solve_calls. Qed.

Lemma discardConfig_staging c : calls staging (discardConfig c).
Proof. unfold discardConfig. solve_calls. Qed.

#[export] Hint Resolve Interfaces_staging WANInfo_staging uciGet_staging uciSet_staging
  uciDelete_staging discardConfig_staging : staging.

Lemma discardAll_staging cs : calls staging (discardAll cs).
Proof. induction cs as [|c cs IH]; cbn [discardAll]; solve_calls. Qed.

Lemma stageSets_staging c s sets : calls staging (stageSets c s sets).
Proof. induction sets as [|x sets IH]; cbn [stageSets]; solve_calls. Qed.

#[export] Hint Resolve discardAll_staging stageSets_staging : staging.

Lemma stage_staging c s sets : calls staging (stage c s sets).
Proof. unfold stage. solve_calls. Qed.

Lemma FirewallInfo_staging m : calls staging (FirewallInfo m).
Proof. unfold FirewallInfo. solve_calls. Qed.

Lemma getOne_staging args :
  contains (readVerbs ++ draftVerbs) (uci_verb args) = true -> calls staging (getOne args).
Proof. intros. unfold getOne. apply calls_bind; [by apply calls_exec|]. intros ?. solve_calls. Qed.

Lemma fillMissing_staging f ks m : (forall k, calls staging (f k)) -> calls staging (fillMissing f ks m).
Proof. intros. revert m. induction ks as [|k ks IH]; intros m; cbn [fillMissing]; solve_calls. Qed.

Lemma withCommitted_staging {A} m c (fn : string -> string -> prog (res A)) :
  (forall d a, calls staging (fn d a)) -> calls staging (withCommitted m c fn).
Proof. intros. unfold withCommitted. solve_calls. Qed.

#[export] Hint Resolve stage_staging FirewallInfo_staging : staging.

Lemma StageWAN_staging m cfg : calls staging (StageWAN m cfg).
Proof. unfold StageWAN, uplinkName. solve_calls. Qed.

Lemma DiscardStaged_staging m : calls staging (DiscardStaged m).
Proof. unfold DiscardStaged. solve_calls. Qed.

#[export] Hint Resolve StageWAN_staging DiscardStaged_staging : staging.

(** ** Tidy failures *)

(** The configuration a key of uci belongs to. *)
Definition config_of (key : string) : string :=
  match Cut "." key with Some (c, _) => c | None => key end.

(** The entry a command writes to: the section that the key of a [set], of a
    [delete] or of a [reorder] is in; for an [add] the whole configuration. *)
Definition entry_of (arg : string) : string :=
  let key := match Cut "=" arg with Some (k, _) => k | None => arg end in
  match Cut "." key with
  | None => key
  | Some (c, rest) => c +:+ "." +:+ match Cut "." rest with Some (s, _) => s | None => rest end
  end.

Definition writes (verb : string) : bool := contains ["set"; "delete"; "add"; "add_list"; "reorder"] verb.

(** What is left of the drafts after [uci revert arg]: a configuration by its
    name, one entry of it by its own. *)
Definition reverted (arg : string) (s : gset string) : gset string :=
  filter (fun k => k <> arg /\ config_of k <> arg) s.

(** The entries written to since their draft was last thrown away. *)
Definition drafted (s : gset string) (e : event) : gset string :=
  match e with
  | Did (Exec ["uci"; verb; arg]) r =>
      if decide (verb = "revert") then reverted arg s
      else if writes verb && is_ok (r : res string) then {[entry_of arg]} ∪ s else s
  | Did (Exec ("uci" :: verb :: arg :: _)) r =>
      if writes verb && is_ok (r : res string) then {[entry_of arg]} ∪ s else s
  | _ => s
  end.

Definition anything (s : gset string) (o : op) : Prop := True.

Abbreviation obs := (wp anything drafted).

(** A reading: it leaves every draft as it is. *)
Definition quiet (o : op) : Prop := forall s r, drafted s (Did o r) = s.

Lemma obs_quiet {A} s (p : prog A) (Q : gset string -> A -> Prop) :
  calls quiet p -> (forall a, Q s a) -> obs s p Q.
Proof.
  intros H HQ. induction p as [a|o k IH]; cbn [wp]; [by apply HQ|]. destruct H as [Ho Hk].
  split; [done|]. intros r. rewrite Ho. auto.
Qed.

(** Besides the drafts [s], only entries of [config]. *)
Definition within (config : string) (s s' : gset string) : Prop :=
  forall k, k ∈ s' -> k ∈ s \/ config_of k = config.

Lemma within_sub config s s' : s' ⊆ s -> within config s s'.
Proof. intros H k Hk. left. by apply H. Qed.

Lemma within_refl config s : within config s s.
Proof. by apply within_sub. Qed.

Lemma within_trans config s s1 s2 : within config s s1 -> within config s1 s2 -> within config s s2.
Proof. intros H1 H2 k Hk. destruct (H2 k Hk) as [Hk1|?]; [|by right]. by apply H1. Qed.

Lemma within_entry config s s' k : config_of k = config -> within config s s' -> within config s ({[k]} ∪ s').
Proof. intros Hk Hs k' [->%elem_of_singleton|H]%elem_of_union; [by right|by apply Hs]. Qed.

Lemma within_reverted config s s' : within config s s' -> reverted config s' ⊆ s.
Proof. intros H k [[_ Hc] Hk]%elem_of_filter. by destruct (H k Hk). Qed.

#[export] Hint Resolve within_refl within_sub within_entry within_reverted : vb.

(** A routine that may write to [config] and, when it fails, has thrown that
    draft away. *)
Definition tidy {A} (config : string) (p : prog (res A)) : Prop :=
  forall s, obs s p (fun s' r => if is_ok r then within config s s' else s' ⊆ s).

(** The same for a whole request. *)
Definition tidy_request {A} (p : prog (res A)) : Prop :=
  obs ∅ p (fun s' r => is_ok r = false -> s' = ∅).

Lemma tidy_is_request {A} config (p : prog (res A)) : tidy config p -> tidy_request p.
Proof.
  intros H. eapply wp_mono; [apply (H ∅)|]. intros s [a|e]; cbn; [done|]. set_solver.
Qed.

Lemma tidy_Ret {A} config (r : res A) : tidy config (Ret r).
Proof. intros s. cbn. destruct r; cbn; [apply within_refl|done]. Qed.

(** A reading before the writes. *)
Lemma tidy_after {A B} config (p : prog A) (f : A -> prog (res B)) :
  calls quiet p -> (forall a, tidy config (f a)) -> tidy config (prog_bind p f).
Proof. intros Hp Hf s. apply wp_bind. apply obs_quiet; [done|]. intros a. apply Hf. Qed.

Lemma tidy_after_try {A B} config (p : prog (res A)) (f : A -> prog (res B)) :
  calls quiet p -> (forall a, tidy config (f a)) -> tidy config (try_bind p f).
Proof. intros Hp Hf. apply tidy_after; [done|]. intros [a|e]; [apply Hf|apply tidy_Ret]. Qed.

(** What is done to the answer when there is no more to ask. *)
Lemma tidy_then {A B} config (p : prog (res A)) (g : A -> res B) :
  tidy config p -> (forall a, is_ok (g a) = true) ->
  tidy config (try_bind p (fun a => Ret (g a))).
Proof.
  intros Hp Hg s. eapply wp_seq; [apply Hp|]. intros s' [a|e]; cbn; [|done].
  rewrite Hg. done.
Qed.

Lemma quiet_ask_other o :
  match o with Exec _ => False | _ => True end -> quiet o.
Proof. intros H s r. destruct o; done. Qed.

Lemma quiet_show flag rest : flag = "-q" -> quiet (Exec ("uci" :: flag :: rest)).
Proof. intros -> s r. destruct rest as [|a [|b rest]]; done. Qed.

Create HintDb quiet discriminated.
#[export] Hint Extern 1 (quiet (Exec _)) => (intros ? ?; reflexivity) : quiet.
#[export] Hint Extern 1 (quiet _) => (apply quiet_ask_other; exact I) : quiet.
#[export] Hint Extern 1 (calls quiet (exec_cmd _)) => (apply calls_exec; intros ? ?; reflexivity) : quiet.
#[export] Hint Extern 1 (calls quiet (ask _)) => (apply calls_ask, quiet_ask_other; exact I) : quiet.

Ltac solve_quiet :=
  repeat first
    [ progress (cbn beta iota zeta)
    | match goal with
      | |- calls _ (Ret _) => exact I
      | |- calls _ (if ?b then _ else _) => destruct b
      | |- calls _ (match ?x with _ => _ end) => destruct x
      end
    | solve [eauto with quiet]
    | apply calls_try; [|intros ?]
    | apply calls_bind; [|intros ?]
    | apply calls_map ].

Lemma Interfaces_quiet m : calls quiet (Interfaces m).
Proof. eapply calls_weaken; [|apply Interfaces_calls]. by intros o ->. Qed.

Lemma WANInfo_quiet m : calls quiet (WANInfo m).
Proof. eapply calls_weaken; [|apply WANInfo_calls]. by intros o ->. Qed.

#[export] Hint Resolve Interfaces_quiet WANInfo_quiet : quiet.

Lemma FirewallInfo_quiet m : calls quiet (FirewallInfo m).
Proof. unfold FirewallInfo. solve_quiet. Qed.

Lemma uciGet_quiet k : calls quiet (uciGet k).
Proof. unfold uciGet. solve_quiet. Qed.

Lemma uplinkName_quiet m i : calls quiet (uplinkName m i).
Proof. unfold uplinkName. solve_quiet. Qed.

#[export] Hint Resolve FirewallInfo_quiet uciGet_quiet uplinkName_quiet : quiet.

Lemma withCommitted_quiet {A} m c (fn : string -> string -> prog (res A)) :
  (forall d a, calls quiet (fn d a)) -> calls quiet (withCommitted m c fn).
Proof. intros. unfold withCommitted. solve_quiet. Qed.

Lemma config_of_key c rest : lacks "." c = true -> config_of (c +:+ "." +:+ rest) = c.
Proof. intros. unfold config_of. by rewrite append_cons, append_nil_l, Cut_sep. Qed.

Lemma Cut_prefix sep a s : lacks sep a = true ->
  Cut sep (a +:+ s) = match Cut sep s with Some (x, y) => Some (a +:+ x, y) | None => None end.
Proof.
  induction a as [|c a IH]; intros H.
  - rewrite append_nil_l. destruct (Cut sep s) as [[x y]|]; by rewrite ?append_nil_l.
  - rewrite lacks_cons in H. bool_to_prop. rewrite append_cons. cbn [Cut]. rewrite decide_False, IH by done.
    destruct (Cut sep s) as [[x y]|]; by rewrite ?append_cons.
Qed.

(** The entry a key is in belongs to the configuration of the key. *)
Lemma config_of_entry c rest : lacks "." c = true -> lacks "=" c = true ->
  config_of (entry_of (c +:+ "." +:+ rest)) = c.
Proof.
  intros Hd He. unfold entry_of.
  assert (forall r, "." +:+ r = String "." r) as Hdot by done.
  rewrite Cut_prefix, Hdot by done. cbn [Cut]. rewrite decide_False by done.
  destruct (Cut "=" rest) as [[x y]|]; rewrite Cut_sep by done; by apply config_of_key.
Qed.

Lemma entry_of_config c : lacks "." c = true -> lacks "=" c = true -> entry_of c = c.
Proof.
  intros Hd He. unfold entry_of. assert (forall sep, lacks sep c = true -> Cut sep c = None) as Hn.
  { intros sep H. destruct (Cut sep c) as [[a b]|] eqn:E; [|done].
    apply Cut_Some in E as [-> _]. rewrite lacks_app, lacks_cons, andb_comm in H. by bool_to_prop. }
  by rewrite !Hn.
Qed.

Lemma config_of_self c : lacks "." c = true -> config_of c = c.
Proof.
  intros H. unfold config_of. destruct (Cut "." c) as [[a b]|] eqn:E; [|done].
  apply Cut_Some in E as [-> _]. rewrite lacks_app, lacks_cons, andb_comm in H.
  by bool_to_prop.
Qed.

(** The name of a configuration file, as the code spells one. *)
Class ConfigName (c : string) : Prop := config_name : sectionNameRe c = true.
#[export] Hint Extern 0 (ConfigName _) => (reflexivity) : typeclass_instances.

(** One write: a failure writes nothing, success adds the entry. *)
Lemma write_entry_obs s argv verb arg rest (Q : gset string -> res string -> Prop) :
  argv = "uci" :: verb :: arg :: rest -> writes verb = true ->
  (forall out, Q ({[entry_of arg]} ∪ s) (Ok out)) -> (forall e, Q s (Err e)) -> obs s (exec_cmd argv) Q.
Proof.
  intros -> Hw Hok Herr. cbn [wp exec_cmd]. split; [done|]. intros r.
  assert (verb <> "revert") as Hv by (intros ->; done).
  destruct rest; cbn [drafted]; rewrite ?decide_False by done; rewrite Hw; destruct r as [out|e]; cbn; auto.
Qed.

Section Tidy.
Context (config : string) `{!ConfigName config}.

Lemma config_lacks_dot : lacks "." config = true.
Proof. apply sectionNameRe_lacks; [apply config_name|done]. Qed.

Lemma config_lacks_eq : lacks "=" config = true.
Proof. apply sectionNameRe_lacks; [apply config_name|done]. Qed.

Lemma entry_config rest : config_of (entry_of (config +:+ "." +:+ rest)) = config.
Proof. apply config_of_entry; [apply config_lacks_dot|apply config_lacks_eq]. Qed.

(** Throwing the draft away ends in a state without it. *)
Lemma discard_obs s (Q : gset string -> res unit -> Prop) :
  (forall r, Q (reverted config s) r) -> obs s (discardConfig config) Q.
Proof. intros HQ. unfold discardConfig. rewrite config_name. cbn. split; [done|]. intros r. apply HQ. Qed.

(** A failure after the draft was thrown away. *)
Lemma discard_then_fail {A} s s0 (e : err) :
  within config s s0 ->
  obs s0 (_ <- discardConfig config ;; Ret (Err e : res A)) (fun s' r => if is_ok r then within config s s' else s' ⊆ s).
Proof. intros H. apply wp_bind, discard_obs. intros r. cbn. auto with vb. Qed.

(** ... an entry of the configuration. *)
Lemma write_obs s argv verb arg rest (Q : gset string -> res string -> Prop) :
  argv = "uci" :: verb :: arg :: rest -> writes verb = true -> config_of (entry_of arg) = config ->
  (forall out s', within config s s' -> Q s' (Ok out)) -> (forall e, Q s (Err e)) -> obs s (exec_cmd argv) Q.
Proof. intros -> Hw Hc Hok Herr. eapply write_entry_obs; [done|done| |done]. auto with vb. Qed.

Lemma uciSet_obs s key value (Q : gset string -> res unit -> Prop) :
  config_of (entry_of (key +:+ "=" +:+ value)) = config ->
  (forall s', within config s s' -> Q s' (Ok tt)) -> (forall e, Q s (Err e)) -> obs s (uciSet key value) Q.
Proof.
  intros Hc Hok Herr. unfold uciSet. apply wp_bind. eapply write_obs; [done|done|exact Hc|..]; cbn; auto.
Qed.

Lemma uciDelete_obs s key (Q : gset string -> res unit -> Prop) :
  config_of (entry_of key) = config ->
  (forall s', within config s s' -> Q s' (Ok tt)) -> (forall e, Q s (Err e)) -> obs s (uciDelete key) Q.
Proof.
  intros Hc Hok Herr. unfold uciDelete. apply wp_bind. eapply write_obs; [done|done|exact Hc|..]; cbn; auto.
Qed.

(** The loop of [stage], started where this request has written [s0]. *)
Lemma stageSets_obs section sets s s0 :
  within config s s0 ->
  obs s0 (stageSets config section sets)
    (fun s' r => if is_ok r then within config s s' else s' ⊆ s).
Proof.
  revert s0. induction sets as [|x sets IH]; intros s0 H0; cbn [stageSets]; [done|].
  apply wp_bind, obs_quiet; [solve_quiet|]. intros before.
  destruct (settled x before); [by apply IH|].
  assert (config_of (entry_of (settingKey config section x)) = config) as Hk by apply entry_config.
  assert (config_of (entry_of (settingKey config section x +:+ "=" +:+ sValue x)) = config) as Hkv.
  { unfold settingKey. rewrite <- !append_assoc. apply entry_config. }
  assert (forall s1, within config s0 s1 -> obs s1
    (let! changes := stageSets config section sets in
     Ret (Ok (settingRow config (settingKey config section x) x before :: changes)))
    (fun s' r => if is_ok r then within config s s' else s' ⊆ s)) as Hrest.
  { intros s1 H1. eapply wp_seq; [apply IH; by eapply within_trans|]. intros s' [cs|e]; done. }
  apply wp_bind. destruct (sRemove x).
  - apply uciDelete_obs; [done|done|]. intros e. by apply discard_then_fail.
  - apply uciSet_obs; [done|done|]. intros e. by apply discard_then_fail.
Qed.

Lemma stage_obs section sets s s0 :
  within config s s0 -> sectionOk section = true \/ s0 ⊆ s ->
  obs s0 (stage config section sets)
    (fun s' r => if is_ok r then within config s s' else s' ⊆ s).
Proof.
  intros H0 Hs. unfold stage. destruct (sectionOk section) eqn:E; cbn [negb]; [by apply stageSets_obs|].
  destruct Hs; done.
Qed.

Lemma stage_tidy section sets : tidy config (stage config section sets).
Proof. intros s. apply stage_obs; [auto with vb|by right]. Qed.
End Tidy.

Lemma StageWAN_tidy m cfg : tidy "network" (StageWAN m cfg).
Proof.
  unfold StageWAN. destruct (negb (runs m)); [apply tidy_Ret|].
  apply tidy_after_try; [solve_quiet|]. intros iface.
  destruct (negb _); [apply tidy_Ret|].
  apply tidy_after_try; [done|]. intros sets. apply stage_tidy, _.
Qed.

(** A manager with both of its seams, for the concrete runs. *)
Definition a_manager : networkManager := mkManager true true "".
