(* ===== verification/StageThms.v ===== *)
(** * What staging does to a draft

    Against a router whose [uci] keeps its documented behaviour ([DraftStore]),
    [stage] brings the draft of a section to the settings asked for, touches no
    other key, and reports exactly the keys whose value it changed. *)

From S2P Require Import Prelude GoStrings GoNet Effects Network Uci Firewall Stage.

Definition newline : string := String "010" "".

(** ** uci, as the code relies on it *)

(** [draft w] is every key as uci shows it, the draft included. *)
Class DraftStore {W} (h : router W) := {
  draft : W -> gmap string string;
  get_there w k v :
    draft w !! k = Some v -> answer h (Exec ["uci"; "-q"; "get"; k]) w = (Ok (v +:+ newline), w);
  get_missing w k :
    draft w !! k = None -> exists e, answer h (Exec ["uci"; "-q"; "get"; k]) w = (Err e, w);
  set_option w c s o v :
    is_Some (draft w !! (c +:+ "." +:+ s)) -> nonempty v = true ->
    exists out w', answer h (Exec ["uci"; "set"; c +:+ "." +:+ s +:+ "." +:+ o +:+ "=" +:+ v]) w = (Ok out, w') /\
      (lacks "=" (c +:+ "." +:+ s +:+ "." +:+ o) = true ->
       draft w' = <[c +:+ "." +:+ s +:+ "." +:+ o := v]> (draft w));
  delete_option w c s o v :
    draft w !! (c +:+ "." +:+ s +:+ "." +:+ o) = Some v ->
    exists out w', answer h (Exec ["uci"; "delete"; c +:+ "." +:+ s +:+ "." +:+ o]) w = (Ok out, w') /\
      draft w' = delete (c +:+ "." +:+ s +:+ "." +:+ o) (draft w)
}.

(** What [uciGet] makes of a key. *)
Definition reading (m : gmap string string) (k : string) : string :=
  match m !! k with Some v => TrimSpace (v +:+ newline) | None => "" end.

(** ** The settings a section can be given *)

(** A value uci gives back as it was written. *)
Definition plain (v : string) : Prop := nonempty v = true /\ TrimSpace (v +:+ newline) = v.

Definition setting_ok (config section : string) (s : wanSetting) : Prop :=
  (sRemove s = false -> plain (sValue s)) /\ lacks "=" (settingKey config section s) = true /\
  settingKey config section s <> config +:+ "." +:+ section.

Definition written (config section : string) (sets : list wanSetting) : list string :=
  settingKey config section <$> sets.

(** The rows of the settings that differ from the draft [m]. *)
Definition differences (config section : string) (m : gmap string string) (sets : list wanSetting)
    : list ConfigChange :=
  omap (fun s =>
    let key := settingKey config section s in
    if settled s (reading m key) then None else Some (settingRow config key s (reading m key))) sets.

Section Store.
Context {W : Type} (h : router W) `{!DraftStore h}.
Context (config section : string).

Lemma uciGet_reading w k :
  result h (uciGet k) w = reading (draft w) k /\ after h (uciGet k) w = w.
Proof.
  unfold result, after, reading, uciGet. cbn [prog_bind exec_cmd perform].
  destruct (draft w !! k) as [v|] eqn:E.
  - by rewrite (get_there w k v E).
  - by destruct (get_missing w k E) as [e ->].
Qed.

Lemma uciSet_draft w s v :
  is_Some (draft w !! (config +:+ "." +:+ section)) -> nonempty v = true ->
  lacks "=" (settingKey config section s) = true ->
  result h (uciSet (settingKey config section s) v) w = Ok tt /\
  draft (after h (uciSet (settingKey config section s) v) w) =
    <[settingKey config section s := v]> (draft w).
Proof.
  intros Hs Hv He. unfold result, after, uciSet, settingKey in *. cbn [prog_bind exec_cmd perform].
  rewrite <- !append_assoc.
  destruct (set_option w config section (sKey s) v Hs Hv) as (out & w' & -> & Hd). cbn. auto.
Qed.

Lemma uciDelete_draft w s v :
  draft w !! settingKey config section s = Some v ->
  result h (uciDelete (settingKey config section s)) w = Ok tt /\
  draft (after h (uciDelete (settingKey config section s)) w) =
    delete (settingKey config section s) (draft w).
Proof.
  intros Hs. unfold result, after, uciDelete, settingKey in *. cbn [prog_bind exec_cmd perform].
  destruct (delete_option w config section (sKey s) v Hs) as (out & w' & -> & Hd). cbn. auto.
Qed.

(** One setting that is not settled: the write succeeds, settles it, and
    changes no other key. *)
Lemma write_setting w s :
  is_Some (draft w !! (config +:+ "." +:+ section)) -> setting_ok config section s ->
  let key := settingKey config section s in
  settled s (reading (draft w) key) = false ->
  let p := if sRemove s then uciDelete key else uciSet key (sValue s) in
  result h p w = Ok tt /\ settled s (reading (draft (after h p w)) key) = true /\
  forall k, k <> key -> draft (after h p w) !! k = draft w !! k.
Proof.
  intros Hsec (Hv & He & _) key Hs p. unfold p. unfold settled in *.
  destruct (sRemove s) eqn:Er; cbn [negb andb orb] in *.
  - rewrite orb_false_r in Hs. bool_to_prop.
    destruct (draft w !! key) as [v|] eqn:E; [|unfold reading in *; by rewrite E in *].
    destruct (uciDelete_draft w s v E) as [Hr Hd]. fold key in Hr, Hd. rewrite Hr, Hd. unfold reading.
    split; [done|]. split; [by rewrite lookup_delete_eq|]. intros k Hk. by rewrite lookup_delete_ne.
  - destruct (Hv eq_refl) as [Hn Ht]. destruct (uciSet_draft w s (sValue s) Hsec Hn He) as [Hr Hd]. fold key in Hr, Hd.
    unfold reading. rewrite Hr, Hd. split; [done|]. split.
    + rewrite lookup_insert_eq, Ht. by apply bool_decide_eq_true.
    + intros k Hk. by rewrite lookup_insert_ne.
Qed.

Lemma settled_frame (m m' : gmap string string) sets :
  (forall k, k ∈ written config section sets -> m' !! k = m !! k) ->
  differences config section m' sets = differences config section m sets.
Proof.
  induction sets as [|s sets IH]; intros H; [done|]. unfold differences in *. cbn [omap list_omap].
  unfold reading in *. rewrite (H (settingKey config section s)) by left.
  rewrite IH by (intros; apply H; by right). done.
Qed.

Lemma stageSets_spec sets w :
  is_Some (draft w !! (config +:+ "." +:+ section)) ->
  Forall (setting_ok config section) sets -> NoDup (written config section sets) ->
  let p := stageSets config section sets in
  result h p w = Ok (differences config section (draft w) sets) /\
  (forall s, s ∈ sets -> settled s (reading (draft (after h p w)) (settingKey config section s)) = true) /\
  (forall k, k ∉ written config section sets -> draft (after h p w) !! k = draft w !! k).
Proof.
  revert w. induction sets as [|s sets IH]; intros w Hsec Hok Hnd p; unfold p; cbn [stageSets].
  { split; [done|]. split; [|done]. by intros s ?%not_elem_of_nil. }
  rewrite Forall_cons in Hok. destruct Hok as [Hs Hok].
  unfold written in Hnd. rewrite fmap_cons, NoDup_cons in Hnd. destruct Hnd as [Hni Hnd].
  set (key := settingKey config section s) in *.
  rewrite result_bind, after_bind. destruct (uciGet_reading w key) as [-> ->].
  unfold differences. cbn [omap list_omap]. fold key.
  destruct (settled s (reading (draft w) key)) eqn:Est.
  - destruct (IH w Hsec Hok Hnd) as (-> & Hin & Hout). split; [done|]. split.
    + intros s' [->|Hs']%elem_of_cons; [|by apply Hin].
      fold key. unfold reading in *. rewrite Hout by exact Hni. exact Est.
    + intros k Hk. unfold written in Hk. rewrite fmap_cons, not_elem_of_cons in Hk.
      apply Hout. apply Hk.
  - destruct (write_setting w s Hsec Hs Est) as (Hr & Hset & Hfr). fold key in Hr, Hset, Hfr.
    rewrite result_bind, after_bind, Hr. cbv zeta iota.
    set (w1 := after h _ w) in *.
    assert (is_Some (draft w1 !! (config +:+ "." +:+ section))) as Hsec1.
    { rewrite Hfr; [done|]. destruct Hs as (_ & _ & Hne). intros E. apply Hne. by rewrite E. }
    destruct (IH w1 Hsec1 Hok Hnd) as (Hres & Hin & Hout).
    unfold try_bind. rewrite result_bind, after_bind, Hres. cbv iota. cbn [result after perform fst snd].
    split.
    { unfold result. cbn. do 2 f_equal. apply settled_frame. intros k Hk. apply Hfr. by intros ->. }
    unfold after at 1 2. cbn [perform fst snd]. split.
    + intros s' [->|Hs']%elem_of_cons; [|by apply Hin].
      fold key. unfold reading in *. rewrite Hout by exact Hni. exact Hset.
    + intros k Hk. unfold written in Hk. rewrite fmap_cons, not_elem_of_cons in Hk.
      destruct Hk as [Hk1 Hk2]. rewrite Hout by done. by apply Hfr.
Qed.

End Store.

(** ** A router that keeps a draft in memory *)

Definition refused : res string := Err (Errorf "uci: Entry not found" []).

Definition memory_uci (args : list string) (m : gmap string string) : res string * gmap string string :=
  match args with
  | ["-q"; "get"; k] => (match m !! k with Some v => Ok (v +:+ newline) | None => refused end, m)
  | ["set"; kv] => match Cut "=" kv with Some (k, v) => (Ok "", <[k := v]> m) | None => (refused, m) end
  | ["delete"; k] => match m !! k with Some _ => (Ok "", delete k m) | None => (refused, m) end
  | _ => (refused, m)
  end.

Definition memory : router (gmap string string) :=
  answering (fun argv m =>
    match argv with
    | "uci" :: args => memory_uci args m
    | _ => (refused, m)
    end).

#[export] Program Instance memory_store : DraftStore memory := {| draft m := m |}.
Next Obligation. intros m k v H. cbn. by rewrite H. Qed.
Next Obligation. intros m k H. cbn. rewrite H. by eexists. Qed.
Next Obligation.
  intros m c s o v _ _. cbn.
  destruct (Cut "=" _) as [[k v']|] eqn:E.
  - eexists _, _. split; [done|]. intros Hl.
    replace (c +:+ "." +:+ s +:+ "." +:+ o +:+ "=" +:+ v)
      with ((c +:+ "." +:+ s +:+ "." +:+ o) +:+ String "=" v) in E by (by rewrite <- !append_assoc).
    rewrite Cut_sep in E by done. by injection E as <- <-.
  - exfalso. replace (c +:+ "." +:+ s +:+ "." +:+ o +:+ "=" +:+ v)
      with ((c +:+ "." +:+ s +:+ "." +:+ o) +:+ String "=" v) in E by (by rewrite <- !append_assoc).
    revert E. generalize (c +:+ "." +:+ s +:+ "." +:+ o). intros k.
    induction k as [|x k IH]; [done|]. rewrite append_cons. cbn [Cut]. case_decide; [done|].
    destruct (Cut "=" (k +:+ String "=" v)) as [[? ?]|]; done.
Qed.
Next Obligation. intros m c s o v H. cbn. rewrite H. eauto. Qed.

Definition example_sets : list wanSetting :=
  [uplinkSet "proto" "static"; uplinkSet "ipaddr" "10.0.0.2"; unset "peerdns" "1" (describe "network" roleUplink "peerdns")].

Definition example_draft : gmap string string :=
  list_to_map [("network.wan", "interface"); ("network.wan.proto", "dhcp"); ("network.wan.peerdns", "0");
               ("network.wan.ipaddr", "10.0.0.2")].

