(* ===== verification/Lan.v ===== *)
(** * The local network: internal/adapters/openwrt/lan.go and lan_write.go

    Its address, its address handout with the conversion between the offsets
    the device keeps and the addresses the panel speaks, and the reserved
    addresses. *)

From S2P Require Import Prelude GoStrings GoNet Effects Network Uci Firewall Stage.

(** ** internal/core/types.go *)

Record AddressHandout := mkHandout { hEnabled : bool; hFirst : string; hLast : string; hLeaseSeconds : Z }.
Record AddressLease := mkLease { lMAC : string; lIP : string; lHostname : string; lExpiresSec : Z }.
Record ReservedAddress := mkReserved { raID : string; raMAC : string; raIP : string; raName : string }.
Record LANStatus := mkLAN {
  lanInterface : NetworkInterface; lanHandout : AddressHandout;
  lanLeaseList : list AddressLease; lanReserved : list ReservedAddress }.

Record LANConfig := mkLANConfig { lcAddress : string; lcNetmask : string }.
Record HandoutConfig := mkHandoutConfig { hcEnabled : bool; hcFirst : string; hcLast : string; hcLeaseSeconds : Z }.
Record ReservationConfig := mkReservation { rcMAC : string; rcIP : string; rcName : string }.

Definition noHandout : AddressHandout := mkHandout false "" "" 0.

(** ** Reading *)

Definition defaultLeaseFile := "/tmp/dhcp.leases".

(** [addOffset(base, offset)], the address as a number. *)
Definition addOffset (base offset : Z) : option Z :=
  if (offset <? 0)%Z then None else
  let sum := (base + offset)%Z in
  if (4294967295 <? sum)%Z then None else Some sum.

Fixpoint poolRange (addresses : list string) (start limit : Z) : option (string * string) :=
  match addresses with
  | [] => None
  | a :: addresses =>
      match ParseCIDR a with
      | None => poolRange addresses start limit
      | Some (ip, network) =>
          if bool_decide (To4 ip = None) then poolRange addresses start limit else
          match To4 (NetIP network) with
          | None => poolRange addresses start limit
          | Some base =>
              match addOffset base start, addOffset base (wrap64 (start + limit - 1)) with
              | Some first, Some last =>
                  if NetContains network (to16 (Addr4 first)) && NetContains network (to16 (Addr4 last))
                  then Some (string4 first, string4 last) else None
              | _, _ => None
              end
          end
      end
  end.

(** The unit a duration ends with, and what is before it. *)
Definition lease_unit (v : string) : Z * string :=
  match rev_string v with
  | String "w" r => (604800, rev_string r)
  | String "d" r => (86400, rev_string r)
  | String "h" r => (3600, rev_string r)
  | String "m" r => (60, rev_string r)
  | String "s" r => (1, rev_string r)
  | _ => (1, v)
  end%Z.

Definition parseLeaseTime (v : string) : Z :=
  let v := TrimSpace v in
  if negb (nonempty v) || bool_decide (v = "infinite") then 0%Z else
  let (unit, v) := lease_unit v in
  match Atoi (TrimSpace v) with
  | Some n => if (n <? 0)%Z then 0%Z else wrap64 (n * unit)
  | None => 0%Z
  end.

Definition dhcpKey (option : string) : string := "dhcp." +:+ lanSection +:+ "." +:+ option.

Definition handout (lan : NetworkInterface) : prog AddressHandout :=
  ignore <- uciGet (dhcpKey "ignore") ;;
  if bool_decide (ignore = "1") then Ret noHandout else
  start <- uciGet (dhcpKey "start") ;;
  limit <- uciGet (dhcpKey "limit") ;;
  match Atoi start, Atoi limit with
  | Some start, Some limit =>
      if (limit <=? 0)%Z then Ret noHandout else
      lease <- uciGet (dhcpKey "leasetime") ;;
      let (first, last) := default ("", "") (poolRange (IPv4 lan) start limit) in
      Ret (mkHandout true first last (parseLeaseTime lease))
  | _, _ => Ret noHandout
  end.

(** One field of the entry [eid], if there is one. *)
Definition set_reserved (eid : string) (f : ReservedAddress -> ReservedAddress) (l : list ReservedAddress) :=
  (fun r => if decide (raID r = eid) then f r else r) <$> l.

Definition reserved_line (acc : list ReservedAddress) (line : string) : list ReservedAddress :=
  match Cut "=" (TrimSpace line) with
  | None => acc
  | Some (key, value) =>
      match Split "." key with
      | [_; eid] =>
          if bool_decide (unquoteUCI value = "host") && negb (existsb (fun r => bool_decide (raID r = eid)) acc)
          then acc ++ [mkReserved eid "" "" ""] else acc
      | [_; eid; option] =>
          let v := unquoteUCI value in
          if decide (option = "mac") then set_reserved eid (fun r => mkReserved (raID r) v (raIP r) (raName r)) acc
          else if decide (option = "ip") then set_reserved eid (fun r => mkReserved (raID r) (raMAC r) v (raName r)) acc
          else if decide (option = "name") then set_reserved eid (fun r => mkReserved (raID r) (raMAC r) (raIP r) v) acc
          else acc
      | _ => acc
      end
  end.

Definition parseReserved (out : string) : list ReservedAddress :=
  filter (fun r => nonempty (raMAC r) && nonempty (raIP r) = true) (fold_left reserved_line (lines out) []).

Definition reserved : prog (list ReservedAddress) :=
  out <- exec_cmd ["uci"; "-q"; "show"; "dhcp"] ;;
  Ret (match out with Ok out => parseReserved out | Err _ => [] end).

Definition lease_line (now : Z) (line : string) : option AddressLease :=
  match Fields line with
  | expiry :: mac :: ip :: name :: _ =>
      match Atoi expiry with
      | None => None
      | Some expiry =>
          let left := wrap64 (expiry - now) in
          Some (mkLease mac ip (if decide (name = "*") then "" else name) (if (0 <? left)%Z then left else 0))
      end
  | _ => None
  end.

Definition parseLeases (data : string) (now : Z) : list AddressLease := omap (lease_line now) (lines data).

Definition leases : prog (list AddressLease) :=
  path <- uciGet "dhcp.@dnsmasq[0].leasefile" ;;
  let path := if nonempty path then path else defaultLeaseFile in
  data <- ask (ReadFile path) ;;
  match data with
  | Err _ => Ret []
  | Ok data => now <- ask Now ;; Ret (parseLeases data now)
  end.

Definition lanLeases (all : list AddressLease) (lan4 : list string) : list AddressLease :=
  let nets := omap (fun a => snd <$> ParseCIDR a) lan4 in
  match nets with
  | [] => all
  | _ =>
      filter (fun l => match ParseIP (lIP l) with
                       | Some ip => existsb (fun n => NetContains n ip) nets
                       | None => false
                       end = true) all
  end.

Definition LANInfo (m : networkManager) : prog (res LANStatus) :=
  let! ifaces := Interfaces m in
  match find_first (fun i => String.eqb (Name i) lanSection) ifaces with
  | None => Ret (Err ErrNoLAN)
  | Some lan =>
      if negb (runs m) then Ret (Ok (mkLAN lan noHandout [] [])) else
      h <- handout lan ;;
      r <- reserved ;;
      l <- leases ;;
      Ret (Ok (mkLAN lan h (lanLeases l (IPv4 lan)) r))
  end.

(** ** Writing *)

(** [stage] on the section of the local network. *)
Definition lanSet (config option value : string) : wanSetting :=
  set_to option value (describe config roleLAN option).

(** The prefix length of a mask that [validNetmask] let through. *)
Definition mask_bits (netmask : string) : Z :=
  default 0%Z (ParseIP4 netmask ≫= MaskSize).

Definition poolFitsAddress (address netmask : string) : prog (res unit) :=
  start <- uciGet (dhcpKey "start") ;;
  limit <- uciGet (dhcpKey "limit") ;;
  match Atoi start, Atoi limit with
  | Some start, Some limit =>
      if (limit <=? 0)%Z then Ret (Ok tt) else
      let ones := mask_bits netmask in
      let cidr := address +:+ "/" +:+ Itoa ones in
      Ret (match poolRange [cidr] start limit with
           | Some _ => Ok tt
           | None => Err (Errorf "openwrt: the addresses handed out would fall outside %s/%d" [address; Itoa ones])
           end)
  | _, _ => Ret (Ok tt)
  end.

Definition StageLAN (m : networkManager) (cfg : LANConfig) : prog (res (list ConfigChange)) :=
  if negb (runs m) then Ret (Err ErrNotImplemented) else
  if bool_decide (ParseIP4 (lcAddress cfg) = None)
  then Ret (Refuse "address" (Errorf "openwrt: %q is not an IPv4 address" [lcAddress cfg])) else
  let* _ := RefuseRes "netmask" (validNetmask (lcNetmask cfg)) in
  fits <- poolFitsAddress (lcAddress cfg) (lcNetmask cfg) ;;
  let* _ := RefuseRes "address" fits in
  stage "network" lanSection
    [lanSet "network" "proto" "static"; lanSet "network" "ipaddr" (lcAddress cfg);
     lanSet "network" "netmask" (lcNetmask cfg)].

Definition lanNetwork (m : networkManager) : prog (res IPNet) :=
  let! lan := LANInfo m in
  Ret (match find_first (fun n => bool_decide (To4 (NetIP n) <> None))
               (omap (fun a => snd <$> ParseCIDR a) (IPv4 (lanInterface lan))) with
       | Some n => Ok n
       | None => Err (Errorf "openwrt: the local network has no IPv4 address to count from" [])
       end).

Definition poolOffsets (network : IPNet) (first last : string) : res (Z * Z) :=
  match ParseIP4 first with
  | None => Refuse "first" (Errorf "openwrt: %q is not an IPv4 address" [first])
  | Some fu =>
      match ParseIP4 last with
      | None => Refuse "last" (Errorf "openwrt: %q is not an IPv4 address" [last])
      | Some lu =>
          let inside v := NetContains network (to16 (Addr4 v)) in
          if negb (inside fu) || negb (inside lu)
          then Refuse (if inside fu then "last" else "first")
                 (Errorf "openwrt: %s-%s is outside the local network %s" [first; last; NetString network]) else
          if (lu <? fu)%Z then Refuse "last" (Errorf "openwrt: %s comes before %s" [last; first]) else
          let base := default 0%Z (To4 (NetIP network)) in
          (* unsigned 32-bit differences, converted to int *)
          let start := ((fu - base) mod 2 ^ 32)%Z in
          let count := ((lu - fu) mod 2 ^ 32 + 1)%Z in
          if (start =? 0)%Z
          then Refuse "first" (Errorf "openwrt: %s is the address of the network itself" [first])
          else Ok (start, count)
      end
  end.

Definition offsetAsAddress (network : IPNet) (stored : string) : string :=
  match Atoi (TrimSpace stored), To4 (NetIP network) with
  | Some n, Some base => match addOffset base n with Some v => string4 v | None => "" end
  | _, _ => ""
  end.

Definition lastAsAddress (network : IPNet) (storedStart storedLimit : string) : string :=
  match Atoi (TrimSpace storedStart), Atoi (TrimSpace storedLimit), To4 (NetIP network) with
  | Some s, Some l, Some base =>
      if (l <=? 0)%Z then "" else
      match addOffset base (wrap64 (s + l - 1)) with Some v => string4 v | None => "" end
  | _, _, _ => ""
  end.

Definition formatLeaseTime (sec : Z) : string :=
  if (Z.rem sec 3600 =? 0)%Z then Itoa (Z.quot sec 3600) +:+ "h"
  else if (Z.rem sec 60 =? 0)%Z then Itoa (Z.quot sec 60) +:+ "m"
  else Itoa sec.

Definition StageHandout (m : networkManager) (cfg : HandoutConfig) : prog (res (list ConfigChange)) :=
  if negb (runs m) then Ret (Err ErrNotImplemented) else
  if negb (hcEnabled cfg) then stage "dhcp" lanSection [lanSet "dhcp" "ignore" "1"] else
  let! network := lanNetwork m in
  let* (start, limit) := poolOffsets network (hcFirst cfg) (hcLast cfg) in
  start0 <- uciGet (dhcpKey "start") ;;
  start1 <- uciGet (dhcpKey "start") ;;
  limit1 <- uciGet (dhcpKey "limit") ;;
  let sets :=
    [unset "ignore" "" (describe "dhcp" roleLAN "ignore");
     mkSetting "start" (Itoa start) (describe "dhcp" roleLAN "start") false false ""
       (hcFirst cfg) (offsetAsAddress network start0);
     mkSetting "limit" (Itoa limit) (describe "dhcp" roleLAN "limit") false false ""
       (hcLast cfg) (lastAsAddress network start1 limit1)] in
  let sets := if (0 <? hcLeaseSeconds cfg)%Z
              then sets ++ [lanSet "dhcp" "leasetime" (formatLeaseTime (hcLeaseSeconds cfg))] else sets in
  stage "dhcp" lanSection sets.

Definition reservationWords (r : ReservedAddress) : string :=
  if nonempty (raName r) then raName r +:+ " (" +:+ raMAC r +:+ ") " +:+ raIP r
  else raMAC r +:+ " " +:+ raIP r.

(** [uci add config type], with the name the device gave. *)
Definition addSection (config type what : string) : prog (res string) :=
  r <- exec_cmd ["uci"; "add"; config; type] ;;
  match r with
  | Err e => Ret (Err (Wrapf ("openwrt: stage a " +:+ what +:+ ": %w") [] e))
  | Ok out =>
      let section := TrimSpace out in
      if sectionNameRe section then Ret (Ok section) else
      _ <- discardConfig config ;;
      Ret (Err (Errorf (if decide (what = "rule") then "openwrt: the device named the new rule %q"
                        else "openwrt: the device named the new entry %q") [section]))
  end.

Definition hostSet (option value : string) : wanSetting := set_to option value (describe "dhcp" roleHost option).

Definition StageReservation (m : networkManager) (cfg : ReservationConfig) : prog (res (list ConfigChange)) :=
  if negb (runs m) then Ret (Err ErrNotImplemented) else
  match ParseMAC (TrimSpace (rcMAC cfg)) with
  | None => Ret (Refuse "mac" (Errorf "openwrt: %q is not a MAC address" [rcMAC cfg]))
  | Some mac =>
  match ParseIP4 (TrimSpace (rcIP cfg)) with
  | None => Ret (Refuse "ip" (Errorf "openwrt: %q is not an IPv4 address" [rcIP cfg]))
  | Some ip =>
  if nonempty (rcName cfg) && negb (hostNameRe (rcName cfg))
  then Ret (Refuse "name" (Errorf "openwrt: %q is not a device name" [rcName cfg])) else
  network <- lanNetwork m ;;
  let outside := match network with Ok n => negb (NetContains n (to16 (Addr4 ip))) | Err _ => false end in
  if outside
  then Ret (Refuse "ip" (Errorf "openwrt: %s is outside the local network %s"
         [rcIP cfg; match network with Ok n => NetString n | Err _ => "" end])) else
  known <- reserved ;;
  let have := find_first (fun r => EqualFold (raMAC r) (MACString mac)) known in
  (* an entry whose id is empty would count as none *)
  let section := match have with Some r => raID r | None => "" end in
  let subject := match have with Some r => entrySubject (raName r) (reservationWords r) | None => "" end in
  let fresh := negb (nonempty section) in
  let! section := (if fresh then addSection "dhcp" "host" "reservation" else Ret (Ok section)) in
  let sets := [hostSet "mac" (MACString mac); hostSet "ip" (string4 ip)] ++
    (if nonempty (rcName cfg) then [hostSet "name" (rcName cfg)] else []) in
  let! changes := stage "dhcp" section sets in
  if negb fresh then Ret (Ok (withSubject changes subject)) else
  Ret (Ok [entryRow (describe "dhcp" roleHost "") ""
             (reservationWords (mkReserved "" (MACString mac) (string4 ip) (rcName cfg)))
             "dhcp" ("dhcp." +:+ section)])
  end end.

Definition RemoveReservation (m : networkManager) (eid : string) : prog (res (list ConfigChange)) :=
  if negb (runs m) then Ret (Err ErrNotImplemented) else
  if negb (sectionOk eid) then Ret (Err (Errorf "openwrt: %q is not an entry on this device" [eid])) else
  known <- reserved ;;
  match find_first (fun r => String.eqb (raID r) eid) known with
  | None => Ret (Err (Errorf "openwrt: no reservation %q on this device" [eid]))
  | Some target =>
      let! _ := (r <- exec_cmd ["uci"; "delete"; "dhcp." +:+ eid] ;;
                 Ret (wrapping "openwrt: stage removal of a reservation: %w" [] r)) in
      Ret (Ok [entryRow (describe "dhcp" roleHost "") (reservationWords target) "" "dhcp" ("dhcp." +:+ eid)])
  end.
