(* ===== verification/LanThms.v ===== *)
(** * Properties of the local network's settings

    The two conversions of internal/adapters/openwrt/lan_write.go are undone by
    those of lan.go, and its requests keep the promises of [Discipline]. *)

From S2P Require Import Prelude GoStrings GoNet Effects Network Uci Firewall Stage Discipline Lan.

(** ** Lease times *)

Lemma dec_val_digits acc s z : dec_val acc s = Some z -> all_chars is_digit s = true.
Proof.
  revert acc. induction s as [|c s IH]; intros acc; cbn; [done|].
  destruct (is_digit c); [|done]. apply IH.
Qed.

Lemma all_chars_app p a b : all_chars p (a +:+ b) = all_chars p a && all_chars p b.
Proof. induction a as [|c a IH]; [done|]. rewrite append_cons. cbn. by rewrite IH, andb_assoc. Qed.

Lemma all_chars_rev p s : all_chars p (rev_string s) = all_chars p s.
Proof.
  induction s as [|c s IH]; [done|]. rewrite rev_string_cons, all_chars_app, IH. cbn.
  by rewrite andb_true_r, andb_comm.
Qed.

Lemma digit_solid c : is_digit c = true -> solid c = true.
Proof.
  unfold is_digit, solid, space1. intros H. bool_to_prop.
  rewrite andb_true_iff, negb_true_iff, orb_false_iff, andb_false_iff, !Z.leb_gt, Z.eqb_neq, Z.ltb_lt. lia.
Qed.

Lemma digits_first_solid s : all_chars is_digit s = true -> first_solid s = true.
Proof. destruct s; cbn; [done|]. intros H. bool_to_prop. by apply digit_solid. Qed.

Lemma Itoa_digits n : (0 <= n)%Z -> all_chars is_digit (Itoa n) = true.
Proof.
  intros H. unfold Itoa. replace (n <? 0)%Z with false by (symmetry; apply Z.ltb_ge; lia).
  destruct (udec_val n H) as [Hv (c & r & E & _)]. rewrite E in *. eapply dec_val_digits, Hv.
Qed.

Lemma TrimSpace_digits s : all_chars is_digit s = true -> TrimSpace s = s.
Proof.
  intros H. apply TrimSpace_solid; apply digits_first_solid; [done|by rewrite all_chars_rev].
Qed.

(** The last byte decides the unit. *)
Lemma lease_unit_digits s : all_chars is_digit s = true -> lease_unit s = (1%Z, s).
Proof.
  intros H. unfold lease_unit. rewrite <- all_chars_rev in H.
  destruct (rev_string s) as [|c r]; [done|]. cbn [all_chars] in H. bool_to_prop.
  by destruct c as [[] [] [] [] [] [] [] []].
Qed.

Lemma lease_unit_letter (s : string) :
  lease_unit (s +:+ "h") = (3600%Z, s) /\ lease_unit (s +:+ "m") = (60%Z, s).
Proof. 
  unfold lease_unit. rewrite !rev_string_app.
  change (rev_string "h") with (String "h" ""). change (rev_string "m") with (String "m" "").
  by rewrite !append_cons, !append_nil_l, rev_string_involutive.
Qed.

Lemma TrimSpace_letter s (c : ascii) :
  all_chars is_digit s = true -> solid c = true -> TrimSpace (s +:+ String c "") = s +:+ String c "".
Proof.
  intros H Hc. apply TrimSpace_solid; [|by rewrite rev_string_app].
  destruct s as [|d s]; [done|]. rewrite append_cons. cbn in *. bool_to_prop. by apply digit_solid.
Qed.

Lemma parseLeaseTime_unit text digits unit n :
  nonempty text = true -> text <> "infinite" -> TrimSpace text = text ->
  lease_unit text = (unit, digits) -> digits = Itoa n ->
  (0 <= n)%Z -> (0 < unit)%Z -> in_int (n * unit) = true ->
  parseLeaseTime text = (n * unit)%Z.
Proof.
  intros Hn Hi Ht Hu -> H0 Hu0 Hr. unfold parseLeaseTime. rewrite Ht, Hn, Hu.
  rewrite bool_decide_false by done. cbn [negb orb].
  rewrite TrimSpace_digits by (by apply Itoa_digits).
  unfold in_int, int_min, int_max in Hr. bool_to_prop.
  rewrite Atoi_Itoa. 2: { unfold in_int, int_min, int_max. rewrite andb_true_iff, !Z.leb_le. nia. }
  replace (n <? 0)%Z with false by (symmetry; apply Z.ltb_ge; lia).
  apply wrap64_id. unfold in_int, int_min, int_max. rewrite andb_true_iff, !Z.leb_le. lia.
Qed.

Lemma digits_not_infinite s t : all_chars is_digit s = true -> s +:+ t = "infinite" -> s = "".
Proof. destruct s as [|c s]; [done|]. cbn. intros H E. bool_to_prop. rewrite append_cons in E. by simplify_eq. Qed.

Lemma Itoa_nonempty n : (0 <= n)%Z -> nonempty (Itoa n) = true.
Proof.
  intros H. unfold Itoa. replace (n <? 0)%Z with false by (symmetry; apply Z.ltb_ge; lia).
  by destruct (udec_val n H) as [_ (c & r & -> & _)].
Qed.

Lemma formatLeaseTime_cases sec :
  (0 <= sec)%Z -> exists n unit t, (0 <= n)%Z /\ sec = (n * unit)%Z /\
    formatLeaseTime sec = Itoa n +:+ t /\
    ((unit, t) = (3600%Z, "h") \/ (unit, t) = (60%Z, "m") \/ (unit, t) = (1%Z, "")).
Proof.
  intros H. unfold formatLeaseTime.
  assert (forall u, (0 < u)%Z -> (Z.rem sec u =? 0)%Z = true -> (0 <= Z.quot sec u)%Z /\ sec = (Z.quot sec u * u)%Z) as Hq.
  { intros u Hu Hr. bool_to_prop. pose proof (Z.quot_rem' sec u). pose proof (Z.quot_pos sec u). lia. }
  destruct (Z.rem sec 3600 =? 0)%Z eqn:E1; [destruct (Hq 3600%Z); [lia|done|]; eauto 12|].
  destruct (Z.rem sec 60 =? 0)%Z eqn:E2; [destruct (Hq 60%Z); [lia|done|]; eauto 12|].
  exists sec, 1%Z, "". rewrite append_nil_r. split_and!; auto; lia.
Qed.

(** A lease time survives the device: what is written for a number of
    seconds is read back as that number, in whichever unit it is written. *)
Theorem parseLeaseTime_formatLeaseTime sec :
  (0 <= sec <= int_max)%Z -> parseLeaseTime (formatLeaseTime sec) = sec.
Proof.
  intros [H0 H1]. destruct (formatLeaseTime_cases sec H0) as (n & unit & t & Hn & -> & -> & Ht).
  pose proof (Itoa_digits n Hn) as Hd. pose proof (Itoa_nonempty n Hn) as He.
  assert (in_int (n * unit) = true) as Hi.
  { unfold in_int, int_min in *. rewrite andb_true_iff, !Z.leb_le. lia. }
  destruct (lease_unit_letter (Itoa n)) as [Hh Hm].
  destruct Ht as [[= -> ->]|[[= -> ->]|[= -> ->]]];
    (eapply parseLeaseTime_unit; [| | | |reflexivity|done|lia|done]).
  all: try (rewrite append_nil_r; by auto using TrimSpace_digits, lease_unit_digits).
  all: try (by destruct (Itoa n)).
  all: try (intros E%digits_not_infinite; [by rewrite E in He|done]).
  all: try (by apply TrimSpace_letter).
  all: done.
Qed.

Lemma parseLeaseTime_formatLeaseTime_witness :
  formatLeaseTime 5400 = "90m" /\ parseLeaseTime (formatLeaseTime 5400) = 5400%Z.
Proof.
  split; [vm_compute; reflexivity|].
  apply (parseLeaseTime_formatLeaseTime 5400). unfold int_max. lia.
Defined.

(** ** The address pool *)

Lemma octet_range s n : octet s = Some n -> (0 <= n <= 255)%Z.
Proof.
  assert (forall s acc n, (0 <= acc)%Z -> dec_val acc s = Some n -> (0 <= n)%Z) as Hd.
  { clear. induction s as [|c s IH]; intros acc n Ha; cbn; [by intros [= <-]|].
    destruct (is_digit c) eqn:E; [|done]. apply IH. unfold digit_val, is_digit in *. bool_to_prop. lia. }
  assert (forall s n, parse_udec s = Some n -> (0 <= n)%Z) as Hp.
  { intros [|c r] m; [done|]. apply Hd. lia. }
  unfold octet. intros H. destruct (leading_zero s); [done|].
  destruct (parse_udec s) as [m|] eqn:E; [|done]. apply Hp in E.
  destruct (m <=? 255)%Z eqn:El; [|done]. bool_to_prop. injection H as <-. lia.
Qed.

Lemma parse4_range s v : parse4 s = Some v -> (0 <= v < 2 ^ 32)%Z.
Proof.
  unfold parse4. intros H.
  destruct (Split "." s) as [|a [|b [|c [|d [|? ?]]]]]; try done.
  destruct (octet a) as [a'|] eqn:Ea; [|done]. destruct (octet b) as [b'|] eqn:Eb; [|done].
  destruct (octet c) as [c'|] eqn:Ec; [|done]. destruct (octet d) as [d'|] eqn:Ed; [|done].
  injection H as <-. apply octet_range in Ea, Eb, Ec, Ed. lia.
Qed.

Lemma To4_range ip v : To4 ip = Some v -> (0 <= v < 2 ^ 32)%Z.
Proof.
  unfold To4. destruct (mapped ip); [|done]. intros [= <-].
  change (2 ^ 32 - 1)%Z with (Z.ones 32). rewrite Z.land_ones by lia. apply Z.mod_pos_bound. lia.
Qed.

Lemma ParseIP4_range s v : ParseIP4 s = Some v -> (0 <= v < 2 ^ 32)%Z.
Proof. unfold ParseIP4. intros (ip & _ & H)%bind_Some. by eapply To4_range. Qed.

Lemma network_part_spec ones v :
  (0 <= ones <= 32)%Z -> (0 <= v < 2 ^ 32)%Z ->
  (0 <= network_part 32 ones v <= v)%Z /\
  network_part 32 ones (network_part 32 ones v) = network_part 32 ones v.
Proof.
  intros Ho Hv. unfold network_part.
  rewrite !Z.shiftl_mul_pow2, !Z.shiftr_div_pow2 by lia.
  set (k := (2 ^ (32 - ones))%Z). assert (0 < k)%Z by (apply Z.pow_pos_nonneg; lia).
  rewrite Z.div_mul by lia. split; [|done].
  pose proof (Z.div_pos v k). pose proof (Z.mul_div_le v k). nia.
Qed.

(** An IPv4 network read from an address with its prefix length. *)
Lemma ParseCIDR_v4 a ip network :
  ParseCIDR a = Some (ip, network) -> NetBits network = 32%Z ->
  exists v ones, (0 <= v < 2 ^ 32)%Z /\ (0 <= ones <= 32)%Z /\
    To4 ip = Some v /\ network = mkIPNet (to16 (Addr4 (network_part 32 ones v))) ones 32.
Proof.
  unfold ParseCIDR. intros H Hb. destruct (Cut "/" a) as [[addr mask]|]; [|done].
  destruct (ParseAddr addr) as [[|v|v [|? ?]]|] eqn:Ea; try done;
    destruct (dtoi mask) as [n|] eqn:En; try done;
    destruct (n <=? _)%Z eqn:El; try done; simplify_eq/=.
  exists v, n. bool_to_prop.
  assert (0 <= v < 2 ^ 32)%Z as Hv.
  { by eapply parse4_range, ParseAddr_v4. }
  assert (0 <= n)%Z as Hn.
  { unfold dtoi in En. destruct (parse_udec mask) as [m|] eqn:Em; [|done].
    destruct (m <? _)%Z; [|done]. injection En as <-.
    assert (forall s acc n, (0 <= acc)%Z -> dec_val acc s = Some n -> (0 <= n)%Z) as Hd.
    { clear. induction s as [|c s IH]; intros acc n Ha; cbn; [by intros [= <-]|].
      destruct (is_digit c) eqn:E; [|done]. apply IH. unfold digit_val, is_digit in *. bool_to_prop. lia. }
    destruct mask as [|c r]; [done|]. by eapply Hd in Em. }
  split_and!; try done; try lia. by apply mapped_to16.
Qed.

Lemma NetContains_v4 m ones v :
  (0 <= ones <= 32)%Z -> (0 <= m < 2 ^ 32)%Z -> (0 <= v < 2 ^ 32)%Z ->
  NetContains (mkIPNet (to16 (Addr4 (network_part 32 ones m))) ones 32) (to16 (Addr4 v)) =
  (network_part 32 ones m =? network_part 32 ones v)%Z.
Proof.
  intros Ho Hm Hv. destruct (network_part_spec ones m Ho Hm) as [Hb Hi].
  unfold NetContains. cbn [NetIP]. rewrite !mapped_to16 by lia.
  unfold net_ones4. cbn [NetBits NetOnes]. by rewrite Z.eqb_refl, Hi.
Qed.

Lemma poolOffsets_Ok network first last start limit :
  poolOffsets network first last = Ok (start, limit) ->
  exists f l, ParseIP4 first = Some f /\ ParseIP4 last = Some l /\
    NetContains network (to16 (Addr4 f)) = true /\ NetContains network (to16 (Addr4 l)) = true /\
    (f <= l)%Z /\ start = ((f - default 0 (To4 (NetIP network))) mod 2 ^ 32)%Z /\ start <> 0%Z /\
    limit = ((l - f) mod 2 ^ 32 + 1)%Z.
Proof.
  unfold poolOffsets. destruct (ParseIP4 first) as [f|]; [|done]. destruct (ParseIP4 last) as [l|]; [|done].
  destruct (negb _ || negb _) eqn:Ei; [done|]. destruct (l <? f)%Z eqn:El; [done|].
  destruct (_ =? 0)%Z eqn:Es; [done|]. intros H%Ok_inj%pair_equal_spec.
  destruct H as [<- <-]. bool_to_prop.
  exists f, l. repeat split; assumption || reflexivity.
Qed.

(** The two ends of an address pool survive the device: the offsets staged
    for them are shown again as the addresses that were asked for, and the pool
    is never empty nor starts at the network's own address. *)
Theorem pool_survives_the_device a ip network first last start limit :
  ParseCIDR a = Some (ip, network) -> NetBits network = 32%Z ->
  poolOffsets network first last = Ok (start, limit) ->
  exists f l, ParseIP4 first = Some f /\ ParseIP4 last = Some l /\
    poolRange [a] start limit = Some (string4 f, string4 l) /\ (0 < start)%Z /\ (0 < limit)%Z.
Proof.
  intros Ha Hb Hp. destruct (ParseCIDR_v4 a ip network Ha Hb) as (v & ones & Hv & Ho & Hip & ->).
  destruct (network_part_spec ones v Ho Hv) as [Hbase Hidem].
  apply poolOffsets_Ok in Hp as (f & l & Hf & Hl & Hcf & Hcl & Hfl & Hs & Hs0 & Hlim).
  exists f, l. cbn [NetIP] in Hs. rewrite mapped_to16 in Hs by lia. unfold default in Hs; cbn [from_option Datatypes.id] in Hs.
  pose proof (ParseIP4_range _ _ Hf) as Hfr. pose proof (ParseIP4_range _ _ Hl) as Hlr.
  set (base := network_part 32 ones v) in *.
  assert (base <= f)%Z as Hbf.
  { pose proof Hcf as Hc. unfold base in Hc. rewrite NetContains_v4 in Hc by lia. bool_to_prop.
    unfold base. rewrite Hc. destruct (network_part_spec ones f Ho Hfr). lia. }
  rewrite Z.mod_small in Hs by lia. rewrite Z.mod_small in Hlim by lia.
  split; [done|]. split; [done|]. split; [|lia].
  cbn [poolRange]. rewrite Ha, Hip, bool_decide_false by done. cbn [NetIP]. rewrite mapped_to16 by lia.
  rewrite wrap64_id by (unfold in_int, int_min, int_max; rewrite andb_true_iff, !Z.leb_le; lia).
  unfold addOffset.
  replace (start <? 0)%Z with false by (symmetry; apply Z.ltb_ge; lia).
  replace (start + limit - 1 <? 0)%Z with false by (symmetry; apply Z.ltb_ge; lia).
  replace (base + start)%Z with f by lia. replace (base + (start + limit - 1))%Z with l by lia.
  replace (4294967295 <? f)%Z with false by (symmetry; apply Z.ltb_ge; lia).
  replace (4294967295 <? l)%Z with false by (symmetry; apply Z.ltb_ge; lia).
  by rewrite Hcf, Hcl.
Qed.

Lemma pool_survives_the_device_witness :
  exists network, poolOffsets network "192.168.1.100" "192.168.1.249" = Ok (100, 150)%Z /\
  exists f l, ParseIP4 "192.168.1.100" = Some f /\ ParseIP4 "192.168.1.249" = Some l /\
    poolRange ["192.168.1.1/24"] 100 150 = Some (string4 f, string4 l) /\ (0 < 100)%Z /\ (0 < 150)%Z.
Proof.
  exists (mkIPNet 281473913979136 24 32). split; [vm_compute; reflexivity|].
  apply (pool_survives_the_device "192.168.1.1/24" 281473913979137 (mkIPNet 281473913979136 24 32)).
  - vm_compute. reflexivity.
  - reflexivity.
  - vm_compute. reflexivity.
Defined.

(** ** The promises of every request *)

Lemma reserved_staging : calls staging reserved.
Proof. unfold reserved. solve_calls. Qed.

Lemma leases_staging : calls staging leases.
Proof. unfold leases. solve_calls. Qed.

Lemma handout_staging i : calls staging (handout i).
Proof. unfold handout. solve_calls. Qed.

#[export] Hint Resolve reserved_staging leases_staging handout_staging : staging.

Lemma LANInfo_staging m : calls staging (LANInfo m).
Proof. unfold LANInfo. solve_calls. Qed.

#[export] Hint Resolve LANInfo_staging : staging.

Lemma lanNetwork_staging m : calls staging (lanNetwork m).
Proof. unfold lanNetwork. solve_calls. Qed.

Lemma poolFitsAddress_staging a n : calls staging (poolFitsAddress a n).
Proof. unfold poolFitsAddress. solve_calls. Qed.

Lemma addSection_staging c t w : calls staging (addSection c t w).
Proof. unfold addSection. solve_calls. Qed.

#[export] Hint Resolve lanNetwork_staging poolFitsAddress_staging addSection_staging : staging.

Lemma StageLAN_staging m cfg : calls staging (StageLAN m cfg).
Proof. unfold StageLAN. solve_calls. Qed.

Lemma StageHandout_staging m cfg : calls staging (StageHandout m cfg).
Proof. unfold StageHandout. solve_calls. Qed.

Lemma StageReservation_staging m cfg : calls staging (StageReservation m cfg).
Proof. unfold StageReservation. solve_calls. Qed.

Lemma RemoveReservation_staging m eid : calls staging (RemoveReservation m eid).
Proof. unfold RemoveReservation. solve_calls. Qed.

#[export] Hint Resolve StageLAN_staging StageHandout_staging StageReservation_staging
  RemoveReservation_staging : staging.

Lemma reserved_quiet : calls quiet reserved.
Proof. unfold reserved. solve_quiet. Qed.

Lemma leases_quiet : calls quiet leases.
Proof. unfold leases. solve_quiet. Qed.

Lemma handout_quiet i : calls quiet (handout i).
Proof. unfold handout. solve_quiet. Qed.

#[export] Hint Resolve reserved_quiet leases_quiet handout_quiet : quiet.

Lemma LANInfo_quiet m : calls quiet (LANInfo m).
Proof. unfold LANInfo. solve_quiet. Qed.

#[export] Hint Resolve LANInfo_quiet : quiet.

Lemma lanNetwork_quiet m : calls quiet (lanNetwork m).
Proof. unfold lanNetwork. solve_quiet. Qed.

Lemma poolFitsAddress_quiet a n : calls quiet (poolFitsAddress a n).
Proof. unfold poolFitsAddress. solve_quiet. Qed.

#[export] Hint Resolve lanNetwork_quiet poolFitsAddress_quiet : quiet.

(** Readings and refusals before the writes. *)
Ltac tidy_step :=
  match goal with
  | |- tidy _ (Ret _) => apply tidy_Ret
  | |- tidy _ (try_bind (Ret ?x) _) => apply tidy_after_try; [exact I|intros ?]
  | |- tidy _ (if ?b then _ else _) => destruct b
  | |- tidy _ (stage _ _ _) => apply stage_tidy; apply _
  | |- tidy _ (match ?x with _ => _ end) => destruct x
  | |- tidy _ (try_bind _ _) => apply tidy_after_try; [solve [solve_quiet]|intros ?]
  | |- tidy _ (prog_bind _ _) => apply tidy_after; [solve [solve_quiet]|intros ?]
  end.

(** A write that is the last call of the request. *)
Lemma tidy_last {A} config verb arg rest (f : res string -> res A) :
  writes verb = true -> config_of (entry_of arg) = config -> (forall e, is_ok (f (Err e)) = false) ->
  (forall out, is_ok (f (Ok out)) = true) ->
  tidy config (prog_map f (exec_cmd ("uci" :: verb :: arg :: rest))).
Proof.
  intros Hw Hc Herr Hok s. apply wp_bind. eapply write_obs; [done|done|done|..]; cbn.
  - intros out s' Hs. by rewrite Hok.
  - intros e. by rewrite Herr.
Qed.

Section AddSection.
Context (config : string) `{!ConfigName config}.

Lemma addSection_obs type what s (Q : gset string -> res string -> Prop) :
  (forall section s', sectionNameRe section = true -> within config s s' -> Q s' (Ok section)) ->
  (forall s' e, s' ⊆ s -> Q s' (Err e)) -> obs s (addSection config type what) Q.
Proof.
  intros Hok Herr. unfold addSection. apply wp_bind.
  eapply write_obs; [done|done| |..].
  - rewrite entry_of_config by (apply config_lacks_dot || apply config_lacks_eq; apply _).
    apply config_of_self, config_lacks_dot, _.
  - intros out s' Hs. cbn beta iota zeta. destruct (sectionNameRe (TrimSpace out)) eqn:E; [by apply Hok|].
    apply wp_bind, discard_obs; [done|]. intros r. apply Herr. auto with vb.
  - intros e. by apply Herr.
Qed.

(** A new section, its settings, and what is done to the rows. *)
Lemma add_then_tidy {A} type what (f : string -> prog (res A)) :
  (forall section s s0, sectionNameRe section = true -> within config s s0 ->
     obs s0 (f section) (fun s' r => if is_ok r then within config s s' else s' ⊆ s)) ->
  tidy config (try_bind (addSection config type what) f).
Proof.
  intros Hf s. apply wp_bind. apply addSection_obs.
  - intros section s' Hs Hw. cbn. by apply Hf.
  - intros s' e Hs. cbn. done.
Qed.
End AddSection.

(** The rows of a batch, changed at the end. *)
Lemma stage_then_obs {A} config `{!ConfigName config} section sets s s0 (g : list ConfigChange -> A) :
  within config s s0 -> sectionOk section = true \/ s0 ⊆ s ->
  obs s0 (let! changes := stage config section sets in Ret (Ok (g changes)))
    (fun s' r => if is_ok r then within config s s' else s' ⊆ s).
Proof. intros H0 Hs. eapply wp_seq; [by apply stage_obs|]. intros s' [cs|e]; done. Qed.

Lemma StageLAN_tidy m cfg : tidy "network" (StageLAN m cfg).
Proof. unfold StageLAN. repeat tidy_step. Qed.

Lemma StageHandout_tidy m cfg : tidy "dhcp" (StageHandout m cfg).
Proof. unfold StageHandout. repeat tidy_step. Qed.

(** The removal of one section, and the row that says so. *)
Lemma delete_then_tidy {A} config `{!ConfigName config} key what (row : A) :
  config_of (entry_of key) = config ->
  tidy config (let! _ := (r <- exec_cmd ["uci"; "delete"; key] ;;
                          Ret (wrapping what [] r)) in Ret (Ok row)).
Proof.
  intros Hk s. apply wp_bind, wp_bind. eapply write_obs; [done|done|exact Hk|..]; cbn; done.
Qed.

Lemma RemoveReservation_tidy m eid : tidy "dhcp" (RemoveReservation m eid).
Proof.
  unfold RemoveReservation. destruct (negb _); [apply tidy_Ret|]. destruct (negb _); [apply tidy_Ret|].
  tidy_step. destruct (find_first _ _) as [target|]; [|apply tidy_Ret].
  apply delete_then_tidy; [apply _|]. by apply (config_of_entry "dhcp").
Qed.

(** A batch whose rows are changed at the end, as one whole. *)
Lemma stage_then_tidy {A} config `{!ConfigName config} section sets (g : list ConfigChange -> A) :
  tidy config (let! changes := stage config section sets in Ret (Ok (g changes))).
Proof. intros s. apply stage_then_obs; [apply _|apply within_refl|by right]. Qed.

Lemma StageReservation_tidy m cfg : tidy "dhcp" (StageReservation m cfg).
Proof.
  unfold StageReservation.
  repeat first [tidy_step | match goal with |- tidy _ (try_bind (if ?b then _ else _) _) => destruct b end];
    cbn [negb].
  - apply add_then_tidy; [apply _|]. intros section s s0 Hs H0.
    apply stage_then_obs; [apply _|done|]. left. unfold sectionOk. by rewrite Hs.
  - apply stage_then_tidy, _.
Qed.
