(* ===== verification/FirewallWrite.v ===== *)
(** * Port forwards: internal/adapters/openwrt/firewall_write.go

    Ports, the check by the router's own firewall, and the requests that add,
    edit and remove a port forward. *)

From S2P Require Import Prelude GoStrings GoNet Effects Network Uci Firewall Stage Lan.

(** ** Ports *)

(** [^([0-9]{1,5})(?:-([0-9]{1,5}))?$], its two groups. *)
Definition port_digits (s : string) : bool := all_chars is_digit s && len_between 1 5 s.

Definition portRe (s : string) : option (string * string) :=
  match Cut "-" s with
  | None => if port_digits s then Some (s, "") else None
  | Some (a, b) => if port_digits a && port_digits b then Some (a, b) else None
  end.

Definition parsePorts (v : string) : option (Z * Z) :=
  match portRe (TrimSpace v) with
  | None => None
  | Some (a, b) =>
      let first := default 0%Z (Atoi a) in
      let last := if nonempty b then default 0%Z (Atoi b) else first in
      if ((first <? 1) || (65535 <? last) || (last <? first))%Z then None else Some (first, last)
  end.

(** ** fw4 check *)

Definition fw4Program := "/sbin/fw4".

Definition warnings_of (out : string) : gset string :=
  list_to_set (filter (fun l => HasPrefix "[!]" l = true) (TrimSpace <$> lines out)).

Definition fw4Warnings : prog (res (gset string)) :=
  out <- exec_cmd [fw4Program; "check"] ;;
  Ret (match out with
       | Err e => Err (Wrapf "openwrt: the router's firewall could not check this change, so it is not staged: %w" [] e)
       | Ok out => Ok (warnings_of out)
       end).

Definition fw4Notes : list string :=
  ["is deprecated by fw4";
   "is not supported by fw4";
   "specifies unknown option";
   "uses unavailable ct helper";
   "skipping invalid wildcard pattern";
   "has invalid target specified, defaulting to";
   "must not use non-contiguous masks in 'dest_ip'";
   "does not specify a destination, assuming";
   "must not use 'helper' option for snat target";
   "cannot be determined, disabling reflection";
   "specifies multiple rewrite addresses, using only first one";
   "which has no effect for position";
   "is disabled, ignoring section"].

Definition fw4Drops (line : string) : bool := negb (existsb (fun n => Contains n line) fw4Notes).

Definition fresh_warnings (baseline now : gset string) : list string :=
  sort_strings (filter (fun w => negb (has baseline w) && fw4Drops w = true) (elements now)).

Definition fw4Accepts (baseline : gset string) : prog (res unit) :=
  let! now := fw4Warnings in
  Ret (match fresh_warnings baseline now with
       | [] => Ok tt
       | fresh => Err (Errorf "openwrt: the firewall would skip this entry: %s" [Join "; " fresh])
       end).

(** [fw4Accepts] with the draft thrown away when it refuses. *)
Definition judged (baseline : gset string) : prog (res unit) :=
  verdict <- fw4Accepts baseline ;;
  match verdict with
  | Ok _ => Ret (Ok tt)
  | Err e => _ <- discardConfig "firewall" ;; Ret (Err e)
  end.

(** ** Port forwards *)

Record PortForwardConfig := mkPFConfig {
  pcID : string; pcName : string; pcEnabled : bool; pcProtocols : list string;
  pcExternalPort : string; pcToAddress : string; pcToPort : string }.

(** The protocols asked for, [tcp] and [udp]; the first other one is the error. *)
Fixpoint forward_seen (l : list string) (tcp udp : bool) : res (bool * bool) :=
  match l with
  | [] => Ok (tcp, udp)
  | p :: l =>
      let q := ToLower (TrimSpace p) in
      if decide (q = "tcp") then forward_seen l true udp
      else if decide (q = "udp") then forward_seen l tcp true
      else Err (Errorf "openwrt: %q is not a protocol a port can be forwarded for" [p])
  end.

Definition forwardProtocols (l : list string) : res (list string) :=
  let? (tcp, udp) := forward_seen l false false in
  match tcp, udp with
  | true, true => Ok ["tcp"; "udp"]
  | true, false => Ok ["tcp"]
  | false, true => Ok ["udp"]
  | false, false => Err (Errorf "openwrt: choose TCP, UDP or both" [])
  end.

Definition portForwardWords (proto external address internal : string) : string :=
  Join "+" (protocols proto) +:+ " " +:+ external +:+ " → " +:+ address +:+ ":" +:+
    (if nonempty internal then internal else external).

Definition hasPortForward (fw : FirewallStatus) (pid : string) : bool :=
  existsb (fun pf => String.eqb (pfID pf) pid) (PortForwards fw).

Definition bad_name (name : string) : bool :=
  ContainsAny (String "'" (String "034" (String "010" (String "\" "")))) name.

Definition zone_named (role : string) (fw : FirewallStatus) : string :=
  match find_last (fun z => String.eqb (zRole z) role) (Zones fw) with Some z => zName z | None => "" end.

(** The subject of an edit: the last forward of that name in the list. *)
Definition forwardSubject (fw : FirewallStatus) (section : string) : string :=
  match find_last (fun pf => String.eqb (pfID pf) section) (PortForwards fw) with
  | Some pf => entrySubject (pfName pf)
      (portForwardWords (Join " " (pfProtocols pf)) (pfExternalPort pf) (pfToAddress pf) (pfToPort pf))
  | None => ""
  end.

Definition redirectLabel (option : string) : phrase := describe "firewall" rolePortForward option.
Definition redirectSet (option value : string) : wanSetting := set_to option value (redirectLabel option).

(** What [StagePortForward] checks before it asks the router anything. *)
Definition checkPortForward (cfg : PortForwardConfig) : res (list string * string * Z * string) :=
  let? protos := RefuseRes "protocols" (forwardProtocols (pcProtocols cfg)) in
  match parsePorts (pcExternalPort cfg) with
  | None => Refuse "externalPort" (Errorf "openwrt: %q is not a port or a range of ports" [pcExternalPort cfg])
  | Some (extFirst, extLast) =>
      let toPort := TrimSpace (pcToPort cfg) in
      let? _ := (if negb (nonempty toPort) then Ok tt else
        match parsePorts toPort with
        | None => Refuse "toPort" (Errorf "openwrt: %q is not a port or a range of ports" [pcToPort cfg])
        | Some (first, last) =>
            if (last - first =? extLast - extFirst)%Z then Ok tt
            else Refuse "toPort" (Errorf "openwrt: %s is %d port(s) and %s is %d"
                   [pcExternalPort cfg; Itoa (extLast - extFirst + 1); toPort; Itoa (last - first + 1)])
        end) in
      match ParseIP4 (TrimSpace (pcToAddress cfg)) with
      | None => Refuse "toAddress" (Errorf "openwrt: %q is not an IPv4 address" [pcToAddress cfg])
      | Some ip =>
          let name := TrimSpace (pcName cfg) in
          if bad_name name
          then Refuse "name" (Errorf "openwrt: a name cannot contain quotes, backslashes or line breaks" [])
          else Ok (protos, toPort, ip, name)
      end
  end.

Definition redirectSets (cfg : PortForwardConfig) (from into : string) (protos : list string)
    (toPort : string) (ip : Z) (name : string) : list wanSetting :=
  [redirectSet "target" "DNAT"; redirectSet "src" from; redirectSet "dest" into;
   redirectSet "proto" (Join " " protos); redirectSet "src_dport" (TrimSpace (pcExternalPort cfg));
   redirectSet "dest_ip" (string4 ip)] ++
  [if nonempty toPort then redirectSet "dest_port" toPort else unset "dest_port" "" (redirectLabel "dest_port")] ++
  (if nonempty name then [redirectSet "name" name] else []) ++
  [if pcEnabled cfg then unset "enabled" "1" (redirectLabel "enabled") else redirectSet "enabled" "0"].

Definition StagePortForward (m : networkManager) (cfg : PortForwardConfig) : prog (res (list ConfigChange)) :=
  if negb (runs m) then Ret (Err ErrNotImplemented) else
  let* (protos, toPort, ip, name) := checkPortForward cfg in
  network <- lanNetwork m ;;
  let outside := match network with Ok n => negb (NetContains n (to16 (Addr4 ip))) | Err _ => false end in
  if outside
  then Ret (Refuse "toAddress" (Errorf "openwrt: %s is outside the local network %s"
         [string4 ip; match network with Ok n => NetString n | Err _ => "" end])) else
  let! fw := FirewallInfo m in
  let from := zone_named ZoneInternet fw in
  let into := zone_named ZoneLocal fw in
  if negb (nonempty from) || negb (nonempty into)
  then Ret (Err (Errorf "openwrt: this firewall has no internet-side zone or no local zone to forward between" [])) else
  let section := TrimSpace (pcID cfg) in
  let fresh := negb (nonempty section) in
  if negb fresh && negb (sectionOk section)
  then Ret (Refuse "id" (Errorf "openwrt: %q is not an entry on this device" [section])) else
  if negb fresh && negb (hasPortForward fw section)
  then Ret (Refuse "id" (Errorf "openwrt: no port forward %q on this device" [section])) else
  let subject := if fresh then "" else forwardSubject fw section in
  let! baseline := fw4Warnings in
  let! section := (if fresh then addSection "firewall" "redirect" "port forward" else Ret (Ok section)) in
  let! changes := stage "firewall" section (redirectSets cfg from into protos toPort ip name) in
  let! _ := judged baseline in
  if negb fresh then Ret (Ok (withSubject changes subject)) else
  Ret (Ok [entryRow (redirectLabel "") ""
             (portForwardWords (Join " " protos) (pcExternalPort cfg) (string4 ip) toPort)
             "firewall" ("firewall." +:+ section)]).

Definition RemovePortForward (m : networkManager) (pid : string) : prog (res (list ConfigChange)) :=
  if negb (runs m) then Ret (Err ErrNotImplemented) else
  if negb (sectionOk pid) then Ret (Err (Errorf "openwrt: %q is not an entry on this device" [pid])) else
  let! fw := FirewallInfo m in
  match find_last (fun pf => String.eqb (pfID pf) pid) (PortForwards fw) with
  | None => Ret (Err (Errorf "openwrt: no port forward %q on this device" [pid]))
  | Some target =>
      let! _ := (r <- exec_cmd ["uci"; "delete"; "firewall." +:+ pid] ;;
                 Ret (wrapping "openwrt: stage removal of a port forward: %w" [] r)) in
      Ret (Ok [entryRow (redirectLabel "")
                 (portForwardWords (Join " " (pfProtocols target)) (pfExternalPort target)
                    (pfToAddress target) (pfToPort target)) "" "firewall" ("firewall." +:+ pid)])
  end.
