(* ===== verification/UciApplier.v ===== *)
(** * The uci applier: internal/adapters/openwrt/uci.go and journal.go

    What the apply transaction calls on an OpenWrt router: the snapshot of
    /etc/config as an archive, the commit, the revert, the snapshots kept on
    disk, and the journal of the pending change. Everything here asks the
    router through [Effects]; [json.Marshal] and [json.Unmarshal] of the
    journal's record are parameters ([RecordCodec]). *)

From S2P Require Import Prelude GoStrings Apply Effects Network Uci Firewall Stage FirewallWrite.

(** ** Running commands *)

(** [nftProgram] and [ipProgram] (devices_traffic.go, routing.go). *)
Definition nftProgram : string := "/usr/sbin/nft".
Definition ipProgram : string := "/sbin/ip".

Definition allowedCommands : list string :=
  ["uci"; "tar"; "/sbin/reload_config"; fw4Program; nftProgram; ipProgram].

(** The error of [runCommand] for a name that is not on the list; a name that
    is runs, and its failure is the router's answer. *)
Definition runCommand (argv : list string) : prog (res string) :=
  match argv with
  | name :: _ =>
      if negb (contains allowedCommands name)
      then Ret (Err (Errorf "refusing to run %q: not in the adapter's allow-list" [name]))
      else exec_cmd argv
  | [] => Ret (Err (Errorf "refusing to run %q: not in the adapter's allow-list" [""]))
  end.

(** ** Time stamps

    [time.Format] with the layout 20060102T150405Z, of a Unix time in UTC. The
    calendar is package time's: days counted from the first of January of the
    year 1, years in cycles of 400, 100, 4 and 1. *)

Definition is_leap (y : Z) : bool :=
  ((y mod 4 =? 0) && (negb (y mod 100 =? 0) || (y mod 400 =? 0)))%Z.

(** The year (counted from 1) and the day in it (counted from 0). *)
Definition year_day (d : Z) : Z * Z :=
  let n400 := (d / 146097)%Z in
  let d := (d mod 146097)%Z in
  let n100 := Z.min 3 (d / 36524) in
  let d := (d - 36524 * n100)%Z in
  let n4 := (d / 1461)%Z in
  let d := (d mod 1461)%Z in
  let n1 := Z.min 3 (d / 365) in
  ((400 * n400 + 100 * n100 + 4 * n4 + n1 + 1)%Z, (d - 365 * n1)%Z).

Definition daysIn (leap : bool) : list Z :=
  [31; if leap then 29 else 28; 31; 30; 31; 30; 31; 31; 30; 31; 30; 31]%Z.

(** The month (counted from [m]) and the day in it (counted from 1). *)
Fixpoint month_day (lengths : list Z) (m d : Z) : Z * Z :=
  match lengths with
  | [] => (m, d + 1)%Z
  | n :: rest => if (d <? n)%Z then (m, d + 1)%Z else month_day rest (m + 1) (d - n)
  end.

Definition days_to_1970 : Z := 719162.

(** Year, month, day, hour, minute, second. *)
Definition date_of (t : Z) : list Z :=
  let '(y, yd) := year_day (t / 86400 + days_to_1970) in
  let '(m, d) := month_day (daysIn (is_leap y)) 1 yd in
  [y; m; d; t mod 86400 / 3600; t mod 3600 / 60; t mod 60]%Z.

(** A number padded with zeros to four digits. *)
Definition pad4 (z : Z) : string :=
  (if (z <? 1000)%Z then "0" else "") +:+ (if (z <? 100)%Z then "0" else "") +:+ pad2 z.

Definition Format (t : Z) : string :=
  match date_of t with
  | [y; mo; d; h; mi; s] =>
      pad4 y +:+ pad2 mo +:+ pad2 d +:+ "T" +:+ pad2 h +:+ pad2 mi +:+ pad2 s +:+ "Z"
  | _ => ""
  end.

(** ** The applier *)

(** journal.go: the file of the pending change. *)
Record applyJournal := mkApplyJournal { path : string }.

Record uciApplier := mkUciApplier {
  configRoot : string;
  configDir : string;
  snapshotDir : string;
  uJournal : option applyJournal;
  keepSnapshots : nat }.

Definition newUCIApplier : uciApplier :=
  mkUciApplier "/etc" "config" "/etc/veilbridge/snapshots"
    (Some (mkApplyJournal "/etc/veilbridge/pending-apply.json")) 5.

(** A name that must not become part of a path. *)
Definition unsafeId (i : string) : bool :=
  negb (nonempty i) || ContainsAny "/\" i || Contains ".." i.

Definition snapshotFile (u : uciApplier) (i : string) : string := in_dir (snapshotDir u) (i +:+ ".tar.gz").

Fixpoint removeOld (u : uciApplier) (names : list string) : prog (res unit) :=
  match names with
  | [] => Ret (Ok tt)
  | old :: names =>
      r <- ask (Remove (in_dir (snapshotDir u) old)) ;;
      match r with
      | Err e => Ret (Err (Wrapf "prune old snapshot %s: %w" [old] e))
      | Ok _ => removeOld u names
      end
  end.

Definition snapshotNames (entries : list (string * bool)) : list string :=
  omap (fun '(n, dir) => if negb dir && HasPrefix "uci-" n then Some n else None) entries.

Definition prune (u : uciApplier) : prog (res unit) :=
  let! entries := ask (ReadDir (snapshotDir u)) in
  let names := snapshotNames entries in
  if decide (length names <= keepSnapshots u) then Ret (Ok tt)
  else removeOld u (take (length names - keepSnapshots u) (sort_strings names)).

Definition persist (u : uciApplier) (snap : Snapshot) : prog (res unit) :=
  if negb (nonempty (snapshotDir u)) then Ret (Ok tt) else
  let! _ := ask (MkdirAll (snapshotDir u)) in
  if unsafeId (ID snap)
  then Ret (Err (Errorf "refusing to persist snapshot with unsafe id %q" [ID snap])) else
  let! _ := ask (WriteFile (snapshotFile u (ID snap)) (Payload snap)) in
  prune u.

(** The ID of a snapshot taken at [t]. *)
Definition snapshotID (t : Z) : string := "uci-" +:+ Format t.

Definition TakeSnapshot (u : uciApplier) : prog (res Snapshot) :=
  let! payload := r <- runCommand ["tar"; "czf"; "-"; "-C"; configRoot u; configDir u] ;;
                  Ret (wrapping "snapshot /etc/config: %w" [] r) in
  if negb (nonempty payload)
  then Ret (Err (Errorf "snapshot /etc/config: archive is empty" [])) else
  t1 <- ask Now ;;
  t2 <- ask Now ;;
  let snap := mkSnapshot (snapshotID t1) t2 payload in
  _ <- persist u snap ;;
  Ret (Ok snap).

Definition Commit (u : uciApplier) : prog (res unit) :=
  let! _ := r <- runCommand ["uci"; "commit"] ;; Ret (wrapping "uci commit: %w" [] r) in
  let! _ := r <- runCommand ["/sbin/reload_config"] ;;
            Ret (wrapping "reload_config after commit: %w" [] r) in
  Ret (Ok tt).

(** The name a line of [uci changes] is about. *)
Definition package_line (line : string) : option string :=
  let line := TrimSpace (TrimPrefix "-" (TrimSpace line)) in
  match Cut "." line with
  | Some (name, _) => if nonempty name then Some name else None
  | None => None
  end.

Definition stagedPackages (out : string) : list string :=
  sort_strings (elements (list_to_set (omap package_line (Split "010" out)) : gset string)).

Fixpoint dropPackages (pkgs : list string) : prog (res unit) :=
  match pkgs with
  | [] => Ret (Ok tt)
  | pkg :: pkgs =>
      r <- runCommand ["uci"; "revert"; pkg] ;;
      match r with
      | Err e => Ret (Err (Wrapf "revert: drop staged changes in %q: %w" [pkg] e))
      | Ok _ => dropPackages pkgs
      end
  end.

Definition dropStaged : prog (res unit) :=
  let! out := r <- runCommand ["uci"; "changes"] ;;
              Ret (wrapping "revert: list staged changes: %w" [] r) in
  dropPackages (stagedPackages out).

(** From the write of the temporary file to the end; the file is removed by
    the caller's [defer]. *)
Definition unpack (u : uciApplier) (snap : Snapshot) (tmp : string) : prog (res unit) :=
  r <- ask (WriteTemp tmp (Payload snap)) ;;
  match r with
  | Err e => _ <- ask (CloseTemp tmp) ;; Ret (Err (Wrapf "revert: write archive: %w" [] e))
  | Ok _ =>
      let! _ := r <- ask (CloseTemp tmp) ;; Ret (wrapping "revert: close archive: %w" [] r) in
      let! _ := r <- runCommand ["tar"; "xzf"; tmp; "-C"; configRoot u] ;;
                Ret (wrapping "revert: unpack snapshot %s: %w" [ID snap] r) in
      let! _ := r <- runCommand ["/sbin/reload_config"] ;;
                Ret (wrapping "revert: reload_config after restoring %s: %w" [ID snap] r) in
      Ret (Ok tt)
  end.

Definition RevertTo (u : uciApplier) (snap : Snapshot) : prog (res unit) :=
  if negb (nonempty (Payload snap))
  then Ret (Err (Errorf "revert: snapshot %q carries no data" [ID snap])) else
  let! _ := dropStaged in
  let! tmp := r <- ask (CreateTemp "veilbridge-revert-*.tar.gz") ;;
              Ret (wrapping "revert: temp file: %w" [] r) in
  out <- unpack u snap tmp ;;
  _ <- ask (Remove tmp) ;;
  Ret out.

Definition LoadSnapshot (u : uciApplier) (i : string) : prog (res Snapshot) :=
  if unsafeId i then Ret (Err (Errorf "refusing to load snapshot with unsafe id %q" [i])) else
  let! payload := r <- ask (ReadFile (snapshotFile u i)) ;;
                  Ret (wrapping "load snapshot %s: %w" [i] r) in
  if negb (nonempty payload) then Ret (Err (Errorf "load snapshot %s: file is empty" [i])) else
  Ret (Ok (mkSnapshot i 0 payload)).

(** ** The journal *)

(** [json.Marshal] and [json.Unmarshal] of [core.ApplyRecord]. A text of ASCII
    characters comes back as it was written. *)
Definition ascii_text (s : string) : bool := all_chars (fun c => code c <? 128)%Z s.

Class RecordCodec := {
  Marshal : ApplyRecord -> res string;
  Unmarshal : string -> res ApplyRecord;
  Unmarshal_Marshal r d :
    ascii_text (SnapshotID r) = true -> ascii_text (Token r) = true ->
    Marshal r = Ok d -> Unmarshal d = Ok r }.

(** [filepath.Dir] of a path as [newApplyJournal] is given one: what is before
    the last slash. *)
Definition Dir (p : string) : string :=
  match Cut "/" (rev_string p) with Some (_, d) => rev_string d | None => "." end.

Section Journal.
Context `{!RecordCodec} (j : applyJournal).

Definition Save (rec : ApplyRecord) : prog (res unit) :=
  let! _ := r <- ask (MkdirAll (Dir (path j))) ;; Ret (wrapping "journal dir: %w" [] r) in
  let* data := wrapping "encode pending apply: %w" [] (Marshal rec) in
  let tmp := path j +:+ ".tmp" in
  let! _ := r <- ask (WriteFile tmp data) ;; Ret (wrapping "write pending apply: %w" [] r) in
  let! _ := r <- ask (Rename tmp (path j)) ;; Ret (wrapping "commit pending apply: %w" [] r) in
  Ret (Ok tt).

Definition Load : prog (res (option ApplyRecord)) :=
  r <- ask (ReadFile (path j)) ;;
  match r with
  | Err e => if decide (e = ErrNotExist) then Ret (Ok None)
             else Ret (Err (Wrapf "read pending apply: %w" [] e))
  | Ok data =>
      match Unmarshal data with
      | Err e => Ret (Err (Wrapf "pending apply file %s is unreadable: %w" [path j] e))
      | Ok rec =>
          if negb (nonempty (SnapshotID rec))
          then Ret (Err (Errorf "pending apply file %s names no snapshot" [path j]))
          else Ret (Ok (Some rec))
      end
  end.

Definition Clear : prog (res unit) :=
  r <- ask (Remove (path j)) ;;
  match r with
  | Err e => if decide (e = ErrNotExist) then Ret (Ok tt)
             else Ret (Err (Wrapf "clear pending apply: %w" [] e))
  | Ok _ => Ret (Ok tt)
  end.
End Journal.

(** ** The interfaces of internal/core, against a router *)
Section Interfaces.
Context {W : Type} (h : router W) `{!RecordCodec}.

(** The [error] of a method that returns nothing else. *)
Definition failure (r : res unit) : option err := match r with Ok _ => None | Err e => Some e end.

Definition run_on {A} (p : prog (res A)) (w : W) : W * res A := (after h p w, result h p w).
Definition run_off (p : prog (res unit)) (w : W) : W * option err := (after h p w, failure (result h p w)).

Definition config_applier (u : uciApplier) : ConfigApplier W := {|
  takeSnapshot := run_on (TakeSnapshot u);
  commit := run_off (Commit u);
  revertTo s := run_off (RevertTo u s) |}.

Definition apply_journal (j : applyJournal) : ApplyJournal W := {|
  save r := run_off (Save j r);
  load := run_on (Load j);
  clear := run_off (Clear j) |}.

Definition snapshot_loader (u : uciApplier) : SnapshotLoader W := {|
  loadSnapshot i := run_on (LoadSnapshot u i) |}.

(** [Journal()]: the optional capability. *)
Definition Journal (u : uciApplier) : option (ApplyJournal W) := apply_journal <$> uJournal u.
End Interfaces.
