(* ===== verification/UciApplierThms.v ===== *)
(** * What the uci applier promises

    The names of snapshots and their order; what a revert, a snapshot and the
    journal do to a router whose programs and files behave as documented
    ([UciHost]); and that the applier, its journal and its loader are a world
    the apply transaction can rely on. *)

From S2P Require Import Prelude GoStrings Apply ApplySpec Effects Network Uci Firewall Stage UciApplier.

(** [lia] on divisions by constants. *)
Local Ltac Zify.zify_post_hook ::= Z.div_mod_to_equations.

(** ** Time stamps are ordered *)

Lemma digits_acc base ch fuel n acc : digits base ch fuel n acc = digits base ch fuel n "" +:+ acc.
Proof.
  revert n acc. induction fuel as [|f IH]; intros n acc; [done|]. cbn [digits].
  destruct (n <? base)%Z; [done|]. rewrite IH. rewrite (IH _ (String _ "")).
  by rewrite <- append_assoc, append_cons.
Qed.

Lemma digits_fuel f g n acc :
  (0 <= n)%Z -> (n < 10 ^ Z.of_nat (S f))%Z -> (n < 10 ^ Z.of_nat (S g))%Z ->
  digits 10 digit_char (S f) n acc = digits 10 digit_char (S g) n acc.
Proof.
  revert g n acc. induction f as [|f IH]; intros g n acc Hn Hf Hg; cbn [digits].
  - rewrite (proj2 (Z.ltb_lt n 10)) by lia. done.
  - destruct (n <? 10)%Z eqn:E; [done|]. bool_to_prop. destruct g as [|g]; [lia|].
    rewrite Nat2Z.inj_succ, Z.pow_succ_r in Hf, Hg by lia.
    apply IH; [apply Z.div_pos; lia|apply Z.div_lt_upper_bound; lia..].
Qed.

Lemma udec_step n : (10 <= n)%Z -> udec n = udec (n / 10) +:+ String (digit_char (n mod 10)) "".
Proof.
  intros H. unfold udec. set (f := Z.to_nat (Z.log2 n)). cbn [digits].
  rewrite (proj2 (Z.ltb_ge n 10)) by lia.
  assert (0 <= n / 10)%Z as Hd by (apply Z.div_pos; lia).
  pose proof (log2_fuel n ltac:(lia)) as Hf. fold f in Hf.
  destruct f as [|f]; [cbn in Hf; lia|].
  rewrite (digits_fuel f (Z.to_nat (Z.log2 (n / 10)))); [by rewrite digits_acc|done| |by apply log2_fuel].
  apply Z.div_lt_upper_bound; [done|]. by rewrite Nat2Z.inj_succ, Z.pow_succ_r in Hf by lia.
Qed.

Definition digit_string (l : list Z) : string := foldr (fun d s => String (digit_char d) s) "" l.

Lemma Itoa_digit_string z : (0 <= z < 10)%Z -> Itoa z = digit_string [z].
Proof.
  intros H. unfold Itoa. rewrite (proj2 (Z.ltb_ge z 0)) by lia. unfold udec. cbn [digits].
  rewrite (proj2 (Z.ltb_lt z 10)) by lia. by rewrite Z.mod_small by lia.
Qed.

Lemma Itoa_digit_step z l : (10 <= z)%Z -> Itoa (z / 10) = digit_string l -> Itoa z = digit_string (l ++ [z mod 10]%Z).
Proof.
  intros H. unfold Itoa. rewrite !(proj2 (Z.ltb_ge _ 0)) by (try apply Z.div_pos; lia).
  intros E. rewrite udec_step, E by done. clear. unfold digit_string.
  induction l as [|d l IH]; cbn [foldr app]; [done|]. by rewrite append_cons, IH.
Qed.

Lemma pad2_digits z : (0 <= z < 100)%Z -> pad2 z = digit_string [z / 10; z mod 10]%Z.
Proof.
  intros H. unfold pad2. destruct (z <? 10)%Z eqn:E; bool_to_prop.
  - rewrite Itoa_digit_string, Z.div_small, Z.mod_small by lia. done.
  - apply (Itoa_digit_step z [z / 10]%Z); [done|]. apply Itoa_digit_string. lia.
Qed.

Lemma pad4_digits z : (1000 <= z < 10000)%Z ->
  pad4 z = digit_string [z / 10 / 10 / 10; z / 10 / 10 mod 10; z / 10 mod 10; z mod 10]%Z.
Proof.
  intros H. unfold pad4, pad2. rewrite !(proj2 (Z.ltb_ge z _)) by lia. rewrite !append_nil_l.
  apply (Itoa_digit_step z [_; _; _]); [lia|]. apply (Itoa_digit_step (z / 10) [_; _]); [lia|].
  apply (Itoa_digit_step (z / 10 / 10) [_]); [lia|]. apply Itoa_digit_string. lia.
Qed.

(** Texts are ordered as the numbers they begin with are. *)
Definition ordered_by (f : Z -> string) (lo hi : Z) : Prop :=
  forall a b s t, (lo <= a < hi)%Z -> (lo <= b < hi)%Z -> (a < b)%Z \/ a = b /\ str_le s t = true ->
  str_le (f a +:+ s) (f b +:+ t) = true.

Lemma digit_le a b s t :
  (0 <= a < 10)%Z -> (0 <= b < 10)%Z -> (a < b)%Z \/ a = b /\ str_le s t = true ->
  str_le (String (digit_char a) s) (String (digit_char b) t) = true.
Proof.
  intros Ha Hb H. rewrite str_le_cons, !digit_char_code, orb_true_iff, andb_true_iff, Z.ltb_lt, Z.eqb_eq by done.
  destruct H as [H|[-> H]]; [left; lia|by right].
Qed.

Lemma pad2_ordered : ordered_by pad2 0 100.
Proof.
  intros a b s t Ha Hb H. rewrite !pad2_digits by done. cbn [digit_string foldr].
  rewrite !append_cons, !append_nil_l. apply digit_le; [lia..|].
  destruct (decide (a / 10 < b / 10)%Z); [by left|]. right. split; [destruct H as [|[-> _]]; lia|].
  apply digit_le; [lia..|]. destruct H as [|[-> ?]]; [left; lia|by right].
Qed.

Lemma pad4_ordered : ordered_by pad4 1000 10000.
Proof.
  intros a b s t Ha Hb H. rewrite !pad4_digits by done. cbn [digit_string foldr].
  rewrite !append_cons, !append_nil_l.
  do 4 (apply digit_le; [lia..|];
    match goal with |- (?x < ?y)%Z \/ _ => destruct (decide (x < y)%Z); [by left|]; right;
      split; [destruct H as [|[-> _]]; lia|] end).
  destruct H as [|[_ ?]]; [exfalso; lia|done].
Qed.

(** *** The calendar is monotone *)

Fixpoint lex_le (a b : list Z) : Prop :=
  match a, b with
  | x :: a, y :: b => (x < y)%Z \/ x = y /\ lex_le a b
  | _, _ => True
  end.

(** The days before a year. *)
Definition before_year (y : Z) : Z := (365 * (y - 1) + (y - 1) / 4 - (y - 1) / 100 + (y - 1) / 400)%Z.

Lemma year_day_spec d : (0 <= d)%Z ->
  let '(y, yd) := year_day d in
  (1 <= y)%Z /\ d = (before_year y + yd)%Z /\ (0 <= yd < 365 + (if is_leap y then 1 else 0))%Z.
Proof.
  intros H. unfold year_day, before_year, is_leap.
  set (n400 := (d / 146097)%Z). set (r400 := (d mod 146097)%Z).
  set (n100 := Z.min 3 (r400 / 36524)). set (r100 := (r400 - 36524 * n100)%Z).
  set (n4 := (r100 / 1461)%Z). set (r4 := (r100 mod 1461)%Z). set (n1 := Z.min 3 (r4 / 365)).
  assert (d = 146097 * n400 + r400 /\ 0 <= r400 < 146097)%Z as [E1 B1] by lia.
  assert (0 <= n100 <= 3 /\ 0 <= r100 < 36525 /\ (n100 = 3 \/ r100 < 36524))%Z as (B2 & B3 & B3') by lia.
  assert (r100 = 1461 * n4 + r4 /\ 0 <= r4 < 1461 /\ 0 <= n4 <= 24)%Z as (E2 & B4 & B5) by lia.
  assert (0 <= n1 <= 3 /\ 0 <= r4 - 365 * n1 < 366 /\ (n1 = 3 \/ r4 - 365 * n1 < 365))%Z as (B6 & B7 & B7') by lia.
  assert (0 <= n400 /\ r400 = 36524 * n100 + r100)%Z as [B0 E3] by lia.
  clearbody n400 r400 n100 r100 n4 r4 n1.
  replace (400 * n400 + 100 * n100 + 4 * n4 + n1 + 1 - 1)%Z with (400 * n400 + 100 * n100 + 4 * n4 + n1)%Z by lia.
  assert ((400 * n400 + 100 * n100 + 4 * n4 + n1) / 4 = 100 * n400 + 25 * n100 + n4)%Z as -> by lia.
  assert ((400 * n400 + 100 * n100 + 4 * n4 + n1) / 100 = 4 * n400 + n100)%Z as -> by lia.
  assert ((400 * n400 + 100 * n100 + 4 * n4 + n1) / 400 = n400)%Z as -> by lia.
  split; [lia|]. split; [lia|]. split; [lia|].
  destruct (((400 * n400 + 100 * n100 + 4 * n4 + n1 + 1) mod 4 =? 0)%Z) eqn:L4; bool_to_prop; cbn [andb].
  - destruct (((400 * n400 + 100 * n100 + 4 * n4 + n1 + 1) mod 100 =? 0)%Z) eqn:L100; bool_to_prop; cbn [andb negb orb]; [|lia].
    destruct (((400 * n400 + 100 * n100 + 4 * n4 + n1 + 1) mod 400 =? 0)%Z) eqn:L400; bool_to_prop; lia.
  - lia.
Qed.

Lemma before_year_mono a b : (1 <= a)%Z -> (a < b)%Z ->
  (before_year a + 365 + (if is_leap a then 1 else 0) <= before_year b)%Z.
Proof.
  intros H Hab. transitivity (before_year (a + 1)).
  - unfold before_year, is_leap. replace (a + 1 - 1)%Z with a by lia.
    destruct (a mod 4 =? 0)%Z eqn:L4; bool_to_prop; cbn [andb]; [|lia].
    destruct (a mod 100 =? 0)%Z eqn:L100; bool_to_prop; cbn [andb negb orb]; [|lia].
    destruct (a mod 400 =? 0)%Z eqn:L400; bool_to_prop; lia.
  - unfold before_year. replace (a + 1 - 1)%Z with a by lia. lia.
Qed.

Lemma month_day_spec l m d : (0 <= d < foldr Z.add 0 l)%Z ->
  let '(mo, da) := month_day l m d in
  (m <= mo < m + Z.of_nat (length l))%Z /\ (1 <= da)%Z /\ (Forall (fun n => n <= 31)%Z l -> (da <= 31)%Z).
Proof.
  revert m d. induction l as [|n l IH]; intros m d; cbn [foldr month_day length]; [lia|]. intros H.
  destruct (d <? n)%Z eqn:E; bool_to_prop.
  - split; [lia|]. split; [lia|]. rewrite Forall_cons. lia.
  - specialize (IH (m + 1)%Z (d - n)%Z ltac:(lia)). destruct (month_day l (m + 1) (d - n)) as [mo da].
    destruct IH as (? & ? & IH). split; [lia|]. split; [lia|]. rewrite Forall_cons. intros [_ ?]. auto.
Qed.

Lemma month_day_mono l m d1 d2 rest1 rest2 :
  (0 <= d1)%Z -> (d2 < foldr Z.add 0 l)%Z -> (d1 < d2)%Z \/ d1 = d2 /\ lex_le rest1 rest2 ->
  lex_le ((month_day l m d1).1 :: (month_day l m d1).2 :: rest1)
         ((month_day l m d2).1 :: (month_day l m d2).2 :: rest2).
Proof.
  revert m d1 d2. induction l as [|n l IH]; intros m d1 d2; cbn [foldr month_day]; [lia|]. intros H1 H2 Hd.
  destruct (d1 <? n)%Z eqn:E1, (d2 <? n)%Z eqn:E2; bool_to_prop.
  - cbn [fst snd lex_le]. right. split; [done|]. destruct Hd as [?|[-> ?]]; [left; lia|by right].
  - left. cbn [fst]. pose proof (month_day_spec l (m + 1) (d2 - n) ltac:(lia)) as Hs.
    destruct (month_day l (m + 1) (d2 - n)). cbn. lia.
  - lia.
  - apply IH; [lia..|]. destruct Hd as [?|[-> ?]]; [left; lia|by right].
Qed.

Lemma daysIn_sum leap : foldr Z.add 0%Z (daysIn leap) = (365 + if leap then 1 else 0)%Z.
Proof. by destruct leap. Qed.

(** From 1970 to the end of the year 9999. *)
Definition datable (t : Z) : Prop := (0 <= t < 253402300800)%Z.

Lemma year_bounds t : datable t ->
  let '(y, yd) := year_day (t / 86400 + days_to_1970) in
  (1970 <= y < 10000)%Z /\ (t / 86400 + days_to_1970 = before_year y + yd)%Z /\
  (0 <= yd < 365 + (if is_leap y then 1 else 0))%Z.
Proof.
  unfold datable, days_to_1970. intros H. pose proof (year_day_spec (t / 86400 + 719162) ltac:(lia)) as Hs.
  destruct (year_day (t / 86400 + 719162)) as [y yd]. destruct Hs as (Hy & E & Hd).
  split; [|done]. split.
  - destruct (decide (1970 <= y)%Z); [done|]. exfalso.
    pose proof (before_year_mono y 1970 Hy ltac:(lia)) as Hm. change (before_year 1970) with 719162%Z in Hm. lia.
  - destruct (decide (y < 10000)%Z); [done|]. exfalso.
    assert (before_year 10000 <= before_year y)%Z as Hm.
    { destruct (decide (y = 10000)%Z) as [->|]; [done|].
      pose proof (before_year_mono 10000 y ltac:(lia) ltac:(lia)). destruct (is_leap 10000); lia. }
    change (before_year 10000) with 3652059%Z in Hm. lia.
Qed.

(** What [date_of] answers is a date and a time of day. *)
Lemma date_of_fields t : datable t -> exists y mo d h mi s,
  date_of t = [y; mo; d; h; mi; s] /\ (1000 <= y < 10000)%Z /\ (0 <= mo < 100)%Z /\ (0 <= d < 100)%Z /\
  (0 <= h < 100)%Z /\ (0 <= mi < 100)%Z /\ (0 <= s < 100)%Z.
Proof.
  intros H. unfold date_of. pose proof (year_bounds t H) as Hy.
  destruct (year_day _) as [y yd]. destruct Hy as (Hy & _ & Hd).
  pose proof (month_day_spec (daysIn (is_leap y)) 1 yd) as Hm. rewrite daysIn_sum in Hm. specialize (Hm Hd).
  destruct (month_day _ 1 yd) as [mo d]. destruct Hm as (Hmo & Hd1 & Hd2).
  assert (d <= 31)%Z by (apply Hd2; destruct (is_leap y); repeat constructor; lia).
  change (Z.of_nat (length (daysIn (is_leap y)))) with 12%Z in Hmo.
  do 6 eexists. split; [done|]. lia.
Qed.

Lemma date_of_mono t1 t2 : datable t1 -> datable t2 -> (t1 <= t2)%Z -> lex_le (date_of t1) (date_of t2).
Proof.
  intros H1 H2 Ht. unfold date_of. pose proof (year_bounds t1 H1) as Hy1. pose proof (year_bounds t2 H2) as Hy2.
  destruct (year_day (t1 / 86400 + _)) as [y1 yd1] eqn:Y1, (year_day (t2 / 86400 + _)) as [y2 yd2] eqn:Y2.
  destruct Hy1 as (B1 & E1 & D1), Hy2 as (B2 & E2 & D2).
  destruct (month_day (daysIn (is_leap y1)) 1 yd1) as [mo1 d1] eqn:M1.
  destruct (month_day (daysIn (is_leap y2)) 1 yd2) as [mo2 d2] eqn:M2.
  destruct (decide (y1 < y2)%Z) as [|Hge]; [by left|].
  destruct (decide (y2 < y1)%Z) as [Hlt|]; [exfalso|].
  { pose proof (before_year_mono y2 y1 ltac:(lia) Hlt). unfold datable, days_to_1970 in *. lia. }
  assert (y1 = y2) as -> by lia. right. split; [done|].
  pose proof (month_day_mono (daysIn (is_leap y2)) 1 yd1 yd2
    [t1 mod 86400 / 3600; t1 mod 3600 / 60; t1 mod 60]%Z [t2 mod 86400 / 3600; t2 mod 3600 / 60; t2 mod 60]%Z) as Hm.
  rewrite M1, M2, daysIn_sum in Hm. apply Hm; [lia..|].
  destruct (decide (yd1 < yd2)%Z); [by left|]. right. split; [unfold days_to_1970 in *; lia|]. cbn. lia.
Qed.

(** The names of snapshots sort by their age: what is stamped later - up to
    the year 9999 - has the later file name, as the pruning of old snapshots
    supposes. *)
Theorem later_snapshot_has_later_name t1 t2 :
  datable t1 -> datable t2 -> (t1 <= t2)%Z ->
  str_le (snapshotID t1 +:+ ".tar.gz") (snapshotID t2 +:+ ".tar.gz") = true.
Proof.
  intros H1 H2 Ht. pose proof (date_of_mono t1 t2 H1 H2 Ht) as Hl. unfold snapshotID, Format.
  destruct (date_of_fields t1 H1) as (y & mo & d & h & mi & s & E1 & Hy & Hmo & Hd & Hh & Hmi & Hs).
  destruct (date_of_fields t2 H2) as (y' & mo' & d' & h' & mi' & s' & E2 & Hy' & Hmo' & Hd' & Hh' & Hmi' & Hs').
  rewrite E1, E2 in *. cbn [lex_le] in Hl. rewrite <- !append_assoc.
  rewrite !(append_cons "u"), !(append_cons "c"), !(append_cons "i"), !(append_cons "-"), !append_nil_l,
    !str_le_cons, !Z.ltb_irrefl, !Z.eqb_refl. cbn [orb andb].
  apply pad4_ordered; [done..|]. destruct Hl as [|[-> Hl]]; [by left|right; split; [done|]].
  apply pad2_ordered; [done..|]. destruct Hl as [|[-> Hl]]; [by left|right; split; [done|]].
  apply pad2_ordered; [done..|]. destruct Hl as [|[-> Hl]]; [by left|right; split; [done|]].
  rewrite !append_cons, !append_nil_l, str_le_cons, Z.ltb_irrefl, Z.eqb_refl. cbn [orb andb].
  apply pad2_ordered; [done..|]. destruct Hl as [|[-> Hl]]; [by left|right; split; [done|]].
  apply pad2_ordered; [done..|]. destruct Hl as [|[-> Hl]]; [by left|right; split; [done|]].
  apply pad2_ordered; [done..|]. destruct Hl as [|[-> Hl]]; [by left|right; split; [done|]].
  apply str_le_refl.
Qed.

Lemma later_snapshot_has_later_name_witness :
  snapshotID 1709210096 = "uci-20240229T123456Z" /\
  str_le (snapshotID 1709210096 +:+ ".tar.gz") (snapshotID 1709251200 +:+ ".tar.gz") = true.
Proof.
  split; [vm_compute; reflexivity|].
  apply later_snapshot_has_later_name; [unfold datable; lia|unfold datable; lia|lia].
Defined.

(** ** The router, as the applier relies on it *)

(** /etc/config, the configurations with staged changes, the other files the
    applier names by their path, and the tokens the daemon gave out so far. *)
Record HostViews W := mkHost {
  conf : W -> gmap string string;
  stagedIn : W -> gset string;
  files : W -> gmap string string;
  given : W -> list string }.
Arguments conf {W}. Arguments stagedIn {W}. Arguments files {W}. Arguments given {W}.

Definition in_etc_config (p : string) : bool := HasPrefix "/etc/config/" p.

(** What may be the name of a configuration file to uci. *)
Definition package_name (c : string) : bool :=
  nonempty c && all_chars (fun x => solid x && bool_decide (x <> "."%char)) c && negb (HasPrefix "-" c).

(** A line of [uci changes] about the configuration [c]. *)
Definition names_package (c line : string) : Prop :=
  exists rest, line = c +:+ "." +:+ rest \/ line = "-" +:+ c +:+ "." +:+ rest.

Section Host.
Context {W : Type} (h : router W) (v : HostViews W).

Definition same_conf (w w' : W) : Prop := conf v w' = conf v w /\ stagedIn v w' = stagedIn v w.
Definition same (w w' : W) : Prop := same_conf w w' /\ files v w' = files v w.

(** [names]: the configuration files the router came with, which no command
    removes. [archive]: what unpacking a payload of [tar czf] writes below
    /etc/config. [uci commit] may do anything to the configuration. A call
    that fails half-way is an answer [Err] with what it left. *)
Class UciHost (names : gset string) (archive : string -> option (gmap string string)) := {
  uh_names w : names ⊆ dom (conf v w);
  uh_given o w : given v (answer h o w).2 = given v w;
  uh_pack w w' r : answer h (Exec ["tar"; "czf"; "-"; "-C"; "/etc"; "config"]) w = (r, w') ->
    same w w' /\ (forall p, r = Ok p -> nonempty p = true -> archive p = Some (conf v w));
  uh_unpack f w w' r : answer h (Exec ["tar"; "xzf"; f; "-C"; "/etc"]) w = (r, w') ->
    stagedIn v w' = stagedIn v w /\ files v w' = files v w /\
    (is_ok r = true -> forall p c, files v w !! f = Some p -> archive p = Some c -> conf v w' = c ∪ conf v w);
  uh_commit w w' r : answer h (Exec ["uci"; "commit"]) w = (r, w') -> files v w' = files v w;
  uh_reload w w' r : answer h (Exec ["/sbin/reload_config"]) w = (r, w') -> same w w';
  uh_changes w w' r : answer h (Exec ["uci"; "changes"]) w = (r, w') ->
    same w w' /\ (forall out c, r = Ok out -> c ∈ stagedIn v w ->
      package_name c = true /\ exists line, line ∈ Split "010" out /\ names_package c line);
  uh_drop c w w' r : answer h (Exec ["uci"; "revert"; c]) w = (r, w') ->
    conf v w' = conf v w /\ files v w' = files v w /\ stagedIn v w' ⊆ stagedIn v w /\
    (is_ok r = true -> c ∉ stagedIn v w');
  uh_now w w' t : answer h Now w = (t, w') -> same w w';
  uh_mkdir d w w' r : answer h (MkdirAll d) w = (r, w') -> same w w';
  uh_write f d w w' r : in_etc_config f = false -> answer h (WriteFile f d) w = (r, w') ->
    same_conf w w' /\ (forall q, q <> f -> files v w' !! q = files v w !! q) /\
    (is_ok r = true -> files v w' !! f = Some d);
  uh_rename a b w w' r : in_etc_config b = false -> answer h (Rename a b) w = (r, w') ->
    same_conf w w' /\
    (if is_ok r then forall d, files v w !! a = Some d -> files v w' = <[b := d]> (delete a (files v w))
     else files v w' = files v w);
  uh_remove f w w' r : in_etc_config f = false -> answer h (Remove f) w = (r, w') ->
    same_conf w w' /\ (if is_ok r then files v w' = delete f (files v w) else files v w' = files v w) /\
    (r = Err ErrNotExist -> files v w !! f = None);
  uh_read f w w' r : answer h (ReadFile f) w = (r, w') ->
    same w w' /\ (forall d, r = Ok d -> files v w !! f = Some d) /\ (r = Err ErrNotExist -> files v w !! f = None);
  uh_list d w w' r : answer h (ReadDir d) w = (r, w') ->
    same w w' /\ (forall es, r = Ok es -> NoDup es.*1 /\
      forall n, (n, false) ∈ es <-> lacks "/" n = true /\ is_Some (files v w !! in_dir d n));
  uh_temp pat w w' r : answer h (CreateTemp pat) w = (r, w') ->
    same_conf w w' /\
    match r with
    | Ok f => HasPrefix "/etc/" f = false /\ files v w !! f = None /\ files v w' = <[f := ""]> (files v w)
    | Err _ => files v w' = files v w
    end;
  uh_fill f d w w' r : HasPrefix "/etc/" f = false -> answer h (WriteTemp f d) w = (r, w') ->
    same_conf w w' /\ (forall q, q <> f -> files v w' !! q = files v w !! q) /\
    (is_ok r = true -> files v w !! f = Some "" -> files v w' !! f = Some d);
  uh_close f w w' r : answer h (CloseTemp f) w = (r, w') -> same w w' }.
End Host.

(** ** Reading [uci changes] *)

(** A byte of ASCII is no part of a longer white-space character. *)
Lemma solid_alone c : solid c = true ->
  forall x y, space2 c x = false /\ space3 y c x = false /\ space3 c y x = false.
Proof.
  intros [_ H]%solid_spec x y. unfold space2, space3.
  repeat match goal with |- context [(code c =? ?n)%Z] =>
    replace (code c =? n)%Z with false by (symmetry; apply Z.eqb_neq; lia) end.
  by rewrite !andb_false_r.
Qed.

(** Trimming stops at such a byte. *)
Lemma trim_left_rev_upto c (a b : string) :
  solid c = true -> exists a', trim_left_rev (a +:+ String c b) = a' +:+ String c b.
Proof.
  intros Hc. remember (String.length a) as n eqn:Hn. revert a Hn.
  induction (lt_wf n) as [n _ IH]. intros a ->.
  assert (forall r, String.length r < String.length a ->
    exists a', trim_left_rev (r +:+ String c b) = a' +:+ String c b) as IHa by (intros; by eapply IH).
  clear IH. pose proof (solid_alone c Hc) as Hs.
  destruct a as [|x a]; [exists ""; rewrite append_nil_l; by apply trim_left_rev_solid|].
  rewrite append_cons. cbn [trim_left_rev]. destruct (space1 x); [apply IHa; cbn; lia|].
  destruct a as [|y a].
  { rewrite append_nil_l, (proj1 (Hs x x)).
    exists (String x ""). rewrite append_cons, append_nil_l. destruct b as [|z b]; [done|].
    by rewrite (proj1 (proj2 (Hs x z))). }
  rewrite append_cons. destruct (space2 y x); [apply IHa; cbn; lia|].
  destruct a as [|z a].
  { rewrite append_nil_l, (proj2 (proj2 (Hs x y))). exists (String x (String y "")).
    by rewrite !append_cons, append_nil_l. }
  rewrite append_cons. destruct (space3 z y x); [apply IHa; cbn; lia|].
  exists (String x (String y (String z a))). by rewrite !append_cons.
Qed.

(** A text that starts with a solid byte keeps everything up to the last one. *)
Lemma TrimSpace_upto a c b :
  first_solid (a +:+ String c "") = true -> solid c = true ->
  exists b', TrimSpace (a +:+ String c b) = a +:+ String c b'.
Proof.
  intros Ha Hc. unfold TrimSpace, trim_right.
  replace (trim_left (a +:+ String c b)) with (a +:+ String c b).
  2: { destruct a as [|x a]; rewrite ?append_nil_l, ?append_cons in *; symmetry; by apply trim_left_solid. }
  destruct (trim_left_rev_upto c (rev_string b) (rev_string a) Hc) as [b' Hb'].
  exists (rev_string b'). rewrite rev_string_app, rev_string_cons, <- append_assoc, append_cons, append_nil_l, Hb'.
  by rewrite rev_string_app, rev_string_cons, rev_string_involutive, <- append_assoc, append_cons, append_nil_l.
Qed.

Lemma package_first c : package_name c = true ->
  exists x r, c = String x r /\ solid x = true /\ x <> "-"%char.
Proof.
  unfold package_name. destruct c as [|x r]; [done|]. cbn [nonempty all_chars HasPrefix]. intros H. bool_to_prop.
  exists x, r. split; [done|]. split; [done|]. intros ->. done.
Qed.

Lemma package_lacks c : package_name c = true -> lacks "." c = true.
Proof.
  unfold package_name. intros H. bool_to_prop. eapply all_chars_mono; [|done].
  intros d Hd. cbn in Hd. bool_to_prop. by apply bool_decide_eq_true.
Qed.

Lemma package_line_named c line : package_name c = true -> names_package c line -> package_line line = Some c.
Proof.
  intros Hc (rest & Hl). destruct (package_first c Hc) as (x & r & -> & Hx & Hdash).
  pose proof (package_lacks _ Hc) as Hdot.
  assert (forall rest, exists rest', TrimSpace (String x r +:+ "." +:+ rest) = String x r +:+ String "." rest') as Ht.
  { intros rest0. change ("." +:+ rest0) with (String "." rest0). apply TrimSpace_upto; [|done].
    by rewrite append_cons. }
  assert (forall rest, exists rest', TrimSpace (TrimPrefix "-" (String x r +:+ String "." rest)) = String x r +:+ String "." rest') as Hp.
  { intros rest0. unfold TrimPrefix. rewrite !append_cons. cbn [HasPrefix].
    rewrite bool_decide_eq_false_2 by done. cbn [andb]. rewrite <- append_cons. apply TrimSpace_upto; [|done].
    by rewrite append_cons. }
  unfold package_line. destruct Hl as [-> | ->].
  - destruct (Ht rest) as [rest1 ->], (Hp rest1) as [rest2 ->]. by rewrite Cut_sep.
  - replace ("-" +:+ String x r +:+ "." +:+ rest) with ((String "-" (String x r)) +:+ String "." rest)
      by (by rewrite !append_cons, !append_nil_l).
    destruct (TrimSpace_upto (String "-" (String x r)) "." rest) as [rest1 ->]; [done|done|].
    rewrite append_cons. unfold TrimPrefix. cbn [HasPrefix drop String.length]. rewrite bool_decide_eq_true_2 by done. cbn [andb].
    destruct (TrimSpace_upto (String x r) "." rest1) as [rest2 E]; [by rewrite append_cons|done|].
    rewrite E. by rewrite Cut_sep.
Qed.

(** Every configuration with staged changes is found: one that a line of
    [uci changes] names, an addition or a removal, is among the packages whose
    changes a revert throws away. *)
Lemma stagedPackages_complete out c line :
  package_name c = true -> line ∈ Split "010" out -> names_package c line -> c ∈ stagedPackages out.
Proof.
  intros Hc Hl Hn. unfold stagedPackages. rewrite sort_strings_elem, elem_of_elements, elem_of_list_to_set.
  apply list_elem_of_omap. exists line. split; [done|]. by apply package_line_named.
Qed.

(** ** The methods, step by step *)
Section Methods.
Context {W : Type} (h : router W) (v : HostViews W) (names : gset string)
  (archive : string -> option (gmap string string)) {H : UciHost h v names archive}.

(** What the laws say of a call that was answered. *)
Lemma same_trans w1 w2 w3 : same v w1 w2 -> same v w2 w3 -> same v w1 w3.
Proof. unfold same, same_conf. intros ((?&?)&?) ((?&?)&?). split_and!; congruence. Qed.

Lemma given_after {A} (p : prog A) w : given v (after h p w) = given v w.
Proof.
  revert w. unfold after. induction p as [a|o k IH]; intros w; cbn; [done|].
  pose proof (uh_given h v (UciHost := H) o w) as Hg. destruct (answer h o w) as [r w1]. cbn in Hg.
  specialize (IH r w1). destruct (perform h (k r) w1) as [[a w2] tr]. cbn in *. congruence.
Qed.

(** A command on the allow-list runs. *)
Lemma ends_run argv name w (Q : W -> res string -> Prop) :
  head argv = Some name -> contains allowedCommands name = true ->
  (forall r w1, answer h (Exec argv) w = (r, w1) -> Q w1 r) -> ends h (runCommand argv) w Q.
Proof.
  intros Hn Ha HQ. destruct argv as [|n argv]; [done|]. cbn in Hn. simplify_eq.
  unfold runCommand. rewrite Ha. cbn [negb]. by apply ends_Do.
Qed.

(** Dropping the staged changes: the packages named are gone from the draft,
    and nothing else has changed. *)
Lemma dropPackages_ends pkgs w :
  ends h (dropPackages pkgs) w (fun w' r =>
    conf v w' = conf v w /\ files v w' = files v w /\ stagedIn v w' ⊆ stagedIn v w /\
    (is_ok r = true -> forall c, c ∈ pkgs -> c ∉ stagedIn v w')).
Proof.
  revert w. induction pkgs as [|p pkgs IH]; intros w; cbn [dropPackages].
  { apply ends_Ret. split_and!; try done. intros _ c Hc. by apply not_elem_of_nil in Hc. }
  apply ends_bind. eapply ends_run; [done|done|]. intros r w1 Ha.
  apply (uh_drop h v (UciHost := H)) in Ha as (Ec & Ef & Hs & Hok).
  destruct r as [out|e]; [|apply ends_Ret; cbn; split_and!; done].
  eapply ends_mono; [apply IH|]. cbn beta. intros w2 r (Ec2 & Ef2 & Hs2 & Hok2).
  split; [congruence|]. split; [congruence|]. split; [set_solver|].
  intros Hr c [->|Hc]%elem_of_cons; [|by apply Hok2]. intros Hin. apply Hs2 in Hin. by apply Hok.
Qed.

Lemma dropStaged_ends w :
  ends h dropStaged w (fun w' r =>
    conf v w' = conf v w /\ files v w' = files v w /\ (is_ok r = true -> stagedIn v w' = ∅)).
Proof.
  unfold dropStaged. eapply ends_try.
  - apply ends_wrapping. eapply ends_run; [done|done|]. intros r w1 Ha. cbn beta.
    apply (uh_changes h v (UciHost := H)) in Ha as [Hs Hl]. instantiate (1 := fun w1 r => same v w w1 /\
      forall out c, r = Ok out -> c ∈ stagedIn v w ->
        package_name c = true /\ exists line, line ∈ Split "010" out /\ names_package c line).
    split; [done|]. intros out c Hr. apply Hl. by destruct r.
  - intros w1 out [((Ec & Es) & Ef) Hl]. eapply ends_mono; [apply dropPackages_ends|]. cbn beta.
    intros w2 r (Ec2 & Ef2 & Hs2 & Hok). split; [congruence|]. split; [congruence|]. intros Hr.
    apply leibniz_equiv, equiv_empty. intros c Hc. exfalso.
    destruct (Hl out c eq_refl) as (Hp & line & Hin & Hn); [rewrite <- Es; by apply Hs2|].
    apply (Hok Hr c); [|done]. by eapply stagedPackages_complete.
  - intros w1 e [((Ec & Es) & Ef) _]. by cbn.
Qed.

(** A command whose error is wrapped, in front of the rest. *)
Lemma ends_command {B} argv name fmt args w (P : W -> Prop) (f : string -> prog (res B)) (Q : W -> res B -> Prop) :
  head argv = Some name -> contains allowedCommands name = true ->
  (forall r w1, answer h (Exec argv) w = (r, w1) -> P w1) ->
  (forall out w1, answer h (Exec argv) w = (Ok out, w1) -> ends h (f out) w1 Q) ->
  (forall w1 e, P w1 -> Q w1 (Err e)) ->
  ends h (let! x := r <- runCommand argv ;; Ret (wrapping fmt args r) in f x) w Q.
Proof.
  intros Hn Ha HP Hok Herr.
  eapply (ends_try h _ _ _ (fun w1 r => match r with
    | Ok out => answer h (Exec argv) w = (Ok out, w1) | Err _ => P w1 end)).
  - apply ends_wrapping. eapply ends_run; [done|done|]. intros r w1 E. destruct r; cbn; eauto.
  - intros w1 out E. by apply Hok.
  - intros w1 e HPe. by apply Herr.
Qed.

(** The same for a file operation. *)
Lemma ends_file {A B} (o : op) (g : ans o -> res A) (f : A -> prog (res B)) w (Q : W -> res B -> Prop) :
  (forall r w1, answer h o w = (r, w1) ->
     match g r with Ok a => ends h (f a) w1 Q | Err e => Q w1 (Err e) end) ->
  ends h (let! x := r <- ask o ;; Ret (g r) in f x) w Q.
Proof.
  intros HQ. unfold try_bind. do 2 apply ends_bind. apply ends_ask. intros r w1 E. apply ends_Ret.
  specialize (HQ r w1 E). by destruct (g r).
Qed.

(** *** Reverting *)

(** The files below /etc - the journal and the snapshots - are as they were. *)
Definition etc_kept (w w' : W) : Prop :=
  forall q, HasPrefix "/etc/" q = true -> files v w' !! q = files v w !! q.

Lemma etc_kept_files w w' : files v w' = files v w -> etc_kept w w'.
Proof. intros E q _. by rewrite E. Qed.

Lemma etc_kept_trans w1 w2 w3 : etc_kept w1 w2 -> etc_kept w2 w3 -> etc_kept w1 w3.
Proof. intros H1 H2 q Hq. by rewrite H2, H1. Qed.

Lemma outside_etc f : HasPrefix "/etc/" f = false -> in_etc_config f = false.
Proof.
  unfold in_etc_config. intros Hf. apply not_true_iff_false. intros Hc. apply not_true_iff_false in Hf.
  apply Hf. revert Hc. clear. change "/etc/config/" with ("/etc/" +:+ "config/"). generalize "/etc/". intros a.
  revert f. induction a as [|x a IH]; intros [|y f]; try done. rewrite append_cons. cbn [HasPrefix].
  intros Hc. bool_to_prop. rewrite bool_decide_eq_true_2 by done. by apply IH.
Qed.

Lemma unpack_ends u snap f w :
  configRoot u = "/etc" -> HasPrefix "/etc/" f = false -> files v w !! f = Some "" ->
  ends h (unpack u snap f) w (fun w' r =>
    etc_kept w w' /\ stagedIn v w' = stagedIn v w /\
    (is_ok r = true -> forall c, archive (Payload snap) = Some c -> conf v w' = c ∪ conf v w)).
Proof.
  intros Hu Hf H0. unfold unpack. rewrite Hu. apply ends_op. intros r1 w1 E1.
  apply (uh_fill h v (UciHost := H)) in E1 as ((Ec1 & Es1) & Ef1 & Hd1); [|done].
  assert (etc_kept w w1) as K1 by (intros q Hq; apply Ef1; intros ->; congruence).
  destruct r1 as [[]|e1].
  2: { apply ends_op. intros r2 w2 E2. apply (uh_close h v (UciHost := H)) in E2 as ((? & ?) & ?).
       apply ends_Ret. split_and!; [|congruence|done]. eapply etc_kept_trans; [exact K1|]. by apply etc_kept_files. }
  specialize (Hd1 eq_refl H0).
  apply (ends_file (CloseTemp f) (wrapping "revert: close archive: %w" [])).
  intros r2 w2 E2. apply (uh_close h v (UciHost := H)) in E2 as ((Ec2 & Es2) & Ef2).
  assert (etc_kept w w2) as K2 by (eapply etc_kept_trans; [exact K1|by apply etc_kept_files]).
  destruct r2 as [[]|e2]; [|cbn; split_and!; [done|congruence|done]].
  eapply (ends_command _ "tar" _ _ _ (fun w3 => etc_kept w w3 /\ stagedIn v w3 = stagedIn v w)); [done|done| | |].
  { intros r w3 E3. apply (uh_unpack h v (UciHost := H)) in E3 as (? & ? & _). split; [|congruence].
    eapply etc_kept_trans; [exact K2|by apply etc_kept_files]. }
  2: { intros w3 e [? ?]. by split_and!. }
  intros out w3 E3. apply (uh_unpack h v (UciHost := H)) in E3 as (Es3 & Ef3 & Ec3).
  specialize (Ec3 eq_refl (Payload snap)). rewrite Ef2 in Ec3.
  assert (etc_kept w w3) as K3 by (eapply etc_kept_trans; [exact K2|by apply etc_kept_files]).
  eapply (ends_command _ "/sbin/reload_config" _ _ _ (fun w4 => etc_kept w w4 /\ stagedIn v w4 = stagedIn v w)); [done|done| | |].
  { intros r w4 E4. apply (uh_reload h v (UciHost := H)) in E4 as ((? & ?) & ?). split; [|congruence].
    eapply etc_kept_trans; [exact K3|by apply etc_kept_files]. }
  2: { intros w4 e [? ?]. by split_and!. }
  intros out4 w4 E4. apply (uh_reload h v (UciHost := H)) in E4 as ((Ec4 & ?) & ?). apply ends_Ret.
  split_and!; [|congruence|].
  - eapply etc_kept_trans; [exact K3|by apply etc_kept_files].
  - intros _ c Hc. rewrite Ec4, (Ec3 c Hd1 Hc). congruence.
Qed.

Lemma RevertTo_ends u snap w :
  configRoot u = "/etc" ->
  ends h (RevertTo u snap) w (fun w' r =>
    etc_kept w w' /\
    (is_ok r = true -> stagedIn v w' = ∅ /\
       forall c, archive (Payload snap) = Some c -> conf v w' = c ∪ conf v w)).
Proof.
  intros Hu. unfold RevertTo. destruct (nonempty (Payload snap)); cbn [negb]; [|by apply ends_Ret].
  eapply ends_try; [apply dropStaged_ends| |].
  2: { cbn beta. intros w1 e (? & ? & _). split; [by apply etc_kept_files|done]. }
  intros w1 a (Ec1 & Ef1 & Es1). specialize (Es1 eq_refl).
  apply (ends_file (CreateTemp _) (wrapping "revert: temp file: %w" [])). intros r2 w2 E2.
  apply (uh_temp h v (UciHost := H)) in E2 as ((Ec2 & Es2) & E2). destruct r2 as [f|e2]; cbn [wrapping].
  2: { split; [|done]. apply etc_kept_files. congruence. }
  destruct E2 as (Hf & Hn & E2).
  assert (etc_kept w w2) as K2.
  { intros q Hq. rewrite E2, Ef1, lookup_insert_ne; [done|]. intros ->. congruence. }
  eapply ends_seq; [apply (unpack_ends u snap f w2 Hu Hf); by rewrite E2, lookup_insert_eq|].
  cbn beta. intros w3 r (K3 & Es3 & Hr). apply ends_op. intros r4 w4 E4.
  apply (uh_remove h v (UciHost := H)) in E4 as ((Ec4 & Es4) & E4 & _); [|by apply outside_etc].
  apply ends_Ret. split.
  - intros q Hq. transitivity (files v w3 !! q); [|by rewrite K3, K2].
    destruct (is_ok r4); rewrite E4; [|done]. rewrite lookup_delete_ne; [done|]. intros ->. congruence.
  - intros Hok. split; [congruence|]. intros c Hc. rewrite Ec4, (Hr Hok c Hc). congruence.
Qed.

(** *** The snapshots on disk *)

(** [n] is the name of an archive in the snapshot directory. *)
Definition archived (u : uciApplier) (w : W) (n : string) : Prop :=
  HasPrefix "uci-" n = true /\ lacks "/" n = true /\ is_Some (files v w !! in_dir (snapshotDir u) n).

Lemma in_dir_inj d a b : in_dir d a = in_dir d b -> a = b.
Proof. unfold in_dir. by intros E%append_inj_l%append_inj_l. Qed.

(** Removing archives: the files named are gone when all went well, and only
    they may be. *)
Lemma removeOld_ends u ns w :
  (forall n, in_etc_config (in_dir (snapshotDir u) n) = false) ->
  ends h (removeOld u ns) w (fun w' r =>
    same_conf v w w' /\ (forall q, q ∉ in_dir (snapshotDir u) <$> ns -> files v w' !! q = files v w !! q) /\
    (is_ok r = true -> forall n, n ∈ ns -> files v w' !! in_dir (snapshotDir u) n = None)).
Proof.
  intros Hd. revert w. induction ns as [|n ns IH]; intros w; cbn [removeOld].
  { apply ends_Ret. split_and!; try done. intros _ n Hn. by apply not_elem_of_nil in Hn. }
  apply ends_op. intros r w1 E.
  apply (uh_remove h v (UciHost := H)) in E as ((Ec & Es) & E & _); [|by apply Hd].
  destruct r as [[]|e]; cbn in E; [|apply ends_Ret; unfold same_conf; split_and!; try done; intros q _; by rewrite E].
  eapply ends_mono; [apply IH|]. cbn beta. intros w2 r ((Ec2 & Es2) & Hq & Hr). split_and!.
  - split; congruence.
  - intros q Hn. rewrite fmap_cons, not_elem_of_cons in Hn. destruct Hn as [Hn1 Hn2].
    rewrite Hq by done. by rewrite E, lookup_delete_ne.
  - intros Hok m [->|Hm]%elem_of_cons; [|by apply Hr].
    destruct (decide (n ∈ ns)) as [Hin|Hin]; [by apply Hr|].
    rewrite Hq; [by rewrite E, lookup_delete_eq|]. intros (m & Em & Hm)%list_elem_of_fmap.
    apply in_dir_inj in Em. by subst.
Qed.

Lemma snapshotNames_elem es n :
  n ∈ snapshotNames es <-> (n, false) ∈ es /\ HasPrefix "uci-" n = true.
Proof.
  unfold snapshotNames. rewrite list_elem_of_omap. split.
  - intros ([m d] & Hin & Hm). destruct d; cbn [negb andb] in Hm; [done|].
    destruct (HasPrefix "uci-" m) eqn:E; [by simplify_eq|done].
  - intros [Hin Hp]. exists (n, false). split; [done|]. cbn [negb andb]. by rewrite Hp.
Qed.

Lemma snapshotNames_NoDup es : NoDup es.*1 -> NoDup (snapshotNames es).
Proof.
  induction es as [|[n d] es IH]; [constructor|]. rewrite fmap_cons, NoDup_cons. intros [Hn Hd].
  unfold snapshotNames. cbn [omap list_omap]. fold (snapshotNames es).
  destruct (negb d && HasPrefix "uci-" n) eqn:E; [|by apply IH].
  constructor; [|by apply IH]. intros [Hin _]%snapshotNames_elem. apply Hn, list_elem_of_fmap.
  by exists (n, false).
Qed.

(** Pruning leaves the archives with the last names, as many as are kept. *)
Lemma prune_ends u w :
  (forall n, in_etc_config (in_dir (snapshotDir u) n) = false) ->
  ends h (prune u) w (fun w' r =>
    same_conf v w w' /\
    (forall q, (forall n, HasPrefix "uci-" n = true -> q <> in_dir (snapshotDir u) n) -> files v w' !! q = files v w !! q) /\
    (is_ok r = true -> exists all, NoDup all /\ (forall n, n ∈ all <-> archived u w n) /\
       forall n, archived u w' n <-> n ∈ skipn (length all - keepSnapshots u) (sort_strings all))).
Proof.
  intros Hd. unfold prune.
  apply (ends_try h _ _ _ (fun w1 r => answer h (ReadDir (snapshotDir u)) w = (r, w1))).
  { apply (ends_ask h (ReadDir (snapshotDir u)) w (fun w1 r => answer h (ReadDir (snapshotDir u)) w = (r, w1))). auto. }
  2: { intros w1 e E. apply (uh_list h v (UciHost := H)) in E as (((Ec & Es) & Ef) & _).
       split_and!; [done..| |done]. intros q _. by rewrite Ef. }
  intros w1 es E. apply (uh_list h v (UciHost := H)) in E as (((Ec & Es) & Ef) & Hes).
  destruct (Hes es eq_refl) as [Hnd Hin]. clear Hes.
  assert (forall n, n ∈ snapshotNames es <-> archived u w n) as Hall.
  { intros n. rewrite snapshotNames_elem, Hin. unfold archived. tauto. }
  pose proof (snapshotNames_NoDup es Hnd) as Hnd'. set (ns := snapshotNames es) in *.
  destruct (decide (length ns <= keepSnapshots u)) as [Hle|Hgt].
  { apply ends_Ret. split_and!; [by split|intros q _; by rewrite Ef|]. intros _.
    exists ns. split_and!; [done|done|]. intros n. replace (length ns - keepSnapshots u) with 0 by lia.
    rewrite drop_0, sort_strings_elem, Hall. unfold archived. by rewrite Ef. }
  eapply ends_mono; [by apply removeOld_ends|]. cbn beta. intros w2 r ((Ec2 & Es2) & Hq & Hr).
  set (k := length ns - keepSnapshots u) in *.
  pose proof (take_drop k (sort_strings ns)) as Htd.
  assert (NoDup (take k (sort_strings ns) ++ skipn k (sort_strings ns))) as Hnd2
    by (rewrite Htd; by apply sort_strings_NoDup).
  apply NoDup_app in Hnd2 as (_ & Hdis & _).
  assert (forall n, n ∈ take k (sort_strings ns) \/ n ∈ skipn k (sort_strings ns) <-> archived u w n) as Hsplit.
  { intros n. rewrite <- Hall, <- (sort_strings_elem ns), <- elem_of_app, Htd. done. }
  split_and!; [split; congruence| |].
  - intros q Hn. rewrite Hq, Ef; [done|]. intros (m & -> & Hm)%list_elem_of_fmap.
    apply (Hn m); [|done]. apply (Hsplit m). by left.
  - intros Hok. exists ns. split_and!; [done|done|]. intros n. split.
    + intros (Hp & Hs & Hf). destruct (decide (n ∈ take k (sort_strings ns))) as [Hin'|Hin'].
      { rewrite (Hr Hok n Hin') in Hf. by destruct Hf. }
      assert (archived u w n) as [|]%Hsplit; [|done|done].
      split_and!; [done..|]. rewrite Hq, Ef in Hf; [done|].
      intros (m & Em & Hm)%list_elem_of_fmap. apply in_dir_inj in Em. by subst.
    + intros Hn. assert (archived u w n) as (Hp & Hs & Hf) by (apply Hsplit; by right).
      split_and!; [done..|]. rewrite Hq, Ef; [done|].
      intros (m & Em & Hm)%list_elem_of_fmap. apply in_dir_inj in Em. subst. by eapply Hdis.
Qed.

(** [q] is no file of the snapshot directory. *)
Definition elsewhere (u : uciApplier) (q : string) : Prop := forall n, q <> in_dir (snapshotDir u) n.

Lemma persist_ends u snap w :
  (forall n, in_etc_config (in_dir (snapshotDir u) n) = false) ->
  ends h (persist u snap) w (fun w' r =>
    same_conf v w w' /\ forall q, elsewhere u q -> files v w' !! q = files v w !! q).
Proof.
  intros Hd. unfold persist. destruct (nonempty (snapshotDir u)); cbn [negb]; [|by apply ends_Ret].
  apply ends_op. intros r1 w1 E1. apply (uh_mkdir h v (UciHost := H)) in E1 as (S1 & Ef1).
  destruct r1 as [[]|e]; [|apply ends_Ret; split; [done|intros q _; by rewrite Ef1]].
  destruct (unsafeId (ID snap)); [apply ends_Ret; split; [done|intros q _; by rewrite Ef1]|].
  apply ends_op. intros r2 w2 E2.
  apply (uh_write h v (UciHost := H)) in E2 as ((Ec2 & Es2) & Ef2 & _); [|apply Hd].
  destruct S1 as [Ec1 Es1].
  assert (forall q, elsewhere u q -> files v w2 !! q = files v w !! q) as K2
    by (intros q Hq; rewrite Ef2; [by rewrite Ef1|apply Hq]).
  destruct r2 as [[]|e]; [|apply ends_Ret; split; [split; congruence|done]].
  eapply ends_mono; [by apply prune_ends|]. cbn beta. intros w3 r ((Ec3 & Es3) & Ef3 & _).
  split; [split; congruence|]. intros q Hq. rewrite Ef3; [by apply K2|]. intros n _. apply Hq.
Qed.

Lemma digit_char_ascii d : (0 <= d < 10)%Z -> (code (digit_char d) <? 128)%Z = true.
Proof. intros Hd. rewrite digit_char_code by done. apply Z.ltb_lt. lia. Qed.

Lemma digits_ascii fuel n acc : ascii_text acc = true -> ascii_text (digits 10 digit_char fuel n acc) = true.
Proof.
  revert n acc. induction fuel as [|f IH]; intros n acc Ha; cbn [digits]; [done|].
  assert (ascii_text (String (digit_char (n mod 10)) acc) = true) as Hc.
  { unfold ascii_text in *. cbn [all_chars]. rewrite digit_char_ascii by (apply Z.mod_pos_bound; lia). done. }
  destruct (n <? 10)%Z; [done|]. by apply IH.
Qed.

Lemma Itoa_ascii z : ascii_text (Itoa z) = true.
Proof. unfold Itoa, udec. destruct (z <? 0)%Z; [|by apply digits_ascii].
  unfold ascii_text. cbn [all_chars]. by apply (digits_ascii _ _ "").
Qed.

Lemma ascii_text_app a b : ascii_text (a +:+ b) = ascii_text a && ascii_text b.
Proof.
  unfold ascii_text. induction a as [|x a IH]; [done|]. rewrite append_cons. cbn [all_chars].
  by rewrite IH, andb_assoc.
Qed.

Lemma pad2_ascii z : ascii_text (pad2 z) = true.
Proof. unfold pad2. destruct (z <? 10)%Z; [|apply Itoa_ascii]. apply (Itoa_ascii z). Qed.

Lemma Format_ascii t : ascii_text (Format t) = true.
Proof.
  unfold Format. repeat (case_match; try done). unfold pad4. rewrite !ascii_text_app, !pad2_ascii.
  by destruct (_ <? 1000)%Z, (_ <? 100)%Z.
Qed.

Lemma TakeSnapshot_ends u w :
  configRoot u = "/etc" -> configDir u = "config" ->
  (forall n, in_etc_config (in_dir (snapshotDir u) n) = false) ->
  ends h (TakeSnapshot u) w (fun w' r =>
    same_conf v w w' /\ (forall q, elsewhere u q -> files v w' !! q = files v w !! q) /\
    forall s, r = Ok s -> archive (Payload s) = Some (conf v w) /\ ascii_text (ID s) = true).
Proof.
  intros Hr Hc Hd. unfold TakeSnapshot. rewrite Hr, Hc.
  assert (forall w1, same v w w1 -> same_conf v w w1 /\ (forall q, elsewhere u q -> files v w1 !! q = files v w !! q)) as Hs
    by (intros w1 [? E]; split; [done|intros q _; by rewrite E]).
  eapply (ends_command _ "tar" _ _ _ (fun w1 => same v w w1)); [done|done| | |].
  { intros r w1 E. by apply (uh_pack h v (UciHost := H)) in E as [? _]. }
  2: { intros w1 e S. destruct (Hs w1 S). by split_and!. }
  intros p w1 E. apply (uh_pack h v (UciHost := H)) in E as [S1 Hp].
  destruct (nonempty p) eqn:En; cbn [negb].
  2: { destruct (Hs w1 S1). apply ends_Ret. by split_and!. }
  apply ends_op. intros t1 w2 E2. apply (uh_now h v (UciHost := H)) in E2.
  apply ends_op. intros t2 w3 E3. apply (uh_now h v (UciHost := H)) in E3.
  pose proof (same_trans _ _ _ S1 (same_trans _ _ _ E2 E3)) as [[Ec Es] Ef].
  eapply ends_seq; [by apply persist_ends|]. cbn beta. intros w4 _ ((Ec4 & Es4) & K4). apply ends_Ret.
  split_and!; [split; congruence| |].
  - intros q Hq. rewrite K4 by done. by rewrite Ef.
  - intros s [= <-]. split; [by apply Hp|]. cbn [ID]. unfold snapshotID. by rewrite ascii_text_app, Format_ascii.
Qed.

Lemma LoadSnapshot_ends u i w :
  ends h (LoadSnapshot u i) w (fun w' r =>
    same v w w' /\ forall s, r = Ok s -> files v w !! snapshotFile u i = Some (Payload s)).
Proof.
  unfold LoadSnapshot. destruct (unsafeId i); [by apply ends_Ret|].
  apply (ends_file (ReadFile _) (wrapping "load snapshot %s: %w" [i])). intros r w1 E.
  apply (uh_read h v (UciHost := H)) in E as (S & Hd & _). destruct r as [d|e]; cbn [wrapping]; [|done].
  destruct (nonempty d); cbn [negb]; apply ends_Ret; (split; [done|]); intros s [= <-]. cbn. auto.
Qed.

Lemma Commit_ends u w : ends h (Commit u) w (fun w' _ => files v w' = files v w).
Proof.
  unfold Commit. eapply (ends_command _ "uci" _ _ _ (fun w1 => files v w1 = files v w)); [done|done| | |done].
  { intros r w1 E. by apply (uh_commit h v (UciHost := H)) in E. }
  intros out w1 E. apply (uh_commit h v (UciHost := H)) in E.
  eapply (ends_command _ "/sbin/reload_config" _ _ _ (fun w1 => files v w1 = files v w)); [done|done| | |done];
    [intros r w2 E2|intros out2 w2 E2; apply ends_Ret];
    apply (uh_reload h v (UciHost := H)) in E2 as [_ E2]; congruence.
Qed.

(** *** The journal *)
Section Journal.
Context `{!RecordCodec} (j : applyJournal).
Hypothesis path_outside : in_etc_config (path j) = false.
Hypothesis tmp_outside : in_etc_config (path j +:+ ".tmp") = false.

(** What the journal's file says. *)
Definition recorded (data : option string) : option ApplyRecord :=
  match data with
  | Some d => match Unmarshal d with Ok r => Some r | Err _ => None end
  | None => None
  end.

Lemma tmp_ne_path : path j <> path j +:+ ".tmp".
Proof.
  intros E. apply (f_equal String.length) in E. rewrite append_length in E. cbn in E. lia.
Qed.

Lemma Save_ends rec w :
  ends h (Save j rec) w (fun w' r =>
    same_conf v w w' /\ (forall q, q <> path j -> q <> path j +:+ ".tmp" -> files v w' !! q = files v w !! q) /\
    (if is_ok r then exists d, Marshal rec = Ok d /\ files v w' !! path j = Some d
     else files v w' !! path j = files v w !! path j)).
Proof.
  unfold Save. apply (ends_file (MkdirAll _) (wrapping "journal dir: %w" [])). intros r1 w1 E1.
  apply (uh_mkdir h v (UciHost := H)) in E1 as ((Ec1 & Es1) & Ef1).
  destruct r1 as [[]|e]; cbn [wrapping]; [|cbn; split_and!; [done|intros; by rewrite Ef1|by rewrite Ef1]].
  unfold try_bind at 1. apply ends_bind, ends_Ret.
  destruct (Marshal rec) as [d|e] eqn:Em; cbn [wrapping].
  2: { apply ends_Ret. cbn. split_and!; [done|intros; by rewrite Ef1|by rewrite Ef1]. }
  apply (ends_file (WriteFile _ _) (wrapping "write pending apply: %w" [])). intros r2 w2 E2.
  apply (uh_write h v (UciHost := H)) in E2 as ((Ec2 & Es2) & Ef2 & Hd2); [|done].
  pose proof tmp_ne_path as Hne.
  assert (forall q, q <> path j +:+ ".tmp" -> files v w2 !! q = files v w !! q) as K2
    by (intros q Hq; by rewrite Ef2, Ef1).
  destruct r2 as [[]|e]; cbn [wrapping]; [|cbn; split_and!; [split; congruence|auto|auto]].
  specialize (Hd2 eq_refl).
  apply (ends_file (Rename _ _) (wrapping "commit pending apply: %w" [])). intros r3 w3 E3.
  apply (uh_rename h v (UciHost := H)) in E3 as ((Ec3 & Es3) & Ef3); [|done].
  destruct r3 as [[]|e]; cbn [wrapping is_ok] in *.
  2: { split_and!; [split; congruence|intros; rewrite Ef3; auto|rewrite Ef3; auto]. }
  apply ends_Ret. rewrite (Ef3 d Hd2). split_and!; [split; congruence| |].
  - intros q Hq Ht. rewrite lookup_insert_ne, lookup_delete_ne by done. auto.
  - cbn [is_ok]. exists d. by rewrite lookup_insert_eq.
Qed.

Lemma Load_ends w :
  ends h (Load j) w (fun w' r => same v w w' /\ forall o, r = Ok o -> o = recorded (files v w !! path j)).
Proof.
  unfold Load. apply ends_op. intros r w1 E.
  apply (uh_read h v (UciHost := H)) in E as (S & Hd & Hn).
  destruct r as [d|e].
  - rewrite (Hd d eq_refl). cbn [recorded]. destruct (Unmarshal d) as [rec|e]; [|by apply ends_Ret].
    destruct (nonempty (SnapshotID rec)); apply ends_Ret; (split; [done|]); by intros o [= <-].
  - destruct (decide (e = ErrNotExist)) as [->|]; apply ends_Ret; (split; [done|]); intros o Ho; [|done].
    rewrite Hn by done. by simplify_eq.
Qed.

Lemma Clear_ends w :
  ends h (Clear j) w (fun w' r =>
    same_conf v w w' /\ (forall q, q <> path j -> files v w' !! q = files v w !! q) /\
    (if is_ok r then files v w' !! path j = None else files v w' = files v w)).
Proof.
  unfold Clear. apply ends_op. intros r w1 E.
  apply (uh_remove h v (UciHost := H)) in E as (S & Hok & Hn); [|done].
  destruct r as [[]|e]; cbn [is_ok] in *.
  - apply ends_Ret. cbn [is_ok]. rewrite Hok. split_and!; [done| |by rewrite lookup_delete_eq].
    intros q Hq. by rewrite lookup_delete_ne.
  - destruct (decide (e = ErrNotExist)) as [->|]; apply ends_Ret; cbn [is_ok]; rewrite Hok;
      (split_and!; [done|done|]); auto.
Qed.
End Journal.
End Methods.
