(* ===== verification/Device.v ===== *)
(** * The apply transaction on a router

    internal/adapters/openwrt/uci.go and journal.go under internal/core/apply.go:
    on a router that behaves as documented ([UciHost]), the uci applier, its
    journal and its snapshots are the world the transaction assumes. A router in
    memory shows that the assumptions can hold. *)

From S2P Require Import Prelude GoStrings Apply ApplySpec Effects Network Uci Stage UciApplier UciApplierThms.

(** ** A transaction's world *)
Section World.
Context {W : Type} (h : router W) (v : HostViews W) (names : gset string)
  (archive : string -> option (gmap string string)) {H : UciHost h v names archive}.
Context `{!RecordCodec} (seams : Seams W).

Definition theJournal : applyJournal := mkApplyJournal "/etc/veilbridge/pending-apply.json".

(** The configuration files the router came with. *)
Definition restrict (c : gmap string string) : gmap string string := filter (fun e => e.1 ∈ names) c.

(** The payload [p] is an archive of the configuration [c]. *)
Definition holds (p : string) (c : gmap string string) : Prop :=
  exists a, archive p = Some a /\ names ⊆ dom a /\ restrict a = c.

Definition archived_config (p : string) : option (gmap string string) :=
  match archive p with
  | Some a => if decide (names ⊆ dom a) then Some (restrict a) else None
  | None => None
  end.

Definition device_views : Views W (gmap string string) := {|
  live w := restrict (conf v w);
  record w := recorded (files v w !! path theJournal);
  kept w i := p ← files v w !! snapshotFile newUCIApplier i; archived_config p;
  issued := given v;
  captures s c := holds (Payload s) c;
  texts t := ascii_text t = true |}.

(** The clock and the timers change nothing on the router, and a token is new,
    not empty and ASCII. *)
Class DeviceSeams := {
  ds_now w w' t : now seams w = (w', t) -> frame device_views w w';
  ds_token w w' t : newToken seams w = (w', t) ->
    live device_views w' = live device_views w /\ record device_views w' = record device_views w /\
    given v w' = t :: given v w /\ (t ∉ given v w) /\ t <> "" /\ ascii_text t = true;
  ds_after d t w : frame device_views w (afterFunc seams d t w);
  ds_stop t w : frame device_views w (stopTimer seams t w) }.

Lemma restrict_union a c : names ⊆ dom a -> restrict (a ∪ c) = restrict a.
Proof.
  intros Ha. apply map_eq. intros k. unfold restrict. rewrite !map_lookup_filter.
  destruct (decide (k ∈ names)) as [Hk|Hk].
  - assert (is_Some (a !! k)) as [x Hx] by (apply elem_of_dom; set_solver).
    by rewrite (lookup_union_Some_l _ _ _ _ Hx), Hx.
  - destruct ((a ∪ c) !! k), (a !! k); cbn; rewrite ?option_guard_False by done; done.
Qed.

Lemma snapshots_outside n : in_etc_config (in_dir (snapshotDir newUCIApplier) n) = false.
Proof. reflexivity. Qed.

Lemma journal_elsewhere : elsewhere newUCIApplier (path theJournal).
Proof. intros n. done. Qed.

Ltac views := cbn [device_views live record kept issued captures texts].

Ltac method E :=
  cbn [config_applier apply_journal snapshot_loader takeSnapshot commit revertTo save load clear loadSnapshot] in E.

(** What the methods do to the views. *)
Lemma run_frame {A} (p : prog A) w :
  conf v (after h p w) = conf v w ->
  files v (after h p w) !! path theJournal = files v w !! path theJournal ->
  frame device_views w (after h p w).
Proof.
  intros Hc Hf. unfold frame. cbn [device_views live record issued]. rewrite Hc. split_and!; [done| |apply (given_after h v names archive)].
  by rewrite Hf.
Qed.

Lemma holds_archived p c : archived_config p = Some c -> holds p c.
Proof. unfold archived_config, holds. intros E. repeat case_match; simplify_eq. eauto. Qed.

(** C19. The uci applier keeps every promise the apply transaction relies on:
    its snapshot captures the live configuration and changes nothing, a revert
    that reports success brings every configuration file back, its journal
    holds one record that is replaced or removed whole - a failed write leaves
    the old one - and a snapshot found on disk is the one that was kept. *)
Theorem device_is_a_transaction_world :
  DeviceSeams ->
  TransactionWorld device_views (config_applier h newUCIApplier) (apply_journal h theJournal)
    (snapshot_loader h newUCIApplier) seams.
Proof.
  intros DS. split.
  - intros w w' r E. method E. unfold run_on in E. injection E as <- <-.
    pose proof (TakeSnapshot_ends h v names archive newUCIApplier w eq_refl eq_refl snapshots_outside) as ((Ec & _) & Ef & Hs).
    split; [apply run_frame; [done|by apply Ef, journal_elsewhere]|].
    intros s Es. destruct (Hs s Es) as [Ha Ht]. split; [|done].
    exists (conf v w). split_and!; [done|apply (uh_names h v (UciHost := H))|done].
  - intros w w' e E. method E. unfold run_off in E. injection E as <- _.
    pose proof (Commit_ends h v names archive newUCIApplier w) as Ef. views. split; [by rewrite Ef|].
    apply (given_after h v names archive).
  - intros s w w' e E. method E. unfold run_off in E. injection E as <- <-.
    pose proof (RevertTo_ends h v names archive newUCIApplier s w eq_refl) as (Ek & Hr). views.
    split_and!; [by rewrite Ek|apply (given_after h v names archive)|].
    intros He c (a & Ha & Hn & <-).
    destruct (result h (RevertTo newUCIApplier s) w) as [[]|]; [|done].
    destruct (Hr eq_refl) as [_ Hc]. rewrite (Hc a Ha). by apply restrict_union.
  - intros r w w' e Hi Ht E. method E. unfold run_off in E. injection E as <- <-.
    pose proof (Save_ends h v names archive theJournal eq_refl eq_refl r w) as ((Ec & _) & _ & Hs). views.
    rewrite Ec. split_and!; [done|apply (given_after h v names archive)|].
    destruct (result h (Save theJournal r) w) as [[]|e]; cbn [failure is_ok] in *.
    + destruct Hs as (d & Hm & Hd). rewrite Hd. cbn [recorded]. by rewrite (Unmarshal_Marshal r d).
    + by rewrite Hs.
  - intros w w' r E. method E. unfold run_on in E. injection E as <- <-.
    pose proof (Load_ends h v names archive theJournal w) as (((Ec & _) & Ef) & Hl).
    split; [apply run_frame; [done|by rewrite Ef]|]. views. rewrite Ef. split; [done|exact Hl].
  - intros w w' e E. method E. unfold run_off in E. injection E as <- <-.
    pose proof (Clear_ends h v names archive theJournal eq_refl w) as ((Ec & _) & _ & Hs). views.
    rewrite Ec. split_and!; [done|apply (given_after h v names archive)|].
    destruct (result h (Clear theJournal) w) as [[]|e]; cbn [failure is_ok] in *; by rewrite Hs.
  - intros i w w' r E. method E. unfold run_on in E. injection E as <- <-.
    pose proof (LoadSnapshot_ends h v names archive newUCIApplier i w) as (((Ec & _) & Ef) & Hl).
    split; [apply run_frame; [done|by rewrite Ef]|].
    intros s c Hs Hk. change (kept device_views w i) with (p ← files v w !! snapshotFile newUCIApplier i; archived_config p) in Hk. rewrite (Hl s Hs) in Hk. by apply holds_archived.
  - apply ds_now.
  - intros w w' t E. by apply ds_token in E.
  - apply ds_after.
  - apply ds_stop.
Qed.
End World.

(** ** The claims *)
Section Claims.
Context {W : Type} (h : router W) (v : HostViews W) (names : gset string)
  (archive : string -> option (gmap string string)) {H : UciHost h v names archive}.

(** A revert leaves nothing of the change: when it reports success, no
    configuration has staged changes that a later commit would bring back, and
    every file of the snapshot has the content it had; files that are in no
    snapshot stay, and so do the journal and the snapshots themselves. *)
Theorem revert_leaves_nothing_of_the_change snap c w :
  archive (Payload snap) = Some c -> result h (RevertTo newUCIApplier snap) w = Ok tt ->
  let w' := after h (RevertTo newUCIApplier snap) w in
  stagedIn v w' = ∅ /\ conf v w' = c ∪ conf v w /\ etc_kept v w w'.
Proof.
  intros Hc Hr w'. pose proof (RevertTo_ends h v names archive newUCIApplier snap w eq_refl) as (Ek & Hok).
  rewrite Hr in Hok. destruct (Hok eq_refl) as [Hs Hconf]. split_and!; [done|by apply Hconf|done].
Qed.

(** The journal is never torn: wherever the writing of a record is cut
    short, its file holds what it held before or the complete new record. *)
Theorem journal_is_never_torn `{!RecordCodec} rec w w' :
  w' ∈ stops h (Save theJournal rec) w ->
  files v w' !! path theJournal = files v w !! path theJournal \/
  exists d, Marshal rec = Ok d /\ files v w' !! path theJournal = Some d.
Proof.
  revert w'. apply Forall_forall.
  change (throughout h (fun w' => files v w' !! path theJournal = files v w !! path theJournal \/
    exists d, Marshal rec = Ok d /\ files v w' !! path theJournal = Some d) (Save theJournal rec) w).
  unfold Save. apply (throughout_ask h _ (MkdirAll _) (wrapping "journal dir: %w" [])); [by left|].
  intros r1 w1 E1. apply (uh_mkdir h v (UciHost := H)) in E1 as (_ & Ef1). rewrite <- Ef1. clear Ef1.
  destruct r1 as [[]|e]; cbn [wrapping]; [|by left].
  destruct (Marshal rec) as [d|e] eqn:Em; cbn [wrapping]; [|apply throughout_Ret; by left].
  apply (throughout_ask h _ (WriteFile _ _) (wrapping "write pending apply: %w" [])); [by left|].
  intros r2 w2 E2. apply (uh_write h v (UciHost := H)) in E2 as (_ & Ef2 & Hd2); [|done].
  assert (files v w2 !! path theJournal = files v w1 !! path theJournal) as E by (by apply Ef2).
  rewrite <- E. destruct r2 as [[]|e]; cbn [wrapping]; [|by left]. specialize (Hd2 eq_refl).
  apply (throughout_ask h _ (Rename _ _) (wrapping "commit pending apply: %w" [])); [by left|].
  intros r3 w3 E3. apply (uh_rename h v (UciHost := H)) in E3 as (_ & Ef3); [|done].
  destruct r3 as [[]|e]; cbn [wrapping is_ok] in *.
  - apply throughout_Ret. right. exists d. split; [done|]. by rewrite (Ef3 d Hd2), lookup_insert_eq.
  - left. by rewrite Ef3.
Qed.

(** Pruning keeps the newest: when it reports success, the archives left in
    the snapshot directory are the last ones by name, as many as are kept, and
    no other file has changed. *)
Theorem prune_keeps_the_newest w :
  result h (prune newUCIApplier) w = Ok tt ->
  let w' := after h (prune newUCIApplier) w in
  (exists all, NoDup all /\ (forall n, n ∈ all <-> archived v newUCIApplier w n) /\
     forall n, archived v newUCIApplier w' n <-> n ∈ skipn (length all - 5) (sort_strings all)) /\
  (forall q, elsewhere newUCIApplier q -> files v w' !! q = files v w !! q).
Proof.
  intros Hr w'. pose proof (prune_ends h v names archive newUCIApplier w snapshots_outside) as (_ & Hf & Hok).
  rewrite Hr in Hok. split; [by apply Hok|]. intros q Hq. apply Hf. intros n _. apply Hq.
Qed.
End Claims.

(** Calls that touch only archives of the snapshot directory: [n] is one
    component of a path, and neither the directory nor its parent. *)
Definition file_name (n : string) : bool := lacks "/" n && negb (contains ["."; ".."; ""] n).

Definition inside (u : uciApplier) (o : op) : Prop :=
  match o with
  | WriteFile f _ | ReadFile f => exists n, f = in_dir (snapshotDir u) n /\ file_name n = true
  | Remove f => exists n, f = in_dir (snapshotDir u) n /\ HasPrefix "uci-" n = true
  | MkdirAll d | ReadDir d => d = snapshotDir u
  | _ => False
  end.

Lemma safe_file_name i : unsafeId i = false -> file_name (i +:+ ".tar.gz") = true.
Proof.
  unfold unsafeId, ContainsAny, file_name. intros Hu. bool_to_prop. apply andb_true_iff. split.
  - rewrite lacks_app. apply andb_true_iff. split; [|done].
    match goal with Hs : some_char _ i = false |- _ => revert Hs end. clear. intros Hs.
    induction i as [|x i IH]; [done|]. cbn [some_char] in Hs. bool_to_prop.
    rewrite lacks_cons, IH, andb_true_r by done. apply bool_decide_eq_true. intros ->. done.
  - apply negb_true_iff, contains_false. intros Hin.
    assert (String.length (i +:+ ".tar.gz") <= 2) as Hl
      by (rewrite !elem_of_cons in Hin; destruct Hin as [->|[->|[->|?%not_elem_of_nil]]]; cbn; [lia..|done]).
    rewrite append_length in Hl. cbn in Hl. lia.
Qed.

Lemma removeOld_inside u ns :
  Forall (fun n => HasPrefix "uci-" n = true) ns -> calls (inside u) (removeOld u ns).
Proof.
  induction 1 as [|n ns Hn _ IH]; cbn [removeOld]; [done|]. apply calls_bind; [|by intros [[]|e]].
  split; [|done]. cbn. eauto.
Qed.

(** Whatever a snapshot is called - the name in the journal's file
    included, which anything may have written - keeping it, pruning and loading
    touch the snapshot directory and files in it, and run no command. *)
Theorem snapshots_stay_in_their_directory (u : uciApplier) (snap : Snapshot) (i : string) :
  calls (inside u) (persist u snap) /\ calls (inside u) (LoadSnapshot u i).
Proof.
  split.
  - unfold persist. destruct (negb (nonempty (snapshotDir u))); [done|].
    apply calls_try; [by cbn|]. intros _. destruct (unsafeId (ID snap)) eqn:E; [done|].
    apply calls_try; [cbn; split; [|done]; exists (ID snap +:+ ".tar.gz"); auto using safe_file_name|].
    intros _. unfold prune. apply calls_try; [by cbn|]. intros es. destruct (decide _); [done|].
    apply removeOld_inside, Forall_forall. intros m Hm. apply elem_of_take in Hm as (k & Hk & _).
    apply list_elem_of_lookup_2, sort_strings_elem, snapshotNames_elem in Hk. by destruct Hk.
  - unfold LoadSnapshot. destruct (unsafeId i) eqn:E; [done|].
    apply calls_try; [|intros d; by destruct (negb (nonempty d))].
    apply calls_bind; [|done]. cbn. split; [|done]. exists (i +:+ ".tar.gz"). auto using safe_file_name.
Qed.
