(* ===== verification/DeviceMem.v ===== *)
(** * A router in memory

    The assumptions of Device.v hold in a router whose files, configuration and
    draft are kept in memory; the witnesses of that file's theorems run in it,
    and so does what a clock that steps back does to the snapshots. *)

From S2P Require Import Prelude GoStrings Apply ApplySpec Effects Network Uci Stage UciApplier UciApplierThms Device.

(** ** Archives as text: the bits of an encoding *)

Fixpoint bits (p : positive) : string :=
  match p with
  | xH => "1"
  | xO p => String "0" (bits p)
  | xI p => String "1" (bits p)
  end.

Fixpoint unbits (s : string) : option positive :=
  match s with
  | "1" => Some xH
  | String "0" r => xO <$> unbits r
  | String "1" r => xI <$> unbits r
  | _ => None
  end.

Lemma bits_nonempty p : nonempty (bits p) = true.
Proof. by destruct p. Qed.

Lemma unbits_bits p : unbits (bits p) = Some p.
Proof.
  induction p as [p IH|p IH|]; cbn; [|by rewrite IH|done].
  pose proof (bits_nonempty p). destruct (bits p) eqn:E; [done|]. by rewrite IH.
Qed.

Definition pack (c : gmap string string) : string := bits (encode c).
Definition unpacked (p : string) : option (gmap string string) := n ← unbits p; decode n.

Lemma unpacked_pack c : unpacked (pack c) = Some c.
Proof. unfold unpacked, pack. rewrite unbits_bits. cbn. apply decode_encode. Qed.

(** ** The router *)

Record World := mkWorld {
  mConf : gmap string string;
  mStaged : gset string;
  mFiles : gmap string string;
  mGiven : list string;
  mNow : Z }.

Definition system_files : gset string := {["network"; "wireless"]}.

(** Every configuration file of the system is there, if only empty. *)
Definition conf_of (w : World) : gmap string string := mConf w ∪ gset_to_gmap "" system_files.
Definition staged_of (w : World) : gset string := filter (fun c => package_name c = true) (mStaged w).

Definition views : HostViews World := mkHost World conf_of staged_of mFiles mGiven.

Definition with_conf (c : gmap string string) (w : World) : World :=
  mkWorld c (mStaged w) (mFiles w) (mGiven w) (mNow w).
Definition with_staged (s : gset string) (w : World) : World :=
  mkWorld (mConf w) s (mFiles w) (mGiven w) (mNow w).
Definition with_files (f : gmap string string) (w : World) : World :=
  mkWorld (mConf w) (mStaged w) f (mGiven w) (mNow w).
Definition with_now (t : Z) (w : World) : World :=
  mkWorld (mConf w) (mStaged w) (mFiles w) (mGiven w) t.

Definition refused {A} : res A := Err (Errorf "refused" []).

Definition changes_line (c : string) : string := c +:+ ".x='1'".

Definition run_command (argv : list string) (w : World) : res string * World :=
  match argv with
  | ["tar"; "czf"; "-"; "-C"; "/etc"; "config"] => (Ok (pack (conf_of w)), w)
  | ["tar"; "xzf"; f; "-C"; "/etc"] =>
      match mFiles w !! f ≫= unpacked with
      | Some c => (Ok "", with_conf (c ∪ conf_of w) w)
      | None => (refused, w)
      end
  | ["uci"; "commit"] =>
      (Ok "", with_conf (gset_to_gmap "changed" (mStaged w) ∪ conf_of w) (with_staged ∅ w))
  | ["uci"; "changes"] =>
      (Ok (Join "" ((fun l => l +:+ String "010" "") <$> (changes_line <$> elements (staged_of w)))), w)
  | ["uci"; "revert"; c] => (Ok "", with_staged (mStaged w ∖ {[c]}) w)
  | ["/sbin/reload_config"] => (Ok "", w)
  | _ => (refused, w)
  end.

(** The name of [f] in the directory [d], when it is a file of it. *)
Definition entry_name (d f : string) : option string :=
  let dir := d +:+ "/" in
  if HasPrefix dir f && lacks "/" (drop (String.length dir) f) then Some (drop (String.length dir) f) else None.

Definition entries (d : string) (files : gmap string string) : list string :=
  elements (list_to_set (omap (entry_name d) (elements (dom files))) : gset string).

Definition temp_name : string := "/tmp/veilbridge-revert-1.tar.gz".

Definition in_memory : router World :=
  mkRouter World (fun o w =>
    match o return ans o * World with
    | Exec argv => run_command argv w
    | ReadFile f => (match mFiles w !! f with Some d => Ok d | None => Err ErrNotExist end, w)
    | MkdirAll _ => (Ok tt, w)
    | WriteFile f d => (Ok tt, with_files (<[f := d]> (mFiles w)) w)
    | Rename a b =>
        match mFiles w !! a with
        | Some d => (Ok tt, with_files (<[b := d]> (delete a (mFiles w))) w)
        | None => (refused, w)
        end
    | Remove f =>
        match mFiles w !! f with
        | Some _ => (Ok tt, with_files (delete f (mFiles w)) w)
        | None => (Err ErrNotExist, w)
        end
    | ReadDir d => (Ok ((fun n => (n, false)) <$> entries d (mFiles w)), w)
    | CreateTemp _ =>
        match mFiles w !! temp_name with
        | Some _ => (refused, w)
        | None => (Ok temp_name, with_files (<[temp_name := ""]> (mFiles w)) w)
        end
    | WriteTemp f d => (Ok tt, with_files (<[f := d]> (mFiles w)) w)
    | CloseTemp _ => (Ok tt, w)
    | Now => (mNow w, w)
    | o => (refuse o, w)
    end).

(** ** It keeps the laws *)

Lemma HasPrefix_split a s : HasPrefix a s = true -> s = a +:+ drop (String.length a) s.
Proof.
  revert s. induction a as [|x a IH]; intros s Hp; [by destruct s|]. destruct s as [|y s]; [done|].
  cbn [HasPrefix] in Hp. bool_to_prop. subst. rewrite append_cons. cbn [String.length drop]. f_equal. by apply IH.
Qed.

Lemma entries_elem d files n : n ∈ entries d files <-> lacks "/" n = true /\ is_Some (files !! in_dir d n).
Proof.
  unfold entries. rewrite elem_of_elements, elem_of_list_to_set, list_elem_of_omap. unfold entry_name. split.
  - intros (f & Hf & Hn). apply elem_of_elements, elem_of_dom in Hf.
    destruct (HasPrefix (d +:+ "/") f) eqn:E; cbn [andb] in Hn; [|done].
    destruct (lacks "/" _) eqn:El; [|done]. simplify_eq. split; [done|].
    unfold in_dir. rewrite append_assoc, <- HasPrefix_split by done. done.
  - intros [Hl Hs]. exists (in_dir d n). split; [by apply elem_of_elements, elem_of_dom|].
    unfold in_dir. by rewrite append_assoc, HasPrefix_app, drop_app, Hl.
Qed.

Lemma package_newline c : package_name c = true -> lacks "010" (changes_line c) = true.
Proof.
  unfold package_name, changes_line. intros Hc. bool_to_prop. rewrite lacks_app, andb_true_r.
  eapply all_chars_mono; [|done]. intros x Hx. cbn in Hx. bool_to_prop. apply bool_decide_eq_true. by intros ->.
Qed.

Lemma staged_elem w c : c ∈ staged_of w <-> package_name c = true /\ c ∈ mStaged w.
Proof. unfold staged_of. by rewrite elem_of_filter. Qed.

Lemma changes_listed w c : c ∈ staged_of w ->
  package_name c = true /\ exists line,
    line ∈ Split "010" (Join "" ((fun l => l +:+ String "010" "") <$> (changes_line <$> elements (staged_of w)))) /\
    names_package c line.
Proof.
  intros Hc. assert (package_name c = true) as Hp by (by apply staged_elem in Hc as [? _]).
  split; [done|]. exists (changes_line c). split.
  - rewrite Split_ended.
    + apply elem_of_app. left. apply list_elem_of_fmap. exists c. split; [done|]. by apply elem_of_elements.
    + apply Forall_fmap, Forall_forall. intros d Hd. apply elem_of_elements, staged_elem in Hd as [Hd _].
      by apply package_newline.
  - exists "x='1'". by left.
Qed.

Lemma conf_of_union c w : conf_of (with_conf (c ∪ conf_of w) w) = c ∪ conf_of w.
Proof.
  unfold conf_of. cbn [with_conf mConf].
  by rewrite <- (assoc_L (∪) c), <- (assoc_L (∪) (mConf w)), (idemp_L (∪)).
Qed.

Lemma staged_dropped c w : (c ∉ staged_of (with_staged (mStaged w ∖ {[c]}) w)) /\
  staged_of (with_staged (mStaged w ∖ {[c]}) w) ⊆ staged_of w.
Proof. unfold staged_of. cbn. set_solver. Qed.

(** A call that was answered: what it was answered, and what it left. *)
Ltac answered :=
  intros; cbn [in_memory answer run_command] in *;
  repeat case_match; try match goal with E : (_, _) = (_, _) |- _ => injection E as <- <- end; unfold same, same_conf, views; cbn [conf stagedIn files given];
  try done; try (split_and!; done).

#[export] Instance in_memory_host : UciHost in_memory views system_files unpacked.
Proof.
  split.
  - intros w k Hk. apply elem_of_dom. cbn. unfold conf_of. rewrite lookup_union.
    assert ((gset_to_gmap "" system_files !! k) = Some "") as -> by (by apply lookup_gset_to_gmap_Some).
    destruct (mConf w !! k); cbn; eauto.
  - intros o w. destruct o; cbn [in_memory answer]; try done; try (by case_match).
    unfold run_command. by repeat case_match.
  - answered. split; [done|]. intros p [= <-] _. apply unpacked_pack.
  - intros f w w' r. cbn [in_memory answer run_command]. destruct (mFiles w !! f ≫= unpacked) as [c|] eqn:E;
      intros [= <- <-]; (split_and!; [done..|]); [|done]. intros _ p c' Hp Hc'.
    cbn in Hp. rewrite Hp in E. cbn in E. simplify_eq. apply conf_of_union.
  - answered.
  - answered.
  - intros w w' r. cbn [in_memory answer run_command]. intros [= <- <-]. split; [done|].
    intros out c [= <-]. apply changes_listed.
  - intros c w w' r. cbn [in_memory answer run_command]. intros [= <- <-].
    destruct (staged_dropped c w). by split_and!.
  - answered.
  - answered.
  - answered. cbn [with_files mFiles]. split_and!; [done..| |]; intros; [by rewrite lookup_insert_ne|by rewrite lookup_insert_eq].
  - answered. split; [done|]. cbn. intros x Hx. by simplify_eq.
  - answered.
  - answered; (split; [done|]); split; intros; by simplify_eq.
  - intros d w w' r. cbn [in_memory answer]. intros [= <- <-]. split; [done|]. intros es [= <-].
    rewrite <- list_fmap_compose. unfold compose. cbn. rewrite list_fmap_id. split; [apply NoDup_elements|].
    intros n. rewrite list_elem_of_fmap. rewrite <- entries_elem. split; [|by exists n].
    by intros (m & [= ->] & Hm).
  - answered.
  - answered. cbn [with_files mFiles]. split_and!; [done..| |]; intros; [by rewrite lookup_insert_ne|by rewrite lookup_insert_eq].
  - answered.
Qed.

(** ** A codec, a clock and tokens *)

#[export] Program Instance bits_codec : RecordCodec := {|
  Marshal r := Ok (bits (encode (SnapshotID r, Token r, Deadline r)));
  Unmarshal d :=
    match (p ← unbits d; decode p) : option (string * string * Z) with
    | Some (i, t, n) => Ok (mkRecord i t n)
    | None => refused
    end |}.
Next Obligation.
  intros r d _ _ [= <-]. rewrite unbits_bits. cbn [option_bind mbind]. rewrite decode_encode. by destruct r.
Qed.

Fixpoint long (n : nat) : string := match n with O => "" | S n => String "x" (long n) end.
Definition next_token (l : list string) : string := "t" +:+ long (sum_list_with String.length l).

Definition memory_seams : Seams World := {|
  now w := (w, mNow w);
  newToken w := let t := next_token (mGiven w) in
    (mkWorld (mConf w) (mStaged w) (mFiles w) (t :: mGiven w) (mNow w), t);
  afterFunc _ _ w := w;
  stopTimer _ w := w |}.

Lemma long_size n : String.length (long n) = n.
Proof. induction n; cbn; auto. Qed.

Lemma long_is_ascii n : ascii_text (long n) = true.
Proof. unfold ascii_text. induction n; cbn [long all_chars]; [done|]. by rewrite IHn. Qed.

Lemma next_token_fresh l : next_token l ∉ l.
Proof.
  intros Hin. assert (String.length (next_token l) <= sum_list_with String.length l) as Hl.
  { revert Hin. generalize (next_token l). intros t. induction 1 as [|? ? ? ? IH]; cbn; lia. }
  unfold next_token in Hl. rewrite append_length, long_size in Hl. cbn in Hl. lia.
Qed.

#[export] Instance memory_device_seams : DeviceSeams views system_files unpacked memory_seams.
Proof.
  split; unfold frame; cbn [now newToken afterFunc stopTimer memory_seams]; intros; simplify_eq; try done.
  split_and!; try done; [apply next_token_fresh|]. unfold next_token. by rewrite ascii_text_app, long_is_ascii.
Qed.

(** ** Witnesses *)

Lemma device_is_a_transaction_world_witness :
  TransactionWorld (device_views views system_files unpacked) (config_applier in_memory newUCIApplier)
    (apply_journal in_memory theJournal) (snapshot_loader in_memory newUCIApplier) memory_seams.
Proof. apply (device_is_a_transaction_world in_memory views system_files unpacked memory_seams). apply memory_device_seams. Defined.

Definition before_change : gmap string string := {["network" := "old"; "wireless" := "w"]}.
Definition changed_world : World :=
  mkWorld {["network" := "changed"; "wireless" := "w"; "extra" := "e"]} {["network"; "firewall"]} ∅ [] 0.

Lemma revert_leaves_nothing_of_the_change_witness :
  let snap := mkSnapshot "uci-1" 0 (pack before_change) in
  let w' := after in_memory (RevertTo newUCIApplier snap) changed_world in
  conf_of w' !! "network" = Some "old" /\
  stagedIn views w' = ∅ /\ conf views w' = before_change ∪ conf views changed_world /\
  etc_kept views changed_world w'.
Proof.
  intros snap w'. split; [vm_compute; reflexivity|].
  apply (revert_leaves_nothing_of_the_change in_memory views system_files unpacked snap before_change changed_world).
  - apply unpacked_pack.
  - vm_compute. reflexivity.
Defined.

Definition a_record : ApplyRecord := mkRecord "uci-2" "token" 7.

Lemma journal_is_never_torn_witness :
  Forall (fun w' => files views w' !! path theJournal = files views changed_world !! path theJournal \/
    exists d, Marshal a_record = Ok d /\ files views w' !! path theJournal = Some d)
  (stops in_memory (Save theJournal a_record) changed_world).
Proof.
  apply Forall_forall. intros w' Hw.
  apply (journal_is_never_torn in_memory views system_files unpacked a_record changed_world w' Hw).
Defined.

(** Six archives, of which five are kept. *)
Definition archive_file (i : string) : string := snapshotFile newUCIApplier i.
Definition six_archives : gmap string string :=
  list_to_map ((fun i => (archive_file i, "1")) <$>
    ["uci-20260101T000003Z"; "uci-20260101T000001Z"; "uci-20260101T000006Z"; "uci-20260101T000004Z";
     "uci-20260101T000002Z"; "uci-20260101T000005Z"]).
Definition full_world : World := mkWorld ∅ ∅ six_archives [] 0.

Lemma prune_keeps_the_newest_witness :
  let w' := after in_memory (prune newUCIApplier) full_world in
  mFiles w' !! archive_file "uci-20260101T000001Z" = None /\
  (exists all, NoDup all /\ (forall n, n ∈ all <-> archived views newUCIApplier full_world n) /\
     forall n, archived views newUCIApplier w' n <-> n ∈ skipn (length all - 5) (sort_strings all)) /\
  (forall q, elsewhere newUCIApplier q -> files views w' !! q = files views full_world !! q).
Proof.
  intros w'. split; [vm_compute; reflexivity|].
  apply (prune_keeps_the_newest in_memory views system_files unpacked full_world). vm_compute. reflexivity.
Defined.

(** A clock that stepped back - a router has none that runs without power -
    stamps the newest snapshot with the oldest name: pruning removes the very
    archive it was called to make room for, and nobody is told. *)
Theorem snapshot_after_clock_step_is_pruned :
  let w := with_now 1 full_world in
  let s := match result in_memory (TakeSnapshot newUCIApplier) w with Ok s => s | Err _ => noSnapshot end in
  let w' := after in_memory (TakeSnapshot newUCIApplier) w in
  ID s = "uci-19700101T000001Z" /\ nonempty (Payload s) = true /\
  mFiles w' !! archive_file (ID s) = None /\
  exists e, result in_memory (LoadSnapshot newUCIApplier (ID s)) w' = Err e.
Proof. vm_compute. split_and!; [reflexivity..|by eexists]. Qed.
