(* ===== verification/FirewallRules.v ===== *)
(** * Traffic rules: internal/adapters/openwrt/firewall_rules.go

    Adding, editing, moving and removing the owner's rules, and the check that
    a rule is not put where it could never act. *)

From S2P Require Import Prelude GoStrings GoNet Effects Network Uci Firewall Stage Lan FirewallWrite.

(** [core.FirewallRuleConfig]. *)
Record FirewallRuleConfig := mkRuleConfig {
  cID : string; cName : string; cEnabled : bool; cFrom : string; cTo : string;
  cProtocols : list string; cPorts : string; cAction : string; cFamily : string; cBefore : string }.

Definition ruleTargets (action : string) : option string :=
  if decide (action = ActionAccept) then Some "ACCEPT"
  else if decide (action = ActionReject) then Some "REJECT"
  else if decide (action = ActionDrop) then Some "DROP" else None.

(** [ruleTargets[action]] of a map: empty when it is not there. *)
Definition targetOf (action : string) : string := default "" (ruleTargets action).

(** ** Protocols and ports *)

Fixpoint rule_seen (l : list string) (seen : gset string) : res (gset string) :=
  match l with
  | [] => Ok seen
  | p :: l =>
      let p := ToLower (TrimSpace p) in
      if contains ["tcp"; "udp"; "icmp"; "all"] p then rule_seen l ({[p]} ∪ seen)
      else Err (Errorf "openwrt: %q is not a protocol the panel can write a rule for" [p])
  end.

Definition ruleProtocols (l : list string) : res (list string) :=
  let? seen := rule_seen l ∅ in
  if has seen "all" then
    if decide (1 < size seen) then Err (Errorf ("openwrt: " +:+ Quote "all" +:+ " already includes every protocol") [])
    else Ok ["all"]
  else
    match filter (fun p => has seen p = true) ["tcp"; "udp"; "icmp"] with
    | [] => Err (Errorf "openwrt: choose at least one protocol" [])
    | out => Ok out
    end.

Definition portsApply (protos : list string) : bool :=
  forallb (fun p => contains ["tcp"; "udp"] p) protos && negb (bool_decide (protos = [])).

Definition port_sep (c : ascii) : bool :=
  bool_decide (c = " "%char) || bool_decide (c = ","%char) || bool_decide (c = "009"%char).

Definition parsePortList (v : string) : option (string * list (Z * Z)) :=
  let items := FieldsByte port_sep v in
  if decide (items = [] \/ 32 < length items) then None else
  match mapM parsePorts items with
  | None => None
  | Some ranges => Some (Join " " items, ranges)
  end.

Definition in_range (p : Z) (r : Z * Z) : bool := (r.1 <=? p)%Z && (p <=? r.2)%Z.

(** Every port from [p] on, [fuel] of them. *)
Fixpoint range_from (p : Z) (fuel : nat) (ranges : list (Z * Z)) : bool :=
  match fuel with
  | O => true
  | S fuel => existsb (in_range p) ranges && range_from (p + 1) fuel ranges
  end.

Definition rangeCovered (n : Z * Z) (ranges : list (Z * Z)) : bool :=
  range_from n.1 (Z.to_nat (n.2 - n.1 + 1)) ranges.

(** ** The requested rule, checked *)

Definition zone_ok (zone : string) : bool := negb (nonempty zone) || String.eqb zone "*" || sectionNameRe zone.

(** The two zones are kept in a Go map while they are checked: [toFirst] says
    which of them this run looks at first. *)
Definition check_zones (toFirst : bool) (from to : string) : res unit :=
  let check field zone :=
    if zone_ok zone then Ok tt else Refuse field (Errorf "openwrt: %q is not a zone name" [zone]) in
  if toFirst then let? _ := check "to" to in check "from" from
  else let? _ := check "from" from in check "to" to.

Definition normalizePorts (protos : list string) (ports : string) : res string :=
  if negb (nonempty (TrimSpace ports)) then Ok "" else
  if negb (portsApply protos)
  then Refuse "ports" (Errorf "openwrt: ports only mean something for TCP and UDP" []) else
  match parsePortList ports with
  | None => Refuse "ports" (Errorf "openwrt: %q is not a port, a range, or a list of them" [ports])
  | Some (ports, _) => Ok ports
  end.

Definition normalizeRule (toFirst : bool) (cfg : FirewallRuleConfig) : res FirewallRuleConfig :=
  let name := TrimSpace (cName cfg) in
  if bad_name name
  then Refuse "name" (Errorf "openwrt: a name cannot contain quotes, backslashes or line breaks" []) else
  let from := TrimSpace (cFrom cfg) in
  if negb (nonempty from)
  then Refuse "from" (Errorf "openwrt: say which zone the traffic comes from" []) else
  let to := TrimSpace (cTo cfg) in
  let? _ := check_zones toFirst from to in
  let? protos := RefuseRes "protocols" (ruleProtocols (cProtocols cfg)) in
  let? ports := normalizePorts protos (cPorts cfg) in
  let action := ToLower (TrimSpace (cAction cfg)) in
  if bool_decide (ruleTargets action = None)
  then Refuse "action" (Errorf "openwrt: %q is not an action; use accept, reject or drop" [cAction cfg]) else
  let family := ToLower (TrimSpace (cFamily cfg)) in
  if negb (contains [""; "ipv4"; "ipv6"] family)
  then Refuse "family" (Errorf "openwrt: %q is not ipv4 or ipv6" [cFamily cfg]) else
  Ok (mkRuleConfig (cID cfg) name (cEnabled cfg) from to protos ports action family (cBefore cfg)).

(** ** Rules that can never act *)

(** Whether rule [r] matches every packet the requested rule would. *)
Definition covers (r : FirewallRule) (want : FirewallRuleConfig) : bool :=
  if negb (String.eqb (rFrom r) (cFrom want)) && negb (String.eqb (rFrom r) "*") then false else
  if negb (String.eqb (rTo r) (cTo want)) && (negb (String.eqb (rTo r) "*") || negb (nonempty (cTo want)))
  then false else
  if nonempty (rFamily r) && negb (String.eqb (rFamily r) "any") && negb (String.eqb (rFamily r) (cFamily want))
  then false else
  if negb (contains (rProtocols r) "all") &&
     (contains (cProtocols want) "all" || negb (forallb (contains (rProtocols r)) (cProtocols want)))
  then false else
  if negb (nonempty (rPorts r)) then true else
  if negb (nonempty (cPorts want)) || negb (portsApply (cProtocols want)) then false else
  match parsePortList (rPorts r) with
  | None => false
  | Some (_, have) =>
      let need := match parsePortList (cPorts want) with Some (_, need) => need | None => [] end in
      forallb (fun n => rangeCovered n have) need
  end.

(** Whether an earlier rule is one that could silence [want]: on, fully
    understood, and deciding the other way. *)
Definition opposes (r : FirewallRule) (want : FirewallRuleConfig) : bool :=
  rEnabled r && bool_decide (rUnsupported r = []) && negb (String.eqb (rAction r) ActionOther) &&
  negb (Bool.eqb (String.eqb (rAction r) ActionAccept) (String.eqb (cAction want) ActionAccept)).

Definition shadowedBy (earlier : list FirewallRule) (want : FirewallRuleConfig) : option FirewallRule :=
  if negb (cEnabled want) then None else find_first (fun r => opposes r want && covers r want) earlier.

(** ** Comparing and naming *)

Definition sameButEnabled (have : FirewallRule) (want : FirewallRuleConfig) : bool :=
  match ruleProtocols (rProtocols have) with
  | Err _ => false
  | Ok haveProtos =>
      let havePorts := match parsePortList (rPorts have) with
                       | Some (p, _) => if nonempty (rPorts have) then p else rPorts have
                       | None => rPorts have end in
      String.eqb (rName have) (cName want) && String.eqb (rFrom have) (cFrom want) &&
      String.eqb (rTo have) (cTo want) && bool_decide (haveProtos = cProtocols want) &&
      String.eqb havePorts (cPorts want) && String.eqb (rAction have) (cAction want) &&
      String.eqb (TrimPrefix "any" (rFamily have)) (cFamily want)
  end.

Definition ruleIndex (fw : FirewallStatus) (rid : string) : option nat :=
  index_of (fun r => String.eqb (rID r) rid) (Rules fw).

Definition sectionPosition (sid : string) : prog (res nat) :=
  out <- exec_cmd ["uci"; "-q"; "show"; "firewall"] ;;
  Ret (match out with
       | Err e => Err (Wrapf "openwrt: read the firewall: %w" [] e)
       | Ok out =>
           match index_of (fun s => String.eqb (id s) sid) (parseUCISections out) with
           | Some i => Ok i
           | None => Refuse "before" (Errorf "openwrt: no rule %q on this device" [sid])
           end
       end).

Definition ruleName (r : FirewallRule) : string := if nonempty (rName r) then Quote (rName r) else rID r.

Definition errSystemRule (r : FirewallRule) : err :=
  Errorf "openwrt: rule %s ships with the firewall and is shown read-only" [ruleName r].

Definition ruleWords (src dest proto ports family : string) : string :=
  let where_ := if nonempty dest then src +:+ " → " +:+ dest else src in
  let p := protocols proto in
  let what :=
    if bool_decide (p = ["all"]) then [] else
    [Join "+" p +:+ (if nonempty ports then " " +:+ Join ", " (Fields ports) else "")] in
  let fam := if decide (family = "ipv4") then ["IPv4"] else if decide (family = "ipv6") then ["IPv6"] else [] in
  Join " · " (where_ :: what ++ fam).

(** What a rule on the device is called in the apply bar. *)
Definition ruleSubject (r : FirewallRule) : string :=
  entrySubject (rName r) (ruleWords (rFrom r) (rTo r) (Join " " (rProtocols r)) (rPorts r) (rFamily r)).

Definition ruleAsConfig (r : FirewallRule) : option FirewallRuleConfig :=
  if bool_decide (ruleTargets (rAction r) = None) then None else
  match ruleProtocols (rProtocols r) with
  | Err _ => None
  | Ok protos =>
      let config ports := Some (mkRuleConfig "" (rName r) (rEnabled r) (rFrom r) (rTo r) protos ports (rAction r)
                            (if decide (rFamily r = "any") then "" else rFamily r) "") in
      if negb (nonempty (rPorts r)) then config "" else
      match parsePortList (rPorts r) with Some (p, _) => config p | None => None end
  end.

(** ** StageRule *)

Definition ruleLabel (option : string) : phrase := describe "firewall" roleRule option.

(** [wanSetting{key, value, remove: value == ""}]. *)
Definition ruleSetting (option value sameAsAbsent : string) : wanSetting :=
  mkSetting option value (ruleLabel option) false (negb (nonempty value)) sameAsAbsent "" "".

Definition ruleSets (want : FirewallRuleConfig) : list wanSetting :=
  [set_to "src" (cFrom want) (ruleLabel "src"); ruleSetting "dest" (cTo want) "";
   set_to "proto" (Join " " (cProtocols want)) (ruleLabel "proto"); ruleSetting "dest_port" (cPorts want) "";
   set_to "target" (targetOf (cAction want)) (ruleLabel "target");
   ruleSetting "family" (cFamily want) "any"; ruleSetting "name" (cName want) ""].

Definition without (key : string) (sets : list wanSetting) : list wanSetting :=
  filter (fun s => sKey s <> key) sets.

(** The defaults an existing rule stores by leaving them out are not written. *)
Definition keepDefaults (section : string) (want : FirewallRuleConfig) (sets : list wanSetting)
    : prog (list wanSetting) :=
  proto <- uciGet ("firewall." +:+ section +:+ "." +:+ "proto") ;;
  let sets := if bool_decide (Join " " (cProtocols want) = "tcp udp") && contains [""; "tcpudp"] proto
              then without "proto" sets else sets in
  target <- uciGet ("firewall." +:+ section +:+ "." +:+ "target") ;;
  Ret (if String.eqb (cAction want) ActionAccept && negb (nonempty target) then without "target" sets else sets).

(** Where a new rule goes: in front of [before] or at the end of the file. *)
Definition placeNew (fw : FirewallStatus) (before : string) : prog (res (list FirewallRule * option nat)) :=
  if negb (nonempty before) then Ret (Ok (Rules fw, None)) else
  match ruleIndex fw before with
  | None => Ret (Refuse "before" (Errorf "openwrt: no rule %q on this device" [before]))
  | Some at_ =>
      let! position := sectionPosition before in Ret (Ok (take at_ (Rules fw), Some position))
  end.

(** The refusals that concern the rule the request names, and what the rows
    will call it; for a new rule its place. *)
Definition checkFresh (fw : FirewallStatus) (want : FirewallRuleConfig) (before : string)
    : prog (res (option nat)) :=
  let! (earlier, position) := placeNew fw before in
  Ret (match shadowedBy earlier want with
       | Some cover => Refuse "before" (Errorf
           "openwrt: the rule %s above already decides this traffic, so this one would never act; place it before that rule"
           [ruleName cover])
       | None => Ok position
       end).

Definition checkExisting (fw : FirewallStatus) (want : FirewallRuleConfig) (section before : string) : res string :=
  if nonempty before
  then Refuse "before" (Errorf "openwrt: an existing rule is moved on its own, not while editing it" []) else
  if negb (sectionOk section)
  then Refuse "id" (Errorf "openwrt: %q is not an entry on this device" [section]) else
  match ruleIndex fw section ≫= fun at_ => Rules fw !! at_ with
  | None => Refuse "id" (Errorf "openwrt: no rule %q on this device" [section])
  | Some have =>
      if rSystem have then Refuse "id" (errSystemRule have) else
      if negb (bool_decide (rUnsupported have = [])) && negb (sameButEnabled have want)
      then Refuse "id" (Errorf
             "openwrt: rule %s has conditions the panel does not show yet (%s); it can be switched on or off or removed here, and edited in LuCI"
             [ruleName have; Join ", " (rUnsupported have)])
      else Ok (ruleSubject have)
  end.

Definition hasZone (fw : FirewallStatus) (z : string) : bool :=
  String.eqb z "*" || existsb (fun zone => String.eqb (zName zone) z) (Zones fw).

(** [uci reorder] with the draft thrown away when it fails. *)
Definition reorderRule (section : string) (place : Z) (format : string) : prog (res unit) :=
  r <- exec_cmd ["uci"; "reorder"; "firewall." +:+ section +:+ "=" +:+ Itoa place] ;;
  match r with
  | Ok _ => Ret (Ok tt)
  | Err e => _ <- discardConfig "firewall" ;; Ret (Err (Wrapf format [] e))
  end.

(** From the first write on. *)
Definition writeRule (want : FirewallRuleConfig) (fresh : bool) (section subject : string)
    (position : option nat) (baseline : gset string) : prog (res (list ConfigChange)) :=
  let sets := ruleSets want in
  sets <- (if fresh then Ret sets else keepDefaults section want sets) ;;
  let sets := sets ++ [if cEnabled want then unset "enabled" "1" (ruleLabel "enabled")
                       else set_to "enabled" "0" (ruleLabel "enabled")] in
  let! changes := stage "firewall" section sets in
  let! _ := (match position with
             | Some place => if fresh then reorderRule section (Z.of_nat place) "openwrt: place the new rule: %w"
                             else Ret (Ok tt)
             | None => Ret (Ok tt)
             end) in
  let! _ := judged baseline in
  if negb fresh then Ret (Ok (withSubject changes subject)) else
  Ret (Ok [entryRow (rulePhrase (targetOf (cAction want)) (cTo want)) ""
             (ruleWords (cFrom want) (cTo want) (Join " " (cProtocols want)) (cPorts want) (cFamily want))
             "firewall" ("firewall." +:+ section)]).

Definition StageRule (m : networkManager) (toFirst : bool) (cfg : FirewallRuleConfig)
    : prog (res (list ConfigChange)) :=
  if negb (runs m) then Ret (Err ErrNotImplemented) else
  let* want := normalizeRule toFirst cfg in
  let! fw := FirewallInfo m in
  if negb (hasZone fw (cFrom want))
  then Ret (Refuse "from" (Errorf "openwrt: there is no zone %q on this device" [cFrom want])) else
  if nonempty (cTo want) && negb (hasZone fw (cTo want))
  then Ret (Refuse "to" (Errorf "openwrt: there is no zone %q on this device" [cTo want])) else
  let section := TrimSpace (cID cfg) in
  let before := TrimSpace (cBefore cfg) in
  let fresh := negb (nonempty section) in
  let! (subject, position) :=
    (if fresh then let! position := checkFresh fw want before in Ret (Ok ("", position))
     else let* subject := checkExisting fw want section before in Ret (Ok (subject, None))) in
  let! baseline := fw4Warnings in
  let! section := (if fresh then addSection "firewall" "rule" "rule" else Ret (Ok section)) in
  writeRule want fresh section subject position baseline.

(** ** RemoveRule and MoveRule *)

Definition RemoveRule (m : networkManager) (rid : string) : prog (res (list ConfigChange)) :=
  if negb (runs m) then Ret (Err ErrNotImplemented) else
  if negb (sectionOk rid) then Ret (Err (Errorf "openwrt: %q is not an entry on this device" [rid])) else
  let! fw := FirewallInfo m in
  match ruleIndex fw rid ≫= fun at_ => Rules fw !! at_ with
  | None => Ret (Err (Errorf "openwrt: no rule %q on this device" [rid]))
  | Some r =>
      if rSystem r then Ret (Err (errSystemRule r)) else
      let! _ := (out <- exec_cmd ["uci"; "delete"; "firewall." +:+ rid] ;;
                 Ret (wrapping "openwrt: stage removal of a rule: %w" [] out)) in
      Ret (Ok [entryRow (rulePhrase (rAction r) (rTo r))
                 (ruleWords (rFrom r) (rTo r) (Join " " (rProtocols r)) (rPorts r) (rFamily r)) ""
                 "firewall" ("firewall." +:+ rid)])
  end.

(** Where the rule at [at_] lands among the other rules, 0-based. *)
Definition landing (fw : FirewallStatus) (at_ : nat) (rid before : string) : res nat :=
  if negb (nonempty before) then Ok (length (Rules fw) - 1) else
  if String.eqb before rid
  then Refuse "before" (Errorf "openwrt: a rule cannot be placed in front of itself" []) else
  match ruleIndex fw before with
  | None => Refuse "before" (Errorf "openwrt: no rule %q on this device" [before])
  | Some bt => Ok (if decide (at_ < bt) then bt - 1 else bt)
  end.

(** The place in the whole file that [uci reorder] is given. *)
Definition reorderPlace (land at_ : nat) (position : option nat) : Z :=
  match position with
  | None => 65536
  | Some p => if decide (at_ <= land) then (Z.of_nat p - 1)%Z else Z.of_nat p
  end.

Definition MoveRule (m : networkManager) (rid before : string) : prog (res (list ConfigChange)) :=
  if negb (runs m) then Ret (Err ErrNotImplemented) else
  if negb (sectionOk rid) then Ret (Err (Errorf "openwrt: %q is not an entry on this device" [rid])) else
  let! fw := FirewallInfo m in
  match ruleIndex fw rid with
  | None => Ret (Err (Errorf "openwrt: no rule %q on this device" [rid]))
  | Some at_ =>
  match Rules fw !! at_ with
  | None => Ret (Ok [])  (* at_ is an index of the list *)
  | Some r =>
  if rSystem r then Ret (Err (errSystemRule r)) else
  let before := TrimSpace before in
  let rest := take at_ (Rules fw) ++ list.drop (S at_) (Rules fw) in
  let* land := landing fw at_ rid before in
  if decide (land = at_) then Ret (Ok []) else
  match ruleAsConfig r ≫= shadowedBy (take land rest) with
  | Some cover => Ret (Refuse "before" (Errorf
      "openwrt: the rule %s above already decides this traffic, so this one would never act there; place it before that rule"
      [ruleName cover]))
  | None =>
  let! position := (if nonempty before then let! p := sectionPosition before in Ret (Ok (Some p))
                    else Ret (Ok None)) in
  let! baseline := fw4Warnings in
  let! _ := reorderRule rid (reorderPlace land at_ position) "openwrt: move the rule: %w" in
  let! _ := judged baseline in
  let said := ruleLabel "position" in
  Ret (Ok [mkChange (pWords said) (pKey said) (Itoa (Z.of_nat at_ + 1)) (Itoa (Z.of_nat land + 1))
             (dangerousConfig "firewall") ("firewall." +:+ rid) (ruleSubject r)])
  end end end.
