(* ===== verification/Routes.v ===== *)
(** * Static routes, read: internal/adapters/openwrt/routes.go

    The routes of /etc/config/network with what the kernel holds in
    /proc/net/route and /proc/net/ipv6_route, and the types of
    internal/core/routes.go. *)

From S2P Require Import Prelude GoStrings GoNet Effects Network Uci Firewall Stage.

(** ** internal/core/routes.go *)

Record StaticRoute := mkStaticRoute {
  srID : string; srName : string; srEnabled : bool; srFamily : string; srTarget : string;
  srGateway : string; srInterface : string; srMetric : Z; srActive : bool; srUnsupported : list string }.

Record RouteInterface := mkRouteInterface { riName : string; riUp : bool; riIPv4 : list string }.

Record RoutesStatus := mkRoutesStatus { rsRoutes : list StaticRoute; rsInterfaces : list RouteInterface }.

Definition RouteTable := "table".
Definition RouteSource := "source".
Definition RouteType := "type".
Definition RouteOnLink := "onlink".
Definition RouteMTU := "mtu".
Definition RouteOther := "other".

(** ** The kernel's tables *)

Definition procRoute4 := "/proc/net/route".
Definition procRoute6 := "/proc/net/ipv6_route".

(** [NoAddr] is the gateway of a network that is reached directly. *)
Record kernelRoute := mkKernelRoute { kPrefix : Prefix; kGateway : Addr; kMetric : Z; kDevice : string }.

(** [for v&0x80000000 != 0 { n++; v <<= 1 }] on 32 bits. *)
Fixpoint mask_loop (fuel : nat) (v n : Z) : Z * Z :=
  match fuel with
  | O => (v, n)
  | S fuel =>
      if (Z.land v 0x80000000 =? 0)%Z then (v, n)
      else mask_loop fuel (Z.land (Z.shiftl v 1) (2 ^ 32 - 1)) (n + 1)
  end.

(** The length of a contiguous netmask, or -1. *)
Definition maskBits (mask : Z) : Z :=
  let '(v, n) := mask_loop 33 mask 0 in
  if (v =? 0)%Z then n else (-1)%Z.

(** [binary.ByteOrder]; the native one is that of the CPUs the project names. *)
Inductive byteOrder := LittleEndian | BigEndian.
Definition NativeEndian : byteOrder := LittleEndian.

(** The bytes [order.PutUint32] writes, as the number they are in network order. *)
Definition PutUint32 (order : byteOrder) (v : Z) : Z :=
  match order with
  | BigEndian => v
  | LittleEndian => (byte_of v 0 * 2 ^ 24 + byte_of v 1 * 2 ^ 16 + byte_of v 2 * 2 ^ 8 + byte_of v 3)%Z
  end.

Definition procAddr4In (h : string) (order : byteOrder) : option Z :=
  if negb (bool_decide (String.length h = 8)) then None
  else PutUint32 order <$> ParseHex 32 h.

Definition procAddr4 (h : string) : option Z := procAddr4In h NativeEndian.

Definition rtfUp : Z := 1.
Definition rtfGateway : Z := 2.
Definition flagged (flags bit : Z) : bool := negb (Z.land flags bit =? 0)%Z.

(** One line of /proc/net/route. *)
Definition proc_line (line : string) : option kernelRoute :=
  match Fields line with
  | dev :: dst :: gw :: flags :: _ :: _ :: metric :: mask :: _ =>
      match procAddr4 dst, procAddr4 gw, procAddr4 mask, ParseHex 32 flags, Atoi metric with
      | Some dst, Some gw, Some mask, Some flags, Some metric =>
          if negb (flagged flags rtfUp) then None else
          let bits := maskBits mask in
          if (bits <? 0)%Z then None else
          Some (mkKernelRoute (Masked (PrefixFrom (Addr4 dst) bits))
                  (if flagged flags rtfGateway then Addr4 gw else NoAddr) metric dev)
      | _, _, _, _, _ => None
      end
  | _ => None
  end.

Definition parseProcRoute (raw : string) : list kernelRoute :=
  match lines raw with [] => [] | _ :: rest => omap proc_line rest end.

(** [hex.DecodeString] of sixteen bytes. *)
Definition procAddr6 (h : string) : option Addr :=
  if decide (String.length h = 32) then (fun v => Addr6 v "") <$> hex_val 0 h else None.

Definition proc_line6 (line : string) : option kernelRoute :=
  match Fields line with
  | dst :: bits :: _ :: _ :: gw :: metric :: _ :: _ :: flags :: dev :: _ =>
      match procAddr6 dst, procAddr6 gw, ParseHex 8 bits, ParseHex 32 metric, ParseHex 32 flags with
      | Some dst, Some gw, Some bits, Some metric, Some flags =>
          if (128 <? bits)%Z then None else
          if negb (flagged flags rtfUp) then None else
          Some (mkKernelRoute (Masked (PrefixFrom dst bits))
                  (if flagged flags rtfGateway then gw else NoAddr) metric dev)
      | _, _, _, _, _ => None
      end
  | _ => None
  end.

Definition parseProcRoute6 (raw : string) : list kernelRoute := omap proc_line6 (lines raw).

(** [m.procFile(path)], by default [os.ReadFile]. *)
Definition readProc (path : string) : prog (res string) := ask (ReadFile path).

(** A table that cannot be read has no routes. *)
Definition kernelTable (raw4 raw6 : res string) : list kernelRoute :=
  match raw4 with Ok raw => parseProcRoute raw | Err _ => [] end ++
  match raw6 with Ok raw => parseProcRoute6 raw | Err _ => [] end.

Definition kernelRoutes : prog (list kernelRoute) :=
  raw4 <- readProc procRoute4 ;;
  raw6 <- readProc procRoute6 ;;
  Ret (kernelTable raw4 raw6).

(** ** The configured routes *)

Record routeSection := mkRouteSection {
  rtID : string; rtName : string; rtDisabled : bool; rtFamily : string;
  rtPrefix : Prefix; rtTarget : string; rtGateway : Addr; rtIface : string;
  rtMetric : Z; rtHasMetric : bool; rtNetmaskForm : bool; rtUnsupported : list string }.

Definition routeOptions : list string :=
  ["interface"; "target"; "netmask"; "gateway"; "metric"; "name"; "disabled"].

Definition routeUnsupported : gmap string string :=
  list_to_map [("table", RouteTable); ("source", RouteSource); ("type", RouteType);
               ("onlink", RouteOnLink); ("mtu", RouteMTU)].

Definition sortedKeys (set : gset string) : list string := sort_strings (elements set).

(** The target in CIDR form, and whether it was written with a netmask. The
    family is not looked at. *)
Definition routeTarget (target netmask : string) : Prefix * bool :=
  let target := TrimSpace target in
  if negb (nonempty target) then (NoPrefix, false) else
  match ParsePrefix target with
  | Some p => (Masked p, false)
  | None =>
      match ParseAddr target with
      | None => (NoPrefix, false)
      | Some a =>
          if nonempty netmask && Is4 a then
            match ParseAddr netmask with
            | Some (Addr4 m) =>
                let bits := maskBits m in
                if (bits <? 0)%Z then (NoPrefix, false) else (Masked (PrefixFrom a bits), true)
            | _ => (NoPrefix, false)
            end
          else (PrefixFrom a (BitLen a), false)
      end
  end.

(** What an option the panel does not show is called. *)
Definition unsupported_option (option : string) : string := default RouteOther (routeUnsupported !! option).

Definition unsupported_of (o : gmap string string) (p : Prefix) : list string :=
  let named := unsupported_option <$> filter (fun k => k ∉ routeOptions) (elements (dom o)) in
  sortedKeys (list_to_set (named ++ if PrefixIsValid p then [] else [RouteOther])).

(** The section [sid] of the kind [route] or [route6], with the options [o]. *)
Definition route_of (sid kind : string) (o : gmap string string) : routeSection :=
  let '(prefix, form) := routeTarget (get o "target") (get o "netmask") in
  let metric := Atoi (get o "metric") in
  mkRouteSection sid (get o "name") (bool_decide (get o "disabled" = "1"))
    (if decide (kind = "route6") then "ipv6" else "ipv4") prefix (get o "target")
    (default NoAddr (ParseAddr (get o "gateway"))) (get o "interface")
    (default 0%Z metric) (bool_decide (metric <> None)) form (unsupported_of o prefix).

(** The routes in the order of the file, and the metric of each interface. *)
Definition add_route (acc : list routeSection * gmap string Z) (s : uciSection)
    : list routeSection * gmap string Z :=
  let '(routes, ifaceMetric) := acc in
  if decide (kind s = "interface") then
    match Atoi (get (options s) "metric") with
    | Some v => (routes, <[id s := v]> ifaceMetric)
    | None => acc
    end
  else if decide (kind s = "route" \/ kind s = "route6") then
    (routes ++ [route_of (id s) (kind s) (options s)], ifaceMetric)
  else acc.

Definition parseRouteSections (show : string) : list routeSection * gmap string Z :=
  fold_left add_route (parseUCISections show) ([], ∅).

(** The number the kernel shows; a map of Go reads 0 where it has no key. *)
Definition effectiveMetric (r : routeSection) (ifaceMetric : gmap string Z) : Z :=
  if rtHasMetric r then rtMetric r else default 0%Z (ifaceMetric !! rtIface r).

Definition matches (r : routeSection) (k : kernelRoute) (device : string) (ifaceMetric : gmap string Z) : bool :=
  if negb (PrefixIsValid (rtPrefix r)) || bool_decide (kPrefix k <> rtPrefix r) ||
     bool_decide (kDevice k <> device) then false else
  if negb (kMetric k =? effectiveMetric r ifaceMetric)%Z then false else
  if IsValid (rtGateway r) then bool_decide (kGateway k = rtGateway r)
  else negb (IsValid (kGateway k)).

(** ** The connections *)

Record routeInterface := mkRouteIface { ifShown : RouteInterface; ifDevice : string }.
Definition ifName (i : routeInterface) : string := riName (ifShown i).
Definition ifIPv4 (i : routeInterface) : list string := riIPv4 (ifShown i).

Definition routeConnections (ifaces : list NetworkInterface) : list routeInterface :=
  (fun i => mkRouteIface (mkRouteInterface (Name i) (Up i) (IPv4 i)) (Device i)) <$>
    filter (fun i => has loopbackNames (Name i) = false) ifaces.

Definition routeInterfaces (m : networkManager) : prog (list routeInterface) :=
  ifaces <- Interfaces m ;;
  Ret (match ifaces with Err _ => [] | Ok ifaces => routeConnections ifaces end).

(** [devices[i.Name] = i.device] *)
Definition devicesOf (ifaces : list routeInterface) : gmap string string :=
  fold_left (fun m i => <[ifName i := ifDevice i]> m) ifaces ∅.

(** ** The routes screen *)

Definition shown_route (kernel : list kernelRoute) (devices : gmap string string)
    (ifaceMetric : gmap string Z) (r : routeSection) : StaticRoute :=
  mkStaticRoute (rtID r) (rtName r) (negb (rtDisabled r)) (rtFamily r)
    (if PrefixIsValid (rtPrefix r) then PrefixString (rtPrefix r) else rtTarget r)
    (if IsValid (rtGateway r) then AddrString (rtGateway r) else "") (rtIface r) (rtMetric r)
    (negb (rtDisabled r) && existsb (fun k => matches r k (get devices (rtIface r)) ifaceMetric) kernel)
    (rtUnsupported r).

Definition StaticRoutes (m : networkManager) : prog (res RoutesStatus) :=
  if negb (runs m) then Ret (Err ErrNotImplemented) else
  let! out := exec_cmd ["uci"; "-q"; "show"; "network"] in
  let '(sections, ifaceMetric) := parseRouteSections out in
  ifaces <- routeInterfaces m ;;
  kernel <- kernelRoutes ;;
  Ret (Ok (mkRoutesStatus (shown_route kernel (devicesOf ifaces) ifaceMetric <$> sections) (ifShown <$> ifaces))).

Definition routeWords (target gateway iface : string) : string :=
  target +:+ (if nonempty gateway then " → " +:+ gateway else "") +:+
    (if nonempty iface then " (" +:+ iface +:+ ")" else "").
