(* ===== verification/RoutesWrite.v ===== *)
(** * Static routes, staged: internal/adapters/openwrt/routes_write.go

    Adding, editing and removing a route, with the checks that keep the kernel
    from doing something else than what was asked for. *)

From S2P Require Import Prelude GoStrings GoNet Effects Network Uci Firewall Stage Lan FirewallWrite Routes.

(** [core.StaticRouteConfig]. *)
Record StaticRouteConfig := mkStaticRouteConfig {
  scID : string; scName : string; scEnabled : bool; scTarget : string;
  scGateway : string; scInterface : string; scMetric : Z }.

Definition parseRouteTarget (v : string) : res Prefix :=
  let v := TrimSpace v in
  let single := match ParseAddr v with
                | Some (Addr4 a) => Ok (PrefixFrom (Addr4 a) 32)
                | _ => Err (Errorf "openwrt: %q is not an IPv4 network or address" [v])
                end in
  match ParsePrefix v with
  | Some p => if Is4 (PAddr p) then Ok (Masked p) else single
  | None => single
  end.

Definition addrString (a : Addr) : string := if IsValid a then AddrString a else "".

(** [m[i/8] |= 0x80 >> (i % 8)] for each bit, the four bytes as one number. *)
Definition netmask_value (bits : nat) : Z :=
  fold_left (fun m i => Z.lor m (Z.shiftl 1 (31 - Z.of_nat i))) (seq 0 bits) 0%Z.

Definition netmaskOf (bits : Z) : string := string4 (netmask_value (Z.to_nat bits)).

(** ** The connection *)

(** A network with room for a host besides the connection's own address. *)
Definition roomy (c : string) : option Prefix :=
  match ParsePrefix c with
  | Some p => if (PBits p <? 32)%Z then Some p else None
  | None => None
  end.

Definition onNetwork (a : Addr) (cidrs : list string) : bool :=
  existsb (fun c => match roomy c with Some p => PrefixContains (Masked p) a | None => false end) cidrs.

Definition checkable (cidrs : list string) : bool :=
  existsb (fun c => match roomy c with Some p => Is4 (PAddr p) | None => false end) cidrs.

Definition own_address (gateway : Addr) (c : string) : bool :=
  match ParsePrefix c with Some p => bool_decide (PAddr p = gateway) | None => false end.

Definition routeInterfaceFor (name : string) (gateway : Addr) (ifaces : list routeInterface) : res string :=
  if negb (nonempty name) then
    if negb (IsValid gateway)
    then Refuse "interface" (Errorf "openwrt: choose a connection, or give a gateway to pick it by" []) else
    match find_first (fun i => onNetwork gateway (ifIPv4 i)) ifaces with
    | Some i => Ok (ifName i)
    | None => Refuse "gateway" (Errorf "openwrt: %s is not on the network of any connection of this router"
                [AddrString gateway])
    end
  else if negb (sectionNameRe name)
  then Refuse "interface" (Errorf "openwrt: %q is not a connection on this device" [name]) else
  match find_last (fun i => String.eqb (ifName i) name) ifaces with
  | None => Refuse "interface" (Errorf "openwrt: no connection %q on this device" [name])
  | Some found =>
      if negb (IsValid gateway) then Ok name else
      if existsb (own_address gateway) (ifIPv4 found)
      then Refuse "gateway" (Errorf "openwrt: %s is this router's own address on %s" [AddrString gateway; name]) else
      if checkable (ifIPv4 found) && negb (onNetwork gateway (ifIPv4 found))
      then Refuse "gateway" (Errorf
        "openwrt: %s is not on the network of %s (%s); the device would accept the route and never use it"
        [AddrString gateway; name; Join ", " (ifIPv4 found)])
      else Ok name
  end.

(** ** Clashes *)

Definition committedRouteSections (m : networkManager) : prog (res (list routeSection)) :=
  withCommitted m "network" (fun dir alias =>
    let! out := exec_cmd ["uci"; "-q"; "-c"; dir; "show"; alias] in
    Ret (Ok (parseRouteSections out).1)).

(** [names[i.device] = i.Name] for the connections with a device. *)
Definition namesOf (ifaces : list routeInterface) : gmap string string :=
  fold_left (fun m i => if nonempty (ifDevice i) then <[ifDevice i := ifName i]> m else m) ifaces ∅.

(** Another configured route with this network and metric. *)
Definition claims (section : string) (prefix : Prefix) (metric : Z) (ifaceMetric : gmap string Z)
    (r : routeSection) : bool :=
  if String.eqb (rtID r) section || rtDisabled r || negb (String.eqb (rtFamily r) "ipv4") then false else
  bool_decide (rtPrefix r = prefix) && (effectiveMetric r ifaceMetric =? metric)%Z.

(** A route of the kernel with this network and metric that none of [own] is. *)
Definition foreign (prefix : Prefix) (metric : Z) (own : list routeSection) (devices : gmap string string)
    (ifaceMetric : gmap string Z) (k : kernelRoute) : bool :=
  if bool_decide (kPrefix k <> prefix) || negb (kMetric k =? metric)%Z then false else
  negb (existsb (fun r => negb (rtDisabled r) && matches r k (get devices (rtIface r)) ifaceMetric) own).

Definition claimed_error (prefix : Prefix) (metric : Z) (r : routeSection) : err :=
  Errorf "openwrt: there is already a static route to %s with metric %d (%s); give this one another metric"
    [PrefixString prefix; Itoa metric;
     entrySubject (rtName r) (routeWords (PrefixString (rtPrefix r)) (addrString (rtGateway r)) (rtIface r))].

Definition foreign_error (prefix : Prefix) (metric : Z) (names : gmap string string) (k : kernelRoute) : err :=
  Errorf "openwrt: the router already routes %s%s through %s with metric %d; the network service would take that route over and remove it with this one — give this one another metric"
    [PrefixString prefix; if IsValid (kGateway k) then " via " +:+ AddrString (kGateway k) else "";
     default (kDevice k) (names !! kDevice k); Itoa metric].

(** What [routeClash] says of what it has read. *)
Definition clash (section : string) (prefix : Prefix) (metric : Z) (sections own : list routeSection)
    (kernel : list kernelRoute) (ifaceMetric : gmap string Z) (ifaces : list routeInterface) : res unit :=
  match find_first (claims section prefix metric ifaceMetric) sections with
  | Some r => Refuse "target" (claimed_error prefix metric r)
  | None =>
      match find_first (foreign prefix metric own (devicesOf ifaces) ifaceMetric) kernel with
      | Some k => Refuse "target" (foreign_error prefix metric (namesOf ifaces) k)
      | None => Ok tt
      end
  end.

(** The committed form of the route that is edited; none when it cannot be read. *)
Definition ownRoutes (m : networkManager) (section : string) : prog (list routeSection) :=
  if negb (nonempty section) then Ret [] else
  committed <- committedRouteSections m ;;
  Ret (match committed with
       | Ok l => filter (fun r => rtID r = section) l
       | Err _ => []
       end).

Definition routeClash (m : networkManager) (section : string) (prefix : Prefix) (metric : Z)
    (sections : list routeSection) (ifaceMetric : gmap string Z) (ifaces : list routeInterface)
    : prog (res unit) :=
  match find_first (claims section prefix metric ifaceMetric) sections with
  | Some r => Ret (Refuse "target" (claimed_error prefix metric r))
  | None =>
      own <- ownRoutes m section ;;
      kernel <- kernelRoutes ;;
      Ret (clash section prefix metric sections own kernel ifaceMetric ifaces)
  end.

(** ** The request *)

Definition routeLabel (option : string) : phrase := describe "network" roleRoute option.
Definition routeSet (option value : string) : wanSetting := set_to option value (routeLabel option).

Definition routeSets (netmaskForm : bool) (iface : string) (prefix : Prefix) (gateway : Addr) (metric : Z)
    (name : string) (enabled : bool) : list wanSetting :=
  [routeSet "interface" iface] ++
  (if netmaskForm
   then [routeSet "target" (AddrString (PAddr prefix)); routeSet "netmask" (netmaskOf (PBits prefix))]
   else [routeSet "target" (PrefixString prefix); unset "netmask" "" (routeLabel "netmask")]) ++
  [if IsValid gateway then routeSet "gateway" (AddrString gateway) else unset "gateway" "" (routeLabel "gateway");
   if (metric =? 0)%Z then unset "metric" "0" (routeLabel "metric") else routeSet "metric" (Itoa metric);
   if nonempty name then routeSet "name" name else unset "name" "" (routeLabel "name");
   if enabled then unset "disabled" "0" (routeLabel "disabled") else routeSet "disabled" "1"].

(** What is checked before the router is asked anything: the name, the network
    and the gateway. *)
Definition checkRoute (cfg : StaticRouteConfig) : res (string * Prefix * Addr) :=
  let name := TrimSpace (scName cfg) in
  if bad_name name
  then Refuse "name" (Errorf "openwrt: a name cannot contain quotes, backslashes or line breaks" []) else
  if (scMetric cfg <? 0)%Z || (65535 <? scMetric cfg)%Z
  then Refuse "metric" (Errorf "openwrt: a metric is a number from 0 to 65535" []) else
  let? prefix := RefuseRes "target" (parseRouteTarget (scTarget cfg)) in
  let g := TrimSpace (scGateway cfg) in
  if negb (nonempty g) then Ok (name, prefix, NoAddr) else
  match ParseAddr g with
  | Some (Addr4 a) => Ok (name, prefix, Addr4 a)
  | _ => Refuse "gateway" (Errorf "openwrt: %q is not an IPv4 address" [scGateway cfg])
  end.

(** The route that is edited, if it is one that can be. *)
Definition currentRoute (section : string) (sections : list routeSection) : res (option routeSection) :=
  if negb (nonempty section) then Ok None else
  if negb (sectionOk section)
  then Refuse "id" (Errorf "openwrt: %q is not an entry on this device" [section]) else
  match find_last (fun r => String.eqb (rtID r) section) sections with
  | None => Refuse "id" (Errorf "openwrt: no static route %q on this device" [section])
  | Some r =>
      if String.eqb (rtFamily r) "ipv4" then Ok (Some r)
      else Refuse "id" (Errorf "openwrt: IPv6 routes can only be switched on and off or removed here" [])
  end.

(** A route with options the panel does not show can only be switched. *)
Definition onlySwitched (current : option routeSection) (prefix : Prefix) (gateway : Addr) (iface : string)
    (metric : Z) (name : string) : res unit :=
  match current with
  | None => Ok tt
  | Some r =>
      let same := bool_decide (rtPrefix r = prefix) && bool_decide (rtGateway r = gateway) &&
                  String.eqb (rtIface r) iface && (rtMetric r =? metric)%Z && String.eqb (rtName r) name in
      if bool_decide (rtUnsupported r <> []) && negb same
      then Refuse "id" (Errorf
        "openwrt: this route has settings the panel does not show (%s); it can only be switched on and off or removed here"
        [Join ", " (rtUnsupported r)])
      else Ok tt
  end.

Definition StageStaticRoute (m : networkManager) (cfg : StaticRouteConfig) : prog (res (list ConfigChange)) :=
  if negb (runs m) then Ret (Err ErrNotImplemented) else
  let* (name, prefix, gateway) := checkRoute cfg in
  let! out := exec_cmd ["uci"; "-q"; "show"; "network"] in
  let '(sections, ifaceMetric) := parseRouteSections out in
  ifaces <- routeInterfaces m ;;
  let section := TrimSpace (scID cfg) in
  let fresh := negb (nonempty section) in
  let* current := currentRoute section sections in
  let* iface := routeInterfaceFor (TrimSpace (scInterface cfg)) gateway ifaces in
  let* _ := onlySwitched current prefix gateway iface (scMetric cfg) name in
  let metric := if (scMetric cfg =? 0)%Z then default 0%Z (ifaceMetric !! iface) else scMetric cfg in
  let! _ := (if scEnabled cfg then routeClash m section prefix metric sections ifaceMetric ifaces
             else Ret (Ok tt)) in
  let! section := (if fresh then addSection "network" "route" "static route" else Ret (Ok section)) in
  let form := match current with Some r => rtNetmaskForm r | None => false end in
  let! changes := stage "network" section
    (routeSets form iface prefix gateway (scMetric cfg) name (scEnabled cfg)) in
  match current with
  | Some r =>
      let was := routeWords (PrefixString (rtPrefix r)) (addrString (rtGateway r)) (rtIface r) in
      Ret (Ok (withSubject changes (entrySubject (rtName r) was)))
  | None =>
      Ret (Ok [entryRow (routeLabel "") "" (routeWords (PrefixString prefix) (addrString gateway) iface)
                 "network" ("network." +:+ section)])
  end.

Definition RemoveStaticRoute (m : networkManager) (rid : string) : prog (res (list ConfigChange)) :=
  if negb (runs m) then Ret (Err ErrNotImplemented) else
  if negb (sectionOk rid) then Ret (Err (Errorf "openwrt: %q is not an entry on this device" [rid])) else
  let! out := exec_cmd ["uci"; "-q"; "show"; "network"] in
  match find_last (fun r => String.eqb (rtID r) rid) (parseRouteSections out).1 with
  | None => Ret (Err (Errorf "openwrt: no static route %q on this device" [rid]))
  | Some target =>
      let! _ := (r <- exec_cmd ["uci"; "delete"; "network." +:+ rid] ;;
                 Ret (wrapping "openwrt: stage removal of a static route: %w" [] r)) in
      let words := if PrefixIsValid (rtPrefix target) then PrefixString (rtPrefix target) else rtTarget target in
      Ret (Ok [entryRow (routeLabel "") (routeWords words (addrString (rtGateway target)) (rtIface target)) ""
                 "network" ("network." +:+ rid)])
  end.
