(* ===== verification/RoutesThms.v ===== *)
(** * What a staged route is worth

    Netmasks and the kernel's spelling of addresses are read back; what
    internal/adapters/openwrt/routes_write.go writes is what routes.go reads;
    and an accepted route leaves through a connection that can carry it and
    takes over no route of the kernel's. *)

From S2P Require Import Prelude GoStrings GoNet Effects Network Uci Firewall Stage Discipline StageThms Lan LanThms FirewallWrite Routes RoutesWrite.

(** [lia] on divisions by constants. *)
Local Ltac Zify.zify_post_hook ::= Z.div_mod_to_equations.

(** ** Netmasks *)

(** The mask of [n] ones. *)
Fixpoint ones_mask (n : nat) : Z :=
  match n with O => 0 | S n => (2147483648 + ones_mask n / 2)%Z end.

Lemma netmask_values : forallb (fun n => netmask_value n =? ones_mask n)%Z (seq 0 33) = true.
Proof. vm_compute. reflexivity. Qed.

Lemma netmask_ones n : n <= 32 -> netmask_value n = ones_mask n.
Proof.
  intros H. pose proof netmask_values as Ha. rewrite forallb_elem in Ha.
  apply Z.eqb_eq, Ha. rewrite elem_of_seq. lia.
Qed.

Lemma ones_mask_range n : (0 <= ones_mask n < 4294967296)%Z.
Proof. induction n as [|n IH]; cbn [ones_mask]; lia. Qed.

Lemma top_bit v : (0 <= v < 4294967296)%Z ->
  (Z.land v 0x80000000 =? 0)%Z = (v <? 2147483648)%Z.
Proof.
  intros H. assert (Z.land v 0x80000000 = if Z.testbit v 31 then 2147483648 else 0)%Z as ->.
  { change 0x80000000%Z with (2 ^ 31)%Z. apply Z.bits_inj'. intros i Hi.
    rewrite Z.land_spec, Z.pow2_bits_eqb by lia. destruct (31 =? i)%Z eqn:E; bool_to_prop.
    - subst. rewrite andb_true_r. destruct (Z.testbit v 31); [done|by rewrite Z.testbit_0_l].
    - rewrite andb_false_r. destruct (Z.testbit v 31); [|by rewrite Z.testbit_0_l].
      change 2147483648%Z with (2 ^ 31)%Z. rewrite Z.pow2_bits_eqb by lia. symmetry. by apply Z.eqb_neq. }
  rewrite Z.testbit_odd, Z.shiftr_div_pow2 by lia. change (2 ^ 31)%Z with 2147483648%Z.
  destruct (v <? 2147483648)%Z eqn:E; bool_to_prop.
  - rewrite Z.div_small by lia. done.
  - assert (v / 2147483648 = 1)%Z as -> by lia. done.
Qed.

Lemma shifted v : (2147483648 <= v < 4294967296)%Z ->
  Z.land (Z.shiftl v 1) (2 ^ 32 - 1) = (2 * (v - 2147483648))%Z.
Proof.
  intros H. change (2 ^ 32 - 1)%Z with (Z.ones 32). rewrite Z.land_ones, Z.shiftl_mul_pow2 by lia.
  change (2 ^ 1)%Z with 2%Z. change (2 ^ 32)%Z with 4294967296%Z. lia.
Qed.

(** One turn of the loop. *)
Lemma mask_loop_step f v n : (0 <= v < 4294967296)%Z ->
  mask_loop (S f) v n =
  if (v <? 2147483648)%Z then (v, n) else mask_loop f (2 * (v - 2147483648))%Z (n + 1)%Z.
Proof.
  intros H. cbn [mask_loop]. rewrite (top_bit v H). destruct (v <? 2147483648)%Z eqn:E; [done|].
  bool_to_prop. rewrite shifted by lia. done.
Qed.

(** The loop ends by itself: on 32 bits there are at most 32 turns. *)
Lemma mask_loop_ends k f v n :
  k <= 32 -> (0 <= v < 4294967296)%Z -> (v mod 2 ^ (32 - Z.of_nat k) = 0)%Z -> k < f ->
  mask_loop f v n = mask_loop (S k) v n.
Proof.
  revert f v n. induction k as [|k IH]; intros f v n Hk Hv Hm Hf; (destruct f as [|f]; [lia|]);
    rewrite !(mask_loop_step _ v n Hv); (destruct (v <? 2147483648)%Z eqn:E; [done|]); bool_to_prop.
  - change (2 ^ (32 - Z.of_nat 0))%Z with 4294967296%Z in Hm. lia.
  - apply IH; [lia|lia| |lia].
    replace (32 - Z.of_nat k)%Z with (32 - Z.of_nat (S k) + 1)%Z by lia.
    rewrite Z.pow_add_r by lia. change (2 ^ 1)%Z with 2%Z.
    set (m := (2 ^ (32 - Z.of_nat (S k)))%Z) in *.
    assert (0 < m)%Z as Hm0 by (apply Z.pow_pos_nonneg; lia).
    apply Z.mod_divide in Hm as [q Hq]; [|lia]. apply Z.mod_divide; [lia|].
    exists (q - 2 ^ (Z.of_nat k))%Z. rewrite Hq.
    assert (2147483648 = 2 ^ Z.of_nat k * m)%Z as ->; [|lia].
    unfold m. rewrite <- Z.pow_add_r by lia. replace (Z.of_nat k + (32 - Z.of_nat (S k)))%Z with 31%Z by lia. done.
Qed.

Lemma mask_loop_zero f v n n' :
  (0 <= v < 4294967296)%Z -> mask_loop f v n = (0, n')%Z ->
  exists j, j <= 32 /\ n' = (n + Z.of_nat j)%Z /\ v = ones_mask j.
Proof.
  revert v n. induction f as [|f IH]; intros v n Hv.
  { cbn. intros [= -> ->]. exists 0. cbn. lia. }
  rewrite (mask_loop_step _ v n Hv). destruct (v <? 2147483648)%Z eqn:E; bool_to_prop.
  { intros [= -> ->]. exists 0. cbn. lia. }
  intros H. apply IH in H as (j & Hj & -> & Hm); [|lia].
  assert (j <> 32) by (intros ->; change (ones_mask 32) with 4294967295%Z in Hm; lia).
  exists (S j). cbn [ones_mask]. lia.
Qed.

Lemma maskBits_values : forallb (fun n => maskBits (netmask_value n) =? Z.of_nat n)%Z (seq 0 33) = true.
Proof. vm_compute. reflexivity. Qed.

Lemma maskBits_netmask n : n <= 32 -> maskBits (netmask_value n) = Z.of_nat n.
Proof.
  intros H. pose proof maskBits_values as Ha. rewrite forallb_elem in Ha.
  apply Z.eqb_eq, Ha. rewrite elem_of_seq. lia.
Qed.

Lemma netmask_range n : n <= 32 -> (0 <= netmask_value n < 2 ^ 32)%Z.
Proof. intros H. rewrite netmask_ones by done. apply ones_mask_range. Qed.

(** A netmask is its length: the loop over a 32-bit mask ends, [maskBits]
    answers a length exactly for the mask [netmaskOf] writes for it, and -1 for
    every mask with a hole in it. *)
Theorem maskBits_exact v : (0 <= v < 2 ^ 32)%Z ->
  (forall f n, 33 <= f -> mask_loop f v n = mask_loop 33 v n) /\
  (forall n, (0 <= n)%Z -> maskBits v = n <-> (n <= 32)%Z /\ string4 v = netmaskOf n) /\
  ((forall n, (0 <= n <= 32)%Z -> string4 v <> netmaskOf n) -> maskBits v = (-1)%Z).
Proof.
  intros Hv. change (2 ^ 32)%Z with 4294967296%Z in Hv.
  assert (forall n, n <= 32 -> string4 v = netmaskOf (Z.of_nat n) -> v = netmask_value n) as Hinj.
  { intros n Hn E. unfold netmaskOf in E. rewrite Nat2Z.id in E. apply (f_equal parse4) in E.
    rewrite !parse4_string4 in E by (try apply netmask_range; done). congruence. }
  assert (forall m k, mask_loop 33 v 0 = (0, m)%Z -> m = k -> (k <= 32)%Z /\ string4 v = netmaskOf k) as Hzero.
  { intros m k E <-. destruct (mask_loop_zero _ _ _ _ Hv E) as (j & Hj & -> & ->). split; [lia|].
    rewrite Z.add_0_l. unfold netmaskOf. by rewrite Nat2Z.id, netmask_ones. }
  split_and!.
  - intros f n Hf. apply (mask_loop_ends 32); [lia|done| |lia]. by rewrite Z.mod_1_r.
  - intros n Hn. split.
    + unfold maskBits. destruct (mask_loop 33 v 0) as [w m] eqn:E.
      destruct (w =? 0)%Z eqn:Ew; bool_to_prop; [subst w|lia]. by apply (Hzero m).
    + intros [Hle E]. replace n with (Z.of_nat (Z.to_nat n)) in * by lia.
      apply Hinj in E; [|lia]. rewrite E. apply maskBits_netmask. lia.
  - intros Hno. unfold maskBits. destruct (mask_loop 33 v 0) as [w m] eqn:E.
    destruct (w =? 0)%Z eqn:Ew; bool_to_prop; [subst w|done]. exfalso.
    destruct (mask_loop_zero _ _ _ _ Hv E) as (j & Hj & -> & _).
    apply (Hno (0 + Z.of_nat j)%Z); [lia|]. by apply (Hzero _ _ eq_refl).
Qed.

Lemma maskBits_exact_witness :
  (0 <= 4294967040 < 2 ^ 32)%Z /\
  (forall f n, 33 <= f -> mask_loop f 4294967040 n = mask_loop 33 4294967040 n) /\
  (forall n, (0 <= n)%Z -> maskBits 4294967040 = n <-> (n <= 32)%Z /\ string4 4294967040 = netmaskOf n) /\
  ((forall n, (0 <= n <= 32)%Z -> string4 4294967040 <> netmaskOf n) -> maskBits 4294967040 = (-1)%Z).
Proof.
  split; [change (2 ^ 32)%Z with 4294967296%Z; lia|].
  apply (maskBits_exact 4294967040). change (2 ^ 32)%Z with 4294967296%Z. lia.
Defined.

(** ** Addresses in /proc/net/route *)

(** What the kernel prints with %08X: the word its memory holds. *)
Definition hex_upper (d : Z) : ascii := ascii_of_N (Z.to_N (if (d <? 10)%Z then 48 + d else 55 + d)).
Definition print08X (v : Z) : string :=
  foldr (fun i s => String (hex_upper (v / 16 ^ i mod 16)%Z) s) "" [7; 6; 5; 4; 3; 2; 1; 0]%Z.

(** The word of a CPU whose memory holds the bytes of [a] in network order. *)
Definition word_in_memory (order : byteOrder) (a : Z) : Z := PutUint32 order a.

Lemma hex_upper_values : forallb (fun d => bool_decide (hex_digit (hex_upper d) = Some d)) (seqZ 0 16) = true.
Proof. vm_compute. reflexivity. Qed.

Lemma hex_digit_upper d : (0 <= d < 16)%Z -> hex_digit (hex_upper d) = Some d.
Proof.
  intros H. pose proof hex_upper_values as Ha. rewrite forallb_elem in Ha.
  eapply bool_decide_eq_true, Ha. rewrite elem_of_seqZ. lia.
Qed.

Lemma ParseHex_print08X v : (0 <= v < 2 ^ 32)%Z -> ParseHex 32 (print08X v) = Some v.
Proof.
  intros H. unfold print08X. cbn [foldr]. unfold ParseHex. cbn [hex_val].
  rewrite !hex_digit_upper by (apply Z.mod_pos_bound; lia). cbn [hex_val].
  match goal with |- context [(?x <? 2 ^ 32)%Z] => replace x with v end.
  - by rewrite (proj2 (Z.ltb_lt v (2 ^ 32))) by lia.
  - change (2 ^ 32)%Z with 4294967296%Z in H.
    change (16 ^ 7)%Z with 268435456%Z. change (16 ^ 6)%Z with 16777216%Z. change (16 ^ 5)%Z with 1048576%Z.
    change (16 ^ 4)%Z with 65536%Z. change (16 ^ 3)%Z with 4096%Z. change (16 ^ 2)%Z with 256%Z.
    change (16 ^ 1)%Z with 16%Z. change (16 ^ 0)%Z with 1%Z. lia.
Qed.

Lemma PutUint32_involutive order v : (0 <= v < 2 ^ 32)%Z ->
  PutUint32 order (PutUint32 order v) = v /\ (0 <= PutUint32 order v < 2 ^ 32)%Z.
Proof.
  intros H. destruct order; [|done]. unfold PutUint32.
  pose proof (bytes_value v H) as Hv.
  pose proof (byte_of_range v 0) as H0. pose proof (byte_of_range v 1) as H1.
  pose proof (byte_of_range v 2) as H2. pose proof (byte_of_range v 3) as H3.
  generalize dependent (byte_of v 0). generalize dependent (byte_of v 1).
  generalize dependent (byte_of v 2). generalize dependent (byte_of v 3).
  intros b3 H3 b2 H2 b1 H1 b0 Hv H0. rewrite !byte_of_div by lia.
  change (2 ^ (8 * 0))%Z with 1%Z. change (2 ^ (8 * 1))%Z with 256%Z. change (2 ^ (8 * 2))%Z with 65536%Z.
  change (2 ^ (8 * 3))%Z with 16777216%Z. change (2 ^ 24)%Z with 16777216%Z in *.
  change (2 ^ 16)%Z with 65536%Z in *. change (2 ^ 8)%Z with 256%Z in *. change (2 ^ 32)%Z with 4294967296%Z in *.
  set (w := (b0 * 16777216 + b1 * 65536 + b2 * 256 + b3)%Z).
  assert (w / 1 mod 256 = b3)%Z as -> by (unfold w; lia).
  assert (w / 256 mod 256 = b2)%Z as -> by (unfold w; lia).
  assert (w / 65536 mod 256 = b1)%Z as -> by (unfold w; lia).
  assert (w / 16777216 mod 256 = b0)%Z as -> by (unfold w; lia).
  unfold w. lia.
Qed.

(** Addresses of the kernel's route table are read back on a CPU of either
    byte order: what the kernel prints for the word its memory holds is the
    address whose bytes are there in network order. *)
Theorem procAddr4In_reads_the_kernel (order : byteOrder) (a : Z) :
  (0 <= a < 2 ^ 32)%Z -> procAddr4In (print08X (word_in_memory order a)) order = Some a.
Proof.
  intros H. destruct (PutUint32_involutive order a H) as [Hi Hr]. unfold procAddr4In, word_in_memory.
  rewrite bool_decide_eq_true_2 by done. cbn [negb]. rewrite ParseHex_print08X by done. cbn. by rewrite Hi.
Qed.

Lemma procAddr4In_reads_the_kernel_witness :
  print08X (word_in_memory LittleEndian 3232235776) = "0001A8C0" /\
  print08X (word_in_memory BigEndian 3232235776) = "C0A80100" /\
  procAddr4In (print08X (word_in_memory BigEndian 3232235776)) BigEndian = Some 3232235776%Z.
Proof.
  split; [vm_compute; reflexivity|]. split; [vm_compute; reflexivity|].
  apply (procAddr4In_reads_the_kernel BigEndian 3232235776). change (2 ^ 32)%Z with 4294967296%Z. lia.
Defined.

(** ** What is written is what is read *)

(** An IPv4 network with its host bits cleared. *)
Definition net4 (p : Prefix) : Prop :=
  exists a n, p = mkPrefix (Addr4 a) n /\ (0 <= a < 2 ^ 32)%Z /\ (0 <= n <= 32)%Z /\ network_part 32 n a = a.

Lemma PrefixFrom_v4 a n : (0 <= n <= 32)%Z -> PrefixFrom (Addr4 a) n = mkPrefix (Addr4 a) n.
Proof.
  intros H. unfold PrefixFrom. cbn [IsValid BitLen andb].
  rewrite (proj2 (Z.leb_le 0 n)), (proj2 (Z.leb_le n 32)) by lia. done.
Qed.

Lemma Masked_v4 a n : (0 <= n <= 32)%Z ->
  Masked (mkPrefix (Addr4 a) n) = mkPrefix (Addr4 (network_part 32 n a)) n.
Proof.
  intros H. unfold Masked, PrefixIsValid. cbn [PBits PAddr]. by rewrite (proj2 (Z.leb_le 0 n)) by lia.
Qed.

Lemma Masked_net4 a n : (0 <= a < 2 ^ 32)%Z -> (0 <= n <= 32)%Z -> net4 (Masked (mkPrefix (Addr4 a) n)).
Proof.
  intros Ha Hn. rewrite Masked_v4 by done. destruct (network_part_spec n a Hn Ha) as [Hr Hi].
  exists (network_part 32 n a), n. split_and!; try done; lia.
Qed.

Lemma Masked_id p : net4 p -> Masked p = p.
Proof. intros (a & n & -> & _ & Hn & Hm). by rewrite Masked_v4, Hm by done. Qed.

Lemma ParsePrefix_v4 s p : ParsePrefix s = Some p -> Is4 (PAddr p) = true ->
  exists a n, p = mkPrefix (Addr4 a) n /\ (0 <= a < 2 ^ 32)%Z /\ (0 <= n <= 32)%Z.
Proof.
  unfold ParsePrefix. destruct (cut_last "/" s) as [[addr bits]|]; [|done].
  destruct (ParseAddr addr) as [[|a|a [|? ?]]|] eqn:Ea; try done; intros H H4.
  2: { destruct (prefix_bits _ bits); [|done]. by injection H as <-. }
  destruct (prefix_bits (Addr4 a) bits) as [n|] eqn:En; [|done]. injection H as <-.
  assert (0 <= n <= 32)%Z as Hn.
  { unfold prefix_bits in En. destruct (match bits with String _ _ => _ | _ => _ end); [done|].
    destruct (Atoi bits) as [m|]; [|done]. destruct ((0 <=? m)%Z && (m <=? BitLen (Addr4 a))%Z) eqn:E; [|done].
    injection En as <-. bool_to_prop. cbn [BitLen] in *. lia. }
  exists a, n. rewrite PrefixFrom_v4 by done. split; [done|]. split; [by eapply parse4_range, ParseAddr_v4|done].
Qed.

Lemma parseRouteTarget_net4 v p : parseRouteTarget v = Ok p -> net4 p.
Proof.
  unfold parseRouteTarget. set (single := match ParseAddr (TrimSpace v) with Some (Addr4 a) => _ | _ => _ end).
  assert (single = Ok p -> net4 p) as Hs.
  { unfold single. destruct (ParseAddr (TrimSpace v)) as [[|a|]|] eqn:Ea; try done. intros [= <-].
    rewrite PrefixFrom_v4 by lia. pose proof (parse4_range _ _ (ParseAddr_v4 _ _ Ea)).
    exists a, 32%Z. split; [done|]. split; [done|]. split; [lia|]. unfold network_part.
    by rewrite Z.sub_diag, Z.shiftr_0_r, Z.shiftl_0_r. }
  destruct (ParsePrefix (TrimSpace v)) as [q|] eqn:E; [|done]. destruct (Is4 (PAddr q)) eqn:E4; [|done].
  destruct (ParsePrefix_v4 _ _ E E4) as (a & n & -> & Ha & Hn). intros [= <-]. by apply Masked_net4.
Qed.

Lemma string4_chars v : exists c r, string4 v = String c r /\ is_digit c = true.
Proof.
  unfold string4. pose proof (byte_of_range v 3) as Hb.
  pose proof (Itoa_digits (byte_of v 3) ltac:(lia)) as Hd. pose proof (Itoa_nonempty (byte_of v 3) ltac:(lia)) as Hn.
  destruct (Itoa (byte_of v 3)) as [|c r]; [done|]. rewrite append_cons. cbn [all_chars] in Hd. bool_to_prop. eauto.
Qed.

Lemma string4_lacks v : lacks "/" (string4 v) = true.
Proof.
  unfold string4. rewrite !lacks_app.
  assert (forall i, lacks "/" (Itoa (byte_of v i)) = true) as Hi.
  { intros i. pose proof (byte_of_range v i) as Hb. pose proof octet_all as Ha. rewrite forallb_elem in Ha.
    specialize (Ha (byte_of v i)). rewrite elem_of_seqZ in Ha. specialize (Ha ltac:(lia)). by bool_to_prop. }
  rewrite !Hi. done.
Qed.

Lemma bits_values :
  forallb (fun n => bool_decide (prefix_bits (Addr4 0) (Itoa n) = Some n) && lacks "/" (Itoa n)) (seqZ 0 33) = true.
Proof. vm_compute. reflexivity. Qed.

Lemma bits_text a n : (0 <= n <= 32)%Z -> prefix_bits (Addr4 a) (Itoa n) = Some n /\ lacks "/" (Itoa n) = true.
Proof.
  intros H. pose proof bits_values as Ha. rewrite forallb_elem in Ha. specialize (Ha n).
  rewrite elem_of_seqZ in Ha. specialize (Ha ltac:(lia)). by bool_to_prop.
Qed.

Lemma PrefixString_v4 a n : (0 <= n <= 32)%Z ->
  PrefixString (mkPrefix (Addr4 a) n) = string4 a +:+ String "/" (Itoa n).
Proof.
  intros H. unfold PrefixString, PrefixIsValid. cbn [PBits PAddr AddrString].
  by rewrite (proj2 (Z.leb_le 0 n)) by lia.
Qed.

Lemma ParsePrefix_PrefixString p : net4 p -> ParsePrefix (PrefixString p) = Some p.
Proof.
  intros (a & n & -> & Ha & Hn & _). rewrite PrefixString_v4 by done. destruct (bits_text a n Hn) as [Hb Hl].
  unfold ParsePrefix, cut_last. rewrite rev_string_app, rev_string_cons, <- append_assoc, append_cons, append_nil_l.
  rewrite Cut_sep by (by rewrite lacks_rev). rewrite !rev_string_involutive, ParseAddr_string4 by done.
  rewrite Hb. cbn [fmap option_fmap option_map]. by rewrite PrefixFrom_v4.
Qed.

(** A text with no white space at its ends comes back from uci as it is. *)
Definition solid_ends (s : string) : Prop := first_solid s = true /\ first_solid (rev_string s) = true.

Lemma TrimSpace_ends s : solid_ends s -> TrimSpace s = s.
Proof. intros [H1 H2]. by apply TrimSpace_solid. Qed.

Lemma plain_ends s : solid_ends s -> nonempty s = true -> plain s.
Proof.
  intros [H1 H2] Hn. split; [done|]. unfold TrimSpace, trim_right.
  destruct s as [|c r]; [done|]. rewrite append_cons, trim_left_solid by done.
  rewrite <- append_cons, rev_string_app. change (rev_string newline) with newline.
  unfold newline. rewrite append_cons, append_nil_l. cbn [trim_left_rev].
  change (space1 "010") with true. cbn [negb]. destruct (rev_string (String c r)) as [|d t] eqn:E.
  - apply (f_equal rev_string) in E. by rewrite rev_string_involutive in E.
  - by rewrite trim_left_rev_solid, <- E, rev_string_involutive.
Qed.

Lemma Itoa_ends n : (0 <= n)%Z -> solid_ends (Itoa n).
Proof.
  intros H. pose proof (Itoa_digits n H) as Hd. split; apply digits_first_solid; [done|by rewrite all_chars_rev].
Qed.

Lemma first_solid_app a b : nonempty a = true -> first_solid a = true -> first_solid (a +:+ b) = true.
Proof. intros Hn Ha. destruct a; [done|]. by rewrite append_cons. Qed.

Lemma last_solid_app a b :
  nonempty b = true -> first_solid (rev_string b) = true -> first_solid (rev_string (a +:+ b)) = true.
Proof.
  intros Hn Hb. rewrite rev_string_app. apply first_solid_app; [|done].
  destruct (rev_string b) as [|c r] eqn:E; [|done].
  apply (f_equal rev_string) in E. rewrite rev_string_involutive in E. by rewrite E in Hn.
Qed.

Lemma string4_nonempty v : nonempty (string4 v) = true.
Proof. by destruct (string4_chars v) as (c & r & -> & _). Qed.

Lemma string4_ends v : solid_ends (string4 v).
Proof.
  split; [destruct (string4_chars v) as (c & r & -> & Hc); by apply digit_solid|].
  unfold string4. pose proof (byte_of_range v 0) as H0.
  pose proof (Itoa_nonempty (byte_of v 0) ltac:(lia)) as Hn. destruct (Itoa_ends (byte_of v 0)) as [_ He]; [lia|].
  rewrite !(append_assoc _ _ (Itoa (byte_of v 0))). rewrite !append_assoc. apply last_solid_app; [|done].
  by destruct (Itoa (byte_of v 0)).
Qed.

Lemma PrefixString_ends p : net4 p -> solid_ends (PrefixString p) /\ nonempty (PrefixString p) = true.
Proof.
  intros (a & n & -> & _ & Hn & _). rewrite PrefixString_v4 by done.
  destruct (string4_ends a) as [H1 _]. pose proof (string4_nonempty a) as Hs.
  destruct (Itoa_ends n) as [_ H2]; [lia|]. split; [split|].
  - by apply first_solid_app.
  - change (String "/" (Itoa n)) with ("/" +:+ Itoa n). rewrite append_assoc.
    apply last_solid_app; [apply Itoa_nonempty; lia|done].
  - destruct (string4_chars a) as (c & r & -> & _). by rewrite append_cons.
Qed.

(** The two spellings of a target. *)
Lemma routeTarget_cidr p netmask : net4 p -> routeTarget (PrefixString p) netmask = (p, false).
Proof.
  intros Hp. destruct (PrefixString_ends p Hp) as [He Hn]. unfold routeTarget.
  by rewrite TrimSpace_ends, Hn, ParsePrefix_PrefixString, Masked_id by done.
Qed.

Lemma netmask_text n : (0 <= n <= 32)%Z ->
  nonempty (netmaskOf n) = true /\ ParseAddr (netmaskOf n) = Some (Addr4 (netmask_value (Z.to_nat n))) /\
  maskBits (netmask_value (Z.to_nat n)) = n.
Proof.
  intros H. unfold netmaskOf. rewrite ParseAddr_string4 by (apply netmask_range; lia).
  rewrite maskBits_netmask by lia. destruct (string4_chars (netmask_value (Z.to_nat n))) as (c & r & -> & _).
  split_and!; try done. lia.
Qed.

Lemma routeTarget_netmask p : net4 p ->
  routeTarget (AddrString (PAddr p)) (netmaskOf (PBits p)) = (p, true).
Proof.
  intros Hp. pose proof (Masked_id p Hp) as Hm. destruct Hp as (a & n & -> & Ha & Hn & _).
  cbn [PAddr PBits AddrString] in *. destruct (netmask_text n Hn) as (He & Hpa & Hb).
  unfold routeTarget. rewrite TrimSpace_ends, string4_nonempty by apply string4_ends.
  cbn [negb]. assert (ParsePrefix (string4 a) = None) as ->.
  { unfold ParsePrefix, cut_last. pose proof (string4_lacks a) as Hl. rewrite <- lacks_rev in Hl.
    destruct (Cut "/" (rev_string (string4 a))) as [[x y]|] eqn:Ec; [|done].
    apply Cut_Some in Ec as [Ec _]. rewrite Ec, lacks_app, lacks_cons, andb_comm in Hl. by bool_to_prop. }
  rewrite ParseAddr_string4 by done. cbn [Is4]. rewrite He. cbn [andb]. rewrite Hpa, Hb.
  rewrite (proj2 (Z.ltb_ge n 0)) by lia. by rewrite PrefixFrom_v4, Hm.
Qed.

(** A setting that is settled: the option has the value, or reads as absent. *)
Lemma settled_set k v l b : settled (set_to k v l) b = true -> b = v.
Proof. unfold settled. cbn. intros H. by bool_to_prop. Qed.

Lemma settled_unset k a l b : settled (unset k a l) b = true -> b = "" \/ (b = a /\ a <> "").
Proof.
  unfold settled. cbn. rewrite orb_false_r. destruct b; [by left|]. cbn. intros H. bool_to_prop. right.
  split; [done|]. by intros ->.
Qed.

Definition optionKey (sid k : string) : string := "network." +:+ sid +:+ "." +:+ k.

Lemma settingKey_network sid s : settingKey "network" sid s = optionKey sid (sKey s).
Proof. done. Qed.

#[local] Instance optionKey_inj sid : Inj (=) (=) (optionKey sid).
Proof. intros a b H. unfold optionKey in H. by repeat apply append_inj_l in H. Qed.

(** No gateway, or an IPv4 address. *)
Definition gateway4 (g : Addr) : Prop := g = NoAddr \/ exists a, g = Addr4 a /\ (0 <= a < 2 ^ 32)%Z.

Section RouteSets.
Context (form : bool) (iface : string) (prefix : Prefix) (gateway : Addr) (metric : Z) (name : string) (enabled : bool).

Abbreviation sets := (routeSets form iface prefix gateway metric name enabled).

Lemma routeSets_keys : NoDup (sKey <$> sets).
Proof.
  apply (bool_decide_unpack _).
  destruct form, (IsValid gateway) eqn:Eg, (metric =? 0)%Z eqn:Em, (nonempty name) eqn:En, enabled;
    unfold routeSets; rewrite Eg, Em, En; vm_compute; exact I.
Qed.

Lemma routeSets_options s : s ∈ sets -> sKey s ∈ routeOptions.
Proof.
  unfold routeSets, routeOptions. destruct form, (IsValid gateway), (metric =? 0)%Z, (nonempty name), enabled;
    intros Hs; set_unfold; destruct_or?; subst; cbn; tauto.
Qed.

(** What is written can be written: each value comes back as it is. *)
Lemma routeSets_ok sid :
  net4 prefix -> gateway4 gateway -> plain iface -> (name = "" \/ plain name) ->
  (0 <= metric)%Z -> lacks "=" sid = true -> Forall (setting_ok "network" sid) sets.
Proof.
  intros Hp Hg Hi Hn Hm Hs.
  assert (forall s, lacks "=" (sKey s) = true -> (sRemove s = false -> plain (sValue s)) ->
            setting_ok "network" sid s) as Hok.
  { intros s Hk Hv. split; [done|]. rewrite settingKey_network. unfold optionKey. split.
    - by rewrite !lacks_app, Hs, Hk.
    - intros E. apply (f_equal String.length) in E. rewrite !append_length in E. cbn in E. lia. }
  unfold routeSets. apply Forall_app. split; [|apply Forall_app; split].
  - apply Forall_singleton. by apply Hok.
  - destruct Hp as (a & n & E & Hr & Hb & Hm4). destruct form; repeat apply Forall_cons_2; try apply Forall_nil_2; apply Hok; try done.
    + intros _. rewrite E. apply plain_ends; [apply string4_ends|apply string4_nonempty].
    + intros _. apply plain_ends; [apply string4_ends|apply string4_nonempty].
    + intros _. assert (net4 prefix) as H4 by (by exists a, n). destruct (PrefixString_ends _ H4) as [H1 H2].
      by apply plain_ends.
  - repeat apply Forall_cons_2; try apply Forall_nil_2.
    + destruct Hg as [->|(a & -> & _)]; apply Hok; try done.
      intros _. apply plain_ends; [apply string4_ends|apply string4_nonempty].
    + destruct (metric =? 0)%Z; apply Hok; try done. intros _.
      apply plain_ends; [by apply Itoa_ends|by apply Itoa_nonempty].
    + destruct Hn as [->|Hn]; [by apply Hok|]. rewrite (proj1 Hn). by apply Hok.
    + destruct enabled; apply Hok; done.
Qed.
End RouteSets.

(** What passes the checks of the request. *)
Lemma checkRoute_Ok cfg name prefix gateway : checkRoute cfg = Ok (name, prefix, gateway) ->
  name = TrimSpace (scName cfg) /\ (0 <= scMetric cfg <= 65535)%Z /\ net4 prefix /\ gateway4 gateway.
Proof.
  unfold checkRoute. destruct (bad_name _); [done|].
  destruct ((scMetric cfg <? 0)%Z || (65535 <? scMetric cfg)%Z) eqn:Em; [done|]. bool_to_prop.
  unfold RefuseRes. destruct (parseRouteTarget (scTarget cfg)) as [p|e] eqn:Ep; [|done]. cbn [res_bind].
  pose proof (parseRouteTarget_net4 _ _ Ep) as Hp.
  destruct (nonempty (TrimSpace (scGateway cfg))) eqn:Eg; cbn [negb].
  - destruct (ParseAddr (TrimSpace (scGateway cfg))) as [[|a|]|] eqn:Ea; try done. intros [= <- <- <-].
    split; [done|]. split; [lia|]. split; [done|]. right. exists a. split; [done|].
    by eapply parse4_range, ParseAddr_v4.
  - intros [= <- <- <-]. split; [done|]. split; [lia|]. split; [done|]. by left.
Qed.

Section ReadBack.
Context (form : bool) (iface : string) (prefix : Prefix) (gateway : Addr) (metric : Z) (name : string) (enabled : bool).
Context (o : gmap string string).
Hypothesis set_there : forall s, s ∈ routeSets form iface prefix gateway metric name enabled -> settled s (get o (sKey s)) = true.

Lemma set_reads k v : routeSet k v ∈ routeSets form iface prefix gateway metric name enabled -> get o k = v.
Proof. intros H. exact (settled_set k v _ _ (set_there _ H)). Qed.

Lemma unset_reads k a : unset k a (routeLabel k) ∈ routeSets form iface prefix gateway metric name enabled ->
  get o k = "" \/ (get o k = a /\ a <> "").
Proof. intros H. exact (settled_unset k a _ _ (set_there _ H)). Qed.

Lemma read_routeTarget : net4 prefix -> routeTarget (get o "target") (get o "netmask") = (prefix, form).
Proof.
  intros Hp. pose proof set_reads as Hs. pose proof unset_reads as Hu. unfold routeSets in Hs, Hu. destruct form.
  - rewrite (Hs "target" (AddrString (PAddr prefix))), (Hs "netmask" (netmaskOf (PBits prefix))) by set_solver.
    by apply routeTarget_netmask.
  - rewrite (Hs "target" (PrefixString prefix)) by set_solver. by apply routeTarget_cidr.
Qed.

Lemma read_interface : get o "interface" = iface.
Proof. apply set_reads. unfold routeSets. set_solver. Qed.

Lemma read_gateway : gateway4 gateway -> default NoAddr (ParseAddr (get o "gateway")) = gateway.
Proof.
  pose proof set_reads as Hs. pose proof unset_reads as Hu. unfold routeSets in Hs, Hu. intros [->|(a & -> & Ha)]; cbn [IsValid] in Hs, Hu.
  - destruct (Hu "gateway" "") as [E|[_ E]]; [set_solver| |done]. by rewrite E.
  - rewrite (Hs "gateway" (AddrString (Addr4 a))) by set_solver. cbn [AddrString]. by rewrite ParseAddr_string4.
Qed.

Lemma read_metric : (0 <= metric <= 65535)%Z -> default 0%Z (Atoi (get o "metric")) = metric.
Proof.
  pose proof set_reads as Hs. pose proof unset_reads as Hu. unfold routeSets in Hs, Hu. intros Hm. destruct (metric =? 0)%Z eqn:E0; bool_to_prop.
  - subst metric. destruct (Hu "metric" "0") as [E|[E _]]; [set_solver| |]; by rewrite E.
  - rewrite (Hs "metric" (Itoa metric)) by set_solver.
    rewrite Atoi_Itoa; [done|]. unfold in_int, int_min, int_max. rewrite andb_true_iff, !Z.leb_le. lia.
Qed.

Lemma read_has_metric : (0 <= metric <= 65535)%Z ->
  bool_decide (Atoi (get o "metric") <> None) = bool_decide (get o "metric" <> "").
Proof.
  pose proof set_reads as Hs. pose proof unset_reads as Hu. unfold routeSets in Hs, Hu.
  intros Hm. destruct (metric =? 0)%Z eqn:E0; bool_to_prop.
  - subst metric. destruct (Hu "metric" "0") as [E|[E _]]; [set_solver| |]; by rewrite E.
  - rewrite (Hs "metric" (Itoa metric)) by set_solver. rewrite Atoi_Itoa.
    + pose proof (Itoa_nonempty metric ltac:(lia)) as Hn. by destruct (Itoa metric).
    + unfold in_int, int_min, int_max. rewrite andb_true_iff, !Z.leb_le. lia.
Qed.

Lemma read_name : get o "name" = name.
Proof.
  pose proof set_reads as Hs. pose proof unset_reads as Hu. unfold routeSets in Hs, Hu. destruct (nonempty name) eqn:E.
  - apply Hs. set_solver.
  - destruct (Hu "name" "") as [En|[_ En]]; [set_solver| |done]. rewrite En. by destruct name.
Qed.

Lemma read_disabled : bool_decide (get o "disabled" = "1") = negb enabled.
Proof.
  pose proof set_reads as Hs. pose proof unset_reads as Hu. unfold routeSets in Hs, Hu. destruct enabled; cbn [negb].
  - destruct (Hu "disabled" "0") as [E|[E _]]; [set_solver| |]; by rewrite E.
  - by rewrite (Hs "disabled" "1") by set_solver.
Qed.
End ReadBack.

Lemma nothing_unsupported o p : net4 p -> dom o ⊆ list_to_set routeOptions -> unsupported_of o p = [].
Proof.
  intros (a & n & -> & _ & Hn & _) Hd. unfold unsupported_of. unfold PrefixIsValid. cbn [PBits].
  rewrite (proj2 (Z.leb_le 0 n)) by lia. rewrite app_nil_r.
  assert (filter (fun k => k ∉ routeOptions) (elements (dom o)) = []) as ->; [|done].
  apply elem_of_nil_inv. intros k [Hk Hin]%list_elem_of_filter. apply Hk.
  apply elem_of_elements in Hin. apply Hd in Hin. by apply elem_of_list_to_set in Hin.
Qed.

(** What is written is what is read: once a route's settings are staged in
    a section of the draft, whichever way its target is spelled, the reader of
    the routes screen finds in that section the network, gateway, connection,
    metric, name and switch that were asked for, and nothing it cannot show. *)
Theorem written_route_reads_back {W} (h : router W) `{!DraftStore h} (w : W)
    (cfg : StaticRouteConfig) name prefix gateway form iface sid (o : gmap string string) :
  checkRoute cfg = Ok (name, prefix, gateway) ->
  plain iface -> (name = "" \/ plain name) -> sectionOk sid = true -> lacks "=" sid = true ->
  is_Some (draft w !! ("network." +:+ sid)) ->
  let p := stage "network" sid (routeSets form iface prefix gateway (scMetric cfg) name (scEnabled cfg)) in
  (forall k, k ∈ routeOptions -> get o k = reading (draft (after h p w)) (optionKey sid k)) ->
  dom o ⊆ list_to_set routeOptions ->
  is_ok (result h p w) = true /\
  route_of sid "route" o =
    mkRouteSection sid name (negb (scEnabled cfg)) "ipv4" prefix (get o "target") gateway iface
      (scMetric cfg) (bool_decide (get o "metric" <> "")) form [].
Proof.
  intros Hc Hi Hn Hsid Hl Hsec p Ho Hd. destruct (checkRoute_Ok _ _ _ _ Hc) as (_ & Hm & Hp & Hg).
  set (sets := routeSets form iface prefix gateway (scMetric cfg) name (scEnabled cfg)) in *.
  assert (NoDup (written "network" sid sets)) as Hnd.
  { assert (written "network" sid sets = optionKey sid <$> (sKey <$> sets)) as -> by (by rewrite <- list_fmap_compose).
    apply NoDup_fmap_2; [apply _|]. apply routeSets_keys. }
  destruct (stageSets_spec h "network" sid sets w Hsec) as (Hr & Hs & _); [|done|].
  { apply routeSets_ok; try done; lia. }
  assert (p = stageSets "network" sid sets) as Ep by (unfold p, stage; by rewrite Hsid).
  rewrite Ep in *. rewrite Hr. split; [done|].
  assert (forall s, s ∈ sets -> settled s (get o (sKey s)) = true) as Hset.
  { intros s Hin. rewrite Ho; [by apply Hs|]. unfold sets in Hin. by eapply routeSets_options. }
  unfold route_of. rewrite (read_routeTarget _ _ _ _ _ _ _ _ Hset) by done.
  by rewrite (read_name _ _ _ _ _ _ _ _ Hset), (read_disabled _ _ _ _ _ _ _ _ Hset),
    (read_gateway _ _ _ _ _ _ _ _ Hset), (read_interface _ _ _ _ _ _ _ _ Hset),
    (read_metric _ _ _ _ _ _ _ _ Hset), (read_has_metric _ _ _ _ _ _ _ _ Hset), nothing_unsupported by done.
Qed.

Definition office : StaticRouteConfig := mkStaticRouteConfig "" " Office " true "10.8.0.77/24" "192.168.1.2" "" 20.

Definition office_draft : gmap string string :=
  list_to_map [("network.office", "route"); ("network.office.metric", "5"); ("network.office.disabled", "1")].

Definition office_section : gmap string string :=
  list_to_map [("interface", "lan"); ("target", "10.8.0.0"); ("netmask", "255.255.255.0");
               ("gateway", "192.168.1.2"); ("metric", "20"); ("name", "Office")].

Definition office_prefix : Prefix := mkPrefix (Addr4 168296448) 24.

Lemma written_route_reads_back_witness :
  checkRoute office = Ok ("Office", office_prefix, Addr4 3232235778) /\
  let p := stage "network" "office" (routeSets true "lan" office_prefix (Addr4 3232235778) 20 "Office" true) in
  is_ok (result memory p office_draft) = true /\
  route_of "office" "route" office_section =
    mkRouteSection "office" "Office" false "ipv4" office_prefix "10.8.0.0" (Addr4 3232235778) "lan" 20 true true [].
Proof.
  split; [vm_compute; reflexivity|].
  refine (written_route_reads_back memory office_draft office "Office" office_prefix (Addr4 3232235778) true "lan"
            "office" office_section _ _ _ _ _ _ _ _).
  - vm_compute. reflexivity.
  - split; vm_compute; reflexivity.
  - right. split; vm_compute; reflexivity.
  - reflexivity.
  - reflexivity.
  - vm_compute. by eexists.
  - apply Forall_forall. repeat apply Forall_cons_2; try apply Forall_nil_2; vm_compute; reflexivity.
  - apply (bool_decide_unpack _). vm_compute. exact I.
Defined.
