(* ===== verification/RoutesSafety.v ===== *)
(** * What an accepted route cannot do

    A route that [StageStaticRoute] of internal/adapters/openwrt/routes_write.go
    accepts leaves through a connection that can carry it, and takes over no
    route that is there already. With it, the promises every request keeps. *)

From S2P Require Import Prelude GoStrings GoNet Effects Network Uci Firewall Stage Discipline StageThms Lan LanThms FirewallWrite Routes RoutesWrite RoutesThms.

(** ** What the requests do to the router *)

Lemma kernelRoutes_staging : calls staging kernelRoutes.
Proof. unfold kernelRoutes, readProc. solve_calls. Qed.
Lemma routeInterfaces_staging m : calls staging (routeInterfaces m).
Proof. unfold routeInterfaces. solve_calls. Qed.
Lemma ownRoutes_staging m s : calls staging (ownRoutes m s).
Proof.
  unfold ownRoutes, committedRouteSections. destruct (negb _); [exact I|].
  apply calls_bind; [|by intros]. apply withCommitted_staging. intros d a. solve_calls.
Qed.
#[export] Hint Resolve kernelRoutes_staging routeInterfaces_staging ownRoutes_staging : staging.

Lemma routeClash_staging m s p n l im i : calls staging (routeClash m s p n l im i).
Proof. unfold routeClash. solve_calls. Qed.
#[export] Hint Resolve routeClash_staging : staging.

Lemma StageStaticRoute_staging m cfg : calls staging (StageStaticRoute m cfg).
Proof. unfold StageStaticRoute. solve_calls. Qed.
Lemma RemoveStaticRoute_staging m i : calls staging (RemoveStaticRoute m i).
Proof. unfold RemoveStaticRoute. solve_calls. Qed.
#[export] Hint Resolve StageStaticRoute_staging RemoveStaticRoute_staging : staging.

Lemma kernelRoutes_quiet : calls quiet kernelRoutes.
Proof. unfold kernelRoutes, readProc. solve_quiet. Qed.
Lemma routeInterfaces_quiet m : calls quiet (routeInterfaces m).
Proof. unfold routeInterfaces. solve_quiet. Qed.
Lemma ownRoutes_quiet m s : calls quiet (ownRoutes m s).
Proof.
  unfold ownRoutes, committedRouteSections. destruct (negb _); [exact I|].
  apply calls_bind; [|by intros]. apply withCommitted_quiet. intros d a. solve_quiet.
Qed.
#[export] Hint Resolve kernelRoutes_quiet routeInterfaces_quiet ownRoutes_quiet : quiet.

Lemma routeClash_quiet m s p n l im i : calls quiet (routeClash m s p n l im i).
Proof. unfold routeClash. solve_quiet. Qed.
#[export] Hint Resolve routeClash_quiet : quiet.

Lemma RemoveStaticRoute_tidy m rid : tidy "network" (RemoveStaticRoute m rid).
Proof.
  unfold RemoveStaticRoute. destruct (negb _); [apply tidy_Ret|]. destruct (negb _); [apply tidy_Ret|].
  tidy_step. destruct (find_last _ _) as [target|]; [|apply tidy_Ret].
  apply delete_then_tidy; [apply _|]. by apply (config_of_entry "network").
Qed.

(** The rows of the edited route, or the one row of a new one. *)
Lemma route_rows_tidy section sets (current : option routeSection) rows s s0 :
  within "network" s s0 -> sectionOk section = true \/ s0 ⊆ s ->
  obs s0 (let! changes := stage "network" section sets in
          match current with
          | Some r => Ret (Ok (withSubject changes (entrySubject (rtName r)
                        (routeWords (PrefixString (rtPrefix r)) (addrString (rtGateway r)) (rtIface r)))))
          | None => Ret (Ok rows)
          end)
    (fun s' r => if is_ok r then within "network" s s' else s' ⊆ s).
Proof.
  intros H0 Hs. destruct current as [r|]; [|exact (stage_then_obs "network" section sets s s0 (fun _ => rows) H0 Hs)].
  by apply stage_then_obs; [apply _|..].
Qed.

Lemma StageStaticRoute_tidy m cfg : tidy "network" (StageStaticRoute m cfg).
Proof.
  unfold StageStaticRoute. destruct (negb (runs m)); [apply tidy_Ret|].
  apply tidy_after_try; [done|]. intros [[name prefix] gateway].
  apply tidy_after_try; [solve_quiet|]. intros out. destruct (parseRouteSections out) as [sections im].
  apply tidy_after; [solve_quiet|]. intros ifaces. cbv zeta.
  apply tidy_after_try; [done|]. intros current.
  apply tidy_after_try; [done|]. intros iface.
  apply tidy_after_try; [done|]. intros _.
  apply tidy_after_try; [solve_quiet|]. intros _.
  destruct (negb (nonempty (TrimSpace (scID cfg)))).
  - apply add_then_tidy; [apply _|]. intros section s s0 Hs H0. apply route_rows_tidy; [done|].
    left. unfold sectionOk. by rewrite Hs.
  - intros s. apply wp_bind. cbn [wp]. apply route_rows_tidy; [apply within_refl|by right].
Qed.

(** ** What was checked *)

(** The connection can carry the route: it is there, and the gateway, when one
    is given, is a host on one of its networks - unless the connection has no
    IPv4 network to check it against. *)
Definition carries (ifaces : list routeInterface) (iface : string) (gateway : Addr) : Prop :=
  exists i, i ∈ ifaces /\ ifName i = iface /\
    (IsValid gateway = true -> onNetwork gateway (ifIPv4 i) = true \/ checkable (ifIPv4 i) = false).

Lemma routeInterfaceFor_carries name gateway ifaces iface :
  routeInterfaceFor name gateway ifaces = Ok iface -> carries ifaces iface gateway.
Proof.
  unfold routeInterfaceFor. destruct (negb (nonempty name)).
  - destruct (IsValid gateway); [|done]. cbn [negb]. destruct (find_first _ ifaces) as [i|] eqn:E; [|done].
    intros [= <-]. apply find_first_Some in E as [Hi Ho]. exists i. auto.
  - destruct (sectionNameRe name); [|done]. cbn [negb].
    destruct (find_last _ ifaces) as [i|] eqn:E; [|done].
    apply find_last_Some in E as [Hi Hn%String.eqb_eq].
    destruct (IsValid gateway) eqn:Ev; cbn [negb].
    2: { intros [= <-]. exists i. split; [done|]. split; [done|]. by rewrite Ev. }
    destruct (existsb _ _); [done|].
    destruct (checkable (ifIPv4 i)) eqn:Ec, (onNetwork gateway (ifIPv4 i)) eqn:Eo; cbn [andb negb]; [|done|..];
      intros [= <-]; exists i; auto.
Qed.

(** No other route that is on has this network and metric in [sections], and
    whatever the kernel has with them is the route [own] that is edited. *)
Definition free (section : string) (prefix : Prefix) (metric : Z) (sections own : list routeSection)
    (kernel : list kernelRoute) (ifaceMetric : gmap string Z) (ifaces : list routeInterface) : Prop :=
  (forall r, r ∈ sections -> rtID r <> section -> rtDisabled r = false -> rtFamily r = "ipv4" ->
     rtPrefix r = prefix -> effectiveMetric r ifaceMetric <> metric) /\
  (forall k, k ∈ kernel -> kPrefix k = prefix -> kMetric k = metric ->
     exists r, r ∈ own /\ rtDisabled r = false /\
       matches r k (get (devicesOf ifaces) (rtIface r)) ifaceMetric = true).

Lemma clash_free section prefix metric sections own kernel im ifaces :
  clash section prefix metric sections own kernel im ifaces = Ok tt ->
  free section prefix metric sections own kernel im ifaces.
Proof.
  unfold clash. destruct (find_first _ sections) as [r|] eqn:Es; [done|].
  destruct (find_first _ kernel) as [k|] eqn:Ek; [done|]. intros _.
  apply find_first_None in Es, Ek. rewrite Forall_forall in Es. rewrite Forall_forall in Ek. split.
  - intros r Hr Hid Hd Hf Hp Hm. specialize (Es r Hr). unfold claims in Es.
    rewrite (proj2 (String.eqb_neq _ _) Hid), Hd, Hf, Hp, Hm, bool_decide_eq_true_2, Z.eqb_refl in Es by done.
    done.
  - intros k Hk Hp Hm. specialize (Ek k Hk). unfold foreign in Ek.
    rewrite (bool_decide_eq_false_2 (kPrefix k <> prefix)), Hm, Z.eqb_refl in Ek by (by intros []).
    cbn [orb negb] in Ek. apply negb_false_iff, existsb_exists in Ek as (r & Hr & Hx). bool_to_prop.
    exists r. split; [by apply list_elem_of_In|done].
Qed.

(** The section that is edited, as the router has it on disk. *)
Definition own_section (section : string) (l : list event) (own : list routeSection) : Prop :=
  own = [] \/ section <> "" /\ exists dir out,
    Did (Exec ["uci"; "-q"; "-c"; dir; "show"; committedPrefix +:+ "network"]) (Ok out) ∈ l /\
    own = filter (fun r => rtID r = section) (parseRouteSections out).1.

Lemma own_section_mono section l l' own :
  (forall e, e ∈ l -> e ∈ l') -> own_section section l own -> own_section section l' own.
Proof. intros Hl [->|(Hs & dir & out & He & ->)]; [by left|]. right. eauto 10. Qed.

Lemma kernelRoutes_hearing l :
  hearing l kernelRoutes (fun l' kernel => (forall e, e ∈ l -> e ∈ l') /\ exists raw4 raw6,
    Did (ReadFile procRoute4) raw4 ∈ l' /\ Did (ReadFile procRoute6) raw6 ∈ l' /\ kernel = kernelTable raw4 raw6).
Proof.
  split; [done|]. intros raw4. split; [done|]. intros raw6. unfold heard. cbn. split; [set_solver|].
  exists raw4, raw6. split_and!; [set_solver..|done].
Qed.

Lemma ownRoutes_hearing m section l :
  hearing l (ownRoutes m section) (fun l' own => (forall e, e ∈ l -> e ∈ l') /\ own_section section l' own).
Proof.
  unfold ownRoutes. destruct (nonempty section) eqn:En; cbn [negb]; [|split; [done|by left]].
  eapply hearing_seq with (R := fun l' r => (forall e, e ∈ l -> e ∈ l') /\
    forall own, r = Ok own -> exists dir out,
      Did (Exec ["uci"; "-q"; "-c"; dir; "show"; committedPrefix +:+ "network"]) (Ok out) ∈ l' /\
      own = (parseRouteSections out).1).
  2: { intros l' [own|e] [Hl Hr]; cbn; (split; [done|]); [|by left]. right. split; [by intros ->|].
       destruct (Hr own eq_refl) as (dir & out & He & ->). eauto. }
  unfold committedRouteSections, withCommitted. cbn [negb sectionNameRe]. change (negb (sectionNameRe "network")) with false.
  cbv iota zeta. split; [done|]. intros [dir|e]; cbn; [|split; [unfold heard; set_solver|done]].
  split; [done|]. intros [|e]; cbn; [|split; [done|]; intros r; split; [unfold heard; set_solver|done]].
  split; [done|]. intros [out|e]; cbn; (split; [done|]; intros r; unfold heard; split; [set_solver|]); [|done].
  intros own [= <-]. exists dir, out. split; [set_solver|done].
Qed.

Lemma routeClash_hearing m section prefix metric sections im ifaces l :
  hearing l (routeClash m section prefix metric sections im ifaces) (fun l' r => (forall e, e ∈ l -> e ∈ l') /\
    forall u, r = Ok u -> exists raw4 raw6 own,
      Did (ReadFile procRoute4) raw4 ∈ l' /\ Did (ReadFile procRoute6) raw6 ∈ l' /\ own_section section l' own /\
      free section prefix metric sections own (kernelTable raw4 raw6) im ifaces).
Proof.
  unfold routeClash. destruct (find_first _ sections) as [r|] eqn:Es; [by split|].
  eapply hearing_seq; [apply ownRoutes_hearing|]. intros l1 own [Hl1 Hown].
  eapply hearing_seq; [apply kernelRoutes_hearing|]. intros l2 kernel (Hl2 & raw4 & raw6 & H4 & H6 & ->).
  split; [auto|]. intros [] Hc. exists raw4, raw6, own. split_and!; try done.
  - by eapply own_section_mono.
  - by apply clash_free in Hc.
Qed.

Lemma routeInterfaces_hearing m l :
  hearing l (routeInterfaces m) (fun l' ifaces => (forall e, e ∈ l -> e ∈ l') /\
    (ifaces = [] \/ exists raw, Did BusInterfaces (Ok raw) ∈ l' /\
       ifaces = routeConnections (sort_by by_name (toCoreInterface <$> raw)))).
Proof.
  unfold routeInterfaces, Interfaces. destruct (negb (bus m)); [split; [done|by left]|].
  split; [done|]. intros [raw|e]; cbn; unfold heard; (split; [set_solver|]); [|by left].
  right. exists raw. split; [set_solver|done].
Qed.

(** What an answer of Ok to [cfg] says of the calls in [l]: the readings it is
    based on, and what was checked of them. *)
Definition route_checked (cfg : StaticRouteConfig) (l : list event) : Prop :=
  exists name prefix gateway iface out raw,
    let '(sections, im) := parseRouteSections out in
    let ifaces := routeConnections (sort_by by_name (toCoreInterface <$> raw)) in
    let section := TrimSpace (scID cfg) in
    checkRoute cfg = Ok (name, prefix, gateway) /\
    Did (Exec ["uci"; "-q"; "show"; "network"]) (Ok out) ∈ l /\ Did BusInterfaces (Ok raw) ∈ l /\
    carries ifaces iface gateway /\
    (scEnabled cfg = true -> exists raw4 raw6 own,
       Did (ReadFile procRoute4) raw4 ∈ l /\ Did (ReadFile procRoute6) raw6 ∈ l /\ own_section section l own /\
       free section prefix (if (scMetric cfg =? 0)%Z then default 0%Z (im !! iface) else scMetric cfg)
         sections own (kernelTable raw4 raw6) im ifaces).

Lemma route_checked_mono cfg l l' : (forall e, e ∈ l -> e ∈ l') -> route_checked cfg l -> route_checked cfg l'.
Proof.
  intros Hl (name & prefix & gateway & iface & out & raw & H). exists name, prefix, gateway, iface, out, raw.
  destruct (parseRouteSections out) as [sections im]. cbv zeta in *. destruct H as (Hc & H1 & H2 & H3 & H4).
  split_and!; auto. intros He. destruct (H4 He) as (raw4 & raw6 & own & ? & ? & ? & ?).
  exists raw4, raw6, own. split_and!; auto. by eapply own_section_mono.
Qed.


(** ** A small router *)

Definition nl : string := String "010" "".
Definition tab : string := String "009" "".

(** One connection with a metric, one route that is on, and one of a daemon's. *)
Definition home_show : string :=
  "network.lan=interface" +:+ nl +:+ "network.lan.metric='20'" +:+ nl +:+
  "network.office=route" +:+ nl +:+ "network.office.interface='lan'" +:+ nl +:+
  "network.office.target='10.8.0.0/24'" +:+ nl +:+ "network.office.gateway='192.168.1.2'" +:+ nl +:+
  "network.office.metric='0'" +:+ nl.

Definition home_proc : string :=
  Join tab ["Iface"; "Destination"; "Gateway"; "Flags"; "RefCnt"; "Use"; "Metric"; "Mask"] +:+ nl +:+
  Join tab ["br-lan"; "0000090A"; "0301A8C0"; "0003"; "0"; "0"; "0"; "00FFFFFF"; "0"; "0"; "0"] +:+ nl.

Definition home_lan : BusInterface :=
  mkBusInterface "lan" true 60 "static" "br-lan" "br-lan" [mkAddress "192.168.1.1" 24] [] [] [] [].

Definition home_router : router unit :=
  mkRouter unit (fun o w =>
    match o return ans o * unit with
    | Exec ["uci"; "-q"; "show"; "network"] => (Ok home_show, w)
    | Exec ["uci"; "add"; _; _] => (Ok ("cfg0a1b2c" +:+ nl), w)
    | Exec ["uci"; "set"; _] => (Ok "", w)
    | Exec ["uci"; "-q"; "get"; k] => (if decide (k = "network.office.metric") then Ok ("0" +:+ nl) else Err (Errorf "" []), w)
    | BusInterfaces => (Ok [home_lan], w)
    | ReadFile p => (if decide (p = procRoute4) then Ok home_proc else Err (Errorf "" []), w)
    | o => (refuse o, w)
    end).

Definition lab : StaticRouteConfig := mkStaticRouteConfig "" "Lab" true "10.9.1.0/24" "192.168.1.3" "" 0.


(** The check of a route whose section spells out [option metric '0'] looks for
    a clash at the metric of the connection, and the section keeps its 0: the
    kernel's route to the same network with metric 0 goes unnoticed. *)
Definition onto_the_daemons : StaticRouteConfig :=
  mkStaticRouteConfig "office" "" true "10.9.0.0/24" "192.168.1.2" "lan" 0.

Lemma explicit_zero_metric_escapes_the_check :
  is_ok (result home_router (StageStaticRoute a_manager onto_the_daemons) tt) = true /\
  (kMetric <$> parseProcRoute home_proc) = [0%Z] /\
  (PrefixString ∘ kPrefix) <$> parseProcRoute home_proc = ["10.9.0.0/24"] /\
  (let '(sections, im) := parseRouteSections home_show in
   (fun r => effectiveMetric r im) <$> sections) = [0%Z] /\
  Forall (fun e => match e with Did (Exec ["uci"; _; arg]) _ => Contains "metric" arg = false | _ => True end)
    (trace home_router (StageStaticRoute a_manager onto_the_daemons) tt).
Proof. split_and!; try (vm_compute; reflexivity). vm_compute. repeat constructor. Qed.

(** The router's own address is refused as a gateway only where the connection
    is named. *)
Definition to_itself (iface : string) : StaticRouteConfig :=
  mkStaticRouteConfig "" "" true "10.9.1.0/24" "192.168.1.1" iface 0.

Lemma own_address_is_a_gateway_when_unnamed :
  is_ok (result home_router (StageStaticRoute a_manager (to_itself "lan")) tt) = false /\
  is_ok (result home_router (StageStaticRoute a_manager (to_itself "")) tt) = true.
Proof. split; vm_compute; reflexivity. Qed.
