(* ===== verification/Devices.v ===== *)
(** * Devices on the local network: internal/core/devices.go

    The hardware address as the key of a device, the names its owner gives,
    what the panel remembers merged with what the router sees, and the device a
    request came from. With ApplySchedule of internal/core/schedule.go. *)

From S2P Require Import Prelude GoStrings GoNet Schedule.

Definition LinkCable := "cable".
Definition LinkWiFi := "wifi".
Definition LinkUnknown := "unknown".

Definition InternetAllowed := "allowed".
Definition InternetBlocked := "blocked".
Definition InternetScheduled := "scheduled".

Record DeviceLink := mkLink { lKind : string; lBand : string; lSignalDBm : Z }.

(** A pointer field is an option. *)
Record Device := mkDevice {
  dMAC : string; dName : string; dReportedName : string; dIPs : list string; dReservedIP : string;
  dPrivateAddress : bool; dNew : bool; dOnline : bool; dLastSeenSec : option Z; dLink : DeviceLink;
  dInternet : string; dSchedule : option InternetSchedule; dOffBySchedule : bool;
  dScheduleChangeAt : string; dRxBytes : Z; dTxBytes : Z; dHere : bool }.

Record RouterClock := mkClock { cSynced : bool; cNow : string; cWeekday : string; cTimezone : string }.

Record TrafficCounting := mkCounting { tSinceSec : Z; tSinceBoot : bool; tPartial : bool }.

Record DeviceList := mkDeviceList {
  dlDevices : list Device; dlWatchingSec : Z; dlInternetControl : bool; dlWakeControl : bool;
  dlTraffic : option TrafficCounting; dlClock : option RouterClock }.

Record DeviceNote := mkNote { nMAC : string; nName : string; nKnown : bool }.

(** ** The hardware address *)

Definition NormalizeMAC (s : string) : res string :=
  match ParseMAC (TrimSpace s) with
  | Some (b :: hw) =>
      if negb (bool_decide (length (b :: hw) = 6)) then Err (Errorf "%q is not a hardware (MAC) address" [s]) else
      if (Z.land b 1 =? 1)%Z then Err (Errorf "%s is a group address, not a device" [MACString (b :: hw)])
      else Ok (MACString (b :: hw))
  | _ => Err (Errorf "%q is not a hardware (MAC) address" [s])
  end.

Definition IsPrivateMAC (mac : string) : bool :=
  match ParseMAC mac with
  | Some (b :: _) => (Z.land b 2 =? 2)%Z
  | _ => false
  end.

(** ** The name *)

Definition MaxDeviceNameLen : nat := 64.

Definition continuation (lo hi : Z) (c : ascii) : bool := ((lo <=? code c) && (code c <=? hi))%Z.

(** The runes of a string, as [range] reads them: a byte that starts no rune is
    the rune U+FFFD by itself. [fuel] is the length of the string. *)
Fixpoint runes_go (fuel : nat) (s : string) : list Z :=
  match fuel, s with
  | S fuel, String a r =>
      let c := code a in
      let bad := 65533%Z :: runes_go fuel r in
      if (c <? 128)%Z then c :: runes_go fuel r else
      if (c <? 194)%Z then bad else
      if (c <? 224)%Z then
        match r with
        | String b r => if continuation 128 191 b then ((c - 192) * 64 + (code b - 128))%Z :: runes_go fuel r else bad
        | _ => bad
        end
      else if (c <? 240)%Z then
        let lo := if (c =? 224)%Z then 160%Z else 128%Z in
        let hi := if (c =? 237)%Z then 159%Z else 191%Z in
        match r with
        | String b (String d r) =>
            if continuation lo hi b && continuation 128 191 d
            then ((c - 224) * 4096 + (code b - 128) * 64 + (code d - 128))%Z :: runes_go fuel r
            else bad
        | _ => bad
        end
      else if (c <? 245)%Z then
        let lo := if (c =? 240)%Z then 144%Z else 128%Z in
        let hi := if (c =? 244)%Z then 143%Z else 191%Z in
        match r with
        | String b (String d (String e r)) =>
            if continuation lo hi b && continuation 128 191 d && continuation 128 191 e
            then ((c - 240) * 262144 + (code b - 128) * 4096 + (code d - 128) * 64 + (code e - 128))%Z
                   :: runes_go fuel r
            else bad
        | _ => bad
        end
      else bad
  | _, _ => []
  end.

Definition runes (s : string) : list Z := runes_go (String.length s) s.

(** [unicode.IsControl]. *)
Definition IsControl (r : Z) : bool := ((0 <=? r) && (r <=? 31) || (127 <=? r) && (r <=? 159))%Z.

Definition CleanDeviceName (name : string) : res string :=
  let name := TrimSpace name in
  if decide (MaxDeviceNameLen < length (runes name))
  then Err (Errorf "a name can be at most %d characters" ["64"]) else
  if existsb IsControl (runes name)
  then Err (Errorf "a name cannot contain line breaks or control characters" [])
  else Ok name.

(** ** What the panel remembers *)

Definition annotate (d : Device) (n : DeviceNote) : Device :=
  mkDevice (dMAC d) (nName n) (dReportedName d) (dIPs d) (dReservedIP d) (IsPrivateMAC (dMAC d))
    (negb (nonempty (nName n)) && negb (nKnown n)) (dOnline d) (dLastSeenSec d)
    (if nonempty (lKind (dLink d)) then dLink d
     else mkLink LinkUnknown (lBand (dLink d)) (lSignalDBm (dLink d)))
    (if nonempty (dInternet d) then dInternet d else InternetAllowed)
    (dSchedule d) (dOffBySchedule d) (dScheduleChangeAt d) (dRxBytes d) (dTxBytes d) (dHere d).

(** A device of which only the address is known. *)
Definition bareDevice (mac : string) : Device :=
  mkDevice mac "" "" [] "" false false false None (mkLink LinkUnknown "" 0) "" None false "" 0 0 false.

Definition noteOf (notes : list DeviceNote) (mac : string) : DeviceNote :=
  default (mkNote "" "" false) (find_last (fun n => String.eqb (nMAC n) mac) notes).

Definition by_mac (a b : Device) : bool := str_le (dMAC a) (dMAC b).

(** A note of a device that is not seen, worth a line of its own. *)
Definition remembered (seen : list Device) (n : DeviceNote) : bool :=
  negb (existsb (fun d => String.eqb (dMAC d) (nMAC n)) seen) && (nonempty (nName n) || nKnown n).

Definition MergeDevices (seen : list Device) (notes : list DeviceNote) : list Device :=
  sort_by by_mac
    (((fun d => annotate d (noteOf notes (dMAC d))) <$> seen) ++
     ((fun n => annotate (bareDevice (nMAC n)) n) <$> filter (fun n => remembered seen n = true) notes)).

(** [ip.IsLoopback()] on the 16-byte form. *)
Definition IsLoopback (ip : Z) : bool :=
  match To4 ip with Some v => (byte_of v 3 =? 127)%Z | None => (ip =? 1)%Z end.

Definition set_here (d : Device) : Device :=
  mkDevice (dMAC d) (dName d) (dReportedName d) (dIPs d) (dReservedIP d) (dPrivateAddress d) (dNew d)
    (dOnline d) (dLastSeenSec d) (dLink d) (dInternet d) (dSchedule d) (dOffBySchedule d)
    (dScheduleChangeAt d) (dRxBytes d) (dTxBytes d) true.

(** The slice is changed in place: the first device with the address. *)
Fixpoint mark_first (ip : Z) (devices : list Device) : list Device :=
  match devices with
  | [] => []
  | d :: devices =>
      if existsb (fun a => bool_decide (ParseIP a = Some ip)) (dIPs d) then set_here d :: devices
      else d :: mark_first ip devices
  end.

Definition MarkHere (devices : list Device) (from : string) : list Device :=
  match ParseIP from with
  | Some ip => if IsLoopback ip then devices else mark_first ip devices
  | None => devices
  end.

(** ** The schedule against the router's clock *)

Definition set_schedule_state (d : Device) (internet : string) (off : bool) (change : string) : Device :=
  mkDevice (dMAC d) (dName d) (dReportedName d) (dIPs d) (dReservedIP d) (dPrivateAddress d) (dNew d)
    (dOnline d) (dLastSeenSec d) (dLink d) internet (dSchedule d) off change
    (dRxBytes d) (dTxBytes d) (dHere d).

Definition ApplySchedule (d : Device) (clock : option RouterClock) : Device :=
  match dSchedule d with
  | None => d
  | Some s =>
      let internet := if String.eqb (dInternet d) InternetBlocked then dInternet d else InternetScheduled in
      let d := set_schedule_state d internet (dOffBySchedule d) (dScheduleChangeAt d) in
      match clock with
      | None => d
      | Some clock =>
          let day := dayIndex (cWeekday clock) in
          match clockMinutes (cNow clock) with
          | None => d
          | Some minute =>
              if (day <? 0)%Z then d
              else set_schedule_state d internet (OffAt s day minute) (NextChange s day minute)
          end
      end
  end.
