(* ===== verification/DeviceSources.v ===== *)
(** * Where the router knows its clients from: internal/adapters/openwrt/devices.go

    The local network's device, the access points' clients, the bridge's
    forwarding table, and who of them is a guest. *)

From S2P Require Import Prelude GoStrings GoNet Effects Network Uci Firewall Stage Lan Schedule Devices.

(** [deviceManager]: the manager it asks uci through, whether it has a bus, and
    the directory of its files, empty for the system's temporary one. The rest of its fields are the answers of [op]s and the memory of
    [ListDevices]. *)
Record deviceManager := mkDeviceManager { dmNet : networkManager; dmBus : bool; dmStateDir : string }.

Definition guestSection := "guest".
Definition guestBridge := "br-guest".

Definition lanDevice (m : deviceManager) : prog (res string) :=
  let! ifaces := Interfaces (dmNet m) in
  match find_first (fun i => String.eqb (Name i) lanSection) ifaces with
  | None => Ret (Err ErrNoLAN)
  | Some i => if nonempty (Network.Device i) then Ret (Ok (Network.Device i))
              else Ret (Err (Errorf "openwrt: the local network has no device" []))
  end.

(** ** strconv.ParseInt(s, 0, 32) *)

Definition lower1 (c : ascii) : ascii := if is_upper c then ascii_of_N (Z.to_N (code c + 32)) else c.

(** What the last character was, for the rule on underscores. *)
Inductive seenChar := SawStart | SawDigit | SawUnderscore | SawOther.

Fixpoint underscores_go (hex : bool) (last : seenChar) (s : string) : bool :=
  match s with
  | EmptyString => match last with SawUnderscore => false | _ => true end
  | String c r =>
      if is_digit c || (hex && ((97 <=? code (lower1 c)) && (code (lower1 c) <=? 102))%Z)
      then underscores_go hex SawDigit r else
      if decide (c = "_"%char)
      then match last with SawDigit => underscores_go hex SawUnderscore r | _ => false end
      else match last with SawUnderscore => false | _ => underscores_go hex SawOther r end
  end.

(** [strconv.underscoreOK], on a text without its sign. *)
Definition underscoreOK (s : string) : bool :=
  match s with
  | String "0" (String x r) =>
      if contains ["b"; "o"; "x"] (String (lower1 x) "")
      then underscores_go (bool_decide (lower1 x = "x"%char)) SawDigit r
      else underscores_go false SawStart s
  | _ => underscores_go false SawStart s
  end.

Definition digit_in (base : Z) (c : ascii) : option Z :=
  let l := code (lower1 c) in
  let d := if is_digit c then Some (code c - 48)%Z
           else if ((97 <=? l) && (l <=? 122))%Z then Some (l - 87)%Z else None in
  match d with Some d => if (d <? base)%Z then Some d else None | None => None end.

(** The digits of a number in [base]; underscores are skipped. *)
Fixpoint based_digits (base acc : Z) (s : string) : option Z :=
  match s with
  | EmptyString => Some acc
  | String c r =>
      if decide (c = "_"%char) then based_digits base acc r else
      match digit_in base c with
      | Some d => based_digits base (acc * base + d)%Z r
      | None => None
      end
  end.

(** [strconv.ParseUint(s, 0, _)] before the range check. *)
Definition parse_based (s : string) : option Z :=
  let v :=
    match s with
    | EmptyString => None
    | String "0" r =>
        match r with
        | String x (String _ _ as t) =>
            if decide (lower1 x = "b"%char) then based_digits 2 0 t
            else if decide (lower1 x = "o"%char) then based_digits 8 0 t
            else if decide (lower1 x = "x"%char) then based_digits 16 0 t
            else based_digits 8 0 r
        | _ => based_digits 8 0 r
        end
    | _ => based_digits 10 0 s
    end in
  if negb (underscoreOK s) then None else v.

Definition ParseInt0_32 (s : string) : option Z :=
  let signed (neg : bool) (r : string) :=
    match parse_based r with
    | Some v => if neg then (if (v <=? 2 ^ 31)%Z then Some (- v)%Z else None)
                else (if (v <? 2 ^ 31)%Z then Some v else None)
    | None => None
    end in
  match s with
  | String "-" r => signed true r
  | String "+" r => signed false r
  | _ => signed false s
  end.

(** ** Access points *)

Record accessPoint := mkAccessPoint { apIface : string; apBand : string; apSignals : gmap string Z }.

Definition bandOf (freqMHz : Z) : string :=
  if (freqMHz <=? 0)%Z then "" else if (freqMHz <? 3000)%Z then "2.4" else if (freqMHz <? 5925)%Z then "5" else "6".

(** Associated, and let in. *)
Definition is_in (c : ApClient) : bool :=
  negb (bool_decide (acAssoc c = Some false)) && negb (bool_decide (acAuthorized c = Some false)).

(** [parseClients] on a decoded body; the keys of the JSON object are a map. *)
Definition parseClients (body : ApClients) : accessPoint :=
  mkAccessPoint "" (bandOf (acFreq body))
    (fold_left (fun m c => if is_in c then <[acMAC c := acSignal c]> m else m) (acClients body) ∅).

Definition netClass (iface : string) : string := "/sys/class/net/" +:+ iface.

Fixpoint asAccessPoints (ifaces : list string) : prog (list accessPoint) :=
  match ifaces with
  | [] => Ret []
  | iface :: ifaces =>
      radio <- ask (SysExists (netClass iface +:+ "/phy80211")) ;;
      if negb radio then asAccessPoints ifaces else
      body <- ask (HostapdClients iface) ;;
      match body with
      | Err _ => asAccessPoints ifaces
      | Ok body =>
          rest <- asAccessPoints ifaces ;;
          Ret (mkAccessPoint iface (apBand (parseClients body)) (apSignals (parseClients body)) :: rest)
      end
  end.

Definition accessPoints (m : deviceManager) : prog (list accessPoint) :=
  if negb (dmBus m) then Ret [] else
  names <- ask (ReadDir "/sys/class/net") ;;
  match names with
  | Err _ => Ret []
  | Ok names => asAccessPoints names.*1
  end.

(** ** The bridge's forwarding table *)

Definition fdbEntrySize : nat := 16.

Record fdbEntry := mkFdbEntry { eMac : string; eLocal : bool; eAge : Z; eWifi : bool; eBand : string }.

Definition raw_byte (rec : list Z) (i : nat) : Z := nth i rec 0%Z.

(** One record of struct __fdb_entry, and the number of its port. The age is
    in nanoseconds; the CPU is little-endian. *)
Definition fdb_record (rec : list Z) : string * bool * Z * Z :=
  (MACString (take 6 rec), negb (raw_byte rec 7 =? 0)%Z,
   ((raw_byte rec 8 + raw_byte rec 9 * 2 ^ 8 + raw_byte rec 10 * 2 ^ 16 + raw_byte rec 11 * 2 ^ 24) * 10000000)%Z,
   Z.lor (Z.shiftl (raw_byte rec 12) 8) (raw_byte rec 6)).

(** The records of the table; a cut one at the end is left out. *)
Fixpoint fdb_records (fuel : nat) (raw : list Z) : list (list Z) :=
  match fuel with
  | O => []
  | S fuel =>
      if decide (fdbEntrySize <= length raw) then take fdbEntrySize raw :: fdb_records fuel (list.drop fdbEntrySize raw)
      else []
  end.

(** [radio] remembers which ports are radios, and their bands. *)
Fixpoint forward_entries (ports : gmap Z string) (bands : gmap string string)
    (radio : gmap string (bool * string)) (recs : list (list Z)) : prog (list fdbEntry) :=
  match recs with
  | [] => Ret []
  | rec :: recs =>
      let '(mac, local, age, no) := fdb_record rec in
      let port := default "" (ports !! no) in
      if nonempty port && negb local then
        known <- (match radio !! port with
                  | Some k => Ret k
                  | None => isRadio <- ask (SysExists (netClass port +:+ "/phy80211")) ;;
                            Ret (isRadio, if isRadio then get bands port else "")
                  end) ;;
        rest <- forward_entries ports bands (<[port := known]> radio) recs ;;
        Ret (mkFdbEntry mac local age known.1 known.2 :: rest)
      else
        rest <- forward_entries ports bands radio recs ;;
        Ret (mkFdbEntry mac local age false "" :: rest)
  end.

Definition parseForwarding (raw : string) (ports : gmap Z string) (bands : gmap string string)
    : prog (list fdbEntry) :=
  forward_entries ports bands ∅ (fdb_records (String.length raw) (code <$> chars raw)).

(** The ports of the bridge by their numbers. *)
Fixpoint bridgePorts (base : string) (names : list string) (ports : gmap Z string) : prog (gmap Z string) :=
  match names with
  | [] => Ret ports
  | p :: names =>
      b <- ask (ReadFile (base +:+ "/brif/" +:+ p +:+ "/port_no")) ;;
      bridgePorts base names
        (match b with
         | Ok b => match ParseInt0_32 (TrimSpace b) with Some n => <[n := p]> ports | None => ports end
         | Err _ => ports
         end)
  end.

Definition forwarding (bridge : string) (bands : gmap string string) : prog (list fdbEntry) :=
  let base := netClass bridge in
  raw <- ask (ReadFile (base +:+ "/brforward")) ;;
  match raw with
  | Err _ => Ret []
  | Ok raw =>
      names <- ask (ReadDir (base +:+ "/brif")) ;;
      ports <- (match names with Ok names => bridgePorts base names.*1 ∅ | Err _ => Ret ∅ end) ;;
      parseForwarding raw ports bands
  end.

(** ** Guests *)

(** The addresses of a map's keys that are devices. *)
Definition normalized (macs : list string) : gset string :=
  list_to_set (omap (fun mac => match NormalizeMAC mac with Ok n => Some n | Err _ => None end) macs).

(** Who is associated to an access point of the guests, and to one of home. *)
Fixpoint onAccessPoints (aps : list accessPoint) (guests home : gset string) : prog (gset string * gset string) :=
  match aps with
  | [] => Ret (guests, home)
  | ap :: aps =>
      guest <- ask (SysExists (netClass guestBridge +:+ "/brif/" +:+ apIface ap)) ;;
      let macs := normalized (elements (dom (apSignals ap))) in
      if guest then onAccessPoints aps (guests ∪ macs) home else onAccessPoints aps guests (home ∪ macs)
  end.

(** [net.IPNet{IP: ip.Mask(m4), Mask: m4}.Contains] of four bytes; a mask that
    is none contains nothing. *)
Definition in_subnet (ip : Z) (mask : option Z) (lip : Z) : bool :=
  match mask, To4 lip with
  | Some m, Some v => (Z.land ip m =? Z.land v m)%Z
  | _, _ => false
  end.

(** The devices with a lease in the guests' subnet that are not known to be at home. *)
Definition guestLeases (ip : Z) (mask : option Z) (home wired : gset string) (ls : list AddressLease) : gset string :=
  list_to_set (omap (fun l =>
    match ParseIP (lIP l) with
    | Some lip =>
        if in_subnet ip mask lip then
          match NormalizeMAC (lMAC l) with
          | Ok n => if has home n || has wired n then None else Some n
          | Err _ => None
          end
        else None
    | None => None
    end) ls).

Definition guestClients (aps : list accessPoint) (wired : gset string) : prog (gset string) :=
  on <- onAccessPoints aps ∅ ∅ ;;
  let '(guests, home) := on in
  addr <- uciGet ("network." +:+ guestSection +:+ ".ipaddr") ;;
  mask <- uciGet ("network." +:+ guestSection +:+ ".netmask") ;;
  match ParseIP4 addr with
  | None => Ret guests
  | Some ip =>
      ls <- leases ;;
      Ret (guests ∪ guestLeases ip (ParseIP4 (firstNonEmpty [mask; "255.255.255.0"])) home wired ls)
  end.

(** The devices the bridge has on a cable port. *)
Definition wiredNow (fdb : list fdbEntry) : gset string :=
  normalized (eMac <$> filter (fun e => eLocal e = false /\ eWifi e = false) fdb).

Definition refuseGuest (m : deviceManager) (mac : string) : prog (res unit) :=
  lanDev <- lanDevice m ;;
  fdb <- (match lanDev with Ok dev => forwarding dev ∅ | Err _ => Ret [] end) ;;
  aps <- accessPoints m ;;
  guests <- guestClients aps (wiredNow fdb) ;;
  if has guests mac
  then Ret (Refuse "mac" (Errorf "openwrt: this device is on the guest network; its internet is the guest network's" []))
  else Ret (Ok tt).
