(* ===== verification/DeviceLimits.v ===== *)
(** * Limits of a device: internal/adapters/openwrt/devices_internet.go and
      devices_schedule.go

    Turning a device's internet off and on, and its schedule, as named rules of
    the router's own firewall. *)

From S2P Require Import Prelude GoStrings GoNet Effects Network Uci Firewall Stage Lan FirewallWrite.
From S2P Require Import Schedule Devices DeviceSources.

(** ** The block *)

Definition noInternetPrefix := "vb_noinet_".

Definition noInternetSection (mac : string) : string := noInternetPrefix +:+ GoStrings.RemoveAll ":" mac.

Definition isNoInternetSection (section : string) : bool := HasPrefix noInternetPrefix section.

Definition blocks (s : uciSection) : bool :=
  String.eqb (kind s) "rule" && isNoInternetSection (id s) && negb (String.eqb (get (options s) "enabled") "0").

Definition blockedDevices (show : string) : gset string :=
  list_to_set (mjoin (M:=list)
    ((fun s => elements (normalized (Fields (get (options s) "src_mac")))) <$>
       filter (fun s => blocks s = true) (parseUCISections show))).

Definition blocked (m : networkManager) : prog (gset string) :=
  if negb (runs m) then Ret ∅ else
  out <- exec_cmd ["uci"; "-q"; "show"; "firewall"] ;;
  Ret (match out with Ok out => blockedDevices out | Err _ => ∅ end).

(** The last zone of the local network. *)
Definition localZone (fw : FirewallStatus) : string := zone_named ZoneLocal fw.

Fixpoint uciSets (sets : list (string * string)) : prog (res unit) :=
  match sets with
  | [] => Ret (Ok tt)
  | (k, v) :: sets => let! _ := uciSet k v in uciSets sets
  end.

Definition blockSets (mac local : string) : list (string * string) :=
  let key := "firewall." +:+ noInternetSection mac in
  [(key, "rule"); (key +:+ ".name", "VeilBridge: no internet for " +:+ mac); (key +:+ ".src", local);
   (key +:+ ".dest", "*"); (key +:+ ".src_mac", mac); (key +:+ ".proto", "all"); (key +:+ ".target", "REJECT")].

Definition blockRow (mac from to : string) : ConfigChange :=
  entryRow (describe "firewall" roleNoInternet "") from to "firewall" ("firewall." +:+ noInternetSection mac).

(** [run("uci", "revert", key)], whatever it answers. *)
Fixpoint revertKeys (keys : list string) : prog unit :=
  match keys with
  | [] => Ret tt
  | key :: keys => _ <- exec_cmd ["uci"; "revert"; key] ;; revertKeys keys
  end.

(** The parts of a request whose failure takes back the keys. *)
Definition orUndo {A} (keys : list string) (p : prog (res A)) : prog (res A) :=
  r <- p ;;
  match r with
  | Ok a => Ret (Ok a)
  | Err e => _ <- revertKeys keys ;; Ret (Err e)
  end.

Definition writeBlock (m : deviceManager) (mac : string) : prog (res (list ConfigChange)) :=
  let key := "firewall." +:+ noInternetSection mac in
  let! fw := FirewallInfo (dmNet m) in
  let local := localZone fw in
  if negb (nonempty local)
  then Ret (Err (Errorf "openwrt: the local network is in no firewall zone, so there is nowhere to put the block" [])) else
  let! baseline := fw4Warnings in
  let! _ := orUndo [key] (uciSets (blockSets mac local)) in
  let! _ := orUndo [key] (fw4Accepts baseline) in
  Ret (Ok [blockRow mac "" mac]).

Definition StageDeviceInternet (m : deviceManager) (mac : string) (allowed : bool)
    : prog (res (list ConfigChange)) :=
  if negb (runs (dmNet m)) then Ret (Err ErrNotImplemented) else
  let* mac := RefuseRes "mac" (NormalizeMAC mac) in
  let key := "firewall." +:+ noInternetSection mac in
  there <- uciGet key ;;
  let exists_ := nonempty there in
  let! _ := (if allowed then Ret (Ok tt) else refuseGuest m mac) in
  if allowed then
    if negb exists_ then Ret (Ok []) else
    let! _ := uciDelete key in Ret (Ok [blockRow mac mac ""])
  else if exists_ then
    enabled <- uciGet (key +:+ ".enabled") ;;
    if String.eqb enabled "0"
    then Ret (Refuse "mac" (Errorf
      "openwrt: this device's block is switched off in the firewall settings; switch it on there, or remove it" []))
    else Ret (Ok [])
  else writeBlock m mac.

(** ** The schedule as rules *)

Definition schedulePrefix := "vb_sched_".
Definition morningSuffix := "_m".
Definition eveningEnd := "23:59:59".

Definition fwDays : list string := ["Mon"; "Tue"; "Wed"; "Thu"; "Fri"; "Sat"; "Sun"].

Definition scheduleSection (mac : string) : string := schedulePrefix +:+ GoStrings.RemoveAll ":" mac.

Definition isScheduleSection (section : string) : bool := HasPrefix schedulePrefix section.

(** The six bytes of a device in pairs of hexadecimal digits. *)
Fixpoint pairs_of_digits (hex : string) : list string :=
  match hex with
  | String a (String b r) => String a (String b "") :: pairs_of_digits r
  | _ => []
  end.

Definition scheduleMAC (section : string) : option string :=
  let hex := TrimSuffix morningSuffix (TrimPrefix schedulePrefix section) in
  if negb (bool_decide (String.length hex = 12)) then None else
  match NormalizeMAC (Join ":" (pairs_of_digits hex)) with Ok mac => Some mac | Err _ => None end.

(** [fwDays[i]]; every index met is one of a day. *)
Definition fwDay (i : Z) : string := nth (Z.to_nat i) fwDays "".

Definition scheduleBase (mac local name : string) : gmap string string :=
  list_to_map [("name", name); ("src", local); ("dest", "*"); ("src_mac", mac); ("proto", "all"); ("target", "REJECT")].

Definition timed (o : gmap string string) (days : list string) (start stop : string) : gmap string string :=
  <["weekdays" := Join " " days]> (<["start_time" := start]> (<["stop_time" := stop]> o)).

Definition scheduleOptions (mac local : string) (s : InternetSchedule)
    : gmap string string * option (gmap string string) :=
  let days := (fun d => fwDay (DayIndex d)) <$> Days s in
  let next := (fun d => fwDay (Z.rem (DayIndex d + 1) 7)) <$> Days s in
  let evening := timed (scheduleBase mac local ("VeilBridge: internet schedule for " +:+ mac)) days
                   (From s +:+ ":00") in
  let f := minutesOf (From s) in
  let t := minutesOf (To s) in
  if (f <? t)%Z then (evening (To s +:+ ":00"), None) else
  if (t =? 0)%Z then (evening eveningEnd, None) else
  (evening eveningEnd,
   Some (timed (scheduleBase mac local ("VeilBridge: internet schedule for " +:+ mac +:+ " (after midnight)"))
           next "00:00:00" (To s +:+ ":00"))).

(** The firewall's options back as a schedule. *)
Definition scheduleFrom (evening : gmap string string) (morning : option (gmap string string))
    : option InternetSchedule :=
  let days := mjoin (M:=list)
    ((fun w => (fun i => nth i Weekdays "") <$> filter (fun i => EqualFold w (nth i fwDays "") = true) (seq 0 7)) <$>
       Fields (get evening "weekdays")) in
  let from := TrimSuffix ":00" (get evening "start_time") in
  let to :=
    if decide (get evening "stop_time" = eveningEnd) then
      match morning with Some m => TrimSuffix ":00" (get m "stop_time") | None => "00:00" end
    else TrimSuffix ":00" (get evening "stop_time") in
  match CleanSchedule (mkSchedule days from to) with Ok s => Some s | Err _ => None end.

(** A schedule section that is in force, with its device. *)
Definition schedule_part (s : uciSection) : option (bool * string) :=
  if negb (String.eqb (kind s) "rule") || negb (isScheduleSection (id s)) ||
     String.eqb (get (options s) "enabled") "0" then None else
  (fun mac => (HasSuffix morningSuffix (id s), mac)) <$> scheduleMAC (id s).

Definition add_part (acc : gmap string (gmap string string) * gmap string (gmap string string)) (s : uciSection)
    : gmap string (gmap string string) * gmap string (gmap string string) :=
  let '(evenings, mornings) := acc in
  match schedule_part s with
  | None => acc
  | Some (true, mac) => (evenings, <[mac := options s]> mornings)
  | Some (false, mac) => (<[mac := options s]> evenings, mornings)
  end.

Definition schedulesOf (sections : list uciSection) : gmap string InternetSchedule :=
  let '(evenings, mornings) := fold_left add_part sections (∅, ∅) in
  map_imap (fun mac e => scheduleFrom e (mornings !! mac)) evenings.

Definition schedules (show : string) : gmap string InternetSchedule := schedulesOf (parseUCISections show).

Definition schedulesNow (m : networkManager) : prog (gmap string InternetSchedule) :=
  if negb (runs m) then Ret ∅ else
  out <- exec_cmd ["uci"; "-q"; "show"; "firewall"] ;;
  Ret (match out with Ok out => schedules out | Err _ => ∅ end).

(** ** The request *)

Definition scheduleRow (mac from to : string) : ConfigChange :=
  let said := describe "firewall" roleSchedule "" in
  mkChange (pWords said) (pKey said) from to (dangerousConfig "firewall")
    ("firewall." +:+ scheduleSection mac) mac.

(** A section that is switched off by hand. *)
Fixpoint switchedOff (keys : list string) : prog (res unit) :=
  match keys with
  | [] => Ret (Ok tt)
  | key :: keys =>
      there <- uciGet key ;;
      off <- (if nonempty there then enabled <- uciGet (key +:+ ".enabled") ;; Ret (String.eqb enabled "0")
              else Ret false) ;;
      if (off : bool)
      then Ret (Refuse "mac" (Errorf
        "openwrt: this device's schedule is switched off in the firewall settings; switch it on there, or remove it" []))
      else switchedOff keys
  end.

Fixpoint deleteThere (keys : list string) : prog (res unit) :=
  match keys with
  | [] => Ret (Ok tt)
  | key :: keys =>
      there <- uciGet key ;;
      let! _ := (if nonempty there then uciDelete key else Ret (Ok tt)) in
      deleteThere keys
  end.

(** One section: its type, then its options by name. *)
Definition partSets (key : string) (opts : gmap string string) : list (string * string) :=
  (key, "rule") :: ((fun o => (key +:+ "." +:+ o, get opts o)) <$> sort_strings (elements (dom opts))).

Definition scheduleSets (mac local : string) (want : InternetSchedule) : list (string * string) :=
  let evening := "firewall." +:+ scheduleSection mac in
  let '(e, mo) := scheduleOptions mac local want in
  partSets evening e ++ match mo with Some mo => partSets (evening +:+ morningSuffix) mo | None => [] end.

Definition scheduleZone (m : deviceManager) (want : option InternetSchedule) : prog (res string) :=
  match want with
  | None => Ret (Ok "")
  | Some _ =>
      let! fw := FirewallInfo (dmNet m) in
      if nonempty (localZone fw) then Ret (Ok (localZone fw))
      else Ret (Err (Errorf "openwrt: the local network is in no firewall zone, so there is nowhere to put the schedule" []))
  end.

Definition writeSchedule (m : deviceManager) (mac : string) (want have : option InternetSchedule)
    : prog (res (list ConfigChange)) :=
  let evening := "firewall." +:+ scheduleSection mac in
  let keys := [evening; evening +:+ morningSuffix] in
  let! local := scheduleZone m want in
  let! baseline := fw4Warnings in
  let! _ := orUndo keys (deleteThere keys) in
  let! _ := orUndo keys (uciSets (match want with Some want => scheduleSets mac local want | None => [] end)) in
  let! _ := orUndo keys (fw4Accepts baseline) in
  let words o := match o with Some s => Words s | None => "" end in
  Ret (Ok [scheduleRow mac (words have) (words want)]).

Definition cleanWant (want : option InternetSchedule) : res (option InternetSchedule) :=
  match want with None => Ok None | Some s => let? s := CleanSchedule s in Ok (Some s) end.

(** Whether the device has what is wanted already. *)
Definition alreadySo (want have : option InternetSchedule) : bool :=
  match want, have with
  | None, None => true
  | Some want, Some have => String.eqb (Words have) (Words want)
  | _, _ => false
  end.

Definition StageDeviceSchedule (m : deviceManager) (mac : string) (want : option InternetSchedule)
    : prog (res (list ConfigChange)) :=
  if negb (runs (dmNet m)) then Ret (Err ErrNotImplemented) else
  let* mac := RefuseRes "mac" (NormalizeMAC mac) in
  let* want := cleanWant want in
  let! _ := (match want with Some _ => refuseGuest m mac | None => Ret (Ok tt) end) in
  let evening := "firewall." +:+ scheduleSection mac in
  let! _ := switchedOff [evening; evening +:+ morningSuffix] in
  now <- schedulesNow (dmNet m) ;;
  let have := now !! mac in
  if alreadySo want have then Ret (Ok []) else writeSchedule m mac want have.
