(* ===== verification/DeviceLimitsThms.v ===== *)
(** * What a limit of a device means

    The one spelling of a hardware address and the sections named after it; the
    schedule that is read back from the firewall's rules; and what those rules
    do at each second of the week. *)

From S2P Require Import Prelude GoStrings GoNet Effects Network Uci Firewall Stage Lan LanThms FirewallWrite.
From S2P Require Import Schedule ScheduleThms Devices DeviceSources DeviceLimits.

(** ** Hardware addresses *)

Definition byte_ok (b : Z) : Prop := (0 <= b < 256)%Z.

Lemma hex_digit_range c d : hex_digit c = Some d -> (0 <= d < 16)%Z.
Proof.
  unfold hex_digit, is_digit, digit_val. pose proof (code_bound c). intros E.
  repeat (case_match; simplify_eq); bool_to_prop; lia.
Qed.

Lemma hex_byte_range s b : hex_byte s = Some b -> byte_ok b.
Proof.
  unfold hex_byte. destruct s as [|x [|y [|? ?]]]; try done.
  destruct (hex_digit x) as [d|] eqn:Ex; [|done]. destruct (hex_digit y) as [e|] eqn:Ey; [|done].
  intros [= <-]. apply hex_digit_range in Ex, Ey. unfold byte_ok. lia.
Qed.

Lemma hex_pair_range s l : hex_pair s = Some l -> Forall byte_ok l.
Proof.
  unfold hex_pair. destruct s as [|a [|b [|c [|d [|? ?]]]]]; try done.
  destruct (hex_byte (String a (String b ""))) eqn:E1; [|done].
  destruct (hex_byte (String c (String d ""))) eqn:E2; [|done].
  intros [= <-]. apply hex_byte_range in E1, E2. by rewrite !Forall_cons.
Qed.

Lemma mapM_Forall {A B} (f : A -> option B) (P : B -> Prop) l k :
  (forall a b, f a = Some b -> P b) -> mapM f l = Some k -> Forall P k.
Proof.
  intros Hf. revert k. induction l as [|a l IH]; intros k; cbn; [by intros [= <-]|].
  destruct (f a) as [b|] eqn:Ea; [|done]. cbn. destruct (mapM f l) as [k'|]; [|done]. cbn. intros [= <-].
  constructor; eauto.
Qed.

Lemma ParseMAC_range s hw : ParseMAC s = Some hw -> Forall byte_ok hw.
Proof.
  assert (forall l k, mac_length l = Some k -> Forall byte_ok l -> Forall byte_ok k) as Hl.
  { intros l k. unfold mac_length. case_decide; [|done]. by intros [= <-]. }
  unfold ParseMAC. case_decide; [done|]. intros E.
  assert (forall sep, mapM hex_byte (Split sep s) ≫= mac_length = Some hw -> Forall byte_ok hw) as Hb.
  { intros sep H'. destruct (mapM hex_byte (Split sep s)) as [l|] eqn:El; [|done].
    eapply Hl; [exact H'|]. eapply mapM_Forall; [apply hex_byte_range|exact El]. }
  assert ((mjoin (M:=list) <$> mapM hex_pair (Split "." s)) ≫= mac_length = Some hw -> Forall byte_ok hw) as Hp.
  { intros H'. destruct (mapM hex_pair (Split "." s)) as [l|] eqn:El; [|done].
    eapply Hl; [exact H'|]. apply Forall_join. eapply mapM_Forall; [apply hex_pair_range|exact El]. }
  repeat (case_match; try done); eauto.
Qed.

Lemma hex2_values :
  forallb (fun b => bool_decide (hex_byte (hex2 b) = Some b) && lacks ":" (hex2 b) && lacks "-" (hex2 b)
                    && all_chars word_char (hex2 b) && lacks "m" (hex2 b)) (seqZ 0 256) = true.
Proof. vm_compute. reflexivity. Qed.

Lemma hex2_ok b : byte_ok b ->
  hex_byte (hex2 b) = Some b /\ lacks ":" (hex2 b) = true /\ lacks "-" (hex2 b) = true /\
  all_chars word_char (hex2 b) = true /\ lacks "m" (hex2 b) = true.
Proof.
  intros H. pose proof hex2_values as Ha. rewrite forallb_elem in Ha. specialize (Ha b).
  rewrite elem_of_seqZ in Ha. specialize (Ha ltac:(unfold byte_ok in H; lia)). by bool_to_prop.
Qed.

(** An address of a device, in its one spelling. *)
Definition device_mac (mac : string) : Prop :=
  exists b0 b1 b2 b3 b4 b5, mac = MACString [b0; b1; b2; b3; b4; b5] /\ Forall byte_ok [b0; b1; b2; b3; b4; b5] /\
    Z.land b0 1 <> 1%Z.

Lemma NormalizeMAC_device s mac : NormalizeMAC s = Ok mac -> device_mac mac.
Proof.
  unfold NormalizeMAC. destruct (ParseMAC (TrimSpace s)) as [[|b hw]|] eqn:E; try done.
  apply ParseMAC_range in E.
  destruct hw as [|b1 [|b2 [|b3 [|b4 [|b5 [|? ?]]]]]]; try done; cbn -[MACString Z.land].
  destruct (Z.land b 1 =? 1)%Z eqn:El; [done|]. bool_to_prop. intros [= <-].
  by exists b, b1, b2, b3, b4, b5.
Qed.

(** The twelve digits of an address. *)
Definition digits_of (bs : list Z) : string := Join "" (hex2 <$> bs).

Lemma RemoveAll_app sep a b : GoStrings.RemoveAll sep (a +:+ b) = GoStrings.RemoveAll sep a +:+ GoStrings.RemoveAll sep b.
Proof.
  induction a as [|c a IH]; [done|]. rewrite append_cons. cbn. case_decide; [done|].
  by rewrite append_cons, IH.
Qed.

Lemma RemoveAll_lacks sep a : lacks sep a = true -> GoStrings.RemoveAll sep a = a.
Proof.
  induction a as [|c a IH]; [done|]. rewrite lacks_cons. intros H. bool_to_prop. cbn.
  rewrite decide_False by done. by rewrite IH.
Qed.

Lemma MACString_text b0 b1 b2 b3 b4 b5 :
  MACString [b0; b1; b2; b3; b4; b5] =
  hex2 b0 +:+ String ":" (hex2 b1 +:+ String ":" (hex2 b2 +:+ String ":" (hex2 b3 +:+ String ":" (hex2 b4 +:+ String ":" (hex2 b5))))).
Proof. reflexivity. Qed.

Lemma digits_text b0 b1 b2 b3 b4 b5 :
  digits_of [b0; b1; b2; b3; b4; b5] = hex2 b0 +:+ hex2 b1 +:+ hex2 b2 +:+ hex2 b3 +:+ hex2 b4 +:+ hex2 b5.
Proof. reflexivity. Qed.

Section Address.
Context (b0 b1 b2 b3 b4 b5 : Z) (range : Forall byte_ok [b0; b1; b2; b3; b4; b5]).

Abbreviation bs := [b0; b1; b2; b3; b4; b5].

Lemma octets_ok b : b ∈ bs -> hex_byte (hex2 b) = Some b /\ lacks ":" (hex2 b) = true /\
  lacks "-" (hex2 b) = true /\ all_chars word_char (hex2 b) = true /\ lacks "m" (hex2 b) = true.
Proof. intros H. apply hex2_ok. rewrite Forall_forall in range. by apply range. Qed.

Lemma octets_of (P : Z -> Prop) : (forall b, b ∈ bs -> P b) -> P b0 /\ P b1 /\ P b2 /\ P b3 /\ P b4 /\ P b5.
Proof. intros H. split_and!; apply H; repeat (left || right). Qed.

Lemma octets_lack : lacks ":" (hex2 b0) = true /\ lacks ":" (hex2 b1) = true /\ lacks ":" (hex2 b2) = true /\
  lacks ":" (hex2 b3) = true /\ lacks ":" (hex2 b4) = true /\ lacks ":" (hex2 b5) = true.
Proof. apply (octets_of (fun b => lacks ":" (hex2 b) = true)). intros b Hb. by apply octets_ok. Qed.

Lemma ParseMAC_MACString : ParseMAC (MACString bs) = Some bs.
Proof.
  destruct octets_lack as (H0 & H1 & H2 & H3 & H4 & H5).
  assert (Split ":" (MACString bs) = hex2 <$> bs) as Hs.
  { rewrite MACString_text. by rewrite !Split_sep, Split_lacks by done. }
  assert (mapM hex_byte (hex2 <$> bs) = Some bs) as Hm.
  { destruct (octets_of (fun b => hex_byte (hex2 b) = Some b)) as (E0 & E1 & E2 & E3 & E4 & E5);
      [intros b Hb; by apply octets_ok|].
    cbn [mapM fmap list_fmap]. rewrite E0, E1, E2, E3, E4, E5. done. }
  unfold ParseMAC. rewrite Hs, Hm. reflexivity.
Qed.

Lemma digits_word : all_chars word_char (digits_of bs) = true.
Proof.
  rewrite digits_text, !all_chars_app.
  destruct (octets_of (fun b => all_chars word_char (hex2 b) = true)) as (-> & -> & -> & -> & -> & ->); [|done].
  intros b Hb. by apply octets_ok.
Qed.

Lemma RemoveAll_octet a s : lacks ":" a = true -> GoStrings.RemoveAll ":" (a +:+ String ":" s) = a +:+ GoStrings.RemoveAll ":" s.
Proof. intros H. rewrite RemoveAll_app, (RemoveAll_lacks _ a H). cbn. done. Qed.

Lemma RemoveAll_MACString : GoStrings.RemoveAll ":" (MACString bs) = digits_of bs.
Proof.
  destruct octets_lack as (H0 & H1 & H2 & H3 & H4 & H5). rewrite MACString_text, digits_text.
  by rewrite !RemoveAll_octet, RemoveAll_lacks by done.
Qed.

Lemma TrimSpace_MACString : TrimSpace (MACString bs) = MACString bs.
Proof.
  destruct (octets_of (fun b => all_chars word_char (hex2 b) = true)) as (H0 & _ & _ & _ & _ & H5);
    [intros b Hb; by apply octets_ok|].
  rewrite MACString_text. unfold hex2 in H0, H5. cbn [all_chars] in H0, H5. bool_to_prop.
  apply TrimSpace_solid; cbn; by apply word_char_solid.
Qed.
End Address.

(** The address in its one spelling is left as it is. *)
Lemma NormalizeMAC_fixed mac : device_mac mac -> NormalizeMAC mac = Ok mac.
Proof.
  intros (b0 & b1 & b2 & b3 & b4 & b5 & -> & Hr & Hg). unfold NormalizeMAC.
  rewrite TrimSpace_MACString, ParseMAC_MACString by done. cbn -[MACString Z.land].
  by rewrite (proj2 (Z.eqb_neq _ _) Hg).
Qed.

(** The digits, two by two, and what does not end them. *)
Lemma digits_facts b0 b1 b2 b3 b4 b5 : Forall byte_ok [b0; b1; b2; b3; b4; b5] ->
  let d := digits_of [b0; b1; b2; b3; b4; b5] in
  String.length d = 12 /\ pairs_of_digits d = hex2 <$> [b0; b1; b2; b3; b4; b5] /\ HasSuffix morningSuffix d = false.
Proof.
  intros Hr d. split; [reflexivity|]. split; [reflexivity|].
  destruct (octets_ok _ _ _ _ _ _ Hr b5) as (_ & _ & _ & _ & Hm); [set_solver|].
  unfold hex2 in Hm. rewrite !lacks_cons in Hm. bool_to_prop.
  unfold d. rewrite digits_text, !append_assoc. unfold hex2 at 6.
  change (String (hex_char (b5 / 16)) (String (hex_char (b5 mod 16)) ""))
    with (String (hex_char (b5 / 16)) "" +:+ String (hex_char (b5 mod 16)) "").
  rewrite append_assoc. apply (HasSuffix_last "_" "m"). by intros E.
Qed.

(** The sections of a schedule name their device. *)
Lemma scheduleMAC_section mac : device_mac mac ->
  scheduleMAC (scheduleSection mac) = Some mac /\ scheduleMAC (scheduleSection mac +:+ morningSuffix) = Some mac.
Proof.
  intros Hd. pose proof (NormalizeMAC_fixed mac Hd) as Hn.
  destruct Hd as (b0 & b1 & b2 & b3 & b4 & b5 & -> & Hr & Hg).
  destruct (digits_facts _ _ _ _ _ _ Hr) as (Hl & Hp & Hs).
  unfold scheduleMAC, scheduleSection.
  rewrite <- append_assoc, !TrimPrefix_app, RemoveAll_MACString, TrimSuffix_app, TrimSuffix_not by done.
  rewrite Hl, Hp. change (Join ":" (hex2 <$> [b0; b1; b2; b3; b4; b5])) with (MACString [b0; b1; b2; b3; b4; b5]).
  by rewrite Hn.
Qed.

(** ** The days of a schedule, as the firewall names them *)

Fixpoint sublists {A} (l : list A) : list (list A) :=
  match l with [] => [[]] | x :: l => (cons x <$> sublists l) ++ sublists l end.

Lemma filter_sublists {A} (P : A -> Prop) `{forall x, Decision (P x)} l : filter P l ∈ sublists l.
Proof.
  induction l as [|x l IH]; [set_solver|]. rewrite filter_cons. cbn [sublists]. rewrite elem_of_app.
  case_decide; [left|by right]. apply list_elem_of_fmap. eauto.
Qed.

Definition evening_days (days : list string) : list string := (fun d => fwDay (DayIndex d)) <$> days.
Definition morning_days (days : list string) : list string := (fun d => fwDay (Z.rem (DayIndex d + 1) 7)) <$> days.

(** The days [scheduleFrom] finds in the firewall's list. *)
Definition days_back (weekdays : string) : list string :=
  mjoin (M:=list)
    ((fun w => (fun i => nth i Weekdays "") <$> filter (fun i => EqualFold w (nth i fwDays "") = true) (seq 0 7)) <$>
       Fields weekdays).

(** The firewall's test of the day. *)
Definition on_day (weekdays : string) (day : Z) : bool :=
  existsb (fun w => String.eqb w (fwDay day)) (Fields weekdays).

Lemma every_choice_of_days :
  forallb (fun days =>
    bool_decide (days_back (Join " " (evening_days days)) = days) &&
    forallb (fun day =>
      bool_decide (on_day (Join " " (evening_days days)) day = existsb (fun d => day =? dayIndex d)%Z days) &&
      bool_decide (on_day (Join " " (morning_days days)) day = existsb (fun d => day =? Z.rem (dayIndex d + 1) 7)%Z days))
      (seqZ 0 7)) (sublists Weekdays) = true.
Proof. vm_compute. reflexivity. Qed.

Lemma days_facts want : let days := weekdays_of want in
  days_back (Join " " (evening_days days)) = days /\
  forall day, (0 <= day < 7)%Z ->
    on_day (Join " " (evening_days days)) day = existsb (fun d => day =? dayIndex d)%Z days /\
    on_day (Join " " (morning_days days)) day = existsb (fun d => day =? Z.rem (dayIndex d + 1) 7)%Z days.
Proof.
  pose proof every_choice_of_days as Ha. rewrite forallb_elem in Ha.
  specialize (Ha (weekdays_of want) (filter_sublists _ _)). apply andb_true_iff in Ha as [Hb Hc].
  bool_to_prop. split; [done|]. intros day Hd. rewrite forallb_elem in Hc. specialize (Hc day).
  rewrite elem_of_seqZ in Hc. specialize (Hc ltac:(lia)). by bool_to_prop.
Qed.

Lemma get_timed_weekdays o days a b : get (timed o days a b) "weekdays" = Join " " days.
Proof. unfold timed, get. by rewrite lookup_insert_eq. Qed.
Lemma get_timed_start o days a b : get (timed o days a b) "start_time" = a.
Proof. unfold timed, get. by rewrite lookup_insert_ne, lookup_insert_eq by done. Qed.
Lemma get_timed_stop o days a b : get (timed o days a b) "stop_time" = b.
Proof. unfold timed, get. by rewrite !lookup_insert_ne, lookup_insert_eq by done. Qed.

Lemma not_evening_end t : t +:+ ":00" <> eveningEnd.
Proof. intros E. apply (f_equal rev_string) in E. by rewrite rev_string_app in E. Qed.

(** A schedule survives the firewall: written as the options of its one or two
    sections and read back from them, it is the same schedule. *)
Theorem scheduleFrom_scheduleOptions s c mac local :
  CleanSchedule s = Ok c ->
  let '(evening, morning) := scheduleOptions mac local c in scheduleFrom evening morning = Some c.
Proof.
  intros H%CleanSchedule_Canonical. pose proof (CleanSchedule_fixed c H) as Hfix.
  destruct H as ((want & Hd) & _ & f & t & Hf & Ht & Hft & HF & HT).
  destruct (days_facts want) as [Hback _]. cbn zeta in Hback. rewrite <- Hd in Hback.
  assert (forall e m to, scheduleFrom (timed e (evening_days (Days c)) (From c +:+ ":00") to) m =
    match CleanSchedule (mkSchedule (Days c) (From c)
       (if decide (to = eveningEnd) then match m with Some m => TrimSuffix ":00" (get m "stop_time") | None => "00:00" end
        else TrimSuffix ":00" to)) with Ok s => Some s | Err _ => None end) as Hread.
  { intros e m to. unfold scheduleFrom. rewrite get_timed_weekdays, get_timed_start, get_timed_stop, TrimSuffix_app.
    fold (days_back (Join " " (evening_days (Days c)))). by rewrite Hback. }
  assert (c = mkSchedule (Days c) (From c) (To c)) as Ec by (by destruct c).
  unfold scheduleOptions. fold (evening_days (Days c)). cbv zeta.
  destruct (minutesOf (From c) <? minutesOf (To c))%Z.
  - rewrite Hread, decide_False, TrimSuffix_app, <- Ec, Hfix by apply not_evening_end. done.
  - destruct (minutesOf (To c) =? 0)%Z eqn:E0; rewrite Hread, decide_True by done.
    + bool_to_prop. rewrite HT, minutesOf_hhmm in E0 by done. subst t. change (hhmm 0) with "00:00" in HT.
      by rewrite <- HT, <- Ec, Hfix.
    + by rewrite get_timed_stop, TrimSuffix_app, <- Ec, Hfix.
Qed.

(** ** What the firewall does with the rules

    fw4 renders [weekdays], [start_time] and [stop_time] as [meta day] and
    [meta hour]: a rule drops a packet on its days, from its first second to its
    last, both included. *)

(** [HH:MM:SS] as seconds after midnight. *)
Definition hms (v : string) : Z :=
  match Split ":" v with
  | [h; m; s] =>
      match parse_udec h, parse_udec m, parse_udec s with
      | Some h, Some m, Some s => (h * 3600 + m * 60 + s)%Z
      | _, _, _ => 0%Z
      end
  | _ => 0%Z
  end.

Definition rule_matches (o : gmap string string) (day sec : Z) : bool :=
  on_day (get o "weekdays") day && (hms (get o "start_time") <=? sec)%Z && (sec <=? hms (get o "stop_time"))%Z.

Definition rules_match (rules : gmap string string * option (gmap string string)) (day sec : Z) : bool :=
  rule_matches rules.1 day sec || match rules.2 with Some o => rule_matches o day sec | None => false end.

Lemma hms_values : forallb (fun m => (hms (hhmm m +:+ ":00") =? 60 * m)%Z) (seqZ 0 1440) = true.
Proof. vm_compute. reflexivity. Qed.

Lemma hms_hhmm m : (0 <= m < 1440)%Z -> hms (hhmm m +:+ ":00") = (60 * m)%Z.
Proof.
  intros H. pose proof hms_values as Ha. rewrite forallb_elem in Ha. apply Z.eqb_eq, Ha, elem_of_seqZ. lia.
Qed.

Lemma rule_matches_timed o days a b day sec :
  rule_matches (timed o days a b) day sec = on_day (Join " " days) day && (hms a <=? sec)%Z && (sec <=? hms b)%Z.
Proof. unfold rule_matches. by rewrite get_timed_weekdays, get_timed_start, get_timed_stop. Qed.

(** The chosen days are met on a day that one of them is. *)
Lemma OffAt_split s day minute :
  let f := minutesOf (From s) in let t := minutesOf (To s) in
  OffAt s day minute =
    if (f <? t)%Z then existsb (fun d => day =? dayIndex d)%Z (Days s) && (f <=? minute)%Z && (minute <? t)%Z
    else (existsb (fun d => day =? dayIndex d)%Z (Days s) && (f <=? minute)%Z) ||
         (negb (t =? 0)%Z && existsb (fun d => day =? Z.rem (dayIndex d + 1) 7)%Z (Days s) && (minute <? t)%Z).
Proof.
  unfold OffAt. cbv zeta. generalize (minutesOf (From s)) (minutesOf (To s)). intros f t.
  induction (Days s) as [|d ds IH]; cbn [existsb].
  - destruct (f <? t)%Z; [done|]. cbn. by rewrite andb_false_r.
  - rewrite IH. unfold offOn. destruct (f <? t)%Z;
      destruct (day =? dayIndex d)%Z, (day =? Z.rem (dayIndex d + 1) 7)%Z, (f <=? minute)%Z, (minute <? t)%Z,
        (t =? 0)%Z; cbn; rewrite ?andb_true_r, ?andb_false_r, ?orb_true_r, ?orb_false_r; done.
Qed.

(** C23. The rules are the schedule: at every second of the week the firewall's
    one or two rules keep the device off exactly when [OffAt] says so of that
    minute, and for one second more, the one in which a window ends. *)
Theorem schedule_rules_are_the_window s c mac local day sec :
  CleanSchedule s = Ok c -> (0 <= day < 7)%Z -> (0 <= sec < 86400)%Z ->
  rules_match (scheduleOptions mac local c) day sec =
    OffAt c day (sec / 60) ||
    ((sec =? 60 * minutesOf (To c))%Z && (0 <? sec)%Z && OffAt c day (sec / 60 - 1)).
Proof.
  intros H%CleanSchedule_Canonical Hday Hsec. pose proof (Canonical_times c H) as Hne.
  destruct H as ((want & Hd) & _ & f & t & Hf & Ht & _ & HF & HT).
  destruct (days_facts want) as [_ Hdays]. cbn zeta in Hdays. rewrite <- Hd in Hdays.
  destruct (Hdays day Hday) as [He Hm]. rewrite !OffAt_split. cbv zeta.
  unfold scheduleOptions. fold (evening_days (Days c)) (morning_days (Days c)). cbv zeta.
  rewrite HF, HT in *. rewrite !minutesOf_hhmm in * by done.
  assert (Hq : (sec = 60 * (sec / 60) + sec mod 60)%Z) by (apply Z.div_mod; lia).
  pose proof (Z.mod_pos_bound sec 60 ltac:(lia)) as Hr. set (q := (sec / 60)%Z) in *.
  destruct (f <? t)%Z eqn:Eft; [|destruct (t =? 0)%Z eqn:Et]; bool_to_prop; unfold rules_match; cbn [fst snd];
    rewrite !rule_matches_timed, ?hms_hhmm, He, ?Hm by lia; change (hms eveningEnd) with 86399%Z;
    try change (hms "00:00:00") with 0%Z;
    destruct (existsb (fun d => day =? dayIndex d)%Z (Days c)) eqn:E1,
      (existsb (fun d => day =? Z.rem (dayIndex d + 1) 7)%Z (Days c)) eqn:E2; cbn [andb orb negb];
    apply eq_true_iff_eq;
    rewrite ?orb_true_iff, ?andb_true_iff, ?orb_true_iff, ?andb_true_iff, ?Z.leb_le, ?Z.ltb_lt, ?Z.eqb_eq; try lia; try done.
Qed.

(** Friday night until Saturday morning, and a minute of it. *)
Definition friday_night : InternetSchedule := mkSchedule ["fri"] "22:00" "07:00".

Lemma scheduleFrom_scheduleOptions_witness :
  CleanSchedule (mkSchedule [" Fri"] "22:00" "7:00") = Refuse "to" (Errorf "%q is not a time of day (HH:MM)" ["7:00"]) /\
  CleanSchedule (mkSchedule [" Fri"] "22:00:30" "07:00") = Ok friday_night /\
  let '(evening, morning) := scheduleOptions "02:00:5e:ab:cd:0f" "lan" friday_night in
  scheduleFrom evening morning = Some friday_night.
Proof.
  split; [vm_compute; reflexivity|]. split; [vm_compute; reflexivity|].
  apply (scheduleFrom_scheduleOptions (mkSchedule [" Fri"] "22:00:30" "07:00")). vm_compute. reflexivity.
Defined.

Lemma schedule_rules_are_the_window_witness :
  CleanSchedule friday_night = Ok friday_night /\
  rules_match (scheduleOptions "02:00:5e:ab:cd:0f" "lan" friday_night) 5 25200 = true /\
  rules_match (scheduleOptions "02:00:5e:ab:cd:0f" "lan" friday_night) 5 25200 =
    OffAt friday_night 5 420 ||
    ((25200 =? 60 * minutesOf (To friday_night))%Z && (0 <? 25200)%Z && OffAt friday_night 5 (420 - 1)).
Proof.
  split; [vm_compute; reflexivity|]. split; [vm_compute; reflexivity|].
  apply (schedule_rules_are_the_window friday_night friday_night "02:00:5e:ab:cd:0f" "lan" 5 25200);
    [vm_compute; reflexivity|lia|lia].
Defined.
