(* ===== verification/DeviceWatch.v ===== *)
(** * Who is on the network: internal/adapters/openwrt/devices.go,
      devices_traffic.go and devices_wake.go

    The list of devices, put together from what the router knows, the memory of
    who was heard, the traffic counters, the router's clock, and the wake packet.

    Two things are parameters: the order in which Go ranges over a map
    ([rng], any order), and what encoding/json and strconv.ParseFloat make of a
    text ([decodeNft], [parseFloat]). *)

From S2P Require Import Prelude GoStrings GoNet Effects Network Uci Firewall Stage Lan Schedule.
From S2P Require Import Devices DeviceSources DeviceLimits.

Definition maxRemembered : Z := 2048.
Definition trafficTable := "veilbridge_traffic".
Definition nftProgram := "/usr/sbin/nft".
Definition bootWindow : Z := 300.
Definition maxAddrOwners : Z := 8192.
Definition timeValidFile := "/var/state/dnsmasqsec".
Definition Second : Z := 1000000000.

(** A moment on the monotonic clock, in nanoseconds; [None] is the zero time. *)
Record heard := mkHeard { hAt : Z; hLink : DeviceLink }.

Record memory := mkMemory { mSeen : gmap string heard; mOwners : gmap string string; mStarted : Z }.

Record observation := mkObservation {
  oIps : list string; oReported : string; oReserved : string; oOnline : bool; oAt : option Z; oLink : DeviceLink }.

Definition unobserved : observation := mkObservation [] "" "" false None (mkLink "" "" 0).

(** [t.After(o.at)] and [later]. *)
Definition after_time (t : Z) (at_ : option Z) : bool := match at_ with None => true | Some a => (a <? t)%Z end.
Definition later (o : observation) (t : Z) : observation :=
  if after_time t (oAt o)
  then mkObservation (oIps o) (oReported o) (oReserved o) (oOnline o) (Some t) (oLink o) else o.

Definition add_ip (o : observation) (ip : string) : observation :=
  mkObservation (oIps o ++ [ip]) (oReported o) (oReserved o) (oOnline o) (oAt o) (oLink o).
Definition connected (o : observation) (online : bool) (l : DeviceLink) : observation :=
  mkObservation (oIps o) (oReported o) (oReserved o) online (oAt o) l.

(** [if o := get(mac); o != nil { … }]. *)
Definition observe (mac : string) (f : observation -> observation) (obs : gmap string observation)
    : gmap string observation :=
  match NormalizeMAC mac with
  | Ok n => <[n := f (default unobserved (obs !! n))]> obs
  | Err _ => obs
  end.

Definition see_lease (obs : gmap string observation) (l : AddressLease) : gmap string observation :=
  observe (lMAC l) (fun o =>
    let o := if nonempty (lHostname l)
             then mkObservation (oIps o) (lHostname l) (oReserved o) (oOnline o) (oAt o) (oLink o) else o in
    if (0 <? lExpiresSec l)%Z then add_ip o (lIP l) else o) obs.

Definition see_reserved (obs : gmap string observation) (r : ReservedAddress) : gmap string observation :=
  observe (raMAC r) (fun o =>
    mkObservation (oIps o) (oReported o) (raIP r) (oOnline o) (oAt o) (oLink o)) obs.

Definition see_client (now : Z) (band : string) (obs : gmap string observation) (c : string * Z)
    : gmap string observation :=
  observe c.1 (fun o => later (connected o true (mkLink LinkWiFi band c.2)) now) obs.

Definition see_entry (now : Z) (obs : gmap string observation) (e : fdbEntry) : gmap string observation :=
  if eLocal e then obs else
  observe (eMac e) (fun o =>
    let o := later o (now - eAge e) in
    if String.eqb (lKind (oLink o)) LinkWiFi && oOnline o then o else
    if eWifi e then connected o (oOnline o) (mkLink LinkWiFi (eBand e) 0)
    else connected o true (mkLink LinkCable "" 0)) obs.

Definition see_neighbour (now : Z) (bridge : bool) (obs : gmap string observation) (n : neighbour)
    : gmap string observation :=
  observe (neMAC n) (fun o =>
    let o := add_ip o (neIP n) in
    if negb bridge && neFresh n then
      let o := later (connected o true (oLink o)) now in
      if nonempty (lKind (oLink o)) then o else connected o (oOnline o) (mkLink LinkCable "" 0)
    else o) obs.

(** ** Addresses *)

Definition is4 (s : string) : bool := bool_decide (ParseIP4 s <> None).

(** [sort.SliceStable] by family, then by text. *)
Definition ip_le (a b : string) : bool :=
  if Bool.eqb (is4 a) (is4 b) then str_le a b else is4 a.

Fixpoint dedup_ips (seen : gset string) (ips : list string) : list string :=
  match ips with
  | [] => []
  | s :: ips =>
      match ParseIP s with
      | Some ip =>
          let t := IPString ip in
          if has seen t then dedup_ips seen ips else t :: dedup_ips ({[t]} ∪ seen) ips
      | None => dedup_ips seen ips
      end
  end.

Definition sortIPs (ips : list string) : list string := sort_by ip_le (dedup_ips ∅ ips).

(** ** The counters *)

Record nftSet := mkNftSet { sName : string; sElems : list (option string * Z) }.

(** One object of the JSON document, the parts this package reads. *)
Record nftObject := mkNftObject { nTable : option (string * string); nSet : option nftSet }.

Record trafficRead := mkTraffic {
  tUp : gmap string Z; tDown : gmap string Z; tStartedAt : Z; tDev : string }.

(** [m[k] += n] on int64. *)
Definition add_bytes (k : string) (n : Z) (m : gmap string Z) : gmap string Z :=
  <[k := wrap64 (default 0%Z (m !! k) + n)]> m.

Definition comment_field (r : trafficRead) (f : string) : trafficRead :=
  let r := if HasPrefix "uptime=" f then
             match Atoi (TrimPrefix "uptime=" f) with
             | Some n => mkTraffic (tUp r) (tDown r) n (tDev r)
             | None => r
             end
           else r in
  if HasPrefix "dev=" f then mkTraffic (tUp r) (tDown r) (tStartedAt r) (TrimPrefix "dev=" f) else r.

Definition add_elem (set : string) (r : trafficRead) (e : option string * Z) : trafficRead :=
  match e.1 with
  | None => r
  | Some key =>
      if String.eqb set "up" then
        match ParseMAC key with
        | Some hw => mkTraffic (add_bytes (MACString hw) e.2 (tUp r)) (tDown r) (tStartedAt r) (tDev r)
        | None => r
        end
      else
        match ParseIP key with
        | Some ip => mkTraffic (tUp r) (add_bytes (IPString ip) e.2 (tDown r)) (tStartedAt r) (tDev r)
        | None => r
        end
  end.

Definition add_object (acc : trafficRead * nat) (o : nftObject) : trafficRead * nat :=
  let '(r, sets) := acc in
  let r := match nTable o with
           | Some (name, comment) =>
               if String.eqb name trafficTable then fold_left comment_field (Fields comment) r else r
           | None => r
           end in
  match nSet o with
  | None => (r, sets)
  | Some s =>
      if contains ["up"; "down4"; "down6"] (sName s)
      then (fold_left (add_elem (sName s)) (sElems s) r, S sets)
      else (r, sets)
  end.

Definition noTraffic : trafficRead := mkTraffic ∅ ∅ (-1) "".

(** The reading, and whether the table is whole. *)
Definition parseTraffic (doc : list nftObject) : trafficRead * bool :=
  let '(r, sets) := fold_left add_object doc (noTraffic, 0) in
  (r, bool_decide (sets = 3) && (0 <=? tStartedAt r)%Z).

Definition trafficRuleset (lanDev : string) (uptime : Z) : string :=
  Join (String "010" "")
    ["table inet " +:+ trafficTable +:+ " {";
     String "009" "comment " +:+ String "034" "vb uptime=" +:+ Itoa uptime +:+ " dev=" +:+ lanDev +:+ String "034" "";
     String "009" "set up { type ether_addr; flags dynamic; counter; size 4096; }";
     String "009" "set down4 { type ipv4_addr; flags dynamic; counter; size 8192; }";
     String "009" "set down6 { type ipv6_addr; flags dynamic; counter; size 8192; }";
     String "009" "chain tally {";
     String "009" (String "009" "type filter hook forward priority filter + 10; policy accept;");
     String "009" (String "009" "iifname ") +:+ String "034" lanDev +:+ String "034" " update @up { ether saddr }";
     String "009" (String "009" "oifname ") +:+ String "034" lanDev +:+ String "034" " meta nfproto ipv4 update @down4 { ip daddr }";
     String "009" (String "009" "oifname ") +:+ String "034" lanDev +:+ String "034" " meta nfproto ipv6 update @down6 { ip6 daddr }";
     String "009" "}"; "}"; ""].

Definition offloaded : prog bool :=
  soft <- uciGet "firewall.@defaults[0].flow_offloading" ;;
  if String.eqb soft "1" then Ret true else
  hard <- uciGet "firewall.@defaults[0].flow_offloading_hw" ;;
  Ret (String.eqb hard "1").

(** ** The clock *)

(** [local.Format("15:04")] and the day of the week of a Unix time; the first
    of January 1970 was a Thursday. *)
Definition clockText (localtime : Z) : string := hhmm ((localtime mod 86400) / 60).
Definition clockDay (localtime : Z) : string := nth (Z.to_nat ((localtime / 86400 + 3) mod 7)) Weekdays "".

Definition clock (m : deviceManager) : prog (option RouterClock) :=
  if negb (dmBus m) then Ret None else
  info <- ask SystemInfo ;;
  match info with
  | Err _ => Ret None
  | Ok localtime =>
      if (localtime =? 0)%Z then Ret None else
      zone <- uciGet "system.@system[0].zonename" ;;
      zone <- (if nonempty zone then Ret zone else uciGet "system.@system[0].timezone") ;;
      synced <- ask (SysExists timeValidFile) ;;
      Ret (Some (mkClock synced (clockText localtime) (clockDay localtime) zone))
  end.

Section Watch.
Context (rng : forall A : Type, gmap string A -> list (string * A)).
Context (decodeNft : string -> option (list nftObject)) (parseFloat : string -> option Z).

Definition uptimeSec : prog (option Z) :=
  b <- ask (ReadFile "/proc/uptime") ;;
  Ret (match b with
       | Err _ => None
       | Ok b => match Fields b with [] => None | f :: _ => parseFloat f end
       end).

Definition trafficFile (m : deviceManager) : string :=
  in_dir (if nonempty (dmStateDir m) then dmStateDir m else "/tmp") "veilbridge-traffic.nft".

(** A new table, when the counters are missing or of another device. *)
Definition makeTraffic (m : deviceManager) (lanDev : string) (now : Z) : prog (option (trafficRead * Z)) :=
  _ <- exec_cmd [nftProgram; "delete"; "table"; "inet"; trafficTable] ;;
  let path := trafficFile m in
  wrote <- ask (WriteFile path (trafficRuleset lanDev now)) ;;
  match wrote with
  | Err _ => Ret None
  | Ok _ =>
      loaded <- exec_cmd [nftProgram; "-f"; path] ;;
      _ <- ask (Remove path) ;;
      Ret (match loaded with Err _ => None | Ok _ => Some (mkTraffic ∅ ∅ now lanDev, now) end)
  end.

(** The counters and the uptime they are read at; [None] when the router
    cannot count. *)
Definition traffic (m : deviceManager) (lanDev : string) : prog (option (trafficRead * Z)) :=
  if negb (runs (dmNet m)) then Ret None else
  up <- uptimeSec ;;
  match up with
  | None => Ret None
  | Some now =>
      out <- exec_cmd [nftProgram; "-j"; "list"; "table"; "inet"; trafficTable] ;;
      match out with
      | Ok out =>
          match parseTraffic <$> decodeNft out with
          | Some (r, true) => if String.eqb (tDev r) lanDev then Ret (Some (r, now)) else makeTraffic m lanDev now
          | _ => makeTraffic m lanDev now
          end
      | Err _ => makeTraffic m lanDev now
      end
  end.

(** ** Memory *)

(** The entry heard longest ago, the first of equal ones in Go's order. *)
Definition oldest (seen : gmap string heard) : string :=
  fold_left (fun old kv =>
    match seen !! old with
    | Some h => if nonempty old && negb (hAt kv.2 <? hAt h)%Z then old else kv.1
    | None => if nonempty old then old else kv.1
    end) (rng heard seen) "".

Definition remember (mac : string) (h : heard) (seen : gmap string heard) : gmap string heard :=
  let seen := match seen !! mac with
              | Some _ => seen
              | None => if (maxRemembered <=? Z.of_nat (size seen))%Z then delete (oldest seen) seen else seen
              end in
  <[mac := h]> seen.

(** Any one entry goes: the first Go's order gives. *)
Definition any_key (owners : gmap string string) : string :=
  match rng string owners with (k, _) :: _ => k | [] => "" end.

Definition remember_owner (known : gmap string string) (kv : string * string) : gmap string string :=
  let known := match known !! kv.1 with
               | Some _ => known
               | None => if (maxAddrOwners <=? Z.of_nat (size known))%Z then delete (any_key known) known else known
               end in
  <[kv.1 := kv.2]> known.

Definition rememberOwners (owners known : gmap string string) : gmap string string :=
  fold_left remember_owner (rng string owners) known.

(** Whose address each one is now. *)
Definition ownersOf (obs : gmap string observation) : gmap string string :=
  fold_left (fun owners kv =>
    fold_left (fun owners ip =>
      match ParseIP ip with Some p => <[IPString p := kv.1]> owners | None => owners end)
      (oIps kv.2) owners) (rng observation obs) ∅.

(** What was received by the devices the addresses belong to. *)
Definition receivedBy (down : gmap string Z) (owners : gmap string string) : gmap string Z :=
  fold_left (fun rx kv =>
    match owners !! kv.1 with Some mac => add_bytes mac kv.2 rx | None => rx end) (rng Z down) ∅.

(** One observed device, with what is remembered of it. *)
Definition recall (acc : gmap string observation * gmap string heard) (kv : string * observation)
    : gmap string observation * gmap string heard :=
  let '(obs, seen) := acc in
  let '(mac, o) := kv in
  let o := match seen !! mac with
           | Some prev =>
               let at_ := match oAt o with
                          | None => Some (hAt prev)
                          | Some t => if (t <? hAt prev)%Z then Some (hAt prev) else Some t
                          end in
               let l := if nonempty (lKind (oLink o)) then oLink o
                        else mkLink (lKind (hLink prev)) (lBand (hLink prev)) 0 in
               mkObservation (oIps o) (oReported o) (oReserved o) (oOnline o) at_ l
           | None => o
           end in
  (<[mac := o]> obs,
   match oAt o with Some t => remember mac (mkHeard t (oLink o)) seen | None => seen end).

(** Those heard earlier and gone from every source since. *)
Definition gone (guests : gset string) (obs : gmap string observation) (seen : gmap string heard)
    : gmap string observation :=
  obs ∪ ((fun h => mkObservation [] "" "" false (Some (hAt h)) (mkLink (lKind (hLink h)) (lBand (hLink h)) 0)) <$>
           filter (fun kv => kv.1 ∉ guests) seen).

(** ** The list *)

(** What the sources said. *)
Record gathered := mkGathered {
  gNow : Z; gObs : gmap string observation; gGuests : gset string; gBlocked : gset string;
  gScheduled : gmap string InternetSchedule; gClock : option RouterClock; gCounts : option (trafficRead * Z) }.

(** The devices of the sources, without the guests, with the limited ones. *)
Definition listed (g : gathered) : gmap string observation :=
  let obs := filter (fun kv => kv.1 ∉ gGuests g) (gObs g) in
  fold_left (fun obs mac => observe mac (fun o => o) obs)
    (elements (gBlocked g) ++ elements (dom (gScheduled g))) obs.

Definition shown_device (g : gathered) (rx : gmap string Z) (kv : string * observation) : Device :=
  let '(mac, o) := kv in
  let d := mkDevice mac "" (oReported o) (sortIPs (oIps o)) (oReserved o) false false (oOnline o) None
             (oLink o) (if has (gBlocked g) mac then InternetBlocked else InternetAllowed) None false ""
             (match gCounts g with Some _ => default 0%Z (rx !! mac) | None => 0%Z end)
             (match gCounts g with Some (r, _) => default 0%Z (tUp r !! mac) | None => 0%Z end) false in
  let d := match gScheduled g !! mac with
           | Some s => ApplySchedule
               (mkDevice (dMAC d) (dName d) (dReportedName d) (dIPs d) (dReservedIP d) (dPrivateAddress d) (dNew d)
                  (dOnline d) (dLastSeenSec d) (dLink d) (dInternet d) (Some s) (dOffBySchedule d)
                  (dScheduleChangeAt d) (dRxBytes d) (dTxBytes d) (dHere d)) (gClock g)
           | None => d
           end in
  mkDevice (dMAC d) (dName d) (dReportedName d) (dIPs d) (dReservedIP d) (dPrivateAddress d) (dNew d) (dOnline d)
    (if oOnline o then None else (fun t => Z.max 0 (Z.quot (gNow g - t) Second)) <$> oAt o)
    (if nonempty (lKind (dLink d)) then dLink d else mkLink LinkUnknown (lBand (dLink d)) (lSignalDBm (dLink d)))
    (dInternet d) (dSchedule d) (dOffBySchedule d) (dScheduleChangeAt d) (dRxBytes d) (dTxBytes d) (dHere d).

(** The part under the lock: what is remembered, and the devices. *)
Definition assemble (g : gathered) (mem : memory) : list Device * memory :=
  let obs := listed g in
  let owners := rememberOwners (ownersOf obs) (mOwners mem) in
  let rx := match gCounts g with Some (r, _) => receivedBy (tDown r) owners | None => ∅ end in
  let '(obs, seen) := fold_left recall (rng observation obs) (obs, mSeen mem) in
  let obs := gone (gGuests g) obs seen in
  (sort_by by_mac (shown_device g rx <$> rng observation obs), mkMemory seen owners (mStarted mem)).

Definition gather (m : deviceManager) (lanDev : string) : prog gathered :=
  now <- ask Monotonic ;;
  ls <- leases ;;
  let obs := fold_left see_lease ls ∅ in
  rs <- reserved ;;
  let obs := fold_left see_reserved rs obs in
  aps <- accessPoints m ;;
  let bands := fold_left (fun b ap => <[apIface ap := apBand ap]> b) aps ∅ in
  let obs := fold_left (fun obs ap => fold_left (see_client now (apBand ap)) (rng Z (apSignals ap)) obs) aps obs in
  fdb <- forwarding lanDev bands ;;
  let obs := fold_left (see_entry now) fdb obs in
  neigh <- ask (Neighbours lanDev) ;;
  let obs := fold_left (see_neighbour now (bool_decide (fdb <> []))) (match neigh with Ok l => l | Err _ => [] end) obs in
  let wired := dom (filter (fun kv => oOnline kv.2 = true /\ lKind (oLink kv.2) = LinkCable) obs) in
  guests <- guestClients aps wired ;;
  blocked_ <- blocked (dmNet m) ;;
  scheduled <- schedulesNow (dmNet m) ;;
  c <- clock m ;;
  counts <- traffic m lanDev ;;
  Ret (mkGathered now obs guests blocked_ scheduled c counts).

Definition countingOf (counts : option (trafficRead * Z)) : prog (option TrafficCounting) :=
  match counts with
  | None => Ret None
  | Some (r, uptime) =>
      partial <- offloaded ;;
      Ret (Some (mkCounting (Z.max 0 (uptime - tStartedAt r)) (tStartedAt r <=? bootWindow)%Z partial))
  end.

Definition ListDevices (m : deviceManager) (mem : memory) : prog (res DeviceList * memory) :=
  lanDev <- lanDevice m ;;
  match lanDev with
  | Err e => Ret (Err e, mem)
  | Ok lanDev =>
      if negb (runs (dmNet m)) then Ret (Err ErrNotImplemented, mem) else
      g <- gather m lanDev ;;
      let '(devices, mem) := assemble g mem in
      counting <- countingOf (gCounts g) ;;
      Ret (Ok (mkDeviceList devices (Z.quot (gNow g - mStarted mem) Second) false false counting (gClock g)), mem)
  end.

(** A look that is only remembered. *)
Definition ObserveDevices (m : deviceManager) (mem : memory) : prog memory :=
  r <- ListDevices m mem ;; Ret r.2.
End Watch.

(** ** Waking a device *)

Definition wakeRepeats : nat := 3.

(** The payload, byte by byte. *)
Definition magicPacket (mac : list Z) : list Z := replicate 6 255%Z ++ mjoin (M:=list) (replicate 16 mac).

Definition errWakeWiFi : err :=
  Errorf "a device that sleeps on Wi-Fi cannot be woken over the network — only over a cable" [].

Fixpoint sendWake (n : nat) (dev : string) (payload : list Z) : prog (res unit) :=
  match n with
  | O => Ret (Ok tt)
  | S n =>
      sent <- ask (SendBroadcast dev payload) ;;
      match sent with
      | Err e => Ret (Err (Wrapf "openwrt: send the wake packet: %w" [] e))
      | Ok _ => sendWake n dev payload
      end
  end.

Definition WakeDevice (m : deviceManager) (mem : memory) (raw : string) : prog (res unit) :=
  let* mac := RefuseRes "mac" (NormalizeMAC raw) in
  if String.eqb (match mSeen mem !! mac with Some h => lKind (hLink h) | None => "" end) LinkWiFi
  then Ret (Refuse "mac" errWakeWiFi) else
  let! dev := lanDevice m in
  sendWake wakeRepeats dev (magicPacket (default [] (ParseMAC mac))).
