(* ===== verification/DeviceWatchThms.v ===== *)
(** * What the list of devices keeps to

    Whatever order Go ranges over its maps in: the memory stays bounded, each
    device is on the list once, a limited device is always on it, and a guest is
    not (internal/adapters/openwrt/devices.go). *)

From S2P Require Import Prelude GoStrings GoNet Effects Network Uci Firewall Stage Lan LanThms.
From S2P Require Import Schedule Devices DeviceSources DeviceLimits DeviceLimitsThms DeviceWatch.

Section Memory.
Context (rng : forall A : Type, gmap string A -> list (string * A)) `{!MapOrder rng}.

(** ** The memory stays bounded *)

Definition bounded (mem : memory) : Prop :=
  (Z.of_nat (size (mSeen mem)) <= maxRemembered)%Z /\ (Z.of_nat (size (mOwners mem)) <= maxAddrOwners)%Z.

Lemma oldest_elem (seen : gmap string heard) : 0 < size seen -> is_Some (seen !! oldest rng seen).
Proof.
  intros Hs. rewrite <- rng_length in Hs. unfold oldest.
  set (step := fun old (kv : string * heard) => match seen !! old with
    | Some h => if nonempty old && negb (hAt kv.2 <? hAt h)%Z then old else kv.1
    | None => if nonempty old then old else kv.1 end).
  assert (forall l old, is_Some (seen !! old) -> (forall kv, kv ∈ l -> is_Some (seen !! kv.1)) ->
            is_Some (seen !! fold_left step l old)) as Hl.
  { induction l as [|kv l IH]; intros old Ho Hin; [done|]. cbn. apply IH; [|intros; apply Hin; by right].
    assert (step old kv = old \/ step old kv = kv.1) as [->| ->]; [|done|apply Hin; left].
    unfold step. repeat case_match; auto. }
  assert (forall kv, kv ∈ rng heard seen -> is_Some (seen !! kv.1)) as Hin by (intros [k v] ?%rng_elem; by exists v).
  destruct (rng heard seen) as [|kv l]; [cbn in Hs; lia|]. cbn [fold_left].
  assert (step "" kv = kv.1) as -> by (unfold step; by case_match).
  apply Hl; [apply Hin; left|]. intros kv' Hkv. apply Hin. by right.
Qed.

Lemma insert_size {A} (m : gmap string A) k v n :
  (Z.of_nat (size m) <= n)%Z -> (is_Some (m !! k) \/ (Z.of_nat (size m) < n)%Z) ->
  (Z.of_nat (size (<[k := v]> m)) <= n)%Z.
Proof.
  intros Hn H. rewrite map_size_insert. destruct (m !! k) eqn:E; [done|]. destruct H as [[? H]|H]; [done|lia].
Qed.

Lemma delete_size {A} (m : gmap string A) k n :
  is_Some (m !! k) -> (Z.of_nat (size m) <= n)%Z -> (Z.of_nat (size (delete k m)) < n)%Z.
Proof.
  intros [v Hv] Hn. rewrite map_size_delete, Hv.
  assert (size m <> 0) by (intros E%map_size_empty_iff; by subst). lia.
Qed.

(** Room is made before a new key goes in. *)
Lemma evict_size {A} (m : gmap string A) k v n (drop : string) :
  (0 < n)%Z -> (0 < size m -> is_Some (m !! drop)) -> (Z.of_nat (size m) <= n)%Z ->
  (Z.of_nat (size (<[k := v]> (match m !! k with
                               | Some _ => m
                               | None => if (n <=? Z.of_nat (size m))%Z then delete drop m else m
                               end))) <= n)%Z.
Proof.
  intros Hn Hd Hs. destruct (m !! k) eqn:E; [by apply insert_size; eauto|].
  destruct (n <=? Z.of_nat (size m))%Z eqn:El; bool_to_prop.
  - apply insert_size; [|right]; (enough (Z.of_nat (size (delete drop m)) < n)%Z by lia);
      apply delete_size; try done; apply Hd; lia.
  - apply insert_size; [done|right; lia].
Qed.

Lemma remember_size mac h seen :
  (Z.of_nat (size seen) <= maxRemembered)%Z -> (Z.of_nat (size (remember rng mac h seen)) <= maxRemembered)%Z.
Proof. intros H. unfold remember. by apply evict_size; [|apply oldest_elem|]. Qed.

Lemma any_key_elem (owners : gmap string string) : 0 < size owners -> is_Some (owners !! any_key rng owners).
Proof.
  intros H. rewrite <- rng_length in H. unfold any_key. destruct (rng string owners) as [|[k v] l] eqn:E; [cbn in H; lia|].
  exists v. apply rng_elem. rewrite E. left.
Qed.

Lemma remember_owner_size known kv :
  (Z.of_nat (size known) <= maxAddrOwners)%Z -> (Z.of_nat (size (remember_owner rng known kv)) <= maxAddrOwners)%Z.
Proof. intros H. unfold remember_owner. by apply evict_size; [|apply any_key_elem|]. Qed.

Lemma rememberOwners_size owners known :
  (Z.of_nat (size known) <= maxAddrOwners)%Z -> (Z.of_nat (size (rememberOwners rng owners known)) <= maxAddrOwners)%Z.
Proof.
  unfold rememberOwners. generalize (rng string owners). intros l. revert known.
  induction l as [|kv l IH]; intros known H; [done|]. cbn. apply IH. by apply remember_owner_size.
Qed.

Lemma recall_size acc kv :
  (Z.of_nat (size acc.2) <= maxRemembered)%Z -> (Z.of_nat (size (recall rng acc kv).2) <= maxRemembered)%Z.
Proof.
  destruct acc as [obs seen], kv as [mac o]. intros H. cbn -[remember maxRemembered].
  destruct (match seen !! mac with Some _ => _ | None => o end) as [? ? ? ? [t|] ?]; cbn -[remember maxRemembered];
    [by apply remember_size|done].
Qed.

Lemma assemble_bounded g mem : bounded mem -> bounded (assemble rng g mem).2.
Proof.
  intros [Hs Ho]. unfold assemble.
  assert (forall l acc, (Z.of_nat (size acc.2) <= maxRemembered)%Z ->
            (Z.of_nat (size (fold_left (recall rng) l acc).2) <= maxRemembered)%Z) as Hf.
  { induction l as [|kv l IH]; intros acc H; [done|]. apply IH. by apply recall_size. }
  specialize (Hf (rng observation (listed g)) (listed g, mSeen mem) Hs).
  destruct (fold_left (recall rng) _ _) as [obs seen]. split; [done|]. by apply rememberOwners_size.
Qed.
End Memory.

(** C27. The panel's memory of devices is bounded: whatever the router answers and
    in whatever order Go ranges over its maps, after a look at the network no
    more than 2048 devices and 8192 addresses are remembered. *)
Theorem memory_stays_bounded {W} (h : router W) rng decodeNft parseFloat (m : deviceManager) (mem : memory) (w : W) :
  MapOrder rng -> bounded mem -> bounded (result h (ListDevices rng decodeNft parseFloat m mem) w).2.
Proof.
  intros Hr Hb.
  apply (hearing_sound h (ListDevices rng decodeNft parseFloat m mem) w (fun _ r => bounded r.2)).
  unfold ListDevices.
  eapply hearing_seq with (R := fun _ _ => True); [by apply hearing_any|]. intros l1 [lanDev|e] _; [|done].
  destruct (negb _); [done|].
  eapply hearing_seq with (R := fun _ _ => True); [by apply hearing_any|]. intros l2 g _.
  pose proof (assemble_bounded rng g mem Hb) as Ha. destruct (assemble rng g mem) as [devices mem'].
  eapply hearing_seq with (R := fun _ _ => True); [by apply hearing_any|]. by intros l3 counting _.
Qed.

(** ** Who is on the list *)

Lemma observe_dom mac f obs :
  dom (observe mac f obs) = match NormalizeMAC mac with Ok n => {[n]} ∪ dom obs | Err _ => dom obs end.
Proof. unfold observe. destruct (NormalizeMAC mac); [by rewrite dom_insert_L|done]. Qed.

Lemma observe_fold_dom macs obs n :
  n ∈ dom (fold_left (fun obs mac => observe mac (fun o => o) obs) macs obs) <->
  n ∈ dom obs \/ exists mac, mac ∈ macs /\ NormalizeMAC mac = Ok n.
Proof.
  revert obs. induction macs as [|mac macs IH]; intros obs; cbn [fold_left].
  - split; [by left|]. intros [|(mac & H%not_elem_of_nil & _)]; done.
  - rewrite IH, observe_dom. setoid_rewrite elem_of_cons. split.
    + intros [H|(mac' & ? & ?)]; [|right; eauto]. destruct (NormalizeMAC mac) as [k|e] eqn:E; [|by left].
      apply elem_of_union in H as [->%elem_of_singleton|H]; [right; eauto|by left].
    + intros [H|(mac' & [->|?] & Hn)]; [|rewrite Hn|right; eauto]; left.
      * destruct (NormalizeMAC mac); [by apply elem_of_union_r|done].
      * apply elem_of_union_l, elem_of_singleton. done.
Qed.

(** The limits of devices, by their addresses in the one spelling. *)
Definition limits_canonical (g : gathered) : Prop :=
  forall mac, mac ∈ gBlocked g \/ mac ∈ dom (gScheduled g) -> device_mac mac.

Definition limited (g : gathered) (mac : string) : Prop := mac ∈ gBlocked g \/ mac ∈ dom (gScheduled g).

Lemma listed_dom g mac : limits_canonical g ->
  mac ∈ dom (listed g) <-> (mac ∈ dom (gObs g) /\ mac ∉ gGuests g) \/ limited g mac.
Proof.
  intros Hc. unfold listed, limited. rewrite observe_fold_dom. setoid_rewrite elem_of_app.
  setoid_rewrite elem_of_elements.
  assert (mac ∈ dom (filter (fun kv => kv.1 ∉ gGuests g) (gObs g)) <-> mac ∈ dom (gObs g) /\ mac ∉ gGuests g) as ->.
  { rewrite !elem_of_dom. split.
    - intros [v [Hv Hg]%map_lookup_filter_Some]. eauto.
    - intros [[v Hv] Hg]. exists v. by apply map_lookup_filter_Some. }
  split; (intros [H|H]; [by left|right]).
  - destruct H as (mac' & Hm & Hn). rewrite NormalizeMAC_fixed in Hn by (apply Hc; tauto). by injection Hn as <-.
  - exists mac. split; [done|]. apply NormalizeMAC_fixed, Hc, H.
Qed.

Section List.
Context (rng : forall A : Type, gmap string A -> list (string * A)) `{!MapOrder rng}.

Lemma recall_dom l acc : (forall kv, kv ∈ l -> kv.1 ∈ dom acc.1) ->
  dom (fold_left (recall rng) l acc).1 = dom acc.1.
Proof.
  revert acc. induction l as [|[mac o] l IH]; intros [obs seen] H; [done|]. cbn [fold_left].
  rewrite IH; cbn [recall fst]; rewrite dom_insert_L.
  - assert (mac ∈ dom obs) by (apply (H (mac, o)); left). set_solver.
  - intros kv Hkv. apply elem_of_union_r, H. by right.
Qed.

Lemma shown_device_mac g rx kv : dMAC (shown_device g rx kv) = kv.1.
Proof.
  destruct kv as [mac o]. unfold shown_device. destruct (gScheduled g !! mac); [|done].
  unfold ApplySchedule. cbn [dSchedule]. destruct (gClock g) as [c|]; [|done].
  destruct (clockMinutes (cNow c)); [|done]. by destruct (dayIndex (cWeekday c) <? 0)%Z.
Qed.

Lemma shown_device_limits g rx mac o :
  dSchedule (shown_device g rx (mac, o)) = gScheduled g !! mac /\
  dInternet (shown_device g rx (mac, o)) =
    if has (gBlocked g) mac then InternetBlocked
    else match gScheduled g !! mac with Some _ => InternetScheduled | None => InternetAllowed end.
Proof.
  unfold shown_device. destruct (gScheduled g !! mac) as [s|]; [|by destruct (has _ _)].
  unfold ApplySchedule. cbn [dSchedule].
  destruct (gClock g) as [c|]; [|by destruct (has _ _)].
  destruct (clockMinutes (cNow c)); [|by destruct (has _ _)].
  destruct (dayIndex (cWeekday c) <? 0)%Z; by destruct (has _ _).
Qed.

(** The entries of the list before it is shown. *)
Lemma assemble_list g mem : exists final rx,
  (assemble rng g mem).1 = sort_by by_mac (shown_device g rx <$> rng observation final) /\
  (forall mac, mac ∈ dom final -> mac ∈ dom (listed g) \/ mac ∉ gGuests g) /\ dom (listed g) ⊆ dom final.
Proof.
  unfold assemble. pose proof (recall_dom (rng observation (listed g)) (listed g, mSeen mem)) as Hd.
  destruct (fold_left (recall rng) _ _) as [obs seen]. cbn [fst] in *.
  assert (dom obs = dom (listed g)) as Ho.
  { apply Hd. intros [k v] Hk%rng_elem. cbn. by apply elem_of_dom_2 in Hk. }
  eexists _, _. split; [done|]. rewrite <- Ho. unfold gone. split; [|rewrite dom_union_L; set_solver].
  intros mac. rewrite dom_union_L, dom_fmap_L. intros [H|H]%elem_of_union; [by left|right].
  apply elem_of_dom in H as [v Hv]. by apply map_lookup_filter_Some in Hv as [_ ?].
Qed.

Lemma assemble_keeps_limits (g : gathered) (mem : memory) :
  limits_canonical g ->
  let devices := (assemble rng g mem).1 in
  StronglySorted (fun a b => by_mac a b = true) devices /\ NoDup (dMAC <$> devices) /\
  (forall mac, limited g mac -> exists d, d ∈ devices /\ dMAC d = mac /\ dSchedule d = gScheduled g !! mac /\
     dInternet d = if has (gBlocked g) mac then InternetBlocked else InternetScheduled) /\
  (forall d, d ∈ devices -> dMAC d ∈ gGuests g -> limited g (dMAC d)).
Proof.
  intros Hc devices. destruct (assemble_list g mem) as (final & rx & E & Hin & Hout). unfold devices. rewrite E.
  split_and!.
  - apply sort_by_sorted; unfold by_mac; intros; [by apply str_le_total|by eapply str_le_trans].
  - rewrite sort_by_Permutation, <- list_fmap_compose.
    rewrite (list_fmap_ext (dMAC ∘ shown_device g rx) fst) by (intros; apply shown_device_mac).
    by apply rng_NoDup.
  - intros mac Hl. assert (mac ∈ dom final) as [o Ho]%elem_of_dom by (apply Hout, listed_dom; auto).
    exists (shown_device g rx (mac, o)). split.
    { apply sort_by_elem, list_elem_of_fmap. exists (mac, o). split; [done|]. by apply rng_elem. }
    split; [apply shown_device_mac|]. destruct (shown_device_limits g rx mac o) as [-> ->]. split; [done|].
    destruct (has (gBlocked g) mac) eqn:Eb; [done|]. destruct Hl as [Hl|[s ->]%elem_of_dom]; [|done].
    by rewrite has_false in Eb.
  - intros d Hd Hg. apply sort_by_elem, list_elem_of_fmap in Hd as ([mac o] & -> & Hk%rng_elem).
    rewrite shown_device_mac in *. cbn [fst] in *. apply elem_of_dom_2 in Hk. destruct (Hin mac Hk) as [Hl|]; [|done].
    apply listed_dom in Hl as [[_ ?]|?]; [done|done|done].
Qed.
End List.

(** ** The addresses of the limits *)

Lemma normalized_device macs mac : mac ∈ normalized macs -> device_mac mac.
Proof.
  unfold normalized. rewrite elem_of_list_to_set, list_elem_of_omap. intros (raw & _ & H).
  destruct (NormalizeMAC raw) as [n|e] eqn:E; [|done]. injection H as <-. by eapply NormalizeMAC_device.
Qed.

Lemma blockedDevices_device show mac : mac ∈ blockedDevices show -> device_mac mac.
Proof.
  unfold blockedDevices. rewrite elem_of_list_to_set, list_elem_of_join.
  intros (l & Hm & (s & -> & _)%list_elem_of_fmap). apply elem_of_elements in Hm. by eapply normalized_device.
Qed.

Lemma scheduleMAC_device section mac : scheduleMAC section = Some mac -> device_mac mac.
Proof.
  unfold scheduleMAC. destruct (negb _); [done|].
  destruct (NormalizeMAC _) as [n|e] eqn:E; [|done]. intros [= <-]. by eapply NormalizeMAC_device.
Qed.

Lemma schedules_device show mac : mac ∈ dom (schedules show) -> device_mac mac.
Proof.
  unfold schedules, schedulesOf. generalize (parseUCISections show). intros l.
  assert (forall l acc, (forall k, k ∈ dom acc.1 -> device_mac k) ->
            forall k, k ∈ dom (fold_left add_part l acc).1 -> device_mac k) as H.
  { clear. induction l as [|s l IH]; intros acc Hacc; [done|]. cbn [fold_left]. apply IH.
    destruct acc as [e m]. unfold add_part, schedule_part. destruct (_ || _ || _); [done|].
    destruct (scheduleMAC (id s)) as [n|] eqn:E; [|done].
    destruct (HasSuffix morningSuffix (id s)); [done|]. cbn [fmap option_fmap option_map fst].
    intros k. rewrite dom_insert_L. intros [->%elem_of_singleton|Hk]%elem_of_union; [by exact (scheduleMAC_device (id s) n E)|by apply Hacc]. }
  specialize (H l (∅, ∅)). destruct (fold_left add_part l (∅, ∅)) as [e m].
  intros [v Hv]%elem_of_dom. rewrite map_lookup_imap in Hv. apply (H ltac:(set_solver)).
  destruct (e !! mac) eqn:E; [by apply elem_of_dom_2 in E|done].
Qed.

(** What the two readings of the firewall say. *)
Definition blockedBy (r : res string) : gset string := match r with Ok out => blockedDevices out | Err _ => ∅ end.
Definition scheduledBy (r : res string) : gmap string InternetSchedule :=
  match r with Ok out => schedules out | Err _ => ∅ end.

Definition showFirewall : op := Exec ["uci"; "-q"; "show"; "firewall"].

Section Gather.
Context (rng : forall A : Type, gmap string A -> list (string * A)).
Context (decodeNft : string -> option (list nftObject)) (parseFloat : string -> option Z).

Lemma gather_hearing m dev l : runs (dmNet m) = true ->
  hearing l (gather rng decodeNft parseFloat m dev) (fun l' g => exists b s : res string,
    Did showFirewall b ∈ l' /\ Did showFirewall s ∈ l' /\ gBlocked g = blockedBy b /\ gScheduled g = scheduledBy s).
Proof.
  intros Hr. unfold gather.
  do 7 (eapply hearing_seq with (R := fun _ _ => True); [by apply hearing_any|]; intros ? ? _; cbv zeta).
  eapply hearing_seq with (R := fun l' x => exists b, Did showFirewall b ∈ l' /\ x = blockedBy b).
  { unfold blocked. rewrite Hr. split; [done|]. intros r. exists r. unfold Effects.heard. split; [set_solver|by destruct r]. }
  intros l1 x (b & Hb & ->).
  eapply hearing_seq with (R := fun l' x => Did showFirewall b ∈ l' /\ exists s, Did showFirewall s ∈ l' /\ x = scheduledBy s).
  { unfold schedulesNow. rewrite Hr. split; [done|]. intros r. unfold Effects.heard. split; [set_solver|].
    exists r. split; [set_solver|by destruct r]. }
  intros l2 x (Hb2 & s & Hs & ->).
  eapply hearing_seq with (R := fun l' _ => Did showFirewall b ∈ l' /\ Did showFirewall s ∈ l');
    [by apply hearing_any; intros l3 ? Hl; auto|]. intros l3 c [Hb3 Hs3].
  eapply hearing_seq with (R := fun l' _ => Did showFirewall b ∈ l' /\ Did showFirewall s ∈ l');
    [by apply hearing_any; intros l4 ? Hl; auto|]. intros l4 counts [Hb4 Hs4]. by exists b, s.
Qed.
End Gather.

Lemma gather_limits m dev l (rng : forall A : Type, gmap string A -> list (string * A)) decodeNft parseFloat :
  runs (dmNet m) = true ->
  hearing l (gather rng decodeNft parseFloat m dev) (fun l' g => limits_canonical g /\ exists b s : res string,
    Did showFirewall b ∈ l' /\ Did showFirewall s ∈ l' /\ gBlocked g = blockedBy b /\ gScheduled g = scheduledBy s).
Proof.
  intros Hr. eapply wp_mono; [by apply gather_hearing|]. intros l' g (b & s & Hb & Hs & Eb & Es).
  split; [|by exists b, s]. intros mac. rewrite Eb, Es. intros [H|H].
  - destruct b; [by eapply blockedDevices_device|by cbn [blockedBy] in H; rewrite elem_of_empty in H].
  - destruct s; [by eapply schedules_device|by cbn [scheduledBy] in H; rewrite dom_empty_L, elem_of_empty in H].
Qed.

(** The list is sorted, names each device once, and shows every device that is
    limited by what the two readings of the firewall among [calls] say. *)
Definition every_limit_shown (dl : DeviceList) (calls : list event) : Prop :=
  StronglySorted (fun a b => by_mac a b = true) (dlDevices dl) /\ NoDup (dMAC <$> dlDevices dl) /\
  exists b s : res string, Did showFirewall b ∈ calls /\ Did showFirewall s ∈ calls /\
    forall mac, mac ∈ blockedBy b \/ mac ∈ dom (scheduledBy s) ->
      exists d, d ∈ dlDevices dl /\ dMAC d = mac /\ dSchedule d = scheduledBy s !! mac /\
        dInternet d = if has (blockedBy b) mac then InternetBlocked else InternetScheduled.


(** A router with one blocked device, which nobody else knows of. *)
Definition watch_show : string := "firewall.vb_noinet_02005eabcd0f=rule" +:+ String "010" (
  "firewall.vb_noinet_02005eabcd0f.src_mac='02:00:5e:ab:cd:0f'").

Definition lan_interface : BusInterface :=
  mkBusInterface "lan" true 60 "static" "br-lan" "br-lan" [] [] [] [] [].

Definition watch_router : router nat :=
  mkRouter nat (fun o w =>
    match o return ans o * nat with
    | BusInterfaces => (Ok [lan_interface], w)
    | Exec ["uci"; "-q"; "show"; "firewall"] => (Ok watch_show, S w)
    | o => (refuse o, w)
    end).

Definition by_key (A : Type) (m : gmap string A) : list (string * A) := map_to_list m.
Lemma by_key_order : MapOrder by_key.
Proof. by intros A m. Qed.

Definition unread (A : Type) (s : string) : option A := None.
Definition watcher : deviceManager := mkDeviceManager (mkManager true true "") false "".
Definition nothing_seen : memory := mkMemory ∅ ∅ 0.

Lemma memory_stays_bounded_witness :
  bounded nothing_seen /\
  bounded (result watch_router (ListDevices by_key (unread _) (unread _) watcher nothing_seen) 0).2.
Proof.
  assert (bounded nothing_seen) as Hb by (split; vm_compute; discriminate).
  split; [exact Hb|].
  exact (memory_stays_bounded watch_router by_key (unread _) (unread _) watcher nothing_seen 0 by_key_order Hb).
Defined.

