(* ===== verification/FirewallThms.v ===== *)
(** * Which rule decides

    A reference meaning of the rule list - the first rule that matches a packet
    decides it - and what the checks of internal/adapters/openwrt/firewall_rules.go
    say about it. *)

From S2P Require Import Prelude GoStrings GoNet Effects Network Uci Firewall Stage Lan LanThms FirewallWrite FirewallRules.

(** ** Port lists *)

Definition word (p : ascii -> bool) (w : string) : Prop :=
  nonempty w = true /\ all_chars (fun c => negb (p c)) w = true.

Lemma fields_byte_word p acc w s :
  all_chars (fun c => negb (p c)) w = true ->
  fields_byte p acc (w +:+ s) = fields_byte p (rev_onto w acc) s.
Proof.
  revert acc. induction w as [|c w IH]; intros acc H; [done|]. cbn [all_chars] in H. bool_to_prop.
  rewrite append_cons. cbn [fields_byte rev_onto]. rewrite H. by apply IH.
Qed.

Lemma push_word_rev w ws : nonempty w = true -> push_word (rev_onto w "") ws = w :: ws.
Proof.
  intros H. unfold push_word. change (rev_onto w "") with (rev_string w).
  replace (nonempty (rev_string w)) with true; [by rewrite rev_string_involutive|].
  destruct (rev_string w) eqn:E; [|done]. apply (f_equal rev_string) in E.
  rewrite rev_string_involutive in E. by subst.
Qed.

Lemma FieldsByte_Join p c ws :
  p c = true -> Forall (word p) ws -> FieldsByte p (Join (String c "") ws) = ws.
Proof.
  intros Hc. unfold FieldsByte. induction 1 as [|w ws [Hn Hw] Hws IH]; [done|].
  destruct ws as [|w' ws].
  - cbn [Join String.concat]. rewrite <- (append_nil_r w), fields_byte_word by done.
    rewrite append_nil_r. cbn [fields_byte]. by apply push_word_rev.
  - change (Join (String c "") (w :: w' :: ws)) with (w +:+ String c "" +:+ Join (String c "") (w' :: ws)).
    rewrite fields_byte_word by done. rewrite append_cons, append_nil_l. cbn [fields_byte]. rewrite Hc, IH.
    by apply push_word_rev.
Qed.

Lemma fields_byte_words p acc s :
  all_chars (fun c => negb (p c)) acc = true -> Forall (word p) (fields_byte p acc s).
Proof.
  assert (forall acc ws, all_chars (fun c => negb (p c)) acc = true -> Forall (word p) ws ->
    Forall (word p) (push_word acc ws)) as Hp.
  { intros a ws Ha Hws. unfold push_word. destruct (nonempty a) eqn:E; [|done]. constructor; [|done].
    split; [|by rewrite all_chars_rev]. destruct (rev_string a) eqn:Er; [|done].
    apply (f_equal rev_string) in Er. rewrite rev_string_involutive in Er. by subst. }
  revert acc. induction s as [|c s IH]; intros acc Ha; cbn [fields_byte]; [by apply Hp|].
  destruct (p c) eqn:E; [apply Hp; [done|by apply IH]|]. apply IH. cbn. by rewrite E, Ha.
Qed.

Lemma parsePortList_again v p rs : parsePortList v = Some (p, rs) -> parsePortList p = Some (p, rs).
Proof.
  unfold parsePortList. case_decide as Hi; [done|].
  destruct (mapM parsePorts _) as [r|] eqn:E; [|done]. intros [= <- <-].
  rewrite FieldsByte_Join; [|done|by apply fields_byte_words]. by rewrite decide_False, E by done.
Qed.

Lemma parsePorts_bounds v f l : parsePorts v = Some (f, l) -> (1 <= f <= l)%Z /\ (l <= 65535)%Z.
Proof.
  unfold parsePorts. destruct (portRe _) as [[a b]|]; [|done].
  destruct (_ || _ || _) eqn:E; [done|]. intros [= <- <-]. bool_to_prop. lia.
Qed.

(** A port list is one port or range after another, each within 1..65535. *)
Lemma parsePortList_bounds v p rs : parsePortList v = Some (p, rs) -> Forall (fun r => 1 <= r.1 <= r.2 /\ r.2 <= 65535)%Z rs.
Proof.
  unfold parsePortList. case_decide as H; [done|]. clear H. destruct (mapM _ _) as [r|] eqn:E; [|done].
  intros [= _ <-]. apply mapM_Some in E. induction E as [|x [f l] xs ys Hx _ IH]; [constructor|].
  constructor; [|done]. by apply parsePorts_bounds in Hx.
Qed.

Lemma range_from_spec p fuel rs :
  range_from p fuel rs = true <->
  forall q, (p <= q < p + Z.of_nat fuel)%Z -> existsb (in_range q) rs = true.
Proof.
  revert p. induction fuel as [|n IH]; intros p; cbn [range_from]; [split; [lia|done]|].
  rewrite andb_true_iff, IH. split.
  - intros [H1 H2] q Hq. destruct (decide (q = p)) as [->|]; [done|]. apply H2. lia.
  - intros H. split; [apply H; lia|]. intros q Hq. apply H. lia.
Qed.

(** rangeCovered is exact: every port of the range, and nothing else, is asked. *)
Lemma rangeCovered_spec n rs :
  rangeCovered n rs = true <-> forall p, (n.1 <= p <= n.2)%Z -> existsb (in_range p) rs = true.
Proof.
  unfold rangeCovered. rewrite range_from_spec. split; intros H q Hq; apply H; lia.
Qed.

(** ** Packets *)

(** A packet, as far as the fields of a rule look at one: the zone it comes
    from, the zone it goes to ([None] for the router itself), its protocol, its
    destination port, and its IP version. *)
Record packet := mkPacket {
  pkFrom : string; pkTo : option string; pkProto : string; pkPort : Z; pkFamily : string }.

Section Deciding.
(** What the options the panel does not model, and port lists it cannot read,
    make of a packet. *)
Context (extra : FirewallRule -> packet -> bool).

Definition zone_matches (z actual : string) : bool := String.eqb z "*" || String.eqb z actual.

Definition to_matches (z : string) (actual : option string) : bool :=
  match actual with
  | None => negb (nonempty z)
  | Some a => nonempty z && zone_matches z a
  end.

Definition ports_match (r : FirewallRule) (p : packet) : bool :=
  negb (nonempty (rPorts r)) ||
  match parsePortList (rPorts r) with
  | Some (_, ranges) => contains ["tcp"; "udp"] (pkProto p) && existsb (in_range (pkPort p)) ranges
  | None => extra r p
  end.

Definition matches (r : FirewallRule) (p : packet) : bool :=
  zone_matches (rFrom r) (pkFrom p) && to_matches (rTo r) (pkTo p) &&
  (negb (nonempty (rFamily r)) || String.eqb (rFamily r) "any" || String.eqb (rFamily r) (pkFamily p)) &&
  (contains (rProtocols r) "all" || contains (rProtocols r) (pkProto p)) &&
  ports_match r p && (bool_decide (rUnsupported r = []) || extra r p).

(** Whether the packet's fate ends at this rule. *)
Definition decides (r : FirewallRule) (p : packet) : bool :=
  rEnabled r && negb (String.eqb (rAction r) ActionOther) && matches r p.

(** The action of the first rule that decides, [None] for the zone's policy. *)
Definition fate (rules : list FirewallRule) (p : packet) : option string :=
  rAction <$> find_first (fun r => decides r p) rules.

(** The rule a request becomes. *)
Definition ruleFrom (want : FirewallRuleConfig) : FirewallRule :=
  mkRule "" (cName want) (cEnabled want) false (cFrom want) (cTo want) (cProtocols want)
    (cPorts want) (cAction want) (cFamily want) [].

(** A port list as [normalizeRule] writes it. *)
Definition normal_ports (want : FirewallRuleConfig) : Prop :=
  cPorts want = "" \/ exists rs, parsePortList (cPorts want) = Some (cPorts want, rs).

Lemma zone_covered a b z : (a = b \/ a = "*") -> zone_matches b z = true -> zone_matches a z = true.
Proof. intros [->| ->]; [done|]. done. Qed.

Lemma covers_ports r want p :
  normal_ports want ->
  (nonempty (rPorts r) = false \/
   (nonempty (cPorts want) = true /\ portsApply (cProtocols want) = true /\
    exists t have, parsePortList (rPorts r) = Some (t, have) /\
      forallb (fun n => rangeCovered n have)
        (match parsePortList (cPorts want) with Some (_, need) => need | None => [] end) = true)) ->
  ports_match (ruleFrom want) p = true -> ports_match r p = true.
Proof.
  intros Hn [Hr|(Hw & _ & t & have & Hp & Hall)]; unfold ports_match; [by rewrite Hr|].
  destruct Hn as [E|[need En]]; [by rewrite E in Hw|]. cbn [ruleFrom rPorts].
  rewrite Hp, En, Hw in *. cbn [negb orb]. rewrite !andb_true_iff, !existsb_elem.
  intros [Hpr (n & Hn & Hin)]. rewrite orb_true_iff. right. rewrite andb_true_iff. split; [done|].
  rewrite forallb_elem in Hall. specialize (Hall n Hn). rewrite rangeCovered_spec in Hall.
  unfold in_range in Hin. bool_to_prop. by apply Hall.
Qed.

Lemma covers_sound r want p :
  normal_ports want -> rUnsupported r = [] -> covers r want = true ->
  matches (ruleFrom want) p = true -> matches r p = true.
Proof.
  intros Hn Hu. unfold covers.
  destruct (negb (String.eqb (rFrom r) _) && _) eqn:E1; [done|].
  destruct (negb (String.eqb (rTo r) _) && _) eqn:E2; [done|].
  destruct (nonempty (rFamily r) && _ && _) eqn:E3; [done|].
  destruct (negb (contains (rProtocols r) "all") && _) eqn:E4; [done|]. intros Hports.
  unfold matches. rewrite !andb_true_iff. intros [[[[[M1 M2] M3] M4] M5] _].
  cbn [ruleFrom rFrom rTo rFamily rProtocols] in M1, M2, M3, M4.
  split_and!; [ | | | | |by rewrite Hu].
  - eapply zone_covered; [|exact M1]. rewrite andb_false_iff, !negb_false_iff, !String.eqb_eq in E1. done.
  - rewrite andb_false_iff, orb_false_iff, !negb_false_iff, !String.eqb_eq in E2.
    destruct E2 as [->|[-> Hne]]; [done|]. unfold to_matches in *. destruct (pkTo p); [done|].
    by rewrite Hne in M2.
  - rewrite !andb_false_iff, !negb_false_iff in E3.
    destruct E3 as [[E|E]|E]; [by rewrite E|by rewrite E, orb_true_r|].
    apply String.eqb_eq in E. rewrite E. done.
  - rewrite andb_false_iff, negb_false_iff, orb_false_iff, negb_false_iff in E4.
    destruct E4 as [->|[Ha Hall]]; [done|]. rewrite Ha in M4. cbn [orb] in M4.
    rewrite forallb_elem in Hall. rewrite (Hall (pkProto p)), orb_true_r; [done|]. by apply contains_true.
  - eapply covers_ports; [done| |exact M5].
    destruct (nonempty (rPorts r)) eqn:E5; [right|by left]. cbn [negb] in Hports.
    destruct (negb (nonempty (cPorts want)) || _) eqn:E6; [done|]. bool_to_prop.
    destruct (parsePortList (rPorts r)) as [[t have]|] eqn:E7; [|done]. eauto 8.
Qed.

Lemma fate_app rules later p :
  fate (rules ++ later) p = match fate rules p with Some a => Some a | None => fate later p end.
Proof.
  unfold fate. induction rules as [|r rules IH]; [done|]. cbn [app find_first].
  destruct (decides r p); [done|apply IH].
Qed.

Lemma shadow_decides earlier want cover p :
  normal_ports want -> shadowedBy earlier want = Some cover ->
  matches (ruleFrom want) p = true -> fate earlier p <> None.
Proof.
  intros Hn. unfold shadowedBy. destruct (negb (cEnabled want)); [done|].
  intros [Hin H]%find_first_Some Hm. unfold opposes in H. bool_to_prop.
  unfold fate. destruct (find_first _ earlier) as [r|] eqn:E; [done|].
  rewrite find_first_None, Forall_forall in E. specialize (E cover Hin).
  unfold decides in E. rewrite (covers_sound cover want p) in E by done.
  rewrite andb_true_r in E. apply andb_false_iff in E. rewrite negb_false_iff, String.eqb_eq in E.
  destruct E; congruence.
Qed.
End Deciding.

Lemma normalizeRule_ports toFirst cfg want : normalizeRule toFirst cfg = Ok want -> normal_ports want.
Proof.
  unfold normalizeRule. intros H.
  destruct (bad_name _); [done|]. destruct (negb _); [done|].
  apply res_bind_Ok in H as (_ & _ & H). apply res_bind_Ok in H as (protos & _ & H).
  apply res_bind_Ok in H as (ports & Hp & H).
  destruct (bool_decide _); [done|]. destruct (negb _); [done|]. injection H as <-.
  unfold normal_ports, normalizePorts in *. cbn [cPorts].
  destruct (negb (nonempty _)); [injection Hp as <-; by left|].
  destruct (negb (portsApply _)); [done|].
  destruct (parsePortList (cPorts cfg)) as [[t rs]|] eqn:E; [|done]. injection Hp as <-.
  right. exists rs. by apply parsePortList_again in E.
Qed.

(** C4. A rule that is refused as one that would never act would indeed never
    act: whatever the packet and whatever rules follow, the list decides the
    same with it as without it, and each packet it matches is decided by a rule
    before it. *)
Theorem refused_rule_would_never_act toFirst cfg want earlier cover :
  normalizeRule toFirst cfg = Ok want -> shadowedBy earlier want = Some cover ->
  forall (extra : FirewallRule -> packet -> bool) (later : list FirewallRule) (p : packet),
    fate extra (earlier ++ ruleFrom want :: later) p = fate extra (earlier ++ later) p /\
    (matches extra (ruleFrom want) p = true -> fate extra earlier p <> None).
Proof.
  intros Hn%normalizeRule_ports Hs extra later p. split; [|by eapply shadow_decides].
  rewrite !fate_app. destruct (fate extra earlier p) eqn:E; [done|].
  unfold fate. cbn [find_first]. destruct (decides extra (ruleFrom want) p) eqn:Ed; [|done].
  exfalso. unfold decides in Ed. bool_to_prop. by eapply shadow_decides.
Qed.

Definition allow_ssh : FirewallRule :=
  mkRule "@rule[9]" "ssh" true false "wan" "" ["tcp"] "22 8080" "accept" "" [].
Definition block_8080 : FirewallRuleConfig :=
  mkRuleConfig "" " block " true "wan" "" ["TCP"] " 8080," "reject" "" "".

Lemma refused_rule_would_never_act_witness :
  exists want, normalizeRule false block_8080 = Ok want /\ shadowedBy [allow_ssh] want = Some allow_ssh /\
  forall (extra : FirewallRule -> packet -> bool) (later : list FirewallRule) (p : packet),
    fate extra ([allow_ssh] ++ ruleFrom want :: later) p = fate extra ([allow_ssh] ++ later) p /\
    (matches extra (ruleFrom want) p = true -> fate extra [allow_ssh] p <> None).
Proof.
  eexists. split; [vm_compute; reflexivity|]. split; [vm_compute; reflexivity|].
  apply (refused_rule_would_never_act false block_8080 _ [allow_ssh] allow_ssh);
    vm_compute; reflexivity.
Defined.

(** ** Moving a rule *)

(** What [uci reorder config.sid=place] does to the sections of a file: the
    section leaves its place and ends up at [place]. *)
Definition reordered (ss : list uciSection) (sid : string) (place : nat) : list uciSection :=
  match find_first (fun s => String.eqb (id s) sid) ss with
  | None => ss
  | Some s =>
      let rest := filter (fun s => id s <> sid) ss in
      take place rest ++ s :: list.drop place rest
  end.

Definition rules_in (ss : list uciSection) : list FirewallRule :=
  rule_of <$> filter (fun s => kind s = "rule") ss.

Lemma rules_in_app a b : rules_in (a ++ b) = rules_in a ++ rules_in b.
Proof. unfold rules_in. by rewrite filter_app, fmap_app. Qed.

Lemma rules_in_cons_rule s l : kind s = "rule" -> rules_in (s :: l) = rule_of s :: rules_in l.
Proof. intros H. unfold rules_in. by rewrite filter_cons_True. Qed.

Lemma index_of_split {A} (p : A -> bool) l1 x l2 :
  Forall (fun y => p y = false) l1 -> p x = true -> index_of p (l1 ++ x :: l2) = Some (length l1).
Proof. induction 1 as [|y l1 Hy _ IH]; intros Hx; cbn; [by rewrite Hx|]. by rewrite Hy, IH. Qed.

Lemma find_first_split {A} (p : A -> bool) l1 x l2 :
  Forall (fun y => p y = false) l1 -> p x = true -> find_first p (l1 ++ x :: l2) = Some x.
Proof. induction 1 as [|y l1 Hy _ IH]; intros Hx; cbn; [by rewrite Hx|]. by rewrite Hy, IH. Qed.

(** The sections other than [sid], where none is called so. *)
Lemma others_id sid (l : list uciSection) : sid ∉ (id <$> l) -> filter (fun s => id s <> sid) l = l.
Proof.
  induction l as [|s l IH]; intros H; [done|]. rewrite fmap_cons, not_elem_of_cons in H.
  destruct H as [H1 H2]. rewrite filter_cons_True by congruence. f_equal. by apply IH.
Qed.

Lemma eqb_others sid (l : list uciSection) :
  sid ∉ (id <$> l) -> Forall (fun s => String.eqb (id s) sid = false) l.
Proof.
  intros H. apply Forall_forall. intros s Hs. apply String.eqb_neq. intros E. apply H.
  apply list_elem_of_fmap. by exists s.
Qed.

Lemma eqb_other_rules sid (l : list uciSection) :
  sid ∉ (id <$> l) -> Forall (fun r => String.eqb (rID r) sid = false) (rules_in l).
Proof.
  intros H. apply Forall_fmap, Forall_forall. intros s [_ Hs]%list_elem_of_filter.
  apply eqb_others in H. rewrite Forall_forall in H. by apply H.
Qed.

(** A rule of the list comes from a section of the file. *)
Lemma rule_section ss rid r :
  r ∈ rules_in ss -> rID r = rid ->
  exists l1 s l2, ss = l1 ++ s :: l2 /\ r = rule_of s /\ kind s = "rule" /\ id s = rid.
Proof.
  intros (s & -> & [Hk Hs]%list_elem_of_filter)%list_elem_of_fmap Hr.
  apply list_elem_of_split in Hs as (l1 & l2 & ->). exists l1, s, l2. by split_and!.
Qed.

Lemma index_of_elem {A} (p : A -> bool) l i : index_of p l = Some i -> exists x, x ∈ l /\ p x = true /\ l !! i = Some x.
Proof. intros (x & Hx & Hp & _)%index_of_Some. exists x. split; [by eapply list_elem_of_lookup_2|done]. Qed.

Lemma NoDup_ids_mid (l1 : list uciSection) s l2 :
  NoDup (id <$> (l1 ++ s :: l2)) ->
  (id s ∉ (id <$> l1)) /\ (id s ∉ (id <$> l2)) /\ NoDup (id <$> (l1 ++ l2)).
Proof.
  rewrite !fmap_app, fmap_cons. intros H. apply NoDup_app in H as (H1 & H2 & [H3 H4]%NoDup_cons).
  split_and!; [intros Hi; by apply (H2 _ Hi); left|done|].
  apply NoDup_app. split_and!; [done| |done]. intros x Hx Hx'. apply (H2 x Hx). by right.
Qed.

Lemma without_mid {A} (a : list A) x b :
  take (length a) (a ++ x :: b) ++ list.drop (S (length a)) (a ++ x :: b) = a ++ b.
Proof. rewrite take_app_length. f_equal. by induction a. Qed.

Section Move.
Context (ss : list uciSection) (fw : FirewallStatus) (rid : string).
Context (ids : NoDup (id <$> ss)) (fw_rules : Rules fw = rules_in ss).

(** The section moved, and the file without it. *)
Lemma moved_section at_ :
  ruleIndex fw rid = Some at_ ->
  exists l1 s l2, ss = l1 ++ s :: l2 /\ kind s = "rule" /\ id s = rid /\
    at_ = length (rules_in l1) /\ Rules fw !! at_ = Some (rule_of s) /\
    (forall place, reordered ss rid place = take place (l1 ++ l2) ++ s :: list.drop place (l1 ++ l2)).
Proof.
  unfold ruleIndex. rewrite fw_rules. intros Hat.
  destruct (index_of_elem _ _ _ Hat) as (r & Hr & Hid & _). apply String.eqb_eq in Hid.
  destruct (rule_section _ _ _ Hr Hid) as (l1 & s & l2 & E & _ & Hk & Hs). exists l1, s, l2.
  pose proof ids as Hnd. rewrite E in Hnd. apply NoDup_ids_mid in Hnd as (H1 & H2 & _). rewrite Hs in *.
  assert (at_ = length (rules_in l1)) as ->.
  { rewrite E, rules_in_app, rules_in_cons_rule, index_of_split in Hat; [by simplify_eq| | |done].
    - by apply eqb_other_rules.
    - by apply String.eqb_eq. }
  split_and!; try done.
  - rewrite E, rules_in_app, rules_in_cons_rule by done. by rewrite list_lookup_middle.
  - intros place. unfold reordered. rewrite E, find_first_split with (l1 := l1);
      [|by apply eqb_others|by apply String.eqb_eq].
    rewrite filter_app, filter_cons_False, !others_id; [done|done|done|]. tauto.
Qed.

(** To the end of the list. *)
Lemma move_to_end at_ r :
  ruleIndex fw rid = Some at_ -> Rules fw !! at_ = Some r -> (length ss <= Z.to_nat 65536)%nat ->
  rules_in (reordered ss rid (Z.to_nat 65536)) =
    (take at_ (Rules fw) ++ list.drop (S at_) (Rules fw)) ++ [r].
Proof.
  intros Hat Hr Hlen. destruct (moved_section at_ Hat) as (l1 & s & l2 & E & Hk & _ & Ha & Hs & Hre).
  rewrite Hs in Hr. injection Hr as <-. rewrite Hre.
  rewrite E, length_app in Hlen. cbn [length] in Hlen.
  assert (length (l1 ++ l2) <= Z.to_nat 65536)%nat as Hl by (rewrite length_app; lia).
  rewrite take_ge, drop_ge by done. rewrite rules_in_app, rules_in_cons_rule by done. f_equal.
  rewrite fw_rules, E, !rules_in_app, rules_in_cons_rule, Ha by done.
  by rewrite without_mid.
Qed.

(** In front of another rule. *)
Lemma move_before at_ r before land p :
  ruleIndex fw rid = Some at_ -> Rules fw !! at_ = Some r ->
  nonempty before = true -> landing fw at_ rid before = Ok land ->
  index_of (fun s => String.eqb (id s) before) ss = Some p ->
  let rest := take at_ (Rules fw) ++ list.drop (S at_) (Rules fw) in
  rules_in (reordered ss rid (Z.to_nat (reorderPlace land at_ (Some p)))) =
    take land rest ++ r :: list.drop land rest /\
  exists b, head (list.drop land rest) = Some b /\ rID b = before.
Proof.
  intros Hat Hr Hb Hland Hp rest. destruct (moved_section at_ Hat) as (l1 & s & l2 & E & Hk & Hid & Ha & Hs & Hre).
  rewrite Hs in Hr. injection Hr as <-. rewrite Hre.
  unfold landing in Hland. rewrite Hb in Hland. cbn [negb] in Hland.
  destruct (String.eqb before rid) eqn:Eb; [done|]. apply String.eqb_neq in Eb.
  unfold ruleIndex in Hland. rewrite fw_rules in Hland.
  destruct (index_of _ (rules_in ss)) as [bt|] eqn:Ebt; [|done]. injection Hland as Hland.
  destruct (index_of_elem _ _ _ Ebt) as (rb & Hrb & Hbid & _). apply String.eqb_eq in Hbid.
  destruct (rule_section _ _ _ Hrb Hbid) as (k1 & b & k2 & Eb' & _ & Hkb & Hidb).
  pose proof ids as Hnd. rewrite Eb' in Hnd. apply NoDup_ids_mid in Hnd as (Hb1 & Hb2 & _). rewrite Hidb in *.
  rewrite Eb', index_of_split in Hp; [|by apply eqb_others|by apply String.eqb_eq]. injection Hp as <-.
  rewrite Eb', rules_in_app, rules_in_cons_rule, index_of_split in Ebt;
    [|by apply eqb_other_rules|by apply String.eqb_eq|done]. injection Ebt as <-.
  assert (rest = rules_in (l1 ++ l2)) as Hrest.
  { unfold rest. rewrite fw_rules, E, Ha, !rules_in_app, rules_in_cons_rule by done.
    by rewrite without_mid. }
  assert (exists m1 m2, l1 ++ l2 = m1 ++ b :: m2 /\ length m1 = Z.to_nat (reorderPlace land at_ (Some (length k1))) /\
          length (rules_in m1) = land) as (m1 & m2 & Em & Hm & Hlm).
  { rewrite E in Eb'. apply app_eq_inv in Eb' as [(k & -> & Ek)|(k & -> & Ek)].
    - destruct k as [|b' k]; [injection Ek as -> _; congruence|]. injection Ek as <- ->.
      exists k1, (k ++ l2). rewrite rules_in_app, length_app, rules_in_cons_rule in Ha by done. cbn [length] in Ha.
      split; [by rewrite <- app_assoc|]. unfold reorderPlace. rewrite !decide_False in * by lia.
      split; [by rewrite Nat2Z.id|done].
    - destruct k as [|s' k]; [injection Ek as -> _; congruence|]. injection Ek as <- ->.
      exists (l1 ++ k), k2. rewrite rules_in_app, length_app, rules_in_cons_rule in Hland by done.
      cbn [length] in Hland. rewrite decide_True in Hland by lia.
      split; [by rewrite <- app_assoc|]. unfold reorderPlace. rewrite decide_True by lia.
      rewrite rules_in_app, !length_app. cbn [length]. split; lia. }
  rewrite <- Hm, Em, take_app_length, drop_app_length, rules_in_app, !rules_in_cons_rule by done.
  rewrite Hrest, Em, rules_in_app, rules_in_cons_rule by done.
  rewrite <- Hlm, take_app_length, drop_app_length. split; [done|]. by exists (rule_of b).
Qed.
End Move.

Lemma index_of_section ss before bt :
  index_of (fun r => String.eqb (rID r) before) (rules_in ss) = Some bt ->
  exists p, index_of (fun s => String.eqb (id s) before) ss = Some p.
Proof.
  intros H. destruct (index_of _ ss) as [p|] eqn:E; [by exists p|]. exfalso.
  destruct (index_of_elem _ _ _ H) as (r & Hr & Hid & _). apply String.eqb_eq in Hid.
  destruct (rule_section _ _ _ Hr Hid) as (l1 & s & l2 & -> & _ & _ & Hs).
  rewrite index_of_None, Forall_app, Forall_cons in E. destruct E as (_ & E & _).
  by apply String.eqb_neq in E.
Qed.

(** A move puts the rule where the row of the apply bar says: after the
    reorder that MoveRule asks of uci, the rule is at the announced place among
    the rules, directly in front of the one named (or last), and the others
    keep their order - wherever in the file zones and forwards stand. *)
Theorem moved_rule_lands_where_announced show up rid before at_ r land :
  let fw := parseFirewall show up in
  let ss := parseUCISections show in
  let rest := take at_ (Rules fw) ++ list.drop (S at_) (Rules fw) in
  let position := if nonempty before then index_of (fun s => String.eqb (id s) before) ss else None in
  let moved := rules_in (reordered ss rid (Z.to_nat (reorderPlace land at_ position))) in
  ruleIndex fw rid = Some at_ -> Rules fw !! at_ = Some r -> landing fw at_ rid before = Ok land ->
  (length ss <= Z.to_nat 65536)%nat ->
  moved = take land rest ++ r :: list.drop land rest /\
  (nonempty before = true -> exists b, head (list.drop land rest) = Some b /\ rID b = before) /\
  (nonempty before = false -> list.drop land rest = []).
Proof.
  intros fw ss rest position moved Hat Hr Hland Hlen.
  pose proof (parseUCISections_NoDup show) as Hnd. fold ss in Hnd.
  assert (Rules fw = rules_in ss) as Hfw by apply parse_rules.
  destruct (nonempty before) eqn:Hb.
  - unfold moved, position.
    assert (exists p, index_of (fun s => String.eqb (id s) before) ss = Some p) as [p Hp].
    { unfold landing in Hland. rewrite Hb in Hland. cbn [negb] in Hland. destruct (String.eqb before rid); [done|].
      unfold ruleIndex in Hland. rewrite Hfw in Hland. destruct (index_of _ (rules_in ss)) as [bt|] eqn:E; [|done].
      by eapply index_of_section. }
    rewrite Hp. destruct (move_before ss fw rid Hnd Hfw at_ r before land p Hat Hr Hb Hland Hp) as [H1 H2].
    split; [exact H1|]. by split.
  - unfold moved, position. unfold landing in Hland. rewrite Hb in Hland. injection Hland as <-.
    cbn [reorderPlace]. rewrite (move_to_end ss fw rid Hnd Hfw at_ r Hat Hr Hlen). fold rest.
    assert (length rest = length (Rules fw) - 1)%nat as Hl.
    { unfold rest. apply lookup_lt_Some in Hr. rewrite length_app, length_take, length_drop. lia. }
    rewrite <- Hl, firstn_all, drop_all. split_and!; [reflexivity|intros E; discriminate E|reflexivity].
Qed.

Definition three_rules : string := "firewall.@zone[0]=zone
firewall.@rule[0]=rule
firewall.@rule[0].name='a'
firewall.@forwarding[0]=forwarding
firewall.@rule[1]=rule
firewall.@rule[1].name='b'
firewall.@rule[2]=rule
firewall.@rule[2].name='c'".

Lemma moved_rule_lands_where_announced_witness :
  exists r, Rules (parseFirewall three_rules ∅) !! 0 = Some r /\
  landing (parseFirewall three_rules ∅) 0 "@rule[0]" "@rule[2]" = Ok 1 /\
  rules_in (reordered (parseUCISections three_rules) "@rule[0]" (Z.to_nat (reorderPlace 1 0 (Some 4)))) =
    take 1 (list.drop 1 (Rules (parseFirewall three_rules ∅))) ++ r ::
    list.drop 1 (list.drop 1 (Rules (parseFirewall three_rules ∅))).
Proof.
  eexists. split; [vm_compute; reflexivity|]. split; [vm_compute; reflexivity|].
  apply (moved_rule_lands_where_announced three_rules ∅ "@rule[0]" "@rule[2]" 0);
    [vm_compute; reflexivity..|].
  apply Nat.leb_le. vm_compute. reflexivity.
Defined.
