(* ===== verification/FirewallSafety.v ===== *)
(** * What a firewall request leaves behind

    The requests of internal/adapters/openwrt/firewall_write.go and
    firewall_rules.go keep the promises of [Discipline]. *)

From S2P Require Import Prelude GoStrings GoNet Effects Network Uci Firewall Stage Discipline Lan LanThms.
From S2P Require Import FirewallWrite FirewallRules.

(** ** Staging only *)

Lemma fw4Warnings_staging : calls staging fw4Warnings.
Proof. unfold fw4Warnings. solve_calls. Qed.

#[export] Hint Resolve fw4Warnings_staging : staging.

Lemma fw4Accepts_staging b : calls staging (fw4Accepts b).
Proof. unfold fw4Accepts. solve_calls. Qed.

#[export] Hint Resolve fw4Accepts_staging : staging.

Lemma judged_staging b : calls staging (judged b).
Proof. unfold judged. solve_calls. Qed.

Lemma sectionPosition_staging s : calls staging (sectionPosition s).
Proof. unfold sectionPosition. solve_calls. Qed.

Lemma reorderRule_staging s p f : calls staging (reorderRule s p f).
Proof. unfold reorderRule. solve_calls. Qed.

Lemma keepDefaults_staging s w x : calls staging (keepDefaults s w x).
Proof. unfold keepDefaults. solve_calls. Qed.

#[export] Hint Resolve judged_staging sectionPosition_staging reorderRule_staging keepDefaults_staging : staging.

Lemma placeNew_staging fw b : calls staging (placeNew fw b).
Proof. unfold placeNew. solve_calls. Qed.

#[export] Hint Resolve placeNew_staging : staging.

Lemma checkFresh_staging fw w b : calls staging (checkFresh fw w b).
Proof. unfold checkFresh. solve_calls. Qed.

Lemma writeRule_staging w f s u p b : calls staging (writeRule w f s u p b).
Proof. unfold writeRule. solve_calls. Qed.

#[export] Hint Resolve checkFresh_staging writeRule_staging : staging.

Lemma StagePortForward_staging m cfg : calls staging (StagePortForward m cfg).
Proof. unfold StagePortForward. solve_calls. Qed.

Lemma RemovePortForward_staging m pid : calls staging (RemovePortForward m pid).
Proof. unfold RemovePortForward. solve_calls. Qed.

Lemma StageRule_staging m t cfg : calls staging (StageRule m t cfg).
Proof. unfold StageRule. solve_calls. Qed.

Lemma RemoveRule_staging m rid : calls staging (RemoveRule m rid).
Proof. unfold RemoveRule. solve_calls. Qed.

Lemma MoveRule_staging m rid b : calls staging (MoveRule m rid b).
Proof. unfold MoveRule. solve_calls. Qed.

#[export] Hint Resolve StagePortForward_staging RemovePortForward_staging StageRule_staging
  RemoveRule_staging MoveRule_staging : staging.

(** ** Tidy failures *)

Lemma fw4Warnings_quiet : calls quiet fw4Warnings.
Proof. unfold fw4Warnings. solve_quiet. Qed.

#[export] Hint Resolve fw4Warnings_quiet : quiet.

Lemma fw4Accepts_quiet b : calls quiet (fw4Accepts b).
Proof. unfold fw4Accepts. solve_quiet. Qed.

Lemma sectionPosition_quiet s : calls quiet (sectionPosition s).
Proof. unfold sectionPosition. solve_quiet. Qed.

Lemma keepDefaults_quiet s w x : calls quiet (keepDefaults s w x).
Proof. unfold keepDefaults. solve_quiet. Qed.

#[export] Hint Resolve fw4Accepts_quiet sectionPosition_quiet keepDefaults_quiet : quiet.

Lemma placeNew_quiet fw b : calls quiet (placeNew fw b).
Proof. unfold placeNew. solve_quiet. Qed.

#[export] Hint Resolve placeNew_quiet : quiet.

Lemma checkFresh_quiet fw w b : calls quiet (checkFresh fw w b).
Proof. unfold checkFresh. solve_quiet. Qed.

#[export] Hint Resolve checkFresh_quiet : quiet.

(** Within a request that started with the drafts [s] and writes to [config]. *)
Definition leaves {A} (config : string) (s s' : gset string) (r : res A) : Prop :=
  if is_ok r then within config s s' else s' ⊆ s.

Section Leaves.
Context (config : string) `{!ConfigName config} (s : gset string).

Lemma leaves_seq {A B} s0 (p : prog (res A)) (f : A -> prog (res B)) :
  obs s0 p (leaves config s) ->
  (forall a s1, within config s s1 -> obs s1 (f a) (leaves config s)) ->
  obs s0 (try_bind p f) (leaves config s).
Proof.
  intros Hp Hf. eapply wp_seq; [exact Hp|]. intros s1 [a|e]; cbn; [by apply Hf|done].
Qed.

Lemma leaves_quiet {A B} s0 (p : prog A) (f : A -> prog (res B)) :
  calls quiet p -> (forall a, obs s0 (f a) (leaves config s)) -> obs s0 (prog_bind p f) (leaves config s).
Proof. intros Hp Hf. apply wp_bind, obs_quiet; auto. Qed.

Lemma leaves_Ok {A} s0 (a : A) : within config s s0 -> obs s0 (Ret (Ok a)) (leaves config s).
Proof. done. Qed.

Lemma leaves_discard {A} s0 (e : err) :
  within config s s0 -> obs s0 (_ <- discardConfig config ;; Ret (Err e : res A)) (leaves config s).
Proof. by apply discard_then_fail. Qed.

Lemma leaves_stage section sets s0 :
  within config s s0 -> sectionOk section = true \/ s0 ⊆ s ->
  obs s0 (stage config section sets) (leaves config s).
Proof. by apply stage_obs. Qed.
End Leaves.

Lemma judged_leaves s s0 b :
  within "firewall" s s0 -> obs s0 (judged b) (leaves "firewall" s).
Proof.
  intros H. unfold judged. apply leaves_quiet; [solve_quiet|]. intros [u|e]; [done|].
  by apply leaves_discard; [apply _|].
Qed.

Lemma reorder_config section place :
  config_of (entry_of ("firewall." +:+ section +:+ "=" +:+ place)) = "firewall".
Proof. by apply (config_of_entry "firewall"). Qed.

Lemma reorderRule_leaves s s0 section place format :
  within "firewall" s s0 -> obs s0 (reorderRule section place format) (leaves "firewall" s).
Proof.
  intros H. unfold reorderRule. apply wp_bind. eapply write_obs; [done|done|apply reorder_config|..].
  - intros out s1 H1. by eapply within_trans.
  - intros e. by apply leaves_discard; [apply _|].
Qed.

Lemma writeRule_leaves want fresh section subject position baseline s s0 :
  within "firewall" s s0 -> sectionOk section = true \/ s0 ⊆ s ->
  obs s0 (writeRule want fresh section subject position baseline) (leaves "firewall" s).
Proof.
  intros H0 Hs. unfold writeRule. apply leaves_quiet; [solve_quiet|]. intros sets.
  apply leaves_seq; [by apply leaves_stage; [apply _|..]|]. intros changes s1 H1.
  apply leaves_seq; [destruct position; [destruct fresh; [by apply reorderRule_leaves|]|]; done|].
  intros _ s2 H2. apply leaves_seq; [by apply judged_leaves|]. intros _ s3 H3.
  by destruct (negb fresh).
Qed.

Ltac tidy_if := match goal with |- tidy _ (try_bind (if ?b then _ else _) _) => destruct b end.

Lemma writeRule_tidy want fresh section subject position baseline :
  tidy "firewall" (writeRule want fresh section subject position baseline).
Proof. intros s. apply writeRule_leaves; [apply within_refl|by right]. Qed.

Lemma StageRule_tidy m t cfg : tidy "firewall" (StageRule m t cfg).
Proof.
  unfold StageRule.
  repeat first [apply writeRule_tidy | apply add_then_tidy; [apply _|] | tidy_if | tidy_step].
  all: intros ? ? ? Hs H0; apply writeRule_leaves; [done|left]; unfold sectionOk; by rewrite Hs.
Qed.

Lemma StagePortForward_tidy m cfg : tidy "firewall" (StagePortForward m cfg).
Proof.
  unfold StagePortForward.
  assert (forall section sets baseline (g : list ConfigChange -> list ConfigChange) s s0,
    within "firewall" s s0 -> sectionOk section = true \/ s0 ⊆ s ->
    obs s0 (let! changes := stage "firewall" section sets in
            let! _ := judged baseline in Ret (Ok (g changes))) (leaves "firewall" s)) as Hend.
  { intros section sets baseline g s s0 H0 Hs.
    apply leaves_seq; [by apply leaves_stage; [apply _|..]|]. intros changes s1 H1.
    apply leaves_seq; [by apply judged_leaves|done]. }
  repeat first [apply add_then_tidy; [apply _|] | tidy_if
    | match goal with |- tidy _ (try_bind (stage _ _ _) _) => fail 1 | _ => tidy_step end]; cbn [negb].
  all: try (intros ? ? ? Hs H0; apply Hend; [done|left; unfold sectionOk; by rewrite Hs]).
  all: try (intros ?; apply Hend; [apply within_refl|by right]).
Qed.

Lemma RemovePortForward_tidy m pid : tidy "firewall" (RemovePortForward m pid).
Proof.
  unfold RemovePortForward. destruct (negb _); [apply tidy_Ret|]. destruct (negb _); [apply tidy_Ret|].
  tidy_step. destruct (find_last _ _) as [target|]; [|apply tidy_Ret].
  apply delete_then_tidy; [apply _|]. by apply (config_of_entry "firewall").
Qed.

Lemma RemoveRule_tidy m rid : tidy "firewall" (RemoveRule m rid).
Proof.
  unfold RemoveRule. destruct (negb _); [apply tidy_Ret|]. destruct (negb _); [apply tidy_Ret|].
  tidy_step. destruct (_ ≫= _) as [r|]; [|apply tidy_Ret]. destruct (rSystem r); [apply tidy_Ret|].
  apply delete_then_tidy; [apply _|]. by apply (config_of_entry "firewall").
Qed.

Lemma MoveRule_tidy m rid b : tidy "firewall" (MoveRule m rid b).
Proof.
  unfold MoveRule.
  repeat match goal with |- tidy _ (try_bind (reorderRule _ _ _) _) => fail 1 | _ => first [tidy_if | tidy_step] end.
  all: intros ?; apply leaves_seq; [apply reorderRule_leaves; set_solver|]; intros _ s1 H1;
    (apply leaves_seq; [by apply judged_leaves|done]).
Qed.
