(* ===== verification/DeviceLimitsSafety.v ===== *)
(** * What a limit of a device leaves behind

    The requests of internal/adapters/openwrt/devices_internet.go and
    devices_schedule.go write to the sections of their device and to nothing
    else, and take back what they wrote when they fail: the rest of the
    firewall's draft may be somebody's reviewed change. *)

From S2P Require Import Prelude GoStrings GoNet Effects Network Uci Firewall Stage Discipline Lan LanThms.
From S2P Require Import FirewallWrite FirewallSafety Schedule Devices DeviceSources DeviceLimits DeviceLimitsThms.

(** ** The reading of the sources *)

Section Reading.
Context (P : op -> Prop).
Context (exists_ok : forall p, P (SysExists p)) (clients_ok : forall i, P (HostapdClients i)).
Context (file_ok : forall p, P (ReadFile p)) (dir_ok : forall p, P (ReadDir p)) (now_ok : P Now) (bus_ok : P BusInterfaces).
Context (get_ok : forall k, P (Exec ["uci"; "-q"; "get"; k])).

Lemma asAccessPoints_calls ifaces : calls P (asAccessPoints ifaces).
Proof.
  induction ifaces as [|i l IH]; [exact I|]. cbn [asAccessPoints]. split; [auto|]. intros r. cbn.
  destruct (negb r); [done|]. split; [auto|]. intros [body|e]; [|done].
  apply calls_bind; [done|]. by intros rest.
Qed.

Lemma accessPoints_calls m : calls P (accessPoints m).
Proof.
  unfold accessPoints. destruct (negb _); [exact I|]. split; [auto|]. intros [names|e]; [|exact I].
  apply asAccessPoints_calls.
Qed.

Lemma bridgePorts_calls base names ports : calls P (bridgePorts base names ports).
Proof.
  revert ports. induction names as [|p names IH]; intros ports; [exact I|]. cbn [bridgePorts].
  split; [auto|]. intros r. apply IH.
Qed.

Lemma forward_entries_calls ports bands radio recs : calls P (forward_entries ports bands radio recs).
Proof.
  revert radio. induction recs as [|r recs IH]; intros radio; [exact I|]. cbn [forward_entries].
  destruct (fdb_record r) as [[[mac local] age] no]. destruct (_ && _).
  - apply calls_bind; [|intros k; apply calls_bind; [done|by intros rest]].
    destruct (radio !! _); [exact I|]. split; [auto|]. by intros b.
  - apply calls_bind; [done|by intros rest].
Qed.

Lemma forwarding_calls bridge bands : calls P (forwarding bridge bands).
Proof.
  unfold forwarding. apply calls_bind; [by apply calls_ask|]. intros [raw|e]; [|exact I].
  apply calls_bind; [by apply calls_ask|]. intros names.
  apply calls_bind; [destruct names; [apply bridgePorts_calls|exact I]|]. intros ports.
  apply forward_entries_calls.
Qed.

Lemma onAccessPoints_calls aps g h : calls P (onAccessPoints aps g h).
Proof.
  revert g h. induction aps as [|ap aps IH]; intros g h; [exact I|]. cbn [onAccessPoints].
  split; [auto|]. intros r. cbn. by destruct r.
Qed.

Lemma uciGet_calls k : calls P (uciGet k).
Proof. split; [auto|]. by intros r. Qed.

Lemma leases_calls : calls P leases.
Proof.
  unfold leases. apply calls_bind; [apply uciGet_calls|]. intros path. split; [auto|].
  intros [data|e]; [|exact I]. split; [auto|]. by intros now.
Qed.

Lemma guestClients_calls aps wired : calls P (guestClients aps wired).
Proof.
  unfold guestClients. apply calls_bind; [apply onAccessPoints_calls|]. intros [g h].
  apply calls_bind; [apply uciGet_calls|]. intros addr. apply calls_bind; [apply uciGet_calls|]. intros mask.
  destruct (ParseIP4 addr); [|exact I]. apply calls_bind; [apply leases_calls|by intros ls].
Qed.

Lemma lanDevice_calls m : calls P (lanDevice m).
Proof.
  unfold lanDevice. apply calls_try; [eapply calls_weaken; [|apply Interfaces_calls]; by intros o ->|].
  intros ifaces. destruct (find_first _ _) as [i|]; [|exact I]. by destruct (nonempty _).
Qed.

Lemma refuseGuest_calls m mac : calls P (refuseGuest m mac).
Proof.
  unfold refuseGuest. apply calls_bind; [apply lanDevice_calls|]. intros dev.
  apply calls_bind; [destruct dev; [apply forwarding_calls|exact I]|]. intros fdb.
  apply calls_bind; [apply accessPoints_calls|]. intros aps.
  apply calls_bind; [apply guestClients_calls|]. intros guests. by destruct (has _ _).
Qed.
End Reading.

Lemma refuseGuest_staging m mac : calls staging (refuseGuest m mac).
Proof. by apply refuseGuest_calls. Qed.
Lemma refuseGuest_quiet m mac : calls quiet (refuseGuest m mac).
Proof. by apply refuseGuest_calls. Qed.
#[export] Hint Resolve refuseGuest_staging : staging.
#[export] Hint Resolve refuseGuest_quiet : quiet.

Lemma schedulesNow_staging m : calls staging (schedulesNow m).
Proof. unfold schedulesNow. solve_calls. Qed.
Lemma schedulesNow_quiet m : calls quiet (schedulesNow m).
Proof. unfold schedulesNow. solve_quiet. Qed.
Lemma switchedOff_staging keys : calls staging (switchedOff keys).
Proof. induction keys as [|k keys IH]; cbn [switchedOff]; solve_calls. Qed.
Lemma switchedOff_quiet keys : calls quiet (switchedOff keys).
Proof. induction keys as [|k keys IH]; cbn [switchedOff]; solve_quiet. Qed.
Lemma scheduleZone_staging m want : calls staging (scheduleZone m want).
Proof. unfold scheduleZone. solve_calls. Qed.
Lemma scheduleZone_quiet m want : calls quiet (scheduleZone m want).
Proof. unfold scheduleZone. solve_quiet. Qed.
#[export] Hint Resolve schedulesNow_staging switchedOff_staging scheduleZone_staging : staging.
#[export] Hint Resolve schedulesNow_quiet switchedOff_quiet scheduleZone_quiet : quiet.

(** ** The sections of a device *)

(** A section of the firewall by its name. *)
Definition fw_key (key : string) : Prop :=
  exists section, key = "firewall." +:+ section /\ all_chars word_char section = true.

Lemma word_lacks c s : word_char c = false -> all_chars word_char s = true -> lacks c s = true.
Proof.
  intros Hc H. eapply all_chars_mono; [|exact H]. intros d Hd. apply bool_decide_eq_true. by eapply word_char_ne.
Qed.

Lemma entry_of_key key : fw_key key -> entry_of key = key.
Proof.
  intros (section & -> & Hs). pose proof (word_lacks "." section eq_refl Hs) as Hd.
  pose proof (word_lacks "=" section eq_refl Hs) as He. unfold entry_of.
  assert (forall sep, lacks sep section = true -> Cut sep section = None) as Hn.
  { intros sep H. destruct (Cut sep section) as [[a b]|] eqn:E; [|done].
    apply Cut_Some in E as [-> _]. rewrite lacks_app, lacks_cons, andb_comm in H. by bool_to_prop. }
  rewrite Cut_prefix, Hn by done. change ("firewall." +:+ section) with ("firewall" +:+ String "." section).
  by rewrite Cut_sep, Hn.
Qed.

Lemma entry_of_set key value : fw_key key -> entry_of (key +:+ "=" +:+ value) = key.
Proof.
  intros Hk. pose proof (entry_of_key key Hk) as He. destruct Hk as (section & -> & Hs).
  unfold entry_of in *. change ("=" +:+ value) with (String "=" value).
  assert (lacks "=" ("firewall." +:+ section) = true) as Hl by (by rewrite lacks_app, (word_lacks "=" section)).
  rewrite Cut_sep by done. destruct (Cut "=" ("firewall." +:+ section)) as [[a b]|] eqn:E; [|done].
  apply Cut_Some in E as [E _]. rewrite E, lacks_app, lacks_cons, andb_comm in Hl. by bool_to_prop.
Qed.

Lemma entry_of_option key o value : fw_key key -> lacks "=" o = true ->
  entry_of ((key +:+ "." +:+ o) +:+ "=" +:+ value) = key.
Proof.
  intros (section & -> & Hs) Ho. unfold entry_of. change ("=" +:+ value) with (String "=" value).
  rewrite Cut_sep by (by rewrite !lacks_app, Ho, (word_lacks "=" section)).
  change ("firewall." +:+ section) with ("firewall" +:+ String "." section).
  rewrite <- append_assoc, (append_cons "." section), Cut_sep by done. change ("." +:+ o) with (String "." o).
  by rewrite Cut_sep by (by apply word_lacks).
Qed.

Lemma fw_key_config key : fw_key key -> config_of key = "firewall".
Proof. intros (section & -> & _). by apply (config_of_key "firewall"). Qed.

(** The two keys of a schedule and the one of a block. *)
Definition block_key (mac : string) : string := "firewall." +:+ noInternetSection mac.
Definition schedule_keys (mac : string) : list string :=
  ["firewall." +:+ scheduleSection mac; ("firewall." +:+ scheduleSection mac) +:+ morningSuffix].

Lemma device_digits mac : device_mac mac -> all_chars word_char (GoStrings.RemoveAll ":" mac) = true.
Proof.
  intros (b0 & b1 & b2 & b3 & b4 & b5 & -> & Hr & _). rewrite RemoveAll_MACString by done. by apply digits_word.
Qed.

Lemma block_key_ok mac : device_mac mac -> fw_key (block_key mac).
Proof.
  intros H. eexists. split; [done|]. unfold noInternetSection. rewrite all_chars_app.
  by rewrite device_digits.
Qed.

Lemma schedule_keys_ok mac : device_mac mac -> Forall fw_key (schedule_keys mac).
Proof.
  intros H. repeat apply Forall_cons_2; try apply Forall_nil_2.
  - eexists. split; [done|]. unfold scheduleSection. rewrite all_chars_app. by rewrite device_digits.
  - exists (scheduleSection mac +:+ morningSuffix). split; [by rewrite append_assoc|].
    unfold scheduleSection. rewrite !all_chars_app. by rewrite device_digits.
Qed.

(** ** What is written is of the sections *)

Definition sets_of (keys : list string) (sets : list (string * string)) : Prop :=
  Forall (fun kv => entry_of (kv.1 +:+ "=" +:+ kv.2) ∈ keys) sets.

Lemma blockSets_of mac local : device_mac mac -> sets_of [block_key mac] (blockSets mac local).
Proof.
  intros H. pose proof (block_key_ok mac H) as Hk. unfold sets_of, blockSets. fold (block_key mac).
  repeat apply Forall_cons_2; try apply Forall_nil_2; cbn [fst snd]; apply list_elem_of_singleton;
    [by apply entry_of_set|..].
  all: match goal with |- entry_of ((?k +:+ String "." ?o) +:+ _) = _ => by apply (entry_of_option k o) end.
Qed.

Lemma option_names_lack o days a b :
  map_Forall (fun k (_ : string) => lacks "=" k = true) o ->
  map_Forall (fun k (_ : string) => lacks "=" k = true) (timed o days a b).
Proof. intros H. unfold timed. by repeat (apply map_Forall_insert_2; [done|]). Qed.

Lemma base_names_lack mac local name :
  map_Forall (fun k (_ : string) => lacks "=" k = true) (scheduleBase mac local name).
Proof.
  unfold scheduleBase. cbn [list_to_map foldr]. repeat (apply map_Forall_insert_2; [done|]). apply map_Forall_empty.
Qed.

Lemma partSets_of keys key opts : key ∈ keys -> fw_key key ->
  map_Forall (fun k (_ : string) => lacks "=" k = true) opts -> sets_of keys (partSets key opts).
Proof.
  intros Hin Hk Ho. unfold partSets. apply Forall_cons_2; cbn [fst snd]; [by rewrite entry_of_set|].
  apply Forall_fmap, Forall_forall. intros o Hel. cbn [compose fst snd].
  rewrite sort_strings_elem, elem_of_elements, elem_of_dom in Hel. destruct Hel as [v Hv].
  rewrite entry_of_option; [done|done|]. by apply (Ho o v).
Qed.

Lemma scheduleSets_of mac local want : device_mac mac -> sets_of (schedule_keys mac) (scheduleSets mac local want).
Proof.
  intros H. pose proof (schedule_keys_ok mac H) as Hk. unfold schedule_keys in Hk. rewrite !Forall_cons in Hk.
  destruct Hk as (He & Hm & _). unfold scheduleSets, scheduleOptions, sets_of. cbv zeta.
  assert (forall key opts, key ∈ schedule_keys mac -> fw_key key ->
    map_Forall (fun k (_ : string) => lacks "=" k = true) opts -> sets_of (schedule_keys mac) (partSets key opts)) as Hp
    by (intros; by apply partSets_of).
  destruct (_ <? _)%Z; [|destruct (_ =? 0)%Z]; rewrite ?app_nil_r; try apply Forall_app_2; apply Hp;
    try apply option_names_lack, base_names_lack; try done; set_solver.
Qed.

(** ** Nothing else is touched *)

(** A write or a revert of one of the keys' entries, or no write at all. *)
Definition touches (keys : list string) (o : op) : Prop :=
  match o with
  | Exec ("uci" :: verb :: arg :: _) => writes verb = true \/ verb = "revert" -> entry_of arg ∈ keys
  | _ => True
  end.

Section Touches.
Context (keys : list string) (keys_ok : Forall fw_key keys).

Lemma uciGet_touches k : calls (touches keys) (uciGet k).
Proof. apply uciGet_calls. intros k' [H|H]; done. Qed.

Lemma uciSets_touches sets : sets_of keys sets -> calls (touches keys) (uciSets sets).
Proof.
  induction 1 as [|[k v] sets Hk _ IH]; [exact I|]. cbn [uciSets]. apply calls_try; [|by intros _].
  unfold uciSet. apply calls_bind; [apply calls_exec; intros _; exact Hk|]. by intros [].
Qed.

Lemma uciDelete_touches key : key ∈ keys -> calls (touches keys) (uciDelete key).
Proof.
  intros Hk. unfold uciDelete. apply calls_bind; [|by intros []]. apply calls_exec. intros _.
  rewrite Forall_forall in keys_ok. by rewrite entry_of_key by auto.
Qed.

Lemma revertKeys_touches l : (forall k, k ∈ l -> k ∈ keys) -> calls (touches keys) (revertKeys l).
Proof.
  induction l as [|k l IH]; intros Hl; [exact I|]. cbn [revertKeys].
  apply calls_bind; [|intros r; apply IH; intros; apply Hl; by right].
  apply calls_exec. intros _. rewrite Forall_forall in keys_ok.
  assert (k ∈ keys) by (apply Hl; left). by rewrite entry_of_key by auto.
Qed.

Lemma orUndo_touches {A} (p : prog (res A)) : calls (touches keys) p -> calls (touches keys) (orUndo keys p).
Proof.
  intros Hp. unfold orUndo. apply calls_bind; [done|]. intros [a|e]; [exact I|].
  apply calls_bind; [by apply revertKeys_touches|by intros []].
Qed.

Lemma fw4Warnings_touches : calls (touches keys) fw4Warnings.
Proof. unfold fw4Warnings. split; [exact I|]. by intros []. Qed.

Lemma fw4Accepts_touches b : calls (touches keys) (fw4Accepts b).
Proof. unfold fw4Accepts. apply calls_try; [apply fw4Warnings_touches|]. intros n. by destruct (fresh_warnings _ _). Qed.

Lemma deleteThere_touches l : (forall k, k ∈ l -> k ∈ keys) -> calls (touches keys) (deleteThere l).
Proof.
  induction l as [|k l IH]; intros Hl; [exact I|]. cbn [deleteThere].
  apply calls_bind; [apply uciGet_touches|]. intros there.
  apply calls_try; [|intros _; apply IH; intros; apply Hl; by right].
  destruct (nonempty there); [|exact I]. apply uciDelete_touches, Hl. left.
Qed.

Lemma show_touches c : calls (touches keys) (exec_cmd ["uci"; "-q"; "show"; c]).
Proof. apply calls_exec. by intros [|]. Qed.

Lemma FirewallInfo_touches m : calls (touches keys) (FirewallInfo m).
Proof.
  unfold FirewallInfo. destruct (negb _); [exact I|]. apply calls_try; [apply show_touches|]. intros out.
  apply calls_bind; [|by intros []]. eapply calls_weaken; [|apply Interfaces_calls]. by intros o ->.
Qed.

Lemma switchedOff_touches l : calls (touches keys) (switchedOff l).
Proof.
  induction l as [|k l IH]; [exact I|]. cbn [switchedOff]. apply calls_bind; [apply uciGet_touches|]. intros there.
  apply calls_bind; [|by intros []]. destruct (nonempty there); [|exact I].
  apply calls_bind; [apply uciGet_touches|by intros].
Qed.

Lemma refuseGuest_touches m mac : calls (touches keys) (refuseGuest m mac).
Proof. apply refuseGuest_calls; try done. intros k [|]; done. Qed.
End Touches.

(** The address a request names is normalised before anything is asked. *)
Lemma with_mac_calls {B} (P : op -> Prop) raw (f : string -> prog (res B)) :
  (forall mac, NormalizeMAC raw = Ok mac -> calls P (f mac)) ->
  calls P (let* mac := RefuseRes "mac" (NormalizeMAC raw) in f mac).
Proof. intros H. destruct (NormalizeMAC raw) as [mac|e]; [by apply H|exact I]. Qed.

Lemma StageDeviceInternet_touches m raw mac allowed : NormalizeMAC raw = Ok mac ->
  calls (touches [block_key mac]) (StageDeviceInternet m raw allowed).
Proof.
  intros Hn. pose proof (NormalizeMAC_device _ _ Hn) as Hd.
  assert (Forall fw_key [block_key mac]) as Hk by (apply Forall_singleton; by apply block_key_ok).
  unfold StageDeviceInternet. destruct (negb _); [exact I|]. apply with_mac_calls. intros mac' Hn'.
  rewrite Hn in Hn'. injection Hn' as <-. fold (block_key mac).
  apply calls_bind; [apply uciGet_touches|]. intros there.
  apply calls_try; [destruct allowed; [exact I|apply refuseGuest_touches]|]. intros _.
  destruct allowed.
  { destruct (negb _); [exact I|]. apply calls_try; [|by intros _]. apply uciDelete_touches; [done|left]. }
  destruct (nonempty there); [apply calls_bind; [apply uciGet_touches|intros e; by destruct (String.eqb _ _)]|].
  unfold writeBlock. fold (block_key mac). apply calls_try; [apply FirewallInfo_touches|]. intros fw.
  destruct (negb _); [exact I|]. apply calls_try; [apply fw4Warnings_touches|]. intros baseline.
  apply calls_try; [apply orUndo_touches, uciSets_touches; [done|by apply blockSets_of]|]. intros _.
  apply calls_try; [apply orUndo_touches, fw4Accepts_touches; done|by intros _].
Qed.

Lemma StageDeviceSchedule_touches m raw mac want : NormalizeMAC raw = Ok mac ->
  calls (touches (schedule_keys mac)) (StageDeviceSchedule m raw want).
Proof.
  intros Hn. pose proof (NormalizeMAC_device _ _ Hn) as Hd. pose proof (schedule_keys_ok mac Hd) as Hk.
  unfold StageDeviceSchedule. destruct (negb _); [exact I|]. apply with_mac_calls. intros mac' Hn'.
  rewrite Hn in Hn'. injection Hn' as <-. fold (schedule_keys mac).
  apply calls_try; [exact I|]. intros clean.
  apply calls_try; [destruct clean; [apply refuseGuest_touches|exact I]|]. intros _.
  apply calls_try; [apply switchedOff_touches|]. intros _.
  apply calls_bind; [unfold schedulesNow; destruct (negb _); [exact I|apply calls_bind; [apply show_touches|by intros]]|].
  intros now. destruct (alreadySo _ _); [exact I|].
  unfold writeSchedule. fold (schedule_keys mac).
  apply calls_try.
  { unfold scheduleZone. destruct clean; [|exact I]. apply calls_try; [apply FirewallInfo_touches|].
    intros fw. by destruct (nonempty _). }
  intros local. apply calls_try; [apply fw4Warnings_touches|]. intros baseline.
  apply calls_try; [apply orUndo_touches, deleteThere_touches; done|]. intros _.
  apply calls_try; [apply orUndo_touches, uciSets_touches; [done|]|].
  { destruct clean; [by apply scheduleSets_of|apply Forall_nil_2]. }
  intros _. apply calls_try; [apply orUndo_touches, fw4Accepts_touches; done|by intros _].
Qed.

(** ** What a failure takes back *)

Section TakenBack.
Context (keys : list string) (s : gset string).

(** Besides [s], only the keys. *)
Definition with_keys (s' : gset string) : Prop := s' ⊆ list_to_set keys ∪ s.

Lemma revertKeys_obs l s0 (Q : gset string -> unit -> Prop) :
  (forall s', (forall k, k ∈ s' -> k ∈ s0 /\ k ∉ l) -> Q s' tt) -> obs s0 (revertKeys l) Q.
Proof.
  revert s0. induction l as [|k l IH]; intros s0 HQ; cbn [revertKeys].
  - apply HQ. intros k Hk. split; [done|]. apply not_elem_of_nil.
  - split; [done|]. intros r. apply IH. intros s' Hs'. apply HQ. intros k' Hk'.
    destruct (Hs' k' Hk') as [Hin Hl]. cbn [drafted decide] in Hin.
    apply elem_of_filter in Hin as [[Hne _] Hin]. split; [done|]. by intros [->|?]%elem_of_cons.
Qed.

Lemma orUndo_obs {A} (p : prog (res A)) s0 :
  obs s0 p (fun s' _ => with_keys s') ->
  obs s0 (orUndo keys p) (fun s' r => if is_ok r then with_keys s' else s' ⊆ s).
Proof.
  intros Hp. eapply wp_seq; [exact Hp|]. intros s1 [a|e] H1; [done|].
  apply wp_bind, revertKeys_obs. intros s' Hs'. cbn. intros k Hk. destruct (Hs' k Hk) as [Hin Hl].
  apply H1 in Hin. set_solver.
Qed.

(** One part after another, each of which may fail. *)
Lemma orUndo_seq {A B} (p : prog (res A)) (f : A -> prog (res B)) s0 :
  obs s0 p (fun s' _ => with_keys s') ->
  (forall a s', with_keys s' -> obs s' (f a) (fun s' r => if is_ok r then with_keys s' else s' ⊆ s)) ->
  obs s0 (try_bind (orUndo keys p) f) (fun s' r => if is_ok r then with_keys s' else s' ⊆ s).
Proof.
  intros Hp Hf. eapply wp_seq; [by apply orUndo_obs|]. intros s1 [a|e] H1; [by apply Hf|done].
Qed.

Lemma uciSets_obs sets s0 : sets_of keys sets -> with_keys s0 -> obs s0 (uciSets sets) (fun s' _ => with_keys s').
Proof.
  intros H. revert s0. induction H as [|[k v] sets Hk _ IH]; intros s0 H0; [done|]. cbn [uciSets].
  apply wp_bind. unfold uciSet. apply wp_bind. eapply write_entry_obs; [done|done| |].
  - intros out. cbn. apply IH. unfold with_keys in *. cbn [fst snd] in Hk. set_solver.
  - intros e. cbn. done.
Qed.

Lemma deleteThere_obs l s0 : Forall fw_key keys -> (forall k, k ∈ l -> k ∈ keys) -> with_keys s0 ->
  obs s0 (deleteThere l) (fun s' _ => with_keys s').
Proof.
  intros keys_ok. revert s0. induction l as [|k l IH]; intros s0 Hl H0; [done|]. cbn [deleteThere].
  apply wp_bind, obs_quiet; [solve_quiet|]. intros there. apply wp_bind.
  assert (forall s', with_keys s' -> obs s' (deleteThere l) (fun s' _ => with_keys s')) as Hrest.
  { intros s' Hs'. apply IH; [|done]. intros k' Hk'. apply Hl. by right. }
  destruct (nonempty there); [|by apply Hrest].
  unfold uciDelete. apply wp_bind. eapply write_entry_obs; [done|done| |].
  - intros out. cbn. apply Hrest. rewrite Forall_forall in keys_ok.
    assert (k ∈ keys) as Hin by (apply Hl; left). rewrite entry_of_key by auto. unfold with_keys in *. set_solver.
  - intros e. cbn. done.
Qed.

Lemma with_keys_within s' : Forall fw_key keys -> with_keys s' -> within "firewall" s s'.
Proof.
  intros keys_ok H k Hk. apply H in Hk as [Hk|Hk]%elem_of_union; [right|by left].
  apply elem_of_list_to_set in Hk. rewrite Forall_forall in keys_ok. by apply fw_key_config, keys_ok.
Qed.
End TakenBack.

(** The end of both requests. *)
Lemma judged_rows_obs keys s s0 baseline (rows : list ConfigChange) :
  with_keys keys s s0 ->
  obs s0 (let! _ := orUndo keys (fw4Accepts baseline) in Ret (Ok rows))
    (fun s' r => if is_ok r then with_keys keys s s' else s' ⊆ s).
Proof. intros H. apply orUndo_seq; [by apply obs_quiet; [solve_quiet|]|]. by intros _ s' H'. Qed.

Lemma limit_tidy {A} keys (p : prog (res A)) : Forall fw_key keys ->
  (forall s, obs s p (fun s' r => if is_ok r then with_keys keys s s' else s' ⊆ s)) -> tidy "firewall" p.
Proof.
  intros Hk Hp s. eapply wp_mono; [apply Hp|]. intros s' r. cbn. destruct (is_ok r); [|done].
  by apply with_keys_within.
Qed.

Lemma writeBlock_tidy m mac : device_mac mac -> tidy "firewall" (writeBlock m mac).
Proof.
  intros Hd. pose proof (block_key_ok mac Hd) as Hk. unfold writeBlock. fold (block_key mac).
  apply tidy_after_try; [solve_quiet|]. intros fw. destruct (negb _); [apply tidy_Ret|].
  apply tidy_after_try; [solve_quiet|]. intros baseline.
  apply (limit_tidy [block_key mac]); [by apply Forall_singleton|]. intros s.
  apply orUndo_seq; [apply uciSets_obs; [by apply blockSets_of|unfold with_keys; set_solver]|].
  intros _ s' Hs'. by apply judged_rows_obs.
Qed.

Lemma with_mac_tidy {B} config raw (f : string -> prog (res B)) :
  (forall mac, NormalizeMAC raw = Ok mac -> tidy config (f mac)) ->
  tidy config (let* mac := RefuseRes "mac" (NormalizeMAC raw) in f mac).
Proof. intros H. destruct (NormalizeMAC raw) as [mac|e]; [by apply H|apply (tidy_Ret config (Err (FieldError "mac" e)))]. Qed.

Lemma StageDeviceInternet_tidy m raw allowed : tidy "firewall" (StageDeviceInternet m raw allowed).
Proof.
  unfold StageDeviceInternet. destruct (negb _); [apply tidy_Ret|]. apply with_mac_tidy. intros mac Hn.
  pose proof (NormalizeMAC_device _ _ Hn) as Hd. apply tidy_after; [solve_quiet|]. intros there.
  apply tidy_after_try; [destruct allowed; [exact I|solve_quiet]|]. intros _.
  destruct allowed.
  - destruct (negb _); [apply tidy_Ret|]. intros s. apply wp_bind.
    apply uciDelete_obs with (config := "firewall"); [by apply (config_of_entry "firewall")|intros s' H'; exact H'|intros e; cbn; done].
  - destruct (nonempty there); [|by apply writeBlock_tidy]. apply tidy_after; [solve_quiet|]. intros e.
    destruct (String.eqb e "0"); apply tidy_Ret.
Qed.

Lemma writeSchedule_tidy m mac want have : device_mac mac -> tidy "firewall" (writeSchedule m mac want have).
Proof.
  intros Hd. pose proof (schedule_keys_ok mac Hd) as Hk. unfold writeSchedule. fold (schedule_keys mac).
  apply tidy_after_try; [solve_quiet|]. intros local. apply tidy_after_try; [solve_quiet|]. intros baseline.
  apply (limit_tidy (schedule_keys mac)); [done|]. intros s.
  apply orUndo_seq; [apply deleteThere_obs; [done|done|unfold with_keys; set_solver]|]. intros _ s1 H1.
  apply orUndo_seq; [apply uciSets_obs; [destruct want; [by apply scheduleSets_of|apply Forall_nil_2]|done]|].
  intros _ s2 H2. by apply judged_rows_obs.
Qed.

Lemma StageDeviceSchedule_tidy m raw want : tidy "firewall" (StageDeviceSchedule m raw want).
Proof.
  unfold StageDeviceSchedule. destruct (negb _); [apply tidy_Ret|]. apply with_mac_tidy. intros mac Hn.
  pose proof (NormalizeMAC_device _ _ Hn) as Hd. apply tidy_after_try; [exact I|]. intros clean.
  apply tidy_after_try; [destruct clean; [solve_quiet|exact I]|]. intros _.
  apply tidy_after_try; [solve_quiet|]. intros _. apply tidy_after; [solve_quiet|]. intros now.
  destruct (alreadySo _ _); [apply tidy_Ret|by apply writeSchedule_tidy].
Qed.

(** ** Nothing is committed *)

Lemma uciSets_staging sets : calls staging (uciSets sets).
Proof. induction sets as [|[k v] sets IH]; cbn [uciSets]; solve_calls. Qed.
Lemma revertKeys_staging l : calls staging (revertKeys l).
Proof. induction l as [|k l IH]; cbn [revertKeys]; solve_calls. Qed.
Lemma deleteThere_staging l : calls staging (deleteThere l).
Proof. induction l as [|k l IH]; cbn [deleteThere]; solve_calls. Qed.
#[export] Hint Resolve uciSets_staging revertKeys_staging deleteThere_staging : staging.
Lemma orUndo_staging {A} keys (p : prog (res A)) : calls staging p -> calls staging (orUndo keys p).
Proof. intros H. unfold orUndo. apply calls_bind; [done|]. intros [a|e]; solve_calls. Qed.
#[export] Hint Resolve orUndo_staging : staging.
Lemma writeBlock_staging m mac : calls staging (writeBlock m mac).
Proof. unfold writeBlock. solve_calls. Qed.
Lemma writeSchedule_staging m mac want have : calls staging (writeSchedule m mac want have).
Proof. unfold writeSchedule. solve_calls. Qed.
#[export] Hint Resolve writeBlock_staging writeSchedule_staging : staging.

Lemma StageDeviceInternet_staging m raw allowed : calls staging (StageDeviceInternet m raw allowed).
Proof. unfold StageDeviceInternet. solve_calls. Qed.
Lemma StageDeviceSchedule_staging m raw want : calls staging (StageDeviceSchedule m raw want).
Proof. unfold StageDeviceSchedule. solve_calls. Qed.
#[export] Hint Resolve StageDeviceInternet_staging StageDeviceSchedule_staging : staging.

(** ** Somebody else's draft *)

(** The two requests that limit a device. *)
Inductive limit := LimitInternet (allowed : bool) | LimitSchedule (want : option InternetSchedule).

Definition stage_limit (m : deviceManager) (raw : string) (l : limit) : prog (res (list ConfigChange)) :=
  match l with
  | LimitInternet allowed => StageDeviceInternet m raw allowed
  | LimitSchedule want => StageDeviceSchedule m raw want
  end.

(** The sections of the firewall that are the device's own. *)
Definition own_sections (mac : string) (l : limit) : list string :=
  match l with LimitInternet _ => [block_key mac] | LimitSchedule _ => schedule_keys mac end.

(** C28. A limit touches only its device: on every router, whatever fails, each
    entry such a request writes to, deletes or reverts is one of the one or two
    firewall sections named after the device it is for. *)
Theorem limits_touch_only_their_device {W} (h : router W) (m : deviceManager) (raw mac : string) (l : limit) (w : W) :
  NormalizeMAC raw = Ok mac ->
  Forall (fun e => match e with
                   | Did (Exec ("uci" :: verb :: arg :: _)) _ =>
                       writes verb = true \/ verb = "revert" -> entry_of arg ∈ own_sections mac l
                   | _ => True
                   end) (trace h (stage_limit m raw l) w).
Proof.
  intros Hn. assert (calls (touches (own_sections mac l)) (stage_limit m raw l)) as H.
  { destruct l; cbn [stage_limit own_sections];
      [by apply StageDeviceInternet_touches|by apply StageDeviceSchedule_touches]. }
  eapply Forall_impl; [exact (calls_trace (touches (own_sections mac l)) h _ w H)|].
  intros [o a]. by destruct o.
Qed.

(** A router with a local zone, where the third write fails. *)
Definition lan_show : string :=
  "firewall.@zone[0]=zone" +:+ String "010" ("firewall.@zone[0].name='lan'" +:+ String "010" "firewall.@zone[0].network='lan'").

Definition limit_router : router nat :=
  answering (fun argv n =>
    match argv with
    | ["uci"; "-q"; "show"; "firewall"] => (Ok lan_show, n)
    | ["uci"; "set"; _] => (if decide (n = 2) then Err (Errorf "no space left" []) else Ok "", S n)
    | ["uci"; "revert"; _] => (Ok "", n)
    | ["/sbin/fw4"; "check"] => (Ok "", n)
    | _ => (Err (Errorf "refused" []), n)
    end).

Definition a_device_manager : deviceManager := mkDeviceManager a_manager false "".

Definition no_internet : limit := LimitInternet false.

Lemma limits_touch_only_their_device_witness :
  NormalizeMAC "02:00:5E:AB:CD:0F" = Ok "02:00:5e:ab:cd:0f" /\
  (exists e, result limit_router (stage_limit a_device_manager "02:00:5E:AB:CD:0F" no_internet) 0 = Err e) /\
  Forall (fun e => match e with
                   | Did (Exec ("uci" :: verb :: arg :: _)) _ =>
                       writes verb = true \/ verb = "revert" -> entry_of arg ∈ own_sections "02:00:5e:ab:cd:0f" no_internet
                   | _ => True
                   end) (trace limit_router (stage_limit a_device_manager "02:00:5E:AB:CD:0F" no_internet) 0).
Proof.
  split; [vm_compute; reflexivity|]. split; [eexists; vm_compute; reflexivity|].
  apply (limits_touch_only_their_device limit_router a_device_manager "02:00:5E:AB:CD:0F" "02:00:5e:ab:cd:0f" no_internet 0).
  vm_compute. reflexivity.
Defined.

(** A morning rule whose evening rule is gone is in force, is no schedule of the
    panel's, and cannot be removed by it: the request finds nothing to do. *)
Definition morning_show : string :=
  "firewall.vb_sched_02005eabcd0f_m=rule" +:+ String "010" (
  "firewall.vb_sched_02005eabcd0f_m.src_mac='02:00:5e:ab:cd:0f'" +:+ String "010" (
  "firewall.vb_sched_02005eabcd0f_m.weekdays='Sat'" +:+ String "010" (
  "firewall.vb_sched_02005eabcd0f_m.start_time='00:00:00'" +:+ String "010"
  "firewall.vb_sched_02005eabcd0f_m.stop_time='07:00:00'"))).

Definition morning_router : router nat :=
  answering (fun argv n =>
    match argv with
    | ["uci"; "-q"; "show"; "firewall"] => (Ok morning_show, n)
    | ["uci"; "-q"; "get"; "firewall.vb_sched_02005eabcd0f_m"] => (Ok ("rule" +:+ String "010" ""), n)
    | ["uci"; "delete"; _] => (Ok "", S n)
    | _ => (Err (Errorf "refused" []), n)
    end).

Lemma leftover_morning_cannot_be_removed :
  (exists s, s ∈ parseUCISections morning_show /\ rule_matches (options s) 5 3600 = true) /\
  schedules morning_show = ∅ /\
  result morning_router (StageDeviceSchedule a_device_manager "02:00:5e:ab:cd:0f" None) 0 = Ok [] /\
  after morning_router (StageDeviceSchedule a_device_manager "02:00:5e:ab:cd:0f" None) 0 = 0.
Proof.
  split; [|split; [vm_compute; reflexivity|split; vm_compute; reflexivity]].
  eexists. split; [vm_compute; left|vm_compute; reflexivity].
Qed.
