(* ===== verification/FirewallVerdict.v ===== *)
(** * The firewall has the last word

    Nothing stays staged that the router's firewall says it would skip: port
    forwards, rules and the limits of a device (firewall_write.go,
    firewall_rules.go, devices_internet.go, devices_schedule.go of
    internal/adapters/openwrt). *)

From S2P Require Import Prelude GoStrings GoNet Effects Network Uci Firewall Stage Discipline Lan LanThms.
From S2P Require Import FirewallWrite FirewallRules FirewallSafety Schedule Devices DeviceSources DeviceLimits DeviceLimitsSafety.

(** ** What was said and what was written *)

(** What [fw4 check] said before the first write of a request, what it said
    since the last one, and whether anything was written. *)
Record judgement := mkJudgement {
  jBefore : option (gset string); jAfter : option (gset string); jWrote : bool }.

Definition unjudged : judgement := mkJudgement None None false.

Definition judging (s : judgement) (e : event) : judgement :=
  match e with
  | Did (Exec ["/sbin/fw4"; "check"]) r =>
      match (r : res string) with
      | Ok out => mkJudgement (if jWrote s then jBefore s else Some (warnings_of out))
                    (Some (warnings_of out)) (jWrote s)
      | Err _ => s
      end
  | Did (Exec ("uci" :: verb :: _)) _ => if writes verb then mkJudgement (jBefore s) None true else s
  | _ => s
  end.

(** Every warning about a section that is dropped was there before. *)
Definition approved (s : judgement) : Prop :=
  exists before after_, jBefore s = Some before /\ jAfter s = Some after_ /\
    forall line, line ∈ after_ -> fw4Drops line = true -> line ∈ before.

Definition acceptable {A} (s : judgement) (r : res A) : Prop :=
  is_ok r = true -> jWrote s = true -> approved s.

Abbreviation jobs := (wp (fun _ _ => True) judging).

(** A call that is no verdict: what was said before the writes stays. *)
Definition no_verdict (o : op) : Prop := o <> Exec [fw4Program; "check"].

Lemma no_verdict_before s o r : no_verdict o -> jBefore (judging s (Did o r)) = jBefore s.
Proof.
  intros H. destruct o; try done. cbn [judging].
  repeat (case_match; try done); subst; by destruct H.
Qed.

Lemma no_verdict_calls {A} s (p : prog A) :
  calls no_verdict p -> jobs s p (fun s' _ => jBefore s' = jBefore s).
Proof.
  revert s. induction p as [a|o k IH]; intros s; cbn [wp calls]; [done|].
  intros [Ho Hk]. split; [done|]. intros r. eapply wp_mono; [by apply IH|].
  intros s' a ->. by apply no_verdict_before.
Qed.

(** A call that neither writes nor judges. *)
Definition aside (o : op) : Prop := forall s r, judging s (Did o r) = s.

Lemma aside_calls {A} s (p : prog A) (Q : judgement -> A -> Prop) :
  calls aside p -> (forall a, Q s a) -> jobs s p Q.
Proof.
  intros H HQ. induction p as [a|o k IH]; cbn [wp]; [by apply HQ|]. destruct H as [Ho Hk].
  split; [done|]. intros r. rewrite Ho. auto.
Qed.

Create HintDb aside discriminated.
#[export] Hint Extern 1 (calls aside (exec_cmd _)) => (apply calls_exec; intros ? ?; reflexivity) : aside.
#[export] Hint Extern 1 (calls aside (ask _)) => (apply calls_ask; intros ? ?; reflexivity) : aside.

Ltac solve_aside :=
  repeat first
    [ progress (cbn beta iota zeta)
    | match goal with
      | |- calls _ (Ret _) => exact I
      | |- calls _ (if ?b then _ else _) => destruct b
      | |- calls _ (match ?x with _ => _ end) => destruct x
      end
    | solve [eauto with aside]
    | apply calls_try; [|intros ?]
    | apply calls_bind; [|intros ?]
    | apply calls_map ].

Lemma Interfaces_aside m : calls aside (Interfaces m).
Proof. eapply calls_weaken; [|apply Interfaces_calls]. by intros o ->. Qed.
#[export] Hint Resolve Interfaces_aside : aside.

Lemma FirewallInfo_aside m : calls aside (FirewallInfo m).
Proof. unfold FirewallInfo. solve_aside. Qed.
Lemma uciGet_aside k : calls aside (uciGet k).
Proof. unfold uciGet. solve_aside. Qed.
#[export] Hint Resolve FirewallInfo_aside uciGet_aside : aside.
Lemma reserved_aside : calls aside reserved.
Proof. unfold reserved. solve_aside. Qed.
Lemma leases_aside : calls aside leases.
Proof. unfold leases. solve_aside. Qed.
Lemma handout_aside i : calls aside (handout i).
Proof. unfold handout. solve_aside. Qed.
#[export] Hint Resolve reserved_aside leases_aside handout_aside : aside.
Lemma LANInfo_aside m : calls aside (LANInfo m).
Proof. unfold LANInfo. solve_aside. Qed.
#[export] Hint Resolve LANInfo_aside : aside.
Lemma lanNetwork_aside m : calls aside (lanNetwork m).
Proof. unfold lanNetwork. solve_aside. Qed.
Lemma sectionPosition_aside s : calls aside (sectionPosition s).
Proof. unfold sectionPosition. solve_aside. Qed.
#[export] Hint Resolve lanNetwork_aside sectionPosition_aside : aside.
Lemma placeNew_aside fw b : calls aside (placeNew fw b).
Proof. unfold placeNew. solve_aside. Qed.
#[export] Hint Resolve placeNew_aside : aside.
Lemma checkFresh_aside fw w b : calls aside (checkFresh fw w b).
Proof. unfold checkFresh. solve_aside. Qed.
#[export] Hint Resolve checkFresh_aside : aside.

(** The writing routines ask for no verdict. *)
Create HintDb no_verdict discriminated.
#[export] Hint Extern 1 (calls no_verdict (exec_cmd _)) => (apply calls_exec; discriminate) : no_verdict.
#[export] Hint Extern 1 (calls no_verdict (ask _)) => (apply calls_ask; discriminate) : no_verdict.

Ltac solve_no_verdict :=
  repeat first
    [ progress (cbn beta iota zeta)
    | match goal with
      | |- calls _ (Ret _) => exact I
      | |- calls _ (if ?b then _ else _) => destruct b
      | |- calls _ (match ?x with _ => _ end) => destruct x
      end
    | solve [eauto with no_verdict]
    | apply calls_try; [|intros ?]
    | apply calls_bind; [|intros ?] ].

Lemma uciGet_no_verdict k : calls no_verdict (uciGet k).
Proof. unfold uciGet. solve_no_verdict. Qed.
Lemma uciSet_no_verdict k v : calls no_verdict (uciSet k v).
Proof. unfold uciSet. solve_no_verdict. Qed.
Lemma uciDelete_no_verdict k : calls no_verdict (uciDelete k).
Proof. unfold uciDelete. solve_no_verdict. Qed.
Lemma discardConfig_no_verdict c : calls no_verdict (discardConfig c).
Proof. unfold discardConfig. solve_no_verdict. Qed.
#[export] Hint Resolve uciGet_no_verdict uciSet_no_verdict uciDelete_no_verdict discardConfig_no_verdict : no_verdict.
Lemma stageSets_no_verdict c s sets : calls no_verdict (stageSets c s sets).
Proof. induction sets as [|x sets IH]; cbn [stageSets]; solve_no_verdict. Qed.
#[export] Hint Resolve stageSets_no_verdict : no_verdict.
Lemma stage_no_verdict c s sets : calls no_verdict (stage c s sets).
Proof. unfold stage. solve_no_verdict. Qed.
Lemma addSection_no_verdict c t w : calls no_verdict (addSection c t w).
Proof. unfold addSection. solve_no_verdict. Qed.
Lemma reorderRule_no_verdict s p f : calls no_verdict (reorderRule s p f).
Proof. unfold reorderRule. solve_no_verdict. Qed.
Lemma keepDefaults_no_verdict s w x : calls no_verdict (keepDefaults s w x).
Proof. unfold keepDefaults. solve_no_verdict. Qed.
#[export] Hint Resolve stage_no_verdict addSection_no_verdict reorderRule_no_verdict keepDefaults_no_verdict : no_verdict.

Lemma fresh_warnings_nil b n :
  fresh_warnings b n = [] -> forall line, line ∈ n -> fw4Drops line = true -> line ∈ b.
Proof.
  unfold fresh_warnings. intros H line Hl Hd. destruct (decide (line ∈ b)) as [|Hn]; [done|]. exfalso.
  assert (line ∈ sort_strings (filter (fun w => negb (has b w) && fw4Drops w = true) (elements n))) as Hin.
  { rewrite sort_strings_elem, list_elem_of_filter, elem_of_elements. split; [|done].
    rewrite Hd, andb_true_r. by rewrite negb_true_iff, has_false. }
  rewrite H in Hin. by apply not_elem_of_nil in Hin.
Qed.

(** The end of a request: the verdict on what was written against the one the
    request began with. *)
Lemma accepts_approved s baseline :
  jBefore s = Some baseline -> jobs s (fw4Accepts baseline) acceptable.
Proof.
  intros Hb. unfold fw4Accepts, fw4Warnings. cbn [wp try_bind prog_bind exec_cmd].
  split; [done|]. intros [out|e]; cbn [prog_bind judging fw4Program]; [|by intros ?].
  destruct (fresh_warnings baseline (warnings_of out)) as [|w ws] eqn:E; cbn [prog_bind wp]; [|by intros ?].
  intros _ Hw. exists baseline, (warnings_of out). cbn [jBefore jAfter jWrote] in *. rewrite Hw.
  split_and!; [done|done|]. by apply fresh_warnings_nil.
Qed.

(** What a refused change is followed by is of no concern. *)
Lemma acceptable_on_Err {A B} s (p : prog (res A)) (f : A -> res A) (undo : prog B) :
  jobs s p acceptable -> (forall a, is_ok (f a) = true) ->
  jobs s (r <- p ;; match r with Ok a => Ret (f a) | Err e => _ <- undo ;; Ret (Err e) end) acceptable.
Proof.
  intros Hp Hf. eapply wp_seq; [exact Hp|]. intros s1 [a|e] H1; cbn; [by intros _; apply H1|].
  apply wp_bind. clear. revert s1. induction undo as [b|o k IH]; intros s1; cbn; [by intros ?|].
  split; [done|]. intros r. apply IH.
Qed.

Lemma judged_approved s baseline :
  jBefore s = Some baseline -> jobs s (judged baseline) acceptable.
Proof.
  intros Hb. apply (acceptable_on_Err s (fw4Accepts baseline) (fun _ => Ok tt) (discardConfig "firewall"));
    [by apply accepts_approved|done].
Qed.

Lemma orUndo_approved s keys baseline :
  jBefore s = Some baseline -> jobs s (orUndo keys (fw4Accepts baseline)) acceptable.
Proof. intros Hb. apply (acceptable_on_Err s (fw4Accepts baseline) Ok (revertKeys keys)); [by apply accepts_approved|done]. Qed.

Lemma acceptable_aside {A B} s (p : prog A) (f : A -> prog (res B)) :
  calls aside p -> (forall a, jobs s (f a) acceptable) -> jobs s (prog_bind p f) acceptable.
Proof. intros Hp Hf. apply wp_bind, aside_calls; auto. Qed.

Lemma acceptable_aside_try {A B} s (p : prog (res A)) (f : A -> prog (res B)) :
  calls aside p -> (forall a, jobs s (f a) acceptable) -> jobs s (try_bind p f) acceptable.
Proof. intros Hp Hf. apply acceptable_aside; [done|]. intros [a|e]; [apply Hf|]. by intros ?. Qed.

Lemma acceptable_Err {A} s (e : err) : jobs s (Ret (Err e : res A)) acceptable.
Proof. by intros ?. Qed.

(** The verdict before the writes. *)
Lemma acceptable_baseline {B} s (f : gset string -> prog (res B)) :
  jWrote s = false ->
  (forall b s', jBefore s' = Some b -> jobs s' (f b) acceptable) ->
  jobs s (try_bind fw4Warnings f) acceptable.
Proof.
  intros Hw Hf. unfold fw4Warnings. cbn [wp try_bind prog_bind exec_cmd]. split; [done|].
  intros [out|e]; cbn [prog_bind judging fw4Program]; [|by intros ?].
  apply Hf. cbn. by rewrite Hw.
Qed.

(** A routine that writes and asks for no verdict. *)
Lemma acceptable_write {A B} s b (p : prog (res A)) (f : A -> prog (res B)) :
  calls no_verdict p -> jBefore s = Some b ->
  (forall a s', jBefore s' = Some b -> jobs s' (f a) acceptable) -> jobs s (try_bind p f) acceptable.
Proof.
  intros Hp Hb Hf. eapply wp_seq; [by apply no_verdict_calls|]. intros s' [a|e] Hs'; cbn; [|by intros ?].
  apply Hf. congruence.
Qed.

Lemma acceptable_judged {B} s b (x : res B) :
  jBefore s = Some b -> jobs s (let! _ := judged b in Ret x) acceptable.
Proof.
  intros Hb. eapply wp_seq; [by apply judged_approved|]. intros s' [a|e] Hs'; cbn; [|by intros ?].
  intros _ Hw. by apply Hs'.
Qed.

Ltac accept_step :=
  match goal with
  | |- jobs _ (Ret (Err _)) _ => apply acceptable_Err
  | |- jobs _ (Ret (Refuse _ _)) _ => apply acceptable_Err
  | |- jobs _ (try_bind (Ret _) _) _ => apply acceptable_aside_try; [exact I|intros ?]
  | |- jobs _ (if ?b then _ else _) _ => destruct b
  | |- jobs _ (try_bind (if ?b then _ else _) _) _ => destruct b
  | |- jobs _ (let! _ := judged _ in _) _ => solve [by apply acceptable_judged]
  | |- jobs _ (match ?x with _ => _ end) _ => destruct x
  | |- jobs _ (try_bind fw4Warnings _) _ => apply acceptable_baseline; [reflexivity|intros ? ? ?]
  | |- jobs _ (try_bind _ _) _ => apply acceptable_aside_try; [solve [solve_aside]|intros ?]
  | |- jobs _ (prog_bind _ _) _ => apply acceptable_aside; [solve [solve_aside]|intros ?]
  | |- jobs _ (try_bind _ _) _ => eapply acceptable_write; [solve [solve_no_verdict]|eassumption|intros ? ? ?]
  end.

Lemma StagePortForward_acceptable m cfg : jobs unjudged (StagePortForward m cfg) acceptable.
Proof.
  unfold StagePortForward. repeat accept_step.
Qed.

Lemma keepDefaults_aside s w x : calls aside (keepDefaults s w x).
Proof. unfold keepDefaults. solve_aside. Qed.
#[export] Hint Resolve keepDefaults_aside : aside.

Lemma writeRule_acceptable s want fresh section subject position baseline :
  jBefore s = Some baseline ->
  jobs s (writeRule want fresh section subject position baseline) acceptable.
Proof.
  intros Hb. unfold writeRule. apply acceptable_aside; [solve_aside|]. intros sets.
  eapply acceptable_write; [solve_no_verdict|exact Hb|]. intros changes s1 H1.
  eapply acceptable_write; [solve_no_verdict|exact H1|]. intros u s2 H2.
  eapply wp_seq; [by apply judged_approved|]. intros s3 [a|e] H3; cbn; [|by intros ?].
  destruct (negb fresh); intros _ Hw; by apply H3.
Qed.

Lemma StageRule_acceptable m t cfg : jobs unjudged (StageRule m t cfg) acceptable.
Proof.
  unfold StageRule.
  repeat first [accept_step | match goal with |- jobs _ (writeRule _ _ _ _ _ _) _ => by apply writeRule_acceptable end].
Qed.

Lemma MoveRule_acceptable m rid b : jobs unjudged (MoveRule m rid b) acceptable.
Proof. unfold MoveRule. repeat accept_step; by intros ? ?. Qed.

(** ** The limits of a device *)

Lemma refuseGuest_aside m mac : calls aside (refuseGuest m mac).
Proof. by apply refuseGuest_calls. Qed.
Lemma schedulesNow_aside m : calls aside (schedulesNow m).
Proof. unfold schedulesNow. solve_aside. Qed.
Lemma switchedOff_aside keys : calls aside (switchedOff keys).
Proof. induction keys as [|k keys IH]; cbn [switchedOff]; solve_aside. Qed.
Lemma scheduleZone_aside m want : calls aside (scheduleZone m want).
Proof. unfold scheduleZone. solve_aside. Qed.
#[export] Hint Resolve refuseGuest_aside schedulesNow_aside switchedOff_aside scheduleZone_aside : aside.

Lemma uciSets_no_verdict sets : calls no_verdict (uciSets sets).
Proof. induction sets as [|[k v] sets IH]; cbn [uciSets]; solve_no_verdict. Qed.
Lemma revertKeys_no_verdict l : calls no_verdict (revertKeys l).
Proof. induction l as [|k l IH]; cbn [revertKeys]; solve_no_verdict. Qed.
Lemma deleteThere_no_verdict l : calls no_verdict (deleteThere l).
Proof. induction l as [|k l IH]; cbn [deleteThere]; solve_no_verdict. Qed.
#[export] Hint Resolve uciSets_no_verdict revertKeys_no_verdict deleteThere_no_verdict : no_verdict.
Lemma orUndo_no_verdict {A} keys (p : prog (res A)) : calls no_verdict p -> calls no_verdict (orUndo keys p).
Proof. intros H. unfold orUndo. apply calls_bind; [done|]. intros [a|e]; solve_no_verdict. Qed.
#[export] Hint Resolve orUndo_no_verdict : no_verdict.

(** The verdict at the end, and the rows. *)
Lemma acceptable_end {B} s b keys (x : B) :
  jBefore s = Some b -> jobs s (let! _ := orUndo keys (fw4Accepts b) in Ret (Ok x)) acceptable.
Proof.
  intros Hb. eapply wp_seq; [by apply orUndo_approved|]. intros s' [a|e] Hs'; cbn; [|by intros ?].
  intros _ Hw. by apply Hs'.
Qed.

Lemma writeBlock_acceptable m mac : jobs unjudged (writeBlock m mac) acceptable.
Proof.
  unfold writeBlock. accept_step. accept_step; [accept_step|]. accept_step.
  eapply acceptable_write; [solve_no_verdict|eassumption|]. intros u s1 H1. by apply acceptable_end.
Qed.

Lemma writeSchedule_acceptable m mac want have : jobs unjudged (writeSchedule m mac want have) acceptable.
Proof.
  unfold writeSchedule. do 2 accept_step.
  do 2 (eapply acceptable_write; [solve_no_verdict|eassumption|]; intros ? ? ?). by apply acceptable_end.
Qed.

Lemma StageDeviceInternet_acceptable m raw : jobs unjudged (StageDeviceInternet m raw false) acceptable.
Proof.
  unfold StageDeviceInternet. do 2 accept_step. accept_step. accept_step.
  destruct (nonempty _); [|apply writeBlock_acceptable]. accept_step. by destruct (String.eqb _ _); intros ? ?.
Qed.

Lemma StageDeviceSchedule_acceptable m raw want : jobs unjudged (StageDeviceSchedule m raw want) acceptable.
Proof.
  unfold StageDeviceSchedule. do 2 accept_step. accept_step.
  apply acceptable_aside_try; [destruct (_ : option InternetSchedule); solve_aside|]. intros _.
  do 2 accept_step. destruct (alreadySo _ _); [by intros ? ?|apply writeSchedule_acceptable].
Qed.

(** The requests that put something into the firewall's draft. *)
Inductive firewall_write (m : networkManager) : prog (res (list ConfigChange)) -> Prop :=
| write_forward cfg : firewall_write m (StagePortForward m cfg)
| write_rule toFirst cfg : firewall_write m (StageRule m toFirst cfg)
| move_rule rid before : firewall_write m (MoveRule m rid before)
| write_block b dir mac : firewall_write m (StageDeviceInternet (mkDeviceManager m b dir) mac false)
| write_schedule b dir mac want : firewall_write m (StageDeviceSchedule (mkDeviceManager m b dir) mac want).

(** C15. The router's own firewall has the last word on every port forward,
    rule and limit of a device: when such a request succeeds having written anything, [fw4 check] was
    asked after the last write, and each section it says it drops it dropped
    before the request's first write - whatever the router answers. *)
Theorem firewall_has_the_last_word {W} (h : router W) m p w changes :
  firewall_write m p -> result h p w = Ok changes ->
  let j := observed judging unjudged (trace h p w) in
  jWrote j = true -> approved j.
Proof.
  intros Hp Hr j Hw.
  assert (jobs unjudged p acceptable) as Hobs by (destruct Hp;
    auto using StagePortForward_acceptable, StageRule_acceptable, MoveRule_acceptable,
      StageDeviceInternet_acceptable, StageDeviceSchedule_acceptable).
  destruct (wp_sound _ _ h p unjudged _ w Hobs) as [_ H]. rewrite Hr in H. by apply H.
Qed.

(** A router with the stock zones, whose firewall warns of a disabled section. *)
Definition fw_show : string := "firewall.@zone[0]=zone
firewall.@zone[0].name='lan'
firewall.@zone[0].network='lan'
firewall.@zone[1]=zone
firewall.@zone[1].name='wan'
firewall.@zone[1].masq='1'
firewall.@rule[0]=rule
firewall.@rule[0].name='x'
firewall.@rule[0].src='wan'
firewall.@rule[0].enabled='0'".

Definition fw_router : router nat :=
  answering (fun argv n =>
    match argv with
    | ["uci"; "-q"; "show"; "firewall"] => (Ok fw_show, n)
    | ["uci"; "add"; _; _] => (Ok "cfg0a92bd", n)
    | ["uci"; "-q"; "get"; _] => (Err (Errorf "no entry" []), n)
    | "uci" :: _ => (Ok "", S n)
    | ["/sbin/fw4"; "check"] => (Ok "[!] Section @rule[0] (x) is disabled, ignoring section", n)
    | _ => (Err (Errorf "refused" []), n)
    end).

Definition block_telnet : FirewallRuleConfig :=
  mkRuleConfig "" "no telnet" true "wan" "" ["tcp"] "23" "drop" "" "@rule[0]".

Lemma firewall_has_the_last_word_witness :
  exists changes, result fw_router (StageRule a_manager false block_telnet) 0 = Ok changes /\
  jWrote (observed judging unjudged (trace fw_router (StageRule a_manager false block_telnet) 0)) = true /\
  approved (observed judging unjudged (trace fw_router (StageRule a_manager false block_telnet) 0)).
Proof.
  eexists. split; [vm_compute; reflexivity|].
  assert (jWrote (observed judging unjudged (trace fw_router (StageRule a_manager false block_telnet) 0)) = true) as Hw
    by (vm_compute; reflexivity).
  split; [exact Hw|]. revert Hw.
  eapply (firewall_has_the_last_word fw_router a_manager (StageRule a_manager false block_telnet) 0).
  - constructor.
  - vm_compute. reflexivity.
Defined.
