(* ===== verification/WiFi.v ===== *)
(** * Wi-Fi: internal/core/wifi.go and internal/adapters/openwrt/wifi.go

    The radios and the networks as uci holds them, what the device can do with a
    radio, and the requests that change a radio, the country, or who may join a
    network. The screen that puts it together is in WiFiStatus.v, the guest
    network in WiFiGuest.v.

    [rng] is the order in which Go ranges over a map, any order. *)

From S2P Require Import Prelude GoStrings GoNet Effects Network Uci Firewall Stage Lan Devices DeviceSources.

(** ** internal/core/wifi.go *)

Definition WiFiWPA2 := "wpa2".
Definition WiFiWPA2WPA3 := "wpa2-wpa3".
Definition WiFiWPA3 := "wpa3".
Definition WiFiOpen := "open".
Definition WiFiOther := "other".
Definition RadioUp := "up".
Definition RadioStarting := "starting".
Definition RadioRadar := "checking-radar".
Definition RadioDown := "down".
Definition WiFiKindMain := "main".
Definition WiFiKindGuest := "guest".
Definition WiFiKindOther := "other".

Record WiFiChannel := mkChannel { chNumber : Z; chRadar : bool }.

Record WiFiRadio := mkRadio {
  rID : string; rBand : string; rEnabled : bool; rAuto : bool; rChannel : Z; rChannelNow : Z;
  rWidth : Z; rWidths : list Z; rChannels : list WiFiChannel; rDevices : Z; rState : string }.

Record WiFiNetwork := mkNetwork {
  wID : string; wKind : string; wEnabled : bool; wSSID : string; wSecurity : string;
  wRadios : list string; wDevices : Z; wHasPassword : bool }.

Record WiFiHere := mkHere { hKind : string; hRadio : string; hBand : string }.

Record RadioConfig := mkRadioConfig { rcEnabled : bool; rcChannel : string; rcWidth : Z }.
Record AccessConfig := mkAccessConfig { acSSID : string; acPassword : string; acSecurity : string }.

(** How many bytes a rune takes in UTF-8; a byte that starts no rune is read as
    U+FFFD, which takes three. *)
Definition rune_len (r : Z) : nat :=
  if (r <? 128)%Z then 1 else if (r <? 2048)%Z then 2 else if (r <? 65536)%Z then 3 else 4.
Definition ValidString (s : string) : bool :=
  bool_decide (sum_list (rune_len <$> runes s) = String.length s).

Definition ValidSSID (ssid : string) : res unit :=
  let n := String.length ssid in
  if decide (n = 0) then Refuse "ssid" (Errorf "the network needs a name" []) else
  if decide (32 < n)
  then Refuse "ssid" (Errorf "the name is %d bytes long, at most 32 fit" [Itoa (Z.of_nat n)]) else
  if negb (ValidString ssid) then Refuse "ssid" (Errorf "the name is not valid text" []) else
  if existsb (fun r => (r <? 32)%Z || (r =? 127)%Z) (runes ssid)
  then Refuse "ssid" (Errorf "the name contains a control character" [])
  else Ok tt.

(** [strings.Trim(s, cutset) == ""] for a cutset of ASCII characters. *)
Definition only_of (cutset s : string) : bool := all_chars (fun c => ContainsAny cutset (String c "")) s.

Definition printable (c : ascii) : bool := ((32 <=? code c) && (code c <=? 126))%Z.

Definition ValidWiFiPassword (p : string) : res unit :=
  let n := String.length p in
  if bool_decide (n = 64) && only_of "0123456789abcdef" (ToLower p) then Ok tt else
  if decide (n < 8 \/ 63 < n)
  then Refuse "password" (Errorf "the password is %d characters long, it has to be 8 to 63" [Itoa (Z.of_nat n)]) else
  if negb (all_chars printable p)
  then Refuse "password" (Errorf "only Latin letters, digits and punctuation fit in a Wi-Fi password" [])
  else Ok tt.

Definition WiFiHereFrom (devices : list Device) (radios : list WiFiRadio) : WiFiHere :=
  match find_first dHere devices with
  | None => mkHere "other" "" ""
  | Some d =>
      let l := dLink d in
      if String.eqb (lKind l) LinkCable then mkHere "cable" "" "" else
      if String.eqb (lKind l) LinkWiFi
      then mkHere "wifi" (match find_first (fun r => String.eqb (rBand r) (lBand l)) radios with
                          | Some r => rID r | None => "" end) (lBand l)
      else mkHere "other" "" ""
  end.

(** ** internal/adapters/openwrt/wifi.go *)

(** What [n, _ := strconv.Atoi(s)] leaves in [n]: on a number out of range the
    nearest one, on anything else 0. *)
Definition AtoiValue (s : string) : Z :=
  match Atoi s with
  | Some n => n
  | None =>
      match s with
      | String "-" d => if isDigits d then int_min else 0
      | String "+" d => if isDigits d then int_max else 0
      | _ => if isDigits s then int_max else 0
      end%Z
  end.

(** [^[A-Z]{2}$] *)
Definition countryRe (s : string) : bool := all_chars is_upper s && bool_decide (String.length s = 2).

(** [digitsRe.FindString]: the digits a text ends with. *)
Fixpoint leading_digits (s : string) : string :=
  match s with
  | String c r => if is_digit c then String c (leading_digits r) else ""
  | EmptyString => ""
  end.
Definition trailing_digits (s : string) : string := rev_string (leading_digits (rev_string s)).
(** [strings.TrimRight(s, "0123456789")]. *)
Definition without_digits (s : string) : string := TrimSuffix (trailing_digits s) s.

(** [wifiManager]: the network manager and whether the bus is there. *)
Record wifiManager := mkWifiManager { wmNet : networkManager; wmBus : bool }.

Record wifiConfig := mkWifiConfig { wcRadios : list uciSection; wcIfaces : list uciSection; wcAll : list uciSection }.

Definition isRadio (s : uciSection) : bool := String.eqb (kind s) "wifi-device".
Definition isAccessPoint (s : uciSection) : bool :=
  String.eqb (kind s) "wifi-iface" && String.eqb (get (options s) "mode") "ap".

Definition splitWireless (all : list uciSection) : wifiConfig :=
  mkWifiConfig (filter (fun s => isRadio s = true) all) (filter (fun s => isAccessPoint s = true) all) all.

Definition readConfig (m : wifiManager) : prog (res wifiConfig) :=
  if negb (runs (wmNet m)) then Ret (Err ErrNotImplemented) else
  out <- exec_cmd ["uci"; "-q"; "show"; "wireless"] ;;
  Ret (match out with
       | Err _ => Err ErrNoWiFi
       | Ok out =>
           let c := splitWireless (parseUCISections out) in
           match wcRadios c with [] => Err ErrNoWiFi | _ => Ok c end
       end).

Definition radioOf (c : wifiConfig) (rid : string) : option uciSection :=
  find_first (fun r => String.eqb (id r) rid) (wcRadios c).

Definition bandWord (b : string) : string :=
  if String.eqb b "2g" then "2.4" else if String.eqb b "5g" then "5" else
  if String.eqb b "6g" then "6" else if String.eqb b "60g" then "60" else b.

Definition widthOf (htmode : string) : Z := AtoiValue (trailing_digits htmode).

Record radioFacts := mkFacts {
  fPhy : string; fModes : list string; fWidths : list Z; fChannels : list WiFiChannel; fCountry : string }.
Definition noFacts : radioFacts := mkFacts "" [] [] [] "".

(** Each width once, in ascending order. *)
Definition widthsOf (modes : list string) : list Z :=
  sort_by Z.leb (fold_left (fun ws h =>
    let w := widthOf h in if (0 <? w)%Z && negb (bool_decide (w ∈ ws)) then ws ++ [w] else ws) modes []).

Definition channelOf (country : string) (r : radioFreq) : option WiFiChannel :=
  let noCountry := String.eqb country "" || String.eqb country "00" in
  let radar := ((5250 <=? fqMHz r) && (fqMHz r <=? 5730))%Z in
  if fqRestricted r || (radar && noCountry) then None else Some (mkChannel (fqChannel r) radar).

Definition facts (m : wifiManager) (rid : string) : prog radioFacts :=
  if negb (wmBus m) then Ret noFacts else
  phy <- ask (IwinfoPhy rid) ;;
  match phy with
  | Err _ => Ret noFacts
  | Ok phy =>
      if negb (nonempty phy) then Ret noFacts else
      info <- ask (IwinfoInfo phy) ;;
      let '(country, modes) := match info with Ok i => i | Err _ => ("", []) end in
      freqs <- ask (IwinfoFreqs phy) ;;
      Ret (mkFacts phy modes (widthsOf modes)
             (match freqs with Ok l => omap (channelOf country) l | Err _ => [] end) country)
  end.

Section Running.
Context (rng : forall A : Type, gmap string A -> list (string * A)).

(** The interface a wifi-iface section runs as. *)
Definition running (m : wifiManager) : prog (gmap string string) :=
  if negb (wmBus m) then Ret ∅ else
  st <- ask WirelessStatus ;;
  Ret (match st with
       | Err _ => ∅
       | Ok st => fold_left (fun out i => if nonempty i.2 then <[i.1 := i.2]> out else out)
                    (mjoin (M:=list) (snd <$> rng _ st)) ∅
       end).
End Running.

Definition apState (m : wifiManager) (ifname : string) : prog (string * Z) :=
  if negb (wmBus m) then Ret (RadioDown, 0%Z) else
  st <- ask (HostapdStatus ifname) ;;
  Ret (match st with
       | Err _ => (RadioDown, 0%Z)
       | Ok (status, channel) =>
           if String.eqb status "ENABLED" then (RadioUp, channel) else
           if String.eqb status "DFS" then (RadioRadar, 0%Z) else
           if String.eqb status "DISABLED" then (RadioDown, 0%Z) else (RadioStarting, 0%Z)
       end).

Definition connectedTo (m : wifiManager) (ifname : string) : prog Z :=
  if negb (wmBus m) then Ret 0%Z else
  body <- ask (HostapdClients ifname) ;;
  Ret (match body with Ok body => Z.of_nat (size (apSignals (parseClients body))) | Err _ => 0%Z end).

Definition securityOf (encryption : string) : string :=
  let base := match Cut "+" encryption with Some (base, _) => base | None => encryption end in
  if String.eqb base "psk2" then WiFiWPA2 else
  if String.eqb base "sae-mixed" then WiFiWPA2WPA3 else
  if String.eqb base "sae" then WiFiWPA3 else
  if String.eqb base "" || String.eqb base "none" then WiFiOpen else WiFiOther.

Definition encryptionFor (security : string) : string :=
  if String.eqb security WiFiWPA2 then "psk2" else
  if String.eqb security WiFiWPA2WPA3 then "sae-mixed" else "".

Definition onLAN (s : uciSection) : bool := contains (Fields (get (options s) "network")) lanSection.

(** One network: at least one access point. *)
Record wifiNet := mkWifiNet { wnFirst : uciSection; wnMore : list uciSection }.
Definition wnSections (n : wifiNet) : list uciSection := wnFirst n :: wnMore n.

Definition groupKey (s : uciSection) : string :=
  Join (String "000" "") ((fun k => get (options s) k) <$> ["ssid"; "key"; "encryption"; "network"]).

Fixpoint placeIn (nets : list wifiNet) (s : uciSection) : list wifiNet :=
  match nets with
  | [] => [mkWifiNet s []]
  | n :: nets =>
      if String.eqb (groupKey (wnFirst n)) (groupKey s)
      then mkWifiNet (wnFirst n) (wnMore n ++ [s]) :: nets
      else n :: placeIn nets s
  end.
Definition groupNetworks (ifaces : list uciSection) : list wifiNet := fold_left placeIn ifaces [].

Definition networkOf (c : wifiConfig) (sid : string) : option wifiNet :=
  find_first (fun n => existsb (fun s => String.eqb (id s) sid) (wnSections n)) (groupNetworks (wcIfaces c)).

Definition switchedOn (s : uciSection) : bool := negb (String.eqb (get (options s) "disabled") "1").
Definition anyEnabled (sections : list uciSection) : bool := existsb switchedOn sections.

Definition errNoNetwork (sid : string) : err := Errorf "openwrt: no Wi-Fi network %q on this device" [sid].

Definition WiFiPassword (m : wifiManager) (sid : string) : prog (res string) :=
  let! c := readConfig m in
  Ret (match networkOf c sid with
       | None => Err (errNoNetwork sid)
       | Some n => Ok (get (options (wnFirst n)) "key")
       end).

(** ** Requests *)

Definition radioSubject (r : uciSection) : string := "Wi-Fi " +:+ bandWord (get (options r) "band") +:+ " GHz".

Definition htmodeFor (current : string) (modes : list string) (width : Z) : option string :=
  let prefix := without_digits current in
  if nonempty prefix && contains modes (prefix +:+ Itoa width) then Some (prefix +:+ Itoa width) else
  find_first (contains modes) ((fun p => p +:+ Itoa width) <$> ["EHT"; "HE"; "VHT"; "HT"]).

Definition widthWords (htmode : string) : string := if (0 <? widthOf htmode)%Z then Itoa (widthOf htmode) else "".

Definition radioSet (option value : string) : wanSetting := set_to option value (describe "wireless" roleRadio option).

Definition enabledSet (enabled : bool) : wanSetting :=
  if enabled then unset "disabled" "0" (describe "wireless" roleRadio "disabled") else radioSet "disabled" "1".

(** The setting for a channel asked for, [None] when none is. *)
Definition channelSet (f : radioFacts) (asked : string) : res (list wanSetting) :=
  let ch := TrimSpace asked in
  if negb (nonempty ch) then Ok [] else
  if String.eqb ch "auto" then Ok [radioSet "channel" "auto"] else
  match Atoi ch with
  | Some n =>
      if existsb (fun a => chNumber a =? n)%Z (fChannels f) then Ok [radioSet "channel" (Itoa n)]
      else Refuse "channel" (Errorf "openwrt: channel %q is not allowed for this radio in its country" [ch])
  | None => Refuse "channel" (Errorf "openwrt: channel %q is not allowed for this radio in its country" [ch])
  end.

Definition widthSet (r : uciSection) (f : radioFacts) (width : Z) : res (list wanSetting) :=
  if negb (0 <? width)%Z then Ok [] else
  match htmodeFor (get (options r) "htmode") (fModes f) width with
  | None => Refuse "width" (Errorf "openwrt: this radio cannot use %d MHz" [Itoa width])
  | Some mode => Ok [mkSetting "htmode" mode (describe "wireless" roleRadio "htmode") false false ""
                       (Itoa width) (widthWords (get (options r) "htmode"))]
  end.

Definition StageRadio (m : wifiManager) (rid : string) (cfg : RadioConfig) : prog (res (list ConfigChange)) :=
  let! c := readConfig m in
  match radioOf c rid with
  | None => Ret (Err (Errorf "openwrt: no radio %q on this device" [rid]))
  | Some r =>
      f <- facts m rid ;;
      let* channel := channelSet f (rcChannel cfg) in
      let* width := widthSet r f (rcWidth cfg) in
      let! changes := stage "wireless" rid (enabledSet (rcEnabled cfg) :: channel ++ width) in
      Ret (Ok (withSubject changes (radioSubject r)))
  end.

Fixpoint stageCountry (code : string) (radios : list uciSection) : prog (res (list (list ConfigChange))) :=
  match radios with
  | [] => Ret (Ok [])
  | r :: radios =>
      let! changes := stage "wireless" (id r) [radioSet "country" code] in
      let! more := stageCountry code radios in
      Ret (Ok (changes :: more))
  end.

(** The rows of the first radio only. *)
Definition StageCountry (m : wifiManager) (asked : string) : prog (res (list ConfigChange)) :=
  let code := ToUpper (TrimSpace asked) in
  if negb (countryRe code) || String.eqb code "00"
  then Ret (Refuse "country" (Errorf "openwrt: %q is not a country code" [code])) else
  let! c := readConfig m in
  let! rows := stageCountry code (wcRadios c) in
  Ret (Ok (default [] (head rows))).

(** The options to write, and their values. *)
Definition accessFields (first : uciSection) (cfg : AccessConfig) (enc : string) : list (string * string) :=
  (if String.eqb (acSSID cfg) (get (options first) "ssid") then [] else [("ssid", acSSID cfg)]) ++
  (if nonempty (acPassword cfg) && negb (String.eqb (acPassword cfg) (get (options first) "key"))
   then [("key", acPassword cfg)] else []) ++
  (if nonempty enc && negb (String.eqb enc (get (options first) "encryption")) then [("encryption", enc)] else []).

Definition accessRow (first : uciSection) (f : string * string) : ConfigChange :=
  let said := describe "wireless" roleWiFiNet f.1 in
  let words v := if String.eqb f.1 "encryption" then securityOf v else v in
  mkChange (pWords said) (pKey said)
    (redact (secretOption f.1) (words (get (options first) f.1))) (redact (secretOption f.1) (words f.2))
    false ("wireless." +:+ id first +:+ "." +:+ f.1) (get (options first) "ssid").

Fixpoint setAccess (writes : list (string * string)) : prog (res unit) :=
  match writes with
  | [] => Ret (Ok tt)
  | (key, value) :: writes =>
      r <- uciSet key value ;;
      match r with
      | Err e => _ <- discardConfig "wireless" ;; Ret (Err e)
      | Ok _ => setAccess writes
      end
  end.

Definition accessWrites (n : wifiNet) (fields : list (string * string)) : list (string * string) :=
  mjoin (M:=list) ((fun f => (fun s => ("wireless." +:+ id s +:+ "." +:+ f.1, f.2)) <$> wnSections n) <$> fields).

Definition encryptionAsked (security : string) : res string :=
  if negb (nonempty security) then Ok "" else
  if nonempty (encryptionFor security) then Ok (encryptionFor security)
  else Refuse "security" (Errorf "openwrt: %q is not offered (D-104)" [security]).

Definition StageAccess (m : wifiManager) (sid : string) (cfg : AccessConfig) : prog (res (list ConfigChange)) :=
  let* _ := ValidSSID (acSSID cfg) in
  let* _ := (if nonempty (acPassword cfg) then ValidWiFiPassword (acPassword cfg) else Ok tt) in
  let* enc := encryptionAsked (acSecurity cfg) in
  let! c := readConfig m in
  match networkOf c sid with
  | None => Ret (Err (errNoNetwork sid))
  | Some n =>
      let first := wnFirst n in
      if negb (nonempty (get (options first) "key")) && negb (nonempty (acPassword cfg)) && nonempty enc
      then Ret (Refuse "password" (Errorf "openwrt: a protected network needs a password" [])) else
      let fields := accessFields first cfg enc in
      let! _ := setAccess (accessWrites n fields) in
      Ret (Ok (accessRow first <$> fields))
  end.
