(* ===== verification/WiFiGuest.v ===== *)
(** * The guest network, read: internal/adapters/openwrt/wifi_guest.go

    What the configuration files hold of it, whose it is, whether guests get IPv6,
    a free network for them, and everything that would let them out of it.

    [rng] is the order in which Go ranges over a map, any order; [before a b] says
    that strconv.ParseFloat reads less in [a] than in [b], whatever it makes of
    words that are no numbers. *)

From S2P Require Import Prelude GoStrings GoNet Effects Network Uci Firewall Stage Lan Routes Devices DeviceSources WiFi.

Definition GuestNone := "none".
Definition GuestOn := "on".
Definition GuestOff := "off".
Definition GuestForeign := "foreign".
Definition GuestBlockedSharedZone := "shared-zone".
Definition GuestBlockedOpenRule := "open-rule".
Definition GuestBlockedGuestRule := "guest-rule".
Definition GuestBlockedNoUplink := "no-uplink".
Definition GuestBlockedNoNAT := "no-nat".
Definition GuestBlockedSplitUplink := "split-uplink".
Definition GuestBlockedNoDHCP := "no-dhcp".
Definition GuestBlockedWeakened := "weakened".
Definition GuestBlockedUnchecked := "unchecked".

Definition guestDevSection := "guest_dev".
Definition guestPrefix := "guest_".
Definition guestZone := "guest".
Definition guestAssign : Z := 64.
Definition netifdWirelessScript := "/lib/netifd/netifd-wireless.sh".

Definition guestRules : list string :=
  ["guest_wan"; "guest_dhcp"; "guest_dns"; "guest_icmpv6"; "guest_dhcpv6"; "guest_no_private4"; "guest_no_private6"].

Definition privateV4 : list string := ["10.0.0.0/8"; "172.16.0.0/12"; "192.168.0.0/16"; "100.64.0.0/10"; "169.254.0.0/16"].
Definition privateV6 : list string := ["fc00::/7"].

Record guestRuleSpec := mkRuleSpec {
  gsID : string; gsName : string; gsOpts : list (string * string); gsLists : list (string * list string) }.

Definition guestRuleSpecs (wan : string) : list guestRuleSpec :=
  let src := ("src", guestZone) in
  [mkRuleSpec "guest_dhcp" "Guest DHCP" [src; ("proto", "udp"); ("dest_port", "67-68"); ("target", "ACCEPT")] [];
   mkRuleSpec "guest_dns" "Guest DNS" [src; ("proto", "tcp udp"); ("dest_port", "53"); ("target", "ACCEPT")] [];
   mkRuleSpec "guest_icmpv6" "Guest ICMPv6" [src; ("proto", "icmp"); ("family", "ipv6"); ("target", "ACCEPT")]
     [("icmp_type", ["router-solicitation"; "neighbour-solicitation"; "neighbour-advertisement"])];
   mkRuleSpec "guest_dhcpv6" "Guest DHCPv6"
     [src; ("proto", "udp"); ("family", "ipv6"); ("dest_port", "547"); ("target", "ACCEPT")] [];
   mkRuleSpec "guest_no_private4" "Guest no private IPv4"
     [src; ("dest", wan); ("family", "ipv4"); ("proto", "all"); ("target", "REJECT")] [("dest_ip", privateV4)];
   mkRuleSpec "guest_no_private6" "Guest no private IPv6"
     [src; ("dest", wan); ("family", "ipv6"); ("proto", "all"); ("target", "REJECT")] [("dest_ip", privateV6)]].

(** The options a rule of the recipe has, lists as one value. *)
Definition wanted (r : guestRuleSpec) : gmap string string :=
  fold_left (fun m l => <[l.1 := Join " " l.2]> m) (gsLists r)
    (fold_left (fun m o => <[o.1 := o.2]> m) (gsOpts r) ∅).

(** Options that say nothing: the name, and that the rule is on. *)
Definition idle (o : string * string) : bool :=
  String.eqb o.1 "name" || (String.eqb o.1 "enabled" && String.eqb o.2 "1").

Definition matches (r : guestRuleSpec) (s : uciSection) : bool :=
  let said := filter (fun o => idle o = false) (map_to_list (options s)) in
  String.eqb (kind s) "rule" &&
  forallb (fun o => bool_decide (wanted r !! o.1 = Some o.2)) said &&
  bool_decide (length said = size (wanted r)).

Definition isGuestSection (config section : string) : bool :=
  contains ["network"; "wireless"; "dhcp"; "firewall"] config &&
  (String.eqb section guestSection || HasPrefix guestPrefix section).

(** ** Whose guest network it is *)

Record guestShape := mkShape {
  gsOurs : bool; gsForeign : bool; gsIfaces : list uciSection; gsOwned : list uciSection; gsStray : list uciSection }.

Definition noSection : uciSection := mkSection "" "" ∅.
(** [byID[sid]]: the last section of the name, or Go's zero value. *)
Definition byID (l : list uciSection) (sid : string) : option uciSection := find_last (fun s => String.eqb (id s) sid) l.

Definition onGuest (s : uciSection) : bool := contains (Fields (get (options s) "network")) guestSection.

Definition otherOnGuestBridge (s : uciSection) : bool :=
  String.eqb (kind s) "interface" && negb (String.eqb (id s) guestSection) &&
  (String.eqb (get (options s) "device") guestBridge || contains (Fields (get (options s) "ifname")) guestBridge).

Definition isGuestZone (s : uciSection) : bool :=
  String.eqb (kind s) "zone" && String.eqb (get (options s) "name") guestZone.
Definition namedForGuests (s : uciSection) : bool := String.eqb (id s) guestSection || contains guestRules (id s).
Definition isGuestIface (s : uciSection) : bool :=
  String.eqb (kind s) "wifi-iface" && String.eqb (get (options s) "network") guestSection.

(** Only the panel's access points are left of it. *)
Definition orphaned (firewall wireless dhcp : list uciSection) : bool :=
  let named := filter (fun s => HasPrefix guestPrefix (id s) = true) wireless in
  negb (bool_decide (named = [])) && forallb isGuestIface named &&
  negb (existsb (fun s => namedForGuests s || isGuestZone s) firewall) &&
  negb (existsb (fun s => String.eqb (id s) guestSection) dhcp).

Definition readGuestShape (network firewall wireless dhcp : list uciSection) : guestShape :=
  let dev := default noSection (byID network guestDevSection) in
  let iface := default noSection (byID network guestSection) in
  let made := String.eqb (kind dev) "device" && String.eqb (get (options dev) "name") guestBridge &&
              String.eqb (kind iface) "interface" && String.eqb (get (options iface) "device") guestBridge in
  let gone := String.eqb (kind dev) "" && String.eqb (kind iface) "" in
  if made || (gone && orphaned firewall wireless dhcp) then
    let ifaces := filter (fun s => String.eqb (kind s) "wifi-iface" = true) wireless in
    let owned := filter (fun s => HasPrefix guestPrefix (id s) = true) ifaces in
    mkShape true false (filter (fun s => String.eqb (get (options s) "network") guestSection = true) owned) owned
      (filter (fun s => negb (HasPrefix guestPrefix (id s)) && onGuest s = true) ifaces)
  else
    mkShape false
      (negb (String.eqb (kind iface) "") || negb (String.eqb (kind dev) "") ||
       existsb namedForGuests firewall || existsb (fun s => String.eqb (id s) guestSection) dhcp ||
       existsb (fun s => HasPrefix guestPrefix (id s) || (String.eqb (kind s) "wifi-iface" && onGuest s)) wireless ||
       existsb (fun s => (String.eqb (kind s) "device" && String.eqb (get (options s) "name") guestBridge) ||
                         otherOnGuestBridge s) network ||
       existsb isGuestZone firewall)
      [] [] [].

Definition shapeEnabled (ifaces : list uciSection) : bool := anyEnabled ifaces.

(** ** In the words of the apply bar *)

Section Words.
Context (before : string -> string -> bool).

Definition bandsOf (ifaces radios : list uciSection) : list string :=
  fold_left (fun bands s =>
    let b := match byID radios (get (options s) "device") with Some r => bandWord (get (options r) "band") | None => "" end in
    if nonempty b && negb (contains bands b) then bands ++ [b] else bands) ifaces [].

(** At most twelve bands: sort.Slice inserts them one by one, and is stable. *)
Definition guestWords (g : guestShape) (radios : list uciSection) : string :=
  if negb (gsOurs g) then "" else
  match gsIfaces g with
  | [] => "off||" +:+ match gsOwned g with s :: _ => get (options s) "ssid" | [] => "" end
  | first :: _ =>
      (if shapeEnabled (gsIfaces g) then "on" else "off") +:+ "|" +:+
      Join "," (sort_by (fun a b => negb (before b a)) (bandsOf (gsIfaces g) radios)) +:+ "|" +:+
      get (options first) "ssid"
  end.
End Words.

Definition guestRow (from to : string) : ConfigChange :=
  let said := describe "wireless" roleGuest "" in
  mkChange (pWords said) (pKey said) from to true ("network." +:+ guestSection) "".

Definition lanAssignRow (from to : string) : ConfigChange :=
  let said := describe "network" roleLAN "ip6assign" in
  mkChange (pWords said) (pKey said) from to (dangerousConfig "network")
    ("network." +:+ lanSection +:+ ".ip6assign") "".

(** ** IPv6 *)

(** How many /64s a prefix holds, as far as it matters. *)
Definition capacity (mask : Z) : Z :=
  if ((mask <=? 0) || (guestAssign <? mask))%Z then 0%Z else Z.shiftl 1 (guestAssign - Z.max mask (guestAssign - 16)).

Definition lastOption (p : uciSection -> bool) (l : list uciSection) (option : string) : string :=
  match find_last p l with Some s => get (options s) option | None => "" end.

Definition lanAssignOf (network : list uciSection) : string :=
  lastOption (fun s => String.eqb (id s) lanSection) network "ip6assign".

Definition othersTake (network : list uciSection) : Z :=
  fold_left (fun n s =>
    if String.eqb (kind s) "interface" && negb (String.eqb (id s) lanSection) && negb (String.eqb (id s) guestSection)
    then match Atoi (get (options s) "ip6assign") with
         | Some a => if ((0 <? a) && (a <=? guestAssign))%Z then (n + capacity a)%Z else n
         | None => n
         end
    else n) network 0%Z.

(** Whether guests get IPv6, and whether the home network is renumbered. *)
Definition guestIPv6 (network : list uciSection) (prefixes : list Address) : bool * bool :=
  let ula := lastOption (fun s => String.eqb (kind s) "globals") network "ula_prefix" in
  let assign := AtoiValue (lanAssignOf network) in
  let home := if ((0 <? assign) && (assign <=? guestAssign))%Z then capacity assign else 0%Z in
  let others := othersTake network in
  let renumber := ((0 <? assign) && (assign <? guestAssign))%Z &&
                  negb (existsb (fun p => (home + others <? capacity (MaskOf p))%Z) prefixes) in
  let taken := ((if renumber then 1 else home) + others)%Z in
  let masks := (MaskOf <$> prefixes) ++ match ParseCIDR ula with Some (_, n) => [NetOnes n] | None => [] end in
  if existsb (fun mask => (taken <? capacity mask)%Z) masks then (true, renumber) else (false, false).

Definition delegatedPrefixes (ifaces : list BusInterface) : list Address := mjoin (M:=list) (BIPv6Prefix <$> ifaces).

(** ** A free network *)

Definition minLocalBits : Z := 8.

Definition kernelTaken (p : Prefix) : list IPNet :=
  match PAddr (Masked p) with
  | Addr4 v => if (minLocalBits <=? PBits p)%Z then [mkIPNet (to16 (Addr4 v)) (PBits p) 32] else []
  | _ => []
  end.

Definition addressTaken (addr : string) (mask : Z) : list IPNet :=
  match ParseCIDR (addr +:+ "/" +:+ Itoa mask) with
  | Some (_, n) => match To4 (NetIP n) with Some _ => [n] | None => [] end
  | None => []
  end.

Definition busTaken (i : BusInterface) : list IPNet :=
  mjoin (M:=list) ((fun a => addressTaken (AddressOf a) (MaskOf a)) <$> BIPv4Address i) ++
  mjoin (M:=list) ((fun r => if (minLocalBits <=? RMask r)%Z then addressTaken (RTarget r) (RMask r) else []) <$> BRoute i).

Definition takenNetworks (ifaces : list BusInterface) (kernel : list Prefix) : list IPNet :=
  mjoin (M:=list) (kernelTaken <$> kernel) ++ mjoin (M:=list) (busTaken <$> ifaces).

Definition isFree (taken : list IPNet) (cidr : string) : bool :=
  match ParseCIDR cidr with
  | Some (_, c) => negb (existsb (fun t => NetContains t (NetIP c) || NetContains c (NetIP t)) taken)
  | None => false
  end.

Definition guestCandidates : list string :=
  ((fun i => "192.168." +:+ Itoa (Z.of_nat i) +:+ ".0/24") <$> seq 3 252) ++
  ((fun i => "10." +:+ Itoa (Z.of_nat i) +:+ ".0.0/24") <$> seq 3 252).

Definition freeGuestSubnet (ifaces : list BusInterface) (kernel : list Prefix) : res string :=
  match find_first (isFree (takenNetworks ifaces kernel)) guestCandidates with
  | Some cidr => Ok cidr
  | None => Err (Errorf "openwrt: no free private network for guests" [])
  end.
