(* ===== verification/GuestIsolation.v ===== *)
(** * What keeps guests apart: internal/adapters/openwrt/wifi_guest.go

    Where the uplink is, what stands in the way of a guest network, and whether
    the one there is still has every protection it was made with. *)

From S2P Require Import Prelude GoStrings GoNet Effects Network Uci Firewall Stage Lan Routes Devices DeviceSources WiFi WiFiGuest.

(** What a guest edit or the screen needs, read at once. *)
Record guestState := mkGuestState {
  stCfg : wifiConfig; stNetwork : list uciSection; stFirewall : list uciSection; stDhcp : list uciSection;
  stShape : guestShape; stIfaces : list BusInterface; stIfacesErr : option err }.

Definition isZone (s : uciSection) : bool := String.eqb (kind s) "zone".
Definition networksOf (s : uciSection) : list string := Fields (get (options s) "network").
Definition nameOf (s : uciSection) : string := firstNonEmpty [get (options s) "name"; id s].

(** ** The uplink *)

Definition isUplink (i : BusInterface) : bool :=
  negb (has loopbackNames (BName i)) &&
  (bool_decide (is_Some (DefaultRoute i)) || bool_decide (is_Some (DefaultRoute6 i))).

Definition named (n : string) : NetworkInterface := mkInterface n "" false "" 0 [] [] "" "" [].

Definition pickUplink (ifaces : list BusInterface) : string :=
  match filter (fun i => isUplink i = true) ifaces with
  | [] => ""
  | [i] => BName i
  | (i :: _) as cands =>
      match pickByName ((fun i => named (BName i)) <$> cands) with Some c => Name c | None => BName i end
  end.

Definition uplinkZone (firewall : list uciSection) (ifaces : list BusInterface) : string * list string :=
  let uplink := pickUplink ifaces in
  let zones := filter (fun s => isZone s = true) firewall in
  if nonempty uplink then
    match find_first (fun s => contains (networksOf s) uplink) zones with
    | Some s => (get (options s) "name", networksOf s)
    | None => ("", [])
    end
  else
    match find_first (fun s => String.eqb (get (options s) "name") "wan") zones with
    | Some s => ("wan", networksOf s)
    | None => ("", [])
    end.

Definition dhcpv6Client (s : uciSection) : bool :=
  String.eqb (kind s) "interface" && String.eqb (get (options s) "proto") "dhcpv6".

(** The interface with an IPv6 default route, else the first DHCPv6 client. *)
Definition ipv6UplinkName (st : guestState) : string :=
  let name := match find_first (fun i => bool_decide (is_Some (DefaultRoute6 i))) (stIfaces st) with
              | Some i => BName i | None => "" end in
  if nonempty name then name
  else match find_first dhcpv6Client (stNetwork st) with Some s => id s | None => "" end.

Definition ipv6UplinkZone (st : guestState) : string :=
  let name := ipv6UplinkName st in
  if negb (nonempty name) then "" else
  match find_first (fun s => isZone s && contains (networksOf s) name) (stFirewall st) with
  | Some s => get (options s) "name"
  | None => ""
  end.

(** What a search says of the section it found: "" when it found none. *)
Definition said {A} (f : A -> string) (o : option A) : string := match o with Some a => f a | None => "" end.

(** ** Zones that would take the guests *)

(** One entry of a zone's [device] list names the device, or matches it. *)
Definition bindsDevice (dev d : string) : bool :=
  let d := TrimPrefix "!" d in
  let pat := TrimSuffix "+" (TrimSuffix "*" d) in
  String.eqb d dev || (negb (String.eqb pat d) && HasPrefix pat dev).
Definition zoneBindsDevice (zone : uciSection) (dev : string) : bool :=
  existsb (bindsDevice dev) (Fields (get (options zone) "device")).

Definition lanBridge (network : list uciSection) : string :=
  match find_last (fun s => String.eqb (id s) lanSection && nonempty (get (options s) "device")) network with
  | Some s => get (options s) "device"
  | None => "br-lan"
  end.

Definition zoneHoldsHome (firewall network : list uciSection) (zoneName : string) : bool :=
  existsb (fun s => isZone s && String.eqb (get (options s) "name") zoneName &&
                    (contains (networksOf s) lanSection || zoneBindsDevice s (lanBridge network))) firewall.

Definition zoneTakingGuests (firewall : list uciSection) : string :=
  said nameOf (find_first (fun s => isZone s && negb (String.eqb (id s) guestSection) &&
                                  (contains (networksOf s) guestSection || zoneBindsDevice s guestBridge)) firewall).

(** A prefix, or an address as the prefix of itself. *)
Definition parseRange (v : string) : option Prefix :=
  match ParsePrefix v with
  | Some p => Some p
  | None => (fun a => PrefixFrom a (BitLen a)) <$> ParseAddr v
  end.

Definition subnetsOf (zone : uciSection) : list string := Fields (get (options zone) "subnet").

Definition hazardous (v : string) : bool :=
  HasPrefix "!" v ||
  match parseRange (TrimPrefix "!" v) with
  | Some p => negb (PrefixIsValid p) || negb (Is4 (PAddr p)) || (PBits p <? minLocalBits)%Z
  | None => true
  end.

Definition otherZone (s : uciSection) : bool := isZone s && negb (String.eqb (id s) guestSection).

Definition subnetHazard (firewall : list uciSection) : string :=
  said nameOf (find_first (fun s => otherZone s && existsb hazardous (subnetsOf s)) firewall).

Definition zonePrefixes (s : uciSection) : list Prefix :=
  omap (fun v => if HasPrefix "!" v then None else Masked <$> parseRange v) (subnetsOf s).

Definition zoneSubnets (firewall : list uciSection) : gmap string (list Prefix) :=
  fold_left (fun m s =>
    match zonePrefixes s with
    | [] => m
    | ps => <[nameOf s := default [] (m !! nameOf s) ++ ps]> m
    end) (filter (fun s => otherZone s = true) firewall) ∅.

(** ** Networks of the configuration *)

Definition configuredPrefix (addr mask : string) : list Prefix :=
  match ParsePrefix addr with
  | Some p => [Masked p]
  | None =>
      match ParseAddr addr with
      | Some (Addr4 v) =>
          let bits := match ParseIP4 mask with Some m => default 0%Z (MaskSize m) | None => 32%Z end in
          [Masked (PrefixFrom (Addr4 v) bits)]
      | _ => []
      end
  end.

Definition configuredPrefixes (network : list uciSection) : list Prefix :=
  mjoin (M:=list) ((fun s =>
    if String.eqb (kind s) "interface"
    then mjoin (M:=list) ((fun a => configuredPrefix a (get (options s) "netmask")) <$> Fields (get (options s) "ipaddr"))
    else if String.eqb (kind s) "route" then configuredPrefix (get (options s) "target") (get (options s) "netmask")
    else []) <$> network).

Definition guestOpt4 (network : list uciSection) (key : string) : string :=
  match find_first (fun s => String.eqb (id s) guestSection) network with
  | Some s => get (options s) key
  | None => ""
  end.

Definition guestPrefixes (network : list uciSection) : list Prefix :=
  configuredPrefixes [mkSection "" "interface"
    (<["ipaddr" := guestOpt4 network "ipaddr"]>
       {["netmask" := firstNonEmpty [guestOpt4 network "netmask"; "255.255.255.0"]]})].

(** [netip.Prefix.Overlaps]. *)
Definition Overlaps (p o : Prefix) : bool :=
  PrefixIsValid p && PrefixIsValid o &&
  (let bits := Z.min (PBits p) (PBits o) in
   match PAddr p, PAddr o with
   | Addr4 a, Addr4 b => (network_part 32 bits a =? network_part 32 bits b)%Z
   | Addr6 a _, Addr6 b _ => (network_part 128 bits a =? network_part 128 bits b)%Z
   | _, _ => false
   end).

(** ** Sections that let guests somewhere *)

Definition off (s : uciSection) : bool := String.eqb (get (options s) "enabled") "0".
Definition accepting (s : uciSection) : bool :=
  let t := get (options s) "target" in String.eqb t "" || EqualFold t "ACCEPT".

Definition opening (wan : string) (skip : list string) (s : uciSection) : bool :=
  negb (contains skip (id s)) && String.eqb (get (options s) "src") guestZone && negb (off s) &&
  ((String.eqb (kind s) "rule" && accepting s) || String.eqb (kind s) "redirect" ||
   (String.eqb (kind s) "forwarding" && negb (String.eqb (get (options s) "dest") wan))).

(** A port forward that reflects into the guests' zone, or goes there. *)
Definition reflecting (s : uciSection) : bool :=
  String.eqb (kind s) "redirect" && negb (off s) &&
  ((negb (String.eqb (get (options s) "reflection") "0") && contains (Fields (get (options s) "reflection_zone")) guestZone) ||
   String.eqb (get (options s) "dest") guestZone).

Definition guestOpenings (firewall : list uciSection) (wan : string) (skip : list string) : string :=
  match find_first (opening wan skip) firewall with
  | Some s => nameOf s
  | None => said nameOf (find_first reflecting firewall)
  end.

(** From every zone: before the guests' own rules. *)
Definition fromEverywhere (s : uciSection) : bool :=
  String.eqb (get (options s) "src") "*" && negb (off s) &&
  ((String.eqb (kind s) "rule" && accepting s) || String.eqb (kind s) "forwarding" || String.eqb (kind s) "redirect").

Definition dhcpSkip (s : uciSection) : option string :=
  if negb (String.eqb (kind s) "dnsmasq") then None else
  let only := Fields (get (options s) "interface") in
  let skip := Fields (get (options s) "notinterface") in
  if negb (bool_decide (only = [])) && negb (contains only guestSection) && negb (contains only guestBridge)
  then Some (get (options s) "interface")
  else if contains skip guestSection || contains skip guestBridge then Some (get (options s) "notinterface") else None.

Definition dhcpSkipsGuests (dhcp : list uciSection) : string := default "" (head (omap dhcpSkip dhcp)).

(** ** The protections *)

Definition closed (v : string) : bool := EqualFold v "REJECT" || EqualFold v "DROP".

Section Isolation.
Context (rng : forall A : Type, gmap string A -> list (string * A)).

Definition zoneKeys : list string := ["name"; "network"; "input"; "output"; "forward"].

(** Checks one after another: the first that says something. *)
Fixpoint firstSaid (checks : list string) : string :=
  match checks with [] => "" | c :: checks => if nonempty c then c else firstSaid checks end.

Definition about (before name after : string) : string := if nonempty name then before +:+ name +:+ after else "".

Definition zoneWeakened (zone : option uciSection) : string :=
  let at_ k := "firewall." +:+ guestSection +:+ k in
  match zone with
  | None => at_ ""
  | Some zone =>
      if negb (isZone zone) then at_ "" else
      if negb (closed (get (options zone) "input")) then at_ ".input" else
      if negb (closed (get (options zone) "forward")) then at_ ".forward" else
      if negb (String.eqb (get (options zone) "name") guestZone) || negb (String.eqb (get (options zone) "network") guestSection)
      then at_ ".network" else
      said (fun o => at_ ("." +:+ o.1)) (find_first (fun o => negb (contains zoneKeys o.1)) (rng _ (options zone)))
  end.

Definition bridgeOptions : gmap string string := list_to_map [("name", guestBridge); ("type", "bridge"); ("bridge_empty", "1")].

Definition bridgeWeakened (s : uciSection) : string :=
  said (fun o => "network." +:+ guestDevSection +:+ "." +:+ o.1)
    (find_first (fun o => negb (bool_decide (bridgeOptions !! o.1 = Some o.2))) (rng _ (options s))).

Definition bridgesWeakened (network : list uciSection) : string :=
  firstSaid (bridgeWeakened <$> filter (fun s => String.eqb (id s) guestDevSection = true) network).

Definition deviceBound (zone : uciSection) : string :=
  if nonempty (get (options zone) "device") || nonempty (get (options zone) "subnet")
  then "firewall." +:+ guestSection +:+ ".device" else "".

Definition sharedBridge (network : list uciSection) : string :=
  said (fun s => "network." +:+ id s) (find_first otherOnGuestBridge network).

(** A zone whose range holds a part of the guests' network. *)
Definition subnetTaken (st : guestState) : string :=
  match guestPrefixes (stNetwork st) with
  | [gp] =>
      said (fun z => "firewall." +:+ z.1 +:+ ".subnet")
        (find_first (fun z => existsb (fun p => Overlaps p gp) z.2) (rng _ (zoneSubnets (stFirewall st))))
  | _ => ""
  end.

Definition wayOut (st : guestState) : string :=
  match byID (stFirewall st) "guest_wan" with
  | None => "firewall.guest_wan"
  | Some fwd =>
      if negb (String.eqb (kind fwd) "forwarding") || negb (String.eqb (get (options fwd) "src") guestZone) || off fwd
      then "firewall.guest_wan"
      else if negb (String.eqb (get (options fwd) "dest") (uplinkZone (stFirewall st) (stIfaces st)).1)
      then "firewall.guest_wan.dest" else ""
  end.

Definition ruleWeakened (firewall : list uciSection) (r : guestRuleSpec) : bool :=
  match byID firewall (gsID r) with Some s => negb (matches r s) | None => true end.

Definition rulesWeakened (st : guestState) (wan : string) : string :=
  said (fun r => "firewall." +:+ gsID r) (find_first (ruleWeakened (stFirewall st)) (guestRuleSpecs wan)).

Definition pointWeakened (s : uciSection) : string :=
  if negb (String.eqb (get (options s) "isolate") "1") then "wireless." +:+ id s +:+ ".isolate" else
  if negb (String.eqb (get (options s) "bridge_isolate") "1") then "wireless." +:+ id s +:+ ".bridge_isolate" else "".

Definition pointsWeakened (g : guestShape) : string :=
  firstSaid
    (said (fun s => "wireless." +:+ id s +:+ ".network")
       (find_first (fun s => negb (String.eqb (get (options s) "network") guestSection)) (gsOwned g)) ::
     said (fun s => "wireless." +:+ firstNonEmpty [get (options s) "ssid"; id s]) (head (gsStray g)) ::
     (pointWeakened <$> gsIfaces g)).

Definition guestWeakened (st : guestState) : string :=
  let zone := byID (stFirewall st) guestSection in
  let wan := (uplinkZone (stFirewall st) (stIfaces st)).1 in
  firstSaid
    [zoneWeakened zone; bridgesWeakened (stNetwork st); deviceBound (default noSection zone);
     sharedBridge (stNetwork st); about "firewall." (subnetHazard (stFirewall st)) ".subnet"; subnetTaken st; wayOut st;
     about "firewall." (zoneTakingGuests (stFirewall st)) ""; rulesWeakened st wan;
     about "firewall." (guestOpenings (stFirewall st) wan (gsID <$> guestRuleSpecs wan)) ""; pointsWeakened (stShape st)].

(** ** Why there can be no guest network *)

(** A zone that does not masquerade every source. *)
Definition noNAT (zone : string) (s : uciSection) : bool :=
  isZone s && String.eqb (get (options s) "name") zone &&
  (negb (String.eqb (get (options s) "masq") "1") || nonempty (get (options s) "masq_src") || nonempty (get (options s) "masq_dest")).

(** The kind of the obstacle and what it is; [None] when nothing stands in the way. *)
Definition guestBlocker (st : guestState) : option (string * string) :=
  let '(zone, nets) := uplinkZone (stFirewall st) (stIfaces st) in
  if negb (nonempty zone) then Some (GuestBlockedNoUplink, "") else
  if contains nets lanSection || zoneHoldsHome (stFirewall st) (stNetwork st) zone then Some (GuestBlockedSharedZone, zone) else
  if existsb (noNAT zone) (stFirewall st) then Some (GuestBlockedNoNAT, zone) else
  let z6 := ipv6UplinkZone st in
  if nonempty z6 && negb (String.eqb z6 zone) then Some (GuestBlockedSplitUplink, z6) else
  match find_first fromEverywhere (stFirewall st) with
  | Some s => Some (GuestBlockedOpenRule, nameOf s)
  | None =>
      let list := dhcpSkipsGuests (stDhcp st) in
      if nonempty list then Some (GuestBlockedNoDHCP, list) else
      let '(kind, by_) :=
        if gsOurs (stShape st) then (GuestBlockedWeakened, guestWeakened st)
        else (GuestBlockedGuestRule, firstSaid [guestOpenings (stFirewall st) zone [];
                zoneTakingGuests (stFirewall st); subnetHazard (stFirewall st)]) in
      if nonempty by_ then Some (kind, by_) else None
  end.
End Isolation.
