(* ===== verification/GuestWrite.v ===== *)
(** * The guest network, made and removed: internal/adapters/openwrt/wifi_guest.go

    Reading everything a guest edit needs, the requests that make, switch and
    remove the guest network, what they take back when they fail, and the guest
    network in the draft.

    [rng] is the order in which Go ranges over a map, any order; [before] orders
    two bands as strconv.ParseFloat reads them. *)

From S2P Require Import Prelude GoStrings GoNet Effects Network Uci Firewall Stage Lan Routes Devices DeviceSources.
From S2P Require Import WiFi WiFiGuest GuestIsolation.

(** ** Reading *)

Definition showConfig (config : string) : prog (res string) := exec_cmd ["uci"; "-q"; "show"; config].

Definition readShow (config : string) : prog (res (list uciSection)) :=
  out <- showConfig config ;;
  Ret (match out with
       | Ok out => Ok (parseUCISections out)
       | Err e => Err (Wrapf ("openwrt: read " +:+ config +:+ ": %w") [] e)
       end).

Definition guestStateFor (m : wifiManager) (cfg : wifiConfig) : prog (res guestState) :=
  nw <- showConfig "network" ;;
  match nw with
  | Err e => Ret (Err (Wrapf "openwrt: read network: %w" [] e))
  | Ok nw =>
      let! fw := readShow "firewall" in
      let! dh := readShow "dhcp" in
      let network := parseUCISections nw in
      let shape := readGuestShape network fw (wcAll cfg) dh in
      if negb (wmBus m) then Ret (Ok (mkGuestState cfg network fw dh shape [] (Some ErrNotImplemented))) else
      ifaces <- ask BusInterfaces ;;
      Ret (Ok (match ifaces with
               | Ok l => mkGuestState cfg network fw dh shape l None
               | Err e => mkGuestState cfg network fw dh shape [] (Some e)
               end))
  end.

Definition readGuestState (m : wifiManager) : prog (res guestState) :=
  let! cfg := readConfig m in guestStateFor m cfg.

Definition readCommitted (m : wifiManager) (config : string) : prog (res (list uciSection)) :=
  out <- withCommitted (wmNet m) config (fun dir alias => exec_cmd ["uci"; "-q"; "-c"; dir; "show"; alias]) ;;
  Ret (match out with Ok out => Ok (parseUCISections out) | Err e => Err e end).

(** [m.readFile] is os.ReadFile. *)
Definition guestSupported (cfg : wifiConfig) : prog bool :=
  match wcRadios cfg with
  | [] => Ret false
  | _ =>
      b <- ask (ReadFile netifdWirelessScript) ;;
      Ret (match b with Ok b => Contains "bridge_isolate" b | Err _ => false end)
  end.

Section Committed.
Context (rng : forall A : Type, gmap string A -> list (string * A)).

(** The files of the three configurations, in Go's order of the map. *)
Fixpoint readEach (m : wifiManager) (configs : list string) (acc : gmap string (list uciSection))
    : prog (res (gmap string (list uciSection))) :=
  match configs with
  | [] => Ret (Ok acc)
  | c :: configs => let! l := readCommitted m c in readEach m configs (<[c := l]> acc)
  end.

Definition guestStateCommitted (m : wifiManager) (ifaces : list BusInterface) : prog (res guestState) :=
  let! all := readCommitted m "wireless" in
  let configs : gmap string unit := list_to_map [("network", tt); ("firewall", tt); ("dhcp", tt)] in
  let! files := readEach m (rng unit configs).*1 ∅ in
  let file c := default [] (files !! c) in
  match file "firewall" with
  | [] => Ret (Err (Errorf "openwrt: no committed firewall configuration read" []))
  | _ => Ret (Ok (mkGuestState (splitWireless all) (file "network") (file "firewall") (file "dhcp")
                    (readGuestShape (file "network") (file "firewall") all (file "dhcp")) ifaces None))
  end.
End Committed.

(** ** Taking back *)

Fixpoint discardEach (seen : list string) (keys : list string) : prog (list err) :=
  match keys with
  | [] => Ret []
  | k :: keys =>
      if contains seen k then discardEach seen keys else
      r <- revertKey k ;;
      errs <- discardEach (k :: seen) keys ;;
      Ret (errs_of r ++ errs)
  end.

(** The cause, with the errors of taking the keys back. *)
Definition discard (cause : err) (keys : list string) : prog err :=
  errs <- discardEach [] keys ;; Ret (joined cause errs).

Definition sectionOf (key : string) : string :=
  match Split "." key with a :: b :: _ => a +:+ "." +:+ b | _ => key end.

(** One write after another; when one fails, [touched] is taken back. *)
Fixpoint setAll (touched : list string) (sets : list (string * string)) : prog (res unit) :=
  match sets with
  | [] => Ret (Ok tt)
  | (key, value) :: sets =>
      r <- uciSet key value ;;
      match r with
      | Err e => e <- discard e touched ;; Ret (Err e)
      | Ok _ => setAll touched sets
      end
  end.

Fixpoint addLists (touched : list string) (lists : list (string * string)) : prog (res unit) :=
  match lists with
  | [] => Ret (Ok tt)
  | (key, value) :: lists =>
      r <- exec_cmd ["uci"; "add_list"; key +:+ "=" +:+ value] ;;
      match r with
      | Err e => e <- discard (Wrapf "openwrt: stage %s: %w" [key] e) touched ;; Ret (Err e)
      | Ok _ => addLists touched lists
      end
  end.

(** ** Making it *)

Record GuestConfig := mkGuestConfig { gcSSID : string; gcPassword : string; gcSecurity : string; gcRadios : list string }.

Definition sixGHz (r : uciSection) : bool := String.eqb (bandWord (get (options r) "band")) "6".

(** The radios asked for, each once; when none is, every radio but 6 GHz. *)
Definition guestRadios (cfg : wifiConfig) (asked : list string) : list string :=
  match fold_left (fun ids rid => if contains ids rid then ids else ids ++ [rid]) asked [] with
  | [] => id <$> filter (fun r => sixGHz r = false) (wcRadios cfg)
  | ids => ids
  end.

Fixpoint checkRadios (cfg : wifiConfig) (ids : list string) : res unit :=
  match ids with
  | [] => Ok tt
  | rid :: ids =>
      match radioOf cfg rid with
      | None => Refuse "radios" (Errorf "openwrt: no radio %q on this device" [rid])
      | Some r =>
          if sixGHz r
          then Refuse "radios" (Errorf "openwrt: 6 GHz allows WPA3 only, which a guest network here does not offer (D-104)" [])
          else if negb (sectionNameRe rid)
          then Refuse "radios" (Errorf "openwrt: radio %q has no name in the configuration; name it (radio0, for example) to put a guest network on it" [rid])
          else checkRadios cfg ids
      end
  end.

Definition prefixed (section : string) (opts : list (string * string)) : list (string * string) :=
  (fun o => (section +:+ "." +:+ o.1, o.2)) <$> opts.

(** A section of a type, with its options. *)
Definition newSection (section type_ : string) (opts : list (string * string)) : list (string * string) :=
  (section, type_) :: prefixed section opts.

Definition lanAssignKey : string := "network." +:+ lanSection +:+ ".ip6assign".

Definition pointSets (cfg : GuestConfig) (enc rid : string) : list (string * string) :=
  newSection ("wireless." +:+ guestPrefix +:+ rid) "wifi-iface"
    [("device", rid); ("mode", "ap"); ("network", guestSection); ("ssid", gcSSID cfg); ("encryption", enc);
     ("key", gcPassword cfg); ("isolate", "1"); ("bridge_isolate", "1")].

Definition networkSets (address : string) (renumber : bool) : list (string * string) :=
  newSection ("network." +:+ guestDevSection) "device" [("name", guestBridge); ("type", "bridge"); ("bridge_empty", "1")] ++
  newSection ("network." +:+ guestSection) "interface"
    [("device", guestBridge); ("proto", "static"); ("ipaddr", address); ("netmask", "255.255.255.0");
     ("ip6assign", Itoa guestAssign)] ++
  (if renumber then [(lanAssignKey, Itoa guestAssign)] else []).

Definition dhcpSets : list (string * string) :=
  newSection ("dhcp." +:+ guestSection) "dhcp"
    [("interface", guestSection); ("start", "100"); ("limit", "150"); ("leasetime", "2h"); ("dhcpv4", "server");
     ("dhcpv6", "server"); ("ra", "server"); ("ra_slaac", "1")].

Definition zoneSets (wan : string) : list (string * string) :=
  newSection ("firewall." +:+ guestSection) "zone"
    [("name", guestZone); ("network", guestSection); ("input", "REJECT"); ("output", "ACCEPT"); ("forward", "REJECT")] ++
  newSection "firewall.guest_wan" "forwarding" [("src", guestZone); ("dest", wan)].

Definition ruleSets (r : guestRuleSpec) : list (string * string) :=
  newSection ("firewall." +:+ gsID r) "rule" (("name", gsName r) :: gsOpts r).

Definition guestSets (cfg : GuestConfig) (enc address wan : string) (radios : list string) (renumber : bool)
    : list (string * string) :=
  networkSets address renumber ++ mjoin (M:=list) (pointSets cfg enc <$> radios) ++ dhcpSets ++ zoneSets wan ++
  mjoin (M:=list) (ruleSets <$> guestRuleSpecs wan).

Definition ruleLists (r : guestRuleSpec) : list (string * string) :=
  mjoin (M:=list) ((fun l : string * list string =>
    (fun v => ("firewall." +:+ gsID r +:+ "." +:+ l.1, v)) <$> l.2) <$> gsLists r).
Definition guestLists (wan : string) : list (string * string) := mjoin (M:=list) (ruleLists <$> guestRuleSpecs wan).

(** What a failure takes back: every section written, and the home network's option. *)
Definition touchedBy (sets : list (string * string)) : list string :=
  (fun s => if String.eqb s.1 lanAssignKey then s.1 else sectionOf s.1) <$> sets.

(** The first address of the subnet: [ip[3] = 1]. *)
Definition routerAddress (subnet : string) : string :=
  match ParseCIDR subnet with
  | Some (ip, _) => string4 (Z.lor (Z.shiftl (Z.shiftr (default 0%Z (To4 ip)) 8) 8) 1)
  | None => ""
  end.

(** The access points as the row words them. *)
Definition madeShape (ssid : string) (radios : list string) : guestShape :=
  let points := (fun rid => mkSection (guestPrefix +:+ rid) "wifi-iface"
    (list_to_map [("device", rid); ("network", guestSection); ("ssid", ssid)])) <$> radios in
  mkShape true false points [] [].

Section Write.
Context (rng : forall A : Type, gmap string A -> list (string * A)) (before : string -> string -> bool).

(** Every network that is taken without the bus knowing of it. *)
Definition takenElsewhere (st : guestState) (kernel : list kernelRoute) : list Prefix :=
  (kPrefix <$> kernel) ++ mjoin (M:=list) (snd <$> rng _ (zoneSubnets (stFirewall st))) ++ configuredPrefixes (stNetwork st).

(** What is refused before anything is written. *)
Definition guestChecks (st : guestState) (radios : list string) : res unit :=
  match radios with
  | [] => Refuse "radios" (Errorf "openwrt: this device has no radio a guest network can use (6 GHz allows WPA3 only, D-104)" [])
  | _ =>
      let? _ := checkRadios (stCfg st) radios in
      match stIfacesErr st with
      | Some e => Err (Wrapf "openwrt: the router's networks could not be read, so a free one for guests cannot be chosen: %w" [] e)
      | None =>
          match guestBlocker rng st with
          | Some (kind, by_) => Err (Wrapf "%w: %s %q" [kind; by_] ErrGuestBlocked)
          | None => Ok tt
          end
      end
  end.

Definition writeGuest (cfg : GuestConfig) (enc : string) (st : guestState) (radios : list string) (subnet : string)
    : prog (res (list ConfigChange)) :=
  let wan := (uplinkZone (stFirewall st) (stIfaces st)).1 in
  let renumber := (guestIPv6 (stNetwork st) (delegatedPrefixes (stIfaces st))).2 in
  let sets := guestSets cfg enc (routerAddress subnet) wan radios renumber in
  let touched := touchedBy sets in
  let! _ := setAll touched sets in
  let! _ := addLists touched (guestLists wan) in
  Ret (Ok (guestRow "" (guestWords before (madeShape (gcSSID cfg) radios) (wcRadios (stCfg st))) ::
           (if renumber then [lanAssignRow (lanAssignOf (stNetwork st)) (Itoa guestAssign)] else []))).

Definition StageGuest (m : wifiManager) (cfg : GuestConfig) : prog (res (list ConfigChange)) :=
  let* _ := ValidSSID (gcSSID cfg) in
  let* _ := ValidWiFiPassword (gcPassword cfg) in
  let enc := encryptionFor (if nonempty (gcSecurity cfg) then gcSecurity cfg else WiFiWPA2WPA3) in
  if negb (nonempty enc) then Ret (Refuse "security" (Errorf "openwrt: %q is not offered (D-104)" [gcSecurity cfg])) else
  let! st := readGuestState m in
  supported <- guestSupported (stCfg st) ;;
  if negb supported then Ret (Err ErrNotImplemented) else
  if gsOurs (stShape st) || gsForeign (stShape st) then Ret (Err ErrGuestExists) else
  let radios := guestRadios (stCfg st) (gcRadios cfg) in
  let* _ := guestChecks st radios in
  kernel <- kernelRoutes ;;
  let* subnet := freeGuestSubnet (stIfaces st) (takenElsewhere st kernel) in
  writeGuest cfg enc st radios subnet.

(** ** Turning it off and on *)

Definition attached (s : uciSection) : bool := String.eqb (get (options s) "network") guestSection.

(** The value an access point's [disabled] is to have, where it changes. *)
Definition flipTo (enabled : bool) (s : uciSection) : option string :=
  if enabled && negb (switchedOn s) && attached s then Some ""
  else if negb enabled && switchedOn s then Some "1" else None.

Definition disabledKey (s : uciSection) : string := "wireless." +:+ id s +:+ ".disabled".

Fixpoint flipAll (enabled : bool) (touched : list string) (points : list uciSection) : prog (res unit) :=
  match points with
  | [] => Ret (Ok tt)
  | s :: points =>
      match flipTo enabled s with
      | None => flipAll enabled touched points
      | Some value =>
          let touched := touched ++ [disabledKey s] in
          r <- (if nonempty value then uciSet (disabledKey s) value else uciDelete (disabledKey s)) ;;
          match r with
          | Err e => e <- discard e touched ;; Ret (Err e)
          | Ok _ => flipAll enabled touched points
          end
      end
  end.

Definition flipped (enabled : bool) (s : uciSection) : uciSection :=
  mkSection (id s) (kind s) (if enabled then delete "disabled" (options s) else <["disabled" := "1"]> (options s)).

Definition flipRow (enabled : bool) (s : uciSection) : option ConfigChange :=
  (fun to =>
     let said := describe "wireless" roleWiFiNet "disabled" in
     mkChange (pWords said) (pKey said) (get (options s) "disabled") to (dangerousConfig "wireless") (disabledKey s) "")
  <$> flipTo enabled s.

Definition StageGuestEnabled (m : wifiManager) (enabled : bool) : prog (res (list ConfigChange)) :=
  let! st := readGuestState m in
  let owned := gsOwned (stShape st) in
  if negb (gsOurs (stShape st)) || bool_decide (owned = []) then Ret (Err ErrNoGuest) else
  let! _ := flipAll enabled [] owned in
  let was := guestWords before (stShape st) (wcRadios (stCfg st)) in
  let after := mkShape true (gsForeign (stShape st)) (flipped enabled <$> filter (fun s => attached s = true) owned)
                 owned (gsStray (stShape st)) in
  let to := guestWords before after (wcRadios (stCfg st)) in
  Ret (Ok (if String.eqb to was then omap (flipRow enabled) owned else [guestRow was to])).

(** ** Removing it *)

Definition removalKeys (st : guestState) : list string :=
  ((fun s => "wireless." +:+ id s) <$> gsOwned (stShape st)) ++
  ((fun sid => "network." +:+ sid) <$>
     filter (fun sid => existsb (fun s => String.eqb (id s) sid) (stNetwork st) = true) [guestSection; guestDevSection]) ++
  ((fun _ => "dhcp." +:+ guestSection) <$> filter (fun s => id s = guestSection) (stDhcp st)) ++
  ((fun sid => "firewall." +:+ sid) <$>
     filter (fun sid => existsb (fun s => String.eqb (id s) sid) (stFirewall st) = true) (guestSection :: guestRules)).

Fixpoint deleteAllKeys (done_ : list string) (keys : list string) : prog (res unit) :=
  match keys with
  | [] => Ret (Ok tt)
  | k :: keys =>
      let done_ := done_ ++ [k] in
      r <- uciDelete k ;;
      match r with
      | Err e => e <- discard e done_ ;; Ret (Err e)
      | Ok _ => deleteAllKeys done_ keys
      end
  end.

Definition StageGuestRemove (m : wifiManager) : prog (res (list ConfigChange)) :=
  let! st := readGuestState m in
  if negb (gsOurs (stShape st)) then Ret (Err ErrNoGuest) else
  let! _ := deleteAllKeys [] (removalKeys st) in
  Ret (Ok [guestRow (guestWords before (stShape st) (wcRadios (stCfg st))) ""]).
End Write.
