(* ===== verification/GuestThms.v ===== *)
(** * The guest network: a free network for it

    Two networks of netip and net share an address only where one holds the
    other's first, which is what the search for a free network looks at. *)

From Stdlib Require Import ZArith Lia.
From S2P Require Import Prelude GoStrings GoNet Effects Network Uci Firewall Stage Lan Routes Devices DeviceSources.
From S2P Require Import WiFi WiFiGuest GuestIsolation GuestWrite.

(** ** Networks that share an address *)

Lemma network_part_testbit w o v i : (0 <= i)%Z ->
  Z.testbit (network_part w o v) i = (w - o <=? i)%Z && Z.testbit v i.
Proof.
  intros Hi. unfold network_part. rewrite Z.shiftl_spec by done.
  destruct (Z.leb_spec (w - o) i) as [H|H]; [|by rewrite Z.testbit_neg_r by lia].
  rewrite Z.shiftr_spec by lia. cbn [andb]. f_equal. lia.
Qed.

(** Two addresses have the same network where they agree above its mask. *)
Lemma network_part_eq w o a b :
  network_part w o a = network_part w o b <->
  forall i, (0 <= i)%Z -> (w - o <= i)%Z -> Z.testbit a i = Z.testbit b i.
Proof.
  split.
  - intros H i Hi Hw. pose proof (f_equal (fun z => Z.testbit z i) H) as E. cbn beta in E.
    rewrite !network_part_testbit in E by done. by rewrite (proj2 (Z.leb_le _ _) Hw) in E.
  - intros H. apply Z.bits_inj'. intros i Hi. rewrite !network_part_testbit by done.
    destruct (Z.leb_spec (w - o) i); [|done]. by rewrite H.
Qed.

(** An address in both networks lies in the narrower one; the wider holds it whole. *)
Lemma network_part_meet w o1 o2 a b x :
  network_part w o1 a = network_part w o1 x -> network_part w o2 b = network_part w o2 x ->
  network_part w (Z.min o1 o2) a = network_part w (Z.min o1 o2) b.
Proof.
  rewrite !network_part_eq. intros H1 H2 i Hi Hm. etrans; [apply H1; lia|]. symmetry. apply H2; lia.
Qed.

Lemma net_meet t c x :
  NetContains t x = true -> NetContains c x = true -> is_Some (To4 (NetIP c)) ->
  NetContains t (NetIP c) || NetContains c (NetIP t) = true.
Proof.
  unfold NetContains. intros Ht Hc [b Hb]. rewrite Hb in *.
  destruct (To4 x) as [v|]; [|done]. destruct (To4 (NetIP t)) as [a|]; [|done].
  apply Z.eqb_eq in Ht, Hc. pose proof (network_part_meet _ _ _ _ _ _ Ht Hc) as H.
  rewrite orb_true_iff, !Z.eqb_eq.
  destruct (Z.min_spec (net_ones4 t) (net_ones4 c)) as [[_ E]|[_ E]]; rewrite E in H; [by left|by right].
Qed.

Lemma net_holds_itself n : is_Some (To4 (NetIP n)) -> NetContains n (NetIP n) = true.
Proof. unfold NetContains. intros [v ->]. apply Z.eqb_refl. Qed.

Lemma net_holds_v4 n x : is_Some (To4 (NetIP n)) -> NetContains n x = true -> is_Some (To4 x).
Proof. unfold NetContains. intros [v ->]. by destruct (To4 x). Qed.

(** [p.Overlaps(o)] of two IPv4 prefixes is that. *)
Lemma Overlaps_v4 p o a b : PAddr p = Addr4 a -> PAddr o = Addr4 b ->
  PrefixIsValid p = true -> PrefixIsValid o = true ->
  Overlaps p o = (network_part 32 (Z.min (PBits p) (PBits o)) a =? network_part 32 (Z.min (PBits p) (PBits o)) b)%Z.
Proof. intros Ha Hb Hp Ho. unfold Overlaps. by rewrite Hp, Ho, Ha, Hb. Qed.

(** ** The candidates *)

(** A candidate is a /24 of a private network, and its router the first
    address after the network's. *)
Definition candidate_ok (cidr : string) : bool :=
  match ParseCIDR cidr with
  | Some (ip, n) =>
      (NetIP n =? ip)%Z && (NetOnes n =? 24)%Z && (NetBits n =? 32)%Z && bool_decide (is_Some (To4 ip)) &&
      match ParseIP (routerAddress cidr) with
      | Some router => NetContains n router && negb (router =? ip)%Z
      | None => false
      end &&
      existsb (fun p => match ParseCIDR p with Some (_, private) => NetContains private ip | None => false end) privateV4
  | None => false
  end.

Lemma candidates_ok : forallb candidate_ok guestCandidates = true.
Proof. vm_compute. reflexivity. Qed.

Lemma candidate_spec cidr : cidr ∈ guestCandidates ->
  exists n router, ParseCIDR cidr = Some (NetIP n, n) /\ NetOnes n = 24%Z /\ NetBits n = 32%Z /\ is_Some (To4 (NetIP n)) /\
    ParseIP (routerAddress cidr) = Some router /\ NetContains n router = true /\ router <> NetIP n /\
    exists p ip private, p ∈ privateV4 /\ ParseCIDR p = Some (ip, private) /\ NetContains private (NetIP n) = true.
Proof.
  intros Hin. pose proof candidates_ok as H. rewrite forallb_forall in H.
  specialize (H cidr (proj1 (list_elem_of_In _ _) Hin)). unfold candidate_ok in H.
  destruct (ParseCIDR cidr) as [[ip n]|]; [|done].
  destruct (ParseIP (routerAddress cidr)) as [router|]; [|by rewrite andb_false_r in H].
  rewrite !andb_true_iff, !Z.eqb_eq, negb_true_iff, Z.eqb_neq, bool_decide_eq_true, existsb_exists in H.
  destruct H as [[[[[<- Ho] Hb] H4] [Hr Hne]] (p & Hp & Hc)].
  exists n, router. repeat (split; [done|]). apply list_elem_of_In in Hp.
  destruct (ParseCIDR p) as [[q private]|] eqn:E; [|done]. by exists p, q, private.
Qed.

(** The guest network is free: [freeGuestSubnet] answers with a private /24
    that has no address in common with any network that is taken, and refuses
    only when every network it may choose has one; the router's address in it
    is not the network's own. *)
Theorem guest_subnet_is_free ifaces kernel :
  match freeGuestSubnet ifaces kernel with
  | Ok cidr =>
      exists n router, ParseCIDR cidr = Some (NetIP n, n) /\ NetOnes n = 24%Z /\
        (exists p ip private, p ∈ privateV4 /\ ParseCIDR p = Some (ip, private) /\ NetContains private (NetIP n) = true) /\
        ParseIP (routerAddress cidr) = Some router /\ NetContains n router = true /\ router <> NetIP n /\
        forall t x, t ∈ takenNetworks ifaces kernel -> NetContains t x = true -> NetContains n x = false
  | Err _ =>
      forall cidr ip n, cidr ∈ guestCandidates -> ParseCIDR cidr = Some (ip, n) ->
        exists t x, t ∈ takenNetworks ifaces kernel /\ NetContains t x = true /\ NetContains n x = true
  end.
Proof.
  unfold freeGuestSubnet. destruct (find_first _ _) as [cidr|] eqn:E.
  - apply find_first_Some in E as [Hin Hfree].
    destruct (candidate_spec cidr Hin) as (n & router & Hn & Ho & _ & H4 & Hr & Hc & Hne & Hp).
    exists n, router. repeat (split; [done|]). intros t x Ht Hx. unfold isFree in Hfree. rewrite Hn in Hfree.
    destruct (NetContains n x) eqn:Hnx; [|done].
    apply negb_true_iff, not_true_iff_false in Hfree. destruct Hfree. apply existsb_exists. exists t.
    split; [by apply list_elem_of_In|]. by apply (net_meet t n x).
  - intros cidr ip n Hin Hn. apply find_first_None in E. rewrite Forall_forall in E. pose proof (E cidr Hin) as Hbusy.
    destruct (candidate_spec cidr Hin) as (n' & _ & Hn' & _ & _ & H4 & _). rewrite Hn in Hn'. simplify_eq.
    unfold isFree in Hbusy. rewrite Hn in Hbusy. apply negb_false_iff, existsb_exists in Hbusy as (t & Ht & Hx).
    apply list_elem_of_In in Ht. apply orb_true_iff in Hx as [Hx|Hx].
    + exists t, (NetIP n'). by split_and!; [..|apply net_holds_itself].
    + exists t, (NetIP t). split_and!; [done| |done]. by eapply net_holds_itself, net_holds_v4.
Qed.
