(* ===== verification/GuestIsolated.v ===== *)
(** * What "nothing stands in the way" means

    guestBlocker and guestWeakened of internal/adapters/openwrt/wifi_guest.go
    answer with the first trouble they find. Their silence is read here against
    what the firewall lets a connection of a guest do. *)

From S2P Require Import Prelude GoStrings GoNet Effects Network Uci Firewall Stage Lan Routes Devices DeviceSources.
From S2P Require Import WiFi WiFiGuest GuestIsolation.

(** ** Checks that say nothing *)

Lemma nonempty_false s : nonempty s = false <-> s = "".
Proof. by destruct s. Qed.

Lemma nonempty_append_l a b : nonempty a = true -> nonempty (a +:+ b) = true.
Proof. by destruct a. Qed.

Lemma firstSaid_quiet checks : firstSaid checks = "" <-> Forall (fun c => c = "") checks.
Proof.
  induction checks as [|c checks IH]; cbn [firstSaid]; [by split; [constructor|]|].
  rewrite Forall_cons. destruct (nonempty c) eqn:E; [|apply nonempty_false in E; naive_solver].
  destruct c; naive_solver.
Qed.

Lemma about_quiet before name after : about before name after = "" -> before <> "" -> name = "".
Proof. unfold about. destruct (nonempty name) eqn:E; [|by apply nonempty_false in E]. by destruct before. Qed.

(** A search whose answer is never "" found nothing. *)
Lemma said_quiet {A} (f : A -> string) p l :
  said f (find_first p l) = "" -> (forall x, x ∈ l -> f x <> "") -> forall x, x ∈ l -> p x = false.
Proof.
  unfold said. destruct (find_first p l) as [y|] eqn:E; intros H Hf x Hx.
  - apply find_first_Some in E as [Hy _]. by destruct (Hf y Hy).
  - apply find_first_None in E. rewrite Forall_forall in E. by apply E.
Qed.

Lemma nameOf_said s : nonempty (id s) = true -> nameOf s <> "".
Proof.
  intros H. unfold nameOf, firstNonEmpty. cbn [find_first]. destruct (nonempty (get (options s) "name")) eqn:E.
  - cbn. by destruct (get (options s) "name").
  - rewrite H. cbn. by destruct (id s).
Qed.

(** ** What a connection of a guest may do *)

(** A connection that comes from the guests' zone: where it goes - another zone,
    or with [None] the router itself - and which sections' other conditions
    (ports, addresses, times) it meets. *)
Record connection := mkConnection { cnTo : option string; cnMeets : uciSection -> bool }.

Definition named_zone (zone option : string) : bool := String.eqb option zone || String.eqb option "*".

(** A rule's destination: none is the router, [*] is every zone. *)
Definition rule_reaches (s : uciSection) (c : connection) : bool :=
  match cnTo c with
  | None => negb (nonempty (get (options s) "dest"))
  | Some z => nonempty (get (options s) "dest") && named_zone z (get (options s) "dest")
  end.

(** The section accepts the connection: an accepting rule, a forwarding, or a
    port forward, from the guests' zone or from every zone. *)
Definition accepts (s : uciSection) (c : connection) : bool :=
  negb (off s) && named_zone guestZone (get (options s) "src") &&
  ((String.eqb (kind s) "rule" && accepting s && rule_reaches s c && cnMeets c s) ||
   (String.eqb (kind s) "forwarding" && match cnTo c with Some z => named_zone z (get (options s) "dest") | None => false end) ||
   (String.eqb (kind s) "redirect" && cnMeets c s)).

(** The zone takes guests: their interface, their bridge, or a range with
    addresses of their network. *)
Definition takes_guests (network : list uciSection) (s : uciSection) : bool :=
  isZone s &&
  (contains (networksOf s) guestSection || zoneBindsDevice s guestBridge ||
   match guestPrefixes network with
   | [gp] => existsb (fun p => Overlaps p gp) (zonePrefixes s)
   | _ => false
   end).

(** ... and its policy lets them in, or on. *)
Definition policy_open (s : uciSection) (c : connection) : bool :=
  negb (closed (get (options s) (match cnTo c with None => "input" | Some _ => "forward" end))).

Definition permitted (st : guestState) (c : connection) : bool :=
  existsb (fun s => accepts s c || (takes_guests (stNetwork st) s && policy_open s c)) (stFirewall st).

(** The services of the recipe: a section of its name, that is that rule. *)
Definition recipe_rule (wan : string) (s : uciSection) : Prop :=
  exists r, r ∈ guestRuleSpecs wan /\ id s = gsID r /\ matches r s = true.

Record isolated (st : guestState) : Prop := mkIsolated {
  (* Whatever is permitted goes to the uplink's zone by a forwarding, or is one
     of the router's services. *)
  iso_ways : forall c, permitted st c = true ->
    match cnTo c with
    | Some z => z = (uplinkZone (stFirewall st) (stIfaces st)).1
    | None => exists s, s ∈ stFirewall st /\ accepts s c = true /\
                recipe_rule (uplinkZone (stFirewall st) (stIfaces st)).1 s
    end;
  (* The home network is not there. *)
  iso_home : forall s, s ∈ stFirewall st -> isZone s = true ->
    get (options s) "name" = (uplinkZone (stFirewall st) (stIfaces st)).1 ->
    contains (networksOf s) lanSection = false /\ zoneBindsDevice s (lanBridge (stNetwork st)) = false;
  (* The refusals of private addresses are there. *)
  iso_private : forall r, r ∈ guestRuleSpecs (uplinkZone (stFirewall st) (stIfaces st)).1 ->
    exists s, s ∈ stFirewall st /\ id s = gsID r /\ matches r s = true;
  (* Nobody is redirected to the guests, or reflected at them. *)
  iso_in : forall s, s ∈ stFirewall st -> reflecting s = false;
  (* No other interface is on their bridge. *)
  iso_bridge : forall s, s ∈ stNetwork st -> otherOnGuestBridge s = false;
  (* Every access point on their network is the panel's own, and keeps its
     clients apart. *)
  iso_points : forall s, s ∈ wcAll (stCfg st) -> kind s = "wifi-iface" -> onGuest s = true ->
    HasPrefix guestPrefix (id s) = true /\
    get (options s) "isolate" = "1" /\ get (options s) "bridge_isolate" = "1" }.

(** ** What the recipe says of a rule that matches it *)

Lemma matches_options r s k :
  matches r s = true -> idle (k, get (options s) k) = false -> options s !! k = wanted r !! k.
Proof.
  unfold matches. set (said := filter _ _). rewrite !andb_true_iff, forallb_elem, bool_decide_eq_true.
  intros [[_ Hin] Hlen] Hidle.
  assert (said ≡ₚ map_to_list (wanted r)) as Hp.
  { apply submseteq_length_Permutation; [|by rewrite Hlen, length_map_to_list].
    apply NoDup_submseteq; [apply NoDup_filter, NoDup_map_to_list|].
    intros [k' v] Hkv. apply elem_of_map_to_list. specialize (Hin _ Hkv). by apply bool_decide_eq_true in Hin. }
  apply option_eq. intros v. rewrite <- !elem_of_map_to_list, <- Hp. unfold said.
  rewrite list_elem_of_filter, elem_of_map_to_list. split; [|naive_solver]. intros Hv. split; [|done].
  unfold get in Hidle. by rewrite Hv in Hidle.
Qed.

Lemma matches_kind r s : matches r s = true -> kind s = "rule".
Proof. unfold matches. rewrite !andb_true_iff, String.eqb_eq. tauto. Qed.

Lemma matches_get r s k : matches r s = true -> k <> "name" -> k <> "enabled" -> get (options s) k = get (wanted r) k.
Proof.
  intros Hm Hn He. unfold get. rewrite (matches_options r s k Hm); [done|]. unfold idle. cbn.
  by rewrite (proj2 (String.eqb_neq _ _) Hn), (proj2 (String.eqb_neq _ _) He).
Qed.

(** An accepting rule of the recipe is for the router. *)
Lemma recipe_accepts wan r s c :
  r ∈ guestRuleSpecs wan -> matches r s = true -> accepting s = true -> rule_reaches s c = true -> cnTo c = None.
Proof.
  intros Hr Hm Ha Hc. unfold accepting, rule_reaches in *.
  rewrite (matches_get r s "target" Hm) in Ha by done. rewrite (matches_get r s "dest" Hm) in Hc by done.
  unfold guestRuleSpecs in Hr. rewrite !elem_of_cons in Hr.
  destruct Hr as [-> |[-> |[-> |[-> |[-> |[-> |Hr]]]]]]; [..|by apply not_elem_of_nil in Hr];
    destruct (cnTo c); vm_compute in Ha; done.
Qed.

(** ** The sections by name *)

Lemma byID_unique l s : NoDup (id <$> l) -> s ∈ l -> byID l (id s) = Some s.
Proof.
  unfold byID. induction l as [|t l IH] using rev_ind; [by intros _ ?%not_elem_of_nil|].
  rewrite find_last_snoc, fmap_app, NoDup_app, elem_of_app, list_elem_of_singleton.
  intros (Hnd & Hd & _) [Hs| ->]; [|by rewrite String.eqb_refl].
  destruct (String.eqb_spec (id t) (id s)) as [E|]; [|by apply IH].
  destruct (Hd (id s)); [by apply list_elem_of_fmap_2|]. rewrite <- E. left.
Qed.

Lemma byID_Some l sid s : byID l sid = Some s -> s ∈ l /\ id s = sid.
Proof. intros [Hs E]%find_last_Some. by apply String.eqb_eq in E. Qed.

(** Each zone's ranges are among those of its name. *)
Lemma zoneSubnets_fold s p l (m : gmap string (list Prefix)) :
  (exists ps, m !! nameOf s = Some ps /\ p ∈ ps) \/ (s ∈ l /\ p ∈ zonePrefixes s) ->
  exists ps, fold_left (fun m s => match zonePrefixes s with
    | [] => m | ps => <[nameOf s := default [] (m !! nameOf s) ++ ps]> m end) l m !! nameOf s = Some ps /\ p ∈ ps.
Proof.
  revert m. induction l as [|t l IH]; intros m H; cbn [fold_left].
  { destruct H as [H|[H _]]; [done|]. by apply not_elem_of_nil in H. }
  apply IH. destruct H as [(ps & Hps & Hp)|[[<- |Hs]%elem_of_cons Hp]]; [left| |by right].
  - destruct (zonePrefixes t) as [|q qs] eqn:E; [by exists ps|].
    destruct (decide (nameOf t = nameOf s)) as [En|En].
    + rewrite En, lookup_insert_eq, Hps. eexists. split; [done|]. cbn. apply elem_of_app. by left.
    + rewrite lookup_insert_ne by done. by exists ps.
  - left. destruct (zonePrefixes s) as [|q qs] eqn:E; [by apply not_elem_of_nil in Hp|].
    rewrite lookup_insert_eq. eexists. split; [done|]. apply elem_of_app. by right.
Qed.

Lemma zoneSubnets_holds fw s p :
  s ∈ fw -> otherZone s = true -> p ∈ zonePrefixes s -> exists ps, zoneSubnets fw !! nameOf s = Some ps /\ p ∈ ps.
Proof. intros. apply zoneSubnets_fold. right. split; [|done]. by apply list_elem_of_filter. Qed.

(** ** Silence means isolation *)

(** What holds of every configuration the router has read: sections are told
    apart by their names, and no zone is called as the word for every zone. *)
Record well_read (st : guestState) : Prop := mkWellRead {
  wr_named : forall s, s ∈ stFirewall st -> nonempty (id s) = true;
  wr_once : NoDup (id <$> stFirewall st);
  wr_zones : (uplinkZone (stFirewall st) (stIfaces st)).1 <> "*";
  wr_shape : stShape st = readGuestShape (stNetwork st) (stFirewall st) (wcAll (stCfg st)) (stDhcp st) }.

Section Silence.
Context (rng : forall A : Type, gmap string A -> list (string * A)) `{!MapOrder rng}.
Context (st : guestState) (Hwr : well_read st).

Abbreviation wan := ((uplinkZone (stFirewall st) (stIfaces st)).1).

Lemma unblocked_checks : gsOurs (stShape st) = true -> guestBlocker rng st = None ->
  nonempty wan = true /\ zoneHoldsHome (stFirewall st) (stNetwork st) wan = false /\
  find_first fromEverywhere (stFirewall st) = None /\ guestWeakened rng st = "".
Proof.
  intros Ho. unfold guestBlocker. rewrite Ho. destruct (uplinkZone _ _) as [zone nets]. cbn [fst].
  destruct (nonempty zone); [cbn [negb]|done]. destruct (contains nets lanSection); [done|]. cbn [orb].
  destruct (zoneHoldsHome _ _ _); [done|]. destruct (existsb _ _); [done|]. destruct (nonempty _ && _); [done|].
  destruct (find_first _ _); [done|]. destruct (nonempty (dhcpSkipsGuests _)); [done|].
  destruct (nonempty (guestWeakened rng st)) eqn:E; [done|]. by apply nonempty_false in E.
Qed.

Context (Hours : gsOurs (stShape st) = true) (Hfree : guestBlocker rng st = None).

Lemma checks_quiet :
  zoneWeakened rng (byID (stFirewall st) guestSection) = "" /\ sharedBridge (stNetwork st) = "" /\
  subnetTaken rng st = "" /\ zoneTakingGuests (stFirewall st) = "" /\ rulesWeakened st wan = "" /\
  guestOpenings (stFirewall st) wan (gsID <$> guestRuleSpecs wan) = "" /\ pointsWeakened (stShape st) = "".
Proof.
  destruct (unblocked_checks Hours Hfree) as (_ & _ & _ & H). unfold guestWeakened in H.
  apply firstSaid_quiet in H. rewrite !Forall_cons in H.
  destruct H as (H1 & _ & _ & H2 & _ & H3 & _ & H4 & H5 & H6 & H7 & _).
  apply about_quiet in H4; [|done]. apply about_quiet in H6; [|done]. done.
Qed.

Lemma rules_match r : r ∈ guestRuleSpecs wan ->
  exists s, s ∈ stFirewall st /\ id s = gsID r /\ matches r s = true.
Proof.
  intros Hr. destruct checks_quiet as (_ & _ & _ & _ & H & _). unfold rulesWeakened in H.
  pose proof (said_quiet _ _ _ H (fun _ _ => ltac:(done)) r Hr) as Hq. unfold ruleWeakened in Hq.
  destruct (byID _ _) as [s|] eqn:E; [|done]. apply byID_Some in E as [Hs Hid]. apply negb_false_iff in Hq. eauto.
Qed.

Lemma no_opening s : s ∈ stFirewall st ->
  opening wan (gsID <$> guestRuleSpecs wan) s = false /\ reflecting s = false.
Proof.
  intros Hs. destruct checks_quiet as (_ & _ & _ & _ & _ & H & _). unfold guestOpenings in H.
  destruct (find_first (opening _ _) _) as [t|] eqn:E.
  { apply find_first_Some in E as [Ht _]. by destruct (nameOf_said t (wr_named _ Hwr t Ht)). }
  apply find_first_None in E. rewrite Forall_forall in E. split; [by apply E|].
  eapply (said_quiet nameOf); [exact H| |done]. intros t Ht. by apply nameOf_said, Hwr.
Qed.

Lemma accepted_ways s c : s ∈ stFirewall st -> accepts s c = true ->
  match cnTo c with Some z => z = wan | None => recipe_rule wan s end.
Proof.
  intros Hs Ha. pose proof Ha as Ha'. unfold accepts in Ha. rewrite !andb_true_iff, negb_true_iff in Ha.
  destruct Ha as [[Hoff Hsrc] Hkind]. unfold named_zone in Hsrc. rewrite orb_true_iff, !String.eqb_eq in Hsrc.
  assert (exists b, (String.eqb (kind s) "rule" && accepting s) || String.eqb (kind s) "forwarding" ||
    String.eqb (kind s) "redirect" = b) as [[|] Hopen] by eauto; cycle 1.
  { rewrite !orb_false_iff, andb_false_iff in Hopen. destruct Hopen as [[Hr Hf] Hd]. rewrite Hf, Hd in Hkind.
    by destruct Hr as [Hr|Hr]; rewrite Hr in Hkind; rewrite ?andb_false_r in Hkind. }
  destruct Hsrc as [Hsrc|Hsrc]; cycle 1.
  { destruct (unblocked_checks Hours Hfree) as (_ & _ & H & _). apply find_first_None in H.
    rewrite Forall_forall in H. specialize (H s Hs). unfold fromEverywhere in H.
    by rewrite Hsrc, Hoff, Hopen in H. }
  destruct (no_opening s Hs) as [Hno _]. unfold opening in Hno. rewrite Hsrc, Hoff in Hno.
  destruct (contains (gsID <$> guestRuleSpecs wan) (id s)) eqn:Hskip.
  - apply contains_true, list_elem_of_fmap in Hskip as (r & Hid & Hr).
    destruct (rules_match r Hr) as (t & Ht & Htid & Hm).
    assert (t = s) as ->.
    { pose proof (byID_unique _ _ (wr_once _ Hwr) Ht) as E. rewrite Htid, <- Hid, (byID_unique _ _ (wr_once _ Hwr) Hs) in E.
      by simplify_eq. }
    rewrite (matches_kind r s Hm), !orb_false_r, !andb_true_iff in Hkind. destruct Hkind as [[[_ Hacc] Hto] _].
    rewrite (recipe_accepts wan r s c Hr Hm Hacc Hto). by exists r.
  - cbn in Hno. rewrite !orb_false_iff, !andb_false_iff in Hno. destruct Hno as [[Hr Hd] Hf].
    rewrite Hd in Hkind. cbn [andb] in Hkind. rewrite orb_false_r, orb_true_iff in Hkind. destruct Hkind as [Hk|Hk].
    + rewrite !andb_true_iff in Hk. destruct Hk as [[[? ?] _] _]. by destruct Hr as [Hr|Hr]; rewrite Hr in *.
    + apply andb_true_iff in Hk as [Hk Hto]. destruct Hf as [Hf|Hf]; [by rewrite Hk in Hf|].
      apply negb_false_iff, String.eqb_eq in Hf. destruct (cnTo c) as [z|]; [|done]. unfold named_zone in Hto.
      rewrite Hf, orb_true_iff, !String.eqb_eq in Hto. destruct Hto as [->|Hw]; [done|]. by destruct (wr_zones _ Hwr).
Qed.

(** A zone that takes guests is theirs, and lets nothing in or on. *)
Lemma zone_closed s c : s ∈ stFirewall st -> takes_guests (stNetwork st) s = true -> policy_open s c = false.
Proof.
  intros Hs Ht. unfold takes_guests in Ht. apply andb_true_iff in Ht as [Hz Ht].
  destruct checks_quiet as (Hzone & _ & Hsub & Hnet & _).
  destruct (decide (id s = guestSection)) as [Hid|Hid].
  - rewrite <- Hid, (byID_unique _ _ (wr_once _ Hwr) Hs) in Hzone. unfold zoneWeakened in Hzone.
    rewrite Hz in Hzone. unfold policy_open. destruct (closed (get (options s) "input")) eqn:Hi; [|done].
    destruct (closed (get (options s) "forward")) eqn:Hf; [|done]. by destruct (cnTo c); rewrite ?Hi, ?Hf.
  - exfalso. apply (proj2 (String.eqb_neq _ _)) in Hid.
    assert (forall x, x ∈ stFirewall st -> nameOf x <> "") as Hnames by (intros; by apply nameOf_said, Hwr).
    pose proof (said_quiet _ _ _ Hnet Hnames s Hs) as Hq. cbn beta in Hq. rewrite Hz, Hid in Hq. cbn [andb negb] in Hq.
    rewrite Hq in Ht. cbn [orb] in Ht. unfold subnetTaken in Hsub.
    destruct (guestPrefixes (stNetwork st)) as [|gp [|? ?]]; [done| |done].
    apply existsb_elem in Ht as (p & Hp & Ho).
    assert (otherZone s = true) as Hother by (unfold otherZone; by rewrite Hz, Hid).
    destruct (zoneSubnets_holds _ s p Hs Hother Hp) as (ps & Hps & Hin). apply rng_elem in Hps.
    pose proof (said_quiet _ _ _ Hsub (fun _ _ => ltac:(done)) _ Hps) as Hno. cbn in Hno.
    apply not_true_iff_false in Hno. apply Hno, existsb_elem. by exists p.
Qed.

Lemma point_is_ours s : s ∈ wcAll (stCfg st) -> kind s = "wifi-iface" -> onGuest s = true ->
  HasPrefix guestPrefix (id s) = true /\ get (options s) "isolate" = "1" /\ get (options s) "bridge_isolate" = "1".
Proof.
  intros Hs Hk Hg. destruct checks_quiet as (_ & _ & _ & _ & _ & _ & H). unfold pointsWeakened in H.
  apply firstSaid_quiet in H. rewrite !Forall_cons in H. destruct H as (Howned & Hstray & Hpoints).
  assert (gsOurs (readGuestShape (stNetwork st) (stFirewall st) (wcAll (stCfg st)) (stDhcp st)) = true) as Ho
    by (by rewrite <- (wr_shape _ Hwr)).
  rewrite (wr_shape _ Hwr) in Howned, Hstray, Hpoints. unfold readGuestShape in *.
  match goal with H : context [if ?b then _ else _] |- _ => destruct b; [|done] end.
  cbn [gsOwned gsStray gsIfaces] in *.
  destruct (HasPrefix guestPrefix (id s)) eqn:Hp.
  - split; [done|].
    assert (get (options s) "network" = guestSection) as Hnet.
    { pose proof (said_quiet _ _ _ Howned (fun _ _ => ltac:(done)) s) as Hq. cbn beta in Hq.
      rewrite !list_elem_of_filter, Hk, Hp in Hq. specialize (Hq (conj eq_refl (conj eq_refl Hs))).
      by apply negb_false_iff, String.eqb_eq in Hq. }
    rewrite Forall_fmap, Forall_forall in Hpoints. specialize (Hpoints s). unfold compose in Hpoints.
    rewrite !list_elem_of_filter, Hk, Hp, Hnet in Hpoints.
    specialize (Hpoints (conj eq_refl (conj eq_refl (conj eq_refl Hs)))). unfold pointWeakened in Hpoints.
    destruct (String.eqb_spec (get (options s) "isolate") "1"); [|done].
    by destruct (String.eqb_spec (get (options s) "bridge_isolate") "1").
  - exfalso. apply elem_of_nil with (x := s). destruct (filter _ _) as [|t l] eqn:E in Hstray; [|done].
    rewrite <- E, !list_elem_of_filter, Hk, Hp, Hg. done.
Qed.

End Silence.
