(* ===== verification/GuestMade.v ===== *)
(** * The guest network as it is made passes its own examination

    What StageGuest of internal/adapters/openwrt/wifi_guest.go writes, as the
    sections it becomes, and that guestBlocker finds nothing in its way. *)

From S2P Require Import Prelude GoStrings GoNet Effects Network Uci Firewall Stage Lan LanThms Routes Devices DeviceSources.
From S2P Require Import WiFi WiFiGuest GuestIsolation GuestWrite GuestThms GuestIsolated.

(** ** The sections *)

Definition made_point (cfg : GuestConfig) (enc rid : string) : uciSection :=
  mkSection (guestPrefix +:+ rid) "wifi-iface" (list_to_map
    [("device", rid); ("mode", "ap"); ("network", guestSection); ("ssid", gcSSID cfg); ("encryption", enc);
     ("key", gcPassword cfg); ("isolate", "1"); ("bridge_isolate", "1")]).

Definition made_network (address : string) : list uciSection :=
  [mkSection guestDevSection "device" bridgeOptions;
   mkSection guestSection "interface" (list_to_map
     [("device", guestBridge); ("proto", "static"); ("ipaddr", address); ("netmask", "255.255.255.0");
      ("ip6assign", Itoa guestAssign)])].

Definition made_dhcp : uciSection :=
  mkSection guestSection "dhcp" (list_to_map
    [("interface", guestSection); ("start", "100"); ("limit", "150"); ("leasetime", "2h"); ("dhcpv4", "server");
     ("dhcpv6", "server"); ("ra", "server"); ("ra_slaac", "1")]).

Definition made_zone : uciSection :=
  mkSection guestSection "zone" (list_to_map
    [("name", guestZone); ("network", guestSection); ("input", "REJECT"); ("output", "ACCEPT"); ("forward", "REJECT")]).

Definition made_forwarding (wan : string) : uciSection :=
  mkSection "guest_wan" "forwarding" (list_to_map [("src", guestZone); ("dest", wan)]).

Definition made_rule (r : guestRuleSpec) : uciSection :=
  mkSection (gsID r) "rule" (<["name" := gsName r]> (wanted r)).

Definition made_firewall (wan : string) : list uciSection :=
  made_zone :: made_forwarding wan :: (made_rule <$> guestRuleSpecs wan).

(** The home network's prefix length, where it makes room. *)
Definition renumbered (renumber : bool) (network : list uciSection) : list uciSection :=
  if renumber
  then on_section lanSection (fun s => mkSection (id s) (kind s) (<["ip6assign" := Itoa guestAssign]> (options s))) network
  else network.

(** ** Reading them *)

Lemma find_first_app {A} (p : A -> bool) l1 l2 :
  find_first p (l1 ++ l2) = match find_first p l1 with Some x => Some x | None => find_first p l2 end.
Proof. induction l1 as [|x l1 IH]; cbn; [done|]. by destruct (p x). Qed.

Lemma find_first_none {A} (p : A -> bool) l : (forall x, x ∈ l -> p x = false) -> find_first p l = None.
Proof. intros H. by apply find_first_None, Forall_forall. Qed.

Lemma find_first_none_inv {A} (p : A -> bool) l : find_first p l = None -> forall x, x ∈ l -> p x = false.
Proof. intros H. by apply Forall_forall, find_first_None. Qed.

Lemma find_last_app {A} (p : A -> bool) l1 l2 : (forall x, x ∈ l2 -> p x = false) -> find_last p (l1 ++ l2) = find_last p l1.
Proof.
  induction l2 as [|x l2 IH] using rev_ind; intros H; [by rewrite app_nil_r|].
  rewrite app_assoc, find_last_snoc, H, IH; [done| |apply elem_of_app; right; left].
  intros y Hy. apply H, elem_of_app. by left.
Qed.

(** The last of a name among sections of which none before has it. *)
Lemma byID_new l1 l2 sid : (forall s, s ∈ l1 -> id s <> sid) -> byID (l1 ++ l2) sid = byID l2 sid.
Proof.
  intros H. unfold byID. induction l2 as [|s l2 IH] using rev_ind.
  - rewrite app_nil_r. apply find_last_None, Forall_forall. intros s Hs. apply String.eqb_neq. by apply H.
  - rewrite app_assoc, !find_last_snoc. by destruct (String.eqb _ _).
Qed.

Lemma existsb_false {A} (p : A -> bool) l : existsb p l = false <-> forall x, x ∈ l -> p x = false.
Proof.
  rewrite <- not_true_iff_false, existsb_elem. split.
  - intros H x Hx. apply not_true_iff_false. intros Hp. apply H. by exists x.
  - intros H (x & Hx & Hp). by rewrite H in Hp.
Qed.

Lemma said_none {A} (f : A -> string) p l : (forall x, x ∈ l -> p x = false) -> said f (find_first p l) = "".
Proof. intros H. by rewrite find_first_none. Qed.

Lemma recipe_keys wan r k v :
  r ∈ guestRuleSpecs wan -> wanted r !! k = Some v -> idle (k, v) = false /\ k <> "name".
Proof.
  intros Hr Hk.
  assert (bool_decide ("name" ∈ dom (wanted r)) || bool_decide ("enabled" ∈ dom (wanted r)) = false) as H.
  { unfold guestRuleSpecs in Hr. rewrite !elem_of_cons in Hr.
    destruct Hr as [-> |[-> |[-> |[-> |[-> |[-> |Hr]]]]]]; [vm_compute; reflexivity..|by apply not_elem_of_nil in Hr]. }
  apply orb_false_iff in H as [Hn He]. apply bool_decide_eq_false in Hn, He.
  assert (k <> "name") by (intros ->; apply Hn; by apply elem_of_dom_2 in Hk).
  assert (k <> "enabled") by (intros ->; apply He; by apply elem_of_dom_2 in Hk).
  split; [|done]. unfold idle. cbn.
  by rewrite (proj2 (String.eqb_neq k "name")), (proj2 (String.eqb_neq k "enabled")) by done.
Qed.

Lemma made_rule_matches wan r : r ∈ guestRuleSpecs wan -> matches r (made_rule r) = true.
Proof.
  intros Hr. unfold matches, made_rule. cbn [kind options]. rewrite String.eqb_refl. cbn [andb].
  assert (wanted r !! "name" = None) as Hnone.
  { destruct (wanted r !! "name") as [v|] eqn:E; [|done]. by destruct (recipe_keys wan r _ _ Hr E). }
  set (said := filter _ _).
  assert (said ≡ₚ map_to_list (wanted r)) as Hp.
  { unfold said. rewrite map_to_list_insert by done. rewrite filter_cons_False by done.
    rewrite filter_all; [done|]. intros [k v] Hkv%elem_of_map_to_list. by apply (recipe_keys wan r). }
  rewrite bool_decide_eq_true_2, andb_true_r by (by rewrite Hp, length_map_to_list).
  apply forallb_elem. intros [k v] Hkv. rewrite Hp in Hkv. apply elem_of_map_to_list in Hkv.
  by apply bool_decide_eq_true.
Qed.

(** ** Where there is no guest network *)

(** Nothing of a guest network is there, whoever made it, and nothing stands in
    the way of one. *)
Record clear (rng : forall A : Type, gmap string A -> list (string * A)) (st : guestState) : Prop := mkClear {
  cl_shape : stShape st = readGuestShape (stNetwork st) (stFirewall st) (wcAll (stCfg st)) (stDhcp st);
  cl_ours : gsOurs (stShape st) = false;
  cl_foreign : gsForeign (stShape st) = false;
  cl_kinds : forall s, s ∈ stNetwork st -> kind s <> "";
  cl_ids : forall s, s ∈ stFirewall st -> nonempty (id s) = true;
  cl_bus : forall i, i ∈ stIfaces st -> BName i <> guestSection;
  cl_free : guestBlocker rng st = None }.

Section Clear.
Context (rng : forall A : Type, gmap string A -> list (string * A)) `{!MapOrder rng}.
Context (st : guestState) (Hcl : clear rng st).

Abbreviation wan := ((uplinkZone (stFirewall st) (stIfaces st)).1).

Lemma nothing_there :
  (forall s, s ∈ stNetwork st -> id s <> guestSection /\ id s <> guestDevSection /\ otherOnGuestBridge s = false) /\
  (forall s, s ∈ stFirewall st -> namedForGuests s = false /\ isGuestZone s = false) /\
  (forall s, s ∈ stDhcp st -> id s <> guestSection) /\
  (forall s, s ∈ wcAll (stCfg st) -> HasPrefix guestPrefix (id s) = false /\ (kind s = "wifi-iface" -> onGuest s = false)).
Proof.
  pose proof (cl_ours _ _ Hcl) as Ho. pose proof (cl_foreign _ _ Hcl) as Hf. rewrite (cl_shape _ _ Hcl) in Ho, Hf.
  unfold readGuestShape in Ho, Hf.
  match type of Ho with context [if ?b then _ else _] => destruct b; [done|] end. cbn [gsForeign] in Hf.
  rewrite !orb_false_iff, !negb_false_iff, !existsb_false, !String.eqb_eq in Hf.
  destruct Hf as ((((((Hi & Hd) & Hfw) & Hdh) & Hw) & Hn) & Hz).
  assert (forall sid, kind (default noSection (byID (stNetwork st) sid)) = "" -> forall s, s ∈ stNetwork st -> id s <> sid) as Hno.
  { intros sid Hk s Hs E. destruct (byID (stNetwork st) sid) as [t|] eqn:Et.
    - apply byID_Some in Et as [Ht _]. by apply (cl_kinds _ _ Hcl t Ht).
    - unfold byID in Et. apply find_last_None in Et. rewrite Forall_forall in Et. specialize (Et s Hs).
      by apply String.eqb_neq in Et. }
  split_and!.
  - intros s Hs. specialize (Hn s Hs). apply orb_false_iff in Hn as [_ ?]. split_and!; [by apply Hno..|done].
  - intros s Hs. auto.
  - intros s Hs. apply String.eqb_neq. by apply Hdh.
  - intros s Hs. specialize (Hw s Hs). apply orb_false_iff in Hw as [? Hw]. split; [done|]. intros E.
    by rewrite E in Hw.
Qed.

Lemma clear_checks :
  nonempty wan = true /\ contains (uplinkZone (stFirewall st) (stIfaces st)).2 lanSection = false /\
  zoneHoldsHome (stFirewall st) (stNetwork st) wan = false /\ existsb (noNAT wan) (stFirewall st) = false /\
  (ipv6UplinkZone st = "" \/ ipv6UplinkZone st = wan) /\
  (forall s, s ∈ stFirewall st -> fromEverywhere s = false) /\ dhcpSkipsGuests (stDhcp st) = "" /\
  guestOpenings (stFirewall st) wan [] = "" /\ zoneTakingGuests (stFirewall st) = "" /\ subnetHazard (stFirewall st) = "".
Proof.
  pose proof (cl_free _ _ Hcl) as H. unfold guestBlocker in H. rewrite (cl_ours _ _ Hcl) in H.
  destruct (uplinkZone _ _) as [zone nets]. cbn [fst snd].
  destruct (nonempty zone); [cbn [negb] in H|done]. destruct (contains nets lanSection); [done|]. cbn [orb] in H.
  destruct (zoneHoldsHome _ _ _); [done|]. destruct (existsb _ _); [done|].
  destruct (nonempty (ipv6UplinkZone st) && negb (String.eqb (ipv6UplinkZone st) zone)) eqn:E6; [done|].
  destruct (find_first _ _) eqn:Ee; [done|]. destruct (nonempty (dhcpSkipsGuests _)) eqn:Ed; [done|].
  match type of H with context [firstSaid ?l] => destruct (nonempty (firstSaid l)) eqn:E; [done|] end.
  apply nonempty_false, firstSaid_quiet in E. rewrite !Forall_cons in E. destruct E as (E1 & E2 & E3 & _).
  apply nonempty_false in Ed. split_and!; try done; [|by apply find_first_none_inv].
  apply andb_false_iff in E6 as [E6|E6]; [left; by apply nonempty_false|right].
  by apply negb_false_iff, String.eqb_eq in E6.
Qed.
End Clear.

(** ** The state it makes *)

Definition made_state (st : guestState) (cfg : GuestConfig) (enc : string) (radios : list string) (subnet : string)
    (renumber : bool) : guestState :=
  let network := renumbered renumber (stNetwork st) ++ made_network (routerAddress subnet) in
  let firewall := stFirewall st ++ made_firewall (uplinkZone (stFirewall st) (stIfaces st)).1 in
  let dhcp := stDhcp st ++ [made_dhcp] in
  let wireless := wcAll (stCfg st) ++ (made_point cfg enc <$> radios) in
  mkGuestState (splitWireless wireless) network firewall dhcp (readGuestShape network firewall wireless dhcp)
    (stIfaces st) None.

Lemma find_first_fmap {A B} (f : A -> B) (p : B -> bool) l : find_first p (f <$> l) = f <$> find_first (p ∘ f) l.
Proof. induction l as [|x l IH]; cbn; [done|]. by destruct (p (f x)). Qed.

Lemma find_first_ext {A} (p q : A -> bool) l : (forall x, x ∈ l -> p x = q x) -> find_first p l = find_first q l.
Proof.
  induction l as [|x l IH]; intros H; cbn; [done|]. rewrite (H x) by left.
  destruct (q x); [done|]. apply IH. intros y Hy. apply H. by right.
Qed.

Lemma find_last_fmap {A B} (f : A -> B) (p : B -> bool) l : find_last p (f <$> l) = f <$> find_last (p ∘ f) l.
Proof.
  induction l as [|x l IH] using rev_ind; [done|]. rewrite fmap_app. cbn [fmap list_fmap].
  rewrite !find_last_snoc, IH. cbn. by destruct (p (f x)).
Qed.

Lemma find_last_ext {A} (p q : A -> bool) l : (forall x, p x = q x) -> find_last p l = find_last q l.
Proof. intros H. induction l as [|x l IH] using rev_ind; [done|]. by rewrite !find_last_snoc, H, IH. Qed.

(** Renumbering changes nothing a section is found by. *)
Definition renumber_section (s : uciSection) : uciSection :=
  if decide (id s = lanSection)
  then mkSection (id s) (kind s) (<["ip6assign" := Itoa guestAssign]> (options s)) else s.

Lemma renumbered_map renumber network :
  exists f, renumbered renumber network = f <$> network /\
    forall s, id (f s) = id s /\ kind (f s) = kind s /\
      forall k, k <> "ip6assign" -> get (options (f s)) k = get (options s) k.
Proof.
  unfold renumbered. destruct renumber; [exists renumber_section|exists (fun s => s); by rewrite list_fmap_id].
  split; [done|]. intros s. unfold renumber_section. case_decide; [|done]. split_and!; [done..|].
  intros k Hk. cbn. unfold get. by rewrite lookup_insert_ne.
Qed.

Section Made.
Context (rng : forall A : Type, gmap string A -> list (string * A)) `{!MapOrder rng}.
Context (st : guestState) (Hcl : clear rng st).
Context (cfg : GuestConfig) (enc : string) (radios : list string) (kernel : list kernelRoute) (subnet : string) (renumber : bool).
Context (Hsub : freeGuestSubnet (stIfaces st) (takenElsewhere rng st kernel) = Ok subnet).

Abbreviation wan := ((uplinkZone (stFirewall st) (stIfaces st)).1).
Abbreviation made := (made_state st cfg enc radios subnet renumber).

Lemma made_firewall_elem s : s ∈ made_firewall wan ->
  s = made_zone \/ s = made_forwarding wan \/ exists r, r ∈ guestRuleSpecs wan /\ s = made_rule r.
Proof.
  unfold made_firewall. rewrite !elem_of_cons, list_elem_of_fmap. intros [->|[->|(r & -> & Hr)]]; [by left|by right; left|].
  right. right. by exists r.
Qed.

(** Only one of the new sections is a zone. *)
Lemma made_zones s : s ∈ made_firewall wan -> isZone s = true -> s = made_zone.
Proof. by intros [->|[->|(r & _ & ->)]]%made_firewall_elem. Qed.

Lemma wan_zone_there : exists s, s ∈ stFirewall st /\ isZone s = true /\ get (options s) "name" = wan.
Proof.
  destruct (clear_checks rng st Hcl) as (Hn & _). revert Hn. unfold uplinkZone.
  destruct (nonempty (pickUplink _)).
  - destruct (find_first _ _) as [s|] eqn:E; [|done]. apply find_first_Some in E as [[Hz Hs]%list_elem_of_filter _]. eauto.
  - destruct (find_first _ _) as [s|] eqn:E; [|done]. apply find_first_Some in E as [[Hz Hs]%list_elem_of_filter Hn].
    apply String.eqb_eq in Hn. eauto.
Qed.

Lemma wan_is_not_guest : wan <> guestZone.
Proof.
  intros E. destruct wan_zone_there as (s & Hs & Hz & Hn).
  destruct (nothing_there rng st Hcl) as (_ & H & _). destruct (H s Hs) as [_ Hg]. unfold isGuestZone in Hg.
  unfold isZone in Hz. by rewrite Hz, Hn, E in Hg.
Qed.

Lemma uplink_stays : uplinkZone (stFirewall made) (stIfaces made) = uplinkZone (stFirewall st) (stIfaces st).
Proof.
  destruct (clear_checks rng st Hcl) as (Hn & _). revert Hn. unfold made_state. cbn [stFirewall stIfaces].
  generalize (made_firewall wan). intros new. unfold uplinkZone. rewrite filter_app, !find_first_app.
  destruct (nonempty (pickUplink _)); by destruct (find_first _ (filter _ (stFirewall st))).
Qed.

Lemma lanBridge_stays : lanBridge (stNetwork made) = lanBridge (stNetwork st).
Proof.
  unfold made_state. cbn [stNetwork]. unfold lanBridge. rewrite find_last_app; cycle 1.
  { intros x Hx. unfold made_network in Hx. rewrite !elem_of_cons in Hx.
    by destruct Hx as [->|[->|Hx%not_elem_of_nil]]. }
  destruct (renumbered_map renumber (stNetwork st)) as (f & -> & Hf). rewrite find_last_fmap.
  rewrite (find_last_ext _ (fun s => String.eqb (id s) lanSection && nonempty (get (options s) "device"))); cycle 1.
  { intros x. unfold compose. destruct (Hf x) as (-> & _ & Hg). by rewrite Hg. }
  destruct (find_last _ _) as [s|]; [|done]. cbn. by destruct (Hf s) as (_ & _ & ->).
Qed.

Lemma home_stays_out : zoneHoldsHome (stFirewall made) (stNetwork made) wan = false.
Proof.
  destruct (clear_checks rng st Hcl) as (_ & _ & H & _). unfold zoneHoldsHome in *. rewrite lanBridge_stays.
  unfold made_state. cbn [stFirewall]. rewrite existsb_app, H. cbn [orb]. apply existsb_false. intros s Hs.
  destruct (isZone s) eqn:Hz; [|done]. rewrite (made_zones s Hs Hz). cbn [andb].
  rewrite (proj2 (String.eqb_neq _ _)); [done|]. intros E. by destruct wan_is_not_guest.
Qed.

Lemma nat_stays : existsb (noNAT wan) (stFirewall made) = false.
Proof.
  destruct (clear_checks rng st Hcl) as (_ & _ & _ & H & _). unfold made_state. cbn [stFirewall].
  rewrite existsb_app, H. cbn [orb]. apply existsb_false. intros s Hs. unfold noNAT.
  destruct (isZone s) eqn:Hz; [|done]. rewrite (made_zones s Hs Hz). cbn [andb].
  rewrite (proj2 (String.eqb_neq _ _)); [done|]. intros E. by destruct wan_is_not_guest.
Qed.

Lemma ipv6_name_stays : ipv6UplinkName made = ipv6UplinkName st.
Proof.
  unfold ipv6UplinkName, made_state. cbn [stIfaces stNetwork]. destruct (nonempty _); [done|].
  rewrite find_first_app. destruct (renumbered_map renumber (stNetwork st)) as (f & -> & Hf). rewrite find_first_fmap.
  rewrite (find_first_ext _ dhcpv6Client); cycle 1.
  { intros s _. unfold compose, dhcpv6Client. destruct (Hf s) as (_ & -> & Hg). by rewrite Hg. }
  destruct (find_first _ _) as [s|]; cbn; [|done]. by destruct (Hf s) as (-> & _).
Qed.

Lemma ipv6_name_is_not_guest : ipv6UplinkName st <> guestSection.
Proof.
  unfold ipv6UplinkName. destruct (nonempty _) eqn:E.
  - destruct (find_first _ (stIfaces st)) as [i|] eqn:Ei; [|done]. apply find_first_Some in Ei as [Hi _].
    by apply (cl_bus _ _ Hcl).
  - destruct (find_first _ (stNetwork st)) as [s|] eqn:Es; [|done]. apply find_first_Some in Es as [Hs _].
    destruct (nothing_there rng st Hcl) as (H & _). by destruct (H s Hs).
Qed.

Lemma ipv6_zone_stays : ipv6UplinkZone made = ipv6UplinkZone st.
Proof.
  unfold ipv6UplinkZone. rewrite ipv6_name_stays. destruct (negb _); [done|].
  unfold made_state. cbn [stFirewall]. rewrite find_first_app. destruct (find_first _ (stFirewall st)); [done|].
  rewrite find_first_none; [done|]. intros s Hs. destruct (isZone s) eqn:Hz; [|done].
  rewrite (made_zones s Hs Hz). cbn [andb]. apply contains_false.
  change (networksOf made_zone) with [guestSection]. rewrite list_elem_of_singleton. apply ipv6_name_is_not_guest.
Qed.

Lemma everywhere_stays : find_first fromEverywhere (stFirewall made) = None.
Proof.
  destruct (clear_checks rng st Hcl) as (_ & _ & _ & _ & _ & H & _). unfold made_state. cbn [stFirewall].
  rewrite find_first_app, (find_first_none _ _ H). apply find_first_none.
  intros s [->|[->|(r & Hr & ->)]]%made_firewall_elem; [done..|]. unfold fromEverywhere.
  rewrite (matches_get r _ "src" (made_rule_matches wan r Hr)) by done. unfold guestRuleSpecs in Hr.
  rewrite !elem_of_cons in Hr. by destruct Hr as [-> |[-> |[-> |[-> |[-> |[-> |Hr%not_elem_of_nil]]]]]].
Qed.

Lemma dhcp_stays : dhcpSkipsGuests (stDhcp made) = "".
Proof.
  destruct (clear_checks rng st Hcl) as (_ & _ & _ & _ & _ & _ & H & _). unfold dhcpSkipsGuests, made_state in *.
  cbn [stDhcp]. rewrite omap_app. by destruct (omap dhcpSkip (stDhcp st)).
Qed.
End Made.
