(* ===== verification/GuestWhole.v ===== *)
(** * A new guest network is whole

    Nothing in the guest network StageGuest makes (internal/adapters/openwrt/
    wifi_guest.go) is reported as weakened: the sections of GuestMade.v against
    each check of guestWeakened. *)

From S2P Require Import Prelude GoStrings GoNet Effects Network Uci Firewall Stage Lan LanThms Routes RoutesThms Devices DeviceSources.
From S2P Require Import WiFi WiFiGuest GuestIsolation GuestWrite GuestThms GuestIsolated GuestMade.

(** ** Ranges of zones *)

(** What is not a hazard is an IPv4 network of at least eight bits. *)
Lemma range_net4 v q :
  parseRange v = Some q -> Is4 (PAddr q) = true -> net4 (Masked q) /\ PBits (Masked q) = PBits q.
Proof.
  unfold parseRange. destruct (ParsePrefix v) as [p|] eqn:E.
  - intros [= <-] H4. destruct (ParsePrefix_v4 _ _ E H4) as (a & n & -> & Ha & Hn).
    split; [by apply Masked_net4|by rewrite Masked_v4].
  - destruct (ParseAddr v) as [a|] eqn:Ea; [|done]. intros [= <-] H4. destruct a as [|a|a z]; [done| |done].
    cbn [BitLen]. rewrite PrefixFrom_v4 by lia. split; [|by rewrite Masked_v4 by lia].
    apply Masked_net4; [by eapply parse4_range, ParseAddr_v4|lia].
Qed.

Lemma zone_prefix_net4 s p :
  existsb hazardous (subnetsOf s) = false -> p ∈ zonePrefixes s -> net4 p /\ (minLocalBits <= PBits p)%Z.
Proof.
  intros Hh (v & Hv & Hp)%list_elem_of_omap. rewrite existsb_false in Hh. specialize (Hh v Hv). revert Hp.
  unfold hazardous in Hh. apply orb_false_iff in Hh as [Hpre Hr]. rewrite Hpre.
  unfold TrimPrefix in Hr. rewrite Hpre in Hr. destruct (parseRange v) as [q|] eqn:E; [|done]. cbn [fmap option_fmap option_map].
  intros [= <-]. rewrite !orb_false_iff, !negb_false_iff, Z.ltb_ge in Hr. destruct Hr as [[_ H4] Hb].
  destruct (range_net4 v q E H4) as [? ->]. done.
Qed.

(** Every range kept for a name is one of a zone that is not the guests'. *)
Lemma zoneSubnets_from fw name ps p :
  zoneSubnets fw !! name = Some ps -> p ∈ ps -> exists s, s ∈ fw /\ otherZone s = true /\ p ∈ zonePrefixes s.
Proof.
  unfold zoneSubnets.
  assert (forall l (m : gmap string (list Prefix)),
    (forall s, s ∈ l -> s ∈ fw /\ otherZone s = true) ->
    (forall name ps p, m !! name = Some ps -> p ∈ ps -> exists s, s ∈ fw /\ otherZone s = true /\ p ∈ zonePrefixes s) ->
    fold_left (fun m s => match zonePrefixes s with
      | [] => m | qs => <[nameOf s := default [] (m !! nameOf s) ++ qs]> m end) l m !! name = Some ps ->
    p ∈ ps -> exists s, s ∈ fw /\ otherZone s = true /\ p ∈ zonePrefixes s) as H.
  { induction l as [|s l IH]; intros m Hl Hm; cbn [fold_left]; [by apply Hm|].
    apply IH; [intros t Ht; apply Hl; by right|]. intros name' ps' p' Hn Hp.
    destruct (Hl s) as [Hs Ho]; [left|]. destruct (zonePrefixes s) as [|q qs] eqn:E; [by eapply Hm|].
    apply lookup_insert_Some in Hn as [[<- <-]|[_ Hn]]; [|by eapply Hm].
    apply elem_of_app in Hp as [Hp|Hp]; [|exists s; by rewrite E].
    destruct (m !! nameOf s) as [qs'|] eqn:Em; [|by apply not_elem_of_nil in Hp]. by eapply Hm. }
  intros Hz Hp. eapply H; [| |exact Hz|exact Hp].
  - by intros s [Ho Hs]%list_elem_of_filter.
  - by intros ? ? ? ?%lookup_empty_Some.
Qed.

(** A network that is taken shares no address with a free one. *)
Lemma free_apart taken cidr ip n a p :
  isFree taken cidr = true -> ParseCIDR cidr = Some (ip, n) -> NetOnes n = 24%Z -> NetBits n = 32%Z ->
  To4 (NetIP n) = Some a -> net4 p -> (forall t, t ∈ kernelTaken p -> t ∈ taken) -> (minLocalBits <= PBits p)%Z ->
  Overlaps p (mkPrefix (Addr4 a) 24) = false.
Proof.
  intros Hfree Hn Ho Hb Ha (b & k & -> & Hr & Hk & Hm) Htaken Hbits. cbn [PBits] in *.
  apply not_true_iff_false. intros Hov. rewrite (Overlaps_v4 _ _ b a) in Hov; [|done|done| |done].
  2: { unfold PrefixIsValid. cbn [PBits]. apply Z.leb_le. lia. }
  cbn [PBits] in Hov. apply Z.eqb_eq in Hov. unfold isFree in Hfree. rewrite Hn in Hfree.
  apply negb_true_iff in Hfree. rewrite existsb_false in Hfree.
  assert (mkIPNet (to16 (Addr4 b)) k 32 ∈ taken) as Hin.
  { apply Htaken. unfold kernelTaken. rewrite Masked_v4, Hm by done. cbn [PAddr PBits].
    rewrite (proj2 (Z.leb_le _ _) Hbits). apply list_elem_of_singleton. done. }
  specialize (Hfree _ Hin). cbn beta in Hfree. apply orb_false_iff in Hfree as [H1 H2].
  unfold NetContains, net_ones4 in H1, H2. cbn [NetIP NetOnes NetBits] in H1, H2.
  rewrite mapped_to16, Ha in H1, H2 by done. rewrite Hb, Ho in H2. change (32 =? 32)%Z with true in H1, H2.
  apply Z.eqb_neq in H1, H2. destruct (Z.min_spec k 24) as [[_ E]|[_ E]]; rewrite E in Hov; congruence.
Qed.

Section Whole.
Context (rng : forall A : Type, gmap string A -> list (string * A)) `{!MapOrder rng}.
Context (st : guestState) (Hcl : clear rng st).
Context (cfg : GuestConfig) (enc : string) (radios : list string) (kernel : list kernelRoute) (subnet : string) (renumber : bool).
Context (Hsub : freeGuestSubnet (stIfaces st) (takenElsewhere rng st kernel) = Ok subnet).

Abbreviation wan := ((uplinkZone (stFirewall st) (stIfaces st)).1).
Abbreviation made := (made_state st cfg enc radios subnet renumber).

(** ** The sections of each name *)

Lemma firewall_byID sid : sid ∈ guestSection :: guestRules -> byID (stFirewall made) sid = byID (made_firewall wan) sid.
Proof.
  intros Hin. unfold made_state. cbn [stFirewall]. apply byID_new. intros s Hs <-.
  destruct (nothing_there rng st Hcl) as (_ & H & _). destruct (H s Hs) as [Hn _]. unfold namedForGuests in Hn.
  apply orb_false_iff in Hn as [H1 H2]. apply String.eqb_neq in H1. apply contains_false in H2.
  by apply elem_of_cons in Hin as [?|?].
Qed.

Lemma zone_byID : byID (stFirewall made) guestSection = Some made_zone.
Proof. rewrite firewall_byID by left. reflexivity. Qed.

Lemma forwarding_byID : byID (stFirewall made) "guest_wan" = Some (made_forwarding wan).
Proof. rewrite firewall_byID by (right; left). reflexivity. Qed.

Lemma rule_byID r : r ∈ guestRuleSpecs wan -> byID (stFirewall made) (gsID r) = Some (made_rule r).
Proof.
  intros Hr. unfold guestRuleSpecs in Hr. rewrite !elem_of_cons in Hr.
  destruct Hr as [-> |[-> |[-> |[-> |[-> |[-> |Hr%not_elem_of_nil]]]]]]; [..|done];
    (rewrite firewall_byID by (apply contains_true; reflexivity)); reflexivity.
Qed.

Lemma network_byID sid : sid = guestSection \/ sid = guestDevSection ->
  byID (stNetwork made) sid = byID (made_network (routerAddress subnet)) sid.
Proof.
  intros Hsid. unfold made_state. cbn [stNetwork]. apply byID_new. intros s Hs E.
  destruct (renumbered_map renumber (stNetwork st)) as (f & Ef & Hf). rewrite Ef in Hs.
  apply list_elem_of_fmap in Hs as (t & -> & Ht). destruct (Hf t) as (Hid & _).
  destruct (nothing_there rng st Hcl) as (H & _). destruct (H t Ht) as (H1 & H2 & _). destruct Hsid; congruence.
Qed.

(** ** Whose it is *)

Lemma made_points_ours s : s ∈ made_point cfg enc <$> radios ->
  kind s = "wifi-iface" /\ HasPrefix guestPrefix (id s) = true /\ get (options s) "network" = guestSection /\
  get (options s) "isolate" = "1" /\ get (options s) "bridge_isolate" = "1".
Proof. intros (rid & -> & _)%list_elem_of_fmap. split_and!; reflexivity. Qed.

Lemma made_shape : stShape made =
  mkShape true false (made_point cfg enc <$> radios) (made_point cfg enc <$> radios) [].
Proof.
  unfold made_state. cbn [stShape]. unfold readGuestShape.
  pose proof (network_byID guestSection (or_introl eq_refl)) as Hi.
  pose proof (network_byID guestDevSection (or_intror eq_refl)) as Hd.
  unfold made_state in Hi, Hd. cbn [stNetwork] in Hi, Hd. rewrite Hi, Hd. clear Hi Hd.
  change (byID (made_network (routerAddress subnet)) guestDevSection) with (Some (mkSection guestDevSection "device" bridgeOptions)).
  change (byID (made_network (routerAddress subnet)) guestSection) with
    (Some (nth 1 (made_network (routerAddress subnet)) noSection)). cbv zeta.
  match goal with |- (if ?a || ?b then _ else _) = _ => assert (a = true) as -> by reflexivity end. cbn [orb].
  destruct (nothing_there rng st Hcl) as (_ & _ & _ & Hw).
  rewrite (filter_app _ (wcAll (stCfg st))), (filter_all _ (made_point cfg enc <$> radios)); cycle 1.
  { intros s Hs. destruct (made_points_ours s Hs) as [-> _]. done. }
  assert (filter (fun s => HasPrefix guestPrefix (id s) = true)
    (filter (fun s => String.eqb (kind s) "wifi-iface" = true) (wcAll (stCfg st)) ++ (made_point cfg enc <$> radios)) =
    made_point cfg enc <$> radios) as ->.
  { rewrite filter_app, filter_none, filter_all; [done|..].
    - intros s Hs. by apply made_points_ours.
    - intros s [_ Hs]%list_elem_of_filter Hp. destruct (Hw s Hs) as [Hn _]. by rewrite Hn in Hp. }
  f_equal.
  - apply filter_all. intros s Hs. destruct (made_points_ours s Hs) as (_ & _ & -> & _). done.
  - apply filter_none. intros s [Hs|Hs]%elem_of_app.
    + apply list_elem_of_filter in Hs as [Hk Hs]. apply String.eqb_eq in Hk. destruct (Hw s Hs) as [_ Hg].
      rewrite Hg by done. by rewrite andb_false_r.
    + destruct (made_points_ours s Hs) as (_ & -> & _). done.
Qed.

(** ** Each check *)

Lemma zone_whole : zoneWeakened rng (byID (stFirewall made) guestSection) = "".
Proof.
  rewrite zone_byID. unfold zoneWeakened.
  change (isZone made_zone) with true. change (closed (get (options made_zone) "input")) with true.
  change (closed (get (options made_zone) "forward")) with true.
  change (String.eqb (get (options made_zone) "name") guestZone) with true.
  change (String.eqb (get (options made_zone) "network") guestSection) with true. cbn [negb orb].
  apply said_none. intros [k v] Hk%rng_elem. apply elem_of_list_to_map_2 in Hk. rewrite !elem_of_cons in Hk.
  by destruct Hk as [[= -> ->]|[[= -> ->]|[[= -> ->]|[[= -> ->]|[[= -> ->]|Hk%not_elem_of_nil]]]]].
Qed.

Lemma bridge_whole : bridgesWeakened rng (stNetwork made) = "".
Proof.
  unfold bridgesWeakened. apply firstSaid_quiet, Forall_fmap, Forall_forall. intros s [Hid Hs]%list_elem_of_filter.
  unfold compose, bridgeWeakened. apply said_none. intros [k v] Hk%rng_elem.
  apply negb_false_iff, bool_decide_eq_true. cbn. rewrite <- Hk. apply String.eqb_eq in Hid.
  unfold made_state in Hs. cbn [stNetwork] in Hs. apply elem_of_app in Hs as [Hs|Hs].
  - destruct (renumbered_map renumber (stNetwork st)) as (f & Ef & Hf). rewrite Ef in Hs.
    apply list_elem_of_fmap in Hs as (t & -> & Ht). destruct (Hf t) as (Hi & _).
    destruct (nothing_there rng st Hcl) as (H & _). destruct (H t Ht) as (_ & H2 & _). congruence.
  - unfold made_network in Hs. rewrite !elem_of_cons in Hs. by destruct Hs as [->|[->|Hs%not_elem_of_nil]].
Qed.

Lemma bridge_not_shared : sharedBridge (stNetwork made) = "".
Proof.
  apply said_none. unfold made_state. cbn [stNetwork]. intros s [Hs|Hs]%elem_of_app.
  - destruct (renumbered_map renumber (stNetwork st)) as (f & Ef & Hf). rewrite Ef in Hs.
    apply list_elem_of_fmap in Hs as (t & -> & Ht). destruct (Hf t) as (Hi & Hk & Hg).
    destruct (nothing_there rng st Hcl) as (H & _). destruct (H t Ht) as (_ & _ & Ho). unfold otherOnGuestBridge in *.
    by rewrite Hi, Hk, !Hg by done.
  - unfold made_network in Hs. rewrite !elem_of_cons in Hs. by destruct Hs as [->|[->|Hs%not_elem_of_nil]].
Qed.

(** Of every zone that is not the guests' own, what held before holds. *)
Lemma other_zone_stays s : s ∈ stFirewall made -> otherZone s = true -> s ∈ stFirewall st.
Proof.
  unfold made_state. cbn [stFirewall]. intros [Hs|Hs]%elem_of_app Ho; [done|]. unfold otherZone in Ho.
  apply andb_true_iff in Ho as [Hz Hid]. by rewrite (made_zones st s Hs Hz) in Hid.
Qed.

Lemma no_hazard s : s ∈ stFirewall st -> otherZone s = true -> existsb hazardous (subnetsOf s) = false.
Proof.
  intros Hs Ho. destruct (clear_checks rng st Hcl) as (_ & _ & _ & _ & _ & _ & _ & _ & _ & H).
  assert (forall x, x ∈ stFirewall st -> nameOf x <> "") as Hn by (intros; by apply nameOf_said, (cl_ids rng st Hcl)).
  pose proof (said_quiet _ _ _ H Hn s Hs) as Hq. cbn beta in Hq. by rewrite Ho in Hq.
Qed.

Lemma hazards_stay : subnetHazard (stFirewall made) = "".
Proof.
  apply said_none. intros s Hs. destruct (otherZone s) eqn:Ho; [|done]. cbn [andb].
  apply no_hazard; [by apply other_zone_stays|done].
Qed.

Lemma taking_stays : zoneTakingGuests (stFirewall made) = "".
Proof.
  destruct (clear_checks rng st Hcl) as (_ & _ & _ & _ & _ & _ & _ & _ & H & _).
  assert (forall x, x ∈ stFirewall st -> nameOf x <> "") as Hn by (intros; by apply nameOf_said, (cl_ids rng st Hcl)).
  apply said_none. intros s Hs. pose proof (said_quiet _ _ _ H Hn s) as Hq. cbn beta in Hq.
  destruct (otherZone s) eqn:Ho; [by apply Hq, other_zone_stays|]. unfold otherZone in Ho. by rewrite Ho.
Qed.

Lemma way_out_whole : wayOut made = "".
Proof.
  unfold wayOut. rewrite forwarding_byID, (uplink_stays rng st Hcl).
  match goal with |- (if ?a then _ else _) = _ => assert (a = false) as -> by reflexivity end.
  change (get (options (made_forwarding wan)) "dest") with wan. by rewrite (String.eqb_refl wan).
Qed.

Lemma rules_whole : rulesWeakened made wan = "".
Proof.
  unfold rulesWeakened. apply said_none. intros r Hr. unfold ruleWeakened. rewrite rule_byID by done.
  by rewrite (made_rule_matches wan).
Qed.

Lemma openings_stay : guestOpenings (stFirewall made) wan (gsID <$> guestRuleSpecs wan) = "".
Proof.
  destruct (clear_checks rng st Hcl) as (_ & _ & _ & _ & _ & _ & _ & H & _). unfold guestOpenings in H.
  destruct (find_first (opening wan []) (stFirewall st)) as [t|] eqn:E.
  { apply find_first_Some in E as [Ht _]. by destruct (nameOf_said t (cl_ids rng st Hcl t Ht)). }
  assert (forall x, x ∈ stFirewall st -> nameOf x <> "") as Hn by (intros; by apply nameOf_said, (cl_ids rng st Hcl)).
  pose proof (find_first_none_inv _ _ E) as Hno. pose proof (said_quiet _ _ _ H Hn) as Hre.
  unfold guestOpenings. rewrite find_first_none; [apply said_none|]; intros s; unfold made_state; cbn [stFirewall];
    intros [Hs|[->|[->|(r & Hr & ->)]]%made_firewall_elem]%elem_of_app; try done.
  - by apply Hre.
  - specialize (Hno s Hs). unfold opening in *.
    change (contains [] (id s)) with false in Hno. by destruct (contains (gsID <$> guestRuleSpecs wan) (id s)).
  - unfold opening. match goal with |- ?a && ?b = _ => assert (a = true) as -> by reflexivity end.
    change (get (options (made_forwarding wan)) "dest") with wan. by rewrite (String.eqb_refl wan).
  - unfold opening. assert (contains (gsID <$> guestRuleSpecs wan) (id (made_rule r)) = true) as ->; [|done].
    apply contains_true, list_elem_of_fmap. by exists r.
Qed.

Lemma points_whole : pointsWeakened (stShape made) = "".
Proof.
  rewrite made_shape. unfold pointsWeakened. cbn [gsOwned gsStray gsIfaces head said].
  apply firstSaid_quiet. constructor; [|constructor; [done|]].
  - apply said_none. intros s Hs. destruct (made_points_ours s Hs) as (_ & _ & -> & _). done.
  - apply Forall_fmap, Forall_forall. intros s Hs. unfold compose, pointWeakened.
    by destruct (made_points_ours s Hs) as (_ & _ & _ & -> & ->).
Qed.

(** ** The subnet *)

(** What guestPrefixes reads in the section of a candidate. *)
Definition candidate_prefix (cidr : string) : bool :=
  match ParseCIDR cidr with
  | Some (_, n) =>
      match To4 (NetIP n), configuredPrefix (routerAddress cidr) "255.255.255.0", Fields (routerAddress cidr) with
      | Some a, [p], [w] => bool_decide (p = mkPrefix (Addr4 a) 24) && String.eqb w (routerAddress cidr)
      | _, _, _ => false
      end
  | None => false
  end.

Lemma candidate_prefixes : forallb candidate_prefix guestCandidates = true.
Proof. vm_compute. reflexivity. Qed.

Lemma subnet_free : isFree (takenNetworks (stIfaces st) (takenElsewhere rng st kernel)) subnet = true /\ subnet ∈ guestCandidates.
Proof.
  revert Hsub. unfold freeGuestSubnet. destruct (find_first _ _) as [cidr|] eqn:E; [|done]. intros [= <-].
  by apply find_first_Some in E as [? ?].
Qed.

Lemma guest_prefix : exists n a, ParseCIDR subnet = Some (NetIP n, n) /\ NetOnes n = 24%Z /\ NetBits n = 32%Z /\
  To4 (NetIP n) = Some a /\ guestPrefixes (stNetwork made) = [mkPrefix (Addr4 a) 24].
Proof.
  destruct subnet_free as [_ Hin]. destruct (candidate_spec subnet Hin) as (n & _ & Hn & Ho & Hb & _).
  pose proof candidate_prefixes as Hp. rewrite forallb_elem in Hp. specialize (Hp subnet Hin). unfold candidate_prefix in Hp.
  rewrite Hn in Hp. destruct (To4 (NetIP n)) as [a|] eqn:Ea; [|done].
  destruct (configuredPrefix _ _) as [|p [|? ?]] eqn:Ec; [done| |done].
  destruct (Fields _) as [|w [|? ?]] eqn:Ef; [done| |done]. apply andb_true_iff in Hp as [Hp Hw].
  apply bool_decide_eq_true in Hp as ->. apply String.eqb_eq in Hw as ->.
  exists n, a. repeat (split; [done|]). unfold guestPrefixes.
  assert (forall k, guestOpt4 (stNetwork made) k = get (options (nth 1 (made_network (routerAddress subnet)) noSection)) k) as Hk.
  { intros k. unfold guestOpt4, made_state. cbn [stNetwork]. rewrite find_first_app, find_first_none; [done|].
    intros s Hs. destruct (renumbered_map renumber (stNetwork st)) as (f & Efm & Hf). rewrite Efm in Hs.
    apply list_elem_of_fmap in Hs as (t & -> & Ht). destruct (Hf t) as (-> & _).
    destruct (nothing_there rng st Hcl) as (H & _). destruct (H t Ht) as (H1 & _). by apply String.eqb_neq. }
  rewrite !Hk. unfold configuredPrefixes.
  match goal with |- context [get (options (nth _ _ _)) "ipaddr"] =>
    change (get (options (nth 1 (made_network (routerAddress subnet)) noSection)) "ipaddr") with (routerAddress subnet) end.
  change (firstNonEmpty [get (options (nth 1 (made_network (routerAddress subnet)) noSection)) "netmask"; "255.255.255.0"])
    with "255.255.255.0". cbn [fmap list_fmap kind options]. rewrite String.eqb_refl.
  set (o := <["ipaddr" := _]> _).
  assert (get o "ipaddr" = routerAddress subnet) as -> by (unfold get, o; by rewrite lookup_insert_eq).
  assert (get o "netmask" = "255.255.255.0") as ->
    by (unfold get, o; by rewrite lookup_insert_ne, lookup_singleton_eq by done).
  rewrite Ef. cbn [fmap list_fmap]. by rewrite Ec.
Qed.
(** No zone's range has an address of the guests' network. *)
Lemma subnet_not_taken : subnetTaken rng made = "".
Proof.
  destruct guest_prefix as (n & a & Hn & Ho & Hb & Ha & Hp). unfold subnetTaken. rewrite Hp.
  apply said_none. intros [name ps] Hz. cbn [snd]. apply existsb_false. intros p Hin.
  assert (zoneSubnets (stFirewall made) = zoneSubnets (stFirewall st)) as Es.
  { unfold zoneSubnets, made_state. cbn [stFirewall]. rewrite filter_app, (filter_none _ (made_firewall wan)), app_nil_r; [done|].
    intros s Hs Hoz. unfold otherZone in Hoz. apply andb_true_iff in Hoz as [Hzone Hid].
    by rewrite (made_zones st s Hs Hzone) in Hid. }
  rewrite Es in Hz. pose proof Hz as Hz'. apply rng_elem in Hz.
  destruct (zoneSubnets_from _ _ _ _ Hz Hin) as (s & Hs & Hother & Hps).
  destruct (zone_prefix_net4 s p (no_hazard s Hs Hother) Hps) as [H4 Hbits].
  destruct subnet_free as [Hfree _]. eapply free_apart; try done.
  intros t Ht. unfold takenNetworks. apply elem_of_app. left. apply list_elem_of_join. exists (kernelTaken p).
  split; [done|]. apply list_elem_of_fmap. exists p. split; [done|]. unfold takenElsewhere. apply elem_of_app. right.
  apply elem_of_app. left. apply list_elem_of_join. exists ps. split; [done|]. apply list_elem_of_fmap. by exists (name, ps).
Qed.

Lemma made_is_whole : guestWeakened rng made = "".
Proof.
  unfold guestWeakened. rewrite (uplink_stays rng st Hcl). apply firstSaid_quiet.
  rewrite zone_whole, bridge_whole, bridge_not_shared, hazards_stay, subnet_not_taken, way_out_whole, taking_stays,
    rules_whole, openings_stay, points_whole, zone_byID.
  repeat constructor.
Qed.

(** Nothing stands in the way of the guest network that was made. *)
Lemma made_is_free : gsOurs (stShape made) = true /\ guestBlocker rng made = None.
Proof.
  destruct (clear_checks rng st Hcl) as (Hn & Hl & _ & _ & H6 & _).
  pose proof (home_stays_out rng st Hcl cfg enc radios subnet renumber) as Hhome.
  pose proof (nat_stays rng st Hcl cfg enc radios subnet renumber) as Hnat.
  rewrite made_shape. split; [done|]. unfold guestBlocker. rewrite (uplink_stays rng st Hcl).
  destruct (uplinkZone (stFirewall st) (stIfaces st)) as [zone nets] eqn:E. cbn [fst snd] in *.
  rewrite Hn, Hl, Hhome, Hnat, (ipv6_zone_stays rng st Hcl), (everywhere_stays rng st Hcl), (dhcp_stays rng st Hcl).
  cbn [negb orb]. rewrite made_shape. cbn [gsOurs]. rewrite made_is_whole.
  destruct H6 as [->| ->]; [done|]. rewrite String.eqb_refl. by rewrite andb_false_r.
Qed.
End Whole.
