(* ===== verification/GuestStage.v ===== *)
(** * Making the guest network leaves guests isolated

    StageGuest of internal/adapters/openwrt/wifi_guest.go against a router whose
    uci keeps its documented behaviour on whole configurations ([UciSections]):
    where it succeeds, the draft holds the sections of GuestMade.v. *)

From S2P Require Import Prelude GoStrings GoNet Effects Network Uci Firewall Stage Lan Routes Devices DeviceSources.
From S2P Require Import WiFi WiFiGuest GuestIsolation GuestWrite GuestThms GuestIsolated GuestMade GuestWhole.

(** ** Configurations, and what uci does to one *)

Definition configs := string -> list uciSection.

Definition add_section (sid type_ : string) (l : list uciSection) : list uciSection :=
  if known sid l then on_section sid (fun s => mkSection (id s) type_ (options s)) l
  else l ++ [mkSection sid type_ ∅].

Definition with_option (o v : string) (s : uciSection) : uciSection := mkSection (id s) (kind s) (<[o := v]> (options s)).

(** Only the configuration [c] is changed, by [f]. *)
Definition changed (c : string) (f : list uciSection -> list uciSection) (F F' : configs) : Prop :=
  F' c = f (F c) /\ forall c', c' <> c -> F' c' = F c'.

(** [uci set key=value]: a section of a type, or an option. What uci prints of a
    value with quotes or line breaks may not read back as it was: [back]. *)
Definition set_done (back : string -> string) (key value : string) (F F' : configs) : Prop :=
  match Split "." key with
  | [c; s] => changed c (add_section s value) F F'
  | [c; s; o] => changed c (on_section s (with_option o (back value))) F F'
  | _ => True
  end.

Definition listed (o v : string) (s : uciSection) : uciSection :=
  with_option o (match options s !! o with Some old => old +:+ " " +:+ v | None => v end) s.

(** [uci add_list key=value]: uci prints a list as its items, one space apart. *)
Definition listed_done (back : string -> string) (key value : string) (F F' : configs) : Prop :=
  match Split "." key with
  | [c; s; o] => changed c (on_section s (listed o (back value))) F F'
  | _ => True
  end.

(** A call that changes no configuration. *)
Definition only_reads (o : op) : bool :=
  match o with
  | Exec ("uci" :: args) => contains ["show"; "get"; "changes"] (match args with "-q" :: v :: _ => v | v :: _ => v | [] => "" end)
  | ReadFile _ | BusInterfaces => true
  | _ => false
  end.

Class UciSections {W} (h : router W) := {
  file : W -> configs;
  buses : W -> list BusInterface;
  back : string -> string;
  back_ok v : value_ok v -> back v = v;
  shown_file w c out w' : answer h (Exec ["uci"; "-q"; "show"; c]) w = (Ok out, w') -> parseUCISections out = file w c;
  listed_buses w l w' : answer h BusInterfaces w = (Ok l, w') -> l = buses w;
  kept_files o w r w' : answer h o w = (r, w') -> only_reads o = true -> forall c, file w' c = file w c;
  kept_buses o w r w' : answer h o w = (r, w') -> buses w' = buses w;
  set_file w key value out w' : answer h (Exec ["uci"; "set"; key +:+ "=" +:+ value]) w = (Ok out, w') ->
    lacks "=" key = true -> nonempty value = true -> set_done back key value (file w) (file w');
  list_file w key value out w' : answer h (Exec ["uci"; "add_list"; key +:+ "=" +:+ value]) w = (Ok out, w') ->
    lacks "=" key = true -> nonempty value = true -> listed_done back key value (file w) (file w')
}.

(** ** One write after another *)

Section Writes.
Context (bk : string -> string).

Fixpoint sets_done (sets : list (string * string)) (F F' : configs) : Prop :=
  match sets with
  | [] => forall c, F' c = F c
  | (key, value) :: sets => exists F1, set_done bk key value F F1 /\ sets_done sets F1 F'
  end.

Fixpoint lists_done (lists : list (string * string)) (F F' : configs) : Prop :=
  match lists with
  | [] => forall c, F' c = F c
  | (key, value) :: lists => exists F1, listed_done bk key value F F1 /\ lists_done lists F1 F'
  end.

Lemma sets_done_app l1 l2 F F' : sets_done (l1 ++ l2) F F' -> exists F1, sets_done l1 F F1 /\ sets_done l2 F1 F'.
Proof.
  revert F. induction l1 as [|[k v] l1 IH]; intros F; cbn; [by exists F|].
  intros (F1 & H1 & (F2 & H2 & H3)%IH). exists F2. split; [|done]. by exists F1.
Qed.

Lemma on_section_app sid f l1 l2 : on_section sid f (l1 ++ l2) = on_section sid f l1 ++ on_section sid f l2.
Proof. apply fmap_app. Qed.

Lemma on_section_absent sid f l : (forall s, s ∈ l -> id s <> sid) -> on_section sid f l = l.
Proof.
  unfold on_section. induction l as [|s l IH]; intros H; [done|]. rewrite fmap_cons.
  rewrite decide_False by (apply H; left). f_equal. apply IH. intros t Ht. apply H. by right.
Qed.

Lemma on_section_one f s : (id (f s) = id s) -> on_section (id s) f [s] = [f s].
Proof. intros _. unfold on_section. cbn. by rewrite decide_True. Qed.

Lemma known_absent sid l : (forall s, s ∈ l -> id s <> sid) -> known sid l = false.
Proof. intros H. apply existsb_false. intros s Hs. apply bool_decide_eq_false. auto. Qed.

(** A name of uci: without the characters that end one. *)
Definition bare (s : string) : Prop := lacks "." s = true /\ lacks "=" s = true.

Lemma split_section c s : bare c -> bare s -> Split "." (c +:+ "." +:+ s) = [c; s].
Proof. intros [Hc _] [Hs _]. rewrite append_cons, append_nil_l, Split_sep by done. by rewrite Split_lacks. Qed.

Lemma split_option c s o : bare c -> bare s -> bare o -> Split "." ((c +:+ "." +:+ s) +:+ "." +:+ o) = [c; s; o].
Proof.
  intros [Hc _] [Hs _] [Ho _]. assert (forall x, "." +:+ x = String "." x) as Hdot by done.
  rewrite <- !append_assoc, !Hdot, !Split_sep by done. by rewrite Split_lacks.
Qed.

(** The options of a new section, each as it reads back. *)
Definition read_back (opts : list (string * string)) : list (string * string) := (fun o => (o.1, bk o.2)) <$> opts.

Definition set_options (opts : list (string * string)) (m : gmap string string) : gmap string string :=
  fold_left (fun m o => <[o.1 := o.2]> m) opts m.

Lemma options_done c s t m opts l F F' :
  bare c -> bare s -> Forall (fun o => bare o.1) opts -> (forall x, x ∈ l -> id x <> s) ->
  F c = l ++ [mkSection s t m] -> sets_done (prefixed (c +:+ "." +:+ s) opts) F F' ->
  changed c (fun _ => l ++ [mkSection s t (set_options (read_back opts) m)]) F F'.
Proof.
  intros Hc Hs Ho Hl. revert F m. induction Ho as [|[o v] opts Hb Ho IH]; intros F m HF Hd.
  { cbn in Hd. split; [by rewrite Hd|]. intros c' _. apply Hd. }
  cbn in Hd. destruct Hd as (F1 & H1 & Hd). unfold set_done in H1. rewrite split_option in H1 by done.
  destruct H1 as [H1 Hother]. rewrite HF, on_section_app, on_section_absent in H1 by done.
  change s with (id (mkSection s t m)) in H1. rewrite on_section_one in H1 by done.
  destruct (IH F1 _ H1 Hd) as [HF' Hother']. split; [done|]. intros c' Hne. rewrite Hother' by done. by apply Hother.
Qed.

(** A section that was not there. *)
Lemma newSection_done c s t opts F F' :
  bare c -> bare s -> Forall (fun o => bare o.1) opts -> (forall x, x ∈ F c -> id x <> s) ->
  sets_done (newSection (c +:+ "." +:+ s) t opts) F F' ->
  changed c (fun l => l ++ [mkSection s t (set_options (read_back opts) ∅)]) F F'.
Proof.
  intros Hc Hs Ho Hl Hd. cbn in Hd. destruct Hd as (F1 & H1 & Hd). unfold set_done in H1.
  rewrite split_section in H1 by done. destruct H1 as [H1 Hother]. unfold add_section in H1.
  rewrite known_absent in H1 by done.
  destruct (options_done c s t ∅ opts (F c) F1 F' Hc Hs Ho Hl H1 Hd) as [HF' Hother'].
  split; [done|]. intros c' Hne. rewrite Hother' by done. by apply Hother.
Qed.

(** Several new sections of one configuration, one after another. *)
Lemma newSections_done {X} c t (name : X -> string) (opts : X -> list (string * string)) l F F' :
  bare c -> Forall (fun x => bare (name x) /\ Forall (fun o => bare o.1) (opts x)) l ->
  NoDup (name <$> l) -> (forall x s, x ∈ l -> s ∈ F c -> id s <> name x) ->
  sets_done (mjoin (M:=list) ((fun x => newSection (c +:+ "." +:+ name x) t (opts x)) <$> l)) F F' ->
  changed c (fun f => f ++ ((fun x => mkSection (name x) t (set_options (read_back (opts x)) ∅)) <$> l)) F F'.
Proof.
  intros Hc Hl. revert F. induction Hl as [|x l [Hn Ho] Hl IH]; intros F Hnd Hno Hd.
  { cbn in Hd. split; [by rewrite Hd, app_nil_r|]. intros c' _. apply Hd. }
  rewrite fmap_cons in Hd. rewrite fmap_cons in Hnd. cbn [mjoin list_join] in Hd. apply NoDup_cons in Hnd as [Hx Hnd].
  apply sets_done_app in Hd as (F1 & H1 & Hd).
  apply newSection_done in H1 as [H1 Hother]; [|done|done|done|intros s Hs; apply Hno; [left|done]].
  destruct (IH F1) as [HF' Hother']; [done| |done|].
  - intros y s Hy Hs. rewrite H1 in Hs. apply elem_of_app in Hs as [Hs| ->%list_elem_of_singleton].
    + apply Hno; [by right|done].
    + cbn. intros E. apply Hx. rewrite E. by apply list_elem_of_fmap_2.
  - split; [by rewrite HF', H1, <- app_assoc|]. intros c' Hne. rewrite Hother' by done. by apply Hother.
Qed.

(** Items added to options of sections that are there. *)
Lemma lists_in c items l R (F F' : configs) :
  bare c -> Forall (fun i : string * string * string => bare i.1.1 /\ bare i.1.2) items ->
  (forall s i, s ∈ l -> i ∈ items -> id s <> i.1.1) -> F c = l ++ R ->
  lists_done ((fun i => ((c +:+ "." +:+ i.1.1) +:+ "." +:+ i.1.2, i.2)) <$> items) F F' ->
  changed c (fun _ => l ++ fold_left (fun R i => on_section i.1.1 (listed i.1.2 (bk i.2)) R) items R) F F'.
Proof.
  intros Hc Hi. revert F R. induction Hi as [|[[s o] v] items [Hs Ho] Hi IH]; intros F R Hl HF Hd.
  { cbn in Hd. split; [by rewrite Hd|]. intros c' _. apply Hd. }
  cbn in Hd. destruct Hd as (F1 & H1 & Hd). unfold listed_done in H1. rewrite split_option in H1 by done.
  destruct H1 as [H1 Hother]. rewrite HF, on_section_app, on_section_absent in H1; cycle 1.
  { intros x Hx. apply (Hl x ((s, o), v)); [done|left]. }
  destruct (IH F1 _ (fun x i Hx Hin => Hl x i Hx ltac:(by right)) H1 Hd) as [HF' Hother'].
  split; [done|]. intros c' Hne. rewrite Hother' by done. by apply Hother.
Qed.

Context (bk_ok : forall v, value_ok v -> bk v = v).

Lemma read_back_ok opts : Forall (fun o => value_ok o.2) opts -> read_back opts = opts.
Proof. unfold read_back. induction 1 as [|[k v] opts Hv _ IH]; [done|]. rewrite fmap_cons, IH. cbn in *. by rewrite bk_ok. Qed.
End Writes.

Ltac bare_names := repeat constructor; reflexivity.
Ltac all_ok := repeat (apply Forall_cons_2; [first [assumption | split; reflexivity]|]); apply Forall_nil_2.

(** ** Everything the request writes *)

Section Files.
Context (bk : string -> string) (bk_ok : forall v, value_ok v -> bk v = v).
Context (cfg : GuestConfig) (enc address wan : string) (radios : list string) (renumber : bool).
Context (Henc : value_ok enc) (Haddress : value_ok address) (Hwan : value_ok wan).
Context (Hradios : Forall (fun r => bare (guestPrefix +:+ r) /\ value_ok r) radios) (Honce : NoDup radios).

(** The name and the password as they read back. *)
Definition cfg_back : GuestConfig := mkGuestConfig (bk (gcSSID cfg)) (bk (gcPassword cfg)) (gcSecurity cfg) (gcRadios cfg).

Lemma network_done F F' :
  (forall s, s ∈ F "network" -> id s <> guestSection /\ id s <> guestDevSection) ->
  sets_done bk (networkSets address renumber) F F' ->
  changed "network" (fun l => renumbered renumber l ++ made_network address) F F'.
Proof.
  intros Hno Hd. unfold networkSets in Hd. apply sets_done_app in Hd as (F1 & H1 & Hd).
  change ("network." +:+ guestDevSection) with ("network" +:+ "." +:+ guestDevSection) in H1.
  apply newSection_done in H1 as [H1 O1]; [|bare_names..|intros s Hs; by apply Hno].
  apply sets_done_app in Hd as (F2 & H2 & Hd).
  change ("network." +:+ guestSection) with ("network" +:+ "." +:+ guestSection) in H2.
  apply newSection_done in H2 as [H2 O2]; [|bare_names..|]; cycle 1.
  { intros s Hs. rewrite H1 in Hs. apply elem_of_app in Hs as [Hs| ->%list_elem_of_singleton]; [by apply Hno|done]. }
  rewrite (read_back_ok bk bk_ok) in H1 by all_ok. rewrite (read_back_ok bk bk_ok) in H2 by all_ok. rewrite H1, <- app_assoc in H2.
  assert (F2 "network" = F "network" ++ made_network address) as E by (rewrite H2; reflexivity).
  assert (forall c', c' <> "network" -> F2 c' = F c') as O by (intros; rewrite O2, O1 by done; done).
  clear H1 H2 O1 O2. destruct renumber; cbn in Hd.
  - destruct Hd as (F3 & H3 & Hd). unfold set_done in H3.
    change (Split "." lanAssignKey) with ["network"; lanSection; "ip6assign"] in H3. destruct H3 as [H3 O3].
    split; [|intros c' Hne; by rewrite Hd, O3, O]. rewrite Hd, H3, E, on_section_app. f_equal.
    rewrite bk_ok by done. reflexivity.
  - split; [by rewrite Hd, E|]. intros c' Hne. by rewrite Hd, O.
Qed.

Lemma points_done F F' :
  (forall s, s ∈ F "wireless" -> HasPrefix guestPrefix (id s) = false) ->
  sets_done bk (mjoin (M:=list) (pointSets cfg enc <$> radios)) F F' ->
  changed "wireless" (fun l => l ++ (made_point cfg_back enc <$> radios)) F F'.
Proof.
  intros Hno Hd.
  pose proof (newSections_done bk "wireless" "wifi-iface" (fun r => guestPrefix +:+ r)
    (fun r => [("device", r); ("mode", "ap"); ("network", guestSection); ("ssid", gcSSID cfg); ("encryption", enc);
               ("key", gcPassword cfg); ("isolate", "1"); ("bridge_isolate", "1")]) radios F F') as H.
  destruct H as [H O].
  - bare_names.
  - eapply Forall_impl; [exact Hradios|]. intros r [Hr _]. split; [done|]. bare_names.
  - apply NoDup_fmap_2; [|done]. intros a b E. unfold guestPrefix in E. rewrite !append_cons, !append_nil_l in E. by simplify_eq.
  - intros r s _ Hs E. specialize (Hno s Hs). rewrite E, HasPrefix_app in Hno. done.
  - exact Hd.
  - split; [|done]. rewrite H. f_equal. apply list_fmap_ext. intros i r Hi. apply list_elem_of_lookup_2 in Hi.
    rewrite Forall_forall in Hradios. destruct (Hradios r Hi) as [_ Hok].
    unfold read_back. cbn [fmap list_fmap fst snd]. rewrite !(bk_ok "1"), !(bk_ok "ap"), !(bk_ok guestSection), (bk_ok r Hok), (bk_ok enc Henc)
      by (split; reflexivity). reflexivity.
Qed.

Lemma dhcp_done F F' :
  (forall s, s ∈ F "dhcp" -> id s <> guestSection) -> sets_done bk dhcpSets F F' ->
  changed "dhcp" (fun l => l ++ [made_dhcp]) F F'.
Proof.
  intros Hno Hd. unfold dhcpSets in Hd. change ("dhcp." +:+ guestSection) with ("dhcp" +:+ "." +:+ guestSection) in Hd.
  apply newSection_done in Hd as [H O]; [|bare_names..|done]. rewrite (read_back_ok bk bk_ok) in H by all_ok.
  split; [|done]. rewrite H. reflexivity.
Qed.

(** The items of the recipe's lists. *)
Definition recipe_items : list (string * string * string) :=
  mjoin (M:=list) ((fun r => mjoin (M:=list) ((fun l : string * list string =>
    (fun v => ((gsID r, l.1), v)) <$> l.2) <$> gsLists r)) <$> guestRuleSpecs wan).

Lemma specs_value_ok r : r ∈ guestRuleSpecs wan -> Forall (fun o => value_ok o.2) (("name", gsName r) :: gsOpts r).
Proof.
  intros Hr. unfold guestRuleSpecs in Hr. rewrite !elem_of_cons in Hr.
  destruct Hr as [-> |[-> |[-> |[-> |[-> |[-> |Hr%not_elem_of_nil]]]]]]; [..|done]; all_ok.
Qed.

Definition bare_rule (r : guestRuleSpec) : uciSection :=
  mkSection (gsID r) "rule" (set_options (("name", gsName r) :: gsOpts r) ∅).

Lemma recipe_made :
  fold_left (fun R i => on_section i.1.1 (listed i.1.2 (bk i.2)) R) recipe_items
    (made_zone :: made_forwarding wan :: (bare_rule <$> guestRuleSpecs wan)) = made_firewall wan.
Proof.
  assert (forall items R, Forall (fun i : string * string * string => value_ok i.2) items ->
    fold_left (fun R i => on_section i.1.1 (listed i.1.2 (bk i.2)) R) items R =
    fold_left (fun R i => on_section i.1.1 (listed i.1.2 i.2) R) items R) as E.
  { intros items R H. revert R. induction H as [|i items Hi _ IH]; intros R; [done|]. cbn [fold_left].
    by rewrite IH, bk_ok. }
  rewrite E; [|unfold recipe_items; all_ok]. vm_compute. reflexivity.
Qed.

Lemma firewall_done F F1 F2 :
  (forall s, s ∈ F "firewall" -> namedForGuests s = false) ->
  sets_done bk (zoneSets wan ++ mjoin (M:=list) (ruleSets <$> guestRuleSpecs wan)) F F1 ->
  lists_done bk (guestLists wan) F1 F2 ->
  changed "firewall" (fun l => l ++ made_firewall wan) F F2.
Proof.
  intros Hno Hd Hl.
  assert (forall sid s, sid ∈ guestSection :: guestRules -> s ∈ F "firewall" -> id s <> sid) as Habs.
  { intros sid s Hsid Hs E. specialize (Hno s Hs). unfold namedForGuests in Hno. apply orb_false_iff in Hno as [Hn1 Hn2].
    apply String.eqb_neq in Hn1. apply contains_false in Hn2. rewrite E in *. by apply elem_of_cons in Hsid as [?|?]. }
  apply sets_done_app in Hd as (F3 & H3 & Hd). unfold zoneSets in H3. apply sets_done_app in H3 as (F4 & H4 & H3).
  change ("firewall." +:+ guestSection) with ("firewall" +:+ "." +:+ guestSection) in H4.
  apply newSection_done in H4 as [H4 O4]; [|bare_names..|intros s Hs; apply Habs; [left|done]].
  change "firewall.guest_wan" with ("firewall" +:+ "." +:+ "guest_wan") in H3.
  apply newSection_done in H3 as [H3 O3]; [|bare_names..|]; cycle 1.
  { intros s Hs. rewrite H4 in Hs. apply elem_of_app in Hs as [Hs| ->%list_elem_of_singleton]; [|done].
    apply Habs; [by right; left|done]. }
  rewrite (read_back_ok bk bk_ok) in H3 by all_ok. rewrite (read_back_ok bk bk_ok) in H4 by all_ok.
  assert (F3 "firewall" = F "firewall" ++ [made_zone; made_forwarding wan]) as E3.
  { rewrite H3, H4, <- app_assoc. reflexivity. }
  pose proof (newSections_done bk "firewall" "rule" gsID (fun r => ("name", gsName r) :: gsOpts r) (guestRuleSpecs wan) F3 F1) as H.
  destruct H as [H1 O1]; [bare_names|unfold guestRuleSpecs; bare_names| | |exact Hd|].
  { apply (bool_decide_unpack _). vm_compute. exact I. }
  { intros r s Hr Hs. rewrite E3 in Hs. unfold guestRuleSpecs in Hr. rewrite !elem_of_cons in Hr.
    apply elem_of_app in Hs as [Hs|Hs].
    - apply Habs; [|done]. apply contains_true.
      by destruct Hr as [-> |[-> |[-> |[-> |[-> |[-> |Hr%not_elem_of_nil]]]]]].
    - rewrite !elem_of_cons in Hs. destruct Hs as [-> |[-> |Hs%not_elem_of_nil]]; [..|done];
        by destruct Hr as [-> |[-> |[-> |[-> |[-> |[-> |Hr%not_elem_of_nil]]]]]]. }
  rewrite E3, <- app_assoc in H1.
  assert (F1 "firewall" = F "firewall" ++ (made_zone :: made_forwarding wan :: (bare_rule <$> guestRuleSpecs wan))) as E1.
  { rewrite H1. cbn [app]. do 3 f_equal. apply list_fmap_ext. intros i r Hr. apply list_elem_of_lookup_2 in Hr.
    by rewrite (read_back_ok bk bk_ok) by (by apply specs_value_ok). }
  destruct (lists_in bk "firewall" recipe_items (F "firewall")
    (made_zone :: made_forwarding wan :: (bare_rule <$> guestRuleSpecs wan)) F1 F2) as [H2 O2]; [bare_names|..].
  { unfold recipe_items. bare_names. }
  { intros s i Hs Hi. apply Habs; [|done]. apply contains_true.
    assert (forallb (fun i => contains (guestSection :: guestRules) i.1.1) recipe_items = true) as Hall by reflexivity.
    rewrite forallb_elem in Hall. by apply Hall. }
  { exact E1. }
  { exact Hl. }
  split; [|intros c' Hne; by rewrite O2, O1, O3, O4]. rewrite H2. f_equal. apply recipe_made.
Qed.
End Files.
