(* ===== verification/GuestPromise.v ===== *)
(** * StageGuest keeps guests apart

    The request of internal/adapters/openwrt/wifi_guest.go run against a router
    whose uci keeps its documented behaviour ([UciSections]), and one such router
    in memory. *)

From S2P Require Import Prelude GoStrings GoNet Effects Network Uci Firewall Stage Discipline Lan LanThms Routes Devices DeviceSources.
From S2P Require Import WiFi WiFiGuest GuestIsolation GuestWrite GuestThms GuestIsolated GuestMade GuestWhole GuestStage.

Section Program.
Context {W : Type} (h : router W) `{!UciSections h}.

Abbreviation F := (file (h:=h)).
Abbreviation B := (buses (h:=h)).

(** ** Readings *)

Definition same (w w' : W) : Prop := (forall c, F w' c = F w c) /\ B w' = B w.

Lemma same_refl w : same w w.
Proof. done. Qed.

Lemma same_router_trans w w1 w2 : same w w1 -> same w1 w2 -> same w w2.
Proof. intros [H1 H2] [H3 H4]. split; [intros c; by rewrite H3|congruence]. Qed.

Lemma ends_any {A} (p : prog A) w (Q : W -> A -> Prop) : (forall w a, Q w a) -> ends h p w Q.
Proof. intros H. apply H. Qed.

(** A part that asks nothing. *)
Lemma ends_let {A B} (m : res A) (f : A -> prog (res B)) w (Q : W -> res B -> Prop) :
  (forall a, m = Ok a -> ends h (f a) w Q) -> (forall e, m = Err e -> Q w (Err e)) -> ends h (try_bind (Ret m) f) w Q.
Proof. intros Hok Herr. apply ends_bind, ends_Ret. destruct m; [by apply Hok|by apply ends_Ret, Herr]. Qed.

Lemma reading_ends {A} (p : prog A) w : calls (fun o => only_reads o = true) p -> ends h p w (fun w' _ => same w w').
Proof.
  revert w. induction p as [a|o k IH]; intros w; [done|]. intros [Ho Hk]. apply ends_Do. intros r w1 E.
  eapply ends_mono; [by apply IH|]. intros w2 a H. eapply same_router_trans; [|exact H].
  split; [by eapply kept_files|by eapply kept_buses].
Qed.

Lemma show_ends w c : ends h (exec_cmd ["uci"; "-q"; "show"; c]) w
  (fun w' r => same w w' /\ forall out, r = Ok out -> parseUCISections out = F w c).
Proof.
  apply ends_Do. intros r w1 E. apply ends_Ret. split.
  - split; [by eapply kept_files|by eapply kept_buses].
  - intros out ->. by eapply shown_file.
Qed.

Lemma readConfig_ends m w : ends h (readConfig m) w (fun w' r => same w w' /\
  forall cfg, r = Ok cfg -> cfg = splitWireless (F w "wireless") /\ NoDup (id <$> F w "wireless")).
Proof.
  unfold readConfig. destruct (negb (runs _)); [by apply ends_Ret|].
  eapply ends_seq; [apply show_ends|]. intros w1 [out|e] [Hs H]; apply ends_Ret; (split; [done|]); [|done].
  intros cfg E. rewrite <- (H out eq_refl). destruct (wcRadios _); [done|]. injection E as <-.
  split; [done|apply parseUCISections_NoDup].
Qed.

(** What a guest edit has read. *)
Definition read_from (w : W) (cfg : wifiConfig) (st : guestState) : Prop :=
  stCfg st = cfg /\ stNetwork st = F w "network" /\ stFirewall st = F w "firewall" /\ stDhcp st = F w "dhcp" /\
  stShape st = readGuestShape (F w "network") (F w "firewall") (wcAll cfg) (F w "dhcp") /\
  (stIfacesErr st = None -> stIfaces st = B w).

Lemma readShow_ends w c : ends h (readShow c) w (fun w' r => same w w' /\ forall l, r = Ok l -> l = F w c).
Proof.
  unfold readShow. eapply ends_seq; [apply show_ends|]. intros w1 [out|e] [Hs H]; apply ends_Ret; (split; [done|]); [|done].
  intros l [= <-]. by apply H.
Qed.

Lemma guestStateFor_ends m cfg w : ends h (guestStateFor m cfg) w
  (fun w' r => same w w' /\ forall st, r = Ok st -> read_from w cfg st).
Proof.
  unfold guestStateFor. eapply ends_seq; [apply show_ends|]. intros w1 [nw|e] [Hs1 Hn]; [|by apply ends_Ret].
  specialize (Hn nw eq_refl). eapply ends_try; [apply readShow_ends|..|]; cycle 1.
  { intros w2 e [Hs2 _]. split; [by eapply same_router_trans|done]. }
  intros w2 fw [Hs2 Hfw]. specialize (Hfw fw eq_refl). assert (same w w2) as Hs by (by eapply same_router_trans).
  eapply ends_try; [apply readShow_ends|..|]; cycle 1.
  { intros w3 e [Hs3 _]. split; [by eapply same_router_trans|done]. }
  intros w3 dh [Hs3 Hdh]. specialize (Hdh dh eq_refl). assert (same w w3) as Hs' by (by eapply same_router_trans). cbv zeta.
  assert (fw = F w "firewall") as -> by (rewrite Hfw; apply Hs1).
  assert (dh = F w "dhcp") as -> by (rewrite Hdh; apply Hs). rewrite Hn.
  destruct (negb (wmBus m)).
  { apply ends_Ret. split; [done|]. intros st [= <-]. repeat (split; [done|]). done. }
  apply ends_op. intros r w4 E. assert (same w w4) as Hs4.
  { eapply same_router_trans; [exact Hs'|]. split; [by eapply kept_files|by eapply kept_buses]. }
  apply ends_Ret. split; [done|]. intros st [= <-]. destruct r as [l|e]; repeat (split; [done|]); [|done].
  intros _. cbn. rewrite (listed_buses _ _ _ E). apply Hs'.
Qed.

Lemma readGuestState_ends m w : ends h (readGuestState m) w (fun w' r => same w w' /\ forall st, r = Ok st ->
  read_from w (splitWireless (F w "wireless")) st /\ NoDup (id <$> F w "wireless")).
Proof.
  unfold readGuestState. eapply ends_try; [apply readConfig_ends|..|]; cycle 1.
  { by intros w1 e [Hs _]. }
  intros w1 cfg [Hs Hc]. destruct (Hc cfg eq_refl) as [-> Hnd].
  eapply ends_mono; [apply guestStateFor_ends|]. intros w2 r [Hs2 Hr]. split; [by eapply same_router_trans|].
  intros st E. destruct (Hr st E) as (H1 & H2 & H3 & H4 & H5 & H6). destruct Hs as [Hf Hb]. unfold read_from.
  rewrite !Hf, Hb in *. done.
Qed.

(** ** Writes *)

Definition writable (kv : string * string) : Prop := lacks "=" kv.1 = true /\ nonempty kv.2 = true.

Lemma setAll_ends touched sets w : Forall writable sets -> ends h (setAll touched sets) w
  (fun w' r => r = Ok tt -> B w' = B w /\ sets_done back sets (F w) (F w')).
Proof.
  intros H. revert w. induction H as [|[k v] sets [Hk Hv] _ IH]; intros w; cbn [setAll]; [by apply ends_Ret|].
  unfold uciSet. apply ends_bind, ends_bind, ends_Do. intros r w1 E. apply ends_Ret. destruct r as [out|e]; apply ends_Ret; cbn.
  - eapply ends_mono; [apply IH|]. intros w2 r Hr Er. destruct (Hr Er) as [Hb Hd]. split.
    + rewrite Hb. by eapply kept_buses.
    + exists (F w1). split; [|done]. by eapply set_file.
  - apply ends_bind, ends_any. intros w2 e'. by apply ends_Ret.
Qed.

Lemma addLists_ends touched lists w : Forall writable lists -> ends h (addLists touched lists) w
  (fun w' r => r = Ok tt -> B w' = B w /\ lists_done back lists (F w) (F w')).
Proof.
  intros H. revert w. induction H as [|[k v] lists [Hk Hv] _ IH]; intros w; cbn [addLists]; [by apply ends_Ret|].
  apply ends_bind, ends_Do. intros r w1 E. apply ends_Ret. destruct r as [out|e]; cbn.
  - eapply ends_mono; [apply IH|]. intros w2 r Hr Er. destruct (Hr Er) as [Hb Hd]. split.
    + rewrite Hb. by eapply kept_buses.
    + exists (F w1). split; [|done]. by eapply list_file.
  - apply ends_bind, ends_any. intros w2 e'. by apply ends_Ret.
Qed.

(** ** What is asked for *)

Lemma ValidSSID_nonempty s : ValidSSID s = Ok tt -> nonempty s = true.
Proof. destruct s; [|done]. done. Qed.

Lemma ValidWiFiPassword_nonempty p : ValidWiFiPassword p = Ok tt -> nonempty p = true.
Proof. destruct p; [|done]. done. Qed.

Lemma encryptionFor_ok sec : nonempty (encryptionFor sec) = true -> value_ok (encryptionFor sec).
Proof. unfold encryptionFor. destruct (String.eqb _ _); [done|]. by destruct (String.eqb _ _). Qed.

(** The radios a guest network is put on: each once, with a name of its own. *)
Definition radios_ok (radios : list string) : Prop :=
  NoDup radios /\ Forall (fun r => sectionNameRe r = true) radios.

Lemma add_each_NoDup l acc : NoDup acc -> NoDup (fold_left (fun ids rid => if contains ids rid then ids else ids ++ [rid]) l acc).
Proof.
  revert acc. induction l as [|x l IH]; intros acc H; cbn [fold_left]; [done|]. apply IH.
  destruct (contains acc x) eqn:E; [done|]. apply contains_false in E. apply NoDup_app.
  split; [done|]. split; [|apply NoDup_singleton]. by intros y Hy ->%list_elem_of_singleton.
Qed.

Lemma guestRadios_NoDup cfg asked : NoDup (id <$> wcRadios cfg) -> NoDup (guestRadios cfg asked).
Proof.
  intros H. unfold guestRadios. pose proof (add_each_NoDup asked [] (NoDup_nil_2)) as Ha.
  destruct (fold_left _ _ _) as [|x l]; [|done]. eapply sublist_NoDup; [exact H|]. apply fmap_sublist, sublist_filter.
Qed.

Lemma checkRadios_names cfg ids : checkRadios cfg ids = Ok tt -> Forall (fun r => sectionNameRe r = true) ids.
Proof.
  induction ids as [|r ids IH]; [constructor|]. cbn [checkRadios]. destruct (radioOf cfg r) as [s|]; [|done].
  destruct (sixGHz s); [done|]. destruct (sectionNameRe r) eqn:E; [|done]. cbn [negb]. intros H. by constructor; [|apply IH].
Qed.

Lemma sectionNameRe_ok r : sectionNameRe r = true -> nonempty r = true /\ bare (guestPrefix +:+ r) /\ value_ok r.
Proof.
  intros H. assert (forall c, word_char c = false -> lacks c r = true) as Hl by (intros; by apply sectionNameRe_lacks).
  split; [|split; split; rewrite ?lacks_app, ?Hl by done; done]. unfold sectionNameRe, len_between in H.
  by destruct r.
Qed.

Lemma guestChecks_Ok rng st radios : guestChecks rng st radios = Ok tt ->
  Forall (fun r => sectionNameRe r = true) radios /\ stIfacesErr st = None /\ guestBlocker rng st = None.
Proof.
  unfold guestChecks. destruct radios as [|r radios]; [done|]. destruct (checkRadios _ _) as [[]|] eqn:E; [|done].
  cbn. destruct (stIfacesErr st); [done|]. destruct (guestBlocker rng st) as [[? ?]|]; [done|].
  intros _. split; [by eapply checkRadios_names|done].
Qed.

Lemma candidate_addresses : forallb (fun c => nonempty (routerAddress c) && lacks "'" (routerAddress c) &&
  lacks "010" (routerAddress c)) guestCandidates = true.
Proof. vm_compute. reflexivity. Qed.

Lemma subnet_address ifaces kernel subnet : freeGuestSubnet ifaces kernel = Ok subnet ->
  nonempty (routerAddress subnet) = true /\ value_ok (routerAddress subnet).
Proof.
  unfold freeGuestSubnet. destruct (find_first _ _) as [c|] eqn:E; [|done]. intros [= <-].
  apply find_first_Some in E as [Hin _]. pose proof candidate_addresses as H. rewrite forallb_elem in H.
  specialize (H c Hin). rewrite !andb_true_iff in H. destruct H as [[? ?] ?]. by repeat split.
Qed.

Lemma writable_section section type_ opts : lacks "=" section = true -> nonempty type_ = true ->
  Forall (fun o => lacks "=" o.1 = true /\ nonempty o.2 = true) opts -> Forall writable (newSection section type_ opts).
Proof.
  intros Hs Ht Ho. constructor; [done|]. apply Forall_fmap. eapply Forall_impl; [exact Ho|].
  intros [o v] [Hl Hv]. unfold compose, writable. cbn [fst snd] in *. split; [|done]. by rewrite !lacks_app, Hs, Hl.
Qed.

Ltac plain_options := repeat (apply Forall_cons_2; [split; first [reflexivity | assumption]|]); apply Forall_nil_2.

Lemma pointSets_writable cfg enc radios :
  nonempty (gcSSID cfg) = true -> nonempty (gcPassword cfg) = true -> nonempty enc = true ->
  Forall (fun r => sectionNameRe r = true) radios -> Forall writable (mjoin (M:=list) (pointSets cfg enc <$> radios)).
Proof.
  intros Hssid Hpw Henc. induction 1 as [|r radios Hr _ IH]; [constructor|]. rewrite fmap_cons. cbn [mjoin list_join].
  apply Forall_app_2; [|exact IH]. destruct (sectionNameRe_ok r Hr) as (Hne & [_ Hb] & _).
  apply writable_section; [by rewrite lacks_app|done|]. plain_options.
Qed.

Lemma guestSets_writable cfg enc address wan radios renumber :
  nonempty (gcSSID cfg) = true -> nonempty (gcPassword cfg) = true -> nonempty enc = true ->
  nonempty address = true -> nonempty wan = true -> Forall (fun r => sectionNameRe r = true) radios ->
  Forall writable (guestSets cfg enc address wan radios renumber).
Proof.
  intros Hssid Hpw Henc Ha Hw Hr. pose proof (pointSets_writable cfg enc radios Hssid Hpw Henc Hr) as Hp.
  unfold guestSets, networkSets, zoneSets. repeat apply Forall_app_2; try exact Hp;
    [..|destruct renumber; [by repeat constructor|constructor]| | | | | | | | | |];
    first [apply Forall_nil_2 | apply writable_section; [done..|]; plain_options].
Qed.

Lemma guestLists_writable wan : Forall writable (guestLists wan).
Proof.
  apply Forall_forall. intros kv Hkv.
  assert (forallb (fun kv : string * string => lacks "=" kv.1 && nonempty kv.2) (guestLists wan) = true) as H by reflexivity.
  rewrite forallb_elem in H. specialize (H kv Hkv). by apply andb_true_iff in H.
Qed.

(** ** The promise *)

(** What the next reading of the router finds. *)
Definition seen_in (w : W) : guestState :=
  mkGuestState (splitWireless (F w "wireless")) (F w "network") (F w "firewall") (F w "dhcp")
    (readGuestShape (F w "network") (F w "firewall") (F w "wireless") (F w "dhcp")) (B w) None.

(** Sections have types and names, and nothing is called [guest] but what a guest
    network is made of. *)
Record well_kept (w : W) : Prop := mkWellKept {
  wk_kinds : forall s, s ∈ F w "network" -> kind s <> "";
  wk_ids : forall s, s ∈ F w "firewall" -> nonempty (id s) = true;
  wk_bus : forall i, i ∈ B w -> BName i <> guestSection;
  wk_zone : value_ok (uplinkZone (F w "firewall") (B w)).1 }.

Section Promise.
Context (rng : forall A : Type, gmap string A -> list (string * A)) `{!MapOrder rng}.
Context (before : string -> string -> bool).

Lemma writeGuest_ends cfg enc st radios kernel subnet w :
  clear rng st -> read_from w (splitWireless (F w "wireless")) st -> stIfacesErr st = None -> well_kept w ->
  nonempty (gcSSID cfg) = true -> nonempty (gcPassword cfg) = true -> nonempty enc = true -> value_ok enc ->
  radios_ok radios -> freeGuestSubnet (stIfaces st) (takenElsewhere rng st kernel) = Ok subnet ->
  ends h (writeGuest before cfg enc st radios subnet) w (fun w' r => is_ok r = true ->
    exists cfg' renumber, seen_in w' = made_state st cfg' enc radios subnet renumber).
Proof.
  intros Hcl (Hcfg & Hnw & Hfw & Hdh & _ & Hif) Herr Hwk Hssid Hpw Henc Hencok [Honce Hnames] Hsub. specialize (Hif Herr).
  unfold writeGuest. set (renumber := (guestIPv6 _ _).2).
  destruct (subnet_address _ _ _ Hsub) as [Ha Haok]. destruct (clear_checks rng st Hcl) as (Hw & _).
  eapply ends_try; [apply setAll_ends, guestSets_writable; done|..|done].
  intros w1 [] H1. destruct (H1 eq_refl) as [B1 D1]. clear H1.
  eapply ends_try; [apply addLists_ends, guestLists_writable|..|done].
  intros w2 [] H2. destruct (H2 eq_refl) as [B2 D2]. clear H2. apply ends_Ret. intros _.
  exists (cfg_back back cfg), renumber. unfold guestSets in D1.
  assert (value_ok (uplinkZone (stFirewall st) (stIfaces st)).1) as Hwok by (rewrite Hfw, Hif; apply Hwk).
  assert (Forall (fun r => bare (guestPrefix +:+ r) /\ value_ok r) radios) as Hr.
  { eapply Forall_impl; [exact Hnames|]. intros r ?. by apply sectionNameRe_ok. }
  destruct (nothing_there rng st Hcl) as (N1 & N2 & N3 & N4).
  rewrite Hnw in N1. rewrite Hfw in N2. rewrite Hdh in N3. rewrite Hcfg in N4. cbn [wcAll splitWireless] in N4.
  apply sets_done_app in D1 as (G1 & D1 & D3). apply sets_done_app in D3 as (G2 & D3 & D4).
  apply sets_done_app in D4 as (G3 & D4 & D5).
  apply network_done in D1 as [E1 O1]; [|apply back_ok|done|intros s Hs; destruct (N1 s Hs) as (? & ? & _); done].
  apply points_done in D3 as [E2 O2]; [|apply back_ok|done..|]; cycle 1.
  { intros s Hs. rewrite O1 in Hs by done. by apply N4. }
  apply dhcp_done in D4 as [E3 O3]; [|apply back_ok|]; cycle 1.
  { intros s Hs. rewrite O2, O1 in Hs by done. by apply N3. }
  destruct (firewall_done back back_ok _ Hwok G3 (F w1) (F w2)) as [E4 O4]; [|done|done|].
  { intros s Hs. rewrite O3, O2, O1 in Hs by done. by apply N2. }
  rewrite O1 in E2 by done. rewrite O2, O1 in E3 by done. rewrite O3, O2, O1 in E4 by done.
  unfold seen_in, made_state. rewrite Hcfg, Hnw, Hdh, Hif. cbn [wcAll splitWireless].
  rewrite (O4 "network"), (O3 "network"), (O2 "network"), E1 by done.
  rewrite (O4 "wireless"), (O3 "wireless"), E2 by done.
  rewrite (O4 "dhcp"), E3 by done. rewrite E4, B2, B1. by rewrite Hfw, Hif.
Qed.

(** C5. The guest network StageGuest makes keeps its promise: on every router
    whose uci does what it documents, where the request answers with rows, the
    next reading finds a guest network of the panel's own with nothing in its
    way - no missing or changed rule, no opening, no shared zone, bridge or
    range, no access point that lets its clients see each other. *)
Theorem made_guest_network_has_no_hole m cfg w rows :
  well_kept w -> result h (StageGuest rng before m cfg) w = Ok rows ->
  let w' := after h (StageGuest rng before m cfg) w in
  gsOurs (stShape (seen_in w')) = true /\ guestBlocker rng (seen_in w') = None.
Proof.
  intros Hwk Hr w'.
  assert (ends h (StageGuest rng before m cfg) w (fun w' r => is_ok r = true ->
    gsOurs (stShape (seen_in w')) = true /\ guestBlocker rng (seen_in w') = None)) as H;
    [|apply H; unfold ends; by rewrite Hr].
  clear rows Hr w'. unfold StageGuest.
  apply ends_let; [|done]. intros [] Es%ValidSSID_nonempty.
  apply ends_let; [|done]. intros [] Ep%ValidWiFiPassword_nonempty. cbv zeta.
  set (enc := encryptionFor _). destruct (nonempty enc) eqn:Ee; [|done]. pose proof (encryptionFor_ok _ Ee) as Hok.
  eapply ends_try; [apply readGuestState_ends|..|done].
  intros w1 st [Hs1 Hst]. destruct (Hst st eq_refl) as [Hread Hnd]. clear Hst.
  assert (ends h (guestSupported (stCfg st)) w1 (fun w' _ => same w w')) as Hsup.
  { eapply ends_mono; [apply reading_ends|intros w' a; by apply same_router_trans].
    unfold guestSupported. by destruct (wcRadios _). }
  eapply ends_seq; [exact Hsup|]. clear Hsup. intros w2 sup Hs2.
  destruct (negb sup); [done|]. destruct (gsOurs (stShape st)) eqn:Eo; [done|].
  destruct (gsForeign (stShape st)) eqn:Ef; [done|]. cbn [orb].
  apply ends_let; [|done]. intros [] Hch. destruct (guestChecks_Ok _ _ _ Hch) as (Hnames & Herr & Hfree).
  eapply ends_seq; [eapply ends_mono; [by apply reading_ends|intros w' a H; exact (same_router_trans _ _ _ Hs2 H)]|].
  intros w3 kernel Hs3. apply ends_let; [|done]. intros subnet Hsub.
  assert (read_from w3 (splitWireless (F w3 "wireless")) st) as Hread3.
  { destruct Hread as (H1 & H2 & H3 & H4 & H5 & H6). destruct Hs3 as [Hf Hb]. unfold read_from. rewrite !Hf, Hb. tauto. }
  assert (well_kept w3) as Hwk3.
  { destruct Hwk as [H1 H2 H3 H4]. destruct Hs3 as [Hf Hb]. constructor; try intros x; rewrite ?Hf, ?Hb; auto. }
  assert (clear rng st) as Hcl.
  { destruct Hread3 as (H1 & H2 & H3 & H4 & H5 & H6). specialize (H6 Herr). destruct Hwk3 as [K1 K2 K3 K4].
    constructor; try (intros x; rewrite ?H2, ?H3, ?H6; auto); try done. by rewrite H5, H1, H2, H3, H4. }
  eapply ends_mono; [eapply writeGuest_ends; try done|].
  - split; [|done]. apply guestRadios_NoDup. destruct Hread as (-> & _). cbn [wcRadios splitWireless].
    eapply sublist_NoDup; [exact Hnd|]. apply fmap_sublist, sublist_filter.
  - intros w' r Hr E. destruct (Hr E) as (cfg' & renumber & ->). by eapply (made_is_free rng st Hcl).
Qed.
End Promise.
End Program.
