(* ===== verification/GuestMem.v ===== *)
(** * A router for the guest network, in memory

    A router whose uci keeps configurations as lists of sections: it has every
    law of [UciSections], and a guest network can be made on it. *)

From S2P Require Import Prelude GoStrings GoNet Effects Network Uci Firewall Stage Discipline Lan Routes Devices DeviceSources.
From S2P Require Import WiFi WiFiGuest GuestIsolation GuestWrite GuestThms GuestIsolated GuestMade GuestWhole GuestStage GuestPromise.

#[export] Instance uciSection_eq_dec : EqDecision uciSection.
Proof. solve_decision. Defined.

Record home := mkHome { hmFiles : gmap string (list uciSection); hmBuses : list BusInterface }.

Definition home_file (w : home) : configs := fun c => default [] (hmFiles w !! c).

Definition on_file (c : string) (f : list uciSection -> list uciSection) (w : home) : home :=
  mkHome (<[c := f (home_file w c)]> (hmFiles w)) (hmBuses w).

Lemma on_file_changed c f w : changed c f (home_file w) (home_file (on_file c f w)).
Proof.
  unfold home_file, on_file. cbn. split; [by rewrite lookup_insert_eq|]. intros c' H. by rewrite lookup_insert_ne.
Qed.

(** Sections as uci shows them. *)
Definition show_section (c : string) (s : uciSection) : string :=
  c +:+ "." +:+ id s +:+ "=" +:+ kind s +:+ String "010" "" +:+
  String.concat "" ((fun o : string * string => c +:+ "." +:+ id s +:+ "." +:+ o.1 +:+ "='" +:+ o.2 +:+ "'" +:+ String "010" "") <$> map_to_list (options s)).
Definition show_file (c : string) (l : list uciSection) : string := String.concat "" (show_section c <$> l).

Definition no : res string := Err (Errorf "refused" []).

Definition home_write (verb k v : string) (w : home) : res string * home :=
  match Split "." k with
  | [c; s] => if String.eqb verb "set" then (Ok "", on_file c (add_section s v) w) else (no, w)
  | [c; s; o] =>
      (Ok "", on_file c (on_section s (if String.eqb verb "set" then with_option o v else listed o v)) w)
  | _ => (no, w)
  end.

Definition home_uci (args : list string) (w : home) : res string * home :=
  match args with
  | [_; verb; c] =>
      let text := show_file c (home_file w c) in
      (if String.eqb verb "show" && bool_decide (parseUCISections text = home_file w c) then Ok text else no, w)
  | [verb; kv] =>
      if contains ["set"; "add_list"] verb
      then match Cut "=" kv with Some (k, v) => home_write verb k v w | None => (no, w) end
      else (no, w)
  | _ => (no, w)
  end.

Definition home_router : router home :=
  mkRouter home (fun o w =>
    match o return ans o * home with
    | Exec (_ :: args) => home_uci args w
    | BusInterfaces => (Ok (hmBuses w), w)
    | ReadFile path => (if String.eqb path netifdWirelessScript then Ok "bridge_isolate" else no, w)
    | o => (refuse o, w)
    end).

Lemma home_uci_buses args w : hmBuses (home_uci args w).2 = hmBuses w.
Proof. unfold home_uci, home_write. repeat case_match; reflexivity. Qed.

Lemma home_uci_reads args w :
  only_reads (Exec ("uci" :: args)) = true -> (home_uci args w).2 = w.
Proof.
  intros H. unfold home_uci. destruct args as [|a [|b [|c [|? ?]]]]; try done.
  destruct (contains _ a) eqn:E; [|done]. apply contains_true in E. rewrite !elem_of_cons in E.
  by destruct E as [->|[->|E%not_elem_of_nil]].
Qed.

Lemma Cut_key key value : lacks "=" key = true -> Cut "=" (key +:+ "=" +:+ value) = Some (key, value).
Proof. intros H. assert (forall x, "=" +:+ x = String "=" x) as -> by done. by apply Cut_sep. Qed.

#[export] Program Instance home_sections : UciSections home_router :=
  {| file := home_file; buses := hmBuses; back v := v |}.
Next Obligation. done. Qed.
Next Obligation.
  intros w c out w' H. cbn in H. case_bool_decide; simplify_eq. done.
Qed.
Next Obligation. intros w l w' H. cbn in H. by simplify_eq. Qed.
Next Obligation.
  intros o w r w' H Ho c. destruct o; cbn in H; simplify_eq; try done.
  destruct argv as [|p args]; [by simplify_eq|].
  destruct (decide (p = "uci")) as [->|Hp].
  - pose proof (home_uci_reads args w Ho) as E. rewrite H in E. cbn in E. by subst.
  - exfalso. revert Ho. cbn. repeat (case_match; try done).
Qed.
Next Obligation.
  intros o w r w' H. destruct o; cbn in H; simplify_eq; try done.
  destruct argv as [|p args]; [by simplify_eq|]. pose proof (home_uci_buses args w) as E. by rewrite H in E.
Qed.
Next Obligation.
  intros w key value out w' H Hk _. cbn -[String.append] in H. rewrite Cut_key in H by done. unfold home_write in H. unfold set_done.
  change (contains ["set"; "add_list"] "set") with true in H.
  destruct (Split "." key) as [|c [|s [|o [|? ?]]]]; cbn in H; simplify_eq; try done; apply on_file_changed.
Qed.
Next Obligation.
  intros w key value out w' H Hk _. cbn -[String.append] in H. rewrite Cut_key in H by done. unfold home_write in H. unfold listed_done.
  change (contains ["set"; "add_list"] "add_list") with true in H.
  destruct (Split "." key) as [|c [|s [|o [|? ?]]]]; cbn in H; simplify_eq; try done; apply on_file_changed.
Qed.

(** ** A home with no guest network *)

Definition option_table : list (string * string) -> gmap string string := list_to_map.

Definition a_lan : BusInterface :=
  mkBusInterface "lan" true 100 "static" "br-lan" "br-lan" [mkAddress "192.168.1.1" 24] [] [] [] [].
Definition a_wan : BusInterface :=
  mkBusInterface "wan" true 100 "dhcp" "eth0" "eth0" [mkAddress "192.168.3.7" 24] [] [mkBusRoute "0.0.0.0" 0 "192.168.3.1"] [] [].

Definition a_home : home := mkHome (list_to_map [
  ("network", [mkSection "lan" "interface" (option_table [("device", "br-lan"); ("proto", "static"); ("ipaddr", "192.168.1.1")]);
               mkSection "wan" "interface" (option_table [("device", "eth0"); ("proto", "dhcp")])]);
  ("wireless", [mkSection "radio0" "wifi-device" (option_table [("band", "2g")]);
                mkSection "home0" "wifi-iface" (option_table [("device", "radio0"); ("mode", "ap"); ("network", "lan"); ("ssid", "Home")])]);
  ("firewall", [mkSection "zone_lan" "zone" (option_table [("name", "lan"); ("network", "lan"); ("input", "ACCEPT"); ("forward", "ACCEPT")]);
                mkSection "zone_wan" "zone" (option_table [("name", "wan"); ("network", "wan"); ("input", "REJECT"); ("forward", "REJECT"); ("masq", "1")]);
                mkSection "zone_lab" "zone" (option_table [("name", "lab"); ("subnet", "192.168.4.0/23")]);
                mkSection "home_out" "forwarding" (option_table [("src", "lan"); ("dest", "wan")])]);
  ("dhcp", [mkSection "lan" "dhcp" (option_table [("interface", "lan"); ("start", "100")])])]) [a_lan; a_wan].

Definition a_wifi : wifiManager := mkWifiManager a_manager true.
Definition a_guest : GuestConfig := mkGuestConfig "Guests' own" "correct horse" "" [].

Definition by_key_map (A : Type) (m : gmap string A) : list (string * A) := map_to_list m.
Lemma by_key_map_order : MapOrder by_key_map.
Proof. by intros A m. Qed.
Definition by_text (a b : string) : bool := String.ltb a b.

Definition guest_run : prog (res (list ConfigChange)) := StageGuest by_key_map by_text a_wifi a_guest.
Definition guest_rows : list ConfigChange :=
  [mkChange "Guest network" "wireless.guest.section" "" "on|2.4|Guests' own" true "network.guest" ""].

Lemma a_home_kept : well_kept home_router a_home.
Proof.
  constructor.
  - intros s Hs.
    assert (forallb (fun s => nonempty (kind s)) (home_file a_home "network") = true) as H by reflexivity.
    rewrite forallb_elem in H. specialize (H s Hs). by destruct (kind s).
  - intros s Hs.
    assert (forallb (fun s => nonempty (id s)) (home_file a_home "firewall") = true) as H by reflexivity.
    rewrite forallb_elem in H. by apply H.
  - intros i Hi.
    assert (forallb (fun i => negb (String.eqb (BName i) guestSection)) (hmBuses a_home) = true) as H by reflexivity.
    rewrite forallb_elem in H. specialize (H i Hi). by apply negb_true_iff, String.eqb_neq in H.
  - split; vm_compute; reflexivity.
Defined.

Lemma made_guest_network_has_no_hole_witness :
  result home_router guest_run a_home = Ok guest_rows /\
  let w' := after home_router guest_run a_home in
  gsOurs (stShape (seen_in home_router w')) = true /\ guestBlocker by_key_map (seen_in home_router w') = None.
Proof.
  split; [vm_compute; reflexivity|]. pose proof by_key_map_order.
  apply (made_guest_network_has_no_hole home_router by_key_map by_text a_wifi a_guest a_home guest_rows a_home_kept).
  vm_compute. reflexivity.
Defined.

(** The state after it. *)
Definition a_guest_state : guestState := seen_in home_router (after home_router guest_run a_home).

Lemma a_guest_state_read : well_read a_guest_state.
Proof.
  constructor.
  - intros s Hs.
    assert (forallb (fun s => nonempty (id s)) (stFirewall a_guest_state) = true) as H by (vm_compute; reflexivity).
    rewrite forallb_elem in H. by apply H.
  - apply (bool_decide_unpack _). vm_compute. exact I.
  - vm_compute. discriminate.
  - reflexivity.
Defined.

