(* ===== verification/GuestSafety.v ===== *)
(** * What a guest edit leaves behind

    The requests of internal/adapters/openwrt/wifi_guest.go write to the sections
    of the guest network and to nothing else but the home network's prefix
    length; one that fails has taken back every key it wrote, or says which it
    could not. *)

From S2P Require Import Prelude GoStrings GoNet Effects Network Uci Firewall Stage Discipline Lan Routes Devices DeviceSources.
From S2P Require Import WiFi WiFiGuest GuestIsolation GuestWrite GuestMade GuestStage GuestMem.

(** ** The keys of a draft *)

(** The key a command writes to. *)
Definition key_of_arg (arg : string) : string := match Cut "=" arg with Some (k, _) => k | None => arg end.

(** What [uci revert key] takes back: the key, and everything in it. *)
Definition covers (key k : string) : bool := String.eqb k key || HasPrefix (key +:+ ".") k.

(** The keys written to and not taken back since. *)
Definition kept (s : gset string) (e : event) : gset string :=
  match e with
  | Did (Exec ["uci"; verb; arg]) r =>
      if negb (is_ok (r : res string)) then s
      else if String.eqb verb "revert" then filter (fun k => covers arg k = false) s
      else if writes verb then {[key_of_arg arg]} ∪ s else s
  | _ => s
  end.

(** The guest network's own: its sections, and the length the home network's
    prefix is given. *)
Definition guest_arg (arg : string) : bool :=
  contains [lanAssignKey; lanAssignKey +:+ "=" +:+ Itoa guestAssign] arg ||
  match Cut "." (entry_of arg) with Some (c, s) => isGuestSection c s | None => false end.

Definition guest_only (o : op) : Prop :=
  match o with
  | Exec ("uci" :: verb :: arg :: _) => writes verb || String.eqb verb "revert" = true -> guest_arg arg = true
  | WriteFile _ _ | Rename _ _ | Remove _ | WriteTemp _ _ => False
  | _ => True
  end.

Abbreviation gobs := (wp (fun _ => guest_only) kept).

(** ** Readings *)

Lemma reads_quiet o : only_reads o = true -> guest_only o /\ forall s r, kept s (Did o r) = s.
Proof.
  destruct o; try done. destruct argv as [|p args]; [done|]. cbn [only_reads].
  destruct (decide (p = "uci")) as [->|Hp]; [|intros H; exfalso; revert H; cbn; repeat (case_match; try done)].
  intros H. destruct args as [|a args]; [done|].
  assert (a = "-q" \/ contains ["show"; "get"; "changes"] a = true) as Ha.
  { destruct (decide (a = "-q")) as [->|Hne]; [by left|right]. revert H. repeat (case_match; try done). }
  assert (writes a || String.eqb a "revert" = false) as Hw.
  { destruct Ha as [->|Ha]; [done|]. apply contains_true in Ha. rewrite !elem_of_cons in Ha.
    by destruct Ha as [->|[->|[->|Ha%not_elem_of_nil]]]. }
  split.
  - cbn. destruct args; [done|]. by rewrite Hw.
  - apply orb_false_iff in Hw as [Hw Hr]. intros s r. destruct args as [|b [|? ?]]; cbn; [done| |done].
    rewrite Hw, Hr. by destruct (negb _).
Qed.

(** A property of a program's answer, whatever it is answered. *)
Definition yields {A} (p : prog A) (P : A -> Prop) : Prop := hearing [] p (fun _ a => P a).

Lemma gobs_reading {A} s (p : prog A) (P : A -> Prop) (Q : gset string -> A -> Prop) l :
  calls (fun o => only_reads o = true) p -> hearing l p (fun _ a => P a) -> (forall a, P a -> Q s a) -> gobs s p Q.
Proof.
  intros Hc Hy HQ. revert l Hc Hy. induction p as [a|o k IH]; intros l; cbn [calls wp]; [by intros _ ?; apply HQ|].
  intros [Ho Hk] [_ Hy]. destruct (reads_quiet o Ho) as [Hg Hs]. split; [done|]. intros r. rewrite Hs. by eapply IH.
Qed.

Lemma gobs_any_reading {A} s (p : prog A) (Q : gset string -> A -> Prop) :
  calls (fun o => only_reads o = true) p -> (forall a, Q s a) -> gobs s p Q.
Proof. intros Hc HQ. eapply (gobs_reading s p (fun _ => True) Q []); [done|by apply hearing_any|auto]. Qed.

(** Every access point a reading calls the panel's own has its name. *)
Definition own_names (st : guestState) : Prop := Forall (fun s => HasPrefix guestPrefix (id s) = true) (gsOwned (stShape st)).

Lemma readGuestShape_names nw fw wl dh : Forall (fun s => HasPrefix guestPrefix (id s) = true) (gsOwned (readGuestShape nw fw wl dh)).
Proof.
  unfold readGuestShape. destruct (_ || _); [|constructor]. cbn [gsOwned]. apply Forall_forall.
  by intros s [? _]%list_elem_of_filter.
Qed.

Lemma readGuestState_yields m l : hearing l (readGuestState m) (fun _ r => forall st, r = Ok st -> own_names st).
Proof.
  assert (forall l (cfg : wifiConfig), hearing l (guestStateFor m cfg) (fun _ r => forall st, r = Ok st -> own_names st)) as H.
  { intros l0 cfg. unfold guestStateFor, showConfig, readShow. split; [done|]. intros [nw|e]; [|done].
    split; [done|]. intros [fw|e]; [|done]. split; [done|]. intros [dh|e]; [|done]. cbn -[readGuestShape].
    destruct (negb (wmBus m)); [|split; [done|]; intros [ifs|e]]; intros st [= <-]; apply readGuestShape_names. }
  unfold readGuestState. eapply (hearing_try _ _ _ (fun _ _ => True) (fun _ st => own_names st)); [by apply hearing_any|].
  intros l' cfg _. apply H.
Qed.

Lemma readGuestState_reads m : calls (fun o => only_reads o = true) (readGuestState m).
Proof.
  assert (forall cfg, calls (fun o => only_reads o = true) (guestStateFor m cfg)) as H.
  { intros cfg. unfold guestStateFor, showConfig, readShow. split; [done|]. intros [nw|e]; [|done].
    split; [done|]. intros [fw|e]; [|done]. split; [done|]. intros [dh|e]; [|done]. cbn -[readGuestShape].
    destruct (negb (wmBus m)); [done|]. split; [done|]. by intros [ifs|e]. }
  unfold readGuestState, readConfig. apply calls_try; [|apply H].
  destruct (negb (runs _)); [done|]. split; [done|]. by intros [out|e].
Qed.

Lemma readGuestState_gobs m s (Q : gset string -> res guestState -> Prop) :
  (forall st, own_names st -> Q s (Ok st)) -> (forall e, Q s (Err e)) -> gobs s (readGuestState m) Q.
Proof.
  intros Hok Herr. eapply gobs_reading; [apply readGuestState_reads|apply (readGuestState_yields m [])|].
  intros [st|e] H; [by apply Hok, H|by apply Herr].
Qed.

(** ** Keys *)

Lemma Join_cons sep a b l : Join sep (a :: b :: l) = a +:+ sep +:+ Join sep (b :: l).
Proof. reflexivity. Qed.

Lemma Join_Split sep s : Join (String sep "") (Split sep s) = s.
Proof.
  induction s as [|c s IH]; [done|]. cbn [Split]. case_decide as Hc.
  - subst c. destruct (Split sep s) as [|a l] eqn:E; [by destruct s; cbn in E; repeat case_match|].
    rewrite Join_cons, IH. done.
  - destruct (Split sep s) as [|a [|b l]] eqn:E; [by destruct s; cbn in E; repeat case_match|by rewrite <- IH|].
    rewrite Join_cons in *. by rewrite <- IH.
Qed.

Lemma uciKeyRe_lacks k : uciKeyRe k = true -> lacks "=" k = true.
Proof.
  assert (forall a, sectionNameRe a = true -> lacks "=" a = true) as Hn by (intros; by apply sectionNameRe_lacks).
  assert (forall a, key_part a = true -> lacks "=" a = true) as Hp.
  { intros [|c r]; [done|]. cbn [key_part]. rewrite lacks_cons, !andb_true_iff. intros [[Hc Hr] _]. split.
    - apply bool_decide_eq_true. by intros ->.
    - unfold lacks. revert Hr. induction r as [|d r IH]; [done|]. cbn [all_chars]. rewrite !andb_true_iff. intros [Hd Hr].
      split; [|by apply IH]. apply bool_decide_eq_true. by intros ->. }
  intros H. rewrite <- (Join_Split "." k). apply lacks_Join; [done|]. revert H. unfold uciKeyRe.
  destruct (Split "." k) as [|a [|b [|c [|? ?]]]]; try done; rewrite !andb_true_iff.
  - intros [Ha Hb]. repeat constructor; auto.
  - intros [[Ha Hb] Hc]. repeat constructor; auto.
Qed.

Lemma key_of_set k v : lacks "=" k = true -> key_of_arg (k +:+ "=" +:+ v) = k.
Proof. intros H. unfold key_of_arg. assert (forall x, "=" +:+ x = String "=" x) as -> by done. by rewrite Cut_sep. Qed.

Lemma key_of_key k : lacks "=" k = true -> key_of_arg k = k.
Proof.
  intros H. unfold key_of_arg. destruct (Cut "=" k) as [[a b]|] eqn:E; [|done]. apply Cut_Some in E as [-> _].
  rewrite lacks_app, lacks_cons, andb_comm in H. by bool_to_prop.
Qed.

Lemma covers_itself k : covers k k = true.
Proof. unfold covers. by rewrite String.eqb_refl. Qed.

(** The section of a key covers what is written to it. *)
Lemma sectionOf_covers key v : uciKeyRe (sectionOf key) = true -> covers (sectionOf key) (key_of_arg (key +:+ "=" +:+ v)) = true.
Proof.
  pose proof (Join_Split "." key) as E. unfold sectionOf.
  destruct (Split "." key) as [|a [|b rest]] eqn:Es; [by destruct key; cbn in Es; repeat case_match|..].
  { intros H. exfalso. revert H. unfold uciKeyRe. by rewrite Es. }
  rewrite Join_cons in E. intros H. pose proof (uciKeyRe_lacks _ H) as Hl. destruct rest as [|c rest].
  - cbn [Join String.concat] in E. rewrite <- E. rewrite key_of_set by done. apply covers_itself.
  - rewrite Join_cons in E. set (y := Join _ _) in E.
    assert (key +:+ "=" +:+ v = (a +:+ "." +:+ b) +:+ ("." +:+ (y +:+ "=" +:+ v))) as -> by (rewrite <- E, <- !append_assoc; done).
    unfold key_of_arg. rewrite Cut_prefix by done. unfold covers. apply orb_true_iff. right.
    assert (forall x, Cut "=" ("." +:+ x) = match Cut "=" x with Some (p, q) => Some ("." +:+ p, q) | None => None end) as ->
      by (intros x; apply (Cut_prefix "=" "."); done).
    destruct (Cut "=" (y +:+ "=" +:+ v)) as [[p q]|];
      rewrite (append_assoc (a +:+ "." +:+ b) "."); apply HasPrefix_app.
Qed.

(** The key of one of the guest network's access points. *)
Lemma point_arg x : guest_arg ("wireless." +:+ guestPrefix +:+ x) = true.
Proof.
  unfold guest_arg. apply orb_true_iff. right. unfold entry_of.
  assert (exists y, match Cut "=" ("wireless." +:+ guestPrefix +:+ x) with Some (k, _) => k | None => "wireless." +:+ guestPrefix +:+ x end =
    "wireless." +:+ guestPrefix +:+ y) as [y ->].
  { rewrite append_assoc, Cut_prefix by done. destruct (Cut "=" x) as [[p q]|]; eexists; by rewrite append_assoc. }
  assert (forall z, Cut "." ("wireless" +:+ "." +:+ z) = Some ("wireless", z)) as Hc by (intros z; by apply (Cut_sep "." "wireless" z)).
  change ("wireless." +:+ guestPrefix +:+ y) with ("wireless" +:+ "." +:+ (guestPrefix +:+ y)). rewrite Hc.
  rewrite (Cut_prefix "." guestPrefix y) by done. destruct (Cut "." y) as [[p q]|]; rewrite Hc; unfold isGuestSection;
    by rewrite HasPrefix_app, orb_true_r.
Qed.

Lemma prefix_rest a s : HasPrefix a s = true -> exists r, s = a +:+ r.
Proof.
  revert s. induction a as [|c a IH]; intros s H; [by exists s|]. destruct s as [|d s]; [done|]. cbn in H.
  apply andb_true_iff in H as [Hc H]. apply bool_decide_eq_true in Hc as ->. destruct (IH s H) as [r ->].
  exists r. by rewrite append_cons.
Qed.

Lemma own_name_arg sid x : HasPrefix guestPrefix sid = true -> guest_arg ("wireless." +:+ sid +:+ x) = true.
Proof. intros [r ->]%prefix_rest. rewrite <- append_assoc. apply point_arg. Qed.

(** ** Taking back *)

(** Nothing the request wrote is left, or the error names what could not be
    taken back besides what went wrong first. *)
Definition taken_back (s : gset string) (e : err) : Prop :=
  s = ∅ \/ exists cause e1 errs, e = joined cause (e1 :: errs).

(** A key that is taken back with one of [touched], if that is a key at all. *)
Definition covered (touched : list string) (k : string) : Prop :=
  exists t, t ∈ touched /\ (uciKeyRe t = true -> covers t k = true).

Lemma covered_more t1 t2 k : covered t1 k -> covered (t1 ++ t2) k.
Proof. intros (t & Ht & H). exists t. split; [|done]. apply elem_of_app. by left. Qed.

Lemma discardEach_gobs keys seen s (Q : gset string -> list err -> Prop) :
  Forall (fun k => guest_arg k = true) keys ->
  (forall s' errs, s' ⊆ s ->
    (errs = [] -> forall k t, k ∈ s' -> t ∈ keys -> t ∉ seen -> uciKeyRe t = true /\ covers t k = false) -> Q s' errs) ->
  gobs s (discardEach seen keys) Q.
Proof.
  intros Hk. revert seen s Q. induction Hk as [|key keys Hkey _ IH]; intros seen s Q HQ; cbn [discardEach wp].
  { apply HQ; [done|]. intros _ k t _ ?%not_elem_of_nil. done. }
  destruct (contains seen key) eqn:Es.
  { apply IH. intros s' errs Hs He. apply HQ; [done|]. intros E k t Hk [->|Ht]%elem_of_cons Hns; [|by eapply He].
    apply contains_true in Es. done. }
  unfold revertKey. apply wp_bind. destruct (uciKeyRe key) eqn:Ek; cbn [negb].
  - cbn -[kept discardEach]. split; [by intros _|]. intros r. apply wp_bind, IH. intros s' errs Hs He. cbn [wp].
    assert (kept s (Did (Exec ["uci"; "revert"; key]) r) = if is_ok r then filter (fun k => covers key k = false) s else s) as E
      by (cbn; by destruct (is_ok r)).
    rewrite E in Hs. apply HQ.
    + destruct (is_ok r); [|done]. etrans; [exact Hs|]. intros x [_ Hx]%elem_of_filter. done.
    + intros Herr k t Hk Ht Hns. destruct r as [out|e]; [|done]. cbn in Herr, Hs.
      apply elem_of_cons in Ht as [->|Ht].
      * split; [done|]. apply Hs, elem_of_filter in Hk as [? _]. done.
      * destruct (decide (t = key)) as [->|Hne]; [split; [done|]; by apply Hs, elem_of_filter in Hk as [? _]|].
        eapply He; [done|done|done|]. apply not_elem_of_cons. done.
  - cbn -[discardEach]. apply wp_bind, IH. intros s' errs Hs He. cbn [wp]. by apply HQ.
Qed.

Lemma discard_gobs {A} cause keys s (Q : gset string -> res A -> Prop) :
  Forall (fun k => guest_arg k = true) keys -> (forall k, k ∈ s -> covered keys k) ->
  (forall s' e, taken_back s' e -> Q s' (Err e)) ->
  gobs s (e <- discard cause keys ;; Ret (Err e)) Q.
Proof.
  intros Hk Hs HQ. unfold discard. apply wp_bind, wp_bind, discardEach_gobs; [done|]. intros s' errs Hsub Herr. cbn [wp].
  apply HQ. destruct errs as [|e1 errs]; [left|right; eauto]. apply set_eq. intros k. split; [|set_solver]. intros Hin.
  destruct (Hs k) as (t & Ht & Hc); [by apply Hsub|]. destruct (Herr eq_refl k t Hin Ht) as [Hre Hno]; [apply not_elem_of_nil|].
  by rewrite Hc in Hno.
Qed.

(** A request under way: what it wrote is covered by what a failure takes back. *)
Definition under_way {A} (touched : list string) (s : gset string) (r : res A) : Prop :=
  match r with Ok _ => forall k, k ∈ s -> covered touched k | Err e => taken_back s e end.

(** One write: the key it adds, or a failure. *)
Lemma write_gobs {A B} argv verb arg s (f : res A -> prog B) (g : res string -> res A) (Q : gset string -> B -> Prop) :
  argv = ["uci"; verb; arg] -> writes verb = true -> guest_arg arg = true ->
  (forall out, gobs ({[key_of_arg arg]} ∪ s) (f (g (Ok out))) Q) -> (forall e, gobs s (f (g (Err e))) Q) ->
  gobs s (prog_bind (r <- exec_cmd argv ;; Ret (g r)) f) Q.
Proof.
  intros -> Hw Hg Hok Herr. apply wp_bind, wp_bind. cbn [exec_cmd wp]. split; [by intros _|].
  assert (String.eqb verb "revert" = false) as Hr by (apply String.eqb_neq; by intros ->).
  intros [out|e]; cbn [wp kept is_ok negb]; [|apply Herr]. rewrite Hr, Hw. apply Hok.
Qed.

Definition allowed_write (touched : list string) (arg : string) : Prop :=
  guest_arg arg = true /\ covered touched (key_of_arg arg).

Lemma cover_one touched k (s : gset string) : covered touched k -> (forall k, k ∈ s -> covered touched k) ->
  forall k', k' ∈ ({[k]} ∪ s : gset string) -> covered touched k'.
Proof. intros H Hs k' [->%elem_of_singleton|Hk]%elem_of_union; [done|by apply Hs]. Qed.

Section Touched.
Context (touched : list string) (Htouched : Forall (fun k => guest_arg k = true) touched).

Lemma setAll_gobs sets s : Forall (fun kv => allowed_write touched (kv.1 +:+ "=" +:+ kv.2)) sets ->
  (forall k, k ∈ s -> covered touched k) -> gobs s (setAll touched sets) (under_way touched).
Proof.
  intros H. revert s. induction H as [|[k v] sets [Hg Hc] _ IH]; intros s Hs; cbn [setAll wp]; [done|].
  unfold uciSet. eapply write_gobs; [done|done|exact Hg|..].
  - intros out. apply IH. by apply cover_one.
  - intros e. cbn beta iota. by apply discard_gobs.
Qed.

Lemma addLists_gobs lists s : Forall (fun kv => allowed_write touched (kv.1 +:+ "=" +:+ kv.2)) lists ->
  (forall k, k ∈ s -> covered touched k) -> gobs s (addLists touched lists) (under_way touched).
Proof.
  intros H. revert s. induction H as [|[k v] lists [Hg Hc] _ IH]; intros s Hs; cbn [addLists wp]; [done|].
  apply wp_bind. cbn [exec_cmd wp]. split; [by intros _|].
  intros [out|e].
  - apply IH. by apply cover_one.
  - by apply discard_gobs.
Qed.
End Touched.

(** ** Every key of the guest network is its own *)

Lemma section_arg arg :
  match Cut "." (entry_of arg) with Some (c, s) => isGuestSection c s | None => false end = true -> guest_arg arg = true.
Proof. intros H. unfold guest_arg. by rewrite H, orb_true_r. Qed.

(** A key, written to or taken back. *)
Definition own_key (kv : string * string) : Prop :=
  guest_arg (kv.1 +:+ "=" +:+ kv.2) = true /\
  guest_arg (if String.eqb kv.1 lanAssignKey then kv.1 else sectionOf kv.1) = true.

Ltac own_keys := repeat (apply Forall_cons_2; [split; [apply section_arg|]; reflexivity|]); apply Forall_nil_2.

Lemma point_section x : exists y, sectionOf ("wireless." +:+ guestPrefix +:+ x) = "wireless." +:+ guestPrefix +:+ y.
Proof.
  unfold sectionOf. change ("wireless." +:+ guestPrefix +:+ x) with ("wireless" +:+ String "." (guestPrefix +:+ x)).
  rewrite Split_sep by done. unfold guestPrefix. rewrite !append_cons, append_nil_l. cbn [Split].
  repeat (rewrite decide_False by done). destruct (Split "." x) as [|y l]; [by exists ""|by exists y].
Qed.

Lemma pointSets_own cfg enc radios : Forall own_key (mjoin (M:=list) (pointSets cfg enc <$> radios)).
Proof.
  apply Forall_forall. intros kv (l & Hkv & Hl)%list_elem_of_join. apply list_elem_of_fmap in Hl as (rid & -> & _).
  assert (exists x, kv.1 = "wireless." +:+ guestPrefix +:+ x) as [x E].
  { apply elem_of_cons in Hkv as [->|Hkv]; [by exists rid|]. apply list_elem_of_fmap in Hkv as (o & -> & _). cbn [fst].
    exists (rid +:+ "." +:+ o.1). by rewrite !append_assoc. }
  unfold own_key. rewrite E. split.
  - rewrite <- !append_assoc. apply point_arg.
  - destruct (String.eqb _ _); [apply point_arg|]. destruct (point_section x) as [y ->]. apply point_arg.
Qed.

Lemma guestSets_own cfg enc address wan radios renumber : Forall own_key (guestSets cfg enc address wan radios renumber).
Proof.
  unfold guestSets. apply Forall_app_2; [|apply Forall_app_2; [apply pointSets_own|]].
  - unfold networkSets. repeat apply Forall_app_2; [own_keys|own_keys|]. destruct renumber; [|constructor].
    constructor; [by split|constructor].
  - repeat apply Forall_app_2; own_keys.
Qed.

Lemma guestLists_own wan : Forall own_key (guestLists wan).
Proof. own_keys. Qed.

Lemma touchedBy_own sets : Forall own_key sets -> Forall (fun k => guest_arg k = true) (touchedBy sets).
Proof. intros H. apply Forall_fmap. eapply Forall_impl; [exact H|]. by intros kv [_ ?]. Qed.

(** What is written is covered by what is taken back. *)
Lemma touchedBy_covers sets kv : kv ∈ sets -> covered (touchedBy sets) (key_of_arg (kv.1 +:+ "=" +:+ kv.2)).
Proof.
  intros H. exists (if String.eqb kv.1 lanAssignKey then kv.1 else sectionOf kv.1). split.
  - unfold touchedBy. apply (list_elem_of_fmap_2' _ _ kv); [done|]. by destruct (String.eqb _ _).
  - intros Hre. destruct (String.eqb_spec kv.1 lanAssignKey) as [E|E]; [|by apply sectionOf_covers].
    rewrite E, key_of_set by done. apply covers_itself.
Qed.

Lemma guestSets_allowed sets : Forall own_key sets ->
  Forall (fun kv => allowed_write (touchedBy sets) (kv.1 +:+ "=" +:+ kv.2)) sets.
Proof.
  rewrite !Forall_forall. intros H kv Hin. split; [by apply H|by apply touchedBy_covers].
Qed.

Lemma guestLists_allowed cfg enc address wan radios renumber :
  Forall (fun kv => allowed_write (touchedBy (guestSets cfg enc address wan radios renumber)) (kv.1 +:+ "=" +:+ kv.2)) (guestLists wan).
Proof.
  pose proof (guestLists_own wan) as H. rewrite Forall_forall in H |- *. intros kv Hin. split; [by apply H|].
  assert (forallb (fun kv => contains ["firewall.guest_icmpv6"; "firewall.guest_no_private4"; "firewall.guest_no_private6"]
    (sectionOf kv.1)) (guestLists wan) = true) as Hs by reflexivity.
  rewrite forallb_elem in Hs. specialize (Hs kv Hin). apply contains_true in Hs.
  exists (sectionOf kv.1). split; [|apply sectionOf_covers].
  assert (forall sid, sid ∈ ["firewall.guest_icmpv6"; "firewall.guest_no_private4"; "firewall.guest_no_private6"] ->
    sid ∈ touchedBy (mjoin (M:=list) (ruleSets <$> guestRuleSpecs wan))) as Hin'.
  { intros sid Hsid. apply contains_true. rewrite !elem_of_cons in Hsid.
    by destruct Hsid as [->|[->|[->|Hsid%not_elem_of_nil]]]. }
  unfold touchedBy, guestSets. rewrite !fmap_app, !elem_of_app. right; right; right; right. by apply Hin'.
Qed.

(** ** The requests *)

Definition request_ended {A} (s : gset string) (r : res A) : Prop :=
  match r with Ok _ => True | Err e => taken_back s e end.

(** A refusal before anything is written. *)
Lemma refused_clean {A} e : request_ended ∅ (Err e : res A).
Proof. by left. Qed.

Lemma refused_gobs {A} e : gobs ∅ (Ret (Err e : res A)) request_ended.
Proof. apply refused_clean. Qed.

Lemma gobs_let {A B} (m : res A) (f : A -> prog (res B)) s (Q : gset string -> res B -> Prop) :
  (forall a, m = Ok a -> gobs s (f a) Q) -> (forall e, Q s (Err e)) -> gobs s (try_bind (Ret m) f) Q.
Proof. intros Hok Herr. apply wp_bind. cbn [wp]. destruct m; [by apply Hok|apply Herr]. Qed.

(** After the writes, nothing more is asked. *)
Lemma gobs_then {A B} touched (p : prog (res A)) (f : A -> prog (res B)) s
    (Q : gset string -> res B -> Prop) :
  gobs s p (under_way touched) ->
  (forall s' a, (forall k, k ∈ s' -> covered touched k) -> gobs s' (f a) Q) ->
  (forall s' e, taken_back s' e -> Q s' (Err e)) -> gobs s (try_bind p f) Q.
Proof. intros Hp Hf He. eapply wp_seq; [exact Hp|]. intros s' [a|e] H; [by apply Hf|by apply He]. Qed.

Section Requests.
Context (rng : forall A : Type, gmap string A -> list (string * A)) (before : string -> string -> bool) (m : wifiManager).

Lemma writeGuest_gobs cfg enc st radios subnet : gobs ∅ (writeGuest before cfg enc st radios subnet) request_ended.
Proof.
  unfold writeGuest. set (sets := guestSets _ _ _ _ _ _).
  assert (Forall own_key sets) as Hown by apply guestSets_own. pose proof (touchedBy_own _ Hown) as Ht.
  eapply gobs_then; [apply setAll_gobs; [exact Ht|by apply guestSets_allowed|set_solver]|..|done].
  intros s1 _ H1. eapply gobs_then; [apply addLists_gobs; [exact Ht|apply guestLists_allowed|exact H1]|..|done].
  by intros s2 _ _.
Qed.

Lemma StageGuest_gobs cfg : gobs ∅ (StageGuest rng before m cfg) request_ended.
Proof.
  unfold StageGuest. apply gobs_let; [|apply refused_clean]. intros _ _.
  apply gobs_let; [|apply refused_clean]. intros _ _. cbv zeta. set (enc := encryptionFor _).
  destruct (nonempty enc); [|apply refused_gobs].
  apply wp_bind, readGuestState_gobs; [|intros e; apply refused_gobs]. intros st _.
  apply wp_bind, gobs_any_reading; [unfold guestSupported; by destruct (wcRadios _)|]. intros sup.
  destruct (negb sup); [apply refused_gobs|]. destruct (_ || _); [apply refused_gobs|].
  apply gobs_let; [|apply refused_clean]. intros _ _. apply wp_bind, gobs_any_reading; [done|]. intros kernel.
  apply gobs_let; [|apply refused_clean]. intros subnet _. apply writeGuest_gobs.
Qed.

Lemma flipAll_gobs enabled points touched s : Forall (fun k => guest_arg k = true) touched ->
  Forall (fun p => HasPrefix guestPrefix (id p) = true) points ->
  (forall k, k ∈ s -> covered touched k) -> gobs s (flipAll enabled touched points) request_ended.
Proof.
  intros Ht Hp. revert touched s Ht. induction Hp as [|p points Hname _ IH]; intros touched s Ht Hs; cbn [flipAll]; [done|].
  destruct (flipTo enabled p) as [value|]; [|by apply IH].
  assert (forall x, guest_arg (disabledKey p +:+ x) = true) as Harg.
  { intros x. unfold disabledKey. rewrite <- !append_assoc. by apply own_name_arg. }
  set (touched' := touched ++ [disabledKey p]).
  assert (Forall (fun k => guest_arg k = true) touched') as Ht'.
  { apply Forall_app_2; [done|]. constructor; [|constructor]. by rewrite <- (append_nil_r (disabledKey p)). }
  assert (forall k, k ∈ s -> covered touched' k) as Hs' by (intros; by apply covered_more, Hs).
  assert (forall arg, (lacks "=" (disabledKey p) = true -> key_of_arg arg = disabledKey p) -> covered touched' (key_of_arg arg)) as Hcov.
  { intros arg Hk. exists (disabledKey p). split; [apply elem_of_app; right; by apply list_elem_of_singleton|].
    intros Hre. rewrite Hk by (by apply uciKeyRe_lacks). apply covers_itself. }
  destruct (nonempty value).
  - eapply write_gobs; [done|done|apply Harg|..].
    + intros _. apply IH; [done|]. apply cover_one; [|done]. apply Hcov. intros. by apply key_of_set.
    + intros e. by apply discard_gobs.
  - eapply write_gobs; [done|done|rewrite <- (append_nil_r (disabledKey p)); apply Harg|..].
    + intros _. apply IH; [done|]. apply cover_one; [|done]. apply Hcov. intros. by apply key_of_key.
    + intros e. by apply discard_gobs.
Qed.

Lemma StageGuestEnabled_gobs enabled : gobs ∅ (StageGuestEnabled before m enabled) request_ended.
Proof.
  unfold StageGuestEnabled. apply wp_bind, readGuestState_gobs; [|intros e; apply refused_gobs]. intros st Hnames. cbv zeta.
  destruct (_ || _); [apply refused_gobs|].
  eapply wp_seq; [apply flipAll_gobs; [constructor|exact Hnames|set_solver]|]. by intros s' [a|e] H.
Qed.

Lemma deleteAllKeys_gobs keys done_ s : Forall (fun k => guest_arg k = true) done_ -> Forall (fun k => guest_arg k = true) keys ->
  (forall k, k ∈ s -> covered done_ k) -> gobs s (deleteAllKeys done_ keys) request_ended.
Proof.
  intros Hd Hk. revert done_ s Hd. induction Hk as [|k keys Hg _ IH]; intros done_ s Hd Hs; cbn [deleteAllKeys]; [done|].
  assert (Forall (fun k => guest_arg k = true) (done_ ++ [k])) as Hd' by (apply Forall_app_2; [done|by repeat constructor]).
  assert (forall x, x ∈ s -> covered (done_ ++ [k]) x) as Hs' by (intros; by apply covered_more, Hs).
  cbv zeta. eapply write_gobs; [done|done|exact Hg|..].
  - intros _. apply IH; [done|]. apply cover_one; [|done]. exists k.
    split; [apply elem_of_app; right; by apply list_elem_of_singleton|]. intros Hre.
    rewrite key_of_key by (by apply uciKeyRe_lacks). apply covers_itself.
  - intros e. by apply discard_gobs.
Qed.

Lemma removalKeys_own st : own_names st -> Forall (fun k => guest_arg k = true) (removalKeys st).
Proof.
  intros Hn. unfold removalKeys. repeat apply Forall_app_2.
  - apply Forall_fmap. eapply Forall_impl; [exact Hn|]. intros s Hp. unfold compose.
    rewrite <- (append_nil_r (id s)). by apply own_name_arg.
  - apply Forall_fmap, Forall_forall. intros sid [_ Hs]%list_elem_of_filter. rewrite !elem_of_cons in Hs.
    by destruct Hs as [->|[->|Hs%not_elem_of_nil]].
  - apply Forall_fmap, Forall_forall. by intros s _.
  - apply Forall_fmap, Forall_forall. intros sid [_ Hs]%list_elem_of_filter.
    assert (forallb (fun sid => guest_arg ("firewall." +:+ sid)) (guestSection :: guestRules) = true) as H by reflexivity.
    rewrite forallb_elem in H. by apply H.
Qed.

Lemma StageGuestRemove_gobs : gobs ∅ (StageGuestRemove before m) request_ended.
Proof.
  unfold StageGuestRemove. apply wp_bind, readGuestState_gobs; [|intros e; apply refused_gobs]. intros st Hnames.
  destruct (negb _); [apply refused_gobs|].
  eapply wp_seq; [apply deleteAllKeys_gobs; [constructor|by apply removalKeys_own|set_solver]|]. by intros s' [a|e] H.
Qed.
End Requests.

(** [core.WiFiGuestManager]. *)
Inductive guest_request := AskGuest (cfg : GuestConfig) | AskGuestEnabled (enabled : bool) | AskNoGuest.

Definition serve_guest (rng : forall A : Type, gmap string A -> list (string * A)) (before : string -> string -> bool)
    (m : wifiManager) (r : guest_request) : prog (res (list ConfigChange)) :=
  match r with
  | AskGuest cfg => StageGuest rng before m cfg
  | AskGuestEnabled enabled => StageGuestEnabled before m enabled
  | AskNoGuest => StageGuestRemove before m
  end.

Lemma serve_guest_gobs rng before m r : gobs ∅ (serve_guest rng before m r) request_ended.
Proof. destruct r; [apply StageGuest_gobs|apply StageGuestEnabled_gobs|apply StageGuestRemove_gobs]. Qed.

(** C12. A guest edit touches only the guest network: on every router, whatever
    fails, each entry it writes, deletes or takes back is a section of the guest
    network, or the home network's prefix length, which it only ever sets to
    64 - so no other change in the draft is lost or altered. *)
Theorem guest_edits_touch_only_the_guest_network {W} (h : router W) rng before m r (w : W) :
  Forall (fun e => match e with Did o _ => guest_only o end) (trace h (serve_guest rng before m r) w).
Proof.
  destruct (wp_sound _ _ h _ _ _ w (serve_guest_gobs rng before m r)) as [H _]. revert H.
  generalize (trace h (serve_guest rng before m r) w), (∅ : gset string). induction l as [|[o a] l IH]; intros s; cbn; [done|].
  intros [Ho Hl]. constructor; [done|by eapply IH].
Qed.

(** C11. A guest edit that fails is taken back whole: on every router, when one
    answers with an error, each key it had written has been reverted since -
    unless a revert failed as well, which the error then says besides what went
    wrong first. *)
Theorem failed_guest_edit_is_taken_back {W} (h : router W) rng before m r (w : W) e :
  result h (serve_guest rng before m r) w = Err e ->
  observed kept ∅ (trace h (serve_guest rng before m r) w) = ∅ \/
  exists cause e1 errs, e = joined cause (e1 :: errs).
Proof.
  intros He. destruct (wp_sound _ _ h _ _ _ w (serve_guest_gobs rng before m r)) as [_ H]. by rewrite He in H.
Qed.

(** The home of GuestMem.v, on a flash that is full after thirty writes. *)
Definition full_home : router (home * nat) :=
  mkRouter (home * nat) (fun o w =>
    match o return ans o * (home * nat) with
    | Exec ["uci"; "set"; kv] =>
        match w.2 with
        | 0 => (Err (Errorf "no space left" []), w)
        | S n => let r := answer home_router (Exec ["uci"; "set"; kv]) w.1 in (r.1, (r.2, n))
        end
    | Exec ["uci"; "revert"; k] => (Ok "", w)
    | o => let r := answer home_router o w.1 in (r.1, (r.2, w.2))
    end).

Definition guest_wanted : prog (res (list ConfigChange)) := serve_guest by_key_map by_text a_wifi (AskGuest a_guest).

Lemma failed_guest_edit_is_taken_back_witness :
  length (elements (observed kept ∅ (firstn 38 (trace full_home guest_wanted (a_home, 30))))) = 30 /\
  exists e, result full_home guest_wanted (a_home, 30) = Err e /\
    (observed kept ∅ (trace full_home guest_wanted (a_home, 30)) = ∅ \/
     exists cause e1 errs, e = joined cause (e1 :: errs)).
Proof.
  split; [vm_compute; reflexivity|]. eexists. split; [vm_compute; reflexivity|].
  apply (failed_guest_edit_is_taken_back full_home by_key_map by_text a_wifi (AskGuest a_guest) (a_home, 30)).
  vm_compute. reflexivity.
Defined.

(** A finding: with a second address on the guests' interface nobody looks at the
    ranges of the zones. A zone that holds the guests' whole network - fw4 puts them
    into it by their address - is named while they have one address, and passes as
    soon as they have two. *)
Definition guests_at (addresses : string) : guestState :=
  mkGuestState (splitWireless [])
    [mkSection guestSection "interface" (list_to_map [("ipaddr", addresses); ("netmask", "255.255.255.0")])]
    [mkSection "office" "zone" (list_to_map [("name", "office"); ("subnet", "192.168.3.0/24")])]
    [] (mkShape true false [] [] []) [] None.

Theorem second_address_hides_a_zone :
  subnetTaken by_key_map (guests_at "192.168.3.1") = "firewall.office.subnet" /\
  subnetTaken by_key_map (guests_at "192.168.3.1 10.9.0.1") = "".
Proof. by vm_compute. Qed.
