(* ===== verification/WiFiSafety.v ===== *)
(** * What a Wi-Fi request may do to the router

    The requests of internal/adapters/openwrt/wifi.go and wifi_guest.go as every
    other request: they stage and never commit, and those that throw away the
    draft when they fail leave none of their own. *)

From S2P Require Import Prelude GoStrings GoNet Effects Network Uci Firewall Stage Discipline Lan Routes Devices DeviceSources.
From S2P Require Import RoutesSafety WiFi WiFiGuest GuestIsolation GuestWrite.

(** ** Staging only *)

Lemma readConfig_staging m : calls staging (readConfig m).
Proof. unfold readConfig. solve_calls. Qed.

Lemma facts_staging m rid : calls staging (facts m rid).
Proof. unfold facts. solve_calls. Qed.

#[export] Hint Resolve readConfig_staging facts_staging : staging.

Lemma StageRadio_staging m rid cfg : calls staging (StageRadio m rid cfg).
Proof. unfold StageRadio. solve_calls. Qed.

Lemma stageCountry_staging code radios : calls staging (stageCountry code radios).
Proof. induction radios as [|r radios IH]; cbn [stageCountry]; solve_calls. Qed.

Lemma StageCountry_staging m code : calls staging (StageCountry m code).
Proof. unfold StageCountry. pose proof stageCountry_staging. solve_calls. Qed.

Lemma setAccess_staging writes : calls staging (setAccess writes).
Proof. induction writes as [|[k v] writes IH]; cbn [setAccess]; solve_calls. Qed.

#[export] Hint Resolve setAccess_staging : staging.

Lemma StageAccess_staging m sid cfg : calls staging (StageAccess m sid cfg).
Proof. unfold StageAccess. solve_calls. Qed.

Lemma guestStateFor_staging m cfg : calls staging (guestStateFor m cfg).
Proof. unfold guestStateFor, showConfig, readShow. solve_calls; reflexivity. Qed.

#[export] Hint Resolve StageRadio_staging StageCountry_staging StageAccess_staging guestStateFor_staging : staging.

Lemma readGuestState_staging m : calls staging (readGuestState m).
Proof. unfold readGuestState. solve_calls. Qed.

Lemma discardEach_staging seen keys : calls staging (discardEach seen keys).
Proof.
  revert seen. induction keys as [|k keys IH]; intros seen; cbn [discardEach]; [done|].
  destruct (contains seen k); [apply IH|]. unfold revertKey. solve_calls.
Qed.

#[export] Hint Resolve readGuestState_staging discardEach_staging : staging.

Lemma discard_staging cause keys : calls staging (discard cause keys).
Proof. unfold discard. solve_calls. Qed.

#[export] Hint Resolve discard_staging : staging.

Lemma setAll_staging touched sets : calls staging (setAll touched sets).
Proof. induction sets as [|[k v] sets IH]; cbn [setAll]; solve_calls. Qed.

Lemma addLists_staging touched lists : calls staging (addLists touched lists).
Proof. induction lists as [|[k v] lists IH]; cbn [addLists]; solve_calls. Qed.

Lemma flipAll_staging enabled points touched : calls staging (flipAll enabled touched points).
Proof.
  revert touched. induction points as [|s points IH]; intros touched; cbn [flipAll]; [done|].
  destruct (flipTo enabled s); [|apply IH]. solve_calls.
Qed.

Lemma deleteAllKeys_staging keys done_ : calls staging (deleteAllKeys done_ keys).
Proof. revert done_. induction keys as [|k keys IH]; intros done_; cbn [deleteAllKeys]; [done|]. solve_calls. Qed.

#[export] Hint Resolve setAll_staging addLists_staging flipAll_staging deleteAllKeys_staging : staging.

Section Guest.
Context (rng : forall A : Type, gmap string A -> list (string * A)) (before : string -> string -> bool).

Lemma guestSupported_staging cfg : calls staging (guestSupported cfg).
Proof. unfold guestSupported. solve_calls. Qed.

Lemma StageGuest_staging m cfg : calls staging (StageGuest rng before m cfg).
Proof. pose proof guestSupported_staging. unfold StageGuest, writeGuest. solve_calls. Qed.

Lemma StageGuestEnabled_staging m enabled : calls staging (StageGuestEnabled before m enabled).
Proof. unfold StageGuestEnabled. solve_calls. Qed.

Lemma StageGuestRemove_staging m : calls staging (StageGuestRemove before m).
Proof. unfold StageGuestRemove. solve_calls. Qed.
End Guest.

#[export] Hint Resolve StageGuest_staging StageGuestEnabled_staging StageGuestRemove_staging : staging.

(** ** Tidy failures *)

Lemma readConfig_quiet m : calls quiet (readConfig m).
Proof. unfold readConfig. solve_quiet. Qed.

Lemma facts_quiet m rid : calls quiet (facts m rid).
Proof. unfold facts. solve_quiet. Qed.

Lemma StageRadio_tidy m rid cfg : tidy "wireless" (StageRadio m rid cfg).
Proof.
  unfold StageRadio. apply tidy_after_try; [apply readConfig_quiet|]. intros c.
  destruct (radioOf c rid) as [r|]; [|apply tidy_Ret]. apply tidy_after; [apply facts_quiet|]. intros f.
  apply tidy_after_try; [done|]. intros channel. apply tidy_after_try; [done|]. intros width.
  apply (tidy_then _ _ (fun changes => Ok (withSubject changes (radioSubject r)))); [apply stage_tidy, _|done].
Qed.

(** The keys an access request writes are all of wireless. *)
Lemma setAccess_obs writes s s0 :
  Forall (fun kv => exists rest, kv.1 = "wireless." +:+ rest) writes -> within "wireless" s s0 ->
  obs s0 (setAccess writes) (fun s' r => if is_ok r then within "wireless" s s' else s' ⊆ s).
Proof.
  intros H. revert s0. induction H as [|[k v] writes [rest Hk] _ IH]; intros s0 H0; cbn [setAccess]; [done|].
  cbn in Hk. subst k. apply wp_bind, (uciSet_obs "wireless"); cycle 1.
  - intros s1 H1. apply IH. by eapply within_trans.
  - intros e. by apply discard_then_fail.
  - rewrite <- append_assoc. by apply (entry_config "wireless").
Qed.

Lemma StageAccess_tidy m sid cfg : tidy "wireless" (StageAccess m sid cfg).
Proof.
  unfold StageAccess. do 3 (apply tidy_after_try; [done|]; intros ?).
  apply tidy_after_try; [apply readConfig_quiet|]. intros c. destruct (networkOf c sid) as [n|]; [|apply tidy_Ret].
  cbv zeta. destruct (_ && _); [apply tidy_Ret|].
  apply (tidy_then _ _ (fun _ => Ok (accessRow (wnFirst n) <$> accessFields (wnFirst n) cfg _))); [|done].
  intros s. apply setAccess_obs; [|apply within_refl]. apply Forall_forall.
  intros kv (l & Hkv & Hl)%list_elem_of_join. apply list_elem_of_fmap in Hl as (f & -> & _).
  apply list_elem_of_fmap in Hkv as (p & -> & _). by exists (id p +:+ "." +:+ f.1).
Qed.
