(* ===== verification/WiFiThms.v ===== *)
(** * Wi-Fi, proved: what counts as one network, and which channels are written

    groupNetworks of internal/adapters/openwrt/wifi.go against the definition
    "everything that looks alike", and the channels StageRadio may write (D-102). *)

From S2P Require Import Prelude GoStrings GoNet Effects Network Uci Firewall Stage Discipline Lan LanThms.
From S2P Require Import Devices DeviceSources WiFi WiFiSafety.

(** ** One network on several radios *)

Definition networkKey (n : wifiNet) : string := groupKey (wnFirst n).
Definition alike (k : string) (ifaces : list uciSection) : list uciSection := filter (fun s => groupKey s = k) ifaces.

Lemma alike_none k ifaces : (forall s, s ∈ ifaces -> groupKey s <> k) -> alike k ifaces = [].
Proof.
  unfold alike. induction ifaces as [|s l IH]; intros H; [done|].
  rewrite filter_cons_False by (apply H; left). apply IH. intros x Hx. apply H. by right.
Qed.

(** The networks made of the access points met so far. *)
Record grouped (met : list uciSection) (nets : list wifiNet) : Prop := mkGrouped {
  grouped_once : NoDup (networkKey <$> nets);
  grouped_alike : forall n, n ∈ nets -> wnSections n = alike (networkKey n) met;
  grouped_all : forall s, s ∈ met -> groupKey s ∈ networkKey <$> nets }.

Definition joins (s : uciSection) (n : wifiNet) : wifiNet :=
  if decide (networkKey n = groupKey s) then mkWifiNet (wnFirst n) (wnMore n ++ [s]) else n.

Lemma joins_key s n : networkKey (joins s n) = networkKey n.
Proof. unfold joins. by destruct (decide _). Qed.

Lemma joins_others s (nets : list wifiNet) : groupKey s ∉ networkKey <$> nets -> joins s <$> nets = nets.
Proof.
  induction nets as [|n nets IH]; [done|]. rewrite !fmap_cons. intros [H1 H2]%not_elem_of_cons.
  rewrite IH by done. unfold joins at 1. by rewrite decide_False.
Qed.

Lemma placeIn_spec (nets : list wifiNet) s :
  NoDup (networkKey <$> nets) ->
  placeIn nets s = if decide (groupKey s ∈ networkKey <$> nets) then joins s <$> nets else nets ++ [mkWifiNet s []].
Proof.
  induction nets as [|n nets IH]; [done|]. rewrite fmap_cons, NoDup_cons. intros [Hn Hnd]. cbn [placeIn].
  fold (networkKey n). destruct (String.eqb_spec (networkKey n) (groupKey s)) as [E|E].
  - rewrite decide_True by (rewrite <- E; left). rewrite fmap_cons, joins_others by (by rewrite <- E).
    unfold joins. by rewrite decide_True.
  - rewrite IH by done. destruct (decide (groupKey s ∈ networkKey <$> nets)) as [H|H].
    + rewrite decide_True by (by right). rewrite fmap_cons. unfold joins at 2. by rewrite decide_False.
    + rewrite decide_False by (apply not_elem_of_cons; auto). done.
Qed.

Lemma grouped_placeIn met nets s : grouped met nets -> grouped (met ++ [s]) (placeIn nets s).
Proof.
  intros [Hnd Ha Hall]. rewrite placeIn_spec by done. destruct (decide _) as [Hin|Hin].
  - assert (networkKey <$> (joins s <$> nets) = networkKey <$> nets) as Ek.
    { rewrite <- list_fmap_compose. apply list_fmap_ext. intros i n _. apply joins_key. }
    split; rewrite ?Ek; [done| |].
    + intros n' (n & -> & Hn)%list_elem_of_fmap. rewrite joins_key. unfold alike. rewrite filter_app.
      specialize (Ha n Hn). unfold joins. destruct (decide (networkKey n = groupKey s)) as [E|E].
      * rewrite (filter_cons_True _ s) by done. unfold wnSections in *. cbn. by rewrite app_comm_cons, Ha.
      * rewrite (filter_cons_False _ s) by done. by rewrite filter_nil, app_nil_r.
    + intros x [H| ->%list_elem_of_singleton]%elem_of_app; auto.
  - split.
    + rewrite fmap_app. apply NoDup_app. split_and!; [done| |apply NoDup_singleton].
      intros k Hk. cbn. rewrite list_elem_of_singleton. by intros ->.
    + intros n [Hn| ->%list_elem_of_singleton]%elem_of_app; unfold alike; rewrite filter_app.
      * rewrite (filter_cons_False _ s), filter_nil, app_nil_r; [by apply Ha|].
        intros E. apply Hin. rewrite E. by apply list_elem_of_fmap_2.
      * unfold networkKey. cbn [wnFirst]. rewrite (filter_cons_True _ s) by done. rewrite filter_nil.
        change (filter _ met) with (alike (groupKey s) met). rewrite alike_none; [done|].
        intros x Hx E. apply Hin. rewrite <- E. auto.
    + intros x. rewrite fmap_app, !elem_of_app, !list_elem_of_singleton. intros [H| ->]; [auto|right; left].
Qed.

Lemma groupNetworks_grouped ifaces : grouped ifaces (groupNetworks ifaces).
Proof.
  unfold groupNetworks. induction ifaces as [|s l IH] using rev_ind.
  - split; [constructor|set_solver|set_solver].
  - rewrite fold_left_app. cbn [fold_left]. by apply grouped_placeIn.
Qed.

Lemma placeIn_perm nets s : mjoin (wnSections <$> placeIn nets s) ≡ₚ s :: mjoin (wnSections <$> nets).
Proof.
  induction nets as [|n nets IH]; [done|]. cbn [placeIn]. destruct (String.eqb _ _); rewrite !fmap_cons; cbn [mjoin list_join].
  - unfold wnSections at 1. cbn. unfold wnSections at 2. cbn.
    rewrite <- (assoc_L (++)). cbn. by rewrite <- !Permutation_middle, (Permutation_swap s).
  - change (list_join (wnSections <$> placeIn nets s)) with (mjoin (wnSections <$> placeIn nets s)).
    rewrite IH. by rewrite <- Permutation_middle.
Qed.

Lemma groupNetworks_perm ifaces : mjoin (wnSections <$> groupNetworks ifaces) ≡ₚ ifaces.
Proof.
  unfold groupNetworks. induction ifaces as [|s l IH] using rev_ind; [done|].
  rewrite fold_left_app. cbn [fold_left]. rewrite placeIn_perm, IH. apply Permutation_cons_append.
Qed.

(** One network, however many radios. The networks of the screen are the classes
    of access points with the same name, password, encryption and interface: each
    access point is in exactly one of them, in the order of the file, and together
    with every other access point that looks like it - so an edit of the network
    ([accessWrites]) reaches all of its radios and no other network. *)
Theorem networks_are_what_looks_alike c sid n :
  networkOf c sid = Some n ->
  (exists s, s ∈ wcIfaces c /\ id s = sid /\ wnSections n = alike (groupKey s) (wcIfaces c)) /\
  (forall n', n' ∈ groupNetworks (wcIfaces c) -> networkKey n' = networkKey n -> n' = n) /\
  mjoin (wnSections <$> groupNetworks (wcIfaces c)) ≡ₚ wcIfaces c.
Proof.
  intros [Hn Hs]%find_first_Some. destruct (groupNetworks_grouped (wcIfaces c)) as [Hnd Ha Hall]. split_and!.
  - apply existsb_exists in Hs as (s & Hs%list_elem_of_In & Hid%String.eqb_eq). exists s.
    rewrite (Ha n Hn) in *. unfold alike in Hs. apply list_elem_of_filter in Hs as [-> Hs]. done.
  - intros n' Hn' E. apply list_elem_of_lookup in Hn as [i Hi]. apply list_elem_of_lookup in Hn' as [k Hk].
    assert (i = k) as ->; [|congruence]. eapply NoDup_lookup; [exact Hnd| |]; rewrite list_lookup_fmap.
    + by rewrite Hi.
    + rewrite Hk. exact (f_equal Some E).
  - apply groupNetworks_perm.
Qed.

(** A network on two radios, and another one. *)
Definition point (sid device ssid : string) : uciSection :=
  mkSection sid "wifi-iface" (list_to_map [("device", device); ("mode", "ap"); ("ssid", ssid); ("network", "lan")]).
Definition three_points : wifiConfig :=
  splitWireless [point "ap0" "radio0" "Home"; point "other" "radio0" "Attic"; point "ap1" "radio1" "Home"].
Definition home_network : wifiNet := mkWifiNet (point "ap0" "radio0" "Home") [point "ap1" "radio1" "Home"].

Lemma networks_are_what_looks_alike_witness :
  (exists s, s ∈ wcIfaces three_points /\ id s = "ap1" /\
     wnSections home_network = alike (groupKey s) (wcIfaces three_points)) /\
  (forall n', n' ∈ groupNetworks (wcIfaces three_points) -> networkKey n' = networkKey home_network -> n' = home_network) /\
  mjoin (wnSections <$> groupNetworks (wcIfaces three_points)) ≡ₚ wcIfaces three_points.
Proof.
  apply (networks_are_what_looks_alike three_points "ap1" home_network). vm_compute. reflexivity.
Defined.

(** ** Channels *)

(** What a run may do at a point is judged by what came before it. *)
Lemma allowed_split {S} (may : S -> op -> Prop) (saw : S -> event -> S) s l1 o r l2 :
  allowed may saw s (l1 ++ Did o r :: l2) -> may (observed saw s l1) o.
Proof.
  revert s. induction l1 as [|[o1 r1] l1 IH]; intros s; cbn; [by intros [H _]|]. intros [_ H]. by apply IH in H.
Qed.

Lemma observed_heard l tr : observed heard l tr = l ++ tr.
Proof.
  revert l. induction tr as [|e tr IH]; intros l; cbn; [by rewrite app_nil_r|].
  unfold observed in *. rewrite IH. unfold heard. by rewrite <- app_assoc.
Qed.

(** A program that writes nothing. *)
Definition no_set (o : op) : Prop := match o with Exec ("uci" :: "set" :: _) => False | _ => True end.

(** What iwinfo said of a radio allows the channel: it is on the list of one of its
    frequencies, unrestricted, and outside the radar band unless a country is set. *)
Definition channel_allowed (rid : string) (l : list event) (v : string) : Prop :=
  exists phy freqs f, Did (IwinfoPhy rid) (Ok phy) ∈ l /\ Did (IwinfoFreqs phy) (Ok freqs) ∈ l /\
    f ∈ freqs /\ v = Itoa (fqChannel f) /\ fqRestricted f = false /\
    ((5250 <= fqMHz f <= 5730)%Z ->
     exists country modes, Did (IwinfoInfo phy) (Ok (country, modes)) ∈ l /\ country <> "" /\ country <> "00").

Definition lawful_channel (rid : string) (l : list event) (v : string) : Prop := v = "auto" \/ channel_allowed rid l v.

Lemma lawful_channel_more rid l l' v : l ⊆ l' -> lawful_channel rid l v -> lawful_channel rid l' v.
Proof.
  intros Hl [->|(phy & freqs & f & H1 & H2 & Hf & -> & Hr & Hc)]; [by left|right].
  exists phy, freqs, f. split_and!; auto. intros H. destruct (Hc H) as (c & ms & ? & ? & ?). exists c, ms. auto.
Qed.

Definition channel_write (rid v : string) : op := Exec ["uci"; "set"; ("wireless." +:+ rid +:+ ".channel=") +:+ v].

(** Each write of the radio's channel is of a lawful one, by what was heard until
    then. *)
Definition may_write (rid : string) (l : list event) (o : op) : Prop :=
  forall v, o = channel_write rid v -> lawful_channel rid l v.

Abbreviation lawfully rid := (wp (may_write rid) heard).

(** A part that writes nothing. *)
Lemma lawfully_quiet {A} rid l (p : prog A) (Q : list event -> A -> Prop) :
  calls no_set p -> (forall l' a, l ⊆ l' -> Q l' a) -> lawfully rid l p Q.
Proof.
  revert l. induction p as [a|o k IH]; intros l; cbn.
  - intros _ H. by apply H.
  - intros [Ho Hk] HQ. split; [by intros v ->|]. intros r. apply IH; [done|].
    intros l' a Hl. apply HQ. intros e He. apply Hl. unfold heard. set_solver.
Qed.

(** The channels of a radio's facts are those heard of. *)
Lemma facts_lawful m rid l :
  lawfully rid l (facts m rid) (fun l' f => forall ch, ch ∈ fChannels f -> channel_allowed rid l' (Itoa (chNumber ch))).
Proof.
  unfold facts. destruct (negb _); [intros ch; cbn; set_solver|].
  split; [by intros v|]. intros [phy|e]; [|intros ch; cbn; set_solver]. cbn.
  destruct (negb (nonempty phy)); [intros ch; cbn; set_solver|]. cbn.
  split; [by intros v|]. intros info. destruct (match info with Ok i => i | Err _ => ("", []) end) as [country modes] eqn:Ei.
  split; [by intros v|]. intros [freqs|e]; [|intros ch; cbn; set_solver]. cbn.
  intros ch (f & Hf & Hc)%list_elem_of_omap. unfold channelOf in Hc. destruct (_ || _) eqn:E; [done|].
  injection Hc as <-. apply orb_false_iff in E as [Hr Hradar]. exists phy, freqs, f. unfold heard.
  split_and!; try done; [set_solver..|]. intros [H1 H2]. rewrite (proj2 (Z.leb_le _ _) H1), (proj2 (Z.leb_le _ _) H2) in Hradar.
  cbn in Hradar. apply orb_false_iff in Hradar as [Hn H00]. apply String.eqb_neq in Hn, H00.
  destruct info as [[c ms]|e]; simplify_eq. exists country, modes. split; [set_solver|done].
Qed.

Definition radio_key (k : string) : Prop := k = "disabled" \/ k = "channel" \/ k = "htmode".

Lemma stageSets_lawful rid sets l :
  Forall (fun s => radio_key (sKey s) /\ (sKey s = "channel" -> lawful_channel rid l (sValue s))) sets ->
  lawfully rid l (stageSets "wireless" rid sets) (fun _ _ => True).
Proof.
  revert l. induction sets as [|s sets IH]; intros l Hs; [done|]. apply Forall_cons in Hs as [[Hk Hv] Hs].
  assert (forall l', l ⊆ l' -> lawfully rid l' (stageSets "wireless" rid sets) (fun _ _ => True)) as Hrest.
  { intros l' Hl. apply IH. eapply Forall_impl; [exact Hs|]. cbn. intros x [H1 H2]. split; [done|].
    intros H. eapply lawful_channel_more; eauto. }
  cbn [stageSets]. cbv zeta. eapply wp_seq; [apply lawfully_quiet; [done|exact (fun _ _ H => H)]|].
  intros l1 b Hl1. cbn beta in Hl1. destruct (settled s b); [auto|].
  eapply (wp_seq _ _ _ _ _ (fun l' _ => l ⊆ l')).
  - destruct (sRemove s); [apply lawfully_quiet; [done|]; set_solver|]. split; [|intros r; cbn; unfold heard; set_solver].
    intros v [= E]. unfold settingKey in E. rewrite <- !append_assoc in E. do 2 apply append_inj_l in E.
    destruct Hk as [Hk|[Hk|Hk]]; rewrite Hk in E; cbv [String.append] in E; try discriminate E.
    injection E as <-. eapply lawful_channel_more; [exact Hl1|auto].
  - intros l2 [|] Hl2; cbn beta iota.
    + eapply wp_seq; [by apply Hrest|]. intros l3 [|] _; done.
    + apply lawfully_quiet; [by cbn|done].
Qed.

Lemma stage_lawful rid sets l :
  Forall (fun s => radio_key (sKey s) /\ (sKey s = "channel" -> lawful_channel rid l (sValue s))) sets ->
  lawfully rid l (stage "wireless" rid sets) (fun _ _ => True).
Proof. intros H. unfold stage. destruct (negb _); [done|]. by apply stageSets_lawful. Qed.

(** The settings of a radio: the channel is one of its facts. *)
Lemma radio_sets_lawful rid rd f cfg l channel width :
  (forall ch, ch ∈ fChannels f -> channel_allowed rid l (Itoa (chNumber ch))) ->
  channelSet f (rcChannel cfg) = Ok channel -> widthSet rd f (rcWidth cfg) = Ok width ->
  Forall (fun s => radio_key (sKey s) /\ (sKey s = "channel" -> lawful_channel rid l (sValue s)))
    (enabledSet (rcEnabled cfg) :: channel ++ width).
Proof.
  intros Hf Hc Hw. apply Forall_cons. split; [destruct (rcEnabled cfg); split; [by left|done|by left|done]|].
  apply Forall_app. split.
  - revert Hc. unfold channelSet. cbv zeta. destruct (negb _); [by intros [= <-]|].
    destruct (String.eqb _ _); [intros [= <-]; apply Forall_singleton; split; [by right; left|by left]|].
    destruct (Atoi _) as [n|]; [|done]. destruct (existsb _ _) eqn:E; [|done]. intros [= <-].
    apply Forall_singleton. split; [by right; left|]. intros _. right. cbn.
    apply existsb_exists in E as (ch & Hch%list_elem_of_In & <-%Z.eqb_eq). auto.
  - revert Hw. unfold widthSet. destruct (negb _); [by intros [= <-]|]. destruct (htmodeFor _ _ _); [|done].
    intros [= <-]. apply Forall_singleton. split; [by right; right|done].
Qed.

(** C9. The radio stays within the law. Every channel StageRadio writes for a radio is
    "auto" or one that the driver listed for this very radio before the write, not
    restricted, and - in the band shared with radar - only with a country set (D-102);
    whatever was asked for and whatever the router answers. *)
Theorem channels_written_are_allowed {W} (h : router W) m rid cfg w l1 v r l2 :
  trace h (StageRadio m rid cfg) w = l1 ++ Did (channel_write rid v) r :: l2 ->
  v = "auto" \/ channel_allowed rid l1 v.
Proof.
  assert (lawfully rid [] (StageRadio m rid cfg) (fun _ _ => True)) as H.
  { unfold StageRadio. eapply wp_seq; [apply (lawfully_quiet _ _ _ (fun _ _ => True)); [|done]|].
    { unfold readConfig. destruct (negb _); [done|]. by split. }
    intros l [c|e] _; [|done]. destruct (radioOf c rid) as [rd|]; [|done].
    eapply wp_seq; [apply facts_lawful|]. intros l' f Hf. unfold try_bind. cbn [prog_bind].
    destruct (channelSet f (rcChannel cfg)) as [channel|] eqn:Ec; [|done].
    cbn [prog_bind]. destruct (widthSet rd f (rcWidth cfg)) as [width|] eqn:Ew; [|done].
    eapply wp_seq; [apply stage_lawful; eapply radio_sets_lawful; [exact Hf|exact Ec|exact Ew]|intros l3 [|] _; done]. }
  destruct (wp_sound _ _ h _ _ _ w H) as [Hall _]. intros E. rewrite E in Hall.
  apply allowed_split in Hall. rewrite observed_heard in Hall. by apply Hall.
Qed.

(** ** A router with two radios *)

(** [radio1] is in the radar band; [country] is what both are set to. *)
Definition two_radios (country : string) : router unit :=
  let nl := String "010" "" in
  mkRouter unit (fun o w => (match o return ans o with
    | Exec ["uci"; "-q"; "show"; "wireless"] =>
        Ok (Join nl ["wireless.radio0=wifi-device"; "wireless.radio0.band='2g'"; "wireless.radio1=wifi-device"; "wireless.radio1.band='5g'"])
    | Exec ["uci"; "-q"; "get"; "wireless.radio0.country"] => Ok "DE"
    | Exec ["uci"; "set"; _] => Ok ""
    | IwinfoPhy _ => Ok "phy1"
    | IwinfoInfo _ => Ok (country, ["VHT80"])
    | IwinfoFreqs _ => Ok [mkFreq 36 5180 false; mkFreq 100 5500 false; mkFreq 144 5720 true]
    | o => refuse o
    end, w)).
Definition radios_panel : wifiManager := mkWifiManager (mkManager true true "") true.
Definition to_100 : RadioConfig := mkRadioConfig true "100" 0.

Lemma channels_written_are_allowed_witness :
  let tr := trace (two_radios "DE") (StageRadio radios_panel "radio1" to_100) tt in
  exists l1 r l2, tr = l1 ++ Did (channel_write "radio1" "100") r :: l2 /\
    ("100" = "auto" \/ channel_allowed "radio1" l1 "100").
Proof.
  intros tr. exists (firstn 6 tr), (Ok ""), (skipn 7 tr).
  assert (tr = firstn 6 tr ++ Did (channel_write "radio1" "100") (Ok "") :: skipn 7 tr) as E by (vm_compute; reflexivity).
  split; [exact E|].
  exact (channels_written_are_allowed (two_radios "DE") radios_panel "radio1" to_100 tt _ _ _ _ E).
Defined.

(** Without a country the same channel is refused, and nothing is written. *)
Example radar_needs_a_country :
  result (two_radios "") (StageRadio radios_panel "radio1" to_100) tt =
  Refuse "channel" (Errorf "openwrt: channel %q is not allowed for this radio in its country" ["100"]).
Proof. vm_compute. reflexivity. Qed.

(** A finding: the country of the second radio is staged, and the answer says that
    nothing changed, because the first radio has it already. *)
Theorem country_of_the_second_radio_is_untold :
  result (two_radios "DE") (StageCountry radios_panel "de") tt = Ok [] /\
  Did (Exec ["uci"; "set"; "wireless.radio1.country=DE"]) (Ok "") ∈ trace (two_radios "DE") (StageCountry radios_panel "de") tt.
Proof. split; [vm_compute; reflexivity|]. vm_compute. do 3 right. apply elem_of_cons. auto. Qed.
