(* ===== verification/StagedChanges.v ===== *)
(** * The draft in words: internal/adapters/openwrt/network_write.go

    StagedChanges: the draft the router holds as rows of the apply bar, and the
    guest network before and after it (guestDraft of wifi_guest.go).

    [before] orders two bands as strconv.ParseFloat reads them. *)

From S2P Require Import Prelude GoStrings GoNet Schedule Effects Network Uci Firewall Stage Lan FirewallWrite.
From S2P Require Import FirewallRules Routes Devices DeviceSources DeviceLimits WiFi WiFiGuest.

(** ** The guest network on both sides of the draft *)

Record guestDraft := mkGuestDraft {
  gdOurs : bool; gdWas : string; gdWill : string; gdBefore : gset string; gdAfter : gset string }.

Definition folds (g : guestDraft) (e : stagedEdit) : bool :=
  if String.eqb (gdWas g) (gdWill g) then false else
  let sec := config e +:+ "." +:+ section e in
  if (negb (nonempty (gdWas g)) || negb (nonempty (gdWill g))) &&
     negb (Bool.eqb (bool_decide (sec ∈ gdBefore g)) (bool_decide (sec ∈ gdAfter g))) then true
  else String.eqb (config e) "wireless" && HasPrefix guestPrefix (section e) && String.eqb (option_ e) "disabled".

(** One configuration with its draft, or as it is on disk. *)
Definition showSide (m : networkManager) (committed : bool) (c : string) : prog (res string) :=
  if committed
  then withCommitted m c (fun dir alias => exec_cmd ["uci"; "-q"; "-c"; dir; "show"; alias])
  else exec_cmd ["uci"; "-q"; "show"; c].

(** The sections of the configurations, and the first error that counts: with a
    failed reading, uci -q has printed nothing. *)
Fixpoint showSides (m : networkManager) (noWireless committed : bool) (configs : list string)
    : prog (list (string * list uciSection) * option err) :=
  match configs with
  | [] => Ret ([], None)
  | c :: configs =>
      out <- showSide m committed c ;;
      rest <- showSides m noWireless committed configs ;;
      Ret (match out with
           | Ok out => ((c, parseUCISections out) :: rest.1, rest.2)
           | Err e =>
               ((c, parseUCISections "") :: rest.1,
                if String.eqb c "wireless" && noWireless then rest.2
                else Some (Wrapf "openwrt: read %s for the guest network: %w" [c] e))
           end)
  end.

Definition guestConfigs : list string := ["network"; "firewall"; "wireless"; "dhcp"].

(** The sections of one configuration of a reading. *)
Definition shown (show : list (string * list uciSection)) (c : string) : list uciSection :=
  match find_first (fun s => String.eqb s.1 c) show with Some s => s.2 | None => [] end.

Definition sideShape (show : list (string * list uciSection)) : guestShape :=
  readGuestShape (shown show "network") (shown show "firewall") (shown show "wireless") (shown show "dhcp").
Definition sideRadios (show : list (string * list uciSection)) : list uciSection :=
  filter (fun s => isRadio s = true) (shown show "wireless").
Definition sideSections (show : list (string * list uciSection)) : gset string :=
  list_to_set (mjoin (M:=list) ((fun s : string * list uciSection =>
    (fun t => s.1 +:+ "." +:+ id t) <$> filter (fun t => isGuestSection s.1 (id t) = true) s.2) <$> show)).

Section Draft.
Context (before : string -> string -> bool).

Definition readGuestDraft (m : networkManager) : prog (res guestDraft) :=
  let dir := if nonempty (configDir m) then configDir m else "/etc/config" in
  noWireless <- ask (StatMissing (in_dir dir "wireless")) ;;
  was <- showSides m noWireless true guestConfigs ;;
  will <- showSides m noWireless false guestConfigs ;;
  Ret (match was.2, will.2 with
       | Some e, _ => Err e
       | None, Some e => Err e
       | None, None =>
           Ok (mkGuestDraft (gsOurs (sideShape was.1) || gsOurs (sideShape will.1))
                 (guestWords before (sideShape was.1) (sideRadios was.1))
                 (guestWords before (sideShape will.1) (sideRadios will.1))
                 (sideSections was.1) (sideSections will.1))
       end).

(** ** What a section is to the panel *)

Definition roleOf (config section sectionType uplink : string) : string :=
  let rule := String.eqb config "firewall" && String.eqb sectionType "rule" in
  if String.eqb sectionType "host" then roleHost else
  if String.eqb config "firewall" && String.eqb sectionType "redirect" then rolePortForward else
  if rule && isNoInternetSection section then roleNoInternet else
  if rule then roleRule else
  if String.eqb config "network" && (String.eqb sectionType "route" || String.eqb sectionType "route6") then roleRoute else
  if String.eqb config "wireless" && String.eqb sectionType "wifi-device" then roleRadio else
  if String.eqb config "wireless" && String.eqb sectionType "wifi-iface" then roleWiFiNet else
  if String.eqb section lanSection then roleLAN else
  if String.eqb config "network" && nonempty uplink && String.eqb section uplink then roleUplink else
  if String.eqb config "network" && String.eqb section "wan" then roleUplink else "".

(** A whole entry in words, "" for one there are no words for. *)
Definition entryWords (config section key : string) (values : gmap string string) : string :=
  let value o := get values (key +:+ "." +:+ o) in
  let type_ := get values key in
  let rule := String.eqb config "firewall" && String.eqb type_ "rule" in
  if rule && isNoInternetSection section then value "src_mac" else
  if rule then ruleWords (value "src") (value "dest") (value "proto") (value "dest_port") (value "family") else
  if String.eqb config "network" && (String.eqb type_ "route" || String.eqb type_ "route6") then
    let p := (routeTarget (value "target") (value "netmask")).1 in
    routeWords (if PrefixIsValid p then PrefixString p else value "target") (value "gateway") (value "interface") else
  if String.eqb config "firewall" && nonempty (value "src_dport") then
    portForwardWords (value "proto") (value "src_dport") (value "dest_ip") (value "dest_port") else
  if negb (String.eqb config "dhcp") || negb (nonempty (value "mac")) then "" else
  reservationWords (mkReserved "" (value "mac") (value "ip") (value "name")).

(** ** Both sides of the draft *)

Definition merged (values : res (gmap string string)) (acc : gmap string string) : gmap string string :=
  match values with Ok values => values ∪ acc | Err _ => acc end.

Fixpoint bothSides (m : networkManager) (edits : list stagedEdit) (configs : list string)
    (was will : gmap string string) : prog (gmap string string * gmap string string) :=
  match configs with
  | [] => Ret (was, will)
  | c :: configs =>
      committed <- committedValues m c (keysOf edits c) ;;
      staged <- stagedValues c (keysOf edits c) ;;
      bothSides m edits configs (merged committed was) (merged staged will)
  end.

Definition sectionKey (e : stagedEdit) : string := config e +:+ "." +:+ section e.

(** The role of an edit's section, by the type the [sectionType] key has on
    either side. *)
Definition editRole (was will : gmap string string) (uplink sectionType : string) (e : stagedEdit) : string :=
  roleOf (config e) (section e) (firstNonEmpty [get will sectionType; get was sectionType]) uplink.

(** The entries the draft adds or removes as a whole. *)
Definition wholeEntries (was will : gmap string string) (uplink : string) (edits : list stagedEdit) : list string :=
  key <$> filter (fun e => negb (nonempty (option_ e)) &&
                           bool_decide (is_Some (entryRoles (editRole was will uplink (key e) e))) = true) edits.

Definition rulePlaces (m : networkManager) (committed : bool) : prog (gmap string Z) :=
  out <- (if committed
          then withCommitted m "firewall" (fun dir alias => exec_cmd ["uci"; "-q"; "-c"; dir; "-X"; "show"; alias])
          else exec_cmd ["uci"; "-q"; "-X"; "show"; "firewall"]) ;;
  Ret (match out with
       | Err _ => ∅
       | Ok out =>
           let rules := filter (fun s => String.eqb (kind s) "rule" = true) (parseUCISections out) in
           fold_left (fun places r => <[r.2 := r.1]> places) (imap (fun i s => (Z.of_nat i + 1, id s)%Z) rules) ∅
       end).

Definition moveRow (m : networkManager) (e : stagedEdit) (was : gmap string string) : prog (option ConfigChange) :=
  let sec := sectionKey e in
  if negb (String.eqb (config e) "firewall") || negb (String.eqb (get was sec) "rule") then Ret None else
  wasPlaces <- rulePlaces m true ;;
  nowPlaces <- rulePlaces m false ;;
  let from := default 0%Z (wasPlaces !! section e) in
  let to := default 0%Z (nowPlaces !! section e) in
  Ret (if (from =? 0)%Z || (to =? 0)%Z || (from =? to)%Z then None else
       let said := describe "firewall" roleRule "position" in
       Some (mkChange (pWords said) (pKey said) (Itoa from) (Itoa to) (dangerousConfig "firewall") sec
               (entrySubject (get was (sec +:+ ".name")) (entryWords (config e) (section e) sec was)))).

(** A whole entry's value, in words where there are any. *)
Definition worded (values : gmap string string) (e : stagedEdit) (v : string) : string :=
  let words := entryWords (config e) (section e) (key e) values in
  if negb (nonempty (option_ e)) && nonempty words && nonempty v then words else v.

(** The row of one key that is set, removed, added or deleted; [None] when it
    ends where it was. *)
Definition changeRow (was will : gmap string string) (uplink : string) (e : stagedEdit) : option ConfigChange :=
  let from := worded was e (get was (key e)) in
  let to := worded will e (get will (key e)) in
  if String.eqb from to then None else
  let secret := secretOption (option_ e) in
  let sec := sectionKey e in
  let role := editRole was will uplink sec e in
  let said :=
    if String.eqb role roleRule && negb (nonempty (option_ e))
    then let values := if nonempty to then will else was in
         rulePhrase (get values (key e +:+ ".target")) (get values (key e +:+ ".dest"))
    else describe (config e) role (option_ e) in
  let entry :=
    if bool_decide (is_Some (entryRoles role)) && nonempty (option_ e)
    then let values := if nonempty (get was sec) then was else will in
         entrySubject (get values (sec +:+ ".name")) (entryWords (config e) (section e) sec values)
    else "" in
  let radio := String.eqb role roleRadio in
  let subject := if radio
                 then "Wi-Fi " +:+ bandWord (firstNonEmpty [get was (sec +:+ ".band"); get will (sec +:+ ".band")]) +:+ " GHz"
                 else entry in
  let in_panel v :=
    if radio && String.eqb (option_ e) "htmode" then widthWords v
    else if String.eqb role roleWiFiNet && String.eqb (option_ e) "encryption" then securityOf v else v in
  Some (mkChange (pWords said) (pKey said) (redact secret (in_panel from)) (redact secret (in_panel to))
          (dangerousConfig (config e)) (key e) subject).

Definition scheduleChange (was will : gmap string string) (mac : string) : option ConfigChange :=
  let words values := match schedules (showOf values) !! mac with Some sc => Words sc | None => "" end in
  if String.eqb (words was) (words will) then None else Some (scheduleRow mac (words was) (words will)).

(** What the walk over the edits keeps: the keys met, the devices whose schedule
    has its row, the guest network once it is read, and whether it has its row. *)
Record telling := mkTelling {
  tSeen : list string; tSchedules : list string; tGuest : option guestDraft; tShown : bool }.

(** The guest network, read at the first edit of one of its sections. *)
Definition guestOnce (m : networkManager) (t : telling) (e : stagedEdit) : prog (res (option guestDraft)) :=
  if negb (isGuestSection (config e) (section e)) then Ret (Ok (tGuest t)) else
  match tGuest t with
  | Some g => Ret (Ok (Some g))
  | None => let! g := readGuestDraft m in Ret (Ok (Some g))
  end.

Definition folded (g : option guestDraft) (e : stagedEdit) : option guestDraft :=
  match g with
  | Some g => if isGuestSection (config e) (section e) && gdOurs g && folds g e then Some g else None
  | None => None
  end.

(** The rows one edit adds, and what is kept. *)
Definition tellOne (m : networkManager) (was will : gmap string string) (uplink : string) (whole : list string)
    (t : telling) (e : stagedEdit) : prog (res (list ConfigChange * telling)) :=
  if contains (tSeen t) (key e) then Ret (Ok ([], t)) else
  let seen := key e :: tSeen t in
  let! g := guestOnce m t e in
  let kept := mkTelling seen (tSchedules t) g (tShown t) in
  match folded g e with
  | Some g =>
      Ret (Ok (if tShown t then [] else [guestRow (gdWas g) (gdWill g)],
               mkTelling seen (tSchedules t) (Some g) true))
  | None =>
      if String.eqb (config e) "firewall" && isScheduleSection (section e) then
        Ret (Ok (match scheduleMAC (section e) with
                 | Some mac =>
                     if contains (tSchedules t) mac then ([], kept)
                     else (option_list (scheduleChange was will mac), mkTelling seen (mac :: tSchedules t) g (tShown t))
                 | None => ([], kept)
                 end))
      else if reorder e then
        row <- moveRow m e was ;;
        Ret (Ok (option_list row, kept))
      else if contains whole (sectionKey e) && nonempty (option_ e) then Ret (Ok ([], kept))
      else Ret (Ok (option_list (changeRow was will uplink e), kept))
  end.

Fixpoint tell (m : networkManager) (was will : gmap string string) (uplink : string) (whole : list string)
    (t : telling) (edits : list stagedEdit) : prog (res (list ConfigChange)) :=
  match edits with
  | [] => Ret (Ok [])
  | e :: edits =>
      let! rows_t := tellOne m was will uplink whole t e in
      let! rows := tell m was will uplink whole rows_t.2 edits in
      Ret (Ok (rows_t.1 ++ rows))
  end.

Definition StagedChanges (m : networkManager) : prog (res (list ConfigChange)) :=
  if negb (runs m) then Ret (Err ErrNotImplemented) else
  out <- exec_cmd ["uci"; "changes"] ;;
  match out with
  | Err e => Ret (Err (Wrapf "openwrt: read staged changes: %w" [] e))
  | Ok out =>
      match parseStagedEdits out with
      | [] => Ret (Ok [])
      | edits =>
          sides <- bothSides m edits (configsOf edits) ∅ ∅ ;;
          wan <- WANInfo m ;;
          let uplink := match wan with Ok wan => Name (Interface wan) | Err _ => "" end in
          let was := sides.1 in
          let will := sides.2 in
          tell m was will uplink (wholeEntries was will uplink edits) (mkTelling [] [] None false) edits
      end
  end.
End Draft.
