(* ===== verification/StagedThms.v ===== *)
(** * The draft in words, proved: what StagedChanges tells and what it keeps to itself

    A difference between the two sides of a draft has its row; a password has
    none but in dots. At the end, the two ways in which a change to a rule escapes
    the apply bar, each on a concrete draft. *)

From S2P Require Import Prelude GoStrings GoNet Schedule Effects Network Uci Firewall Stage Lan FirewallWrite FirewallRules.
From S2P Require Import LanThms Routes Devices DeviceSources DeviceLimits DeviceLimitsThms DeviceLimitsSafety.
From S2P Require Import WiFi WiFiGuest StagedChanges.

Lemma Forall_option_list {A} (P : A -> Prop) o : (forall a, o = Some a -> P a) -> Forall P (option_list o).
Proof. destruct o; intros H; [apply Forall_singleton; auto|apply Forall_nil_2]. Qed.

(** A first part of which nothing is said. *)
Lemma hearing_then {A B} l (p : prog A) (f : A -> prog B) (Q : list event -> B -> Prop) :
  (forall l' a, hearing l' (f a) Q) -> hearing l (prog_bind p f) Q.
Proof.
  intros H. apply (hearing_seq l p f (fun _ _ => True)); [|auto]. by apply hearing_any.
Qed.

Lemma hearing_then_try {A B} l (p : prog (res A)) (f : A -> prog (res B)) (Q : list event -> B -> Prop) :
  (forall l' a, hearing l' (f a) (fun l'' r => forall b, r = Ok b -> Q l'' b)) ->
  hearing l (try_bind p f) (fun l'' r => forall b, r = Ok b -> Q l'' b).
Proof. intros H. apply hearing_then. intros l' [a|e]; [apply H|]. by intros b. Qed.

(** ** The parts of a key *)

(** The option a row is about, as [parseStagedEdits] reads it off a key. *)
Definition option_of (detail : string) : string :=
  match Split "." detail with _ :: _ :: rest => default "" (last rest) | _ => "" end.

(** An edit is taken apart as its key is. *)
Definition well_cut (e : stagedEdit) : Prop :=
  exists rest, Split "." (key e) = config e :: section e :: rest /\ option_ e = default "" (last rest).

Lemma staged_line_cut line e : staged_line line = Some e -> well_cut e.
Proof.
  unfold staged_line. destruct (negb _); [done|]. destruct (match Cut _ _ with Some _ => _ | None => _ end) as [[k v] has].
  destruct (negb has && _); [done|]. destruct (Split "." _) as [|c [|s rest]] eqn:E; [done..|].
  intros [= <-]. by exists rest.
Qed.

Lemma parseStagedEdits_cut out : Forall well_cut (parseStagedEdits out).
Proof.
  apply Forall_forall. intros e (line & _ & H)%list_elem_of_omap. by eapply staged_line_cut.
Qed.

Lemma well_cut_lacks e : well_cut e -> lacks "." (config e) = true /\ lacks "." (section e) = true.
Proof.
  intros (rest & E & _).
  assert (forall x, x ∈ config e :: section e :: rest -> lacks "." x = true) as H.
  { intros x Hx. rewrite <- E in Hx. by apply Split_elem in Hx as [? _]. }
  split; apply H; set_solver.
Qed.

Lemma option_of_key e : well_cut e -> option_of (key e) = option_ e.
Proof. intros (rest & E & ->). unfold option_of. by rewrite E. Qed.

Lemma option_of_section config section :
  lacks "." config = true -> lacks "." section = true -> option_of (config +:+ "." +:+ section) = "".
Proof.
  intros Hc Hs. unfold option_of. change ("." +:+ section) with (String "." section).
  by rewrite Split_sep, Split_lacks.
Qed.

Lemma word_lacks_dot s : all_chars word_char s = true -> lacks "." s = true.
Proof.
  unfold lacks. induction s as [|c s IH]; cbn; [done|]. intros H. bool_to_prop.
  rewrite IH, andb_true_r by done. apply bool_decide_eq_true_2. intros ->. discriminate.
Qed.

Lemma scheduleMAC_word section mac :
  scheduleMAC section = Some mac -> all_chars word_char (scheduleSection mac) = true.
Proof.
  unfold scheduleMAC. destruct (negb _); [done|]. destruct (NormalizeMAC _) as [m|e] eqn:E; [|done].
  intros [= <-]. apply NormalizeMAC_device in E. unfold scheduleSection. rewrite all_chars_app. by rewrite device_digits.
Qed.

(** ** Passwords *)

Definition dotted (v : string) : Prop := v = "" \/ v = "••••".
Definition masked (row : ConfigChange) : Prop :=
  secretOption (option_of (Detail row)) = true -> dotted (From row) /\ dotted (To row).

Lemma redact_dotted v : dotted (redact true v).
Proof. unfold redact, dotted. cbn. destruct (nonempty v); auto. Qed.

Lemma changeRow_masked was will uplink e row :
  well_cut e -> changeRow was will uplink e = Some row -> masked row.
Proof.
  intros He. unfold changeRow. destruct (String.eqb _ _); [done|]. intros [= <-]. unfold masked. cbn.
  rewrite option_of_key by done. intros ->. split; apply redact_dotted.
Qed.

(** A row about a section as a whole has no option. *)
Lemma section_row_masked row config section :
  Detail row = config +:+ "." +:+ section -> lacks "." config = true -> lacks "." section = true -> masked row.
Proof. intros E Hc Hs. unfold masked. rewrite E, option_of_section by done. discriminate. Qed.

Lemma guestRow_masked a b : masked (guestRow a b).
Proof. by apply (section_row_masked _ "network" guestSection). Qed.

Lemma scheduleChange_masked was will section mac row :
  scheduleMAC section = Some mac -> scheduleChange was will mac = Some row -> masked row.
Proof.
  intros Hm%scheduleMAC_word. unfold scheduleChange. destruct (String.eqb _ _); [done|]. intros [= <-].
  by apply (section_row_masked _ "firewall" (scheduleSection mac)), word_lacks_dot.
Qed.

(** ** One edit after another *)

Section Told.
Context (before : string -> string -> bool) (m : networkManager).
Context (was will : gmap string string) (uplink : string) (whole : list string).

(** Why an edit needs no more words than [rows] has. *)
Definition told (rows : list ConfigChange) (e : stagedEdit) : Prop :=
  (isGuestSection (config e) (section e) = true /\ exists a b, a <> b /\ guestRow a b ∈ rows) \/
  (config e = "firewall" /\ isScheduleSection (section e) = true /\
   forall mac row, scheduleMAC (section e) = Some mac -> scheduleChange was will mac = Some row -> row ∈ rows) \/
  reorder e = true \/
  (sectionKey e ∈ whole /\ option_ e <> "") \/
  (forall row, changeRow was will uplink e = Some row -> row ∈ rows).

Lemma told_more rows rows' e : told rows e -> rows ⊆ rows' -> told rows' e.
Proof. unfold told. set_solver. Qed.

(** What is kept agrees with the rows there are. *)
Definition kept_up (t : telling) (rows : list ConfigChange) : Prop :=
  (tShown t = true -> exists a b, a <> b /\ guestRow a b ∈ rows) /\
  (forall mac row, mac ∈ tSchedules t -> scheduleChange was will mac = Some row -> row ∈ rows).

Lemma kept_up_more t rows rows' : kept_up t rows -> rows ⊆ rows' -> kept_up t rows'.
Proof. unfold kept_up. set_solver. Qed.

Lemma kept_up_start : kept_up (mkTelling [] [] None false) [].
Proof. split; cbn; [discriminate|set_solver]. Qed.

Lemma folded_guest g e g' : folded g e = Some g' ->
  isGuestSection (config e) (section e) = true /\ gdWas g' <> gdWill g'.
Proof.
  unfold folded. destruct g as [g|]; [|done]. destruct (_ && _) eqn:E; [|done]. intros [= <-].
  bool_to_prop. split; [done|]. intros Eq. by revert H0; unfold folds; rewrite Eq, String.eqb_refl.
Qed.

(** What one edit leaves: the rows it adds are masked, it is told, and what is
    kept is true of the rows so far. *)
Definition step_told (t : telling) (e : stagedEdit) (rows : list ConfigChange) (t' : telling) : Prop :=
  Forall masked rows /\ tSeen t' ⊆ key e :: tSeen t /\
  forall acc, kept_up t acc -> kept_up t' (acc ++ rows) /\ (key e ∉ tSeen t -> told (acc ++ rows) e).

Lemma step_told_seen t e : key e ∈ tSeen t -> step_told t e [] t.
Proof. intros H. split; [done|]. split; [set_solver|]. intros acc Ha. rewrite app_nil_r. by split. Qed.

Lemma step_told_folded t e g :
  folded (Some g) e = Some g ->
  step_told t e (if tShown t then [] else [guestRow (gdWas g) (gdWill g)])
    (mkTelling (key e :: tSeen t) (tSchedules t) (Some g) true).
Proof.
  intros [Hg Hd]%folded_guest. split; [|split; [done|]].
  - destruct (tShown t); [done|]. apply Forall_singleton, guestRow_masked.
  - intros acc [Hs Hm]. set (rows := acc ++ _).
    assert (exists a b, a <> b /\ guestRow a b ∈ rows) as Hrow.
    { subst rows. destruct (tShown t); [rewrite app_nil_r; auto|]. do 2 eexists. split; [exact Hd|]. set_solver. }
    split; [split|]; cbn; [done| |by left]. intros mac row H1 H2. subst rows. set_solver.
Qed.

Lemma step_told_schedule t e mac :
  config e = "firewall" -> isScheduleSection (section e) = true -> scheduleMAC (section e) = Some mac ->
  forall g, step_told t e (if contains (tSchedules t) mac then [] else option_list (scheduleChange was will mac))
    (mkTelling (key e :: tSeen t) (if contains (tSchedules t) mac then tSchedules t else mac :: tSchedules t) g (tShown t)).
Proof.
  intros Hc Hs Hm g. split; [|split; [done|]].
  - destruct (contains _ _); [done|]. apply Forall_option_list. intros row. by apply scheduleChange_masked with (1 := Hm).
  - intros acc [Hg Hk]. destruct (contains (tSchedules t) mac) eqn:Hin; rewrite ?app_nil_r.
    + apply contains_true in Hin. split; [done|]. intros _. right. left. split_and!; [done..|].
      intros mac' row E. replace mac' with mac by congruence. by apply Hk.
    + assert (forall row, scheduleChange was will mac = Some row ->
                row ∈ acc ++ option_list (scheduleChange was will mac)) as Hrow by (intros row ->; set_solver).
      split; [split|]; cbn.
      * intros H. destruct (Hg H) as (a & b & ? & ?). exists a, b. split; [done|]. set_solver.
      * intros mac' row [->|H]%elem_of_cons H2; [auto|]. apply elem_of_app. left. eauto.
      * intros _. right. left. split_and!; [done..|]. intros mac' row E. replace mac' with mac by congruence. auto.
Qed.

(** The remaining edits: at most one row, of the edit itself. *)
Lemma step_told_row t e row g :
  (forall r, row = Some r -> masked r) ->
  (isScheduleSection (section e) = true /\ config e = "firewall" /\ scheduleMAC (section e) = None \/ reorder e = true \/
   (sectionKey e ∈ whole /\ option_ e <> "") \/ row = changeRow was will uplink e) ->
  step_told t e (option_list row) (mkTelling (key e :: tSeen t) (tSchedules t) g (tShown t)).
Proof.
  intros Hm Hr. split; [|split; [done|]].
  - by apply Forall_option_list.
  - intros acc Ha. split.
    + destruct (kept_up_more _ _ (acc ++ option_list row) Ha) as [H1 H2]; [set_solver|]. by split.
    + intros _. unfold told. destruct Hr as [(H1 & H2 & H3)|[H|[H|H]]].
      * right. left. split_and!; [done..|]. intros mac r E. congruence.
      * by right; right; left.
      * by right; right; right; left.
      * right; right; right; right. intros r E. subst row. rewrite E. set_solver.
Qed.

Lemma moveRow_masked l e :
  well_cut e -> hearing l (moveRow m e was) (fun _ row => forall r, row = Some r -> masked r).
Proof.
  intros He. unfold moveRow. destruct (_ || _); [done|].
  apply hearing_then. intros l1 was'. apply hearing_then. intros l2 now.
  unfold hearing. cbn [wp]. destruct (_ || _); [done|]. intros r <-%(inj Some). apply well_cut_lacks in He as [Hc Hs].
  by apply (section_row_masked _ (config e) (section e)).
Qed.

Lemma tellOne_told l t e :
  well_cut e ->
  hearing l (tellOne before m was will uplink whole t e)
    (fun _ r => forall x, r = Ok x -> step_told t e x.1 x.2).
Proof.
  intros He. unfold tellOne. destruct (contains (tSeen t) (key e)) eqn:Hseen.
  { intros x [= <-]. by apply step_told_seen, contains_true. }
  apply hearing_then_try. intros l1 g.
  destruct (folded g e) as [g'|] eqn:Hf.
  { intros x [= <-]. assert (g = Some g') as -> by (unfold folded in Hf; destruct g; [|done]; destruct (_ && _); congruence).
    by apply step_told_folded. }
  destruct (String.eqb (config e) "firewall" && isScheduleSection (section e)) eqn:Hs.
  { apply andb_prop in Hs as [Hc%String.eqb_eq Hs]. intros x [= <-]. destruct (scheduleMAC (section e)) as [mac|] eqn:Hm.
    - pose proof (step_told_schedule t e mac Hc Hs Hm g) as H. by destruct (contains (tSchedules t) mac).
    - by apply (step_told_row t e None); [|left]. }
  destruct (reorder e) eqn:Hr.
  { eapply hearing_seq; [by apply moveRow_masked|]. intros l2 row Hm x [= <-]. apply step_told_row; auto. }
  destruct (contains whole (sectionKey e) && nonempty (option_ e)) eqn:Hw.
  - apply andb_prop in Hw as [Hw%contains_true Ho]. intros x [= <-]. apply (step_told_row t e None); [done|].
    do 2 right. left. split; [done|]. by intros E; rewrite E in Ho.
  - intros x [= <-]. apply step_told_row; [|by do 3 right]. intros r. by apply changeRow_masked.
Qed.

Lemma tell_told edits :
  Forall well_cut edits -> forall l t,
  hearing l (tell before m was will uplink whole t edits)
    (fun _ r => forall rows, r = Ok rows -> Forall masked rows /\
       forall acc, kept_up t acc -> forall l1 e l2, edits = l1 ++ e :: l2 -> key e ∉ (key <$> l1) ++ tSeen t ->
       told (acc ++ rows) e).
Proof.
  induction 1 as [|e edits He Hes IH]; intros l t; cbn [tell].
  { intros rows [= <-]. split; [done|]. intros acc _ [|? ?] ? ?; discriminate. }
  eapply hearing_try; [by apply tellOne_told|]. intros l1 [rows t'] (Hm & Hseen & Ht). cbn [fst snd] in *.
  eapply hearing_try; [apply IH|]. intros l2 more [Hm' Hmore] x [= <-].
  split; [by apply Forall_app|]. intros acc Hacc. destruct (Ht acc Hacc) as [Hacc' He'].
  rewrite (assoc_L (++)). intros [|e0 k1] e1 k2 [= <- E] Hnot.
  - eapply told_more; [|by apply list_subseteq_app_l]. apply He'. set_solver.
  - eapply Hmore; [done|exact E|]. set_solver.
Qed.
End Told.

(** ** The whole draft *)

(** The two sides of the edit's key differ: another value of an option, or a
    section that is on one side only. *)
Definition differs (was will : gmap string string) (e : stagedEdit) : Prop :=
  if nonempty (option_ e) then get was (key e) <> get will (key e)
  else nonempty (get was (key e)) <> nonempty (get will (key e)).

Lemma worded_nonempty values e v : nonempty (worded values e v) = nonempty v.
Proof.
  unfold worded. destruct (_ && nonempty v) eqn:H; [|done]. apply andb_prop in H as [[_ H1]%andb_prop H2]. by rewrite H1, H2.
Qed.

Lemma changeRow_differs was will uplink e :
  differs was will e -> exists row, changeRow was will uplink e = Some row /\ Detail row = key e.
Proof.
  intros Hd. unfold changeRow. destruct (String.eqb (worded _ _ _) _) eqn:E; [exfalso|by eexists].
  apply String.eqb_eq in E. revert Hd. unfold differs. destruct (nonempty (option_ e)) eqn:Ho; intros Hne; apply Hne.
  - revert E. unfold worded. by rewrite Ho.
  - apply (f_equal nonempty) in E. by rewrite !worded_nonempty in E.
Qed.

Section Draft.
Context (before : string -> string -> bool) (m : networkManager).
Context {W : Type} (h : router W) (w : W).

(** What the router printed for [uci changes], taken apart. *)
Definition draft_edits : list stagedEdit :=
  match result h (exec_cmd ["uci"; "changes"]) w with Ok out => parseStagedEdits out | Err _ => [] end.

(** What it said of the draft's keys, on disk and in the draft. *)
Definition draft_sides : gmap string string * gmap string string :=
  result h (bothSides m draft_edits (configsOf draft_edits) ∅ ∅) (after h (exec_cmd ["uci"; "changes"]) w).

Lemma draft_edits_cut : Forall well_cut draft_edits.
Proof. unfold draft_edits. case_match; [apply parseStagedEdits_cut|constructor]. Qed.

(** The rows are those of a walk over the edits with both sides at hand. *)
Lemma StagedChanges_walk rows :
  result h (StagedChanges before m) w = Ok rows ->
  exists uplink w', let whole := wholeEntries draft_sides.1 draft_sides.2 uplink draft_edits in
    result h (tell before m draft_sides.1 draft_sides.2 uplink whole (mkTelling [] [] None false) draft_edits) w' = Ok rows.
Proof.
  unfold StagedChanges, draft_sides, draft_edits. destruct (negb (runs m)); [discriminate|].
  rewrite result_bind. destruct (result h (exec_cmd _) w) as [out|e]; [|discriminate].
  destruct (parseStagedEdits out) as [|e edits] eqn:E; [by exists "", w|].
  rewrite !result_bind. cbv zeta. eauto.
Qed.

(** What the walk says of an edit, or of a row. *)
Lemma StagedChanges_told rows :
  result h (StagedChanges before m) w = Ok rows ->
  Forall masked rows /\
  exists uplink, let whole := wholeEntries draft_sides.1 draft_sides.2 uplink draft_edits in
    forall l1 e l2, draft_edits = l1 ++ e :: l2 -> key e ∉ key <$> l1 ->
    told draft_sides.1 draft_sides.2 uplink whole rows e.
Proof.
  intros (uplink & w' & Hw)%StagedChanges_walk. cbv zeta in Hw.
  pose proof (hearing_sound h _ w' _ (tell_told before m _ _ uplink _ _ draft_edits_cut [] _) rows Hw) as [Hm Ht].
  split; [done|]. exists uplink. intros whole l1 e l2 E Hnew.
  refine (Ht [] (kept_up_start _ _) l1 e l2 E _). cbn [tSeen]. by rewrite app_nil_r.
Qed.


End Draft.

(** ** Drafts in memory *)

(** What [uci changes] prints, the keys on disk and in the draft, and the order of
    the firewall's rules before and after. *)
Record memory_draft := mkMemoryDraft {
  mdChanges : list string; mdDisk : gmap string string; mdDraft : gmap string string;
  mdOrder : list string; mdNewOrder : list string }.

Definition found (values : gmap string string) (k : string) : res string :=
  match values !! k with Some v => Ok v | None => Err (Errorf "uci: Entry not found" []) end.
Definition rules_of (ids : list string) : string :=
  Join (String "010" "") ((fun s => "firewall." +:+ s +:+ "=rule") <$> ids).

(** Every section goes by its internal name, so [uci show] answers for none of the
    keys and each is asked for. *)
Definition draft_router (d : memory_draft) : router unit :=
  mkRouter unit (fun o w => (match o return ans o with
    | MkdirTemp _ => Ok "/tmp/d"
    | Symlink _ _ => Ok tt
    | Exec ["uci"; "changes"] => Ok (Join (String "010" "") (mdChanges d))
    | Exec ["uci"; "-q"; "-X"; "show"; _] => Ok (rules_of (mdNewOrder d))
    | Exec ["uci"; "-q"; "-c"; _; "-X"; "show"; _] => Ok (rules_of (mdOrder d))
    | Exec ["uci"; "-q"; "show"; _] => Ok ""
    | Exec ["uci"; "-q"; "-c"; _; "show"; _] => Ok ""
    | Exec ["uci"; "-q"; "get"; k] => found (mdDraft d) k
    | Exec ["uci"; "-q"; "-c"; _; "get"; k] => found (mdDisk d) (TrimPrefix committedPrefix k)
    | o => refuse o
    end, w)).

Definition panel : networkManager := mkManager true true "".
Definition said_of (d : memory_draft) : res (list ConfigChange) :=
  result (draft_router d) (StagedChanges (fun _ _ => true) panel) tt.

(** A rule that rejects, second in the list. *)
Definition guard : gmap string string :=
  list_to_map [("firewall.cfg0392bd", "rule"); ("firewall.cfg0392bd.name", "Guard"); ("firewall.cfg0392bd.src", "wan");
               ("firewall.cfg0392bd.target", "REJECT")].
Definition opened : gmap string string := <["firewall.cfg0392bd.target" := "ACCEPT"]> guard.

Definition edited : memory_draft :=
  mkMemoryDraft ["firewall.cfg0392bd.target='ACCEPT'"] guard opened ["cfg0292bd"; "cfg0392bd"] ["cfg0292bd"; "cfg0392bd"].


(** The password of a network changed. *)
Definition rekeyed : memory_draft :=
  mkMemoryDraft ["wireless.default_radio0.key='correct horse'"]
    (list_to_map [("wireless.default_radio0", "wifi-iface"); ("wireless.default_radio0.key", "battery staple")])
    (list_to_map [("wireless.default_radio0", "wifi-iface"); ("wireless.default_radio0.key", "correct horse")]) [] [].
Definition rekeyed_row : ConfigChange :=
  mkChange "Wi-Fi password" "wireless.wifiNet.key" "••••" "••••" true "wireless.default_radio0.key" "".


(** ** Findings *)

(** A rule that the draft both moves and edits: the line of the move has the shape
    of the section's own line, so the edit counts as told by the row of a section
    that appears or goes away - and that row speaks of the place only. Here a rule
    that rejects becomes one that accepts, and the apply bar says "2 → 1". *)
Theorem moved_rule_hides_its_edit :
  let d := mkMemoryDraft ["firewall.cfg0392bd='0'"; "firewall.cfg0392bd.target='ACCEPT'"] guard opened
             ["cfg0292bd"; "cfg0392bd"] ["cfg0392bd"; "cfg0292bd"] in
  exists row, said_of d = Ok [row] /\ Detail row = "firewall.cfg0392bd" /\ From row = "2" /\ To row = "1" /\
    Subject row = "Guard".
Proof. eexists. vm_compute. repeat split. Qed.

(** A rule that the draft moves and then removes: both lines have the key of the
    section, the line of the move comes first and has no place to tell, and the
    removal is skipped as met already. The apply bar is empty, and the next apply
    removes the rule. *)
Theorem moved_rule_hides_its_removal :
  let d := mkMemoryDraft ["firewall.cfg0392bd='0'"; "-firewall.cfg0392bd"] guard ∅ ["cfg0292bd"; "cfg0392bd"] ["cfg0292bd"] in
  said_of d = Ok [].
Proof. vm_compute. reflexivity. Qed.
