(* ===== verification/WiFiStatus.v ===== *)
(** * The Wi-Fi screen: internal/adapters/openwrt/wifi.go and wifi_guest.go

    Everything the screen of Wi-Fi shows: the radios with their state, the
    networks, and the guest network with what stands in its way (guestStatus).

    [rng] is the order in which Go ranges over a map, any order. *)

From S2P Require Import Prelude GoStrings GoNet Effects Network Uci Firewall Stage Lan Devices DeviceSources.
From S2P Require Import WiFi WiFiGuest GuestIsolation GuestWrite.

(** [core.WiFiGuest] and [core.WiFiStatus]. *)
Record WiFiGuest := mkWiFiGuest {
  wgState : string; wgOnAir : bool; wgNetwork : string; wgIPv6 : bool; wgRenumbersHome : bool;
  wgBlocked : string; wgBlockedBy : string }.
Record WiFiStatus := mkWiFiStatus {
  wsRadios : list WiFiRadio; wsNetworks : list WiFiNetwork; wsCountry : string; wsGuest : option WiFiGuest }.

Section Screen.
Context (rng : forall A : Type, gmap string A -> list (string * A)).

(** ** The guest network *)

(** Whether one of the interfaces is on the air: each is asked. *)
Fixpoint anyUp (m : wifiManager) (ifnames : list string) : prog bool :=
  match ifnames with
  | [] => Ret false
  | i :: ifnames =>
      st <- apState m i ;;
      rest <- anyUp m ifnames ;;
      Ret (String.eqb st.1 RadioUp || rest)
  end.

Definition guestStatus (m : wifiManager) (st : guestState) (ifnames : gmap string string) : prog (option WiFiGuest) :=
  supported <- guestSupported (stCfg st) ;;
  if negb supported then Ret None else
  let '(ipv6, renumber) := guestIPv6 (stNetwork st) (delegatedPrefixes (stIfaces st)) in
  let '(kind, by_) := default ("", "") (guestBlocker rng st) in
  let g := stShape st in
  let guest state on_air network renumber := Some (mkWiFiGuest state on_air network ipv6 renumber kind by_) in
  if gsOurs g then
    match gsOwned g with
    | [] => Ret (guest GuestOff false "" false)
    | _ =>
        let shown := match gsIfaces g with [] => gsOwned g | l => l end in
        on_air <- anyUp m (omap (fun s => ifnames !! id s) shown) ;;
        Ret (guest (if shapeEnabled shown then GuestOn else GuestOff) on_air (id (default noSection (head shown))) false)
    end
  else if gsForeign g then Ret (guest GuestForeign false "" false)
  else
    on_air <- anyUp m (snd <$> filter (fun i => HasPrefix guestPrefix i.1 = true) (rng _ ifnames)) ;;
    Ret (guest GuestNone on_air "" renumber).

(** ** The radios *)

(** How many devices each access point has. *)
Fixpoint countAll (m : wifiManager) (ifnames : list (string * string)) : prog (gmap string Z) :=
  match ifnames with
  | [] => Ret ∅
  | (sec, ifname) :: ifnames =>
      n <- connectedTo m ifname ;;
      counts <- countAll m ifnames ;;
      Ret (<[sec := n]> counts)
  end.

(** The state of a radio: its access points are asked until one is up or on a
    channel. *)
Fixpoint radioState (m : wifiManager) (enabled : bool) (ifnames : gmap string string) (points : list uciSection)
    (st : string * Z) : prog (string * Z) :=
  match points with
  | [] => Ret st
  | i :: points =>
      match ifnames !! id i with
      | Some ifname =>
          if enabled && (st.2 =? 0)%Z && negb (String.eqb st.1 RadioUp)
          then st <- apState m ifname ;; radioState m enabled ifnames points st
          else radioState m enabled ifnames points st
      | None => radioState m enabled ifnames points st
      end
  end.

Definition sumDevices (counts : gmap string Z) (l : list uciSection) : Z :=
  fold_left (fun n s => (n + default 0 (counts !! id s))%Z) l 0%Z.

Definition radioStatus (m : wifiManager) (c : wifiConfig) (ifnames : gmap string string) (counts : gmap string Z)
    (r : uciSection) : prog WiFiRadio :=
  f <- facts m (id r) ;;
  let ch := get (options r) "channel" in
  let auto := String.eqb ch "" || String.eqb ch "auto" in
  let points := filter (fun i => String.eqb (get (options i) "device") (id r) = true) (wcIfaces c) in
  st <- radioState m (switchedOn r) ifnames points (RadioDown, 0%Z) ;;
  Ret (mkRadio (id r) (bandWord (get (options r) "band")) (switchedOn r) auto (if auto then 0%Z else AtoiValue ch) st.2
         (widthOf (get (options r) "htmode")) (fWidths f) (fChannels f) (sumDevices counts points)
         (if switchedOn r then st.1 else RadioDown)).

Fixpoint radioStatuses (m : wifiManager) (c : wifiConfig) (ifnames : gmap string string) (counts : gmap string Z)
    (radios : list uciSection) : prog (list WiFiRadio) :=
  match radios with
  | [] => Ret []
  | r :: radios =>
      radio <- radioStatus m c ifnames counts r ;;
      rest <- radioStatuses m c ifnames counts radios ;;
      Ret (radio :: rest)
  end.

Definition countryOf (radios : list uciSection) : string :=
  let said r := let cc := get (options r) "country" in nonempty cc && negb (String.eqb cc "00") in
  match find_first said radios with Some r => get (options r) "country" | None => "" end.

(** ** The networks *)

Definition networkStatus (counts : gmap string Z) (guestIface : list string) (n : wifiNet) : WiFiNetwork :=
  let first := wnFirst n in
  let ours := existsb (fun s => contains guestIface (id s)) (wnSections n) in
  mkNetwork (id first) (if onLAN first then WiFiKindMain else if ours then WiFiKindGuest else WiFiKindOther)
    (anyEnabled (wnSections n)) (get (options first) "ssid") (securityOf (get (options first) "encryption"))
    ((fun s => get (options s) "device") <$> wnSections n) (sumDevices counts (wnSections n))
    (nonempty (get (options first) "key")).

(** One network: the guest object that names one of its access points names it. *)
Definition pointAt (guestIface : list string) (g : WiFiGuest) (n : wifiNet) : WiFiGuest :=
  fold_left (fun g s =>
    if contains guestIface (id s) && String.eqb (wgNetwork g) (id s)
    then mkWiFiGuest (wgState g) (wgOnAir g) (id (wnFirst n)) (wgIPv6 g) (wgRenumbersHome g) (wgBlocked g) (wgBlockedBy g)
    else g) (wnSections n) g.

Definition blockedBy (g : WiFiGuest) (kind by_ : string) : WiFiGuest :=
  mkWiFiGuest (wgState g) (wgOnAir g) (wgNetwork g) (wgIPv6 g) (wgRenumbersHome g) kind by_.

(** The warning follows what is live. *)
Definition warned (live : res guestState) (g : WiFiGuest) : WiFiGuest :=
  match live with
  | Err _ => if String.eqb (wgState g) GuestForeign then g else blockedBy g GuestBlockedUnchecked ""
  | Ok live => match guestBlocker rng live with Some (kind, by_) => blockedBy g kind by_ | None => g end
  end.

Definition guestCard (m : wifiManager) (c : wifiConfig) (ifnames : gmap string string)
    : prog (list string * option WiFiGuest) :=
  gst <- guestStateFor m c ;;
  match gst with
  | Err _ => Ret ([], None)
  | Ok gst =>
      g <- guestStatus m gst ifnames ;;
      let ids := id <$> gsIfaces (stShape gst) in
      match g with
      | None => Ret (ids, None)
      | Some g => live <- guestStateCommitted rng m (stIfaces gst) ;; Ret (ids, Some (warned live g))
      end
  end.

Definition Status (m : wifiManager) : prog (res WiFiStatus) :=
  let! c := readConfig m in
  ifnames <- running rng m ;;
  counts <- countAll m (rng _ ifnames) ;;
  radios <- radioStatuses m c ifnames counts (wcRadios c) ;;
  card <- guestCard m c ifnames ;;
  let nets := groupNetworks (wcIfaces c) in
  Ret (Ok (mkWiFiStatus radios (networkStatus counts card.1 <$> nets) (countryOf (wcRadios c))
             ((fun g => fold_left (pointAt card.1) nets g) <$> card.2))).
End Screen.
