(* ===== verification/TunnelRoute.v ===== *)
(** * The tunnel in the kernel's routing: internal/adapters/openwrt/tunnel_route.go

    The rules that send marked traffic into the connection's own table and refuse
    it when the connection is down, how they are rebuilt without a gap, and the
    routes of the connection. With the mark of internal/routing/routing.go and
    the engine's of internal/vpn/engine.go. *)

From S2P Require Import Prelude GoStrings GoNet Effects Network Uci Firewall Stage UciApplier.

Definition TunnelMark : string := "0x40000000".
Definition BypassMark : Z := 536870912.

Definition tunnelTable := "147".
Definition refuseTable := "148".
Definition prioHold := "30089".
Definition prioBypass := "30090".
Definition prioMarked := "30100".
Definition prioRefuse := "30101".
Definition prioLocal := "30102".
Definition prioNets := "30103".

Definition kernelHasIPv6 : prog bool := ask (SysExists "/proc/sys/net/ipv6").

Definition families : prog (list string) :=
  v6 <- kernelHasIPv6 ;; Ret (if v6 then ["-4"; "-6"] else ["-4"]).

Definition ip (args : list string) : prog (res string) := exec_cmd (ipProgram :: args).

(** A rule: its priority, and the other arguments of [ip rule add]. *)
Definition ipRule : Type := string * list string.

Definition marked : string := TunnelMark +:+ "/" +:+ TunnelMark.
Definition bypass : string := "0x" +:+ uhex BypassMark +:+ "/0x" +:+ uhex BypassMark.

Definition wantRules : list ipRule :=
  [(prioBypass, ["fwmark"; bypass; "lookup"; "main"]);
   (prioMarked, ["fwmark"; marked; "lookup"; tunnelTable]);
   (prioRefuse, ["fwmark"; marked; "lookup"; refuseTable]);
   (prioLocal, ["lookup"; "main"; "suppress_prefixlength"; "0"]);
   (prioNets, ["lookup"; tunnelTable; "suppress_prefixlength"; "0"])].

(** One line of [ip rule show], its white space made single spaces. *)
Definition squeeze (line : string) : string := Join " " (Fields line).

Definition onPriority (prios : list string) (line : string) : bool :=
  match Cut ":" line with Some (prio, _) => contains prios prio | None => false end.

(** The lines whose priority is one of [prios]. *)
Definition rulesOn (prios : list string) (out : string) : list string :=
  filter (fun line => onPriority prios line = true) (squeeze <$> Split "010" out).

Definition printed (r : ipRule) : string := r.1 +:+ ": from all " +:+ Join " " r.2.

Definition inPlace (f : string) (want : list ipRule) : prog bool :=
  out <- ip [f; "rule"; "show"] ;;
  match out with
  | Err _ => Ret false
  | Ok out =>
      if decide (rulesOn want.*1 out = printed <$> want) then
        routes <- ip [f; "route"; "show"; "table"; refuseTable] ;;
        Ret (match routes with Ok routes => Contains "unreachable default" routes | Err _ => false end)
      else Ret false
  end.

Definition holdsPriority (ruleShow prio : string) : bool :=
  existsb (fun line => match Cut ":" (TrimSpace line) with Some (p, _) => String.eqb p prio | None => false end)
    (Split "010" ruleShow).

Definition hasRule (f prio rule : string) : prog bool :=
  out <- ip [f; "rule"; "show"] ;;
  Ret (match out with
       | Err _ => false
       | Ok out => bool_decide (rulesOn [prio] out = [prio +:+ ": from all " +:+ rule])
       end).

(** [n] more tries. *)
Fixpoint delete_tries (n : nat) (f prio : string) : prog unit :=
  match n with
  | O => Ret tt
  | S n =>
      r <- ip [f; "rule"; "del"; "priority"; prio] ;;
      match r with Err _ => Ret tt | Ok _ => delete_tries n f prio end
  end.
Definition deleteAll (f prio : string) : prog unit := delete_tries 8 f prio.

Definition release (f : string) : prog (res unit) :=
  let! out := ip [f; "rule"; "show"] in
  if negb (holdsPriority out prioHold) then Ret (Ok tt) else
  _ <- deleteAll f prioHold ;;
  let! out := ip [f; "rule"; "show"] in
  if holdsPriority out prioHold
  then Ret (Err (Errorf "the temporary hold (%s, priority %s) could not be removed; marked traffic stays refused"
                   [f; prioHold]))
  else Ret (Ok tt).

Fixpoint deleteEach (f : string) (want : list ipRule) : prog unit :=
  match want with
  | [] => Ret tt
  | w :: want => _ <- deleteAll f w.1 ;; deleteEach f want
  end.

Definition addRule (f : string) (w : ipRule) : prog (res string) :=
  ip ([f; "rule"; "add"] ++ w.2 ++ ["priority"; w.1]).

Fixpoint addEach (f : string) (want : list ipRule) : prog (list err) :=
  match want with
  | [] => Ret []
  | w :: want => r <- addRule f w ;; errs <- addEach f want ;; Ret (errs_of r ++ errs)
  end.

Definition holdRule : ipRule := (prioHold, ["fwmark"; marked; "lookup"; refuseTable]).

(** The rules taken out and put in again, under the hold. *)
Definition replaceRules (f : string) (want : list ipRule) : prog (list err) :=
  _ <- deleteEach f want ;;
  errs <- addEach f want ;;
  ok <- inPlace f want ;;
  if negb ok
  then Ret (errs ++ [Errorf "the tunnel's rules (%s) did not verify; marked traffic stays refused" [f]]) else
  released <- release f ;;
  Ret (errs ++ errs_of released).

Definition rebuild (f : string) (want : list ipRule) : prog (list err) :=
  refusal <- ip [f; "route"; "replace"; "unreachable"; "default"; "table"; refuseTable] ;;
  match refusal with
  | Err e => Ret [e]
  | Ok _ =>
      held <- hasRule f prioHold ("fwmark " +:+ marked +:+ " lookup " +:+ refuseTable) ;;
      if (held : bool) then replaceRules f want else
      hold <- addRule f holdRule ;;
      match hold with
      | Err e => Ret [Wrapf "hold marked traffic before rebuilding the rules: %w" [] e]
      | Ok _ => replaceRules f want
      end
  end.

Definition ensureFamily (f : string) : prog (list err) :=
  ok <- inPlace f wantRules ;;
  if (ok : bool) then released <- release f ;; Ret (errs_of released) else rebuild f wantRules.

Fixpoint ensureEach (fs : list string) : prog (list err) :=
  match fs with
  | [] => Ret []
  | f :: fs => errs <- ensureFamily f ;; more <- ensureEach fs ;; Ret (errs ++ more)
  end.

(** [ensureLocked]; the lock makes [Ensure], [Up] and [Down] one step each. *)
Definition Ensure : prog (res unit) :=
  fs <- families ;; errs <- ensureEach fs ;; Ret (JoinErrors errs).

Fixpoint flushEach (fs : list string) : prog unit :=
  match fs with
  | [] => Ret tt
  | f :: fs => _ <- ip [f; "route"; "flush"; "table"; tunnelTable] ;; flushEach fs
  end.
Definition flush : prog unit := fs <- families ;; flushEach fs.

(** ** The connection's networks *)

Definition allV4 : Prefix := mkPrefix (Addr4 0) 0.
Definition allV6 : Prefix := mkPrefix (Addr6 0 "") 0.
Definition halves : list (Prefix * Prefix * Prefix) :=
  [(mkPrefix (Addr4 0) 1, mkPrefix (Addr4 (2 ^ 31)) 1, allV4);
   (mkPrefix (Addr6 0 "") 1, mkPrefix (Addr6 (2 ^ 127) "") 1, allV6)].

Definition parseAllowed (a : string) : option Prefix := Masked <$> ParsePrefix (TrimSpace a).

(** Two halves of the address space become the whole of it. *)
Definition join_halves (seen out : list Prefix) (h : Prefix * Prefix * Prefix) : list Prefix :=
  let '(lo, hi, all) := h in
  if decide (lo ∈ seen) then
    if decide (hi ∈ seen) then
      let out := filter (fun p => ~ (p = lo \/ p = hi)) out in
      if decide (all ∈ seen) then out else out ++ [all]
    else out
  else out.

Definition tunnelPrefixes (allowed : list string) : list Prefix * list err :=
  let seen := omap parseAllowed allowed in
  (fold_left (join_halves seen) halves seen,
   Errorf "tunnel route %q: %w" ∘ (fun a => [a]) <$> filter (fun a => parseAllowed a = None) allowed).

Definition everything : list string := ["0.0.0.0/0"; "::/0"].

(** The family of a network, [None] for IPv6 on a kernel without it. *)
Definition routeFamily (v6 : bool) (p : Prefix) : option string :=
  if Is6 (PAddr p) then if v6 then Some "-6" else None else Some "-4".

Definition destination (p : Prefix) : string := if (PBits p =? 0)%Z then "default" else PrefixString p.

Fixpoint addRoutes (v6 : bool) (dev : string) (prefixes : list Prefix) : prog (list err) :=
  match prefixes with
  | [] => Ret []
  | p :: prefixes =>
      match routeFamily v6 p with
      | None => addRoutes v6 dev prefixes
      | Some f =>
          r <- ip [f; "route"; "replace"; destination p; "dev"; dev; "table"; tunnelTable] ;;
          errs <- addRoutes v6 dev prefixes ;;
          Ret (errs_of r ++ errs)
      end
  end.

Definition Up (dev : string) (allowed : list string) : prog (res unit) :=
  let! _ := Ensure in
  _ <- flush ;;
  let '(prefixes, errs) := tunnelPrefixes (match allowed with [] => everything | _ => allowed end) in
  v6 <- kernelHasIPv6 ;;
  more <- addRoutes v6 dev prefixes ;;
  Ret (JoinErrors (errs ++ more)).

Definition Down : prog (res unit) := _ <- flush ;; Ret (Ok tt).

(** ** Whose traffic is marked *)

Definition compact (l : list string) : list string :=
  match l with
  | [] => []
  | x :: l => x :: (fix go x l := match l with
                                  | [] => []
                                  | y :: l => if String.eqb x y then go x l else y :: go y l
                                  end) x l
  end.

Definition lanZone (s : uciSection) : bool := String.eqb (kind s) "zone" && String.eqb (get (options s) "name") "lan".

Definition errNoLanZone : err :=
  Errorf "openwrt: routing into the tunnel needs the local network in a firewall zone named %q (OpenWrt's default), and this router has no such zone with an interface" ["lan"].

Definition lanDevices (m : networkManager) : prog (res (list string)) :=
  if negb (runs m) then Ret (Err (Errorf "openwrt: cannot read the firewall on this build" [])) else
  let! out := withCommitted m "firewall" (fun dir alias => exec_cmd ["uci"; "-q"; "-c"; dir; "show"; alias]) in
  let zones := filter (fun s => lanZone s = true) (parseUCISections out) in
  let networks := mjoin (M:=list) ((fun s => Fields (get (options s) "network")) <$> zones) in
  let devices := mjoin (M:=list) ((fun s => Fields (get (options s) "device")) <$> zones) in
  let! more := (match networks with
                | [] => Ret (Ok [])
                | _ => let! ifaces := Interfaces m in
                       Ret (Ok (mjoin (M:=list) ((fun n =>
                         Network.Device <$> filter (fun i => Name i = n /\ Network.Device i <> "") ifaces) <$> networks)))
                end) in
  match compact (sort_strings (devices ++ more)) with
  | [] => Ret (Err errNoLanZone)
  | devices => Ret (Ok devices)
  end.
