(* ===== verification/TunnelRouteThms.v ===== *)
(** * Marked traffic never leaves by the uplink

    What [ip rule] does, as a class of laws ([IpRules]); what becomes of a packet
    marked for the tunnel under the panel's rules; and that no step of
    internal/adapters/openwrt/tunnel_route.go, whichever commands fail, takes the
    refusal away once it is there. The networks of a connection are routed exactly. *)

From S2P Require Import Prelude GoStrings GoNet Effects Network Uci Firewall Stage UciApplier TunnelRoute.

(** The rules of a family in the kernel's order, by priority and text; whether the
    refusing table refuses; whether the kernel has IPv6. *)
Record RuleViews W := mkRuleViews {
  rules : string -> W -> list (string * string); refuses : string -> W -> bool; hasV6 : bool }.
Arguments rules {W}. Arguments refuses {W}. Arguments hasV6 {W}.

Definition rule_text (x : ipRule) : string := "from all " +:+ Join " " x.2.

(** A line of [ip rule show]. *)
Definition shows (line : string) (r : string * string) : Prop :=
  squeeze line = r.1 +:+ ": " +:+ r.2 /\ lacks ":" r.1 = true /\
  exists rest, Cut ":" (TrimSpace line) = Some (r.1, rest).

Definition shown_lines (out : string) : list string := filter (fun l => squeeze l <> "") (Split "010" out).

Section Rules.
Context {W : Type} (h : router W) (v : RuleViews W).

(** The rules of one priority. *)
Definition at_prio (f : string) (w : W) (p : string) : list string := (filter (fun r => r.1 = p) (rules v f w)).*2.

Definition same_family (f : string) (w w' : W) : Prop := rules v f w' = rules v f w /\ refuses v f w' = refuses v f w.
Definition same_rules (w w' : W) : Prop := forall f, same_family f w w'.

(** Only the rules of [f] with priority [p] may differ. *)
Definition same_but (f p : string) (w w' : W) : Prop :=
  (forall g, g <> f -> same_family g w w') /\ refuses v f w' = refuses v f w /\
  forall q, q <> p -> at_prio f w' q = at_prio f w q.

(** Iproute2's [ip], as BusyBox and the full program do what the panel asks of
    them. A call that answers with an error may have taken effect (it may have
    been stopped afterwards). *)
Class IpRules := {
  ir_v6 w w' b : answer h (SysExists "/proc/sys/net/ipv6") w = (b, w') -> same_rules w w' /\ b = hasV6 v;
  ir_show f w w' r : answer h (Exec [ipProgram; f; "rule"; "show"]) w = (r, w') ->
    same_rules w w' /\ forall out, r = Ok out -> Forall2 shows (shown_lines out) (rules v f w);
  ir_add f x w w' r : x ∈ holdRule :: wantRules ->
    answer h (Exec (ipProgram :: [f; "rule"; "add"] ++ x.2 ++ ["priority"; x.1])) w = (r, w') ->
    same_but f x.1 w w' /\
    (at_prio f w' x.1 = at_prio f w x.1 ++ [rule_text x] \/ (is_ok r = false /\ at_prio f w' x.1 = at_prio f w x.1));
  ir_del f p w w' r : answer h (Exec [ipProgram; f; "rule"; "del"; "priority"; p]) w = (r, w') ->
    same_but f p w w' /\ (at_prio f w' p = at_prio f w p \/ at_prio f w' p = tail (at_prio f w p));
  ir_refuse f w w' r :
    answer h (Exec [ipProgram; f; "route"; "replace"; "unreachable"; "default"; "table"; refuseTable]) w = (r, w') ->
    (forall g, g <> f -> same_family g w w') /\ rules v f w' = rules v f w /\
    (refuses v f w' = true \/ (is_ok r = false /\ refuses v f w' = refuses v f w));
  ir_refusal f w w' r : answer h (Exec [ipProgram; f; "route"; "show"; "table"; refuseTable]) w = (r, w') ->
    same_rules w w' /\ forall out, r = Ok out -> Contains "unreachable default" out = true -> refuses v f w = true;
  ir_flush f w w' r : answer h (Exec [ipProgram; f; "route"; "flush"; "table"; tunnelTable]) w = (r, w') ->
    same_rules w w';
  ir_route f dst dev w w' r :
    answer h (Exec [ipProgram; f; "route"; "replace"; dst; "dev"; dev; "table"; tunnelTable]) w = (r, w') ->
    same_rules w w' }.

(** What becomes of a packet marked for the tunnel, as the rules are read in the
    order of their priorities: it is [confined] when it is refused unless a rule
    before sends it into the connection's table. *)
Definition passes : list string := [rule_text (prioBypass, ["fwmark"; bypass; "lookup"; "main"]);
  rule_text (prioMarked, ["fwmark"; marked; "lookup"; tunnelTable]);
  rule_text (prioNets, ["lookup"; tunnelTable; "suppress_prefixlength"; "0"])].

Fixpoint refused_by (refusing : bool) (texts : list string) : bool :=
  match texts with
  | [] => false
  | t :: texts =>
      if String.eqb t (rule_text holdRule) then refusing || refused_by refusing texts
      else contains passes t && refused_by refusing texts
  end.

(** The rules on the panel's priorities, up to the refusal. *)
Definition panel_rules (f : string) (w : W) : list string :=
  at_prio f w prioHold ++ at_prio f w prioBypass ++ at_prio f w prioMarked ++ at_prio f w prioRefuse.

Definition confined (f : string) (w : W) : Prop := refused_by (refuses v f w) (panel_rules f w) = true.

(** The priority of the hold is the panel's alone. *)
Definition hold_ours (f : string) (w : W) : Prop := Forall (fun t => t = rule_text holdRule) (at_prio f w prioHold).

(** Each of the panel's rules is there, alone on its priority. *)
Definition rules_in (f : string) (w : W) : Prop := Forall (fun x => at_prio f w x.1 = [rule_text x]) wantRules.

(** The panel's rules are in place, and the hold is gone. *)
Definition in_force (f : string) (w : W) : Prop :=
  refuses v f w = true /\ rules_in f w /\ at_prio f w prioHold = [].

(** ** Confinement *)

Lemma refused_app refusing l1 l2 : refused_by refusing l1 = true -> refused_by refusing (l1 ++ l2) = true.
Proof.
  induction l1 as [|t l1 IH]; [done|]. cbn. destruct (String.eqb t _).
  - intros [->|H]%orb_true_iff; [done|]. rewrite IH by done. by rewrite orb_true_r.
  - intros [-> H]%andb_true_iff. by rewrite IH.
Qed.

Lemma refused_refusing refusing l : refused_by refusing l = true -> refusing = true.
Proof.
  induction l as [|t l IH]; [done|]. cbn. destruct (String.eqb t _).
  - by intros [?|?]%orb_true_iff; auto.
  - by intros [_ ?]%andb_true_iff; auto.
Qed.

Lemma held_confined f w :
  hold_ours f w -> refuses v f w = true -> at_prio f w prioHold <> [] -> confined f w.
Proof.
  unfold hold_ours, confined, panel_rules. intros Ho Hr Hn. apply refused_app.
  destruct (at_prio f w prioHold) as [|t l]; [done|]. apply Forall_cons in Ho as [-> _].
  cbn [refused_by]. by rewrite String.eqb_refl, Hr.
Qed.

Definition placed (f : string) (w : W) : Prop := refuses v f w = true /\ rules_in f w.

Lemma placed_confined f w : hold_ours f w -> placed f w -> confined f w.
Proof.
  intros Ho [Hr Hp]. destruct (at_prio f w prioHold) as [|t l] eqn:E.
  - unfold confined, panel_rules. rewrite E, Hr.
    repeat (apply Forall_cons in Hp as [?H Hp]). cbn [fst] in *.
    unfold ipRule in *. rewrite H, H0, H1. vm_compute. reflexivity.
  - apply held_confined; [done|done|by rewrite E].
Qed.
End Rules.

(** ** What the kernel prints *)

Lemma decode_rule p t : lacks ":" p = true -> Cut ":" (p +:+ ": " +:+ t) = Some (p, " " +:+ t).
Proof. exact (Cut_sep ":" p (" " +:+ t)). Qed.

Lemma onPriority_rule prios p t : lacks ":" p = true -> onPriority prios (p +:+ ": " +:+ t) = contains prios p.
Proof. intros H. unfold onPriority. by rewrite decode_rule. Qed.

Lemma rulesOn_shown prios out l : Forall2 shows (shown_lines out) l ->
  rulesOn prios out = (fun r => r.1 +:+ ": " +:+ r.2) <$> filter (fun r => contains prios r.1 = true) l /\
  Forall (fun r => lacks ":" r.1 = true) l.
Proof.
  unfold rulesOn, shown_lines. generalize (Split "010" out). intros lines. revert l.
  induction lines as [|line lines IH]; intros l Hl.
  - inversion Hl. subst. split; [done|constructor].
  - cbn [fmap list_fmap]. rewrite filter_cons in Hl. destruct (decide (squeeze line <> "")) as [Hn|Hn].
    + inversion Hl as [|? [p t] ? l' Hs Hl']; subst. destruct (IH _ Hl') as [E Hf].
      destruct Hs as (Hq & Hd & _). cbn [fst snd] in *. split; [|by constructor].
      rewrite !filter_cons, E, Hq, onPriority_rule by done. cbn [fst].
      by destruct (decide (contains prios p = true)).
    + destruct (IH _ Hl) as [E Hf]. split; [|done]. rewrite filter_cons, E.
      apply dec_stable in Hn. rewrite Hn. by destruct (decide (onPriority prios "" = true)).
Qed.

Lemma fmap_decode (l : list (string * string)) (want : list ipRule) :
  Forall (fun r => lacks ":" r.1 = true) l -> Forall (fun x => lacks ":" x.1 = true) want ->
  (fun r => r.1 +:+ ": " +:+ r.2) <$> l = printed <$> want -> l = (fun x => (x.1, rule_text x)) <$> want.
Proof.
  revert want. induction l as [|[p t] l IH]; intros [|[q sel] want] Hl Hw E; try done.
  apply Forall_cons in Hl as [Hp Hl], Hw as [Hq Hw]. cbn [fmap list_fmap fst snd] in *.
  apply (f_equal (fun l => (head l, tail l))) in E. cbn [head tail] in E. apply pair_equal_spec in E as [E1 E2].
  apply (inj Some), (f_equal (Cut ":")) in E1. unfold printed in E1.
  change (": from all " +:+ Join " " (q, sel).2) with (": " +:+ rule_text (q, sel)) in E1. cbn [fst] in E1.
  rewrite !decode_rule in E1 by done. apply (inj Some), pair_equal_spec in E1 as [-> E1].
  rewrite (IH want) by done. f_equal. f_equal.
  change (String " " t = String " " (rule_text (q, sel))) in E1. exact (f_equal (drop 1) E1).
Qed.

Lemma on_prio_filter (l : list (string * string)) prios p : contains prios p = true ->
  filter (fun r => r.1 = p) (filter (fun r => contains prios r.1 = true) l) = filter (fun r => r.1 = p) l.
Proof.
  intros H. rewrite list_filter_filter. apply list_filter_iff. intros r. split; [tauto|]. by intros <-.
Qed.

Section Steps.
Context {W : Type} (h : router W) (v : RuleViews W) `{!IpRules h v} (f : string).

Definition still (w w' : W) : Prop := confined v f w -> confined v f w'.

#[global] Instance still_preorder : PreOrder still.
Proof. split; unfold still; intros x; auto. Qed.

Lemma same_still w w' : same_family v f w w' -> still w w'.
Proof. intros [Hr Hf]. unfold still, confined, panel_rules, at_prio. by rewrite Hr, Hf. Qed.

Lemma same_at w w' p : same_family v f w w' -> at_prio v f w' p = at_prio v f w p.
Proof. intros [Hr _]. unfold at_prio. by rewrite Hr. Qed.

Lemma same_ours w w' : same_family v f w w' -> hold_ours v f w -> hold_ours v f w'.
Proof. intros H. unfold hold_ours. by rewrite (same_at _ _ _ H). Qed.

Lemma same_rules_in w w' : same_family v f w w' -> rules_in v f w -> rules_in v f w'.
Proof. intros H Hp. eapply Forall_impl; [exact Hp|]. intros x Hx. cbn in *. by rewrite (same_at _ _ _ H). Qed.

Lemma same_placed w w' : same_family v f w w' -> placed v f w -> placed v f w'.
Proof. intros H [Hr Hp]. split; [by rewrite (proj2 H)|by apply (same_rules_in w)]. Qed.

Lemma family_trans w w1 w2 : same_family v f w w1 -> same_family v f w1 w2 -> same_family v f w w2.
Proof. intros [E1 E2] [E3 E4]. split; congruence. Qed.

(** What the hold's presence is worth. *)
Definition held (w : W) : Prop := hold_ours v f w /\ refuses v f w = true /\ at_prio v f w prioHold <> [].

Lemma held_still w w' : held w' -> still w w'.
Proof. intros (Ho & Hr & Hn) _. by apply held_confined. Qed.

Lemma placed_still w w' : hold_ours v f w' -> placed v f w' -> still w w'.
Proof. intros Ho Hp _. by apply placed_confined. Qed.

(** *** Looking *)

Lemma show_keeps w (Q : W -> res string -> Prop) :
  (forall w' r, same_family v f w w' -> (forall out, r = Ok out -> Forall2 shows (shown_lines out) (rules v f w)) -> Q w' r) ->
  keeping h still (ip [f; "rule"; "show"]) w Q.
Proof.
  intros H. apply (keeping_ask h still (Exec _)). intros r w' E. destruct (ir_show h v _ _ _ _ E) as [Hs Ho].
  split; [by apply same_still|by apply H].
Qed.

Lemma want_lacks : Forall (fun x => lacks ":" x.1 = true) wantRules.
Proof. repeat constructor. Qed.

Lemma rules_placed w out : Forall2 shows (shown_lines out) (rules v f w) ->
  rulesOn wantRules.*1 out = printed <$> wantRules -> rules_in v f w.
Proof.
  intros Hs E. apply (rulesOn_shown wantRules.*1) in Hs as [Er Hl]. rewrite Er in E.
  apply fmap_decode in E; [|rewrite Forall_forall in Hl |- *; intros r [_ Hr]%list_elem_of_filter; by apply Hl|apply want_lacks].
  apply Forall_forall. intros x Hx. unfold at_prio.
  rewrite <- (on_prio_filter _ wantRules.*1) by (apply contains_true, list_elem_of_fmap_2, Hx). rewrite E.
  repeat (apply elem_of_cons in Hx as [->|Hx]; [reflexivity|]). by apply not_elem_of_nil in Hx.
Qed.

Lemma inPlace_keeps w : keeping h still (inPlace f wantRules) w
  (fun w' ok => same_family v f w w' /\ (ok = true -> placed v f w')).
Proof.
  unfold inPlace. eapply keeping_seq.
  { apply show_keeps. intros w' r Hs Ho. exact (conj Hs Ho). }
  intros w1 [out|e] [Hs Ho]; [|done].
  destruct (decide (rulesOn wantRules.*1 out = printed <$> wantRules)) as [E|]; [|done].
  pose proof (rules_placed _ _ (Ho _ eq_refl) E) as Hp.
  eapply (keeping_seq h still). { apply (keeping_ask h still (Exec _)). intros r w' Ea. destruct (ir_refusal h v _ _ _ _ Ea) as [H1 H2].
    split; [by apply same_still|]. exact (conj (H1 f) H2). }
  intros w2 r [Hs2 Hr]. split; [by eapply family_trans|].
  intros Hc. destruct r as [routes|]; [|done]. specialize (Hr _ eq_refl Hc).
  apply (same_placed w1); [done|]. split; [done|]. by apply (same_rules_in w).
Qed.

(** *** Deleting and adding under the hold *)

Lemma same_but_held p w w' : p <> prioHold -> same_but v f p w w' -> held w -> held w'.
Proof.
  intros Hp (_ & Hr & Hat) (Ho & Hf & Hn). unfold held, hold_ours. rewrite Hr, (Hat prioHold) by done. done.
Qed.

Lemma delete_held n p w : p <> prioHold -> held w -> keeping h still (delete_tries n f p) w (fun w' _ => held w').
Proof.
  intros Hp. revert w. induction n as [|n IH]; intros w Hw; [done|]. cbn [delete_tries].
  eapply keeping_seq with (T := fun w' _ => held w').
  - apply (keeping_ask h still (Exec _)). intros r w' E. destruct (ir_del h v _ _ _ _ _ E) as [Hs _].
    assert (held w') by (by eapply same_but_held). split; [by apply held_still|done].
  - intros w' [out|e] Hw'; [by apply IH|done].
Qed.

Definition ordinary (want : list ipRule) : Prop := Forall (fun x => x ∈ wantRules) want.

Lemma want_not_hold x : x ∈ wantRules -> x.1 <> prioHold.
Proof. intros Hx. repeat (apply elem_of_cons in Hx as [->|Hx]; [done|]). by apply not_elem_of_nil in Hx. Qed.

Lemma deleteEach_held want w : ordinary want -> held w -> keeping h still (deleteEach f want) w (fun w' _ => held w').
Proof.
  revert w. induction want as [|x want IH]; intros w Ho Hw; [done|]. apply Forall_cons in Ho as [Hx Ho].
  cbn [deleteEach]. eapply keeping_seq; [by apply delete_held; [apply want_not_hold|]|]. intros w' ? Hw'. by apply IH.
Qed.

Lemma addEach_held want w : ordinary want -> held w -> keeping h still (addEach f want) w (fun w' _ => held w').
Proof.
  revert w. induction want as [|x want IH]; intros w Ho Hw; [done|]. apply Forall_cons in Ho as [Hx Ho].
  cbn [addEach]. eapply keeping_seq with (T := fun w' _ => held w').
  - apply (keeping_ask h still (Exec _)). intros r w' E.
    destruct (ir_add h v f x _ _ _ ltac:(by right) E) as [Hs _].
    assert (held w') by (eapply same_but_held; [|done|done]; by apply want_not_hold). split; [by apply held_still|done].
  - intros w1 r Hw1. eapply keeping_seq; [by apply IH|]. intros w2 errs Hw2. done.
Qed.

(** *** Taking the hold out *)

Definition safe (w : W) : Prop := hold_ours v f w /\ placed v f w.

Lemma safe_still w w' : safe w' -> still w w'.
Proof. intros [Ho Hp]. by apply placed_still. Qed.

Lemma same_safe w w' : same_family v f w w' -> safe w -> safe w'.
Proof. intros H [Ho Hp]. split; [by apply (same_ours w)|by apply (same_placed w)]. Qed.

Lemma unhold_safe w w' : same_but v f prioHold w w' ->
  (at_prio v f w' prioHold = at_prio v f w prioHold \/ at_prio v f w' prioHold = tail (at_prio v f w prioHold)) ->
  safe w -> safe w'.
Proof.
  intros (_ & Hr & Hat) Hh (Ho & Hf & Hp). unfold safe, placed. rewrite Hr. split_and!; [|done|].
  - unfold hold_ours in *. destruct Hh as [-> | ->]; [done|]. by destruct Ho.
  - unfold rules_in in *. rewrite Forall_forall in Hp |- *. intros x Hx.
    rewrite Hat by (by apply want_not_hold). by apply Hp.
Qed.

Lemma delete_hold n w : safe w -> keeping h still (delete_tries n f prioHold) w (fun w' _ => safe w').
Proof.
  revert w. induction n as [|n IH]; intros w Hw; [done|]. cbn [delete_tries].
  eapply keeping_seq with (T := fun w' _ => safe w').
  - apply (keeping_ask h still (Exec _)). intros r w' E. destruct (ir_del h v _ _ _ _ _ E) as [Hs Hh].
    assert (safe w') by (by eapply unhold_safe). split; [by apply safe_still|done].
  - intros w' [out|e] Hw'; [by apply IH|done].
Qed.

Lemma no_hold out w : Forall2 shows (shown_lines out) (rules v f w) -> holdsPriority out prioHold = false ->
  at_prio v f w prioHold = [].
Proof.
  intros Hs Hn. unfold at_prio. destruct (filter _ (rules v f w)) as [|[p t] l] eqn:E; [done|].
  assert ((p, t) ∈ filter (fun r => r.1 = prioHold) (rules v f w)) as [Ep Hin]%list_elem_of_filter by (rewrite E; left).
  cbn in Ep. subst p. apply list_elem_of_lookup in Hin as [i Hi].
  destruct (Forall2_lookup_r _ _ _ _ _ Hs Hi) as (line & Hl & _ & _ & rest & Hc).
  apply list_elem_of_lookup_2, list_elem_of_filter in Hl as [_ Hl]. exfalso.
  unfold holdsPriority in Hn. assert (existsb (fun line => match Cut ":" (TrimSpace line) with
    | Some (p, _) => String.eqb p prioHold | None => false end) (Split "010" out) = true) as Ht.
  { apply existsb_exists. exists line. split; [by apply list_elem_of_In|]. by rewrite Hc. }
  congruence.
Qed.

Lemma release_keeps w : safe w ->
  keeping h still (release f) w (fun w' r => safe w' /\ (is_ok r = true -> at_prio v f w' prioHold = [])).
Proof.
  intros Hw. unfold release. eapply keeping_try.
  { apply show_keeps. intros w' r Hs Ho. exact (conj Hs Ho). }
  2: { intros w1 e [Hs _]. split; [by apply (same_safe w)|done]. }
  intros w1 out [Hs Ho]. specialize (Ho _ eq_refl). destruct (holdsPriority out prioHold) eqn:Eh; cbn [negb].
  2: { split; [by apply (same_safe w)|]. intros _. rewrite (same_at _ _ _ Hs). by eapply no_hold. }
  eapply keeping_seq; [by apply delete_hold, (same_safe w)|]. intros w2 ? Hw2.
  eapply keeping_try.
  { apply show_keeps. intros w' r Hs2 Ho2. exact (conj Hs2 Ho2). }
  2: { intros w3 e [Hs3 _]. split; [by apply (same_safe w2)|done]. }
  intros w3 out3 [Hs3 Ho3]. specialize (Ho3 _ eq_refl). destruct (holdsPriority out3 prioHold) eqn:Eh3.
  - split; [by apply (same_safe w2)|done].
  - split; [by apply (same_safe w2)|]. intros _. rewrite (same_at _ _ _ Hs3). by eapply no_hold.
Qed.

(** *** Rebuilding *)

(** What a run for the family is good for: the rules are in force when there is
    no error. *)
Definition settled_rules (w : W) (errs : list err) : Prop := hold_ours v f w /\ (errs = [] -> in_force v f w).

Lemma released_rules w (r : res unit) errs :
  safe w /\ (is_ok r = true -> at_prio v f w prioHold = []) -> settled_rules w (errs ++ errs_of r).
Proof.
  intros [[Ho [Hr Hp]] Hn]. split; [done|]. intros [_ E]%app_eq_nil. destruct r; [|done]. by split_and!; [..|apply Hn].
Qed.

Lemma replaceRules_keeps w : held w -> keeping h still (replaceRules f wantRules) w settled_rules.
Proof.
  intros Hw. unfold replaceRules.
  assert (ordinary wantRules) as Ho by (by apply Forall_forall).
  eapply keeping_seq; [by apply deleteEach_held|]. intros w1 ? Hw1.
  eapply keeping_seq; [by apply addEach_held|]. intros w2 errs Hw2.
  eapply keeping_seq; [by apply inPlace_keeps|]. intros w3 ok [Hs Hp].
  pose proof (same_ours _ _ Hs (proj1 Hw2)) as Ho3. destruct ok; cbn [negb].
  - eapply keeping_seq; [by apply release_keeps; split; [|apply Hp]|]. intros w4 r Hr. by apply released_rules.
  - split; [done|]. by intros [_ ?]%app_eq_nil.
Qed.

(** With the table refusing and the hold at its place, marked traffic is held. *)
Lemma hold_found w w' out : hold_ours v f w -> Forall2 shows (shown_lines out) (rules v f w) ->
  rulesOn [prioHold] out = [printed holdRule] -> refuses v f w = true -> same_family v f w w' -> held w'.
Proof.
  intros Ho Hs E Hr Hw. destruct (rulesOn_shown [prioHold] _ _ Hs) as [Er Hl]. rewrite Er in E.
  assert (at_prio v f w prioHold <> []) as Hn.
  { unfold at_prio. rewrite <- (on_prio_filter _ [prioHold]) by done.
    destruct (filter (fun r => contains [prioHold] r.1 = true) (rules v f w)) as [|r l] eqn:Ef; [done|].
    assert (r ∈ r :: l) as Hin by left. rewrite <- Ef in Hin. apply list_elem_of_filter in Hin as [Hc _].
    apply contains_true, list_elem_of_singleton in Hc. rewrite filter_cons. by rewrite decide_True. }
  unfold held. rewrite (same_at _ _ _ Hw), (proj2 Hw). split_and!; [by apply (same_ours w)|done|done].
Qed.

Lemma rebuild_keeps w : hold_ours v f w -> keeping h still (rebuild f wantRules) w settled_rules.
Proof.
  intros Ho. unfold rebuild.
  eapply keeping_seq with (T := fun w' r => hold_ours v f w' /\ (is_ok r = true -> refuses v f w' = true)).
  { apply (keeping_ask h still (Exec _)). intros r w' E. destruct (ir_refuse h v _ _ _ _ E) as (_ & Hr & Hf).
    assert (forall p, at_prio v f w' p = at_prio v f w p) as Hat by (intros p; unfold at_prio; by rewrite Hr).
    split.
    - intros Hc. unfold confined, panel_rules in *. rewrite !Hat. destruct Hf as [-> |[_ ->]]; [|done].
      by rewrite (refused_refusing _ _ Hc) in Hc.
    - unfold hold_ours. rewrite Hat. split; [done|]. destruct Hf as [?|[-> _]]; done. }
  intros w1 [out|e] [Ho1 Hr1]; [|by split]. specialize (Hr1 eq_refl).
  eapply keeping_seq with (T := fun w' b => hold_ours v f w' /\ refuses v f w' = true /\ (b = true -> held w')).
  { unfold hasRule. eapply keeping_seq.
    { apply show_keeps. intros w' r Hs Hv. exact (conj Hs Hv). }
    intros w2 r [Hs Hv]. split_and!; [by apply (same_ours w1)|by rewrite (proj2 Hs)|].
    destruct r as [show|]; [|done]. intros Hb%bool_decide_eq_true. by apply (hold_found w1 w2 show); auto. }
  intros w2 [|] (Ho2 & Hr2 & Hh2); [by apply replaceRules_keeps, Hh2|].
  eapply keeping_seq with (T := fun w' r => hold_ours v f w' /\ (is_ok r = true -> held w')).
  { apply (keeping_ask h still (Exec _)). intros r w' E.
    destruct (ir_add h v f holdRule _ _ _ ltac:(by left) E) as [(_ & Hr & Hat) Hh].
    change holdRule.1 with prioHold in *.
    assert (hold_ours v f w') as Ho'.
    { unfold hold_ours in *. destruct Hh as [-> |[_ ->]]; [|done]. apply Forall_app. split; [done|]. by constructor. }
    assert (at_prio v f w' prioHold = at_prio v f w2 prioHold \/ held w') as Hc.
    { destruct Hh as [Hh|[_ ?]]; [right|by left]. unfold held. rewrite Hr. split_and!; [done..|].
      rewrite Hh. by destruct (at_prio v f w2 prioHold). }
    split.
    - destruct Hc as [Hc|]; [|by apply held_still]. unfold still, confined, panel_rules.
      rewrite Hr, Hc, !Hat by done. done.
    - split; [done|]. intros Hok. destruct Hc as [Hc|]; [|done]. destruct Hh as [Hh|[Hf _]]; [|by rewrite Hf in Hok].
      rewrite Hh in Hc. apply (f_equal length) in Hc. rewrite length_app in Hc. cbn [length] in Hc. lia. }
  intros w3 [out3|e] [Ho3 Hh3]; [by apply replaceRules_keeps, Hh3|by split].
Qed.

Lemma ensureFamily_keeps w : hold_ours v f w -> keeping h still (ensureFamily f) w settled_rules.
Proof.
  intros Ho. unfold ensureFamily. eapply keeping_seq; [by apply inPlace_keeps|]. intros w1 [|] [Hs Hp].
  - eapply keeping_seq; [by apply release_keeps; split; [by apply (same_ours w)|apply Hp]|].
    intros w2 r Hr. apply (released_rules _ _ [] Hr).
  - by apply rebuild_keeps, (same_ours w).
Qed.

(** ** What leaves the family alone *)

(** The calls about another family, and those about the connection's routes. *)
Inductive apart : op -> Prop :=
| apart_v6 : apart (SysExists "/proc/sys/net/ipv6")
| apart_flush g : apart (Exec [ipProgram; g; "route"; "flush"; "table"; tunnelTable])
| apart_route g dst dev : apart (Exec [ipProgram; g; "route"; "replace"; dst; "dev"; dev; "table"; tunnelTable])
| apart_show g : g <> f -> apart (Exec [ipProgram; g; "rule"; "show"])
| apart_del g p : g <> f -> apart (Exec [ipProgram; g; "rule"; "del"; "priority"; p])
| apart_add g x : g <> f -> x ∈ holdRule :: wantRules ->
    apart (Exec (ipProgram :: [g; "rule"; "add"] ++ x.2 ++ ["priority"; x.1]))
| apart_refusal g : g <> f -> apart (Exec [ipProgram; g; "route"; "show"; "table"; refuseTable])
| apart_refuse g : g <> f ->
    apart (Exec [ipProgram; g; "route"; "replace"; "unreachable"; "default"; "table"; refuseTable]).

#[export] Instance same_family_refl : Reflexive (same_family v f).
Proof. by intros w. Qed.
#[export] Instance same_family_trans : Transitive (same_family v f).
Proof. intros a b c. apply family_trans. Qed.

Lemma apart_same o w w' r : apart o -> answer h o w = (r, w') -> same_family v f w w'.
Proof.
  intros Ha. revert r. destruct Ha; intros r E.
  - by apply (ir_v6 h v) in E as [Hs _].
  - exact (ir_flush h v _ _ _ _ E f).
  - exact (ir_route h v _ _ _ _ _ _ E f).
  - by apply (ir_show h v) in E as [Hs _].
  - apply (ir_del h v) in E as [[Hs _] _]. by apply Hs.
  - apply (ir_add h v) in E as [[Hs _] _]; [by apply Hs|done].
  - by apply (ir_refusal h v) in E as [Hs _].
  - apply (ir_refuse h v) in E as [Hs _]. by apply Hs.
Qed.

Lemma apart_keeps {A} (p : prog A) w : calls apart p -> keeping h still p w (fun w' _ => same_family v f w w').
Proof.
  intros Hc. apply (keeping_calls h still apart (same_family v f)); [done|apply _|apply _|].
  intros o w1 w2 r Ho E. pose proof (apart_same _ _ _ _ Ho E). split; [by apply same_still|done].
Qed.

Section Other.
Context (g : string) (other : g <> f).

Lemma show_apart : calls apart (ip [g; "rule"; "show"]).
Proof using other. split; [by constructor|done]. Qed.

Lemma delete_apart n p : calls apart (delete_tries n g p).
Proof using other.
  induction n as [|n IH]; [done|]. split; [by apply apart_del|]. by intros [out|e].
Qed.

Lemma add_apart x : x ∈ holdRule :: wantRules -> calls apart (addRule g x).
Proof using other. intros Hx. split; [by apply (apart_add g x)|done]. Qed.

Lemma deleteEach_apart want : calls apart (deleteEach g want).
Proof using other.
  induction want as [|x want IH]; [done|]. apply calls_bind; [apply delete_apart|done].
Qed.

Lemma addEach_apart want : ordinary want -> calls apart (addEach g want).
Proof using other.
  induction want as [|x want IH]; [done|]. intros [Hx Ho]%Forall_cons.
  apply calls_bind; [by apply add_apart; right|]. intros r. apply calls_bind; [by apply IH|done].
Qed.

Lemma inPlace_apart want : calls apart (inPlace g want).
Proof using other.
  apply calls_bind; [apply show_apart|]. intros [out|e]; [|done]. destruct (decide _); [|done].
  apply calls_bind; [|done]. split; [by constructor|done].
Qed.

Lemma release_apart : calls apart (release g).
Proof using other.
  apply calls_try; [apply show_apart|]. intros out. destruct (negb _); [done|].
  apply calls_bind; [apply delete_apart|]. intros ?. apply calls_try; [apply show_apart|]. intros out2. by destruct (holdsPriority _ _).
Qed.

Lemma replaceRules_apart : calls apart (replaceRules g wantRules).
Proof using other.
  apply calls_bind; [apply deleteEach_apart|]. intros ?.
  apply calls_bind; [apply addEach_apart; by apply Forall_forall|]. intros errs.
  apply calls_bind; [apply inPlace_apart|]. intros [|]; [|done]. apply calls_bind; [apply release_apart|done].
Qed.

Lemma ensureFamily_apart : calls apart (ensureFamily g).
Proof using other.
  apply calls_bind; [apply inPlace_apart|]. intros [|]; [apply calls_bind; [apply release_apart|done]|].
  apply calls_bind; [split; [by apply apart_refuse|done]|]. intros [out|e]; [|done].
  apply calls_bind; [apply calls_bind; [apply show_apart|]; by intros [out2|e]|].
  intros [|]; [apply replaceRules_apart|]. apply calls_bind; [by apply add_apart; left|].
  intros [out3|e]; [apply replaceRules_apart|done].
Qed.
End Other.

Lemma families_apart : calls apart families.
Proof. split; [constructor|done]. Qed.

Lemma flush_apart : calls apart flush.
Proof.
  apply calls_bind; [apply families_apart|]. intros fs. induction fs as [|g fs IH]; [done|].
  split; [constructor|intros r; exact IH].
Qed.

Lemma addRoutes_apart v6 dev ps : calls apart (addRoutes v6 dev ps).
Proof.
  induction ps as [|p ps IH]; [done|]. cbn [addRoutes]. destruct (routeFamily v6 p) as [g|]; [|done].
  split; [constructor|]. intros r. cbn [prog_bind]. apply calls_bind; [exact IH|done].
Qed.

(** ** Ensure, Up and Down *)

Definition in_use (g : string) : Prop := g = "-4" \/ (g = "-6" /\ hasV6 v = true).

Lemma families_keeps w :
  keeping h still families w (fun w' fs => same_family v f w w' /\ NoDup fs /\ (f ∈ fs <-> in_use f)).
Proof.
  eapply (keeping_seq h still) with (T := fun w' b => same_family v f w w' /\ b = hasV6 v).
  { apply (keeping_ask h still (SysExists _)). intros b w' E.
    apply (ir_v6 h v) in E as [Hs ->]. split; [by apply same_still|done]. }
  intros w1 b [Hs ->]. split; [done|]. unfold in_use. destruct (hasV6 v); set_unfold.
  - split; [apply (bool_decide_unpack _); vm_compute; exact I|naive_solver].
  - split; [apply (bool_decide_unpack _); vm_compute; exact I|naive_solver].
Qed.

Lemma same_settled w w' errs : same_family v f w w' -> settled_rules w errs -> settled_rules w' errs.
Proof.
  intros H [Ho Hf]. split; [by apply (same_ours w)|]. intros E. destruct (Hf E) as (Hr & Hi & Hh).
  split_and!; [by rewrite (proj2 H)|by apply (same_rules_in w)|by rewrite (same_at _ _ _ H)].
Qed.

Lemma ensureEach_keeps fs w : NoDup fs -> hold_ours v f w ->
  keeping h still (ensureEach fs) w (fun w' errs => hold_ours v f w' /\ (f ∈ fs -> errs = [] -> in_force v f w')).
Proof.
  revert w. induction fs as [|g fs IH]; intros w Hnd Ho; [by split; [|intros ?%not_elem_of_nil]|].
  apply NoDup_cons in Hnd as [Hg Hnd]. cbn [ensureEach]. destruct (decide (g = f)) as [->|Hgf].
  - eapply keeping_seq; [by apply ensureFamily_keeps|]. intros w1 errs Hs.
    assert (calls apart (ensureEach fs)) as Ha.
    { clear -Hg. induction fs as [|g fs IH]; [done|]. apply not_elem_of_cons in Hg as [Hg Hf].
      apply calls_bind; [by apply ensureFamily_apart|]. intros e. apply calls_bind; [by apply IH|done]. }
    eapply keeping_seq; [by apply apart_keeps|]. intros w2 more Hw2. cbn beta in Hw2.
    destruct (same_settled _ _ _ Hw2 Hs) as [Ho2 Hf2]. split; [done|]. intros _ [E _]%app_eq_nil. by apply Hf2.
  - eapply keeping_seq; [by apply apart_keeps, ensureFamily_apart|]. intros w1 errs Hw1. cbn beta in Hw1.
    eapply keeping_seq; [by apply IH; [|by apply (same_ours w)]|]. intros w2 more [Ho2 Hf2].
    split; [done|]. intros [?|Hin]%elem_of_cons [_ E]%app_eq_nil; [by subst|by apply Hf2].
Qed.

Lemma Ensure_keeps w : hold_ours v f w ->
  keeping h still Ensure w (fun w' r => hold_ours v f w' /\ (in_use f -> r = Ok tt -> in_force v f w')).
Proof.
  intros Ho. unfold Ensure. eapply keeping_seq; [apply families_keeps|]. intros w1 fs (Hs & Hnd & Hin).
  eapply keeping_seq; [by apply ensureEach_keeps; [|by apply (same_ours w)]|]. intros w2 errs [Ho2 Hf2].
  split; [done|]. intros Hu Hr. apply Hf2; [by apply Hin|]. by destruct errs.
Qed.

Lemma same_in_force w w' : same_family v f w w' -> in_force v f w -> in_force v f w'.
Proof.
  intros H (Hr & Hi & Hh). split_and!; [by rewrite (proj2 H)|by apply (same_rules_in w)|by rewrite (same_at _ _ _ H)].
Qed.

Lemma Up_keeps dev allowed w : hold_ours v f w ->
  keeping h still (Up dev allowed) w (fun w' r => hold_ours v f w' /\ (in_use f -> r = Ok tt -> in_force v f w')).
Proof.
  intros Ho. unfold Up. eapply keeping_try; [by apply Ensure_keeps| |by intros w1 e [? _]].
  intros w1 [] [Ho1 Hf1]. eapply (keeping_mono h still) with (Q := fun w' _ => same_family v f w1 w').
  - apply apart_keeps. apply calls_bind; [apply flush_apart|]. intros u.
    destruct (tunnelPrefixes _) as [prefixes errs].
    apply calls_bind; [split; [constructor|done]|]. intros v6. apply calls_bind; [apply addRoutes_apart|done].
  - intros w2 r Hs. split; [by apply (same_ours w1)|]. intros Hu _. apply (same_in_force w1 w2 Hs), Hf1; done.
Qed.
End Steps.

(** C24. Marked traffic never leaves by the uplink: bringing a connection up,
    rebuilding the rules included, never takes away a refusal that is there. In
    whatever state it starts and whichever commands fail, once the packets marked
    for the tunnel are confined to the connection or refused, they are at every
    later step; and when it reports success they are refused behind the panel's
    five rules, each alone on its priority, with no hold left. *)
Theorem marked_traffic_stays_confined {W} (h : router W) (v : RuleViews W) `{!IpRules h v} (f dev : string)
    (allowed : list string) (w : W) :
  hold_ours v f w ->
  StronglySorted (fun w1 w2 => confined v f w1 -> confined v f w2) (stops h (Up dev allowed) w) /\
  (in_use v f -> result h (Up dev allowed) w = Ok tt ->
     in_force v f (after h (Up dev allowed) w) /\ confined v f (after h (Up dev allowed) w)).
Proof.
  intros Ho. destruct (keeping_sound h (still v f) (Up dev allowed) w _ (Up_keeps h v f dev allowed w Ho)) as [Hs [Ho' Hf]].
  split; [exact Hs|]. intros Hu Hr. specialize (Hf Hu Hr). split; [done|]. destruct Hf as (Hx & Hi & _).
  by apply placed_confined.
Qed.

(** ** The networks of a connection *)

Definition address_ok (a : Addr) : Prop :=
  match a with
  | NoAddr => False
  | Addr4 v => (0 <= v < 2 ^ 32)%Z
  | Addr6 v zone => (0 <= v < 2 ^ 128)%Z /\ zone = ""
  end.

Lemma network_part_part bits ones v : (ones <= bits)%Z ->
  network_part bits ones (network_part bits ones v) = network_part bits ones v.
Proof.
  intros H. unfold network_part. by rewrite Z.shiftr_shiftl_l, Z.sub_diag, Z.shiftl_0_r by lia.
Qed.

Lemma ParsePrefix_bits s p : ParsePrefix s = Some p -> (0 <= PBits p <= BitLen (PAddr p))%Z.
Proof.
  unfold ParsePrefix. destruct (cut_last "/" s) as [[addr bits]|]; [|done].
  assert (forall a, (prefix_bits a bits = None \/ exists n, prefix_bits a bits = Some n /\ (0 <= n <= BitLen a)%Z)) as Hb.
  { intros a. unfold prefix_bits. destruct (match bits with String _ (String _ _) => _ | _ => false end); [by left|].
    destruct (Atoi bits) as [n|]; [|by left]. destruct ((0 <=? n)%Z && (n <=? BitLen a)%Z) eqn:E; [right|by left].
    exists n. bool_to_prop. split; [done|lia]. }
  destruct (ParseAddr addr) as [[|v|v [|z zone]]|]; try done.
  all: match goal with |- context [prefix_bits ?a] => destruct (Hb a) as [->|(n & -> & Hn)]; [done|] end.
  all: cbn [fmap option_fmap option_map]; unfold PrefixFrom; cbn [IsValid andb BitLen] in *; intros [= <-]; cbn [PBits PAddr BitLen].
  all: destruct Hn as [H1 H2]; rewrite (proj2 (Z.leb_le _ _) H1), (proj2 (Z.leb_le _ _) H2); cbn [andb]; done.
Qed.

(** A network and the one its host bits are cleared in hold the same addresses. *)
Lemma Masked_contains s p a : ParsePrefix s = Some p -> PrefixContains (Masked p) a = PrefixContains p a.
Proof.
  intros H. apply ParsePrefix_bits in H. unfold Masked, PrefixContains.
  assert (PrefixIsValid p = true) as Hv by (apply Z.leb_le; lia). rewrite Hv. unfold PrefixIsValid in *.
  destruct p as [[|n|n z] b]; cbn [PAddr PBits BitLen andb] in *; [done| |]; rewrite Hv;
    (destruct a as [|v|v [|]]; try done); by rewrite network_part_part by lia.
Qed.

(** Two halves hold an address exactly when the whole does. *)
Lemma halves_join h a : h ∈ halves -> address_ok a ->
  PrefixContains h.1.1 a || PrefixContains h.1.2 a = PrefixContains h.2 a.
Proof.
  assert (forall b v, (0 < b)%Z -> (0 <= v < 2 ^ b)%Z ->
    ((0 =? network_part b 1 v) || (2 ^ (b - 1) =? network_part b 1 v))%Z = (0 =? network_part b 0 v)%Z) as Hb.
  { intros b v Hb Hv. unfold network_part. rewrite !Z.shiftl_mul_pow2, !Z.shiftr_div_pow2 by lia.
    replace (b - 0)%Z with b by lia. rewrite (Z.div_small v (2 ^ b)) by lia.
    assert (2 ^ b = 2 * 2 ^ (b - 1))%Z as Hp by (rewrite <- Z.pow_succ_r by lia; f_equal; lia).
    pose proof (Z.pow_pos_nonneg 2 (b - 1) ltac:(lia) ltac:(lia)) as Hpos.
    assert (v / 2 ^ (b - 1) = 0 \/ v / 2 ^ (b - 1) = 1)%Z as [->| ->].
    { pose proof (Z.div_pos v (2 ^ (b - 1)) ltac:(lia) Hpos).
      pose proof (Z.div_lt_upper_bound v (2 ^ (b - 1)) 2 Hpos ltac:(lia)). lia. }
    - done.
    - rewrite Z.mul_1_l, Z.mul_0_l, Z.eqb_refl. by rewrite orb_true_r. }
  intros Hh Ha. unfold halves in Hh.
  apply elem_of_cons in Hh as [->|[->|Hh%not_elem_of_nil]%elem_of_cons]; [| |done]; cbn [fst snd];
    destruct a as [|v|v zone]; cbn [address_ok] in Ha; try done.
  - exact (Hb 32%Z v ltac:(lia) Ha).
  - destruct Ha as [Hv ->]. exact (Hb 128%Z v ltac:(lia) Hv).
Qed.

Definition covers (ps : list Prefix) (a : Addr) : bool := existsb (fun p => PrefixContains p a) ps.

Lemma covers_spec ps a : covers ps a = true <-> exists p, p ∈ ps /\ PrefixContains p a = true.
Proof.
  unfold covers. rewrite existsb_exists. split; intros (p & Hp & Hc); exists p; (split; [|done]); by apply list_elem_of_In.
Qed.

(** Halves joined hold the addresses they did. *)
Lemma join_halves_covers seen out h a :
  h ∈ halves -> address_ok a -> (forall p, p ∈ [h.1.1; h.1.2; h.2] -> p ∈ seen -> p ∈ out) ->
  covers (join_halves seen out h) a = covers out a.
Proof.
  intros Hh Ha Hin. pose proof (halves_join h a Hh Ha) as Hj.
  assert (h.2 <> h.1.1 /\ h.2 <> h.1.2) as [Hn1 Hn2].
  { apply elem_of_cons in Hh as [->|[->|Hh%not_elem_of_nil]%elem_of_cons]; done. }
  destruct h as [[lo hi] all]. cbn [fst snd] in *. unfold join_halves.
  destruct (decide (lo ∈ seen)) as [Hlo|]; [|done]. destruct (decide (hi ∈ seen)) as [Hhi|]; [|done].
  set (rest := filter (fun p => ~ (p = lo \/ p = hi)) out).
  assert (covers out a = covers rest a || PrefixContains all a) as ->.
  { apply eq_true_iff_eq. rewrite orb_true_iff, <- Hj, orb_true_iff, !covers_spec. split.
    - intros (p & Hp & Hc). destruct (decide (p = lo)) as [->|]; [tauto|]. destruct (decide (p = hi)) as [->|]; [tauto|].
      left. exists p. split; [|done]. apply list_elem_of_filter. tauto.
    - intros [(p & [_ Hp]%list_elem_of_filter & Hc)|[Hc|Hc]]; [by exists p|exists lo|exists hi];
        (split; [|done]); apply Hin; try done; set_solver. }
  destruct (decide (all ∈ seen)) as [Hall|Hall].
  - assert (all ∈ rest) as Hr by (apply list_elem_of_filter; split; [tauto|apply Hin; [set_solver|done]]).
    apply eq_true_iff_eq. rewrite orb_true_iff, !covers_spec. split; [by left|]. intros [?|Hc]; [done|by exists all].
  - unfold covers. rewrite existsb_app. cbn [existsb]. by rewrite orb_false_r.
Qed.

Lemma join_halves_keeps seen out h p :
  p ∈ out -> p <> h.1.1 -> p <> h.1.2 -> p ∈ join_halves seen out h.
Proof.
  destruct h as [[lo hi] all]. cbn [fst snd]. intros Hp H1 H2. unfold join_halves.
  destruct (decide (lo ∈ seen)); [|done]. destruct (decide (hi ∈ seen)); [|done].
  assert (p ∈ filter (fun p => ~ (p = lo \/ p = hi)) out) by (apply list_elem_of_filter; tauto).
  destruct (decide (all ∈ seen)); [done|]. apply elem_of_app. by left.
Qed.


