(* ===== verification/TunnelRouteMem.v ===== *)
(** * A kernel's rules in memory

    The laws of TunnelRouteThms.v hold of a kernel that keeps how many rules stand
    on each of the panel's priorities, and whose calls may fail at any moment; the
    witness brings a connection up on it. *)

From S2P Require Import Prelude GoStrings GoNet Effects Network Uci Firewall Stage UciApplier TunnelRoute TunnelRouteThms.

(** The rules the panel may put there, in the order of their priorities. *)
Definition known : list ipRule := holdRule :: wantRules.
Definition entry (i : nat) : string * string := let x := nth i known holdRule in (x.1, rule_text x).

(** [faults n]: the n-th call from now fails and does nothing. *)
Record kernel := mkKernel { counts : string -> nat -> nat; refusing : string -> bool; faults : nat -> bool }.

Definition tick (w : kernel) : kernel := mkKernel (counts w) (refusing w) (fun n => faults w (S n)).
Definition set_count (f : string) (i n : nat) (w : kernel) : kernel :=
  mkKernel (fun g j => if String.eqb g f && (j =? i)%nat then n else counts w g j) (refusing w) (faults w).
Definition set_refusing (f : string) (w : kernel) : kernel :=
  mkKernel (counts w) (fun g => String.eqb g f || refusing w g) (faults w).

Definition kernel_rules (f : string) (w : kernel) : list (string * string) :=
  mjoin (M:=list) ((fun i => replicate (counts w f i) (entry i)) <$> seq 0 6).

Definition kernel_views : RuleViews kernel := mkRuleViews kernel kernel_rules (fun f w => refusing w f) true.

(** BusyBox prints a tab after the priority and a space at the end. *)
Definition rule_line (r : string * string) : string := r.1 +:+ ":" +:+ String "009" (r.2 +:+ " ").
Definition listing (rs : list (string * string)) : string := 
  Join "" ((fun l => l +:+ String "010" "") <$> (rule_line <$> rs)).

Definition find_add (rest : list string) : option nat :=
  fst <$> list_find (fun x : ipRule => ["rule"; "add"] ++ x.2 ++ ["priority"; x.1] = rest) known.
Definition find_prio (p : string) : option nat := fst <$> list_find (fun x : ipRule => x.1 = p) known.

Definition no : res string := Err (Errorf "exit status 2" []).

Definition refuse_route : list string := ["route"; "replace"; "unreachable"; "default"; "table"; refuseTable].

Definition run_ip (f : string) (rest : list string) (w : kernel) : res string * kernel :=
  if decide (rest = ["rule"; "show"]) then (Ok (listing (kernel_rules f w)), w) else
  if decide (rest = refuse_route) then (Ok "", set_refusing f w) else
  if decide (rest = ["route"; "show"; "table"; refuseTable])
  then (Ok (if refusing w f then "unreachable default " else ""), w) else
  match find_add rest with
  | Some i => (Ok "", set_count f i (S (counts w f i)) w)
  | None =>
      match rest with
      | ["rule"; "del"; "priority"; p] =>
          match find_prio p with
          | Some i => match counts w f i with O => (no, w) | S n => (Ok "", set_count f i n w) end
          | None => (no, w)
          end
      | _ => (Ok "", w)
      end
  end.

Definition kernel_router : router kernel :=
  mkRouter kernel (fun o w =>
    match o return ans o * kernel with
    | SysExists _ => (true, w)
    | Exec (_ :: f :: rest) => if faults w 0 then (no, tick w) else run_ip f rest (tick w)
    | o => (refuse o, w)
    end).

(** ** It keeps the laws *)

Lemma entry_prio i j : i < 6 -> j < 6 -> (entry i).1 = (entry j).1 -> i = j.
Proof. intros Hi Hj. do 6 (destruct i as [|i]; [do 6 (destruct j as [|j]; [done|]); lia|]). lia. Qed.

Lemma filter_replicate (P : string * string -> Prop) `{!forall x, Decision (P x)} n x :
  filter P (replicate n x) = if decide (P x) then replicate n x else [].
Proof.
  induction n as [|n IH]; cbn [replicate]; [by case_decide|]. rewrite filter_cons, IH. by case_decide.
Qed.

Lemma prio_rules f w i : i < 6 -> at_prio kernel_views f w (entry i).1 = replicate (counts w f i) (entry i).2.
Proof.
  intros Hi. unfold at_prio. cbn [rules kernel_views]. unfold kernel_rules.
  assert (forall l, NoDup l -> (forall j, j ∈ l -> j < 6) ->
    (filter (fun r => r.1 = (entry i).1) (mjoin (M:=list) ((fun j => replicate (counts w f j) (entry j)) <$> l))).*2 =
    if decide (i ∈ l) then replicate (counts w f i) (entry i).2 else []) as H.
  { induction l as [|j l IH]; intros Hnd Hl; [by case_decide as H; [apply not_elem_of_nil in H|]|].
    apply NoDup_cons in Hnd as [Hj Hnd].
    set (g := fun j => replicate (counts w f j) (entry j)) in *.
    change (mjoin (M:=list) (g <$> j :: l)) with (g j ++ mjoin (M:=list) (g <$> l)). unfold g at 1.
    rewrite filter_app, fmap_app, IH by (done || (intros; apply Hl; by right)). rewrite filter_replicate.
    destruct (decide ((entry j).1 = (entry i).1)) as [E|E].
    - apply entry_prio in E as ->; [|apply Hl; left|done]. rewrite decide_False by done.
      rewrite decide_True by left. by rewrite app_nil_r, fmap_replicate.
    - cbn [fmap list_fmap app]. destruct (decide (i ∈ l)) as [Hi'|Hi'].
      + by rewrite decide_True by (by right).
      + rewrite decide_False; [done|]. intros [->|?]%elem_of_cons; done. }
  etrans; [apply (H (seq 0 6)); [apply NoDup_seq|intros j Hj; apply elem_of_seq in Hj; lia]|].
  apply decide_True, elem_of_seq. lia.
Qed.

Lemma kernel_rules_known f w r : r ∈ kernel_rules f w -> exists i, i < 6 /\ r = entry i.
Proof.
  unfold kernel_rules. intros (l & Hr & (i & -> & Hi)%list_elem_of_fmap)%list_elem_of_join.
  apply elem_of_replicate in Hr as [-> _]. exists i. split; [apply elem_of_seq in Hi; lia|done].
Qed.

Lemma entry_shown i : i < 6 ->
  lacks "010" (rule_line (entry i)) = true /\ squeeze (rule_line (entry i)) <> "" /\ shows (rule_line (entry i)) (entry i).
Proof.
  intros Hi. assert (i ∈ seq 0 6) as H by (apply elem_of_seq; lia). clear Hi. revert H. generalize i.
  clear i. apply Forall_forall.
  repeat (constructor; [split; [vm_compute; reflexivity|split; [vm_compute; done|];
    split; [vm_compute; reflexivity|split; [vm_compute; reflexivity|eexists; vm_compute; reflexivity]]]|]).
  constructor.
Qed.

Lemma listing_shown f w : Forall2 shows (shown_lines (listing (kernel_rules f w))) (kernel_rules f w).
Proof.
  pose proof (kernel_rules_known f w) as Hk. unfold listing, shown_lines. generalize dependent (kernel_rules f w).
  intros rs Hk. rewrite Split_ended.
  2: { apply Forall_forall. intros l (r & -> & Hr)%list_elem_of_fmap. destruct (Hk r Hr) as (i & Hi & ->).
       by apply entry_shown. }
  rewrite filter_app. change (filter (fun l => squeeze l <> "") [""]) with (@nil string). rewrite app_nil_r.
  induction rs as [|r rs IH]; [constructor|]. destruct (Hk r ltac:(left)) as (i & Hi & Er).
  destruct (entry_shown i Hi) as (_ & Hn & Hs). rewrite <- Er in *.
  rewrite fmap_cons, filter_cons, decide_True by done. constructor; [done|]. apply IH. intros x Hx. apply Hk. by right.
Qed.

Lemma find_prio_entry q i : find_prio q = Some i -> i < 6 /\ q = (entry i).1.
Proof.
  unfold find_prio. intros H. apply fmap_Some in H as ([j x] & Hf & ->). apply list_find_Some in Hf as (Hl & Hx & _).
  assert (j < 6) as Hj by (by apply lookup_lt_Some in Hl). split; [done|]. cbn [fst].
  unfold entry. rewrite <- Hx. apply nth_lookup_Some with (d := holdRule) in Hl. by rewrite Hl.
Qed.

Lemma find_prio_None q f w : find_prio q = None -> at_prio kernel_views f w q = [].
Proof.
  unfold find_prio. intros H. assert (list_find (fun x : ipRule => x.1 = q) known = None) as Hn by (by destruct (list_find _ _)).
  rewrite list_find_None, Forall_forall in Hn. unfold at_prio. cbn [rules kernel_views].
  destruct (filter (fun r => r.1 = q) (kernel_rules f w)) as [|r l] eqn:E; [done|].
  assert (r ∈ r :: l) as Hr by left. rewrite <- E in Hr. apply list_elem_of_filter in Hr as [Hq Hr].
  destruct (kernel_rules_known _ _ _ Hr) as (i & Hi & ->). exfalso. apply (Hn (nth i known holdRule)); [|done].
  apply list_elem_of_In, nth_In. done.
Qed.

(** Kernels that agree on a family's counts have the same rules on a priority. *)
Lemma at_prio_counts f w w' q :
  (forall i, i < 6 -> (entry i).1 = q -> counts w' f i = counts w f i) ->
  at_prio kernel_views f w' q = at_prio kernel_views f w q.
Proof.
  intros H. destruct (find_prio q) as [i|] eqn:E; [|by rewrite !find_prio_None].
  apply find_prio_entry in E as [Hi ->]. by rewrite !prio_rules, H.
Qed.

Lemma same_counts f w w' : (forall i, counts w' f i = counts w f i) -> refusing w' f = refusing w f ->
  same_family kernel_views f w w'.
Proof.
  intros Hc Hr. split; [|done]. cbn [rules kernel_views]. unfold kernel_rules. f_equal.
  apply list_fmap_ext. intros i j _. by rewrite Hc.
Qed.

Lemma set_count_other f g i n w : g <> f -> same_family kernel_views g w (set_count f i n w).
Proof.
  intros Hg. apply same_counts; [|done]. intros j. cbn. destruct (String.eqb_spec g f); [done|]. done.
Qed.

Lemma set_count_but f i n w : i < 6 -> same_but kernel_views f (entry i).1 w (set_count f i n w) /\
  at_prio kernel_views f (set_count f i n w) (entry i).1 = replicate n (entry i).2.
Proof.
  intros Hi. split; [split_and!|].
  - intros g Hg. by apply set_count_other.
  - done.
  - intros q Hq. apply at_prio_counts. intros j Hj <-. cbn. rewrite String.eqb_refl.
    destruct (Nat.eqb_spec j i) as [->|]; done.
  - rewrite prio_rules by done. cbn. by rewrite String.eqb_refl, Nat.eqb_refl.
Qed.

Lemma tick_same w : same_rules kernel_views w (tick w).
Proof. intros f. by apply same_counts. Qed.

Lemma same_but_same f p w w' : same_rules kernel_views w w' -> same_but kernel_views f p w w'.
Proof.
  intros H. split_and!; [by intros g _|by destruct (H f)|]. intros q _. unfold at_prio. by rewrite (proj1 (H f)).
Qed.

Lemma replicate_more n (t : string) : replicate (S n) t = replicate n t ++ [t].
Proof. induction n as [|n IH]; [done|]. cbn [replicate app] in *. by f_equal. Qed.

Lemma known_entry x : x ∈ known -> exists i, i < 6 /\ find_add (["rule"; "add"] ++ x.2 ++ ["priority"; x.1]) = Some i /\
  x.1 = (entry i).1 /\ rule_text x = (entry i).2.
Proof.
  intros H. repeat (apply elem_of_cons in H as [->|H];
    [eexists; split; [|split; [vm_compute; reflexivity|split; reflexivity]]; lia|]).
  by apply not_elem_of_nil in H.
Qed.

(** A call that fails, or runs. *)
Lemma kernel_call f rest w (P : res string * kernel -> Prop) prog :
  P (no, tick w) -> P (run_ip f rest (tick w)) -> P (answer kernel_router (Exec (prog :: f :: rest)) w).
Proof. intros H1 H2. cbn. by destruct (faults w 0). Qed.

#[export] Instance kernel_keeps : IpRules kernel_router kernel_views.
Proof.
  split.
  - intros w w' b [= <- <-]. split; [|done]. intros f. by apply same_counts.
  - intros f w w' r. revert w' r. apply (kernel_call f ["rule"; "show"]); intros w' r [= <- <-].
    + by split; [apply tick_same|].
    + split; [apply tick_same|]. intros out [= <-]. exact (listing_shown f (tick w)).
  - intros f x w w' r Hx. destruct (known_entry x Hx) as (i & Hi & Hf & Hp & Ht). revert w' r.
    apply (kernel_call f (["rule"; "add"] ++ x.2 ++ ["priority"; x.1])).
    + intros w' r [= <- <-]. split; [apply same_but_same, tick_same|right]. split; [done|].
      unfold at_prio. by rewrite (proj1 (tick_same w f)).
    + assert (run_ip f (["rule"; "add"] ++ x.2 ++ ["priority"; x.1]) (tick w) =
                (Ok "", set_count f i (S (counts w f i)) (tick w))) as ->.
      { unfold run_ip. rewrite Hf, !decide_False; try done; apply elem_of_cons in Hx as [->|Hx]; try done;
          repeat (apply elem_of_cons in Hx as [->|Hx]; [done|]); by apply not_elem_of_nil in Hx. }
      intros w' r [= <- <-]. destruct (set_count_but f i (S (counts w f i)) (tick w) Hi) as [Hb Ha].
      rewrite Hp, Ht. split; [|left].
      * destruct Hb as (H1 & H2 & H3). split_and!; [|exact H2|].
        -- intros g Hg. specialize (H1 g Hg). pose proof (tick_same w g) as H4. split; [etrans; [apply H1|apply H4]|etrans; [apply H1|apply H4]].
        -- intros q Hq. rewrite H3 by done. unfold at_prio. by rewrite (proj1 (tick_same w f)).
      * rewrite Ha, replicate_more. f_equal. by rewrite <- prio_rules.
  - intros f p w w' r. revert w' r. apply (kernel_call f ["rule"; "del"; "priority"; p]).
    + intros w' r [= <- <-]. split; [apply same_but_same, tick_same|left].
      unfold at_prio. by rewrite (proj1 (tick_same w f)).
    + intros w' r. change (run_ip f ["rule"; "del"; "priority"; p] (tick w)) with
        (match find_prio p with
         | Some i => match counts w f i with O => (no, tick w) | S n => (Ok "", set_count f i n (tick w)) end
         | None => (no, tick w) end).
      assert (same_but kernel_views f p w (tick w) /\ at_prio kernel_views f (tick w) p = at_prio kernel_views f w p) as [Hb Ha].
      { split; [apply same_but_same, tick_same|]. unfold at_prio. by rewrite (proj1 (tick_same w f)). }
      destruct (find_prio p) as [i|] eqn:Ef; [|intros [= <- <-]; by split; [|left]].
      apply find_prio_entry in Ef as [Hi ->]. destruct (counts w f i) as [|n] eqn:Ec; [intros [= <- <-]; by split; [|left]|].
      intros [= <- <-]. destruct (set_count_but f i n (tick w) Hi) as [(H1 & H2 & H3) Hn]. split; [split_and!|right].
      * intros g Hg. specialize (H1 g Hg). pose proof (tick_same w g) as H4. split; [etrans; [apply H1|apply H4]|etrans; [apply H1|apply H4]].
      * exact H2.
      * intros q Hq. rewrite H3 by done. unfold at_prio. by rewrite (proj1 (tick_same w f)).
      * rewrite Hn, prio_rules, Ec by done. done.
  - intros f w w' r. revert w' r. apply (kernel_call f refuse_route); intros w' r [= <- <-].
    + split_and!; [by intros g _; apply tick_same|apply tick_same|by right].
    + split_and!; [|done|left; cbn; by rewrite String.eqb_refl].
      intros g Hg. apply same_counts; [done|]. cbn. by destruct (String.eqb_spec g f).
  - intros f w w' r. revert w' r. apply (kernel_call f ["route"; "show"; "table"; refuseTable]); intros w' r [= <- <-].
    + by split; [apply tick_same|].
    + split; [apply tick_same|]. intros out [= <-]. cbn. by destruct (refusing w f).
  - intros f w w' r. revert w' r. apply (kernel_call f ["route"; "flush"; "table"; tunnelTable]); intros w' r [= <- <-];
      apply tick_same.
  - intros f dst dev w w' r. revert w' r.
    apply (kernel_call f ["route"; "replace"; dst; "dev"; dev; "table"; tunnelTable]).
    + intros w' r [= <- <-]. apply tick_same.
    + assert (run_ip f ["route"; "replace"; dst; "dev"; dev; "table"; tunnelTable] (tick w) = (Ok "", tick w)) as ->.
      { unfold run_ip. rewrite !decide_False by done. reflexivity. }
      intros w' r [= <- <-]. apply tick_same.
Qed.

(** A kernel from which somebody took the rules of the bypass and of the router's
    own networks; nothing fails any more. *)
Definition damaged : kernel :=
  mkKernel (fun _ i => if bool_decide (i = 2 \/ i = 3 \/ i = 5) then 1 else 0) (fun _ => true)
    (fun _ => false).

Lemma marked_traffic_stays_confined_witness :
  hold_ours kernel_views "-4" damaged /\ confined kernel_views "-4" damaged /\
  result kernel_router (Up "awg0" ["10.8.0.0/16"; "0.0.0.0/1"; "128.0.0.0/1"]) damaged = Ok tt /\
  (StronglySorted (fun w1 w2 => confined kernel_views "-4" w1 -> confined kernel_views "-4" w2)
     (stops kernel_router (Up "awg0" ["10.8.0.0/16"; "0.0.0.0/1"; "128.0.0.0/1"]) damaged) /\
   in_force kernel_views "-4" (after kernel_router (Up "awg0" ["10.8.0.0/16"; "0.0.0.0/1"; "128.0.0.0/1"]) damaged)).
Proof.
  assert (hold_ours kernel_views "-4" damaged) as Ho by (vm_compute; constructor).
  assert (result kernel_router (Up "awg0" ["10.8.0.0/16"; "0.0.0.0/1"; "128.0.0.0/1"]) damaged = Ok tt) as Hr
    by (vm_compute; reflexivity).
  split; [exact Ho|]. split; [vm_compute; reflexivity|]. split; [exact Hr|].
  destruct (marked_traffic_stays_confined kernel_router kernel_views "-4" "awg0" ["10.8.0.0/16"; "0.0.0.0/1"; "128.0.0.0/1"]
    damaged Ho) as [Hs Hf].
  split; [exact Hs|]. exact (proj1 (Hf (or_introl eq_refl) Hr)).
Defined.
