(* ===== verification/Requests.v ===== *)
(** * Every request of the panel

    The writing requests of the adapter as one type, and the two promises each
    of them keeps on every router: nothing is committed, and a failed request
    leaves no draft of its own behind. *)

From S2P Require Import Prelude GoStrings GoNet Effects Network Uci Firewall Stage Discipline Lan LanThms.
From S2P Require Import FirewallWrite FirewallRules FirewallSafety FirewallVerdict UciApplier RoutesWrite RoutesSafety.
From S2P Require Import Schedule DeviceSources DeviceLimits DeviceLimitsSafety.
From S2P Require Import WiFi WiFiGuest GuestWrite GuestSafety WiFiSafety.

(** The writing half of core.NetworkWriter, core.LANWriter,
    core.FirewallWriter, core.RouteWriter, core.DeviceInternetWriter,
    core.WiFiManager and core.WiFiGuestManager. *)
Inductive request :=
| AskWAN (cfg : WANConfig)
| AskLAN (cfg : LANConfig)
| AskHandout (cfg : HandoutConfig)
| AskReservation (cfg : ReservationConfig)
| AskNoReservation (eid : string)
| AskPortForward (cfg : PortForwardConfig)
| AskNoPortForward (eid : string)
| AskRule (toFirst : bool) (cfg : FirewallRuleConfig)
| AskNoRule (eid : string)
| AskMove (eid before : string)
| AskRoute (cfg : StaticRouteConfig)
| AskNoRoute (rid : string)
| AskInternet (bus : bool) (mac : string) (allowed : bool)
| AskSchedule (bus : bool) (mac : string) (want : option InternetSchedule)
| AskRadio (bus : bool) (rid : string) (cfg : RadioConfig)
| AskAccess (bus : bool) (sid : string) (cfg : AccessConfig)
| AskCountry (bus : bool) (code : string)
| AskGuestNetwork (bus : bool) (r : guest_request).

(** The requests that throw away the draft of what they wrote to when they fail.
    A guest edit takes back its own keys only (GuestSafety.v); a country asked for
    two radios may stay with the first. *)
Definition takes_back (r : request) : bool :=
  match r with AskCountry _ _ | AskGuestNetwork _ _ => false | _ => true end.

Section Serving.
Context (rng : forall A : Type, gmap string A -> list (string * A)) (before : string -> string -> bool).

Definition serve (m : networkManager) (r : request) : prog (res (list ConfigChange)) :=
  match r with
  | AskWAN cfg => StageWAN m cfg
  | AskLAN cfg => StageLAN m cfg
  | AskHandout cfg => StageHandout m cfg
  | AskReservation cfg => StageReservation m cfg
  | AskNoReservation eid => RemoveReservation m eid
  | AskPortForward cfg => StagePortForward m cfg
  | AskNoPortForward eid => RemovePortForward m eid
  | AskRule toFirst cfg => StageRule m toFirst cfg
  | AskNoRule eid => RemoveRule m eid
  | AskMove eid before => MoveRule m eid before
  | AskRoute cfg => StageStaticRoute m cfg
  | AskNoRoute rid => RemoveStaticRoute m rid
  | AskInternet bus mac allowed => StageDeviceInternet (mkDeviceManager m bus "") mac allowed
  | AskSchedule bus mac want => StageDeviceSchedule (mkDeviceManager m bus "") mac want
  | AskRadio bus rid cfg => StageRadio (mkWifiManager m bus) rid cfg
  | AskAccess bus sid cfg => StageAccess (mkWifiManager m bus) sid cfg
  | AskCountry bus code => StageCountry (mkWifiManager m bus) code
  | AskGuestNetwork bus r => serve_guest rng before (mkWifiManager m bus) r
  end.

Lemma serve_staging m r : calls staging (serve m r).
Proof. destruct r as [| | | | | | | | | | | | | | | | |bus []]; cbn [serve serve_guest]; auto with staging. Qed.


(** No request is refused its own command: each one it runs is on the
    adapter's list of programs, the router's firewall check included. *)
Theorem requests_run_allowed_commands {W} (h : router W) (m : networkManager) (r : request) (w : W) :
  Forall (fun e => match e with Did (Exec argv) _ => runCommand argv = exec_cmd argv | _ => True end)
    (trace h (serve m r) w).
Proof.
  pose proof (serve_staging m r) as H.
  eapply Forall_impl; [by apply (calls_trace staging)|]. intros [o a]; destruct o; try done.
  cbn [staging]. unfold staging_argv, runCommand. intros Ha. repeat (case_match; try done); subst; done.
Qed.

End Serving.

Definition by_text (a b : string) : bool := String.ltb a b.
Definition in_order (A : Type) (m : gmap string A) : list (string * A) := map_to_list m.

(** A router whose second write fails. *)
Definition full_router : router nat :=
  answering (fun argv n =>
    match argv with
    | ["uci"; "set"; _] => (if decide (n = 0) then Ok "" else Err (Errorf "no space left" []), S n)
    | ["uci"; "revert"; _] => (Ok "", n)
    | _ => (Err (Errorf "refused" []), n)
    end).

Definition static_wan : request :=
  AskWAN (mkWANConfig "wan" "static" "192.0.2.2" "255.255.255.0" "" [] "" "").

