(* ===== verification/Http.v ===== *)
(** * What the web interface is answered

    The errors of the handlers of internal/api: the status, the words and the field a
    refusal is about. Huma, the package that puts them on the wire, is not this
    repository's; an answer here is what the handler returns to it. Also errors.Is and
    errors.As, which choose the status. *)

From S2P Require Import Prelude GoStrings.

(** ** errors.Is and errors.As

    [errors.Join] is what [joined] makes. *)

Fixpoint Is (e target : err) : bool :=
  bool_decide (e = target) ||
  match e with
  | Wrapf _ _ cause | FieldError _ cause => Is cause target
  | WrapShown format shown cause => String.eqb format "%v\n%w" && Is shown target || Is cause target
  | WrapBoth first second => Is first target || Is second target
  | _ => false
  end.

(** [errors.As] for a [*core.FieldError]: the field of the first one. *)
Fixpoint AsField (e : err) : option string :=
  match e with
  | FieldError field _ => Some field
  | Wrapf _ _ cause => AsField cause
  | WrapShown format shown cause =>
      match (if String.eqb format "%v\n%w" then AsField shown else None) with
      | Some field => Some field
      | None => AsField cause
      end
  | WrapBoth first second => match AsField first with Some field => Some field | None => AsField second end
  | _ => None
  end.

(** ** An answer that is an error *)

(** Words of the code, what an error says, or what it says without the name of the
    package ([reasonFor]). *)
Inductive message := Words (s : string) | ErrorText (e : err) | Reason (e : err).

Record httpError := mkHttpError {
  hStatus : Z; hMessage : message; hCause : option err; hLocation : option string }.

(** [huma.Error409Conflict(words)], with the error it shows, and with the error's text. *)
Definition plainly (status : Z) (words : string) : httpError := mkHttpError status (Words words) None None.
Definition because (status : Z) (words : string) (e : err) : httpError := mkHttpError status (Words words) (Some e) None.
Definition showing (status : Z) (e : err) : httpError := mkHttpError status (ErrorText e) None None.

#[export] Instance message_eq_dec : EqDecision message.
Proof. solve_decision. Defined.
#[export] Instance httpError_eq_dec : EqDecision httpError.
Proof. solve_decision. Defined.

Lemma Is_refl e : Is e e = true.
Proof. destruct e; cbn [Is]; by rewrite bool_decide_eq_true_2. Qed.
