(* ===== verification/Metrics.v ===== *)
(** * The history of the router's vital signs: internal/metrics

    metrics.go keeps two rings of samples, a fine one for the last minutes and a
    coarse one for the day; sampler.go fills them from the clock and the
    readings. What the rings hold is what an unbounded list of the samples would
    end in. The CPU load is a float64, here any type with a zero. *)

From S2P Require Import Prelude GoStrings.

(** ** The time of a sample: package time

    [time.Unix(s, 0)] counts seconds since the year 1 in an int64; the zero of
    that count is what [IsZero] asks for, and [Sub] stops at the ends of a
    [Duration], in nanoseconds. *)

Definition Second := 1000000000%Z.
Definition Minute := (60 * Second)%Z.
Definition Hour := (60 * Minute)%Z.

Definition unixToInternal := 62135596800%Z.
Definition Unix (sec : Z) : Z := wrap64 (sec + unixToInternal).
Definition IsZero (t : Z) : bool := (t =? 0)%Z.
Definition saturate (d : Z) : Z := Z.max int_min (Z.min int_max d).
Definition Sub (t u : Z) : Z := saturate ((t - u) * Second).

Section Rings.
Context {F : Type} (zeroF : F).

Record Sample := mkSample { At : Z; CPUPercent : F; MemUsed : Z; MemTotal : Z; StorageUsed : Z }.

Definition sampleBytes := 40%Z.

Definition no_sample : Sample := mkSample 0 zeroF 0 0 0.

(** ** One ring *)

Record ring := mkRing { buf : list Sample; next : nat; full : bool; every : Z; last_at : Z }.

Definition newRing (window tick : Z) : ring :=
  let n := Z.quot window tick in
  let n := if (n <? 1)%Z then 1%Z else n in
  mkRing (replicate (Z.to_nat n) no_sample) 0 false tick 0.

Definition offer (r : ring) (s : Sample) (now : Z) : ring * bool :=
  if negb (IsZero (last_at r)) && (Sub now (last_at r) <? every r)%Z then (r, false)
  else
    let n := (S (next r)) mod length (buf r) in
    (mkRing (<[next r := s]> (buf r)) n (full r || (n =? 0)%nat) (every r) now, true).

Definition samples (r : ring) : list Sample :=
  (if full r then skipn (next r) (buf r) else []) ++ take (next r) (buf r).

(** ** Both of them *)

Definition LiveEvery := (3 * Second)%Z.
Definition LiveWindow := (3 * Minute)%Z.
Definition DayEvery := Minute.
Definition DayWindow := (24 * Hour)%Z.

Record History := mkHistory { live : ring; day : ring }.

Definition NewHistory : History := mkHistory (newRing LiveWindow LiveEvery) (newRing DayWindow DayEvery).

Definition Add (h : History) (s : Sample) : History :=
  let now := Unix (At s) in
  mkHistory (offer (live h) s now).1 (offer (day h) s now).1.

Definition Live (h : History) : list Sample := samples (live h).
Definition Day (h : History) : list Sample := samples (day h).

Definition Size (h : History) : Z :=
  ((Z.of_nat (length (buf (live h))) + Z.of_nat (length (buf (day h)))) * sampleBytes)%Z.

(** ** The sampler

    A source is asked over a world that may change by it. [Vitals] is there for
    the sources that implement [core.VitalsReader]; of [core.SystemInfo] the
    fields the sampler reads stand here. *)

Record Vitals := mkVitals { vCPUPercent : F; vMemUsed : Z; vMemTotal : Z; vStorageUsed : Z }.

Record Source (W : Type) := mkSource {
  VitalsOf : option (W -> res Vitals * W);
  InfoOf : W -> res Vitals * W }.
Arguments VitalsOf {W}.
Arguments InfoOf {W}.

Section Sampler.
Context {W : Type} (src : Source W) (clock : W -> Z * W).

Definition read (w : W) : res Vitals * W :=
  match VitalsOf src with
  | Some vitals => vitals w
  | None => InfoOf src w
  end.

(** The errors are what [onError] was given. *)
Definition once (st : History * list err * W) : History * list err * W :=
  let '(h, es, w) := st in
  match read w with
  | (Err e, w) => (h, es ++ [e], w)
  | (Ok v, w) =>
      let '(now, w) := clock w in
      (Add h (mkSample now (vCPUPercent v) (vMemUsed v) (vMemTotal v) (vStorageUsed v)), es, w)
  end.

(** [Run], cancelled after [ticks] of its timer. *)
Fixpoint Run (ticks : nat) (st : History * list err * W) : History * list err * W :=
  match ticks with
  | 0 => once st
  | S n => once (Run n st)
  end.
End Sampler.

(** ** What a ring has to hold

    Of the samples offered, those are recorded that come [tick] after the last
    recorded one; [lastn] is what a window shows of them. *)

Definition follows (tick : Z) (acc : list Sample) (s : Sample) : bool :=
  match last acc with
  | None => true
  | Some p => (tick <=? (At s - At p) * Second)%Z
  end.

Definition recorded (tick : Z) (l : list Sample) : list Sample :=
  foldl (fun acc s => if follows tick acc s then acc ++ [s] else acc) [] l.

Definition lastn {A} (n : nat) (l : list A) : list A := skipn (length l - n) l.

Definition slots (window tick : Z) : nat := Z.to_nat (Z.max 1 (Z.quot window tick)).

Definition offers (r : ring) (l : list Sample) : ring := foldl (fun r s => (offer r s (Unix (At s))).1) r l.

(** A time between the year 1 and the end of an int64 of nanoseconds. *)
Definition sane (s : Sample) : Prop := (- unixToInternal < At s < 2 ^ 62)%Z.

(** ** Lemmas *)

Lemma Unix_sane s : sane s -> Unix (At s) = (At s + unixToInternal)%Z /\ IsZero (Unix (At s)) = false.
Proof.
  unfold sane, Unix, IsZero, unixToInternal. intros H.
  rewrite wrap64_id by (unfold in_int, int_min, int_max; apply andb_true_iff; split; apply Z.leb_le; lia).
  split; [done|]. apply Z.eqb_neq. lia.
Qed.

Lemma Sub_before t u tick : (int_min < tick <= int_max)%Z -> (Sub t u <? tick)%Z = ((t - u) * Second <? tick)%Z.
Proof.
  unfold Sub, saturate, int_min, int_max, Second. intros H.
  apply eq_iff_eq_true. rewrite !Z.ltb_lt. lia.
Qed.

Lemma lastn_snoc {A} n (l : list A) x : n <= length l -> 0 < n -> lastn n (l ++ [x]) = skipn 1 (lastn n l) ++ [x].
Proof.
  intros H1 H2. unfold lastn. rewrite skipn_skipn, length_app, skipn_app. cbn [length].
  replace (length l + 1 - n - length l) with 0 by lia. cbn [skipn]. do 2 f_equal. lia.
Qed.

Lemma lastn_all {A} n (l : list A) : length l <= n -> lastn n l = l.
Proof. intros H. unfold lastn. by replace (length l - n) with 0 by lia. Qed.

(** The ring [r] has recorded [l]. *)
Record holds (tick : Z) (r : ring) (l : list Sample) : Prop := mkHolds {
  holds_every : every r = tick;
  holds_room : 0 < length (buf r);
  holds_next : next r < length (buf r);
  holds_last : last_at r = match last l with None => 0%Z | Some s => (At s + unixToInternal)%Z end;
  holds_sane : Forall sane l;
  holds_full : if full r then length (buf r) <= length l else length l = next r;
  holds_samples : samples r = lastn (length (buf r)) l }.

Lemma samples_length r : next r < length (buf r) ->
  length (samples r) = if full r then length (buf r) else next r.
Proof.
  intros H. unfold samples. rewrite length_app, length_take. destruct (full r); cbn; [rewrite length_skipn|]; lia.
Qed.

(** Writing at [next] of a full ring drops the oldest sample, of one that is not
    full none. *)
Lemma samples_insert r s now : next r < length (buf r) ->
  let n := (S (next r)) mod length (buf r) in
  samples (mkRing (<[next r := s]> (buf r)) n (full r || (n =? 0)%nat) (every r) now) =
  (if full r then skipn 1 (samples r) else samples r) ++ [s].
Proof.
  intros Hn n. unfold samples. cbn [buf next full].
  set (b := buf r) in *. set (k := next r) in *.
  assert (take (S k) (<[k:=s]> b) = take k b ++ [s]) as Et.
  { rewrite (take_S_r _ _ s) by (by apply list_lookup_insert_eq). by rewrite take_insert_ge. }
  assert (skipn (S k) (<[k:=s]> b) = skipn (S k) b) as Ed by (apply drop_insert_lt; lia).
  assert (S k < length b \/ S k = length b) as [Hlt|Heq] by lia.
  - unfold n. rewrite Nat.mod_small by lia. cbn [Nat.eqb]. rewrite orb_false_r, Et, Ed.
    destruct (full r); [|done]. rewrite app_assoc. f_equal.
    rewrite skipn_app, skipn_skipn, length_skipn. replace (1 - (length b - k)) with 0 by lia. done.
  - unfold n. rewrite Heq, Nat.Div0.mod_same. cbn [Nat.eqb]. rewrite orb_true_r. cbn [skipn take].
    rewrite app_nil_r. rewrite <- (firstn_all (<[k:=s]> b)), length_insert, <- Heq, Et.
    destruct (full r); [|done]. f_equal.
    assert (length (skipn k b) = 1) as El by (rewrite length_skipn; lia).
    by destruct (skipn k b) as [|x [|y t]].
Qed.

Lemma offer_holds tick r l s :
  (int_min < tick <= int_max)%Z -> holds tick r l -> sane s ->
  holds tick (offer r s (Unix (At s))).1 (if follows tick l s then l ++ [s] else l) /\
  length (buf (offer r s (Unix (At s))).1) = length (buf r).
Proof.
  intros Ht [He Hb Hn Hl Hs Hf Hsm] Hsane. destruct (Unix_sane s Hsane) as [HU _].
  assert (negb (IsZero (last_at r)) && (Sub (Unix (At s)) (last_at r) <? every r)%Z = negb (follows tick l s)) as Eo.
  { unfold follows. rewrite Hl, HU, He. destruct (last l) as [p|] eqn:Ep; cbn; [|done].
    assert (sane p) as Hp by (rewrite Forall_forall in Hs; by apply Hs, last_Some_elem_of).
    destruct (Unix_sane p Hp) as [HUp Hzp]. rewrite HUp in Hzp. rewrite Hzp, Sub_before by done. cbn.
    rewrite <- Z.ltb_antisym. f_equal. lia. }
  unfold offer. rewrite Eo. destruct (follows tick l s); cbn [negb fst]; [|by split].
  split; [|by cbn; rewrite length_insert].
  set (n := S (next r) mod length (buf r)).
  assert (n < length (buf r)) as Hn' by (apply Nat.mod_upper_bound; lia).
  split; cbn [every buf next full last_at]; rewrite ?length_insert; [done..| | | |].
  - by rewrite last_snoc, HU.
  - by apply Forall_app, conj, Forall_singleton.
  - rewrite length_app. cbn. destruct (full r); cbn [orb]; [lia|].
    destruct (Nat.eqb_spec n 0) as [E|E]; subst n.
    + assert (~ S (next r) < length (buf r)) by (intros H; rewrite Nat.mod_small in E by done; lia). lia.
    + assert (S (next r) <> length (buf r)) by (intros H; rewrite H, Nat.Div0.mod_same in E; lia).
      rewrite Nat.mod_small; lia.
  - subst n. rewrite samples_insert, Hsm by done. destruct (full r).
    + by rewrite lastn_snoc.
    + rewrite (lastn_all _ l) by lia. by rewrite lastn_all by (rewrite length_app; cbn; lia).
Qed.

Lemma newRing_holds window tick : holds tick (newRing window tick) [] /\ length (buf (newRing window tick)) = slots window tick.
Proof.
  assert (length (buf (newRing window tick)) = slots window tick) as E.
  { unfold newRing, slots. cbn [buf]. rewrite length_replicate. f_equal. destruct (Z.ltb_spec (window ÷ tick) 1); lia. }
  assert (0 < slots window tick) by (unfold slots; lia).
  split; [|done]. split; rewrite ?E; by cbn.
Qed.

Lemma offers_hold window tick l :
  (int_min < tick <= int_max)%Z -> Forall sane l ->
  holds tick (offers (newRing window tick) l) (recorded tick l) /\
  length (buf (offers (newRing window tick) l)) = slots window tick.
Proof.
  intros Ht. destruct (newRing_holds window tick) as [H0 E0]. unfold recorded, offers.
  cut (forall l r acc, holds tick r acc -> length (buf r) = slots window tick -> Forall sane l ->
    let r' := foldl (fun r s => (offer r s (Unix (At s))).1) r l in
    holds tick r' (foldl (fun acc s => if follows tick acc s then acc ++ [s] else acc) acc l) /\
    length (buf r') = slots window tick); [naive_solver|].
  clear l H0 E0. induction l as [|s l IH]; intros r acc H0 E0 Hall; [done|]. apply Forall_cons in Hall as [Hs Hl]. cbn.
  destruct (offer_holds tick r acc s Ht H0 Hs) as [H1 E1]. apply IH; [done|by rewrite E1|done].
Qed.

(** After a sample from the future, nothing is taken until its time has come. *)
Lemma offer_behind r s : sane s -> (0 < last_at r)%Z -> (int_min < every r <= int_max)%Z ->
  ((At s + unixToInternal) - last_at r < 0)%Z -> (0 < every r)%Z -> offer r s (Unix (At s)) = (r, false).
Proof.
  intros Hs Hl He Hb H0. destruct (Unix_sane s Hs) as [HU _]. unfold offer. rewrite HU, Sub_before by done.
  unfold IsZero. rewrite (proj2 (Z.eqb_neq _ _)) by lia. cbn.
  by rewrite (proj2 (Z.ltb_lt _ _)) by (unfold Second; lia).
Qed.
End Rings.

Arguments Sample : clear implicits.
Arguments History : clear implicits.
Arguments ring : clear implicits.
Arguments Vitals : clear implicits.
Arguments Source : clear implicits.

(** ** What the history holds

    The two rings of Metrics.v against the unbounded list of the samples that
    were recorded, and what a clock that steps back does to them. *)


Section Recorded.
Context {F : Type} (zeroF : F).

Lemma Add_live (l : list (Sample F)) h :
  live (foldl Add h l) = offers (live h) l /\ day (foldl Add h l) = offers (day h) l.
Proof. revert h. induction l as [|s l IH]; intros h; cbn; [done|]. apply IH. Qed.

(** C40. The history of the vital signs. Whatever samples come, at whatever
    times, the live graph shows the last sixty of those recorded three seconds
    apart and the day the last 1440 recorded a minute apart, oldest first, as if
    every recorded sample had been kept for ever; and the rings never take more
    than their 60000 bytes. *)
Theorem history_is_the_last_samples (l : list (Sample F)) :
  Forall sane l ->
  let h := foldl Add (NewHistory zeroF) l in
  Live h = lastn 60 (recorded LiveEvery l) /\
  Day h = lastn 1440 (recorded DayEvery l) /\
  Size h = 60000%Z.
Proof.
  intros Hl h. destruct (Add_live l (NewHistory zeroF)) as [El Ed].
  destruct (offers_hold zeroF LiveWindow LiveEvery l) as [Hlive Nl]; [done..|].
  destruct (offers_hold zeroF DayWindow DayEvery l) as [Hday Nd]; [done..|].
  unfold Live, Day, Size, h. rewrite El, Ed. cbn [NewHistory live day].
  rewrite (holds_samples _ _ _ Hlive), (holds_samples _ _ _ Hday), Nl, Nd. done.
Qed.

(** Finding: samples are dropped, not shown as a gap, while the clock is behind
    the last one recorded. A router that starts with a clock in the future and
    then learns the time keeps nothing until that future has come. *)
Theorem clock_stepping_back_stops_the_history (s : Sample F) (l : list (Sample F)) :
  sane s -> Forall (fun x => sane x /\ (At x < At s)%Z) l ->
  foldl Add (Add (NewHistory zeroF) s) l = Add (NewHistory zeroF) s.
Proof.
  intros Hs Hl. induction Hl as [|x l [Hx Hlt] Hl IH]; [done|]. cbn [foldl].
  enough (Add (Add (NewHistory zeroF) s) x = Add (NewHistory zeroF) s) as -> by done.
  destruct (Unix_sane s Hs) as [HU HZ].
  unfold Add. cbn [live day NewHistory].
  assert (forall w t, (0 < t <= int_max)%Z -> offer (offer (newRing zeroF w t) s (Unix (At s))).1 x (Unix (At x)) =
    ((offer (newRing zeroF w t) s (Unix (At s))).1, false)) as Hno.
  { intros w t Ht. apply offer_behind; cbn; rewrite ?HU; unfold sane in *; try done; unfold int_min, int_max in *; lia. }
  unfold LiveEvery, DayEvery. rewrite !Hno by done. done.
Qed.
End Recorded.

Definition tick_at (t : Z) : Sample unit := mkSample t tt t 256 0.

Lemma history_is_the_last_samples_witness :
  Forall sane (tick_at <$> [100%Z; 101%Z; 103%Z; 90%Z; 170%Z]) /\
  (let h := foldl Add (NewHistory tt) (tick_at <$> [100%Z; 101%Z; 103%Z; 90%Z; 170%Z]) in
   Live h = lastn 60 (recorded LiveEvery (tick_at <$> [100%Z; 101%Z; 103%Z; 90%Z; 170%Z])) /\
   Day h = lastn 1440 (recorded DayEvery (tick_at <$> [100%Z; 101%Z; 103%Z; 90%Z; 170%Z])) /\
   Size h = 60000%Z) /\
  recorded DayEvery (tick_at <$> [100%Z; 101%Z; 103%Z; 90%Z; 170%Z]) = tick_at <$> [100%Z; 170%Z].
Proof.
  assert (Forall sane (tick_at <$> [100%Z; 101%Z; 103%Z; 90%Z; 170%Z])) as H
    by (cbn; unfold sane, unixToInternal; repeat apply Forall_cons_2; [cbn; lia..|by apply Forall_nil_2]).
  split; [exact H|]. split; [exact (history_is_the_last_samples tt _ H)|vm_compute; reflexivity].
Defined.

Lemma clock_stepping_back_stops_the_history_witness :
  foldl Add (Add (NewHistory tt) (tick_at 2000000000)) (tick_at <$> [1700000000%Z; 1700086400%Z]) =
  Add (NewHistory tt) (tick_at 2000000000).
Proof.
  apply (clock_stepping_back_stops_the_history tt (tick_at 2000000000)).
  - unfold sane, unixToInternal. cbn. lia.
  - cbn. unfold sane, unixToInternal. repeat apply Forall_cons_2; [cbn; lia..|by apply Forall_nil_2].
Defined.
