(* ===== verification/Config.v ===== *)
(** * The daemon's own configuration: internal/config, internal/core/types.go

    The document with the nodes, the rules of selective routing, the settings and
    what the owner said about devices (config.go), and the store that reads and
    writes it as one JSON file (store.go). encoding/json and bcrypt are arguments:
    [DocumentCodec] and [PasswordHash] say what the store relies on. *)

From S2P Require Import Prelude GoStrings Devices Effects.

(** ** internal/core/types.go *)

Definition EngineAmneziaWG := "amneziawg".
Definition TargetTunnel := "tunnel".
Definition TargetDirect := "direct".
Definition RuleDomain := "domain".
Definition RuleSubnet := "subnet".

Record Node := mkNode { NodeID : string; NodeName : string; NodeEngine : string; NodeEndpoint : string }.

Record RouteRule := mkRouteRule {
  RuleID : string; RuleKind : string; RuleValue : string; RuleTarget : string; RuleNote : string }.

(** ** The document *)

Definition Version := "0.1.0".

Record NodeSecret := mkSecret {
  PrivateKey : string; PeerPublicKey : string; PresharedKey : string; SecretAddress : string;
  SecretDNS : list string; SecretAllowedIPs : list string; PersistentKeepalive : Z;
  Obfuscation : gmap string string }.

Record StoredNode := mkStored { Public : Node; Secret : NodeSecret }.

Record Settings := mkSettings { SettingsPasswordHash : string; ActiveNodeID : string; ListenAddr : string }.

Record Document := mkDocument {
  DocVersion : string; Nodes : list StoredNode; DocRoutes : list RouteRule; DocSettings : Settings;
  DocDevices : list DeviceNote }.

Definition with_nodes (ns : list StoredNode) (d : Document) : Document :=
  mkDocument (DocVersion d) ns (DocRoutes d) (DocSettings d) (DocDevices d).
Definition with_routes (rs : list RouteRule) (d : Document) : Document :=
  mkDocument (DocVersion d) (Nodes d) rs (DocSettings d) (DocDevices d).
Definition with_settings (s : Settings) (d : Document) : Document :=
  mkDocument (DocVersion d) (Nodes d) (DocRoutes d) s (DocDevices d).
Definition with_devices (ns : list DeviceNote) (d : Document) : Document :=
  mkDocument (DocVersion d) (Nodes d) (DocRoutes d) (DocSettings d) ns.
Definition with_active (id : string) (s : Settings) : Settings :=
  mkSettings (SettingsPasswordHash s) id (ListenAddr s).

Definition Default : Document := mkDocument Version [] [] (mkSettings "" "" ":8080") [].

Definition PublicNodes (d : Document) : list Node := Public <$> Nodes d.

(** ** What the owner said about devices

    A change of the document is the document it leaves and its error. *)

Definition MaxDeviceNotes := 1024%nat.

(** [d.deviceNote(mac)], a pointer into the list: its place. *)
Definition deviceNote (d : Document) (mac : string) : option nat :=
  index_of (fun n => String.eqb (nMAC n) mac) (DocDevices d).

Definition addNote (n : DeviceNote) (d : Document) : Document * res unit :=
  if (MaxDeviceNotes <=? length (DocDevices d))%nat then (d, Err ErrTooManyDevices)
  else (with_devices (DocDevices d ++ [n]) d, Ok tt).

Definition SetDeviceName (mac name : string) (d : Document) : Document * res unit :=
  match deviceNote d mac with
  | Some i => (with_devices (alter (fun n => mkNote (nMAC n) name true) i (DocDevices d)) d, Ok tt)
  | None => addNote (mkNote mac name true) d
  end.

Fixpoint MarkDevicesKnown (macs : list string) (d : Document) : Document * res unit :=
  match macs with
  | [] => (d, Ok tt)
  | mac :: macs =>
      match deviceNote d mac with
      | Some i =>
          MarkDevicesKnown macs (with_devices (alter (fun n => mkNote (nMAC n) (nName n) true) i (DocDevices d)) d)
      | None =>
          match addNote (mkNote mac "" true) d with
          | (d, Ok _) => MarkDevicesKnown macs d
          | (d, Err e) => (d, Err e)
          end
      end
  end.

Definition ForgetDevice (mac : string) (d : Document) : Document * bool :=
  match deviceNote d mac with
  | Some i => (with_devices (take i (DocDevices d) ++ skipn (S i) (DocDevices d)) d, true)
  | None => (d, false)
  end.

(** ** The store *)

(** A path without its dots and double slashes, and the directory of one:
    [filepath.Clean] and [filepath.Dir]. *)
Definition cleanStep (rooted : bool) (out : list string) (c : string) : list string :=
  if String.eqb c "" || String.eqb c "." then out
  else if String.eqb c ".." then
    match out with
    | top :: rest => if String.eqb top ".." then c :: out else rest
    | [] => if rooted then [] else [c]
    end
  else c :: out.

Definition Clean (p : string) : string :=
  let rooted := HasPrefix "/" p in
  let out := (if rooted then "/" else "") +:+ Join "/" (rev (foldl (cleanStep rooted) [] (Split "/" p))) in
  if nonempty out then out else ".".

Definition PathDir (p : string) : string :=
  Clean (match Cut "/" (rev_string p) with Some (_, d) => rev_string d +:+ "/" | None => "" end).

(** The text of a document: what a person or a device may put in it is kept
    byte for byte when it is ASCII (encoding/json replaces what is not UTF-8). *)
Definition ascii_only (s : string) : bool := all_chars (fun c => code c <? 128)%Z s.

Definition secretTexts (s : NodeSecret) : list string :=
  [PrivateKey s; PeerPublicKey s; PresharedKey s; SecretAddress s] ++ SecretDNS s ++ SecretAllowedIPs s ++
  (map_to_list (Obfuscation s)).*1 ++ (map_to_list (Obfuscation s)).*2.
Definition nodeTexts (n : StoredNode) : list string :=
  [NodeID (Public n); NodeName (Public n); NodeEngine (Public n); NodeEndpoint (Public n)] ++ secretTexts (Secret n).
Definition ruleTexts (r : RouteRule) : list string :=
  [RuleID r; RuleKind r; RuleValue r; RuleTarget r; RuleNote r].
Definition texts (d : Document) : list string :=
  DocVersion d :: mjoin (M:=list) (nodeTexts <$> Nodes d) ++ mjoin (M:=list) (ruleTexts <$> DocRoutes d) ++
  [SettingsPasswordHash (DocSettings d); ActiveNodeID (DocSettings d); ListenAddr (DocSettings d)] ++
  mjoin (M:=list) ((fun n => [nMAC n; nName n]) <$> DocDevices d).
Definition plain (d : Document) : Prop := Forall (fun s => ascii_only s = true) (texts d).

Class DocumentCodec := {
  MarshalIndent : Document -> res string;
  UnmarshalDocument : string -> res Document;
  UnmarshalDocument_MarshalIndent d b : plain d -> MarshalIndent d = Ok b -> UnmarshalDocument b = Ok d;
  MarshalIndent_text d b : MarshalIndent d = Ok b -> nonempty (TrimSpace b) = true }.

Record Store := mkStore { storePath : string }.

Definition DefaultPath := "/etc/veilbridge/config.json".
Definition NewStore (path : string) : Store := mkStore (if nonempty path then path else DefaultPath).

Definition versioned (d : Document) : Document :=
  if nonempty (DocVersion d) then d
  else mkDocument Version (Nodes d) (DocRoutes d) (DocSettings d) (DocDevices d).

(** A step on the temporary file: when it fails, the file is closed. *)
Definition closing (tmp format : string) (p : prog (res unit)) : prog (res unit) :=
  r <- p ;;
  match r with
  | Ok _ => Ret (Ok tt)
  | Err e => _ <- ask (CloseTemp tmp) ;; Ret (Err (Wrapf format [] e))
  end.

(** [defer os.Remove(tmpName)]. *)
Definition removing {A} (tmp : string) (p : prog A) : prog A :=
  a <- p ;; _ <- ask (Remove tmp) ;; Ret a.

Section Store.
Context `{!DocumentCodec} (s : Store).

Definition LoadDocument : prog (res Document) :=
  r <- ask (ReadFile (storePath s)) ;;
  match r with
  | Err e => Ret (if decide (e = ErrNotExist) then Ok Default
                  else Err (Wrapf "config: read %s: %w" [storePath s] e))
  | Ok b =>
      if negb (nonempty (TrimSpace b)) then Ret (Ok Default) else
      match UnmarshalDocument b with
      | Err e => Ret (Err (Wrapf "config: parse %s: %w" [storePath s] e))
      | Ok d => Ret (Ok (versioned d))
      end
  end.

Definition writeTemp (tmp b : string) : prog (res unit) :=
  let! _ := closing tmp "config: chmod temp: %w" (ask (ChmodFile tmp 384)) in
  let! _ := closing tmp "config: write temp: %w" (ask (WriteTemp tmp b)) in
  let! _ := closing tmp "config: sync temp: %w" (ask (SyncTemp tmp)) in
  let! _ := r <- ask (CloseTemp tmp) ;; Ret (wrapping "config: close temp: %w" [] r) in
  let! _ := r <- ask (Rename tmp (storePath s)) ;; Ret (wrapping "config: rename into place: %w" [] r) in
  Ret (Ok tt).

(** The document is never nil here. *)
Definition SaveDocument (d : Document) : prog (res unit) :=
  let* b := wrapping "config: marshal: %w" [] (MarshalIndent (versioned d)) in
  let dir := PathDir (storePath s) in
  let! _ := r <- ask (MkdirAll dir) ;; Ret (wrapping "config: mkdir %s: %w" [dir] r) in
  let! tmp := r <- ask (CreateTemp (dir +:+ "/.config-*.tmp")) ;; Ret (wrapping "config: temp file: %w" [] r) in
  removing tmp (writeTemp tmp b).

(** One call of [Update] holds the lock of the file, so it is one program. *)
Definition Update (change : Document -> Document * res unit) : prog (res unit) :=
  let! d := LoadDocument in
  match change d with
  | (_, Err e) => Ret (Err e)
  | (d, Ok _) => SaveDocument d
  end.
End Store.

(** ** The password of the panel *)

Class PasswordHash := {
  GenerateFromPassword : string -> res string;
  CompareHashAndPassword : string -> string -> bool;
  Compare_Generate p h : GenerateFromPassword p = Ok h -> nonempty h = true /\ CompareHashAndPassword h p = true }.

Section Password.
Context `{!PasswordHash}.

Definition SetPassword (password : string) (d : Document) : Document * res unit :=
  if negb (nonempty password) then (d, Err (Errorf "config: empty password" [])) else
  match GenerateFromPassword password with
  | Err e => (d, Err (Wrapf "config: hash password: %w" [] e))
  | Ok h =>
      (with_settings (mkSettings h (ActiveNodeID (DocSettings d)) (ListenAddr (DocSettings d))) d, Ok tt)
  end.

Definition VerifyPassword (d : Document) (password : string) : bool :=
  nonempty (SettingsPasswordHash (DocSettings d)) &&
  CompareHashAndPassword (SettingsPasswordHash (DocSettings d)) password.

Lemma SetPassword_verifies p d d' : SetPassword p d = (d', Ok tt) -> VerifyPassword d' p = true.
Proof.
  unfold SetPassword, VerifyPassword. destruct (negb (nonempty p)); [done|].
  destruct (GenerateFromPassword p) as [h|e] eqn:E; [|done]. intros [= <-]. cbn.
  apply andb_true_iff. by apply Compare_Generate.
Qed.
End Password.
