(* ===== verification/ConfigThms.v ===== *)
(** * What the configuration file and the list of device notes hold

    [StoreHost] are the laws of the files the store writes to; with them the
    document is on disk whole or not at all, and what an update wrote is what the
    next reader gets. The list of device notes is a bounded map. *)

From S2P Require Import Prelude GoStrings Devices Effects Config.

(** ** The stops of a run *)
Section Stops.
Context {W : Type} (h : router W).

Lemma stops_after {A} (p : prog A) w : after h p w ∈ stops h p w.
Proof.
  unfold after. revert w. induction p as [a|o k IH]; intros w; cbn; [left|].
  destruct (answer h o w) as [r w1]. right. specialize (IH r w1). by destruct (perform h (k r) w1) as [[? ?] ?].
Qed.

(** A run of two programs stops in the first, or in the second after it. *)
Lemma stops_bind {A B} (p : prog A) (f : A -> prog B) w x :
  x ∈ stops h (prog_bind p f) w -> x ∈ stops h p w \/ x ∈ stops h (f (result h p w)) (after h p w).
Proof.
  unfold after, result. revert w. induction p as [a|o k IH]; intros w; cbn; [by right|].
  destruct (answer h o w) as [r w1]. intros [->|Hx]%elem_of_cons; [left; left|].
  apply IH in Hx as [Hx|Hx]; [left; by right|right]. by destruct (perform h (k r) w1) as [[? ?] ?].
Qed.
End Stops.

(** ** The files of the store *)

Definition temp_file (f : string) : bool := HasSuffix ".tmp" f.

Section Host.
Context {W : Type} (h : router W) (files : W -> gmap string string).

Class StoreHost := {
  sh_mkdir d w w' r : answer h (MkdirAll d) w = (r, w') -> files w' = files w;
  sh_temp d w w' r : answer h (CreateTemp (d +:+ "/.config-*.tmp")) w = (r, w') ->
    match r with
    | Ok f => temp_file f = true /\ files w !! f = None /\ files w' = <[f := ""]> (files w)
    | Err _ => files w' = files w
    end;
  sh_chmod f m w w' r : answer h (ChmodFile f m) w = (r, w') -> files w' = files w;
  sh_fill f b w w' r : answer h (WriteTemp f b) w = (r, w') ->
    (forall q, q <> f -> files w' !! q = files w !! q) /\
    (is_ok r = true -> files w !! f = Some "" -> files w' !! f = Some b);
  sh_sync f w w' r : answer h (SyncTemp f) w = (r, w') -> files w' = files w;
  sh_close f w w' r : answer h (CloseTemp f) w = (r, w') -> files w' = files w;
  sh_rename a b w w' r : answer h (Rename a b) w = (r, w') ->
    if is_ok r then forall d, files w !! a = Some d -> files w' = <[b := d]> (delete a (files w))
    else files w' = files w;
  sh_remove f w w' r : answer h (Remove f) w = (r, w') ->
    files w' = (if is_ok r then delete f (files w) else files w);
  sh_read f w w' r : answer h (ReadFile f) w = (r, w') ->
    files w' = files w /\ (forall d, r = Ok d -> files w !! f = Some d) /\ (r = Err ErrNotExist -> files w !! f = None) }.

Context {H : StoreHost} `{!DocumentCodec} (s : Store).

Let file (w : W) : option string := files w !! storePath s.

(** ** The end of a run and every stop of it

    [along w p Q]: at every stop of [p] started in [w] the store's file is what
    it was in [w] or the text [b]; and where [p] ends, [Q]. *)
Section Along.
Context (w0 : W) (b : string).

Let good (w : W) : Prop := file w = file w0 \/ file w = Some b.

Definition along {A} (p : prog A) (w : W) (Q : W -> A -> Prop) : Prop :=
  throughout h good p w /\ Q (after h p w) (result h p w).

Lemma along_Ret {A} (a : A) w (Q : W -> A -> Prop) : good w -> Q w a -> along (Ret a) w Q.
Proof. intros. split; [by apply throughout_Ret|done]. Qed.

Lemma along_ask {A} o (k : ans o -> prog A) w Q :
  good w -> (forall r w1, answer h o w = (r, w1) -> along (k r) w1 Q) -> along (prog_bind (ask o) k) w Q.
Proof.
  intros Hw Hk. cbn. destruct (answer h o w) as [r w1] eqn:E. destruct (Hk r w1 eq_refl) as [Ht Hq]. split.
  - apply throughout_Do; [done|]. intros r' w' E'. rewrite E in E'. by injection E' as <- <-.
  - unfold after, result in *. cbn. rewrite E. by destruct (perform h (k r) w1) as [[a w2] tr].
Qed.

Lemma along_bind {A B} (p : prog A) (f : A -> prog B) w Q :
  along p w (fun w' a => along (f a) w' Q) -> along (prog_bind p f) w Q.
Proof.
  revert w. induction p as [a|o k IH]; intros w [Ht Hq]; [done|]. cbn.
  unfold throughout in Ht. cbn in Ht. apply (along_ask o (fun r => prog_bind (k r) f)).
  { destruct (answer h o w). by apply Forall_cons in Ht as [? _]. }
  intros r w1 E. rewrite E in Ht. apply Forall_cons in Ht as [_ Ht]. apply IH. split; [exact Ht|].
  unfold after, result in *. cbn in Hq. rewrite E in Hq. by destruct (perform h (k r) w1) as [[a w2] tr].
Qed.

Lemma along_mono {A} (p : prog A) w (Q Q' : W -> A -> Prop) :
  along p w Q -> (forall w a, Q w a -> Q' w a) -> along p w Q'.
Proof. intros [Ht Hq] Hi. split; [done|by apply Hi]. Qed.

(** What a run that failed leaves, and one that did not. *)
Definition saved (w : W) (r : res unit) : Prop :=
  match r with Ok _ => file w = Some b | Err _ => file w = file w0 end.

(** A step of [writeTemp] that is given up closes the file and leaves all as it
    was; one that is not goes on. *)
Lemma along_closing o tmp format (g : ans o -> res unit) (k : unit -> prog (res unit)) w Q :
  good w ->
  (forall r w1, answer h o w = (r, w1) -> good w1 /\
     match g r with Ok a => along (k tt) w1 Q | Err _ => forall w2 e, files w2 = files w1 -> Q w2 (Err e) end) ->
  along (try_bind (closing tmp format (r <- ask o ;; Ret (g r))) k) w Q.
Proof.
  intros Hw Hk. unfold closing, try_bind. apply along_bind, along_bind, along_ask; [done|].
  intros r w1 E. destruct (Hk r w1 E) as [Hg Hr]. apply along_Ret; [done|].
  destruct (g r) as [[]|e]; [by apply along_Ret|].
  apply along_ask; [done|]. intros r2 w2 E2. pose proof (sh_close _ _ _ _ E2) as Ef.
  assert (good w2) by (unfold good, file in *; by rewrite Ef). apply along_Ret; [done|]. apply along_Ret; [done|]. by apply Hr.
Qed.

Lemma along_wrapping o format args (g : ans o -> res unit) (k : unit -> prog (res unit)) w Q :
  good w ->
  (forall r w1, answer h o w = (r, w1) -> good w1 /\
     match g r with Ok a => along (k tt) w1 Q | Err _ => forall e, Q w1 (Err e) end) ->
  along (try_bind (r <- ask o ;; Ret (wrapping format args (g r))) k) w Q.
Proof.
  intros Hw Hk. unfold try_bind. apply along_bind, along_ask; [done|].
  intros r w1 E. destruct (Hk r w1 E) as [Hg Hr]. apply along_Ret; [done|].
  destruct (g r) as [[]|e]; [done|]. by apply along_Ret.
Qed.

Lemma writeTemp_along tmp w : tmp <> storePath s ->
  files w !! tmp = Some "" -> file w = file w0 -> along (writeTemp s tmp b) w saved.
Proof.
  intros Hne Ht Hw. unfold writeTemp, good in *.
  apply (along_closing (ChmodFile tmp 384) tmp _ (fun r => r)); [by left|]. intros r1 w1 E1.
  apply sh_chmod in E1. split; [left; unfold file in *; by rewrite E1|].
  destruct r1 as [[]|e1]; [|intros w2 e Ef; cbn; unfold file in *; by rewrite Ef, E1].
  rewrite <- E1 in Ht. unfold file in Hw. rewrite <- E1 in Hw. clear E1.
  apply (along_closing (WriteTemp tmp b) tmp _ (fun r => r)); [by left|]. intros r2 w2 E2.
  apply sh_fill in E2 as [Eo Ef]. assert (file w2 = file w0) as Hw2 by (unfold file; by rewrite Eo by done).
  split; [by left|]. destruct r2 as [[]|e2]; [|intros w3 e E; cbn; unfold file in *; by rewrite E].
  specialize (Ef eq_refl Ht).
  apply (along_closing (SyncTemp tmp) tmp _ (fun r => r)); [by left|]. intros r3 w3 E3.
  apply sh_sync in E3. unfold file in Hw2. rewrite <- E3 in Ef, Hw2. split; [by left|].
  destruct r3 as [[]|e3]; [|intros w4 e E; cbn; unfold file in *; by rewrite E].
  apply (along_wrapping (CloseTemp tmp) _ _ (fun r => r)); [by left|]. intros r4 w4 E4.
  apply sh_close in E4. rewrite <- E4 in Ef, Hw2. split; [by left|].
  destruct r4 as [[]|e4]; [|by intros e].
  apply (along_wrapping (Rename tmp (storePath s)) _ _ (fun r => r)); [by left|]. intros r5 w5 E5.
  apply sh_rename in E5. destruct r5 as [[]|e5]; cbn [is_ok] in E5.
  - assert (file w5 = Some b) by (unfold file; by rewrite (E5 _ Ef), lookup_insert_eq).
    split; [by right|]. apply along_Ret; [by right|done].
  - assert (file w5 = file w0) as Hw5 by (unfold file in *; by rewrite E5). split; [by left|]. by intros e.
Qed.
End Along.

Context (Hpath : temp_file (storePath s) = false).

Lemma removing_keeps w0 b {A} tmp (p : prog A) w (Q : option string -> A -> Prop) :
  tmp <> storePath s ->
  along w0 b p w (fun w' a => Q (file w') a) -> along w0 b (removing tmp p) w (fun w' a => Q (file w') a).
Proof.
  intros Hne Hp. unfold removing. apply along_bind. destruct Hp as [Ht Hq]. split; [done|].
  assert (file (after h p w) = file w0 \/ file (after h p w) = Some b) as Hg.
  { unfold throughout in Ht. rewrite Forall_forall in Ht. apply Ht, stops_after. }
  apply along_ask; [done|]. intros r w1 E. apply sh_remove in E.
  assert (file w1 = file (after h p w)) as Ef
    by (unfold file; rewrite E; destruct (is_ok r); [by rewrite lookup_delete_ne|done]).
  apply along_Ret; rewrite ?Ef; done.
Qed.

Lemma SaveDocument_along d b w : MarshalIndent (versioned d) = Ok b -> along w b (SaveDocument s d) w (saved w b).
Proof.
  intros Em. unfold SaveDocument. rewrite Em. cbn [wrapping try_bind prog_bind].
  assert (forall w' (v : W), file w' = file w -> file w' = file w \/ file w' = Some b) as Hl by (by left).
  unfold try_bind. apply along_bind, along_ask; [by left|]. intros r1 w1 E1. apply sh_mkdir in E1.
  assert (file w1 = file w) as H1 by (unfold file; by rewrite E1).
  apply along_Ret; [by left|]. destruct r1 as [[]|e1]; cbn [wrapping]; [|by apply along_Ret; [left|]].
  apply along_bind, along_ask; [by left|]. intros r2 w2 E2. apply sh_temp in E2. destruct r2 as [f|e2].
  - destruct E2 as (Hf & Hn & Ef). assert (f <> storePath s) as Hne by congruence.
    assert (file w2 = file w) as H2 by (unfold file in *; by rewrite Ef, lookup_insert_ne).
    apply along_Ret; [by left|]. cbn [wrapping].
    eapply along_mono; [apply (removing_keeps w b f _ w2 (fun c r => match r with Ok _ => c = Some b | Err _ => c = file w end)); [done|]|].
    + apply writeTemp_along; [done| |done]. by rewrite Ef, lookup_insert_eq.
    + by intros w3 [[]|e].
  - assert (file w2 = file w) as H2 by (unfold file in *; by rewrite E2).
    apply along_Ret; [by left|]. by apply along_Ret; [left|].
Qed.

(** The document is on disk whole or not at all. Wherever a save is cut short, the
    file holds what it held before or the complete new document; and when the save
    says it failed, the file is what it was. *)
Lemma SaveDocument_whole d w :
  (forall w', w' ∈ stops h (SaveDocument s d) w ->
     file w' = file w \/ exists b, MarshalIndent (versioned d) = Ok b /\ file w' = Some b) /\
  match result h (SaveDocument s d) w with
  | Ok _ => exists b, MarshalIndent (versioned d) = Ok b /\ file (after h (SaveDocument s d) w) = Some b
  | Err _ => file (after h (SaveDocument s d) w) = file w
  end.
Proof.
  destruct (MarshalIndent (versioned d)) as [b|e] eqn:Em.
  - destruct (SaveDocument_along d b w Em) as [Ht Hq]. split.
    + intros w' Hw. unfold throughout in Ht. rewrite Forall_forall in Ht. destruct (Ht w' Hw); eauto.
    + unfold saved in Hq. destruct (result h _ w); [eauto|done].
  - unfold SaveDocument. rewrite Em. cbn. split; [|done]. intros w' [->|H1]%elem_of_cons; [by left|]. by apply not_elem_of_nil in H1.
Qed.

(** What a reader gets is what the file holds. *)
Lemma LoadDocument_reads w b d :
  file w = Some b -> nonempty (TrimSpace b) = true -> UnmarshalDocument b = Ok d ->
  files (after h (LoadDocument s) w) = files w /\
  forall d', result h (LoadDocument s) w = Ok d' -> d' = versioned d.
Proof.
  intros Hf Ht Hu. unfold LoadDocument, after, result. cbn.
  destruct (answer h (ReadFile (storePath s)) w) as [r w1] eqn:E. apply sh_read in E as (Ef & Hok & Hno).
  destruct r as [b'|e]; cbn.
  - specialize (Hok _ eq_refl). unfold file in Hf. rewrite Hf in Hok. injection Hok as <-. rewrite Ht. cbn.
    rewrite Hu. cbn. split; [done|]. by intros d' [= <-].
  - case_decide as He; cbn; (split; [done|]); [|done]. subst e. unfold file in Hf. rewrite Hno in Hf by done. done.
Qed.

Lemma LoadDocument_stops w x : x ∈ stops h (LoadDocument s) w -> file x = file w.
Proof.
  unfold LoadDocument. cbn. destruct (answer h (ReadFile (storePath s)) w) as [r w1] eqn:E.
  apply sh_read in E as [Ef _]. intros [->|Hx]%elem_of_cons; [done|].
  assert (x = w1) as ->; [|by unfold file; rewrite Ef].
  repeat break_match_in Hx; cbn in Hx; by apply list_elem_of_singleton in Hx.
Qed.

Lemma versioned_idem d : versioned (versioned d) = versioned d.
Proof. unfold versioned. destruct (nonempty (DocVersion d)) eqn:E; [by rewrite E|done]. Qed.

Lemma plain_versioned d : plain d -> plain (versioned d).
Proof. unfold versioned. destruct (nonempty (DocVersion d)); [done|]. unfold plain, texts. cbn. rewrite !Forall_cons. naive_solver. Qed.

End Host.

(** ** The list of device notes as a bounded map *)

Definition noteMap (l : list DeviceNote) : gmap string (string * bool) :=
  list_to_map ((fun n => (nMAC n, (nName n, nKnown n))) <$> l).
Definition notes (d : Document) : gmap string (string * bool) := noteMap (DocDevices d).

(** One note a device, and no more than there is room for. *)
Definition tidy (l : list DeviceNote) : Prop := NoDup (nMAC <$> l) /\ (length l <= MaxDeviceNotes)%nat.

(** What each change does to a map of at most [MaxDeviceNotes] devices. *)
Definition roomFor (mac : string) (m : gmap string (string * bool)) : bool :=
  bool_decide (is_Some (m !! mac)) || (size m <? MaxDeviceNotes)%nat.

Definition named (mac name : string) (m : gmap string (string * bool)) : gmap string (string * bool) * res unit :=
  if roomFor mac m then (<[mac := (name, true)]> m, Ok tt) else (m, Err ErrTooManyDevices).

Fixpoint known (macs : list string) (m : gmap string (string * bool)) : gmap string (string * bool) * res unit :=
  match macs with
  | [] => (m, Ok tt)
  | mac :: macs =>
      if roomFor mac m then known macs (<[mac := (default "" (fst <$> m !! mac), true)]> m)
      else (m, Err ErrTooManyDevices)
  end.

Inductive noteChange := NameIt (mac name : string) | KnowThem (macs : list string) | ForgetIt (mac : string).

Definition changeNotes (c : noteChange) (d : Document) : Document * res unit :=
  match c with
  | NameIt mac name => SetDeviceName mac name d
  | KnowThem macs => MarkDevicesKnown macs d
  | ForgetIt mac => ((ForgetDevice mac d).1, Ok tt)
  end.

Definition changeMap (c : noteChange) (m : gmap string (string * bool)) : gmap string (string * bool) * res unit :=
  match c with
  | NameIt mac name => named mac name m
  | KnowThem macs => known macs m
  | ForgetIt mac => (delete mac m, Ok tt)
  end.

Definition entry (n : DeviceNote) : string * bool := (nName n, nKnown n).

Lemma noteMap_cons n l : noteMap (n :: l) = <[nMAC n := entry n]> (noteMap l).
Proof. done. Qed.

Lemma noteMap_keys l mac : noteMap l !! mac = None <-> mac ∉ nMAC <$> l.
Proof. unfold noteMap. rewrite <- not_elem_of_list_to_map. by rewrite <- list_fmap_compose. Qed.

Lemma noteMap_Permutation l1 l2 : NoDup (nMAC <$> l1) -> l1 ≡ₚ l2 -> noteMap l1 = noteMap l2.
Proof.
  intros Hd Hp. unfold noteMap. apply list_to_map_proper; [|by rewrite Hp].
  by rewrite <- list_fmap_compose.
Qed.

Lemma noteMap_size l : NoDup (nMAC <$> l) -> size (noteMap l) = length l.
Proof.
  induction l as [|n l IH]; intros Hd; [done|]. apply NoDup_cons in Hd as [Hn Hd].
  rewrite noteMap_cons, map_size_insert_None by (by apply noteMap_keys). cbn. by rewrite IH.
Qed.

(** The note of a device, taken out of the list. *)
Lemma deviceNote_Some d mac i : NoDup (nMAC <$> DocDevices d) -> deviceNote d mac = Some i ->
  exists n, nMAC n = mac /\ DocDevices d !! i = Some n /\ DocDevices d ≡ₚ n :: delete i (DocDevices d) /\
    notes d = <[mac := entry n]> (noteMap (delete i (DocDevices d))) /\
    noteMap (delete i (DocDevices d)) !! mac = None.
Proof.
  intros Hd (n & Hi & Hn & _)%index_of_Some. apply String.eqb_eq in Hn. subst mac. exists n.
  pose proof (delete_Permutation _ _ _ Hi) as Hp. split_and!; [done|done|done| |].
  - unfold notes. rewrite (noteMap_Permutation _ _ Hd Hp). done.
  - apply noteMap_keys. rewrite Hp in Hd. by apply NoDup_cons in Hd as [? _].
Qed.

Lemma deviceNote_None d mac : deviceNote d mac = None <-> notes d !! mac = None.
Proof.
  unfold deviceNote, notes. rewrite index_of_None, noteMap_keys, Forall_forall. split.
  - intros Ha (n & -> & Hn)%list_elem_of_fmap. specialize (Ha n Hn). by rewrite String.eqb_refl in Ha.
  - intros Hn n Hin. apply String.eqb_neq. intros <-. apply Hn. by apply list_elem_of_fmap_2.
Qed.

Lemma delete_alter_list {A} (f : A -> A) (i : nat) (l : list A) : delete i (alter f i l) = delete i l.
Proof. revert i. induction l as [|x l IH]; intros [|i]; cbn; [done..|]. f_equal. apply IH. Qed.

(** Changing the name and the mark of one note. *)
Lemma alter_note d mac i name : tidy (DocDevices d) -> deviceNote d mac = Some i ->
  let g := fun n => mkNote (nMAC n) (name n) true in
  tidy (alter g i (DocDevices d)) /\
  exists n, notes d !! mac = Some (entry n) /\
    noteMap (alter g i (DocDevices d)) = <[mac := (name n, true)]> (notes d).
Proof.
  intros [Hd Hlen] Hi g. destruct (deviceNote_Some d mac i Hd Hi) as (n & Hn & Hl & Hp & Em & Hf).
  assert (alter g i (DocDevices d) ≡ₚ g n :: delete i (DocDevices d)) as Hp'.
  { assert (alter g i (DocDevices d) !! i = Some (g n)) as Ha by (by rewrite list_lookup_alter_eq, Hl).
    rewrite (delete_Permutation _ _ _ Ha). by rewrite delete_alter_list. }
  assert (NoDup (nMAC <$> alter g i (DocDevices d))) as Hd' by (rewrite Hp'; cbn; rewrite Hp in Hd; done).
  split; [split; [done|by rewrite length_alter]|]. exists n. split; [by rewrite Em, lookup_insert_eq|].
  rewrite (noteMap_Permutation _ _ Hd' Hp'), noteMap_cons, Em. cbn. rewrite Hn. by rewrite insert_insert_eq.
Qed.

Lemma addNote_map d n : tidy (DocDevices d) -> notes d !! nMAC n = None ->
  let '(d', r) := addNote n d in
  tidy (DocDevices d') /\
  (notes d', r) = if (size (notes d) <? MaxDeviceNotes)%nat then (<[nMAC n := entry n]> (notes d), Ok tt)
                  else (notes d, Err ErrTooManyDevices).
Proof.
  intros [Hd Hlen] Hn. unfold addNote. unfold notes in *. rewrite noteMap_size by done.
  destruct (Nat.leb_spec MaxDeviceNotes (length (DocDevices d))).
  - rewrite (proj2 (Nat.ltb_ge _ _)) by lia. done.
  - rewrite (proj2 (Nat.ltb_lt _ _)) by lia. cbn [with_devices DocDevices].
    assert (DocDevices d ++ [n] ≡ₚ n :: DocDevices d) as Hp by (by rewrite Permutation_app_comm).
    assert (NoDup (nMAC <$> DocDevices d ++ [n])) as Hd'
      by (rewrite Hp; cbn; apply NoDup_cons; split; [by apply noteMap_keys|done]).
    split; [split; [done|rewrite length_app; cbn; lia]|]. by rewrite (noteMap_Permutation _ _ Hd' Hp).
Qed.

Lemma roomFor_Some m mac x : m !! mac = Some x -> roomFor mac m = true.
Proof. intros H. unfold roomFor. rewrite H. by rewrite bool_decide_eq_true_2 by eauto. Qed.

Lemma roomFor_None m mac : m !! mac = None -> roomFor mac m = (size m <? MaxDeviceNotes)%nat.
Proof. intros H. unfold roomFor. rewrite H. by rewrite bool_decide_eq_false_2 by (by intros [? ?]). Qed.

Definition refines (d : Document) (x : Document * res unit) (y : gmap string (string * bool) * res unit) : Prop :=
  tidy (DocDevices x.1) /\ (notes x.1, x.2) = y /\
  Nodes x.1 = Nodes d /\ DocRoutes x.1 = DocRoutes d /\ DocSettings x.1 = DocSettings d.

Lemma addNote_rest n d : Nodes (addNote n d).1 = Nodes d /\ DocRoutes (addNote n d).1 = DocRoutes d /\
  DocSettings (addNote n d).1 = DocSettings d.
Proof. unfold addNote. by destruct (_ <=? _)%nat. Qed.

Lemma SetDeviceName_refines mac name d : tidy (DocDevices d) ->
  refines d (SetDeviceName mac name d) (named mac name (notes d)).
Proof.
  intros Ht. unfold SetDeviceName, named. destruct (deviceNote d mac) as [i|] eqn:E.
  - destruct (alter_note d mac i (fun _ => name) Ht E) as (Ht' & n & Hn & Em).
    rewrite (roomFor_Some _ _ _ Hn). split_and!; try done. cbn [fst snd]. by rewrite <- Em.
  - apply deviceNote_None in E. rewrite roomFor_None by done.
    pose proof (addNote_map d (mkNote mac name true) Ht E) as Ha. pose proof (addNote_rest (mkNote mac name true) d) as Hr.
    destruct (addNote _ d) as [d' r]. destruct Ha as [Ht' Ha], Hr as (? & ? & ?). by split_and!.
Qed.

Lemma MarkDevicesKnown_refines macs d : tidy (DocDevices d) ->
  refines d (MarkDevicesKnown macs d) (known macs (notes d)).
Proof.
  revert d. induction macs as [|mac macs IH]; intros d Ht; [done|]. cbn [MarkDevicesKnown known].
  destruct (deviceNote d mac) as [i|] eqn:E.
  - destruct (alter_note d mac i nName Ht E) as (Ht' & n & Hn & Em). rewrite (roomFor_Some _ _ _ Hn), Hn. change (default "" (fst <$> Some (entry n))) with (nName n).
    rewrite <- Em. by apply (IH (with_devices _ d)).
  - apply deviceNote_None in E. rewrite roomFor_None, E by done.
    pose proof (addNote_map d (mkNote mac "" true) Ht E) as Ha. pose proof (addNote_rest (mkNote mac "" true) d) as Hr.
    destruct (addNote _ d) as [d' r]. destruct Ha as [Ht' Ha]. destruct (_ <? _)%nat; apply pair_eq in Ha as [Ha ->]; [|destruct Hr as (? & ? & ?); split_and!; cbn; congruence || done].
    destruct (IH d' Ht') as (? & Em & ? & ? & ?). destruct Hr as (? & ? & ?). cbn in Ha. rewrite Ha in Em. split_and!; try done; cbn in *; congruence.
Qed.

(** C39. What the owner says about devices is kept as a map of at most 1024
    devices: a name is put in it or refused for want of room, a device that is
    known stays named as it was, a forgotten one is gone, and neither the order of
    the list nor a second note of one device ever shows; the nodes, rules and
    settings of the document stay as they are. *)
Theorem device_notes_are_a_bounded_map (c : noteChange) (d : Document) :
  tidy (DocDevices d) -> refines d (changeNotes c d) (changeMap c (notes d)).
Proof.
  intros Ht. destruct c as [mac name|macs|mac]; cbn [changeNotes changeMap].
  - by apply SetDeviceName_refines.
  - by apply MarkDevicesKnown_refines.
  - unfold ForgetDevice. destruct (deviceNote d mac) as [i|] eqn:E.
    + destruct (deviceNote_Some d mac i (proj1 Ht) E) as (n & Hn & Hl & Hp & Em & Hf).
      unfold refines. cbn. rewrite <- delete_take_drop. split_and!; try done.
      * destruct Ht as [Hd Hlen]. rewrite Hp in Hd, Hlen. apply NoDup_cons in Hd as [_ Hd]. cbn in Hlen. split; [done|lia].
      * f_equal. rewrite Em, delete_insert_id by done. done.
    + apply deviceNote_None in E. unfold refines. cbn. split_and!; try done. by rewrite delete_id.
Qed.

Definition known_doc : Document :=
  with_devices [mkNote "02:00:00:00:00:01" "phone" true; mkNote "02:00:00:00:00:02" "" true] Default.

Lemma device_notes_are_a_bounded_map_witness :
  tidy (DocDevices known_doc) /\
  refines known_doc (changeNotes (KnowThem ["02:00:00:00:00:01"; "02:00:00:00:00:03"]) known_doc)
    (changeMap (KnowThem ["02:00:00:00:00:01"; "02:00:00:00:00:03"]) (notes known_doc)).
Proof.
  assert (tidy (DocDevices known_doc)) as Ht.
  { split; [apply (bool_decide_unpack _); vm_compute; exact I|apply Nat.leb_le; vm_compute; reflexivity]. }
  split; [exact Ht|].
  exact (device_notes_are_a_bounded_map (KnowThem ["02:00:00:00:00:01"; "02:00:00:00:00:03"]) known_doc Ht).
Defined.
