(* ===== verification/ConfigMem.v ===== *)
(** * A configuration file in memory

    The laws of ConfigThms.v hold of files kept in a map, with documents written
    as text by a codec of their own; the witnesses run there. *)

From S2P Require Import Prelude GoStrings Devices Effects DeviceMem Config ConfigThms.

(** ** Documents as text *)

#[export] Instance Node_eq_dec : EqDecision Node.
Proof. solve_decision. Defined.
#[export] Instance Node_countable : Countable Node.
Proof.
  apply (inj_countable' (fun n => (NodeID n, NodeName n, NodeEngine n, NodeEndpoint n))
    (fun '(a, b, c, d) => mkNode a b c d)). by intros [].
Defined.

#[export] Instance RouteRule_eq_dec : EqDecision RouteRule.
Proof. solve_decision. Defined.
#[export] Instance RouteRule_countable : Countable RouteRule.
Proof.
  apply (inj_countable' (fun r => (RuleID r, RuleKind r, RuleValue r, RuleTarget r, RuleNote r))
    (fun '(a, b, c, d, e) => mkRouteRule a b c d e)). by intros [].
Defined.

#[export] Instance NodeSecret_eq_dec : EqDecision NodeSecret.
Proof. solve_decision. Defined.
#[export] Instance NodeSecret_countable : Countable NodeSecret.
Proof.
  apply (inj_countable' (fun s => (PrivateKey s, PeerPublicKey s, PresharedKey s, SecretAddress s, SecretDNS s,
      SecretAllowedIPs s, PersistentKeepalive s, Obfuscation s))
    (fun '(a, b, c, d, e, f, g, h) => mkSecret a b c d e f g h)). by intros [].
Defined.

#[export] Instance StoredNode_eq_dec : EqDecision StoredNode.
Proof. solve_decision. Defined.
#[export] Instance StoredNode_countable : Countable StoredNode.
Proof. apply (inj_countable' (fun n => (Public n, Secret n)) (fun '(a, b) => mkStored a b)). by intros []. Defined.

#[export] Instance Settings_eq_dec : EqDecision Settings.
Proof. solve_decision. Defined.
#[export] Instance Settings_countable : Countable Settings.
Proof.
  apply (inj_countable' (fun s => (SettingsPasswordHash s, ActiveNodeID s, ListenAddr s))
    (fun '(a, b, c) => mkSettings a b c)). by intros [].
Defined.

#[export] Instance DeviceNote_eq_dec : EqDecision DeviceNote.
Proof. solve_decision. Defined.
#[export] Instance DeviceNote_countable : Countable DeviceNote.
Proof. apply (inj_countable' (fun n => (nMAC n, nName n, nKnown n)) (fun '(a, b, c) => mkNote a b c)). by intros []. Defined.

#[export] Instance Document_eq_dec : EqDecision Document.
Proof. solve_decision. Defined.
#[export] Instance Document_countable : Countable Document.
Proof.
  apply (inj_countable' (fun d => (DocVersion d, Nodes d, DocRoutes d, DocSettings d, DocDevices d))
    (fun '(a, b, c, d, e) => mkDocument a b c d e)). by intros [].
Defined.

Definition braced (s : string) : string := "{" +:+ (s +:+ "}").

#[export, refine] Instance text_codec : DocumentCodec := {
  MarshalIndent d := Ok (braced (bits (encode d)));
  UnmarshalDocument b :=
    match unbits (TrimSuffix "}" (TrimPrefix "{" b)) ≫= decode with
    | Some d => Ok d
    | None => Err (Errorf "refused" [])
    end }.
Proof.
  - intros d b _ [= <-]. unfold braced. rewrite TrimPrefix_app, TrimSuffix_app, unbits_bits. cbn. by rewrite decode_encode.
  - intros d b [= <-]. unfold braced. rewrite TrimSpace_solid; [done|done|].
    rewrite !rev_string_app. done.
Defined.

(** ** The files *)

Definition store_temp : string := "/etc/veilbridge/.config-1.tmp".

Definition store_in_memory : router (gmap string string) :=
  mkRouter (gmap string string) (fun o w =>
    match o return ans o * gmap string string with
    | ReadFile f => (match w !! f with Some d => Ok d | None => Err ErrNotExist end, w)
    | MkdirAll _ => (Ok tt, w)
    | CreateTemp _ =>
        match w !! store_temp with
        | Some _ => (Err (Errorf "refused" []), w)
        | None => (Ok store_temp, <[store_temp := ""]> w)
        end
    | ChmodFile _ _ => (Ok tt, w)
    | WriteTemp f d => (Ok tt, <[f := d]> w)
    | SyncTemp _ => (Ok tt, w)
    | CloseTemp _ => (Ok tt, w)
    | Rename a b =>
        match w !! a with
        | Some d => (Ok tt, <[b := d]> (delete a w))
        | None => (Err ErrNotExist, w)
        end
    | Remove f =>
        match w !! f with
        | Some _ => (Ok tt, delete f w)
        | None => (Err ErrNotExist, w)
        end
    | EngineUp _ => (Ok tt, w)
    | EngineDown => (Ok tt, w)
    | EngineTun => ("awg0", w)
    | RunNft _ => (Ok tt, w)
    | o => (refuse o, w)
    end).

#[export] Instance store_in_memory_keeps : StoreHost store_in_memory (fun w => w).
Proof.
  constructor; cbn [answer store_in_memory].
  - by intros d w w' r [= <- <-].
  - intros d w w' r. destruct (w !! store_temp) eqn:E; intros [= <- <-]; [done|]. split_and!; try done.
  - by intros f m w w' r [= <- <-].
  - intros f b w w' r [= <- <-]. split; [intros q Hq; by rewrite lookup_insert_ne|intros _ _; apply lookup_insert_eq].
  - by intros f w w' r [= <- <-].
  - by intros f w w' r [= <- <-].
  - intros a b w w' r. destruct (w !! a) eqn:E; intros [= <- <-]; cbn; [|done]. by intros d' [= <-].
  - intros f w w' r. by destruct (w !! f) eqn:E; intros [= <- <-].
  - intros f w w' r. destruct (w !! f) eqn:E; intros [= <- <-]; (split; [done|split; [naive_solver|done]]).
Qed.

Definition the_store : Store := NewStore "".

Lemma the_store_is_no_temp : temp_file (storePath the_store) = false.
Proof. vm_compute. reflexivity. Qed.

