(* ===== verification/Sha256.v ===== *)
(** * Package crypto/sha256 and encoding/hex

    The digest a node's ID is made of (nodeID of internal/vpn/amneziawg/parse.go):
    FIPS 180-4 over 32-bit words, a message a list of bytes. *)

From S2P Require Import Prelude GoStrings GoNet.

Open Scope Z_scope.

Definition u32 (z : Z) : Z := z mod 2 ^ 32.
Definition rotr (n x : Z) : Z := Z.lor (Z.shiftr x n) (u32 (Z.shiftl x (32 - n))).
Definition xor3 (a b c : Z) : Z := Z.lxor a (Z.lxor b c).

(** The first 64 primes; the largest [x] below [2 ^ bits] whose cube is not above [n]. *)
Definition primes : list Z :=
  filter (fun p => forallb (fun d => negb (p mod d =? 0)) (seqZ 2 (Z.sqrt p - 1)) = true) (seqZ 2 310).
Fixpoint cbrt (bits : nat) (n x : Z) : Z :=
  match bits with
  | O => x
  | S i => cbrt i n (let y := x + 2 ^ Z.of_nat i in if y ^ 3 <=? n then y else x)
  end.

(** The round constants: the first 32 bits of what follows the point in the cube
    roots of the primes. *)
Definition rounds : list Z := Eval vm_compute in (fun p => u32 (cbrt 35 (p * 2 ^ 96) 0)) <$> primes.

(** The eight words of the state. *)
Record state := mkState { sa : Z; sb : Z; sc : Z; sd : Z; se : Z; sf : Z; sg : Z; sh : Z }.

(** It starts with the square roots of the first eight primes, in the same way. *)
Definition root (p : Z) : Z := u32 (Z.sqrt (p * 2 ^ 64)).
Definition start : state := mkState (root 2) (root 3) (root 5) (root 7) (root 11) (root 13) (root 17) (root 19).

(** One round, with its constant and its word of the schedule. *)
Definition sha_round (s : state) (kw : Z * Z) : state :=
  let choice := Z.lxor (Z.land (se s) (sf s)) (Z.land (2 ^ 32 - 1 - se s) (sg s)) in
  let majority := xor3 (Z.land (sa s) (sb s)) (Z.land (sa s) (sc s)) (Z.land (sb s) (sc s)) in
  let t1 := sh s + xor3 (rotr 6 (se s)) (rotr 11 (se s)) (rotr 25 (se s)) + choice + kw.1 + kw.2 in
  let t2 := xor3 (rotr 2 (sa s)) (rotr 13 (sa s)) (rotr 22 (sa s)) + majority in
  mkState (u32 (t1 + t2)) (sa s) (sb s) (sc s) (u32 (sd s + t1)) (se s) (sf s) (sg s).

(** The schedule, newest word first: the sixteen words of the block, then each
    word from the four before it at 2, 7, 15 and 16 places. *)
Fixpoint extend (n : nat) (w : list Z) : list Z :=
  match n with
  | O => w
  | S n =>
      let at_ k := nth k w 0 in
      let w2 := at_ 1%nat in let w15 := at_ 14%nat in
      extend n (u32 (xor3 (rotr 17 w2) (rotr 19 w2) (Z.shiftr w2 10) + at_ 6%nat +
                     xor3 (rotr 7 w15) (rotr 18 w15) (Z.shiftr w15 3) + at_ 15%nat) :: w)
  end.

Definition sha_block (s : state) (block : list Z) : state :=
  let t := fold_left sha_round (zip rounds (rev (extend 48 (rev block)))) s in
  mkState (u32 (sa s + sa t)) (u32 (sb s + sb t)) (u32 (sc s + sc t)) (u32 (sd s + sd t))
          (u32 (se s + se t)) (u32 (sf s + sf t)) (u32 (sg s + sg t)) (u32 (sh s + sh t)).

(** [n] bytes of a number, the most significant first, and words of bytes. *)
Fixpoint big_endian (n : nat) (z : Z) : list Z :=
  match n with O => [] | S n => big_endian n (z / 256) ++ [z mod 256] end.

Fixpoint words (bs : list Z) : list Z :=
  match bs with
  | a :: b :: c :: d :: bs => (((a * 256 + b) * 256 + c) * 256 + d) :: words bs
  | _ => []
  end.

Fixpoint blocks (n : nat) (ws : list Z) : list (list Z) :=
  match n with O => [] | S n => take 16 ws :: blocks n (skipn 16 ws) end.

(** The message, a one bit, zeros and the length in bits: a multiple of 64 bytes. *)
Definition padded (m : list Z) : list Z :=
  let len := Z.of_nat (length m) in
  m ++ [128] ++ replicate (Z.to_nat ((55 - len) mod 64)) 0 ++ big_endian 8 (8 * len).

Definition bytes_of (s : string) : list Z := code <$> chars s.

Definition Sum256 (m : list Z) : list Z :=
  let p := padded m in
  let s := fold_left sha_block (blocks (length p / 64) (words p)) start in
  mjoin (M:=list) (big_endian 4 <$> [sa s; sb s; sc s; sd s; se s; sf s; sg s; sh s]).

(** [hex.EncodeToString]. *)
Definition EncodeToString (bs : list Z) : string := Join "" (hex2 <$> bs).

Close Scope Z_scope.

(** The examples of FIPS 180-4, of one block and of two. *)
Example Sum256_abc : EncodeToString (Sum256 (bytes_of "abc")) =
  "ba7816bf8f01cfea414140de5dae2223b00361a396177a9cb410ff61f20015ad".
Proof. vm_compute. reflexivity. Qed.

Example Sum256_two_blocks :
  EncodeToString (Sum256 (bytes_of "abcdbcdecdefdefgefghfghighijhijkijkljklmklmnlmnomnopnopq")) =
  "248d6a61d20638b8e5c026930c3e6039a33ce45964ff2167f6ecedd419db06c1".
Proof. vm_compute. reflexivity. Qed.
