(* ===== verification/AmneziaParse.v ===== *)
(** * An AmneziaWG configuration file and what the engine is told of it

    internal/vpn/amneziawg: parse.go reads the file into a node and its secret;
    uapiConfig, parseStats and the readers of keys and addresses of netstack.go and
    helpers.go turn a secret into the text the engine's device takes, and its dump
    into numbers. The engines themselves drive a device of another package. *)

From S2P Require Import Prelude GoStrings GoNet Effects Config Sha256.

(** ** Package bufio: the lines of a text

    A [Scanner] gives the lines up to the first that fills its buffer, and then
    [ErrTooLong]. *)

Definition maxTokenSize := 65536%Z.

Definition long (s : string) : bool := (maxTokenSize <=? Z.of_nat (String.length s))%Z.

Definition dropCR (s : string) : string := TrimSuffix (String "013" "") s.

(** The pieces between the newlines; what follows the last newline is a line when
    it is not empty. *)
Fixpoint lines_of (ps : list string) : list string :=
  match ps with
  | [] => []
  | [p] => if nonempty p then [p] else []
  | p :: ps => p :: lines_of ps
  end.

Fixpoint scan (ls : list string) : list string * res unit :=
  match ls with
  | [] => ([], Ok tt)
  | l :: ls => if long l then ([], Err ErrTooLong) else (dropCR l :: (scan ls).1, (scan ls).2)
  end.

Definition Scanner (text : string) : list string * res unit := scan (lines_of (Split "010" text)).

(** ** Packages strings and net *)

(** [strings.Trim] with a set of bytes. *)
Definition in_set (cut : string) (c : ascii) : bool := some_char (fun x => bool_decide (x = c)) cut.
Fixpoint trim_set (cut s : string) : string :=
  match s with String c r => if in_set cut c then trim_set cut r else s | "" => "" end.
Definition Trim (s cut : string) : string := rev_string (trim_set cut (rev_string (trim_set cut s))).

Definition addrErr {A} (addr why : string) : res A := Err (Errorf "address %s: %s" [addr; why]).

Definition SplitHostPort (hostport : string) : res (string * string) :=
  match cut_last ":" hostport with
  | None => addrErr hostport "missing port in address"
  | Some (before, port) =>
      match hostport with
      | String "[" inside =>
          match Cut "]" inside with
          | None => addrErr hostport "missing ']' in address"
          | Some (host, after) =>
              if negb (nonempty after) then addrErr hostport "missing port in address"
              (* the first bracket stands just before the last colon *)
              else if negb (String.eqb before (String "[" (host +:+ "]")))
              then addrErr hostport (if HasPrefix ":" after then "too many colons in address" else "missing port in address")
              else if negb (lacks "[" inside) then addrErr hostport "unexpected '[' in address"
              else if negb (lacks "]" after) then addrErr hostport "unexpected ']' in address"
              else Ok (host, port)
          end
      | _ =>
          if negb (lacks ":" before) then addrErr hostport "too many colons in address"
          else if negb (lacks "[" hostport) then addrErr hostport "unexpected '[' in address"
          else if negb (lacks "]" hostport) then addrErr hostport "unexpected ']' in address"
          else Ok (before, port)
      end
  end.

Definition JoinHostPort (host port : string) : string :=
  if negb (lacks ":" host) then "[" +:+ host +:+ "]:" +:+ port else host +:+ ":" +:+ port.

(** ** Reading the file *)

(** [map[string]bool] of the keys that are not WireGuard's own. *)
Definition obfuscationKeys : list string := ["jc"; "jmin"; "jmax"; "s1"; "s2"; "s3"; "s4"; "h1"; "h2"; "h3"; "h4"].

Definition splitCSV (s : string) : list string :=
  filter (fun p => nonempty p = true) (TrimSpace <$> Split "," s).
Definition firstCSV (s : string) : string := match splitCSV s with p :: _ => p | [] => "" end.
Definition atoiDefault (s : string) (def : Z) : Z := match Atoi (TrimSpace s) with Some n => n | None => def end.

(** [nodeID]. *)
Definition shortID (peerPublicKey : string) : string := EncodeToString (take 8 (Sum256 (bytes_of peerPublicKey))).

(** What [Parse] keeps between two lines. *)
Record parsing := mkParsing {
  pSecret : NodeSecret; pSection : string; pEndpoint : string; pKeepalive : Z; pHavePeer : bool }.

Definition fresh : parsing := mkParsing (mkSecret "" "" "" "" [] [] 0 ∅) "" "" 0 false.

Definition with_secret (f : NodeSecret -> NodeSecret) (p : parsing) : parsing :=
  mkParsing (f (pSecret p)) (pSection p) (pEndpoint p) (pKeepalive p) (pHavePeer p).

Definition interfaceKey (key val : string) (s : NodeSecret) : NodeSecret :=
  let '(mkSecret priv pub psk addr dns allowed keep obf) := s in
  if String.eqb key "privatekey" then mkSecret val pub psk addr dns allowed keep obf
  else if String.eqb key "address" then mkSecret priv pub psk (firstCSV val) dns allowed keep obf
  else if String.eqb key "dns" then mkSecret priv pub psk addr (splitCSV val) allowed keep obf
  else if contains obfuscationKeys key then mkSecret priv pub psk addr dns allowed keep (<[key := val]> obf)
  else s.

Definition peerKey (key val : string) (p : parsing) : parsing :=
  let '(mkSecret priv pub psk addr dns allowed keep obf) := pSecret p in
  if String.eqb key "publickey" then with_secret (fun _ => mkSecret priv val psk addr dns allowed keep obf) p
  else if String.eqb key "presharedkey" then with_secret (fun _ => mkSecret priv pub val addr dns allowed keep obf) p
  else if String.eqb key "endpoint" then mkParsing (pSecret p) (pSection p) val (pKeepalive p) (pHavePeer p)
  else if String.eqb key "allowedips"
  then with_secret (fun _ => mkSecret priv pub psk addr dns (splitCSV val) keep obf) p
  else if String.eqb key "persistentkeepalive"
  then mkParsing (pSecret p) (pSection p) (pEndpoint p) (atoiDefault val 0) (pHavePeer p)
  else p.

(** One line. *)
Definition parseLine (p : parsing) (text : string) : res parsing :=
  let line := TrimSpace text in
  if negb (nonempty line) || HasPrefix "#" line || HasPrefix ";" line then Ok p
  else if HasPrefix "[" line && HasSuffix "]" line then
    let section := ToLower (Trim line "[]") in
    Ok (mkParsing (pSecret p) section (pEndpoint p) (pKeepalive p) (pHavePeer p || String.eqb section "peer"))
  else
    match Cut "=" line with
    | None => Err (Errorf "amneziawg: malformed line %q" [line])
    | Some (key, val) =>
        let key := ToLower (TrimSpace key) in
        let val := TrimSpace val in
        Ok (if String.eqb (pSection p) "interface" then with_secret (interfaceKey key val) p
            else if String.eqb (pSection p) "peer" then peerKey key val p
            else p)
    end.

Fixpoint parseLines (p : parsing) (ls : list string) : res parsing :=
  match ls with
  | [] => Ok p
  | l :: ls => let? p := parseLine p l in parseLines p ls
  end.

Definition with_keepalive (k : Z) (s : NodeSecret) : NodeSecret :=
  mkSecret (PrivateKey s) (PeerPublicKey s) (PresharedKey s) (SecretAddress s) (SecretDNS s) (SecretAllowedIPs s) k
    (Obfuscation s).

Definition Parse (name raw : string) : res (Node * NodeSecret) :=
  let '(ls, end_) := Scanner raw in
  let? p := parseLines fresh ls in
  let sec := with_keepalive (pKeepalive p) (pSecret p) in
  let? _ := match end_ with Ok _ => Ok tt | Err e => Err (Wrapf "amneziawg: read config: %w" [] e) end in
  if negb (nonempty (PrivateKey sec)) then Err (Errorf "amneziawg: missing [Interface] PrivateKey" [])
  else if negb (pHavePeer p) || negb (nonempty (PeerPublicKey sec))
  then Err (Errorf "amneziawg: missing [Peer] PublicKey" [])
  else if negb (nonempty (pEndpoint p)) then Err (Errorf "amneziawg: missing [Peer] Endpoint" [])
  else
    match SplitHostPort (pEndpoint p) with
    | Err e => Err (Wrapf "amneziawg: bad endpoint %q: %w" [pEndpoint p] e)
    | Ok _ => Ok (mkNode (shortID (PeerPublicKey sec)) name EngineAmneziaWG (pEndpoint p), sec)
    end.

Definition ToNodeConfig (endpoint : string) (sec : NodeSecret) : NodeConfig :=
  mkNodeConfig (PrivateKey sec) (PeerPublicKey sec) (PresharedKey sec) endpoint (SecretAddress sec)
    (SecretDNS sec) (SecretAllowedIPs sec) (PersistentKeepalive sec) (Obfuscation sec).

(** ** Package encoding/base64, the standard encoding *)

Definition sextet (c : ascii) : option Z :=
  let n := code c in
  if is_upper c then Some (n - 65)%Z
  else if is_lower c then Some (n - 71)%Z
  else if is_digit c then Some (n + 4)%Z
  else if (n =? 43)%Z then Some 62%Z
  else if (n =? 47)%Z then Some 63%Z
  else None.

(** Groups of four; the last may be padded, and nothing follows the padding. *)
Fixpoint quanta (cs : list ascii) : option (list Z) :=
  match cs with
  | [] => Some []
  | a :: b :: c :: d :: rest =>
      x ← sextet a; y ← sextet b;
      let first := (x * 4 + y / 16)%Z in
      match sextet c, sextet d with
      | Some z, Some t =>
          r ← quanta rest;
          Some (first :: ((y mod 16) * 16 + z / 4)%Z :: ((z mod 4) * 64 + t)%Z :: r)
      | Some z, None =>
          match rest with
          | [] => if bool_decide (d = "="%char) then Some [first; ((y mod 16) * 16 + z / 4)%Z] else None
          | _ => None
          end
      | None, _ =>
          match rest with
          | [] => if bool_decide (c = "="%char) && bool_decide (d = "="%char) then Some [first] else None
          | _ => None
          end
      end
  | _ => None
  end.

Definition DecodeString (s : string) : option (list Z) :=
  quanta (filter (fun c => c <> "010"%char /\ c <> "013"%char) (chars s)).

(** ** What the engine is told: netstack.go and helpers.go *)

(** An error of encoding/base64 or net/netip is named, not spelled out. *)
Definition b64ToHex (s : string) : res string :=
  match DecodeString (TrimSpace s) with
  | None => Err (Wrapf "not valid base64: %w" [] (Errorf "illegal base64 data" []))
  | Some raw =>
      if (Z.of_nat (length raw) =? 32)%Z then Ok (EncodeToString raw)
      else Err (Errorf "expected 32-byte key, got %d" [Itoa (Z.of_nat (length raw))])
  end.

Definition parseAddrOnly (cidrOrAddr : string) : res Addr :=
  let s := match Cut "/" cidrOrAddr with Some (a, _) => a | None => cidrOrAddr end in
  match ParseAddr (TrimSpace s) with Some a => Ok a | None => Err (Errorf "ParseAddr(%q)" [TrimSpace s]) end.

Fixpoint parseAddrs (list_ : list string) : res (list Addr) :=
  match list_ with
  | [] => Ok []
  | s :: ss =>
      match ParseAddr (TrimSpace s) with
      | None => Err (Errorf "ParseAddr(%q)" [TrimSpace s])
      | Some a => let? r := parseAddrs ss in Ok (a :: r)
      end
  end.

Section Uapi.
(** [net.LookupIP]: the addresses of a name, as they are printed. *)
Context (LookupIP : string -> res (list string)).

Definition resolveEndpoint (endpoint : string) : res string :=
  match SplitHostPort endpoint with
  | Err e => Err (Wrapf "amneziawg: bad endpoint %q: %w" [endpoint] e)
  | Ok (host, port) =>
      match ParseIP host with
      | Some _ => Ok endpoint
      | None =>
          match LookupIP host with
          | Ok (ip :: _) => Ok (JoinHostPort ip port)
          | Ok [] => Err (Errorf "amneziawg: resolve endpoint host %q: %w" [host])
          | Err e => Err (Wrapf "amneziawg: resolve endpoint host %q: %w" [host] e)
          end
      end
  end.

(** [fmt.Fprintf(&b, "%s=%s\n", k, v)]. *)
Definition setting (k v : string) : string := k +:+ "=" +:+ v +:+ String "010" "".

Definition obfuscation (obf : gmap string string) : string :=
  Join "" ((fun k => match obf !! k with Some v => if nonempty v then setting k v else "" | None => "" end) <$> obfuscationKeys).

Definition named {A} (key : string) (r : res A) : res A :=
  match r with Ok a => Ok a | Err e => Err (Wrapf (key +:+ ": %w") [] e) end.

Definition uapiConfig (cfg : NodeConfig) : res string :=
  let? priv := named "private_key" (b64ToHex (ncPrivateKey cfg)) in
  let? pub := named "public_key" (b64ToHex (ncPeerPublicKey cfg)) in
  let? psk := (if nonempty (ncPresharedKey cfg)
               then let? psk := named "preshared_key" (b64ToHex (ncPresharedKey cfg)) in Ok (setting "preshared_key" psk)
               else Ok "") in
  let? ep := resolveEndpoint (ncEndpoint cfg) in
  let allowed := match ncAllowedIPs cfg with [] => ["0.0.0.0/0"; "::/0"] | l => l end in
  Ok (setting "private_key" priv +:+ obfuscation (ncObfuscation cfg) +:+ setting "public_key" pub +:+ psk +:+
      setting "endpoint" ep +:+
      (if (0 <? ncKeepalive cfg)%Z then setting "persistent_keepalive_interval" (Itoa (ncKeepalive cfg)) else "") +:+
      Join "" (setting "allowed_ip" <$> allowed)).
End Uapi.

(** [strconv.ParseInt] with its error dropped: what is out of range stops at the
    end of the range, what is no number is zero. *)
Definition parseInt (s : string) : Z :=
  let '(sign, t) := match s with
                    | String "-" t => ((-1)%Z, t)
                    | String "+" t => (1%Z, t)
                    | _ => (1%Z, s)
                    end in
  match parse_udec t with
  | Some n => Z.max int_min (Z.min int_max (sign * n))
  | None => 0%Z
  end.

(** The numbers [parseStats] has seen so far: the handshake, and both counters. *)
Definition statLine (st : Z * Z * Z) (line : string) : Z * Z * Z :=
  let '(hs, rx, tx) := st in
  match Cut "=" line with
  | None => st
  | Some (k, v) =>
      if String.eqb k "last_handshake_time_sec" then (parseInt v, rx, tx)
      else if String.eqb k "rx_bytes" then (hs, parseInt v, tx)
      else if String.eqb k "tx_bytes" then (hs, rx, parseInt v)
      else st
  end.

Definition parseStats (nowUnix : Z) (raw : string) : Stats :=
  let '(hs, rx, tx) := fold_left statLine (Split "010" raw) (0%Z, 0%Z, 0%Z) in
  mkStats (if (0 <? hs)%Z then Z.max 0 (wrap64 (nowUnix - hs)) else (-1)%Z) rx tx.

(** An import whose name is the caller's. *)
Example parse_example :
  (fun r : Node * NodeSecret => (r.1, SecretAllowedIPs r.2, PersistentKeepalive r.2)) <$>
    match Parse "NL" (Join (String "010" "")
      ["[Interface]"; "PrivateKey = aaa"; "Address = 10.8.1.2/32, fd00::2/128"; "Jc = 5"; ""; "# the server";
       "[Peer]"; "PublicKey = abc"; "AllowedIPs = 0.0.0.0/0, ::/0"; "Endpoint = vpn.example:443"; "PersistentKeepalive = 25"])
    with Ok r => Some r | Err _ => None end =
  Some (mkNode "ba7816bf8f01cfea" "NL" "amneziawg" "vpn.example:443", ["0.0.0.0/0"; "::/0"], 25%Z).
Proof. vm_compute. reflexivity. Qed.
