(* ===== verification/AmneziaThms.v ===== *)
(** * What an imported configuration becomes

    A configuration file printed from a secret is read back as that secret, and the
    engine's device reads exactly the settings of the secret: no value of the file
    can smuggle in a line of its own. *)

From S2P Require Import Prelude GoStrings GoNet Effects Config Uci LanThms RoutesThms Sha256 AmneziaParse.

(** ** Texts of one line *)

Definition single (s : string) : Prop := lacks "010" s = true.

Lemma lacks_drop c n s : lacks c s = true -> lacks c (GoStrings.drop n s) = true.
Proof.
  revert s. induction n as [|n IH]; intros [|x s]; cbn [GoStrings.drop]; try done.
  rewrite lacks_cons. intros H. bool_to_prop. by apply IH.
Qed.

Lemma single_dropCR s : single s -> single (dropCR s).
Proof.
  unfold single, dropCR, TrimSuffix. intros H. destruct (HasSuffix _ s); [|done].
  rewrite lacks_rev. apply lacks_drop. by rewrite lacks_rev.
Qed.

Lemma lines_of_sub ps l : l ∈ lines_of ps -> l ∈ ps.
Proof.
  induction ps as [|p [|q ps] IH]; [done| |].
  - cbn. destruct (nonempty p); [done|]. by intros ?%elem_of_nil.
  - cbn [lines_of]. rewrite !elem_of_cons in *. naive_solver.
Qed.

Lemma scan_single ls : Forall single ls -> Forall single (scan ls).1.
Proof.
  induction 1 as [|l ls Hl _ IH]; cbn; [constructor|]. destruct (long l); cbn; [constructor|].
  constructor; [by apply single_dropCR|done].
Qed.

Lemma Scanner_single raw : Forall single (Scanner raw).1.
Proof.
  apply scan_single, Forall_forall. intros l Hl. apply lines_of_sub in Hl. by apply Split_elem in Hl as [? _].
Qed.

Lemma splitCSV_single s : single s -> Forall single (splitCSV s).
Proof.
  intros H. unfold splitCSV. apply Forall_forall. intros x [_ Hx]%list_elem_of_filter.
  apply list_elem_of_fmap in Hx as (y & -> & Hy). apply lacks_TrimSpace. apply Split_elem in Hy as [_ Hy]. by apply Hy.
Qed.

Lemma firstCSV_single s : single s -> single (firstCSV s).
Proof.
  intros H%splitCSV_single. unfold firstCSV. destruct (splitCSV s); [done|]. by apply Forall_cons in H as [? _].
Qed.

(** ** A secret of single lines *)

Record single_secret (s : NodeSecret) : Prop := mkSingle {
  ss_private : single (PrivateKey s); ss_public : single (PeerPublicKey s); ss_psk : single (PresharedKey s);
  ss_address : single (SecretAddress s); ss_dns : Forall single (SecretDNS s);
  ss_allowed : Forall single (SecretAllowedIPs s); ss_obf : map_Forall (fun _ v => single v) (Obfuscation s) }.

Definition single_parsing (p : parsing) : Prop := single_secret (pSecret p) /\ single (pEndpoint p).

Ltac each_field := constructor; cbn; try done; eauto using firstCSV_single, splitCSV_single.

Lemma interfaceKey_single key val s : single val -> single_secret s -> single_secret (interfaceKey key val s).
Proof.
  intros Hv [H1 H2 H3 H4 H5 H6 H7]. destruct s. unfold interfaceKey. cbn in *.
  repeat case_match; try by each_field. each_field. by apply map_Forall_insert_2.
Qed.

Lemma peerKey_single key val p : single val -> single_parsing p -> single_parsing (peerKey key val p).
Proof.
  intros Hv [[H1 H2 H3 H4 H5 H6 H7] He]. destruct p as [s sec ep k hp]. destruct s. unfold peerKey. cbn in *.
  repeat case_match; (split; [by each_field|done]).
Qed.

Lemma parseLine_single p l p' : single l -> single_parsing p -> parseLine p l = Ok p' -> single_parsing p'.
Proof.
  intros Hl Hp. unfold parseLine. pose proof (lacks_TrimSpace _ _ Hl) as Ht. destruct (_ || _ || _); [by intros [= <-]|].
  destruct (HasPrefix "[" _ && _); [by intros [= <-]|].
  destruct (Cut "=" (TrimSpace l)) as [[key val]|] eqn:E; [|done]. intros [= <-].
  apply (Cut_lacks "010") in E as [_ Hv]; [|done]. apply lacks_TrimSpace in Hv.
  destruct (String.eqb _ "interface"); [|destruct (String.eqb _ "peer"); [by apply peerKey_single|done]].
  destruct Hp as [Hs He]. split; [by apply interfaceKey_single|done].
Qed.

Lemma parseLines_single ls p p' : Forall single ls -> single_parsing p -> parseLines p ls = Ok p' -> single_parsing p'.
Proof.
  intros Hl. revert p. induction Hl as [|l ls Hl _ IH]; intros p Hp; cbn; [by intros [= <-]|].
  destruct (parseLine p l) as [q|e] eqn:E; cbn; [|done]. apply IH. by eapply parseLine_single.
Qed.

Lemma fresh_single : single_parsing fresh.
Proof. split; [|done]. by constructor. Qed.

Lemma Parse_single name raw node sec : Parse name raw = Ok (node, sec) -> single_secret sec /\ single (NodeEndpoint node).
Proof.
  unfold Parse. pose proof (Scanner_single raw) as Hl. destruct (Scanner raw) as [ls e]. cbn in Hl.
  destruct (parseLines fresh ls) as [p|] eqn:Ep; cbn [res_bind]; [|done].
  destruct (parseLines_single _ _ _ Hl fresh_single Ep) as [[H1 H2 H3 H4 H5 H6 H7] He].
  destruct e; cbn [res_bind]; [|done].
  destruct (negb (nonempty _)); [done|]. destruct (_ || _); [done|]. destruct (negb (nonempty _)); [done|].
  destruct (SplitHostPort _); [|done]. intros [= <- <-]. split; [|done]. by constructor.
Qed.

(** ** Keys in hexadecimal *)

Lemma sextet_bound c x : sextet c = Some x -> (0 <= x < 64)%Z.
Proof.
  unfold sextet, is_upper, is_lower, is_digit. intros H. repeat case_match; simplify_eq; bool_to_prop; lia.
Qed.

Definition byte_range (b : Z) : Prop := (0 <= b < 256)%Z.

Lemma quanta_bytes n cs r : length cs <= n -> quanta cs = Some r -> Forall byte_range r.
Proof.
  revert cs r. induction n as [|n IH]; intros cs r Hn; [destruct cs; [by intros [= <-]|cbn in Hn; lia]|].
  destruct cs as [|a [|b [|c [|d rest]]]]; try done; cbn [quanta]; [by intros [= <-]|].
  destruct (sextet a) as [x|] eqn:Ea; [|done]. destruct (sextet b) as [y|] eqn:Eb; [|done]. cbn [mbind option_bind].
  apply sextet_bound in Ea, Eb.
  assert (byte_range (x * 4 + y / 16)) by (unfold byte_range; pose proof (Z.div_mod y 16); pose proof (Z.mod_pos_bound y 16); lia).
  destruct (sextet c) as [z|] eqn:Ec; [apply sextet_bound in Ec; assert (byte_range ((y mod 16) * 16 + z / 4))
    by (unfold byte_range; pose proof (Z.mod_pos_bound y 16); pose proof (Z.div_mod z 4); pose proof (Z.mod_pos_bound z 4); lia)|].
  - destruct (sextet d) as [t|] eqn:Ed.
    + apply sextet_bound in Ed. destruct (quanta rest) as [r'|] eqn:Er; [|done]. cbn. intros [= <-].
      repeat apply Forall_cons_2; [done|done| |eapply IH; [|exact Er]; cbn in Hn; lia].
      unfold byte_range. pose proof (Z.mod_pos_bound z 4). lia.
    + destruct rest; [|done]. destruct (bool_decide _); [|done]. intros [= <-]. by repeat apply Forall_cons_2.
  - destruct rest; [|done]. destruct (_ && _); [|done]. intros [= <-]. by repeat apply Forall_cons_2.
Qed.

Lemma hex_char_no_newline d : (0 <= d < 16)%Z -> hex_char d <> "010"%char.
Proof.
  intros H E. apply (f_equal code) in E. unfold hex_char in E. rewrite ascii_of_code in E by (destruct (_ <? _)%Z eqn:?; bool_to_prop; lia).
  change (code "010") with 10%Z in E. destruct (_ <? _)%Z eqn:?; bool_to_prop; lia.
Qed.

Lemma hex2_single b : byte_range b -> single (hex2 b).
Proof.
  unfold byte_range, single, hex2. intros H. rewrite !lacks_cons.
  rewrite !bool_decide_eq_true_2; [done|apply hex_char_no_newline; pose proof (Z.mod_pos_bound b 16); lia|].
  apply hex_char_no_newline. split; [apply Z.div_pos; lia|apply Z.div_lt_upper_bound; lia].
Qed.

Lemma b64ToHex_single s x : b64ToHex s = Ok x -> single x.
Proof.
  unfold b64ToHex, DecodeString. destruct (quanta _) as [raw|] eqn:E; [|done]. destruct (_ =? _)%Z; [|done]. intros [= <-].
  apply quanta_bytes with (n := length (filter (fun c => c <> "010"%char /\ c <> "013"%char) (chars (TrimSpace s)))) in E; [|done].
  unfold EncodeToString. apply lacks_Join; [done|]. apply Forall_fmap. by eapply Forall_impl; [|apply hex2_single].
Qed.

(** ** What the device reads

    The device takes a text apart by its newlines and each line by its first
    equals sign; [told] is what it should find. *)

Definition read_settings (text : string) : list (string * string) := omap (Cut "=") (Split "010" text).

Definition told (cfg : NodeConfig) (priv pub psk ep : string) : list (string * string) :=
  [("private_key", priv)] ++
  omap (fun k => v ← ncObfuscation cfg !! k; if nonempty v then Some (k, v) else None) obfuscationKeys ++
  [("public_key", pub)] ++
  (if nonempty (ncPresharedKey cfg) then [("preshared_key", psk)] else []) ++
  [("endpoint", ep)] ++
  (if (0 <? ncKeepalive cfg)%Z then [("persistent_keepalive_interval", Itoa (ncKeepalive cfg))] else []) ++
  ((fun a => ("allowed_ip", a)) <$> match ncAllowedIPs cfg with [] => ["0.0.0.0/0"; "::/0"] | l => l end).

Definition written (kv : string * string) : string := kv.1 +:+ "=" +:+ kv.2.
Definition ended (l : string) : string := l +:+ String "010" "".

Lemma Join_app ls1 ls2 : Join "" (ls1 ++ ls2) = Join "" ls1 +:+ Join "" ls2.
Proof.
  induction ls1 as [|l ls1 IH]; [done|]. rewrite <- app_comm_cons, !Join_empty_cons, IH. apply append_assoc.
Qed.

Lemma setting_written k v : setting k v = ended (written (k, v)).
Proof. unfold setting, ended, written. cbn [fst snd]. by rewrite !append_assoc. Qed.

(** Every list of settings whose texts are of one line is read back. *)
Lemma settings_read_back kvs :
  Forall (fun kv => lacks "=" kv.1 = true /\ single kv.1 /\ single kv.2) kvs ->
  read_settings (Join "" (ended <$> (written <$> kvs))) = kvs.
Proof.
  intros H. unfold read_settings, ended. rewrite Split_ended.
  - rewrite omap_app. cbn. rewrite app_nil_r. induction H as [|[k v] kvs (H1 & H2 & H3) _ IH]; [done|]. cbn.
    unfold written at 1. cbn [fst snd] in *. change ("=" +:+ v) with (String "=" v). rewrite Cut_sep by done. by rewrite IH.
  - apply Forall_fmap. eapply Forall_impl; [exact H|]. intros [k v] (H1 & H2 & H3). cbn [fst snd] in *.
    change (lacks "010" (k +:+ "=" +:+ v) = true). rewrite !lacks_app. unfold single in *. by rewrite H2, H3.
Qed.

Lemma obfuscation_written obf ks :
  Join "" ((fun k => match obf !! k with Some v => if nonempty v then setting k v else "" | None => "" end) <$> ks) =
  Join "" (ended <$> (written <$> omap (fun k => v ← (obf : gmap string string) !! k; if nonempty v then Some (k, v) else None) ks)).
Proof.
  induction ks as [|k ks IH]; [done|]. rewrite fmap_cons, Join_empty_cons, IH. cbn [omap list_omap].
  destruct (obf !! k) as [v|]; cbn [mbind option_bind]; [|by rewrite append_nil_l].
  destruct (nonempty v); [|by rewrite append_nil_l].
  by rewrite !fmap_cons, Join_empty_cons, setting_written.
Qed.

Lemma uapiConfig_told LookupIP cfg txt : uapiConfig LookupIP cfg = Ok txt ->
  exists priv pub psk ep,
    b64ToHex (ncPrivateKey cfg) = Ok priv /\ b64ToHex (ncPeerPublicKey cfg) = Ok pub /\
    (nonempty (ncPresharedKey cfg) = true -> b64ToHex (ncPresharedKey cfg) = Ok psk) /\
    resolveEndpoint LookupIP (ncEndpoint cfg) = Ok ep /\
    txt = Join "" (ended <$> (written <$> told cfg priv pub psk ep)).
Proof.
  unfold uapiConfig. intros H.
  destruct (b64ToHex (ncPrivateKey cfg)) as [priv|] eqn:E1; cbn [named res_bind] in H; [|done].
  destruct (b64ToHex (ncPeerPublicKey cfg)) as [pub|] eqn:E2; cbn [named res_bind] in H; [|done].
  assert (exists psk, (nonempty (ncPresharedKey cfg) = true -> b64ToHex (ncPresharedKey cfg) = Ok psk) /\
    exists ep, resolveEndpoint LookupIP (ncEndpoint cfg) = Ok ep /\
    setting "private_key" priv +:+ obfuscation (ncObfuscation cfg) +:+ setting "public_key" pub +:+
      (if nonempty (ncPresharedKey cfg) then setting "preshared_key" psk else "") +:+ setting "endpoint" ep +:+
      (if (0 <? ncKeepalive cfg)%Z then setting "persistent_keepalive_interval" (Itoa (ncKeepalive cfg)) else "") +:+
      Join "" (setting "allowed_ip" <$> match ncAllowedIPs cfg with [] => ["0.0.0.0/0"; "::/0"] | l => l end) = txt)
    as (psk & Hpsk & ep & Hep & <-).
  { destruct (nonempty (ncPresharedKey cfg)).
    - destruct (b64ToHex (ncPresharedKey cfg)) as [psk|] eqn:E3; cbn [named res_bind] in H; [|done].
      destruct (resolveEndpoint _ _) as [ep|]; cbn [res_bind] in H; [|done]. exists psk. split; [done|]. exists ep. split; [done|]. by injection H.
    - cbn [res_bind] in H. destruct (resolveEndpoint _ _) as [ep|]; cbn [res_bind] in H; [|done].
      exists "". split; [done|]. exists ep. split; [done|]. by injection H. }
  exists priv, pub, psk, ep. split_and!; try done. unfold told, obfuscation. rewrite obfuscation_written.
  rewrite !fmap_app, !Join_app. cbn [fmap list_fmap]. rewrite !setting_written.
  f_equal. f_equal. f_equal. f_equal; [by destruct (nonempty (ncPresharedKey cfg)); rewrite ?setting_written|].
  f_equal. f_equal; [by destruct (0 <? _)%Z; rewrite ?setting_written|].
  f_equal. rewrite <- !list_fmap_compose. apply list_fmap_ext. intros i x _. cbn. apply setting_written.
Qed.

Lemma resolveEndpoint_single LookupIP ep r :
  (forall h ips, LookupIP h = Ok ips -> Forall single ips) ->
  single ep -> resolveEndpoint LookupIP ep = Ok r -> single r.
Proof.
  intros Hips He. unfold resolveEndpoint. destruct (SplitHostPort ep) as [[host port]|] eqn:E; [|done].
  destruct (ParseIP host); [by intros [= <-]|]. destruct (LookupIP host) as [[|ip ips]|] eqn:El; [done| |done].
  intros [= <-]. apply Hips, Forall_cons in El as [Hip _].
  assert (single port) as Hp.
  { unfold SplitHostPort in E. destruct (cut_last ":" ep) as [[b p]|] eqn:Ec; [|done].
    assert (single p) as Hp.
    { unfold cut_last in Ec. destruct (Cut ":" (rev_string ep)) as [[x y]|] eqn:Ey; [|done]. injection Ec as <- <-.
      apply (Cut_lacks "010") in Ey as [Hx _]; [|by rewrite lacks_rev]. unfold single. by rewrite lacks_rev. }
    assert (p = port) as <-; [|done]. clear -E. repeat case_match; simplify_eq/=; done. }
  unfold JoinHostPort, single in *. by destruct (negb _); rewrite !lacks_app, Hip, Hp.
Qed.


Definition key32 : string := "AQEBAQEBAQEBAQEBAQEBAQEBAQEBAQEBAQEBAQEBAQE=".
Definition no_names : string -> res (list string) := fun h => Err (Errorf "no such host" [h]).
Definition an_import : string := Join (String "010" "")
  ["[Interface]"; "PrivateKey = " +:+ key32; "Address = 10.8.1.2/32"; "Jc = 5"; "S1 = 37";
   "[Peer]"; "PublicKey = " +:+ key32; "Endpoint = 203.0.113.10:443"; "AllowedIPs = 0.0.0.0/0"; "PersistentKeepalive = 15"].
Definition imported : Node * NodeSecret :=
  match Parse "NL" an_import with Ok r => r | Err _ => (mkNode "" "" "" "", mkSecret "" "" "" "" [] [] 0 ∅) end.
Definition told_text : string :=
  match uapiConfig no_names (ToNodeConfig (NodeEndpoint imported.1) imported.2) with Ok t => t | Err _ => "" end.


(** ** A printed file is read back *)

(** A line of the file for a value, when there is one. *)
Definition line (key v : string) : list string := if nonempty v then [key +:+ " = " +:+ v] else [].

Definition printed_lines (s : NodeSecret) (endpoint : string) : list string :=
  ["[Interface]"] ++ line "PrivateKey" (PrivateKey s) ++ line "Address" (SecretAddress s) ++
  line "DNS" (Join ", " (SecretDNS s)) ++
  mjoin (M:=list) ((fun k => line k (get (Obfuscation s) k)) <$> obfuscationKeys) ++
  [""; "[Peer]"] ++ line "PublicKey" (PeerPublicKey s) ++ line "PresharedKey" (PresharedKey s) ++
  line "AllowedIPs" (Join ", " (SecretAllowedIPs s)) ++ line "Endpoint" endpoint ++
  line "PersistentKeepalive" (Itoa (PersistentKeepalive s)).

Definition printed (s : NodeSecret) (endpoint : string) : string := Join "" (ended <$> printed_lines s endpoint).

(** A value a file can hold: one line, no blanks at its ends. *)
Definition value_text (v : string) : Prop := single v /\ solid_ends v.
(** An element of a list of them. *)
Definition item_text (v : string) : Prop := value_text v /\ nonempty v = true /\ lacks "," v = true.

Record printable (s : NodeSecret) (endpoint : string) : Prop := mkPrintable {
  pr_private : value_text (PrivateKey s) /\ nonempty (PrivateKey s) = true;
  pr_public : value_text (PeerPublicKey s) /\ nonempty (PeerPublicKey s) = true;
  pr_psk : value_text (PresharedKey s);
  pr_address : value_text (SecretAddress s) /\ lacks "," (SecretAddress s) = true;
  pr_dns : Forall item_text (SecretDNS s);
  pr_allowed : Forall item_text (SecretAllowedIPs s);
  pr_keepalive : (0 <= PersistentKeepalive s <= int_max)%Z;
  pr_obf : map_Forall (fun k v => k ∈ obfuscationKeys /\ value_text v /\ nonempty v = true) (Obfuscation s);
  pr_endpoint : value_text endpoint /\ is_ok (SplitHostPort endpoint) = true;
  pr_short : Forall (fun l => long l = false) (printed_lines s endpoint) }.

Lemma TrimSpace_blank s : solid_ends s -> TrimSpace (String " " s) = s.
Proof. intros H. change (TrimSpace (String " " s)) with (TrimSpace s). by apply TrimSpace_ends. Qed.

(** A key the printer writes. *)
Definition key_text (key : string) : Prop :=
  nonempty key = true /\ all_chars is_alnum key = true /\ TrimSpace (key +:+ " ") = key.

Lemma alnum_lacks d key : is_alnum d = false -> all_chars is_alnum key = true -> lacks d key = true.
Proof. intros Hd. apply all_chars_mono. intros c Hc. apply bool_decide_eq_true. intros ->. congruence. Qed.

Lemma alnum_solid c : is_alnum c = true -> solid c = true.
Proof. destruct c as [[] [] [] [] [] [] [] []]; vm_compute; congruence. Qed.

Lemma line_text key v : key_text key -> value_text v -> nonempty v = true ->
  TrimSpace (key +:+ " = " +:+ v) = key +:+ " = " +:+ v /\
  Cut "=" (key +:+ " = " +:+ v) = Some (key +:+ " ", String " " v).
Proof.
  intros (Hn & Ha & Ht) (Hs & Hf & Hl) Hv. split.
  - apply TrimSpace_ends. split.
    + destruct key as [|c key]; [done|]. rewrite append_cons. cbn in Ha |- *. bool_to_prop. by apply alnum_solid.
    + rewrite !append_assoc. by apply last_solid_app.
  - change (" = " +:+ v) with (" " +:+ String "=" (String " " v)). rewrite append_assoc. apply Cut_sep.
    rewrite lacks_app. by rewrite (alnum_lacks "=" key eq_refl Ha).
Qed.

Lemma parseLine_line p key v : key_text key -> value_text v -> nonempty v = true ->
  parseLine p (key +:+ " = " +:+ v) =
  Ok (if String.eqb (pSection p) "interface" then with_secret (interfaceKey (ToLower key) v) p
      else if String.eqb (pSection p) "peer" then peerKey (ToLower key) v p else p).
Proof.
  intros Hk Hv Hn. destruct (line_text key v Hk Hv Hn) as [Et Ec]. unfold parseLine. rewrite Et, Ec.
  destruct Hk as (Hk1 & Hk2 & Hk3), Hv as [_ Hv]. rewrite Hk3, TrimSpace_blank by done.
  destruct key as [|c key]; [done|]. rewrite append_cons. cbn in Hk2. bool_to_prop.
  assert (forall d, is_alnum d = false -> bool_decide (d = c) = false) as Hd
    by (intros d Hd; apply bool_decide_eq_false; congruence).
  cbn [nonempty negb orb HasPrefix]. by rewrite !Hd.
Qed.

(** Reading the lines of one value. *)
Lemma parseLines_line p key v ls : key_text key -> value_text v ->
  parseLines p (line key v ++ ls) =
  parseLines (if nonempty v then
    (if String.eqb (pSection p) "interface" then with_secret (interfaceKey (ToLower key) v) p
     else if String.eqb (pSection p) "peer" then peerKey (ToLower key) v p else p) else p) ls.
Proof.
  intros Hk Hv. unfold line. destruct (nonempty v) eqn:Hn; [|done].
  cbn [app parseLines]. by rewrite parseLine_line.
Qed.

(** Lists with commas. *)
Lemma Split_nonnil sep s : Split sep s <> [].
Proof. destruct s as [|c s]; cbn; [done|]. case_decide; [done|]. by destruct (Split sep s). Qed.

Lemma Split_items a l : Forall item_text (a :: l) ->
  TrimSpace <$> Split "," (Join ", " (a :: l)) = a :: l.
Proof.
  revert a. induction l as [|b l IH]; intros a Hl.
  - apply Forall_singleton in Hl as (Hv & Hn & Hc). cbn [Join String.concat]. rewrite Split_lacks by done. cbn.
    f_equal. apply TrimSpace_ends, Hv.
  - apply Forall_cons in Hl as [(Hv & Hn & Hc) Hl].
    change (Join ", " (a :: b :: l)) with (a +:+ String "," (String " " (Join ", " (b :: l)))).
    rewrite Split_sep by done. rewrite fmap_cons, (TrimSpace_ends a) by apply Hv. f_equal.
    etransitivity; [|by apply (IH b)]. cbn [Split]. rewrite decide_False by done.
    by destruct (Split "," (Join ", " (b :: l))) as [|h t] eqn:E; [apply Split_nonnil in E|].
Qed.

Lemma splitCSV_items l : Forall item_text l -> splitCSV (Join ", " l) = l.
Proof.
  intros H. destruct l as [|a l]; [done|]. unfold splitCSV. rewrite Split_items by done.
  apply filter_all. intros x Hx. rewrite Forall_forall in H. by destruct (H x Hx) as (_ & ? & _).
Qed.

Lemma Join_items l : Forall item_text l -> value_text (Join ", " l) /\ nonempty (Join ", " l) = negb (bool_decide (l = [])).
Proof.
  induction l as [|a l IH]; intros H; [by repeat split|]. apply Forall_cons in H as [((Hs & Hf & Hl) & Hn & Hc) H].
  destruct (IH H) as [(Js & Jf & Jl) Jn]. destruct l as [|b l]; [by split|].
  change (Join ", " (a :: b :: l)) with (a +:+ (", " +:+ Join ", " (b :: l))). split.
  - split; [unfold single in *; by rewrite !lacks_app, Hs, Js|]. split; [by apply first_solid_app|].
    rewrite append_assoc. by apply last_solid_app.
  - destruct a; [done|]. by rewrite append_cons.
Qed.

(** ** The lines, scanned *)

Definition good_line (l : string) : Prop := single l /\ first_solid (rev_string l) = true.

Lemma dropCR_good l : first_solid (rev_string l) = true -> dropCR l = l.
Proof.
  intros H. unfold dropCR. apply TrimSuffix_not. unfold HasSuffix.
  change (rev_string (String "013" "")) with (String "013" ""). destruct (rev_string l) as [|c r]; [done|]. cbn in *.
  rewrite bool_decide_eq_false_2; [done|]. by intros <-.
Qed.

Lemma lines_of_ended ls : lines_of (ls ++ [""]) = ls.
Proof. induction ls as [|l [|m ls] IH]; [done..|]. cbn [app lines_of] in *. by rewrite IH. Qed.

Lemma Scanner_lines ls : Forall good_line ls -> Forall (fun l => long l = false) ls ->
  Scanner (Join "" (ended <$> ls)) = (ls, Ok tt).
Proof.
  intros Hg Hs. unfold Scanner, ended. rewrite Split_ended by (by eapply Forall_impl; [exact Hg|]; intros x []).
  rewrite lines_of_ended. induction Hg as [|l ls [_ Hl] _ IH]; [done|]. apply Forall_cons in Hs as [Hs1 Hs].
  cbn [scan]. by rewrite Hs1, IH, dropCR_good.
Qed.

Lemma line_good key v : key_text key -> value_text v -> Forall good_line (line key v).
Proof.
  intros (Hn & Ha & Ht) (Hs & Hf & Hl). unfold line. destruct (nonempty v) eqn:Hv; [|constructor].
  apply Forall_singleton. split.
  - unfold single in *. by rewrite !lacks_app, Hs, (alnum_lacks "010" key eq_refl Ha).
  - rewrite !append_assoc. by apply last_solid_app.
Qed.

Definition key_ok (key : string) : bool :=
  nonempty key && all_chars is_alnum key && String.eqb (TrimSpace (key +:+ " ")) key.

Lemma key_ok_text key : key_ok key = true -> key_text key.
Proof. unfold key_ok. intros H. bool_to_prop. by split_and!. Qed.

Lemma obfuscation_key k : k ∈ obfuscationKeys -> key_text k /\ ToLower k = k /\ contains obfuscationKeys k = true /\
  String.eqb k "privatekey" = false /\ String.eqb k "address" = false /\ String.eqb k "dns" = false.
Proof.
  assert (forallb (fun k => key_ok k && String.eqb (ToLower k) k && contains obfuscationKeys k && negb (String.eqb k "privatekey") &&
    negb (String.eqb k "address") && negb (String.eqb k "dns")) obfuscationKeys = true) as H by (vm_compute; reflexivity).
  rewrite forallb_elem in H. intros Hk. specialize (H k Hk). rewrite !andb_true_iff, !negb_true_iff in H.
  destruct H as [[[[[H1 H2] H3] H4] H5] H6]. apply String.eqb_eq in H2. split_and!; try done. by apply key_ok_text.
Qed.

Lemma value_text_get s k : map_Forall (fun k v => k ∈ obfuscationKeys /\ value_text v /\ nonempty v = true) (Obfuscation s) ->
  value_text (get (Obfuscation s) k).
Proof. intros H. unfold get. destruct (Obfuscation s !! k) eqn:E; [by destruct (H _ _ E) as (_ & ? & _)|done]. Qed.

Lemma Itoa_value n : (0 <= n)%Z -> value_text (Itoa n).
Proof.
  intros H. split; [|by apply Itoa_ends]. eapply all_chars_mono; [|by apply Itoa_digits].
  intros c Hc. apply bool_decide_eq_true. by apply is_digit_ne.
Qed.

Lemma printed_good s ep : printable s ep -> Forall good_line (printed_lines s ep).
Proof.
  intros [[H1 _] [H2 _] H3 [H4 _] H5 H6 H7 H8 [H9 _] _]. unfold printed_lines.
  rewrite !Forall_app. split_and!; try (apply line_good; [by apply key_ok_text|]); try done.
  - by apply Forall_singleton.
  - by apply Join_items.
  - apply Forall_join, Forall_fmap, Forall_forall. intros k Hk. apply line_good; [by apply obfuscation_key|by apply value_text_get].
  - by repeat apply Forall_cons_2.
  - by apply Join_items.
  - apply Itoa_value; lia.
Qed.

(** ** The lines, read *)

Definition gathered (obf : gmap string string) (ks : list string) (m : gmap string string) : gmap string string :=
  foldl (fun m k => if nonempty (get obf k) then <[k := get obf k]> m else m) m ks.

Lemma parseLines_obfuscation obf ks m ls a b c d e f g ep k hp :
  (forall k, k ∈ ks -> k ∈ obfuscationKeys) -> (forall k, value_text (get obf k)) ->
  parseLines (mkParsing (mkSecret a b c d e f g m) "interface" ep k hp)
    (mjoin (M:=list) ((fun k => line k (get obf k)) <$> ks) ++ ls) =
  parseLines (mkParsing (mkSecret a b c d e f g (gathered obf ks m)) "interface" ep k hp) ls.
Proof.
  intros Hks Hv. revert m. induction ks as [|x ks IH]; intros m; [done|].
  destruct (obfuscation_key x) as (Hk & Hlow & Hc & E1 & E2 & E3); [apply Hks; left|].
  rewrite fmap_cons. cbn [mjoin list_join]. rewrite <- app_assoc, parseLines_line by done. cbn [pSection]. rewrite String.eqb_refl, Hlow.
  cbn [gathered foldl]. unfold with_secret, interfaceKey. cbn [pSecret pSection pEndpoint pKeepalive pHavePeer].
  rewrite E1, E2, E3, Hc. destruct (nonempty (get obf x)); apply IH; intros; apply Hks; by right.
Qed.

Lemma gathered_lookup obf ks m j :
  gathered obf ks m !! j = if bool_decide (j ∈ ks) && nonempty (get obf j) then Some (get obf j) else m !! j.
Proof.
  revert m. induction ks as [|k ks IH]; intros m; [done|].
  change (gathered obf (k :: ks) m) with (gathered obf ks (if nonempty (get obf k) then <[k := get obf k]> m else m)). rewrite IH.
  destruct (decide (j = k)) as [->|Hne].
  - rewrite (bool_decide_eq_true_2 (k ∈ k :: ks)) by left.
    destruct (nonempty (get obf k)) eqn:E; rewrite ?andb_false_r; [|done].
    cbn. destruct (bool_decide (k ∈ ks)); [done|]. by rewrite lookup_insert_eq.
  - rewrite (bool_decide_ext (j ∈ k :: ks) (j ∈ ks)) by (rewrite elem_of_cons; naive_solver).
    destruct (_ && _); [done|]. destruct (nonempty (get obf k)); [|done]. by rewrite lookup_insert_ne.
Qed.

Lemma gathered_all obf : map_Forall (fun k v => k ∈ obfuscationKeys /\ value_text v /\ nonempty v = true) obf ->
  gathered obf obfuscationKeys ∅ = obf.
Proof.
  intros H. apply map_eq. intros j. rewrite gathered_lookup, lookup_empty.
  destruct (obf !! j) as [v|] eqn:E.
  - destruct (H _ _ E) as (Hj & _ & Hn). assert (get obf j = v) as -> by (unfold get; by rewrite E).
    by rewrite bool_decide_eq_true_2, Hn.
  - assert (get obf j = "") as -> by (unfold get; by rewrite E). by rewrite andb_false_r.
Qed.

Lemma if_nonempty {A} (f : string -> A) v : (if nonempty v then f v else f "") = f v.
Proof. by destruct v. Qed.

Lemma if_items {A} (f : list string -> A) l : Forall item_text l ->
  (if nonempty (Join ", " l) then f (splitCSV (Join ", " l)) else f []) = f l.
Proof. intros H. destruct (Join_items l H) as [_ ->]. rewrite splitCSV_items by done. by destruct l. Qed.

Lemma firstCSV_one v : value_text v -> lacks "," v = true -> firstCSV v = v.
Proof.
  intros (Hs & He) Hc. unfold firstCSV, splitCSV. rewrite Split_lacks by done. change (TrimSpace <$> [v]) with [TrimSpace v].
  rewrite TrimSpace_ends by done. by destruct v.
Qed.

(** The lines of [Interface], whose secret is fresh, and of [Peer]. *)
Lemma parseLines_interface s ls : value_text (PrivateKey s) -> value_text (SecretAddress s) ->
  lacks "," (SecretAddress s) = true -> Forall item_text (SecretDNS s) ->
  map_Forall (fun k v => k ∈ obfuscationKeys /\ value_text v /\ nonempty v = true) (Obfuscation s) ->
  parseLines fresh (["[Interface]"] ++ line "PrivateKey" (PrivateKey s) ++ line "Address" (SecretAddress s) ++
    line "DNS" (Join ", " (SecretDNS s)) ++
    mjoin (M:=list) ((fun k => line k (get (Obfuscation s) k)) <$> obfuscationKeys) ++ ls) =
  parseLines (mkParsing (mkSecret (PrivateKey s) "" "" (SecretAddress s) (SecretDNS s) [] 0 (Obfuscation s))
    "interface" "" 0 false) ls.
Proof.
  intros H1 H2 Hc H3 H4.
  change (parseLines fresh (["[Interface]"] ++ ?x)) with (parseLines (mkParsing (pSecret fresh) "interface" "" 0 false) x).
  rewrite parseLines_line by (try done; by apply key_ok_text).
  etransitivity; [apply (f_equal (fun p => parseLines p _)), (if_nonempty (fun v =>
    mkParsing (mkSecret v "" "" "" [] [] 0 ∅) "interface" "" 0 false))|].
  rewrite parseLines_line by (try done; by apply key_ok_text).
  etransitivity; [apply (f_equal (fun p => parseLines p _)), (if_nonempty (fun v =>
    mkParsing (mkSecret (PrivateKey s) "" "" (firstCSV v) [] [] 0 ∅) "interface" "" 0 false))|].
  rewrite firstCSV_one by done.
  rewrite parseLines_line by (try (by apply Join_items); by apply key_ok_text).
  etransitivity; [apply (f_equal (fun p => parseLines p _)), (if_items (fun l =>
    mkParsing (mkSecret (PrivateKey s) "" "" (SecretAddress s) l [] 0 ∅) "interface" "" 0 false)); done|].
  rewrite parseLines_obfuscation by (try done; intros; by apply value_text_get). by rewrite gathered_all.
Qed.

Lemma parseLines_peer s ep a d e obf : value_text (PeerPublicKey s) -> value_text (PresharedKey s) ->
  Forall item_text (SecretAllowedIPs s) -> value_text ep -> (0 <= PersistentKeepalive s <= int_max)%Z ->
  parseLines (mkParsing (mkSecret a "" "" d e [] 0 obf) "interface" "" 0 false)
    (["" ; "[Peer]"] ++ line "PublicKey" (PeerPublicKey s) ++ line "PresharedKey" (PresharedKey s) ++
     line "AllowedIPs" (Join ", " (SecretAllowedIPs s)) ++ line "Endpoint" ep ++
     line "PersistentKeepalive" (Itoa (PersistentKeepalive s))) =
  Ok (mkParsing (mkSecret a (PeerPublicKey s) (PresharedKey s) d e (SecretAllowedIPs s) 0 obf)
    "peer" ep (PersistentKeepalive s) true).
Proof.
  intros H1 H2 H3 H4 H5.
  change (parseLines (mkParsing (mkSecret a "" "" d e [] 0 obf) "interface" "" 0 false) (["" ; "[Peer]"] ++ ?x))
    with (parseLines (mkParsing (mkSecret a "" "" d e [] 0 obf) "peer" "" 0 true) x).
  rewrite parseLines_line by (try done; by apply key_ok_text).
  etransitivity; [apply (f_equal (fun p => parseLines p _)), (if_nonempty (fun v =>
    mkParsing (mkSecret a v "" d e [] 0 obf) "peer" "" 0 true))|].
  rewrite parseLines_line by (try done; by apply key_ok_text).
  etransitivity; [apply (f_equal (fun p => parseLines p _)), (if_nonempty (fun v =>
    mkParsing (mkSecret a (PeerPublicKey s) v d e [] 0 obf) "peer" "" 0 true))|].
  rewrite parseLines_line by (try (by apply Join_items); by apply key_ok_text).
  etransitivity; [apply (f_equal (fun p => parseLines p _)), (if_items (fun l =>
    mkParsing (mkSecret a (PeerPublicKey s) (PresharedKey s) d e l 0 obf) "peer" "" 0 true)); done|].
  rewrite parseLines_line by (try done; by apply key_ok_text).
  etransitivity; [apply (f_equal (fun p => parseLines p _)), (if_nonempty (fun v =>
    mkParsing (mkSecret a (PeerPublicKey s) (PresharedKey s) d e (SecretAllowedIPs s) 0 obf) "peer" v 0 true))|].
  rewrite <- (app_nil_r (line "PersistentKeepalive" _)).
  rewrite parseLines_line by (try (apply Itoa_value; lia); by apply key_ok_text).
  rewrite Itoa_nonempty by lia. change (ToLower "PersistentKeepalive") with "persistentkeepalive".
  cbn [pSection String.eqb Ascii.eqb Bool.eqb]. unfold peerKey, atoiDefault. cbn [pSecret].
  rewrite TrimSpace_ends by (apply Itoa_ends; lia).
  rewrite Atoi_Itoa; [done|]. unfold in_int, int_min. apply andb_true_iff. split; apply Z.leb_le; lia.
Qed.


Definition a_secret : NodeSecret :=
  mkSecret key32 key32 "" "10.8.1.2/32" ["1.1.1.1"; "9.9.9.9"] ["0.0.0.0/0"; "::/0"] 25
    (list_to_map [("jc", "5"); ("h4", "4000000000")]).

