(* ===== verification/SelectiveRouting.v ===== *)
(** * Selective routing: internal/routing, internal/adapters/openwrt/routing.go

    The rules of what goes into the tunnel become one nftables script (routing.go),
    which nft reads from its standard input (apply.go); the manager keeps the rules
    in the daemon's configuration and marks nothing before the tunnel's routing rules
    are in place (adapters/openwrt/routing.go). With the three requests that change
    the rules (internal/api/server.go). *)

From S2P Require Import Prelude GoStrings GoNet Effects Http Config TunnelRoute.

Definition TableName := "veilbridge".

Definition nl : string := String "010" "".

Record Generator := mkGenerator { Ingress : list string }.

(** ** Sorting the rules out *)

Record domainRule := mkDomainRule { DomainValue : string; DomainTarget : string }.

(** The named results of [classify]; the sets as their prefixes. *)
Record classified := mkClassified {
  tunnel4 : list Prefix; tunnel6 : list Prefix; direct4 : list Prefix; direct6 : list Prefix;
  domains : list domainRule }.

Definition no_rules : classified := mkClassified [] [] [] [] [].

Definition classifyOne (c : classified) (r : RouteRule) : res classified :=
  let '(mkClassified t4 t6 d4 d6 ds) := c in
  if String.eqb (RuleKind r) RuleSubnet then
    match ParsePrefix (TrimSpace (RuleValue r)) with
    | None => Err (Wrapf "routing: bad subnet %q: %w" [RuleValue r] (Errorf "netip.ParsePrefix(%q)" [TrimSpace (RuleValue r)]))
    | Some p =>
        let tunnel := String.eqb (RuleTarget r) TargetTunnel in
        Ok (if Is4 (PAddr p) && tunnel then mkClassified (t4 ++ [p]) t6 d4 d6 ds
            else if Is4 (PAddr p) then mkClassified t4 t6 (d4 ++ [p]) d6 ds
            else if tunnel then mkClassified t4 (t6 ++ [p]) d4 d6 ds
            else mkClassified t4 t6 d4 (d6 ++ [p]) ds)
    end
  else if String.eqb (RuleKind r) RuleDomain then
    if negb (nonempty (TrimSpace (RuleValue r))) then Err (Errorf "routing: empty domain value" [])
    else Ok (mkClassified t4 t6 d4 d6 (ds ++ [mkDomainRule (RuleValue r) (RuleTarget r)]))
  else Err (Errorf "routing: unknown rule kind %q" [RuleKind r]).

Fixpoint classifyAll (c : classified) (rules : list RouteRule) : res classified :=
  match rules with
  | [] => Ok c
  | r :: rules => let? c := classifyOne c r in classifyAll c rules
  end.

(** The elements are sorted as they are printed. [sort.Slice] promises nothing about
    domains of one value; here they keep their order. *)
Definition element_le (p q : Prefix) : bool := str_le (PrefixString p) (PrefixString q).
Definition domain_le (a b : domainRule) : bool := str_le (DomainValue a) (DomainValue b).

Definition classify (rules : list RouteRule) : res classified :=
  let? c := classifyAll no_rules rules in
  Ok (mkClassified (sort_by element_le (tunnel4 c)) (sort_by element_le (tunnel6 c))
        (sort_by element_le (direct4 c)) (sort_by element_le (direct6 c)) (sort_by domain_le (domains c))).

(** ** The script *)

Definition writeSet (name typ : string) (elems : list Prefix) : string :=
  "  set " +:+ name +:+ " { type " +:+ typ +:+ "; flags interval;" +:+
  (match elems with [] => "" | _ => " elements = { " +:+ Join ", " (PrefixString <$> elems) +:+ " };" end) +:+
  " }" +:+ nl.

(** What no interface name holds: a quote, a backslash, white space, the marks of a
    script. *)
Definition ifaceMarks : string := String "034" ("\ " +:+ String "009" nl +:+ ";{}").

Definition badIface (n : string) : bool :=
  negb (nonempty n) || (15 <? String.length n)%nat || ContainsAny ifaceMarks n.

Definition quoted (n : string) : string := String "034" n +:+ String "034" "".

Definition quoteIfaces (names : list string) : res string :=
  match names with
  | [] => Err (Errorf "routing: the local network's interfaces are unknown" [])
  | _ =>
      match find_first badIface names with
      | Some n => Err (Errorf "routing: bad interface name %q" [n])
      | None => Ok (Join ", " (quoted <$> names))
      end
  end.

Definition when (b : bool) (line : string) : string := if b then line +:+ nl else "".
Definition some {A} (l : list A) : bool := match l with [] => false | _ => true end.

Definition domainLine (d : domainRule) : string := "#   " +:+ DomainValue d +:+ " -> " +:+ DomainTarget d +:+ nl.

Definition Render (g : Generator) (rules : list RouteRule) : res string :=
  let? c := classify rules in
  let? ingress := quoteIfaces (Ingress g) in
  Ok (when true "#!/usr/sbin/nft -f" +:+
      when true "# Generated by VeilBridge routing — do not edit by hand." +:+
      when true ("add table inet " +:+ TableName) +:+
      when true ("delete table inet " +:+ TableName) +:+
      when true ("table inet " +:+ TableName +:+ " {") +:+
      writeSet "tunnel4" "ipv4_addr" (tunnel4 c) +:+
      writeSet "tunnel6" "ipv6_addr" (tunnel6 c) +:+
      writeSet "direct4" "ipv4_addr" (direct4 c) +:+
      writeSet "direct6" "ipv6_addr" (direct6 c) +:+
      when true "  chain prerouting {" +:+
      when true "    type filter hook prerouting priority mangle; policy accept;" +:+
      when true ("    iifname != { " +:+ ingress +:+ " } return") +:+
      when true "    ct direction reply return" +:+
      when (some (direct4 c)) "    ip daddr @direct4 return" +:+
      when (some (direct6 c)) "    ip6 daddr @direct6 return" +:+
      when (some (tunnel4 c)) ("    ip daddr @tunnel4 meta mark set meta mark | " +:+ TunnelMark) +:+
      when (some (tunnel6 c)) ("    ip6 daddr @tunnel6 meta mark set meta mark | " +:+ TunnelMark) +:+
      when true "  }" +:+
      when true "}" +:+
      when (some (domains c)) "# domain rules (not yet enforced — needs FakeIP, roadmap M6):" +:+
      Join "" (domainLine <$> domains c)).

(** [Generator.Apply]. *)
Definition ApplyRules (g : Generator) (rules : list RouteRule) : prog (res unit) :=
  let* script := Render g rules in
  r <- ask (RunNft script) ;;
  Ret (wrapping "routing: nft apply failed: %w: %s" [] r).

(** ** The manager

    A nil function field is [None]. *)
Section Manager.
Context `{!DocumentCodec}.

Record routingManager := mkRouting {
  rmStore : Store; rmLan : option (prog (res (list string))); rmEnsure : option (prog (res unit)) }.

Definition gen (m : routingManager) (validateOnly : bool) : prog (res Generator) :=
  match rmLan m with
  | Some lan => if validateOnly then Ret (Ok (mkGenerator ["lan"])) else
                let! ifaces := lan in Ret (Ok (mkGenerator ifaces))
  | None => Ret (Ok (mkGenerator ["lan"]))
  end.

Definition ListRules (m : routingManager) : prog (res (list RouteRule)) :=
  let! doc := LoadDocument (rmStore m) in Ret (Ok (DocRoutes doc)).

Definition SetRules (m : routingManager) (rules : list RouteRule) : prog (res unit) :=
  let! g := gen m true in
  let* _ := Render g rules in
  let! doc := LoadDocument (rmStore m) in
  SaveDocument (rmStore m) (with_routes rules doc).

Definition ApplyRouting (m : routingManager) : prog (res unit) :=
  let! doc := LoadDocument (rmStore m) in
  let! _ := match rmEnsure m with
            | None => Ret (Ok tt)
            | Some ensure =>
                r <- ensure ;;
                Ret (wrapping "openwrt: the tunnel's routing rules are not in place, so nothing is marked: %w" [] r)
            end in
  let! g := gen m false in
  ApplyRules g (DocRoutes doc).

(** [applyUntilDone], of which at most [n] attempts are seen: whether it is done. *)
Fixpoint applyUntilDone (n : nat) (m : routingManager) : prog bool :=
  match n with
  | 0 => Ret false
  | S n =>
      r <- ApplyRouting m ;;
      match r with
      | Ok _ => Ret true
      | Err _ =>
          _ <- ask (Say "routing: could not apply the routing rules, retrying in %s: %v" ["30s"]) ;;
          applyUntilDone n m
      end
  end.

(** ** The requests that change the rules: internal/api/server.go *)

Record RuleBody := mkRuleBody { BodyKind : string; BodyValue : string; BodyTarget : string; BodyNote : string }.
Definition toRule (b : RuleBody) (id : string) : RouteRule :=
  mkRouteRule id (BodyKind b) (BodyValue b) (BodyTarget b) (BodyNote b).

Definition ruleID (i : Z) : string := "rule-" +:+ Itoa i.

(** The first number from [i] that is not taken; [newRuleID] looks at one more number
    than there are rules. *)
Fixpoint freeID (fuel : nat) (used : gset string) (i : Z) : string :=
  match fuel with
  | 0 => ruleID i
  | S n => if decide (ruleID i ∈ used) then freeID n used (i + 1) else ruleID i
  end.

Definition newRuleID (existing : list RouteRule) : string :=
  freeID (length existing) (list_to_set (RuleID <$> existing)) 1.

Definition addRoute (m : routingManager) (body : RuleBody) : prog (RouteRule + httpError) :=
  r <- ListRules m ;;
  match r with
  | Err e => Ret (inr (because 500 "list routes" e))
  | Ok rules =>
      let rule := toRule body (newRuleID rules) in
      s <- SetRules m (rules ++ [rule]) ;;
      Ret (match s with Err e => inr (because 400 "add route" e) | Ok _ => inl rule end)
  end.

Definition updateRoute (m : routingManager) (id : string) (body : RuleBody) : prog (RouteRule + httpError) :=
  r <- ListRules m ;;
  match r with
  | Err e => Ret (inr (because 500 "list routes" e))
  | Ok rules =>
      let updated := toRule body id in
      match index_of (fun r => String.eqb (RuleID r) id) rules with
      | None => Ret (inr (plainly 404 ("rule not found: " +:+ id)))
      | Some i =>
          s <- SetRules m (<[i := updated]> rules) ;;
          Ret (match s with Err e => inr (because 400 "update route" e) | Ok _ => inl updated end)
      end
  end.

Definition deleteRoute (m : routingManager) (id : string) : prog (unit + httpError) :=
  r <- ListRules m ;;
  match r with
  | Err e => Ret (inr (because 500 "list routes" e))
  | Ok rules =>
      let out := filter (fun r => RuleID r <> id) rules in
      if negb (existsb (fun r => String.eqb (RuleID r) id) rules)
      then Ret (inr (plainly 404 ("rule not found: " +:+ id)))
      else
        s <- SetRules m out ;;
        Ret (match s with Err e => inr (because 500 "delete route" e) | Ok _ => inl tt end)
  end.
End Manager.
