(* ===== verification/SelectiveRoutingThms.v ===== *)
(** * What selective routing does

    The script that is given to nft marks exactly the traffic the rules name; it is
    given to nft only behind the tunnel's routing rules; a new rule has an ID of its
    own. Two findings: a domain is printed into the script as it was typed, and a
    change of the rules can undo another change of the configuration. *)

From S2P Require Import Prelude GoStrings GoNet Devices Effects Config LanThms UciApplier TunnelRoute TunnelRouteThms TunnelRouteMem ConfigThms DeviceMem ConfigMem SelectiveRouting.

(** ** The rule set as nft reads it

    Four sets and one chain. A [return] ends the chain, a set of one family matches
    packets of that family only, and an element holds the addresses of its prefix. *)

Inductive stmt :=
| NotFrom (ingress : list string)      (* iifname != { … } return *)
| IsReply                              (* ct direction reply return *)
| ReturnIn (v6 : bool)                 (* daddr @direct… return *)
| MarkIn (v6 : bool).                  (* daddr @tunnel… mark *)

Record ruleset := mkRuleset { rsTunnel : bool -> list Prefix; rsDirect : bool -> list Prefix; rsChain : list stmt }.

Definition show_stmt (s : stmt) : string :=
  match s with
  | NotFrom names => "    iifname != { " +:+ Join ", " (quoted <$> names) +:+ " } return"
  | IsReply => "    ct direction reply return"
  | ReturnIn false => "    ip daddr @direct4 return"
  | ReturnIn true => "    ip6 daddr @direct6 return"
  | MarkIn false => "    ip daddr @tunnel4 meta mark set meta mark | " +:+ TunnelMark
  | MarkIn true => "    ip6 daddr @tunnel6 meta mark set meta mark | " +:+ TunnelMark
  end.

Definition prologue : string :=
  when true "#!/usr/sbin/nft -f" +:+
  when true "# Generated by VeilBridge routing — do not edit by hand." +:+
  when true ("add table inet " +:+ TableName) +:+ when true ("delete table inet " +:+ TableName) +:+
  when true ("table inet " +:+ TableName +:+ " {").

Definition show_ruleset (r : ruleset) : string :=
  prologue +:+
  writeSet "tunnel4" "ipv4_addr" (rsTunnel r false) +:+ writeSet "tunnel6" "ipv6_addr" (rsTunnel r true) +:+
  writeSet "direct4" "ipv4_addr" (rsDirect r false) +:+ writeSet "direct6" "ipv6_addr" (rsDirect r true) +:+
  when true "  chain prerouting {" +:+
  when true "    type filter hook prerouting priority mangle; policy accept;" +:+
  Join "" ((fun s => when true (show_stmt s)) <$> rsChain r) +:+
  when true "  }" +:+ when true "}".

Record routedPacket := mkRouted { rpIface : string; rpReply : bool; rpTo : Addr }.

Definition inSet (v6 : bool) (l : list Prefix) (p : routedPacket) : bool :=
  Bool.eqb (Is6 (rpTo p)) v6 && existsb (fun x => PrefixContains x (rpTo p)) l.

Fixpoint marks (r : ruleset) (chain : list stmt) (p : routedPacket) (mark : bool) : bool :=
  match chain with
  | [] => mark
  | NotFrom names :: chain => if contains names (rpIface p) then marks r chain p mark else mark
  | IsReply :: chain => if rpReply p then mark else marks r chain p mark
  | ReturnIn v6 :: chain => if inSet v6 (rsDirect r v6) p then mark else marks r chain p mark
  | MarkIn v6 :: chain => marks r chain p (mark || inSet v6 (rsTunnel r v6) p)
  end.

(** What the rules mean: the traffic of the local network to a network that is to
    go into the tunnel, unless a rule sends that address out directly. *)
Definition names_it (r : RouteRule) (a : Addr) : bool :=
  String.eqb (RuleKind r) RuleSubnet &&
  match ParsePrefix (TrimSpace (RuleValue r)) with Some p => PrefixContains p a | None => false end.

Definition into_tunnel (rules : list RouteRule) (a : Addr) : bool :=
  existsb (fun r => String.eqb (RuleTarget r) TargetTunnel && names_it r a) rules &&
  negb (existsb (fun r => negb (String.eqb (RuleTarget r) TargetTunnel) && names_it r a) rules).

Definition wanted (ingress : list string) (rules : list RouteRule) (p : routedPacket) : bool :=
  contains ingress (rpIface p) && negb (rpReply p) && into_tunnel rules (rpTo p).

(** ** Sorting the rules out *)

Definition pick (v4 tunnel : bool) (r : RouteRule) : option Prefix :=
  if String.eqb (RuleKind r) RuleSubnet then
    p ← ParsePrefix (TrimSpace (RuleValue r));
    if Bool.eqb (Is4 (PAddr p)) v4 && Bool.eqb (String.eqb (RuleTarget r) TargetTunnel) tunnel then Some p else None
  else None.

Definition isDomain (r : RouteRule) : bool :=
  negb (String.eqb (RuleKind r) RuleSubnet).

Lemma omap_cons_match {A B} (f : A -> option B) x l :
  omap f (x :: l) = match f x with Some y => y :: omap f l | None => omap f l end.
Proof. done. Qed.

Lemma classifyAll_picks rules c c' : classifyAll c rules = Ok c' ->
  tunnel4 c' = tunnel4 c ++ omap (pick true true) rules /\ tunnel6 c' = tunnel6 c ++ omap (pick false true) rules /\
  direct4 c' = direct4 c ++ omap (pick true false) rules /\ direct6 c' = direct6 c ++ omap (pick false false) rules /\
  domains c' = domains c ++ ((fun r => mkDomainRule (RuleValue r) (RuleTarget r)) <$> filter (fun r => isDomain r = true) rules).
Proof.
  revert c. induction rules as [|r rules IH]; intros c; cbn [classifyAll].
  { intros [= <-]. cbn. by rewrite !app_nil_r. }
  destruct (classifyOne c r) as [c1|e] eqn:E; cbn [res_bind]; [|done]. intros H.
  destruct (IH c1 H) as (-> & -> & -> & -> & ->). clear IH H. destruct c as [t4 t6 d4 d6 ds]. unfold classifyOne in E.
  rewrite filter_cons, !omap_cons_match. unfold pick, isDomain. cbn [tunnel4 tunnel6 direct4 direct6 domains].
  destruct (String.eqb (RuleKind r) RuleSubnet) eqn:Ek; cbn [negb].
  - destruct (ParsePrefix _) as [p|]; [|done]. injection E as <-. cbn [mbind option_bind].
    destruct (Is4 (PAddr p)), (String.eqb (RuleTarget r) TargetTunnel); cbn; rewrite <- ?app_assoc; done.
  - destruct (String.eqb (RuleKind r) RuleDomain); [|done]. destruct (negb _); [done|]. injection E as <-. cbn. by rewrite <- app_assoc.
Qed.

Lemma contains_family p a : PrefixContains p a = true -> Is6 a = negb (Is4 (PAddr p)).
Proof.
  unfold PrefixContains. intros H. destruct p as [[|x|x z] b], a as [|y|y t]; cbn in *; try done;
    repeat (rewrite ?andb_false_r in H; cbn in H); try done; by destruct (PrefixIsValid _).
Qed.

Lemma picked_set v6 tunnel rules l (p : routedPacket) :
  (forall x, x ∈ l <-> x ∈ omap (pick (negb v6) tunnel) rules) ->
  inSet v6 l p = Bool.eqb (Is6 (rpTo p)) v6 &&
    existsb (fun r => Bool.eqb (String.eqb (RuleTarget r) TargetTunnel) tunnel && names_it r (rpTo p)) rules.
Proof.
  intros Hl. unfold inSet. destruct (Bool.eqb (Is6 (rpTo p)) v6) eqn:Ef; [|done]. apply eqb_prop in Ef. cbn [andb].
  apply eq_iff_eq_true. rewrite !existsb_elem. split.
  - intros (x & Hx & Hc). apply Hl, list_elem_of_omap in Hx as (r & Hr & Hp). exists r. split; [done|].
    unfold pick in Hp. unfold names_it. destruct (String.eqb (RuleKind r) RuleSubnet); [|done].
    destruct (ParsePrefix _) as [q|]; cbn in Hp; [|done]. destruct (_ && _) eqn:E; [|done]. injection Hp as ->.
    apply andb_true_iff in E as [_ ->]. by rewrite Hc.
  - intros (r & Hr & Hc). apply andb_true_iff in Hc as [Ht Hn]. unfold names_it in Hn. apply andb_true_iff in Hn as [Hk Hn].
    destruct (ParsePrefix _) as [q|] eqn:Eq; [|done]. exists q. split; [|done]. apply Hl, list_elem_of_omap.
    exists r. split; [done|]. unfold pick. rewrite Hk, Eq. cbn. rewrite Ht, andb_true_r.
    apply contains_family in Hn. rewrite <- Ef, Hn, negb_involutive. by rewrite eqb_reflx.
Qed.

Lemma existsb_same {A} (f g : A -> bool) l : (forall x, f x = g x) -> existsb f l = existsb g l.
Proof. intros H. induction l as [|x l IH]; [done|]. cbn. by rewrite H, IH. Qed.

Lemma eqb_true b : Bool.eqb b true = b.
Proof. by destruct b. Qed.
Lemma eqb_false b : Bool.eqb b false = negb b.
Proof. by destruct b. Qed.

Definition chain_of (g : Generator) (c : classified) : list stmt :=
  [NotFrom (Ingress g); IsReply] ++
  (if some (direct4 c) then [ReturnIn false] else []) ++ (if some (direct6 c) then [ReturnIn true] else []) ++
  (if some (tunnel4 c) then [MarkIn false] else []) ++ (if some (tunnel6 c) then [MarkIn true] else []).

Definition ruleset_of (g : Generator) (c : classified) : ruleset :=
  mkRuleset (fun v6 => if v6 then tunnel6 c else tunnel4 c) (fun v6 => if v6 then direct6 c else direct4 c) (chain_of g c).

Definition comments (c : classified) : string :=
  when (some (domains c)) "# domain rules (not yet enforced — needs FakeIP, roadmap M6):" +:+
  Join "" (domainLine <$> domains c).

Lemma Join_app_empty ls1 ls2 : Join "" (ls1 ++ ls2) = Join "" ls1 +:+ Join "" ls2.
Proof.
  induction ls1 as [|l ls1 IH]; [done|]. rewrite <- app_comm_cons, !Join_empty_cons, IH. apply append_assoc.
Qed.

Lemma when_if (b : bool) (t : stmt) :
  Join "" ((fun s => when true (show_stmt s)) <$> (if b then [t] else [] : list stmt)) = when b (show_stmt t).
Proof. by destruct b. Qed.

#[local] Opaque when.
Lemma Render_shows g rules s : Render g rules = Ok s ->
  exists c, classify rules = Ok c /\ s = show_ruleset (ruleset_of g c) +:+ comments c.
Proof.
  unfold Render. destruct (classify rules) as [c|e]; cbn [res_bind]; [|done].
  destruct (quoteIfaces (Ingress g)) as [q|e] eqn:Eq; cbn [res_bind]; [|done]. intros [= <-]. exists c. split; [done|].
  assert (q = Join ", " (quoted <$> Ingress g)) as ->.
  { unfold quoteIfaces in Eq. destruct (Ingress g); [done|]. destruct (find_first _ _); [done|]. by injection Eq. }
  unfold show_ruleset, prologue, comments. cbn [ruleset_of rsTunnel rsDirect rsChain]. unfold chain_of.
  rewrite !fmap_app, !Join_app_empty. rewrite !when_if. cbn [fmap list_fmap]. rewrite !Join_empty_cons.
  cbn [Join String.concat show_stmt]. rewrite append_nil_r. by rewrite <- !append_assoc.
Qed.

#[local] Transparent when.

Lemma inSet_empty v6 l p : some l = false -> inSet v6 l p = false.
Proof. destruct l; [|done]. intros _. unfold inSet. by rewrite andb_false_r. Qed.

Lemma marks_chain g c p : marks (ruleset_of g c) (chain_of g c) p false =
  contains (Ingress g) (rpIface p) && negb (rpReply p) &&
  negb (inSet false (direct4 c) p || inSet true (direct6 c) p) && (inSet false (tunnel4 c) p || inSet true (tunnel6 c) p).
Proof.
  unfold chain_of. cbn [app marks]. destruct (contains _ _); [|done]. destruct (rpReply p); [done|]. cbn [negb andb].
  assert (forall v6 rest, marks (ruleset_of g c) ((if some (rsDirect (ruleset_of g c) v6) then [ReturnIn v6] else []) ++ rest) p false =
    if inSet v6 (rsDirect (ruleset_of g c) v6) p then false else marks (ruleset_of g c) rest p false) as Hr.
  { intros v6 rest. destruct (some _) eqn:E; [done|]. by rewrite (inSet_empty _ _ _ E). }
  assert (forall v6 rest m, marks (ruleset_of g c) ((if some (rsTunnel (ruleset_of g c) v6) then [MarkIn v6] else []) ++ rest) p m =
    marks (ruleset_of g c) rest p (m || inSet v6 (rsTunnel (ruleset_of g c) v6) p)) as Hm.
  { intros v6 rest m. destruct (some _) eqn:E; [done|]. by rewrite (inSet_empty _ _ _ E), orb_false_r. }
  rewrite (Hr false). cbn [rsDirect ruleset_of]. destruct (inSet false (direct4 c) p); [done|]. cbn [orb].
  rewrite (Hr true). cbn [rsDirect ruleset_of]. destruct (inSet true (direct6 c) p); [done|]. cbn [orb negb andb].
  rewrite (Hm false). rewrite <- (app_nil_r (if some (tunnel6 c) then [MarkIn true] else [])), (Hm true). done.
Qed.

(** C32. The script marks what the rules say. What is given to nft is a rule set that
    marks a packet exactly when it comes in from the local network, is no reply, is
    addressed to a network some rule sends into the tunnel, and to none that a rule
    sends out directly - whatever the order of the rules; nothing else is in the
    script when no rule is about a domain. *)
Theorem script_marks_what_the_rules_say (ingress : list string) (rules : list RouteRule) (s : string) :
  Render (mkGenerator ingress) rules = Ok s ->
  exists r comment, s = show_ruleset r +:+ comment /\
    (forall p, rpTo p <> NoAddr -> marks r (rsChain r) p false = wanted ingress rules p) /\
    (forallb (fun r => String.eqb (RuleKind r) RuleSubnet) rules = true -> comment = "").
Proof.
  intros H. destruct (Render_shows _ _ _ H) as (c & Hc & ->).
  exists (ruleset_of (mkGenerator ingress) c), (comments c). split; [done|].
  unfold classify in Hc. destruct (classifyAll no_rules rules) as [c0|] eqn:E0; cbn [res_bind] in Hc; [|done]. injection Hc as <-.
  destruct (classifyAll_picks _ _ _ E0) as (E1 & E2 & E3 & E4 & E5). cbn [no_rules tunnel4 tunnel6 direct4 direct6 domains app] in *.
  split.
  - intros p Hp. cbn [rsChain ruleset_of]. rewrite marks_chain. cbn [tunnel4 tunnel6 direct4 direct6 Ingress].
    rewrite !(picked_set false _ rules), !(picked_set true _ rules)
      by (intros x; rewrite sort_by_elem, ?E1, ?E2, ?E3, ?E4; done).
    rewrite <- !andb_orb_distrib_l.
    assert (Bool.eqb (Is6 (rpTo p)) false || Bool.eqb (Is6 (rpTo p)) true = true) as -> by (by destruct (Is6 (rpTo p))).
    unfold wanted, into_tunnel.
    rewrite (existsb_same _ (fun r => negb (String.eqb (RuleTarget r) TargetTunnel) && names_it r (rpTo p)))
      by (intros; by rewrite eqb_false).
    rewrite (existsb_same (fun r => Bool.eqb _ true && _) (fun r => String.eqb (RuleTarget r) TargetTunnel && names_it r (rpTo p)))
      by (intros; by rewrite eqb_true).
    by destruct (contains _ _), (rpReply p), (existsb _ rules), (existsb _ rules).
  - intros Hs. unfold comments. cbn [domains]. rewrite E5.
    assert (filter (fun r => isDomain r = true) rules = []) as ->; [|done].
    clear -Hs. induction rules as [|r rules IH]; [done|]. cbn in Hs. apply andb_true_iff in Hs as [Hr Hs].
    rewrite filter_cons, IH by done. rewrite decide_False; [done|]. unfold isDomain. by rewrite Hr.
Qed.

Definition two_rules : list RouteRule :=
  [mkRouteRule "rule-1" "subnet" "0.0.0.0/0" "tunnel" ""; mkRouteRule "rule-2" "subnet" "203.0.113.7/24" "direct" ""].
Definition two_rules_script : string := match Render (mkGenerator ["br-lan"]) two_rules with Ok s => s | Err _ => "" end.

Lemma script_marks_what_the_rules_say_witness :
  exists r comment, two_rules_script = show_ruleset r +:+ comment /\
    (forall p, rpTo p <> NoAddr -> marks r (rsChain r) p false = wanted ["br-lan"] two_rules p) /\
    (forallb (fun r => String.eqb (RuleKind r) RuleSubnet) two_rules = true -> comment = "").
Proof. apply (script_marks_what_the_rules_say ["br-lan"] two_rules two_rules_script). vm_compute. reflexivity. Defined.

(** ** Nothing is marked before the refusal is in place *)

(** The calls of a run, each with the state it is made in. *)
Fixpoint asked {W A} (h : router W) (p : prog A) (w : W) : list (W * op) :=
  match p with
  | Ret _ => []
  | Do o k => (w, o) :: let '(r, w1) := answer h o w in asked h (k r) w1
  end.

Section Guarded.
Context {W : Type} (h : router W) (P : W -> op -> Prop).

(** Each call is made in a state that allows it, and the run ends in [Q]. *)
Fixpoint guarded {A} (p : prog A) (w : W) (Q : W -> A -> Prop) : Prop :=
  match p with
  | Ret a => Q w a
  | Do o k => P w o /\ forall r w1, answer h o w = (r, w1) -> guarded (k r) w1 Q
  end.

Lemma guarded_seq {A B} (p : prog A) (f : A -> prog B) w (T : W -> A -> Prop) (Q : W -> B -> Prop) :
  guarded p w T -> (forall w1 a, T w1 a -> guarded (f a) w1 Q) -> guarded (prog_bind p f) w Q.
Proof. revert w. induction p as [a|o k IH]; intros w; cbn; naive_solver. Qed.

Lemma guarded_mono {A} (p : prog A) w (T Q : W -> A -> Prop) :
  guarded p w T -> (forall w1 a, T w1 a -> Q w1 a) -> guarded p w Q.
Proof. revert w. induction p as [a|o k IH]; intros w; cbn; naive_solver. Qed.

Lemma guarded_sound {A} (p : prog A) w Q : guarded p w Q -> forall w' o, (w', o) ∈ asked h p w -> P w' o.
Proof.
  revert w. induction p as [a|o k IH]; intros w; cbn.
  - by intros _ w' o' ?%not_elem_of_nil.
  - intros [Ho Hk] w' o'. destruct (answer h o w) as [r w1] eqn:E. rewrite elem_of_cons.
    intros [[= -> ->]|Hin]; [done|]. eapply IH; [|exact Hin]. by apply Hk.
Qed.

(** A part that makes only calls allowed anywhere, and what it is known to keep. *)
Lemma guarded_keeping {A} (R : W -> W -> Prop) (p : prog A) w Q :
  calls (fun o => forall w', P w' o) p -> keeping h R p w Q -> guarded p w Q.
Proof. revert w. induction p as [a|o k IH]; intros w; cbn; naive_solver. Qed.
End Guarded.

(** ** What the tunnel's routing asks for *)
Section TunnelCalls.
Context (P : op -> Prop) (exec_ok : forall args, P (Exec (ipProgram :: args))) (exists_ok : forall path, P (SysExists path)).

Lemma ip_calls args : calls P (ip args).
Proof using exec_ok. by split. Qed.

Lemma delete_tries_calls n g p : calls P (delete_tries n g p).
Proof using exec_ok. induction n as [|n IH]; [done|]. split; [done|]. intros [out|e]; cbn; [apply IH|done]. Qed.

Lemma release_calls g : calls P (release g).
Proof using exec_ok.
  apply calls_try; [apply ip_calls|]. intros out. destruct (negb _); [done|].
  apply calls_bind; [apply delete_tries_calls|]. intros ?. apply calls_try; [apply ip_calls|]. intros out2. by destruct (holdsPriority _ _).
Qed.

Lemma inPlace_calls g want : calls P (inPlace g want).
Proof using exec_ok.
  apply calls_bind; [apply ip_calls|]. intros [out|e]; [|done]. destruct (decide _); [|done].
  by apply calls_bind; [apply ip_calls|].
Qed.

Lemma replaceRules_calls g want : calls P (replaceRules g want).
Proof using exec_ok.
  apply calls_bind.
  { induction want as [|x want IH]; [done|]. apply calls_bind; [apply delete_tries_calls|done]. }
  intros ?. apply calls_bind.
  { induction want as [|x want IH]; [done|]. apply calls_bind; [by split|]. intros r. apply calls_bind; [apply IH|done]. }
  intros errs. apply calls_bind; [apply inPlace_calls|]. intros [|]; [|done]. apply calls_bind; [apply release_calls|done].
Qed.

Lemma ensureFamily_calls g : calls P (ensureFamily g).
Proof using exec_ok.
  apply calls_bind; [apply inPlace_calls|]. intros [|]; [apply calls_bind; [apply release_calls|done]|].
  apply calls_bind; [by split|]. intros [out|e]; [|done].
  apply calls_bind; [apply calls_bind; [apply ip_calls|]; by intros [out2|e]|].
  intros [|]; [apply replaceRules_calls|]. apply calls_bind; [by split|]. intros [out3|e]; [apply replaceRules_calls|done].
Qed.

Lemma families_calls : calls P families.
Proof using exists_ok. split; [done|by intros [|]]. Qed.

Lemma Ensure_calls : calls P Ensure.
Proof using exec_ok exists_ok.
  apply calls_bind; [apply families_calls|]. intros fs. apply calls_bind; [|done].
  induction fs as [|g fs IH]; [done|]. apply calls_bind; [apply ensureFamily_calls|]. intros errs. by apply calls_bind.
Qed.

Lemma flush_calls : calls P flush.
Proof using exec_ok exists_ok.
  apply calls_bind; [apply families_calls|]. intros fs. induction fs as [|g fs IH]; [done|]. by split.
Qed.

Lemma Up_calls dev allowed : calls P (Up dev allowed).
Proof using exec_ok exists_ok.
  apply calls_try; [apply Ensure_calls|]. intros []. apply calls_bind; [apply flush_calls|]. intros [].
  destruct (tunnelPrefixes _) as [ps errs]. apply calls_bind; [by split|]. intros v6. apply calls_bind; [|done].
  induction ps as [|p ps IH]; [done|]. cbn [addRoutes]. destruct (routeFamily v6 p); [|done].
  apply calls_bind; [apply ip_calls|]. intros r. by apply calls_bind.
Qed.
End TunnelCalls.

(** Only [ip] changes the kernel's policy rules. *)
Definition not_ip (o : op) : bool :=
  match o with Exec (p :: _) => negb (String.eqb p ipProgram) | _ => true end.
Definition not_nft (o : op) : bool := match o with RunNft _ => false | _ => true end.

Class OnlyIp {W} (h : router W) (v : RuleViews W) : Prop :=
  only_ip o w w' r : not_ip o = true -> answer h o w = (r, w') -> same_rules v w w'.

Definition harmless (o : op) : Prop := not_ip o = true /\ not_nft o = true.

Section Marking.
Context {W : Type} (h : router W) (v : RuleViews W) `{!IpRules h v} `{!OnlyIp h v} `{!DocumentCodec} (f : string).

Let behind (w : W) (o : op) : Prop := not_nft o = false -> in_force v f w.

Lemma harmless_guarded {A} (p : prog A) w : calls harmless p -> guarded h behind p w (fun w' _ => same_family v f w w').
Proof.
  intros Hc. apply (guarded_keeping h behind (fun _ _ => True)).
  - clear -Hc. induction p as [a|o k IH]; [done|]. cbn in *. destruct Hc as [[_ Hn] Hk]. split; [|intros r; by apply IH].
    unfold behind. rewrite Hn. done.
  - apply (keeping_calls h (fun _ _ => True) harmless (same_family v f)); [done| | |].
    + intros x. by split.
    + intros x y z. apply family_trans.
    + intros o w1 w2 r [Hi _] E. split; [done|]. exact (only_ip o w1 w2 r Hi E f).
Qed.

Lemma LoadDocument_harmless s : calls harmless (LoadDocument s).
Proof. split; [done|]. intros [b|e]; cbn; [|done]. repeat (break_match; try done). Qed.

Lemma lanDevices_harmless nm : calls harmless (lanDevices nm).
Proof.
  unfold lanDevices. destruct (negb (Network.runs nm)); [done|].
  apply calls_try.
  - unfold Stage.withCommitted. destruct (negb _); [done|]. apply calls_try; [by split|]. intros d.
    apply calls_bind; [|intros a; by split]. apply calls_try; [by split|]. intros u. by split.
  - intros out. apply calls_try; [|intros a; by destruct (compact _)].
    match goal with |- calls _ (match ?x with _ => _ end) => destruct x end; [done|].
    apply calls_try; [|done]. unfold Network.Interfaces. destruct (negb _); [done|]. split; [done|by intros []].
Qed.

(** C33. Nothing is marked for the tunnel unless the marked packets are refused
    elsewhere. Whenever applying the rules gives a script to nft, the tunnel's
    routing rules are in force in the kernel at that moment: the refusal is there, each
    of the panel's rules is alone on its priority and no hold is left - whatever the
    kernel's rules were before and whichever command fails. *)
Theorem nothing_is_marked_before_the_refusal (s : Store) (nm : Network.networkManager) (w : W) :
  hold_ours v f w -> in_use v f ->
  forall w' script, (w', RunNft script) ∈ asked h (ApplyRouting (mkRouting s (Some (lanDevices nm)) (Some Ensure))) w ->
  in_force v f w'.
Proof.
  intros Ho Hu w' script Hin. refine (guarded_sound h behind _ _ (fun _ _ => True) _ _ _ Hin eq_refl). clear w' script Hin.
  unfold ApplyRouting. cbn [rmStore rmEnsure rmLan gen]. unfold try_bind.
  eapply guarded_seq; [apply harmless_guarded, LoadDocument_harmless|]. cbn beta. intros w1 [doc|e] H1; [|done].
  eapply guarded_seq with (T := fun w2 r => r = Ok tt -> in_force v f w2).
  { eapply guarded_seq with (T := fun w2 r => r = Ok tt -> in_force v f w2).
    - eapply (guarded_keeping h behind (still v f)).
      + by apply Ensure_calls.
      + eapply keeping_mono; [apply (Ensure_keeps h v f w1); by apply (same_ours v f w)|].
        intros w2 r [_ Hf]. by apply Hf.
    - intros w2 [[]|e] Hr; cbn; [by intros _; apply Hr|done]. }
  intros w2 [[]|e] H2; [|done]. specialize (H2 eq_refl).
  eapply guarded_seq with (T := fun w3 _ => same_family v f w2 w3).
  { eapply guarded_seq; [apply harmless_guarded, lanDevices_harmless|]. cbn beta. by intros w3 [ifaces|e] H3. }
  intros w3 [g|e] H3; [|done]. unfold ApplyRules. cbn.
  destruct (Render g (DocRoutes doc)) as [script|e]; cbn; [|done].
  split; [|done]. intros _. by apply (same_in_force v f w2).
Qed.
End Marking.

(** ** The ID of a new rule *)

Lemma Itoa_inj_pos a b : (0 <= a)%Z -> (0 <= b)%Z -> Itoa a = Itoa b -> a = b.
Proof.
  intros Ha Hb H. unfold Itoa in H. rewrite (proj2 (Z.ltb_ge a 0)), (proj2 (Z.ltb_ge b 0)) in H by done.
  destruct (udec_val a Ha) as [Ea _], (udec_val b Hb) as [Eb _]. rewrite H in Ea. congruence.
Qed.

Lemma freeID_first fuel used i :
  exists k, freeID fuel used i = ruleID k /\ (i <= k <= i + Z.of_nat fuel)%Z /\
    (forall j, (i <= j < k)%Z -> ruleID j ∈ used) /\ (ruleID k ∈ used -> k = (i + Z.of_nat fuel)%Z).
Proof.
  revert i. induction fuel as [|n IH]; intros i; cbn [freeID].
  - exists i. split_and!; [done|lia..].
  - destruct (decide (ruleID i ∈ used)) as [Hin|Hn]; [|exists i; split_and!; [done|lia..|done]].
    destruct (IH (i + 1)%Z) as (k & -> & Hk & Hall & Hend). exists k. split_and!; [done|lia..| |].
    + intros j Hj. destruct (decide (j = i)) as [->|]; [done|]. apply Hall. lia.
    + intros Hin'. rewrite (Hend Hin'). lia.
Qed.

(** More numbers than rules cannot all be taken. *)
Lemma ids_run_out (rules : list RouteRule) :
  ~ forall j, (1 <= j <= 1 + Z.of_nat (length rules))%Z -> ruleID j ∈ RuleID <$> rules.
Proof.
  intros H. set (ids := ruleID <$> seqZ 1 (Z.of_nat (S (length rules)))).
  assert (NoDup ids) as Hnd.
  { apply NoDup_fmap_2_strong; [|apply NoDup_seqZ]. intros a b Ha%elem_of_seqZ Hb%elem_of_seqZ E.
    apply append_inj_l in E. apply Itoa_inj_pos; [lia..|done]. }
  assert (ids ⊆ RuleID <$> rules) as Hsub.
  { intros x (j & -> & Hj%elem_of_seqZ)%list_elem_of_fmap. apply H. lia. }
  pose proof (NoDup_submseteq ids _ Hnd Hsub) as Hs. apply submseteq_length in Hs.
  unfold ids in Hs. rewrite !length_fmap, length_seqZ in Hs. lia.
Qed.

(** C34. The search for the ID of a new rule ends, after at most one more number than
    there are rules, at the first number no rule has: the loop of the code, which has no
    bound of its own, stops where the bounded one does. *)
Theorem new_rule_has_an_id_of_its_own (rules : list RouteRule) :
  exists k, newRuleID rules = ruleID k /\ (1 <= k <= 1 + Z.of_nat (length rules))%Z /\
    (ruleID k ∉ RuleID <$> rules) /\ (forall j, (1 <= j < k)%Z -> ruleID j ∈ RuleID <$> rules).
Proof.
  unfold newRuleID. destruct (freeID_first (length rules) (list_to_set (RuleID <$> rules)) 1) as (k & -> & Hk & Hall & Hend).
  setoid_rewrite elem_of_list_to_set in Hall. rewrite elem_of_list_to_set in Hend.
  exists k. split_and!; [done|lia..| |done]. intros Hin. apply (ids_run_out rules). intros j Hj.
  destruct (decide (j = k)) as [->|]; [done|]. apply Hall. specialize (Hend Hin). lia.
Qed.
