(* ===== verification/SelectiveRoutingMem.v ===== *)
(** * A router in memory for selective routing

    The kernel of TunnelRouteMem.v beside the files of ConfigMem.v, where the witness
    of the marking theorem runs; the IDs of new rules; and the two findings. *)

From S2P Require Import Prelude GoStrings GoNet Devices Effects Network LanThms UciApplier TunnelRoute TunnelRouteThms TunnelRouteMem Config ConfigThms ConfigMem SelectiveRouting SelectiveRoutingThms.

Definition of_kernel (o : op) : bool := negb (not_ip o) || match o with SysExists _ => true | _ => false end.

Definition zone_text : string :=
  Join (String "010" "") ["veilbridge_committed_firewall.@zone[0]=zone"; "veilbridge_committed_firewall.@zone[0].name='lan'";
    "veilbridge_committed_firewall.@zone[0].device='br-lan'"; ""].

Definition box : router (kernel * gmap string string) :=
  mkRouter (kernel * gmap string string) (fun o w =>
    if of_kernel o then let '(r, k) := answer kernel_router o w.1 in (r, (k, w.2))
    else match o return ans o * (kernel * gmap string string) with
         | Exec _ => (Ok zone_text, w)
         | MkdirTemp _ => (Ok "/tmp/links", w)
         | Symlink _ _ => (Ok tt, w)
         | Effects.RemoveAll _ => (Ok tt, w)
         | o => let '(r, s) := answer store_in_memory o w.2 in (r, (w.1, s))
         end).

Definition box_views : RuleViews (kernel * gmap string string) :=
  mkRuleViews (kernel * gmap string string) (fun f w => kernel_rules f w.1) (fun f w => refusing w.1 f) true.

Lemma box_kernel o w : of_kernel o = true ->
  answer box o w = (let '(r, k) := answer kernel_router o w.1 in (r, (k, w.2))).
Proof. cbn. by intros ->. Qed.

#[export] Instance box_only_ip : OnlyIp box box_views.
Proof.
  intros o w w' r Hn E f. destruct (of_kernel o) eqn:Ek.
  - unfold of_kernel in Ek. rewrite Hn in Ek. cbn in Ek. destruct o; try done. cbn in E. by injection E as <- <-.
  - cbn [answer box] in E. rewrite Ek in E. assert (w'.1 = w.1) as Ew.
    { destruct o; try (by injection E as <- <-);
        match type of E with context [answer store_in_memory ?o ?s] => destruct (answer store_in_memory o s) as [r1 s1] end;
        by injection E as <- <-. }
    split; cbn; by rewrite Ew.
Qed.

(** Each law is the kernel's. *)
Ltac by_kernel law :=
  intros; match goal with H : answer box ?o ?w = _ |- _ =>
    rewrite box_kernel in H by reflexivity;
    destruct (answer kernel_router o w.1) as [r1 k1] eqn:E1; injection H as <- <-;
    first [exact (law _ _ _ _ E1) | exact (law _ _ _ E1) | exact (law _ _ _ _ _ E1) | exact (law _ _ _ _ _ _ E1)] end.

#[export] Instance box_rules : IpRules box box_views.
Proof.
  constructor.
  - by_kernel (ir_v6 kernel_router kernel_views).
  - by_kernel (ir_show kernel_router kernel_views).
  - intros f x w w' r Hx. by_kernel (fun w w' r => ir_add kernel_router kernel_views f x w w' r Hx).
  - by_kernel (ir_del kernel_router kernel_views).
  - by_kernel (ir_refuse kernel_router kernel_views).
  - by_kernel (ir_refusal kernel_router kernel_views).
  - by_kernel (ir_flush kernel_router kernel_views).
  - by_kernel (ir_route kernel_router kernel_views).
Qed.

Definition marking_doc : Document := with_routes two_rules Default.
Definition marking_world : kernel * gmap string string :=
  (damaged, {["/etc/veilbridge/config.json" := match MarshalIndent marking_doc with Ok b => b | Err _ => "" end]}).
Definition panel_network : networkManager := mkManager true true "/etc/config".
Definition the_routing : routingManager := mkRouting the_store (Some (lanDevices panel_network)) (Some Ensure).

Lemma asks_nft {W A} (h : router W) (p : prog A) w :
  existsb (fun x => negb (not_nft x.2)) (asked h p w) = true -> exists w' script, (w', RunNft script) ∈ asked h p w.
Proof. intros ([w' o] & Hin & Ho)%existsb_elem. cbn in Ho. destruct o; try discriminate Ho. eauto. Qed.

Lemma nothing_is_marked_before_the_refusal_witness :
  (exists w' script, (w', RunNft script) ∈ asked box (ApplyRouting the_routing) marking_world) /\
  forall w' script, (w', RunNft script) ∈ asked box (ApplyRouting the_routing) marking_world ->
  in_force box_views "-4" w'.
Proof.
  split; [|apply (nothing_is_marked_before_the_refusal box box_views "-4" the_store panel_network marking_world);
    [vm_compute; constructor|left; reflexivity]].
  apply asks_nft. vm_compute. reflexivity.
Defined.

(** ** Findings *)

(** Finding: a domain is printed as it was typed. [classify] refuses only an empty
    one, so a line break in it ends the comment it is printed in, and what follows is a
    command of the script nft runs as root. *)
Definition typed_domain : RuleBody :=
  mkRuleBody "domain" ("example.org" +:+ nl +:+ "flush ruleset" +:+ nl +:+ "#") "tunnel" "".

Theorem domain_adds_a_command :
  result store_in_memory (addRoute (mkRouting the_store None None) typed_domain) ∅ = inl (toRule typed_domain "rule-1") /\
  exists script, Render (mkGenerator ["br-lan"]) [toRule typed_domain "rule-1"] = Ok script /\
    "flush ruleset" ∈ Split "010" script.
Proof.
  split; [vm_compute; reflexivity|]. eexists. split; [reflexivity|].
  apply (bool_decide_unpack _). vm_compute. exact I.
Qed.

(** Two programs at once: [true] is a call of the first, [false] one of the second;
    when the schedule is over, the first goes on to its end, then the second. *)
Fixpoint together {A B} (schedule : list bool) (p : prog A) (q : prog B) : prog (A * B) :=
  match schedule with
  | [] => a <- p ;; b <- q ;; Ret (a, b)
  | true :: rest => match p with Ret _ => together rest p q | Do o k => Do o (fun r => together rest (k r) q) end
  | false :: rest => match q with Ret _ => together rest p q | Do o k => Do o (fun r => together rest p (k r)) end
  end.

(** Finding: [SetRules] reads the document and writes it back outside the lock that
    [Update] takes, so a device named in between is not named any more, though both
    requests report success. *)
Theorem setting_rules_undoes_a_name :
  let name := Update the_store (SetDeviceName "02:00:00:00:00:01" "phone") in
  let set := SetRules (mkRouting the_store None None) two_rules in
  let p := together (true :: replicate 20 false) set name in
  result store_in_memory p ∅ = (Ok tt, Ok tt) /\
  DocDevices <$> match result store_in_memory (LoadDocument the_store) (after store_in_memory p ∅) with
                 | Ok d => Some d | Err _ => None end = Some [].
Proof. vm_compute. by split. Qed.
