(* ===== verification/VpnManager.v ===== *)
(** * The nodes and the active tunnel: internal/adapters/openwrt/vpn.go, wiring.go

    The manager keeps the nodes in the daemon's configuration and drives one engine;
    what it runs is the node whose ID it keeps in [up], passed from call to call here.
    A call that holds the lock is one program. With [Adapter.Restore] and
    [defaultName] of wiring.go. *)

From S2P Require Import Prelude GoStrings Effects Config ConfigMem TunnelRoute AmneziaParse SelectiveRouting SelectiveRoutingThms.

Record NodeStatus := mkNodeStatus {
  StatusNodeID : string; StatusActive : bool; StatusHandshake : Z; StatusLastError : option err; StatusRx : Z; StatusTx : Z }.

(** ** The name of an imported node *)

Definition nameOf (text : string) : option string :=
  let line := TrimSpace text in
  if negb (HasPrefix "#" line) then None else
  match Cut "=" (TrimSpace (TrimPrefix "#" line)) with
  | Some (k, v) =>
      if EqualFold (TrimSpace k) "name" && nonempty (TrimSpace v) then Some (TrimSpace v) else None
  | None => None
  end.

Definition defaultName (raw : string) : string :=
  match omap nameOf (Scanner raw).1 with name :: _ => name | [] => "amneziawg-node" end.

Section Manager.
Context `{!DocumentCodec}.

(** The engine is a kernel engine, with an interface, or a userspace one; the router
    may be missing. *)
Record vpnManager := mkVpn { vmStore : Store; vmInterface : bool; vmRouter : bool }.

Context (m : vpnManager).

Definition nodeIndex (id : string) (d : Document) : option nat :=
  index_of (fun n => String.eqb (NodeID (Public n)) id) (Nodes d).

Definition notFound (id : string) : err := Errorf "openwrt: node %q not found" [id].

Definition ImportConfig (raw : string) : prog (res (list Node)) :=
  let* parsed := Parse (defaultName raw) raw in
  let sn := mkStored parsed.1 parsed.2 in
  let! doc := LoadDocument (vmStore m) in
  let nodes := match nodeIndex (NodeID parsed.1) doc with
               | Some i => <[i := sn]> (Nodes doc)
               | None => Nodes doc ++ [sn]
               end in
  let! _ := SaveDocument (vmStore m) (with_nodes nodes doc) in
  Ret (Ok [parsed.1]).

Definition ImportSubscription (url : string) : prog (res (list Node)) :=
  Ret (Err (Wrapf "openwrt: subscription import not implemented in v0.1: %w" [] ErrNotImplemented)).

Definition ListNodes : prog (res (list Node)) :=
  let! doc := LoadDocument (vmStore m) in Ret (Ok (PublicNodes doc)).

(** [m.router.Down()], its error dropped. *)
Definition unroute : prog unit := if vmRouter m then _ <- Down ;; Ret tt else Ret tt.

Definition stopEngine : prog unit := _ <- ask EngineDown ;; unroute.

Definition route (allowed : list string) : prog (res unit) :=
  if negb (vmRouter m) || negb (vmInterface m) then Ret (Ok tt) else
  name <- ask EngineTun ;;
  if negb (nonempty name) then Ret (Ok tt) else
  dev <- ask EngineTun ;;
  Up dev allowed.

Definition ensureRules : prog (res unit) :=
  if negb (vmInterface m) || negb (vmRouter m) then Ret (Ok tt) else Ensure.

Definition RemoveNode (up id : string) : prog (res unit * string) :=
  r <- LoadDocument (vmStore m) ;;
  match r with
  | Err e => Ret (Err e, up)
  | Ok doc =>
      match nodeIndex id doc with
      | None => Ret (Err (notFound id), up)
      | Some i =>
          up <- (if String.eqb up id then _ <- stopEngine ;; Ret "" else Ret up) ;;
          let s := DocSettings doc in
          let doc := if String.eqb (ActiveNodeID s) id then with_settings (with_active "" s) doc else doc in
          r <- SaveDocument (vmStore m) (with_nodes (take i (Nodes doc) ++ skipn (S i) (Nodes doc)) doc) ;;
          Ret (r, up)
      end
  end.

Definition choose (id : string) (d : Document) : Document * res unit :=
  (with_settings (with_active id (DocSettings d)) d, Ok tt).

Definition activateLocked (up id : string) : prog (res unit * string) :=
  r <- LoadDocument (vmStore m) ;;
  match r with
  | Err e => Ret (Err e, up)
  | Ok doc =>
      match nodeIndex id doc ≫= fun i => Nodes doc !! i with
      | None => Ret (Err (notFound id), up)
      | Some sn =>
          up <- (if nonempty up then _ <- stopEngine ;; Ret "" else Ret up) ;;
          let cfg := ToNodeConfig (NodeEndpoint (Public sn)) (Secret sn) in
          started <- ask (EngineUp cfg) ;;
          match started with
          | Err e => Ret (Err (Wrapf "openwrt: activate %q: %w" [id] e), up)
          | Ok _ =>
              routed <- route (ncAllowedIPs cfg) ;;
              match routed with
              | Err e =>
                  _ <- stopEngine ;;
                  Ret (Err (Wrapf "openwrt: activate %q: route the tunnel: %w" [id] e), up)
              | Ok _ => r <- Update (vmStore m) (choose id) ;; Ret (r, id)
              end
          end
      end
  end.

Definition Activate (up id : string) : prog (res unit * string) := activateLocked up id.

Definition StatusOf (up id : string) : prog (res NodeStatus) :=
  let! doc := LoadDocument (vmStore m) in
  match nodeIndex id doc with
  | None => Ret (Err (notFound id))
  | Some _ =>
      if String.eqb up id then
        s <- ask EngineStats ;;
        Ret (Ok (match s with
                 | Err e => mkNodeStatus id true (-1) (Some e) 0 0
                 | Ok s => mkNodeStatus id true (HandshakeAgeSec s) None (RxBytes s) (TxBytes s)
                 end))
      else Ret (Ok (mkNodeStatus id false (-1) None 0 0))
  end.

Definition activeTunName (up : string) : prog string :=
  if negb (nonempty up) || negb (vmInterface m) then Ret "" else ask EngineTun.

(** [Restore], with the node that is brought back in the background. *)
Definition RestoreTunnel : prog (res unit * option string) :=
  e <- (if vmInterface m && vmRouter m then
          r <- Ensure ;; Ret (wrapping "openwrt: tunnel rules: %w" [] r)
        else Ret (Ok tt)) ;;
  r <- LoadDocument (vmStore m) ;;
  match r with
  | Err le => Ret (JoinErrors (errs_of e ++ [le]), None)
  | Ok doc =>
      let id := ActiveNodeID (DocSettings doc) in
      Ret (e, if nonempty id then Some id else None)
  end.

(** Whether the work is done, its error, and [up]. *)
Definition bringBackOnce (up id : string) : prog (res bool * string) :=
  r <- LoadDocument (vmStore m) ;;
  match r with
  | Err e => Ret (Err e, up)
  | Ok doc =>
      if nonempty up || negb (String.eqb (ActiveNodeID (DocSettings doc)) id) then Ret (Ok true, up) else
      r <- activateLocked up id ;;
      Ret (match r.1 with Ok _ => Ok true | Err e => Err e end, r.2)
  end.

(** [bringBack], of which at most [n] attempts are seen. *)
Fixpoint bringBack (n : nat) (up id : string) : prog (bool * string) :=
  match n with
  | 0 => Ret (false, up)
  | S n =>
      r <- bringBackOnce up id ;;
      match r with
      | (Ok _, up) => Ret (true, up)
      | (Err _, up) =>
          _ <- ask (Say "tunnel: could not bring back node %s, retrying in %s: %v" [id; "30s"]) ;;
          bringBack n up id
      end
  end.

(** ** The whole adapter at start: [Adapter.Restore]

    The result, the node brought back in the background, and whether applying the
    rules is retried there. *)
Definition RestoreAdapter (lan : prog (res (list string))) : prog (res unit * option string * bool) :=
  t <- RestoreTunnel ;;
  r <- ApplyRouting (mkRouting (vmStore m) (Some lan) (Some ensureRules)) ;;
  let errs := errs_of t.1 ++ errs_of (wrapping "openwrt: routing rules (retrying in the background): %w" [] r) in
  Ret (JoinErrors errs, t.2, negb (is_ok r)).
End Manager.

(** ** One engine, one tunnel

    Whatever is asked of the manager of the nodes, in whatever order and whatever
    fails, the engine is never brought up twice, and it runs exactly when a node
    counts as active. *)


(** The engine as its calls and their answers tell: [true] is up. *)
Definition engineMay (running : bool) (o : op) : Prop :=
  match o with EngineUp _ => running = false | _ => True end.

Definition engineSaw (running : bool) (e : event) : bool :=
  match e with
  | Did o r =>
      match o return ans o -> bool with
      | EngineUp _ => fun r => is_ok r || running
      | EngineDown => fun _ => false
      | _ => fun _ => running
      end r
  end.

(** Calls that leave the engine alone. *)
Definition apart_from_engine (o : op) : Prop :=
  match o with EngineUp _ | EngineDown => False | _ => True end.

Lemma wp_apart {A} s (p : prog A) (Q : bool -> A -> Prop) :
  calls apart_from_engine p -> (forall a, Q s a) -> wp engineMay engineSaw s p Q.
Proof.
  intros Hc HQ. induction p as [a|o k IH]; [apply HQ|]. destruct Hc as [Ho Hk]. split; [by destruct o|].
  intros r. assert (engineSaw s (Did o r) = s) as -> by (by destruct o). by apply IH.
Qed.

Lemma apart_ask o : apart_from_engine o -> calls apart_from_engine (ask o).
Proof. by split. Qed.

Section Engine.
Context `{Codec : !DocumentCodec} (m : vpnManager).

Lemma LoadDocument_apart s : calls apart_from_engine (LoadDocument s).
Proof. split; [done|]. intros [b|e]; cbn; [|done]. repeat (break_match; try done). Qed.

Lemma closing_apart tmp fmt p : calls apart_from_engine p -> calls apart_from_engine (closing tmp fmt p).
Proof. intros Hp. apply calls_bind; [done|]. intros [u|e]; [done|]. by apply calls_bind; [apply apart_ask|]. Qed.

Lemma SaveDocument_apart s d : calls apart_from_engine (SaveDocument s d).
Proof.
  apply calls_try; [done|]. intros b. apply calls_try; [by split|]. intros u. apply calls_try; [by split|]. intros tmp.
  apply calls_bind; [|intros r; by apply calls_bind; [apply apart_ask|]]. unfold writeTemp.
  repeat first [apply calls_try; [first [apply closing_apart; by apply apart_ask|by split]|]; intros ?]. done.
Qed.

Lemma Update_apart s change : calls apart_from_engine (Update s change).
Proof.
  apply calls_try; [apply LoadDocument_apart|]. intros d. destruct (change d) as [d' [u|e]]; [apply SaveDocument_apart|done].
Qed.

Lemma unroute_apart : calls apart_from_engine (unroute m).
Proof.
  unfold unroute. destruct (vmRouter m); [|done]. apply calls_bind; [|done].
  apply calls_bind; [by apply flush_calls|done].
Qed.

Lemma route_apart allowed : calls apart_from_engine (route m allowed).
Proof.
  unfold route. destruct (_ || _); [done|]. split; [done|]. intros name. cbn. destruct (negb _); [done|].
  split; [done|]. intros dev. by apply Up_calls.
Qed.

Lemma ensureRules_apart : calls apart_from_engine (ensureRules m).
Proof. unfold ensureRules. destruct (_ || _); [done|]. by apply Ensure_calls. Qed.

Lemma stopEngine_wp s (Q : bool -> unit -> Prop) : Q false tt -> wp engineMay engineSaw s (stopEngine m) Q.
Proof.
  intros HQ. split; [done|]. intros r. cbn. apply wp_apart; [apply unroute_apart|]. by intros [].
Qed.

(** The engine runs exactly when [up] names a node. *)
Definition agrees {X} (running : bool) (r : X * string) : Prop := running = nonempty r.2.

Lemma activateLocked_wp up id : nonempty id = true ->
  wp engineMay engineSaw (nonempty up) (activateLocked m up id) agrees.
Proof.
  intros Hid. unfold activateLocked. apply wp_bind, wp_apart; [apply LoadDocument_apart|]. intros [doc|e]; [|done].
  destruct (nodeIndex id doc ≫= _) as [sn|]; [|done].
  eapply wp_seq with (R := fun s u => s = false /\ u = "").
  { destruct (nonempty up) eqn:E; [|by destruct up]. apply wp_bind, stopEngine_wp. done. }
  intros s u [-> ->]. split; [done|]. intros [[]|e]; cbn [engineSaw is_ok orb prog_bind]; [|done].
  apply wp_bind, wp_apart; [apply route_apart|]. intros [[]|e].
  - apply wp_bind, wp_apart; [apply Update_apart|]. intros r. unfold agrees. cbn. by rewrite Hid.
  - by apply wp_bind, stopEngine_wp.
Qed.

Lemma RemoveNode_wp up id : wp engineMay engineSaw (nonempty up) (RemoveNode m up id) agrees.
Proof.
  unfold RemoveNode. apply wp_bind, wp_apart; [apply LoadDocument_apart|]. intros [doc|e]; [|done].
  destruct (nodeIndex id doc) as [i|]; [|done].
  eapply wp_seq with (R := fun s u => s = nonempty u).
  { destruct (String.eqb up id); [|done]. by apply wp_bind, stopEngine_wp. }
  intros s u ->. apply wp_bind, wp_apart; [apply SaveDocument_apart|]. done.
Qed.

Lemma bringBackOnce_wp up id : nonempty id = true ->
  wp engineMay engineSaw (nonempty up) (bringBackOnce m up id) agrees.
Proof.
  intros Hid. unfold bringBackOnce. apply wp_bind, wp_apart; [apply LoadDocument_apart|]. intros [doc|e]; [|done].
  destruct (_ || _); [done|]. eapply wp_seq; [by apply activateLocked_wp|]. by intros s [r u] ->.
Qed.

Lemma bringBack_wp n up id : nonempty id = true ->
  wp engineMay engineSaw (nonempty up) (bringBack m n up id) agrees.
Proof.
  intros Hid. revert up. induction n as [|n IH]; intros up; [done|]. cbn [bringBack].
  eapply wp_seq; [by apply bringBackOnce_wp|]. intros s [[b|e] u] ->; [done|]. cbn. split; [done|]. intros r. apply IH.
Qed.

(** What may be asked of the manager while the daemon runs. *)
Inductive tunnelCall :=
| CallImport (raw : string)
| CallActivate (id : string)
| CallRemove (id : string)
| CallStatus (id : string)
| CallBringBack (attempts : nat) (id : string).

Definition namesNode (c : tunnelCall) : Prop :=
  match c with CallActivate id | CallBringBack _ id => nonempty id = true | _ => True end.

(** One call, from [up] to the next. *)
Definition tunnelStep (up : string) (c : tunnelCall) : prog string :=
  match c with
  | CallImport raw => _ <- ImportConfig m raw ;; Ret up
  | CallActivate id => prog_map snd (Activate m up id)
  | CallRemove id => prog_map snd (RemoveNode m up id)
  | CallStatus id => _ <- StatusOf m up id ;; Ret up
  | CallBringBack n id => prog_map snd (bringBack m n up id)
  end.

Fixpoint inTurn (up : string) (cs : list tunnelCall) : prog string :=
  match cs with [] => Ret up | c :: cs => up <- tunnelStep up c ;; inTurn up cs end.

Lemma prog_map_wp {A B} (g : A -> B) s (p : prog A) (Q : bool -> B -> Prop) :
  wp engineMay engineSaw s p (fun s a => Q s (g a)) -> wp engineMay engineSaw s (prog_map g p) Q.
Proof. intros H. by apply wp_bind. Qed.

Lemma tunnelStep_wp up c : namesNode c ->
  wp engineMay engineSaw (nonempty up) (tunnelStep up c) (fun s u => s = nonempty u).
Proof.
  destruct c as [raw|id|id|id|n id]; cbn [tunnelStep namesNode]; intros Hid.
  - apply wp_bind, wp_apart; [|done]. apply calls_try; [done|]. intros parsed.
    apply calls_try; [apply LoadDocument_apart|]. intros doc. apply calls_try; [apply SaveDocument_apart|done].
  - by apply prog_map_wp, activateLocked_wp.
  - by apply prog_map_wp, RemoveNode_wp.
  - apply wp_bind, wp_apart; [|done]. apply calls_try; [apply LoadDocument_apart|]. intros doc.
    destruct (nodeIndex id doc); [|done]. destruct (String.eqb up id); [|done]. by split.
  - by apply prog_map_wp, bringBack_wp.
Qed.

(** C35. One engine, one tunnel. Whatever is asked of the manager one after another -
    nodes imported, activated, removed, looked at, a node brought back by attempts of
    any number - and whatever fails on the way: the engine is never told to come up
    while it is up, and at the end it runs exactly when the manager counts a node as
    active. *)
Theorem engine_runs_exactly_when_a_node_is_active {W} (h : router W) (cs : list tunnelCall) (w : W) :
  Forall namesNode cs ->
  allowed engineMay engineSaw false (trace h (inTurn "" cs) w) /\
  observed engineSaw false (trace h (inTurn "" cs) w) = nonempty (result h (inTurn "" cs) w).
Proof.
  intros Hcs. apply (wp_sound engineMay engineSaw h (inTurn "" cs) false (fun s u => s = nonempty u)).
  change false with (nonempty ""). generalize "" as up. induction Hcs as [|c cs Hc _ IH]; intros up; [done|].
  cbn [inTurn]. eapply wp_seq; [by apply tunnelStep_wp|]. intros s u ->. apply IH.
Qed.
End Engine.

Definition userspace : vpnManager := mkVpn the_store false true.
Definition nl_config : string :=
  Join (String "010" "") ["[Interface]"; "PrivateKey = a"; "[Peer]"; "PublicKey = abc"; "Endpoint = 203.0.113.10:443"].
Definition some_calls : list tunnelCall :=
  [CallImport nl_config; CallActivate "ba7816bf8f01cfea"; CallActivate "ba7816bf8f01cfea"; CallRemove "nothing"].

Lemma engine_runs_exactly_when_a_node_is_active_witness :
  (allowed engineMay engineSaw false (trace store_in_memory (inTurn userspace "" some_calls) ∅) /\
   observed engineSaw false (trace store_in_memory (inTurn userspace "" some_calls) ∅) =
   nonempty (result store_in_memory (inTurn userspace "" some_calls) ∅)) /\
  result store_in_memory (inTurn userspace "" some_calls) ∅ = "ba7816bf8f01cfea".
Proof.
  split; [|vm_compute; reflexivity].
  apply (engine_runs_exactly_when_a_node_is_active userspace store_in_memory some_calls ∅).
  repeat apply Forall_cons_2; [exact I|reflexivity|reflexivity|exact I|apply Forall_nil_2].
Defined.
