(* ===== verification/Restore.v ===== *)
(** * The emergency restore: internal/adapters/openwrt/restore.go

    A command that puts back the panel's configuration files from a snapshot the apply
    transaction kept, with no panel running. What an archive holds is an argument (gzip
    and tar), and so is how a time is shown in the system's zone; what is printed is a
    call of its own ([Say]), where the text of an error is not kept. *)

From S2P Require Import Prelude GoStrings Apply Effects Network Uci Firewall Stage UciApplier.

Record RestoreOptions := mkRestoreOptions { List : bool; Point : string; Force : bool }.

Record restoredFile := mkRestored { rfData : string; rfMode : Z }.

Record restorePoint := mkPoint {
  ptID : string; ptTaken : string; ptFiles : gmap string restoredFile; ptDiffers : list string }.

(** One member of an archive, as tar lists it. *)
Record member := mkMember { mbName : string; mbRegular : bool; mbMode : Z; mbData : string }.

Record emergency := mkEmergency { eConfigDir : string; eApplier : uciApplier; eJournal : applyJournal }.

Definition newEmergency : emergency :=
  mkEmergency "/etc/config" newUCIApplier (mkApplyJournal "/etc/veilbridge/pending-apply.json").

Section Emergency.
Context `{!RecordCodec} (members : string -> res (list member)) (shownTaken : string -> string) (shownTime : Z -> string)
  (until : Z -> string).

Definition printf (format : string) (args : list string) : prog unit := ask (Say format args).

(** ** Reading the restore points *)

Definition readLimit := 1048576%Z.
Definition limited (d : string) : string :=
  if (Z.of_nat (String.length d) <=? readLimit)%Z then d else String.substring 0 (Z.to_nat readLimit) d.

Definition wantedMember (m : member) : option (string * restoredFile) :=
  let name := TrimPrefix "./" (mbName m) in
  if mbRegular m && contains ((fun c => "config/" +:+ c) <$> writtenConfigs) name
  then Some (TrimPrefix "config/" name, mkRestored (limited (mbData m)) (Z.land (mbMode m) 511))
  else None.

Definition readSnapshotFiles (file : string) : prog (res (gmap string restoredFile)) :=
  let! raw := ask (ReadFile file) in
  Ret (match members raw with
       | Err e => Err e
       | Ok ms => Ok (foldl (fun files kv => <[kv.1 := kv.2]> files) ∅ (omap wantedMember ms))
       end).

Fixpoint readCurrent (e : emergency) (configs : list string) : prog (gmap string string) :=
  match configs with
  | [] => Ret ∅
  | c :: configs =>
      r <- ask (ReadFile (in_dir (eConfigDir e) c)) ;;
      rest <- readCurrent e configs ;;
      Ret (match r with Ok b => <[c := b]> rest | Err _ => rest end)
  end.

Definition differs (files : gmap string restoredFile) (current : gmap string string) (c : string) : bool :=
  match files !! c, current !! c with
  | Some f, Some b => negb (String.eqb (rfData f) b)
  | None, None => false
  | _, _ => true
  end.

Fixpoint readPoints (e : emergency) (current : gmap string string) (names : list string) : prog (list restorePoint) :=
  match names with
  | [] => Ret []
  | name :: names =>
      let id := TrimSuffix ".tar.gz" name in
      r <- readSnapshotFiles (in_dir (snapshotDir (eApplier e)) name) ;;
      match r with
      | Err _ =>
          _ <- printf "warning: restore point %s is unreadable, skipped: %v" [id] ;;
          readPoints e current names
      | Ok files =>
          rest <- readPoints e current names ;;
          Ret (mkPoint id (shownTaken (TrimPrefix "uci-" id)) files
                 (filter (fun c => differs files current c = true) writtenConfigs) :: rest)
      end
  end.

Definition points (e : emergency) : prog (res (list restorePoint)) :=
  r <- ask (ReadDir (snapshotDir (eApplier e))) ;;
  match r with
  | Err er => Ret (if decide (er = ErrNotExist) then Ok [] else Err (Wrapf "read restore points: %w" [] er))
  | Ok entries =>
      let names := omap (fun '(n, dir) =>
        if negb dir && HasPrefix "uci-" n && HasSuffix ".tar.gz" n then Some n else None) entries in
      current <- readCurrent e writtenConfigs ;;
      ps <- readPoints e current (rev (sort_strings names)) ;;
      Ret (Ok ps)
  end.

(** ** The list *)

Fixpoint listEach (chosen : bool) (ps : list restorePoint) : prog bool :=
  match ps with
  | [] => Ret chosen
  | p :: ps =>
      let some := negb (bool_decide (ptDiffers p = [])) in
      _ <- printf "%s%s  %s  %s" [if negb chosen && some then "* " else "  "; ptID p; ptTaken p;
                                   if some then Join ", " (ptDiffers p) else "same as now"] ;;
      listEach (chosen || some) ps
  end.

Definition list_points (ps : list restorePoint) : prog unit :=
  match ps with
  | [] => printf "No restore points yet: the panel takes one before every change it applies." []
  | _ =>
      _ <- printf "Restore points, newest first (what differs from the settings now):" [] ;;
      chosen <- listEach false ps ;;
      if chosen then printf "* = what veilbridged -restore-network puts back" [] else Ret tt
  end.

(** ** Putting a point back *)

(** [filepath.Join] of the directory of [dir/c] and the name of the temporary file. *)
Definition tempOf (dir c : string) : string := in_dir dir ("." +:+ c +:+ ".vb-restore").

Definition writeAtomic (dir c data : string) (mode : Z) : prog (res unit) :=
  let mode := if (mode =? 0)%Z then 420%Z else mode in
  let tmp := tempOf dir c in
  let! _ := ask (WriteFile tmp data) in
  r <- ask (ChmodFile tmp mode) ;;
  match r with
  | Err e => _ <- ask (Remove tmp) ;; Ret (Err e)
  | Ok _ => ask (Rename tmp (in_dir dir c))
  end.

Fixpoint putBack (e : emergency) (p : restorePoint) (cs : list string) : prog (res unit) :=
  match cs with
  | [] => Ret (Ok tt)
  | c :: cs =>
      match ptFiles p !! c with
      | None => _ <- printf "  %s: not in the restore point, left as it is" [c] ;; putBack e p cs
      | Some f =>
          r <- writeAtomic (eConfigDir e) c (rfData f) (rfMode f) ;;
          match r with
          | Err er => Ret (Err (Wrapf "restore %s: %w" [c] er))
          | Ok _ => _ <- printf "  %s: restored" [c] ;; putBack e p cs
          end
      end
  end.

(** The pending change, when it must not be raced. *)
Definition waits (e : emergency) (force : bool) : prog (option ApplyRecord) :=
  r <- Load (eJournal e) ;;
  match r with
  | Err _ => _ <- printf "warning: %v" [] ;; Ret None
  | Ok (Some rec) => Ret (if force then None else Some rec)
  | Ok None => Ret None
  end.

(** The last point of that name, as the loop finds it; the newest that differs. *)
Definition choosePoint (opts : RestoreOptions) (ps : list restorePoint) : option restorePoint :=
  if nonempty (Point opts) then find_last (fun p => String.eqb (ptID p) (Point opts)) ps
  else find_first (fun p => negb (bool_decide (ptDiffers p = []))) ps.

(** From the choice on. *)
Definition restoreTo (e : emergency) (force : bool) (p : restorePoint) : prog (res unit) :=
  _ <- printf "Restoring %s from %s (taken %s)." [Join ", " (ptDiffers p); ptID p; ptTaken p] ;;
  s <- TakeSnapshot (eApplier e) ;;
  undo <- match s with
          | Err _ => _ <- printf "warning: could not keep the current settings as a restore point: %v" [] ;; Ret ""
          | Ok snap => Ret (ID snap)
          end ;;
  d <- dropStaged ;;
  _ <- match d with Err _ => printf "warning: %v" [] | Ok _ => Ret tt end ;;
  let! _ := putBack e p (ptDiffers p) in
  _ <- (if force then
          c <- Clear (eJournal e) ;;
          match c with
          | Err _ => printf "warning: %v" []
          | Ok _ => printf "The change that was waiting for confirmation is dropped; restart the panel: /etc/init.d/veilbridge restart" []
          end
        else Ret tt) ;;
  r <- runCommand ["/sbin/reload_config"] ;;
  match r with
  | Err _ =>
      _ <- printf "The files are back, but the services could not be told to reload (%v). Reboot to apply them: reboot" [] ;;
      Ret (Ok tt)
  | Ok _ =>
      _ <- printf "Done: the network service reloaded the restored settings." [] ;;
      _ <- (if nonempty undo then printf "To undo this: veilbridged -restore-point %s" [undo] else Ret tt) ;;
      Ret (Ok tt)
  end.

Definition restore (e : emergency) (opts : RestoreOptions) : prog (res unit) :=
  let! ps := points e in
  if List opts then _ <- list_points ps ;; Ret (Ok tt) else
  w <- waits e (Force opts) ;;
  match w with
  | Some rec =>
      _ <- printf "A change is waiting for confirmation. The device undoes it by itself at %s (in %s)"
             [shownTime (Deadline rec); until (Deadline rec)] ;;
      Ret (Err ErrChangePending)
  | None =>
      match choosePoint opts ps with
      | None =>
          if nonempty (Point opts) then
            _ <- list_points ps ;; Ret (Err (Errorf "no restore point %q (the list is above)" [Point opts]))
          else
            _ <- printf "Nothing to restore: the network settings are the same as before each of the last %d changes."
                   [Itoa (Z.of_nat (length ps))] ;;
            _ <- match ps with
                 | [] => printf "(There are no restore points yet: the panel takes one before every change it applies.)" []
                 | _ => Ret tt
                 end ;;
            Ret (Ok tt)
      | Some p =>
          if bool_decide (ptDiffers p = []) then
            _ <- printf "Nothing to restore: %s has the same network settings as now." [ptID p] ;; Ret (Ok tt)
          else restoreTo e (Force opts) p
      end
  end.
End Emergency.
