(* ===== verification/RestoreThms.v ===== *)
(** * What the emergency restore does to a router

    It never races a change that undoes itself, it writes the panel's three files and
    nothing else of the configuration, each whole or not at all, and what it reports as
    restored is what the restore point holds. *)

From S2P Require Import Prelude GoStrings Apply Effects Network Uci Firewall Stage UciApplier Device DeviceMem ConfigThms Restore.

(** ** What it may touch *)

Definition journalFile := "/etc/veilbridge/pending-apply.json".

Definition keptFile (f : string) : Prop :=
  HasPrefix "/etc/veilbridge/snapshots/" f = true \/ f = journalFile.
Definition temporaryFile (f : string) : Prop := exists c, c ∈ writtenConfigs /\ f = tempOf "/etc/config" c.

(** Reading anything but the journal, and speaking to the person. *)
Definition looking (o : op) : Prop :=
  match o with ReadFile f => f <> journalFile | ReadDir _ | Say _ _ => True | _ => False end.

(** What puts a point back, the renaming aside: the temporary files, the snapshots and
    the journal, and four commands. *)
Definition rescue (o : op) : Prop :=
  match o with
  | Exec argv => argv = ["tar"; "czf"; "-"; "-C"; "/etc"; "config"] \/ argv = ["uci"; "changes"] \/
      (exists pkg, argv = ["uci"; "revert"; pkg]) \/ argv = ["/sbin/reload_config"]
  | WriteFile f _ | Remove f => temporaryFile f \/ keptFile f
  | ChmodFile f _ => temporaryFile f
  | MkdirAll d => d = "/etc/veilbridge/snapshots"
  | ReadDir _ | Say _ _ | Now => True
  | _ => False
  end.

Section Restore.
Context `{Codec : !RecordCodec} (members : string -> res (list member)) (shownTaken : string -> string)
  (shownTime until : Z -> string).
Let e := newEmergency.

Lemma printf_calls (P : op -> Prop) fmt args : (forall f a, P (Say f a)) -> calls P (printf fmt args).
Proof. intros HP. by split. Qed.

Lemma readCurrent_looking cs : calls looking (readCurrent e cs).
Proof. induction cs as [|c cs IH]; [done|]. split; [done|]. intros r. cbn. by apply calls_bind. Qed.

Lemma readPoints_looking current names : calls looking (readPoints members shownTaken e current names).
Proof.
  induction names as [|n names IH]; [done|]. cbn [readPoints]. apply calls_bind.
  - by apply calls_try; [split|].
  - intros [files|er]; [by apply calls_bind|]. apply calls_bind; [by apply printf_calls|]. intros ?. exact IH.
Qed.

Lemma points_looking : calls looking (points members shownTaken e).
Proof.
  unfold points. apply calls_bind; [by split|]. intros [entries|er]; [|done]. apply calls_bind; [apply readCurrent_looking|].
  intros current. apply calls_bind; [apply readPoints_looking|done].
Qed.

Lemma list_looking ps : calls looking (list_points ps).
Proof.
  destruct ps as [|p ps]; [by apply printf_calls|]. unfold list_points. apply calls_bind; [by apply printf_calls|]. intros ?.
  apply calls_bind; [|by intros [|]; [apply printf_calls|]]. generalize (p :: ps) as l, false as b. clear.
  induction l as [|p l IH]; intros b; [done|]. cbn [listEach]. apply calls_bind; [by apply printf_calls|]. intros ?. apply IH.
Qed.

(** *** Putting a point back *)

Lemma prune_rescue : calls rescue (prune newUCIApplier).
Proof.
  apply calls_try; [by split|]. intros entries.
  cbn zeta. case_decide; [done|].
  match goal with |- calls _ (removeOld _ ?l) => generalize l end. intros l. induction l as [|n l IH]; [done|].
  split; [|by intros [[]|er]]. right. left. by apply (HasPrefix_app "/etc/veilbridge/snapshots/").
Qed.

Lemma persist_rescue t t' payload : calls rescue (persist newUCIApplier (mkSnapshot (snapshotID t) t' payload)).
Proof.
  apply calls_try; [by split|]. intros []. cbn zeta. destruct (unsafeId _); [done|].
  apply calls_try; [|intros []; apply prune_rescue]. split; [|done].
  right. left. by apply (HasPrefix_app "/etc/veilbridge/snapshots/").
Qed.

Lemma TakeSnapshot_rescue : calls rescue (TakeSnapshot newUCIApplier).
Proof.
  apply calls_try; [apply calls_bind; [split; [by left|done]|done]|]. intros payload.
  destruct (negb (nonempty payload)); [done|].
  apply (calls_bind _ (ask Now)); [done|]. intros t1. apply (calls_bind _ (ask Now)); [done|]. intros t2.
  apply (calls_bind _ (persist _ _)); [apply persist_rescue|done].
Qed.

Lemma dropStaged_rescue : calls rescue dropStaged.
Proof.
  apply calls_try; [apply calls_bind; [split; [right; by left|done]|done]|]. intros out.
  generalize (stagedPackages out). intros l. induction l as [|pkg l IH]; [done|]. cbn [dropPackages].
  apply calls_bind; [split; [right; right; left; by exists pkg|done]|]. by intros [u|er].
Qed.

(** ** What is heard while it runs

    The observer hears the journal - whether it names a pending change -, the files read,
    and what the files written whole hold. *)

Definition pendingIn (r : res string) : bool :=
  match r with
  | Ok d => match Unmarshal d with Ok rec => nonempty (SnapshotID rec) | Err _ => false end
  | Err _ => false
  end.

Record heard := mkHeard { hPending : option bool; hFiles : list string; hHeld : gmap string string }.

Definition saw (s : heard) (ev : event) : heard :=
  match ev with
  | Did o r =>
      match o return ans o -> heard with
      | ReadFile f => fun r =>
          mkHeard (if String.eqb f journalFile then Some (pendingIn r) else hPending s)
            (match r with Ok d => d :: hFiles s | Err _ => hFiles s end) (hHeld s)
      | WriteFile f d => fun r =>
          mkHeard (hPending s) (hFiles s) (match r with Ok _ => <[f := d]> (hHeld s) | Err _ => delete f (hHeld s) end)
      | Remove f | Rename f _ => fun _ => mkHeard (hPending s) (hFiles s) (delete f (hHeld s))
      | _ => fun _ => s
      end r
  end.

(** The text of the configuration [c] in an archive that was read. *)
Definition inPoint (s : heard) (c d : string) : Prop :=
  exists raw ms m f, raw ∈ hFiles s /\ members raw = Ok ms /\ m ∈ ms /\ wantedMember m = Some (c, f) /\ rfData f = d.

Definition may (force : bool) (s : heard) (o : op) : Prop :=
  looking o \/ o = ReadFile journalFile \/
  ((force = true \/ hPending s = Some false) /\
    (rescue o \/ exists c d, c ∈ writtenConfigs /\ o = Rename (tempOf "/etc/config" c) (in_dir "/etc/config" c) /\
       hHeld s !! tempOf "/etc/config" c = Some d /\ inPoint s c d)).

(** What happened since: more was read. *)
Definition later (s s' : heard) : Prop := hPending s' = hPending s /\ hFiles s ⊆ hFiles s'.

#[local] Instance later_refl : Reflexive later.
Proof. by split. Qed.
#[local] Instance later_trans : Transitive later.
Proof. intros x y z [H1 H2] [H3 H4]. split; [congruence|set_solver]. Qed.

Ltac chain := cbn [wp]; eauto 7 using later_trans.

Lemma inPoint_later s s' c d : later s s' -> inPoint s c d -> inPoint s' c d.
Proof. intros [_ Hf] (raw & ms & m & f & Hraw & ?). exists raw, ms, m, f. split; [by apply Hf|done]. Qed.

Lemma wp_looking force s {A} (p : prog A) (Q : heard -> A -> Prop) :
  calls looking p -> (forall s' a, later s s' -> Q s' a) -> wp (may force) saw s p Q.
Proof.
  revert s. induction p as [a|o k IH]; intros s Hc HQ; [by apply HQ|]. destruct Hc as [Ho Hk]. split; [by left|]. intros r.
  apply IH; [apply Hk|]. intros s' a Hs. apply HQ. etrans; [|exact Hs].
  destruct o; try done. cbn in *. apply String.eqb_neq in Ho as ->. split; [done|]. destruct r; cbn; set_solver.
Qed.

Lemma wp_rescue force s {A} (p : prog A) (Q : heard -> A -> Prop) :
  calls rescue p -> force = true \/ hPending s = Some false -> (forall s' a, later s s' -> Q s' a) ->
  wp (may force) saw s p Q.
Proof.
  revert s. induction p as [a|o k IH]; intros s Hc Hs HQ; [by apply HQ|]. destruct Hc as [Ho Hk].
  split; [right; right; split; [done|by left]|]. intros r.
  assert (later s (saw s (Did o r))) as Hl by (destruct o; try done; by split).
  apply IH; [apply Hk| |].
  - destruct Hl as [-> _]. done.
  - intros s' a Hs'. apply HQ. by etrans.
Qed.

Lemma writeAtomic_wp force s c d mode : c ∈ writtenConfigs -> inPoint s c d -> force = true \/ hPending s = Some false ->
  wp (may force) saw s (writeAtomic "/etc/config" c d mode) (fun s' _ => later s s').
Proof.
  intros Hc Hd Hs. assert (temporaryFile (tempOf "/etc/config" c)) by by exists c.
  unfold writeAtomic, try_bind. apply wp_bind. split; [right; right; split; [done|by left; left]|].
  intros [[]|er]; [|by split]. apply wp_bind. split; [right; right; split; [done|by left]|].
  intros [[]|er].
  - split; [|intros r; by split]. right. right. split; [done|]. right. exists c, d. split_and!; [done..| |].
    + apply lookup_insert_eq.
    + eapply inPoint_later; [|exact Hd]. by split.
  - apply wp_bind. split; [|intros r; by split]. right. right. split; [done|by left; left].
Qed.

(** A point's files were in an archive that was read. *)
Definition read_in (s : heard) (p : restorePoint) : Prop :=
  (forall c, c ∈ ptDiffers p -> c ∈ writtenConfigs) /\
  (forall c f, ptFiles p !! c = Some f -> inPoint s c (rfData f)).

Lemma read_in_later s s' p : later s s' -> read_in s p -> read_in s' p.
Proof. intros Hl [H1 H2]. split; [done|]. intros c f Hc. eapply inPoint_later; [done|by apply H2]. Qed.

Lemma putBack_wp force s p cs : (forall c, c ∈ cs -> c ∈ writtenConfigs) ->
  (forall c f, ptFiles p !! c = Some f -> inPoint s c (rfData f)) -> force = true \/ hPending s = Some false ->
  wp (may force) saw s (putBack e p cs) (fun s' _ => later s s').
Proof.
  revert s. induction cs as [|c cs IH]; intros s Hcs Hp Hs; [by cbn|]. cbn [putBack].
  assert (forall s', later s s' -> wp (may force) saw s' (putBack e p cs) (fun s' _ => later s s')) as Hrest.
  { intros s' Hl. eapply wp_mono; [apply IH|intros s2 a H2; by etrans].
    - intros; apply Hcs; by right.
    - intros; eapply inPoint_later; [done|by apply Hp].
    - destruct Hl as [-> _]. done. }
  destruct (ptFiles p !! c) as [f|] eqn:Ef.
  - eapply wp_seq; [apply writeAtomic_wp; [apply Hcs; left|by apply Hp|done]|]. intros s' [u|er] Hl; [|done].
    apply wp_bind, wp_looking; [by apply printf_calls|]. intros s2 ? H2. apply Hrest. by etrans.
  - apply wp_bind, wp_looking; [by apply printf_calls|]. intros s2 ? H2. by apply Hrest.
Qed.

Ltac speaks := apply wp_bind, wp_looking; [by apply printf_calls|intros ?s ? ?].

Lemma restoreTo_wp force s p : read_in s p -> force = true \/ hPending s = Some false ->
  wp (may force) saw s (restoreTo e force p) (fun s' _ => hPending s' = hPending s).
Proof.
  intros Hp Hs. enough (wp (may force) saw s (restoreTo e force p) (fun s' _ => later s s')) as He
    by (eapply wp_mono; [exact He|by intros s' a []]).
  assert (forall s', later s s' -> force = true \/ hPending s' = Some false) as Hs' by (by intros s' [-> _]).
  unfold restoreTo. apply wp_bind, wp_looking; [by apply printf_calls|]. intros s1 _ L1.
  apply wp_bind, wp_rescue; [apply TakeSnapshot_rescue|by apply Hs'|]. intros s2 r L2.
  apply wp_bind, wp_looking; [destruct r; [done|by apply calls_bind; [apply printf_calls|]]|]. intros s3 undo L3.
  apply wp_bind, wp_rescue; [apply dropStaged_rescue|apply Hs'; chain|]. intros s4 d L4.
  apply wp_bind, wp_looking; [destruct d; [done|by apply printf_calls]|]. intros s5 ? L5.
  assert (later s s5) as L by (chain). clear L1 L2 L3 L4 L5.
  unfold try_bind. eapply wp_seq.
  { apply putBack_wp; [apply Hp| |by apply Hs']. intros c f Hc. eapply inPoint_later; [exact L|by apply Hp]. }
  intros s6 [u|er] L6; [|chain]. apply wp_bind, wp_rescue; [|apply Hs'; chain|].
  { destruct force; [|done]. apply calls_bind; [split; [right; by right|]|by intros [u'|er]; split].
    intros [u'|er]; cbn; [done|]. by case_decide. }
  intros s7 ? L7. apply wp_bind, wp_rescue; [split; [by repeat right|done]|apply Hs'; chain|].
  assert (later s s7) as L' by (chain).
  intros s8 [out|er] L8.
  - speaks. apply wp_bind, wp_looking; [destruct (nonempty undo); [by apply printf_calls|done]|].
    intros s9 ? L9. chain.
  - speaks. chain.
Qed.

Lemma choosePoint_in opts ps p : choosePoint opts ps = Some p -> p ∈ ps.
Proof. unfold choosePoint. destruct (nonempty _); [by intros []%find_last_Some|by intros []%find_first_Some]. Qed.

Lemma waits_wp force s :
  wp (may force) saw s (waits e force) (fun s' w => hFiles s ⊆ hFiles s' /\
    match w with
    | Some _ => force = false /\ hPending s' = Some true
    | None => force = true \/ hPending s' = Some false
    end).
Proof.
  unfold waits, Load. split; [right; by left|]. intros r. cbn [saw].
  change (String.eqb (path (eJournal e)) journalFile) with true. cbn [prog_bind].
  assert (hFiles s ⊆ match r with Ok d => d :: hFiles s | Err _ => hFiles s end) as Hsub by (destruct r; set_solver).
  destruct r as [d|er]; cbn [pendingIn].
  - destruct (Unmarshal d) as [rec|er] eqn:Eu.
    2: { split; [by left|]. intros r. by split; [|right]. }
    cbn [hFiles hPending]. destruct (nonempty (SnapshotID rec)) eqn:En; cbn [negb].
    + cbn. destruct force; (split; [done|]); [by left|done].
    + split; [by left|]. intros r. split; [done|by right].
  - case_decide; cbn; [split; [done|by right]|]. split; [by left|]. intros r. split; [done|by right].
Qed.

Lemma foldl_insert_from (l : list (string * restoredFile)) (m : gmap string restoredFile) c f :
  foldl (fun files kv => <[kv.1 := kv.2]> files) m l !! c = Some f -> (c, f) ∈ l \/ m !! c = Some f.
Proof.
  revert m. induction l as [|[k v] l IH]; intros m; cbn; [by right|]. intros [Hin|Hm]%IH; [left; by right|].
  apply lookup_insert_Some in Hm as [[-> ->]|[_ Hm]]; [left; left|by right].
Qed.

Lemma readPoints_wp force s current names : Forall (fun n => HasPrefix "uci-" n = true) names ->
  wp (may force) saw s (readPoints members shownTaken e current names)
    (fun s' ps => later s s' /\ forall q, q ∈ ps -> read_in s' q).
Proof.
  revert s. induction names as [|n names IH]; intros s Hn; [by split; [|intros q ?%not_elem_of_nil]|]. cbn [readPoints].
  inversion_clear Hn as [|? ? _ Hns]. apply wp_bind. unfold readSnapshotFiles, try_bind. apply wp_bind.
  assert (in_dir (snapshotDir (eApplier e)) n <> journalFile) as Hj by done.
  split; [by left|]. intros r. cbn [saw]. rewrite (proj2 (String.eqb_neq _ _) Hj).
  destruct r as [raw|er].
  - cbn [wp]. destruct (members raw) as [ms|er] eqn:Em.
    + eapply wp_seq; [by apply IH|]. intros s' rest [L Hr]. split; [etrans; [|exact L]; split; cbn; set_solver|].
      intros q [->|Hq]%elem_of_cons; [|by apply Hr]. split; cbn [ptDiffers ptFiles].
      * by intros c [_ Hc]%list_elem_of_filter.
      * intros c f [Hin|?]%foldl_insert_from; [|by rewrite lookup_empty in *].
        apply list_elem_of_omap in Hin as (m & Hm & Hw). eapply inPoint_later; [exact L|].
        exists raw, ms, m, f. split_and!; [left|done..].
    + apply wp_bind, wp_looking; [by apply printf_calls|]. intros s2 ? L2. eapply wp_mono; [by apply IH|].
      intros s3 ps [L3 H3]. split; [|done]. etrans; [|exact L3]. etrans; [|exact L2]. split; cbn; set_solver.
  - apply wp_bind, wp_looking; [by apply printf_calls|]. intros s2 ? L2. eapply wp_mono; [by apply IH|].
    intros s3 ps [L3 H3]. split; [|done]. etrans; [|exact L3]. etrans; [|exact L2]. by split.
Qed.

Lemma points_wp force s :
  wp (may force) saw s (points members shownTaken e)
    (fun s' r => later s s' /\ forall ps, r = Ok ps -> forall q, q ∈ ps -> read_in s' q).
Proof.
  unfold points. apply wp_bind, wp_looking; [by split|]. intros s1 [entries|er] L1.
  - apply wp_bind, wp_looking; [apply readCurrent_looking|]. intros s2 current L2.
    eapply wp_seq; [apply readPoints_wp|].
    { rewrite Forall_forall. intros n Hn. rewrite list_elem_of_In, <- in_rev, <- list_elem_of_In, sort_strings_elem, list_elem_of_omap in Hn.
      destruct Hn as ([n' d] & _ & Hn). break_in Hn. bool_to_prop. by bool_to_prop. }
    intros s3 ps [L3 Hps]. split; [chain|]. by intros ps' [= <-].
  - split; [done|]. intros ps. case_decide; [|done]. intros [= <-]. by intros q ?%not_elem_of_nil.
Qed.

End Restore.

(** ** A router in memory

    One archive of a restore point, and a configuration that has changed since: without a
    journal the old text comes back, and while a change waits nothing is touched. *)

(** An archive is the encoding of a map; each entry is a regular member of mode 600. *)
Definition members_in_memory (raw : string) : res (list member) :=
  match unpacked raw with
  | Some c => Ok ((fun '(n, d) => mkMember ("config/" +:+ n) true 384 d) <$> map_to_list c)
  | None => refused
  end.

(** The files of DeviceMem.v, with modes that can be set. *)
Definition rescued : router World :=
  mkRouter World (fun o w =>
    match o return ans o * World with
    | ChmodFile _ _ => (Ok tt, w)
    | o => answer in_memory o w
    end).

Definition stuck_files : gmap string string :=
  {["/etc/veilbridge/snapshots/uci-20260101T000000Z.tar.gz" := pack {["network" := "old"; "wireless" := "w"]};
    "/etc/config/network" := "new"; "/etc/config/wireless" := "w2"]}.
Definition stuck_world : World := mkWorld ∅ ∅ stuck_files [] 0.
Definition waiting_world : World :=
  with_files (<[journalFile := bits (encode ("uci-2", "token", 7%Z))]> stuck_files) stuck_world.

Definition newest_differing : RestoreOptions := mkRestoreOptions false "" false.
Definition the_restore := restore members_in_memory (fun s => s) Itoa Itoa newEmergency newest_differing.

