(* ===== verification/Api.v ===== *)
(** * The web interface and the transaction: internal/api/server.go and wifi.go

    The handlers that change the router, over the coordinator's state [c] and the world
    [w] of the router. One call of the coordinator holds its lock, so it is one step; a
    handler is its steps in order. The adapter is OpenWrt's, which offers every optional
    interface (wiring.go has the compile-time guarantees), so the answers 501 to a missing
    one are not here. *)

From S2P Require Import Prelude GoStrings GoNet Apply Effects Network Uci Firewall Stage StagedChanges Lan FirewallWrite FirewallRules UciApplier.
From S2P Require Import RoutesWrite Schedule Devices DeviceSources DeviceLimits WiFi WiFiGuest GuestWrite Http.

(** ** The answers *)

Definition waiting : httpError := plainly 409 "a change is already waiting for confirmation".
Definition otherChanges : httpError := plainly 409 "other changes are waiting in the draft: apply or discard them first".

Record ChangesOutput := mkChanges { outChanges : list ConfigChange; outDangerous : bool }.

Definition changesOutput (changes : list ConfigChange) : ChangesOutput :=
  mkChanges changes (existsb Dangerous changes).

Definition refusal (e : err) : httpError :=
  if Is e errGuestDraftPending then showing 409 e
  else if Is e errDraftUnreadable then because 502 "the draft could not be read" e
  else
    match AsField e with
    | Some field => mkHttpError 400 (Reason e) None (Some ("body." +:+ field))
    | None => mkHttpError 400 (Reason e) None None
    end.

Definition stagedOr (what : string) (r : res (list ConfigChange)) : ChangesOutput + httpError :=
  match r with
  | Ok changes => inl (changesOutput changes)
  | Err e =>
      inr (if Is e ErrNotImplemented then because 501 what e
           else if Is e ErrNoLAN then because 404 "no lan interface" e
           else refusal e)
  end.

Definition wanAnswer (r : res (list ConfigChange)) : ChangesOutput + httpError :=
  match r with
  | Ok changes => inl (changesOutput changes)
  | Err e => inr (if Is e ErrNotImplemented then because 501 "staging" e else refusal e)
  end.

Definition wifiError (what : string) (e : err) : httpError :=
  if Is e errGuestDraftPending then showing 409 e
  else if Is e errDraftUnreadable then because 502 "the draft could not be read" e
  else if Is e ErrNoWiFi then because 404 "no radio on this device" e
  else if Is e ErrNotImplemented then because 501 what e
  else
    match AsField e with
    | Some _ => refusal e
    | None => mkHttpError 404 (Reason e) None None
    end.

Definition wifiAnswer (what : string) (r : res (list ConfigChange)) : ChangesOutput + httpError :=
  match r with Ok changes => inl (changesOutput changes) | Err e => inr (wifiError what e) end.

Definition guestAnswer (what : string) (r : res (list ConfigChange)) : ChangesOutput + httpError :=
  match r with
  | Ok changes => inl (changesOutput changes)
  | Err e =>
      inr (if Is e ErrApplyInFlight then waiting
           else if Is e errDraftUnreadable then because 502 "the draft could not be read" e
           else if Is e ErrDraftNotEmpty then otherChanges
           else if Is e ErrGuestExists then because 409 "there is a guest network already" e
           else if Is e ErrGuestBlocked then because 422 "guests could not be kept from the home network here" e
           else if Is e ErrNoGuest then because 404 "there is no guest network" e
           else wifiError what e)
  end.

(** The applied changes of [setWiFiAccess], the ones its closure left. *)
Definition accessAnswer (changes : list ConfigChange) (e : option err) : list ConfigChange + httpError :=
  match e with
  | None => inl changes
  | Some e =>
      if Is e errNothingToApply then inl []
      else if Is e ErrApplyInFlight then inr waiting
      else if Is e ErrDraftNotEmpty then inr otherChanges
      else if bool_decide (is_Some (AsField e)) || Is e ErrNoWiFi || Is e ErrNotImplemented
      then inr (wifiError "changing the Wi-Fi network" e)
      else inr (showing 500 e)
  end.

Definition guestLabelKey := "wireless.guest.section".
Definition guestDraftPending (staged : list ConfigChange) : bool :=
  existsb (fun c => String.eqb (LabelKey c) guestLabelKey) staged.

(** ** The handlers *)
Section Handlers.
Context {W : Type} (h : router W) (applier : ConfigApplier W) (seams : Seams W).
Context (rng : forall A : Type, gmap string A -> list (string * A)) (before : string -> string -> bool).
Context (m : networkManager) (bus : bool).

Abbreviation Coord := (ApplyCoordinator W).
Definition handler (A : Type) : Type := Coord -> W -> Coord * W * (A + httpError).

Definition wifi : wifiManager := mkWifiManager m bus.
Definition device : deviceManager := mkDeviceManager m bus "".

(** *** The transaction *)

Definition maxApplyTimeout : Z := (600 * Second)%Z.

(** What [POST /apply] asks for, in seconds. *)
Definition applyTimeout (timeoutSeconds : Z) : Z :=
  Z.min (if (0 <? timeoutSeconds)%Z then wrap64 (timeoutSeconds * Second) else DefaultApplyWindow) maxApplyTimeout.

Definition answered (inFlight : list err) (out : ApplyState * option err) : ApplyState + httpError :=
  match out.2 with
  | None => inl out.1
  | Some e => inr (if existsb (Is e) inFlight then showing 409 e else showing 500 e)
  end.

Definition applyConfig (timeoutSeconds : Z) : handler ApplyState := fun c w =>
  let '(c, w, out) := Apply applier seams (applyTimeout timeoutSeconds) c w in
  (c, w, answered [ErrApplyInFlight] out).

Definition confirmApply (tok : string) : handler ApplyState := fun c w =>
  let '(c, w, out) := Confirm seams tok c w in (c, w, answered [ErrNoApplyInFlight; ErrWrongToken] out).

Definition revertApply : handler ApplyState := fun c w =>
  let '(c, w, out) := Revert applier seams c w in (c, w, answered [ErrNoApplyInFlight] out).

Definition applyState : handler ApplyState := fun c w => (c, w, inl (State c)).

(** *** Staging *)

Definition refuseWhileApplying (c : Coord) : option httpError :=
  if decide (stPhase (State c) = PhaseAwaitingConfirm) then Some waiting else None.

(** What runs under the lock: the changes its closure leaves are the result. *)
Definition guarded (fn : prog (res (list ConfigChange))) : prog (res (list ConfigChange)) :=
  staged <- StagedChanges before m ;;
  match staged with
  | Err e => if negb (Is e ErrNotImplemented) then Ret (Err (WrapBoth errDraftUnreadable e)) else fn
  | Ok changes => if guestDraftPending changes then Ret (Err errGuestDraftPending) else fn
  end.

Definition forget {A} (p : prog (res A)) : prog (res unit) :=
  r <- p ;; Ret (match r with Ok _ => Ok tt | Err e => Err e end).

Definition lockedStage (fn : prog (res (list ConfigChange))) (c : Coord) (w : W) : Coord * W * res (list ConfigChange) :=
  let '(c, w', e) := Exclusive (run_off h (forget (guarded fn))) c w in
  (c, w', match e with Some e => Err e | None => result h (guarded fn) w end).

Definition editing (answer : res (list ConfigChange) -> ChangesOutput + httpError) (fn : prog (res (list ConfigChange)))
    : handler ChangesOutput := fun c w =>
  match refuseWhileApplying c with
  | Some e => (c, w, inr e)
  | None => let '(c, w, r) := lockedStage fn c w in (c, w, answer r)
  end.

Definition stageWAN (cfg : WANConfig) := editing wanAnswer (StageWAN m cfg).
Definition stageLAN (cfg : LANConfig) := editing (stagedOr "staging the local network") (StageLAN m cfg).
Definition stageHandout (cfg : HandoutConfig) := editing (stagedOr "staging the address handout") (StageHandout m cfg).
Definition stageReservation (cfg : ReservationConfig) :=
  editing (stagedOr "staging a reserved address") (StageReservation m cfg).
Definition removeReservation (eid : string) :=
  editing (stagedOr "staging the removal of a reserved address") (RemoveReservation m eid).
Definition stagePortForward (cfg : PortForwardConfig) :=
  editing (stagedOr "staging a port forward") (StagePortForward m cfg).
Definition removePortForward (eid : string) := editing (stagedOr "removing a port forward") (RemovePortForward m eid).
Definition stageFirewallRule (toFirst : bool) (cfg : FirewallRuleConfig) :=
  editing (stagedOr "staging a firewall rule") (StageRule m toFirst cfg).
Definition removeFirewallRule (eid : string) := editing (stagedOr "removing a firewall rule") (RemoveRule m eid).
Definition moveFirewallRule (eid before_ : string) := editing (stagedOr "moving a firewall rule") (MoveRule m eid before_).
Definition stageStaticRoute (cfg : StaticRouteConfig) := editing (stagedOr "staging a static route") (StageStaticRoute m cfg).
Definition removeStaticRoute (rid : string) := editing (stagedOr "removing a static route") (RemoveStaticRoute m rid).

Definition stageWiFiRadio (rid : string) (cfg : RadioConfig) := editing (wifiAnswer "staging a radio") (StageRadio wifi rid cfg).
Definition stageWiFiCountry (country : string) := editing (wifiAnswer "staging the Wi-Fi country") (StageCountry wifi country).

(** *** Devices: internal/api/devices.go *)

Definition pathMAC (raw : string) : string + httpError :=
  match NormalizeMAC raw with
  | Ok mac => inl mac
  | Err e => inr (mkHttpError 400 (ErrorText e) None (Some "path.mac"))
  end.

Definition stageDeviceInternet (raw : string) (allowed : bool) : handler ChangesOutput := fun c w =>
  match pathMAC raw with
  | inr e => (c, w, inr e)
  | inl mac => editing (stagedOr "staging a device's internet") (StageDeviceInternet device mac allowed) c w
  end.

Definition schedule (raw : string) (want : option InternetSchedule) : handler ChangesOutput := fun c w =>
  match pathMAC raw with
  | inr e => (c, w, inr e)
  | inl mac => editing (stagedOr "staging a device's internet schedule") (StageDeviceSchedule device mac want) c w
  end.
Definition stageDeviceSchedule (raw : string) (want : InternetSchedule) := schedule raw (Some want).
Definition removeDeviceSchedule (raw : string) := schedule raw None.

(** *** The guest network *)

Definition onEmptyDraft (fn : prog (res (list ConfigChange))) : prog (res (list ConfigChange)) :=
  staged <- StagedChanges before m ;;
  match staged with
  | Err e => Ret (Err (WrapBoth errDraftUnreadable e))
  | Ok (_ :: _) => Ret (Err ErrDraftNotEmpty)
  | Ok [] => fn
  end.

(** [s.stageGuest]. *)
Definition guestEdit (what : string) (fn : prog (res (list ConfigChange))) : handler ChangesOutput := fun c w =>
  let p := onEmptyDraft fn in
  let '(c, w', e) := Apply.Stage (run_off h (forget p)) c w in
  (c, w', guestAnswer what (match e with Some e => Err e | None => result h p w end)).

Definition stageWiFiGuest (cfg : GuestConfig) := guestEdit "making the guest network" (StageGuest rng before wifi cfg).
Definition stageWiFiGuestEnabled (enabled : bool) :=
  guestEdit "turning the guest network on or off" (StageGuestEnabled before wifi enabled).
Definition removeWiFiGuest := guestEdit "removing the guest network" (StageGuestRemove before wifi).

(** *** A network's name and password, applied at once *)

Definition access (sid : string) (cfg : AccessConfig) : prog (res (list ConfigChange)) :=
  staged <- StagedChanges before m ;;
  match staged with
  | Ok (_ :: _) => Ret (Err ErrDraftNotEmpty)
  | _ =>
      let! changes := StageAccess wifi sid cfg in
      Ret (match changes with [] => Err errNothingToApply | _ => Ok changes end)
  end.

Definition setWiFiAccess (sid : string) (cfg : AccessConfig) : handler (list ConfigChange) := fun c w =>
  let p := access sid cfg in
  let '(c, w', out) := ApplyNow applier (run_off h (forget p)) c w in
  (c, w', accessAnswer (match result h p w with Ok changes => changes | Err _ => [] end) out.2).

(** *** The draft *)

Definition stagedChanges : handler ChangesOutput := fun c w =>
  (c, after h (StagedChanges before m) w,
   match result h (StagedChanges before m) w with
   | Ok changes => inl (changesOutput changes)
   | Err e => if Is e ErrNotImplemented then inl (changesOutput []) else inr (because 502 "staged changes" e)
   end).

Definition discardStaged : handler unit := fun c w =>
  let '(c, w, e) := Exclusive (run_off h (DiscardStaged m)) c w in
  (c, w, match e with
         | Some e => if Is e ErrNotImplemented then inl tt else inr (because 502 "discard draft" e)
         | None => inl tt
         end).

(** [New]: the coordinator with the journal of the adapter's applier, and what the start
    of the daemon undoes. *)
Definition newCoordinator (j : option (ApplyJournal W)) : Coord :=
  match j with Some j => WithJournal j NewApplyCoordinator | None => NewApplyCoordinator end.

Definition RecoverPendingApply (loader : SnapshotLoader W) (c : Coord) (w : W) := RecoverPending applier loader c w.
End Handlers.
