(* ===== verification/ApiThms.v ===== *)
(** * What the web interface does to the router

    An edit is staged only where it may be: not under a change that waits for its
    confirmation, not next to a guest network's draft, not into a draft that cannot be
    read. Three findings: a request can slip in behind an apply, a network's password is
    applied together with a draft that could not be read, and with no password set
    anybody can sign a token. *)

From S2P Require Import Prelude GoStrings Apply Effects Network Uci Firewall Stage Discipline StagedChanges UciApplier Devices DeviceSources DeviceLimits DeviceLimitsSafety.
From S2P Require Import WiFi WiFiGuest GuestWrite GuestSafety WiFiSafety Requests Http Api.

(** ** Reading the draft *)

Lemma showSide_staging m n c : calls staging (showSide m n c).
Proof. unfold showSide. destruct n; [apply withCommitted_staging; intros|]; by apply calls_exec. Qed.
#[local] Hint Resolve showSide_staging : staging.

Lemma showSides_staging m n c cs : calls staging (showSides m n c cs).
Proof. induction cs as [|g cs IH]; cbn [showSides]; solve_calls. Qed.
#[local] Hint Resolve showSides_staging : staging.

Lemma readGuestDraft_staging before m : calls staging (readGuestDraft before m).
Proof. unfold readGuestDraft. solve_calls. Qed.

Lemma committedValues_staging m c ks : calls staging (committedValues m c ks).
Proof.
  unfold committedValues. destruct (negb _); [done|]. apply calls_bind; [|intros r; solve_calls].
  apply withCommitted_staging. intros d a. apply calls_try; [by apply calls_exec|]. intros out. apply calls_bind; [|done].
  apply fillMissing_staging. intros k. cbn zeta. case_decide; [done|]. by apply getOne_staging.
Qed.

Lemma stagedValues_staging c ks : calls staging (stagedValues c ks).
Proof.
  unfold stagedValues. destruct (negb _); [done|]. apply calls_try; [apply calls_bind; [by apply calls_exec|done]|].
  intros out. apply calls_bind; [|done]. apply fillMissing_staging. intros k. apply getOne_staging. reflexivity.
Qed.
#[local] Hint Resolve readGuestDraft_staging committedValues_staging stagedValues_staging : staging.

Lemma rulePlaces_staging m c : calls staging (rulePlaces m c).
Proof.
  unfold rulePlaces. apply calls_bind; [|done]. destruct c; [apply withCommitted_staging; intros|]; by apply calls_exec.
Qed.
#[local] Hint Resolve rulePlaces_staging : staging.

Lemma moveRow_staging m e was : calls staging (moveRow m e was).
Proof. unfold moveRow. solve_calls. Qed.
#[local] Hint Resolve moveRow_staging : staging.

Lemma bothSides_staging m edits cs was will : calls staging (bothSides m edits cs was will).
Proof. revert was will. induction cs as [|c cs IH]; intros; cbn [bothSides]; solve_calls. Qed.

Lemma tellOne_staging before m was will up whole t e : calls staging (tellOne before m was will up whole t e).
Proof. unfold tellOne, guestOnce. solve_calls. Qed.
#[local] Hint Resolve bothSides_staging tellOne_staging : staging.

Lemma tell_staging before m was will up whole t edits : calls staging (tell before m was will up whole t edits).
Proof. revert t. induction edits as [|e edits IH]; intros; cbn [tell]; solve_calls. Qed.
#[local] Hint Resolve tell_staging : staging.

Lemma StagedChanges_staging before m : calls staging (StagedChanges before m).
Proof. unfold StagedChanges. solve_calls. Qed.

(** ** What a handler leaves *)
Section Server.
Context {W : Type} (h : router W) (applier : ConfigApplier W).
Context (rng : forall A : Type, gmap string A -> list (string * A)) (before : string -> string -> bool) (m : networkManager).

Lemma run_off_forget {A} (p : prog (res A)) w :
  run_off h (forget p) w = (after h p w, match result h p w with Ok _ => None | Err e => Some e end).
Proof. unfold run_off, forget. autorewrite with vbrw. by destruct (result h p w). Qed.

(** A program that begins with a look at the draft. *)
Definition look : prog (res (list ConfigChange)) := StagedChanges before m.
Definition draft (w : W) : res (list ConfigChange) := result h look w.
Definition looked (w : W) : W := after h look w.

Lemma guarded_run fn w :
  (after h (guarded before m fn) w, result h (guarded before m fn) w) =
  match draft w with
  | Err e => if Is e ErrNotImplemented then (after h fn (looked w), result h fn (looked w))
             else (looked w, Err (WrapBoth errDraftUnreadable e))
  | Ok changes => if guestDraftPending changes then (looked w, Err errGuestDraftPending)
                  else (after h fn (looked w), result h fn (looked w))
  end.
Proof.
  unfold guarded, draft, looked, look. autorewrite with vbrw.
  destruct (result h (StagedChanges before m) w) as [l|e]; [by destruct (guestDraftPending l)|by destruct (Is e ErrNotImplemented)].
Qed.

Lemma lockedStage_run fn c w :
  lockedStage h before m fn c w = (c, after h (guarded before m fn) w, result h (guarded before m fn) w).
Proof. unfold lockedStage, Exclusive. rewrite run_off_forget. by destruct (result h _ w). Qed.

Lemma onEmptyDraft_run fn w :
  (after h (onEmptyDraft before m fn) w, result h (onEmptyDraft before m fn) w) =
  match draft w with
  | Err e => (looked w, Err (WrapBoth errDraftUnreadable e))
  | Ok (_ :: _) => (looked w, Err ErrDraftNotEmpty)
  | Ok [] => (after h fn (looked w), result h fn (looked w))
  end.
Proof.
  unfold onEmptyDraft, draft, looked, look. autorewrite with vbrw.
  by destruct (result h (StagedChanges before m) w) as [[|]|].
Qed.

(** ** Every edit of the panel *)

Definition listed {A} (a : ChangesOutput + A) : list ConfigChange + A :=
  match a with inl out => inl (outChanges out) | inr e => inr e end.
Definition listing (f : handler (W:=W) ChangesOutput) : handler (W:=W) (list ConfigChange) := fun c w =>
  let '(c, w, a) := f c w in (c, w, listed a).

(** The handler of each request. *)
Definition dispatch (r : request) : handler (W:=W) (list ConfigChange) :=
  match r with
  | AskWAN cfg => listing (stageWAN h before m cfg)
  | AskLAN cfg => listing (stageLAN h before m cfg)
  | AskHandout cfg => listing (stageHandout h before m cfg)
  | AskReservation cfg => listing (stageReservation h before m cfg)
  | AskNoReservation eid => listing (removeReservation h before m eid)
  | AskPortForward cfg => listing (stagePortForward h before m cfg)
  | AskNoPortForward eid => listing (removePortForward h before m eid)
  | AskRule toFirst cfg => listing (stageFirewallRule h before m toFirst cfg)
  | AskNoRule eid => listing (removeFirewallRule h before m eid)
  | AskMove eid before_ => listing (moveFirewallRule h before m eid before_)
  | AskRoute cfg => listing (stageStaticRoute h before m cfg)
  | AskNoRoute rid => listing (removeStaticRoute h before m rid)
  | AskInternet bus mac allowed => listing (stageDeviceInternet h before m bus mac allowed)
  | AskSchedule bus mac (Some want) => listing (stageDeviceSchedule h before m bus mac want)
  | AskSchedule bus mac None => listing (removeDeviceSchedule h before m bus mac)
  | AskRadio bus rid cfg => listing (stageWiFiRadio h before m bus rid cfg)
  | AskAccess bus sid cfg => setWiFiAccess h applier before m bus sid cfg
  | AskCountry bus code => listing (stageWiFiCountry h before m bus code)
  | AskGuestNetwork bus (AskGuest cfg) => listing (stageWiFiGuest h rng before m bus cfg)
  | AskGuestNetwork bus (AskGuestEnabled enabled) => listing (stageWiFiGuestEnabled h before m bus enabled)
  | AskGuestNetwork bus AskNoGuest => listing (removeWiFiGuest h before m bus)
  end.

(** What a draft keeps out: a guest network's draft every edit, any draft a guest
    network and what is applied at once. *)
Definition keptOut (r : request) (d : res (list ConfigChange)) : bool :=
  match r, d with
  | AskGuestNetwork _ _, Ok l => negb (bool_decide (l = []))
  | AskGuestNetwork _ _, Err _ => true
  | AskAccess _ _ _, Ok l => negb (bool_decide (l = []))
  | AskAccess _ _ _, Err _ => false
  | _, Ok l => guestDraftPending l
  | _, Err e => negb (Is e ErrNotImplemented)
  end.

(** *** What a handler of an edit keeps to

    [kept] says which drafts keep the edit out, [fn] is what it runs in the end. *)

Definition held (c : ApplyCoordinator W) (w : W) (kept : bool) (out : ApplyCoordinator W * W * (list ConfigChange + httpError)) : Prop :=
  let '(c', w', a) := out in
  (phase c = PhaseAwaitingConfirm -> c' = c /\ w' = w /\ exists e, a = inr e /\ hStatus e ∈ [400; 409]%Z) /\
  (phase c <> PhaseAwaitingConfirm -> kept = true -> c' = c /\ (w' = w \/ w' = looked w) /\
     exists e, a = inr e /\ (is_ok (draft w) = true -> hStatus e ∈ [400; 409]%Z)).

Definition only_stages (fn : prog (res (list ConfigChange))) (c : ApplyCoordinator W) (w : W)
    (out : ApplyCoordinator W * W * (list ConfigChange + httpError)) : Prop :=
  let '(c', w', a) := out in
  c' = c /\ (exists p : prog unit, calls staging p /\ w' = after h p w) /\
  (forall l, a = inl l -> result h fn (looked w) = Ok l /\ w' = after h fn (looked w)).

Lemma no_steps (w : W) : exists p : prog unit, calls staging p /\ w = after h p w.
Proof. by exists (Ret tt). Qed.

Lemma some_steps {A} (p : prog A) w : calls staging p -> exists q : prog unit, calls staging q /\ after h p w = after h q w.
Proof. intros Hp. exists (_ <- p ;; Ret tt). split; [by apply calls_bind|]. by autorewrite with vbrw. Qed.

(** What both mappings of errors have in common. *)
Record answers (answer : res (list ConfigChange) -> ChangesOutput + httpError) : Prop := {
  answers_changes l : answer (Ok l) = inl (changesOutput l);
  answers_error e : exists e', answer (Err e) = inr e';
  answers_guest : answer (Err errGuestDraftPending) = inr (showing 409 errGuestDraftPending) }.

Lemma stagedOr_answers what : answers (stagedOr what).
Proof. split; [done|intros e; cbn; eauto|done]. Qed.
Lemma wanAnswer_answers : answers wanAnswer.
Proof. split; [done|intros e; cbn; eauto|done]. Qed.
Lemma wifiAnswer_answers what : answers (wifiAnswer what).
Proof. split; [done|intros e; cbn; eauto|done]. Qed.

Lemma guarded_staging fn : calls staging fn -> calls staging (guarded before m fn).
Proof.
  intros Hf. apply calls_bind; [apply StagedChanges_staging|]. intros [l|e]; [by destruct (guestDraftPending l)|by destruct (negb _)].
Qed.

Lemma onEmptyDraft_staging fn : calls staging fn -> calls staging (onEmptyDraft before m fn).
Proof. intros Hf. apply calls_bind; [apply StagedChanges_staging|]. by intros [[|]|]. Qed.

Definition editKept (d : res (list ConfigChange)) : bool :=
  match d with Ok l => guestDraftPending l | Err e => negb (Is e ErrNotImplemented) end.

Lemma editing_form answer fn c w :
  listing (editing h before m answer fn) c w =
  if decide (phase c = PhaseAwaitingConfirm) then (c, w, inr waiting)
  else (c, after h (guarded before m fn) w, listed (answer (result h (guarded before m fn) w))).
Proof.
  unfold listing, editing, refuseWhileApplying, State, stateLocked. cbn [stPhase]. case_decide; [done|].
  by rewrite lockedStage_run.
Qed.

Lemma editing_keeps answer fn c w : answers answer -> calls staging fn ->
  held c w (editKept (draft w)) (listing (editing h before m answer fn) c w) /\
  only_stages fn c w (listing (editing h before m answer fn) c w).
Proof.
  intros [Hok Herr Hguest] Hfn. rewrite editing_form. case_decide as Hp.
  { split; [split; [intros _; split_and!; [done..|]; exists waiting; split; [done|set_solver]|done]|].
    split_and!; [done|apply no_steps|done]. }
  pose proof (guarded_run fn w) as Hg. pose proof (some_steps (guarded before m fn) w (guarded_staging fn Hfn)) as Hs.
  destruct (after h (guarded before m fn) w, result h (guarded before m fn) w) as [w' r] eqn:E.
  injection E as Ew Er. rewrite Ew in Hs |- *. rewrite Er. unfold editKept. clear Ew Er.
  destruct (draft w) as [l|e] eqn:Ed.
  - destruct (guestDraftPending l); injection Hg as -> ->.
    + rewrite Hguest. split; [split; [done|]|by split_and!].
      intros _ _. split_and!; [done|by right|]. eexists. split; [done|]. set_solver.
    + split; [split; [done|intros _ [=]]|]. split_and!; [done..|]. intros l' Hl.
      destruct (result h fn (looked w)) as [l2|e]; [|by destruct (Herr e) as [e' He]; rewrite He in Hl].
      rewrite Hok in Hl. cbn in Hl. by simplify_eq.
  - destruct (Is e ErrNotImplemented); injection Hg as -> ->; cbn [negb].
    + split; [split; [done|intros _ [=]]|]. split_and!; [done..|]. intros l' Hl.
      destruct (result h fn (looked w)) as [l2|e2]; [|by destruct (Herr e2) as [e' He]; rewrite He in Hl].
      rewrite Hok in Hl. cbn in Hl. by simplify_eq.
    + destruct (Herr (WrapBoth errDraftUnreadable e)) as [e' ->].
      split; [split; [done|]|by split_and!].
      intros _ _. split_and!; [done|by right|]. exists e'. split; [done|rewrite Ed; intros [=]].
Qed.

Lemma guestEdit_form what fn c w :
  listing (guestEdit h before m what fn) c w =
  if decide (phase c = PhaseAwaitingConfirm) then (c, w, inr waiting)
  else (c, after h (onEmptyDraft before m fn) w, listed (guestAnswer what (result h (onEmptyDraft before m fn) w))).
Proof.
  unfold listing, guestEdit, Apply.Stage. case_decide; [done|]. rewrite run_off_forget. by destruct (result h _ w).
Qed.

Definition anyDraft (d : res (list ConfigChange)) : bool :=
  match d with Ok l => negb (bool_decide (l = [])) | Err _ => true end.

Lemma guestEdit_keeps what fn c w : calls staging fn ->
  held c w (anyDraft (draft w)) (listing (guestEdit h before m what fn) c w) /\
  only_stages fn c w (listing (guestEdit h before m what fn) c w).
Proof.
  intros Hfn. rewrite guestEdit_form. case_decide as Hp.
  { split; [split; [intros _; split_and!; [done..|]; exists waiting; split; [done|set_solver]|done]|].
    split_and!; [done|apply no_steps|done]. }
  pose proof (onEmptyDraft_run fn w) as Hg. pose proof (some_steps (onEmptyDraft before m fn) w (onEmptyDraft_staging fn Hfn)) as Hs.
  destruct (after h (onEmptyDraft before m fn) w, result h (onEmptyDraft before m fn) w) as [w' r] eqn:E.
  injection E as Ew Er. rewrite Ew in Hs |- *. rewrite Er. clear Ew Er. destruct (draft w) as [[|x l]|e] eqn:Ed; injection Hg as -> ->.
  - split; [split; [done|intros _ [=]]|]. split_and!; [done..|]. intros l' Hl.
    destruct (result h fn (looked w)); cbn in Hl; by simplify_eq.
  - split; [split; [done|]|by split_and!]. intros _ _. split_and!; [done|by right|]. eexists. split; [done|]. set_solver.
  - split; [split; [done|]|by split_and!]. intros _ _. split_and!; [done|by right|]. eexists. split; [done|rewrite Ed; intros [=]].
Qed.

(** A network's name and password: nothing is staged under a change that waits, nor into
    a draft that is there. *)
Lemma setWiFiAccess_keeps bus sid cfg c w :
  held c w (match draft w with Ok l => negb (bool_decide (l = [])) | Err _ => false end)
    (setWiFiAccess h applier before m bus sid cfg c w).
Proof.
  unfold setWiFiAccess, ApplyNow, held. case_decide as Hp.
  { cbn. split; [|done]. intros _. split_and!; [done..|]. exists waiting. split; [done|set_solver]. }
  rewrite run_off_forget. assert (forall x l, draft w = Ok (x :: l) ->
    after h (access before m bus sid cfg) w = looked w /\ result h (access before m bus sid cfg) w = Err ErrDraftNotEmpty) as Ha.
  { unfold access, draft, looked, look. intros x l E. autorewrite with vbrw. by rewrite E. }
  destruct (draft w) as [[|x l]|e]; cbn [negb bool_decide decide_rel].
  1, 3: repeat (case_match; simplify_eq/=); by split.
  destruct (Ha _ _ eq_refl) as [-> ->]. cbn. split; [done|]. intros _ _. split_and!; [done|by right|].
  exists otherChanges. split; [done|]. set_solver.
Qed.

(** The request as the adapter gets it: with the device's address normalized. *)
Definition normal (raw : string) : string := match NormalizeMAC raw with Ok mac => mac | Err _ => raw end.
Definition asked (r : request) : request :=
  match r with
  | AskInternet bus raw allowed => AskInternet bus (normal raw) allowed
  | AskSchedule bus raw want => AskSchedule bus (normal raw) want
  | r => r
  end.
Definition serve_asked (r : request) : prog (res (list ConfigChange)) := serve rng before m (asked r).

Definition atOnce (r : request) : bool := match r with AskAccess _ _ _ => true | _ => false end.

(** The two requests about one device, whose address comes first. *)
Lemma device_keeps raw what fn c w : (forall mac, calls staging (fn mac)) ->
  let f := listing (fun c w => match pathMAC raw with
                               | inr e => (c, w, inr e)
                               | inl mac => editing h before m (stagedOr what) (fn mac) c w
                               end) in
  held c w (editKept (draft w)) (f c w) /\ only_stages (fn (normal raw)) c w (f c w).
Proof.
  intros Hfn f. unfold f, pathMAC, normal. destruct (NormalizeMAC raw) as [mac|e].
  - apply (editing_keeps (stagedOr what)); [apply stagedOr_answers|done].
  - unfold listing. cbn [listed]. split; [split; intros _; [|intros _]; (split_and!; [done|auto|])|split_and!; [done|apply no_steps|done]].
    all: eexists; split; [done|]; intros; set_solver.
Qed.

Lemma dispatch_stages r c w : atOnce r = false ->
  held c w (keptOut r (draft w)) (dispatch r c w) /\ only_stages (serve_asked r) c w (dispatch r c w).
Proof.
  intros Hr. pose proof (serve_staging rng before m (asked r)) as Hs. unfold serve_asked.
  destruct r as [| | | | | | | | | | | |bus raw allowed|bus raw [want|]| | | |bus []]; try done.
  1-12, 16-17: by apply editing_keeps; [first [apply stagedOr_answers|apply wanAnswer_answers|apply wifiAnswer_answers]|].
  1: by apply (device_keeps raw _ (fun mac => StageDeviceInternet (device m bus) mac allowed)); intros; apply StageDeviceInternet_staging.
  1: by apply (device_keeps raw _ (fun mac => StageDeviceSchedule (device m bus) mac (Some want))); intros; apply StageDeviceSchedule_staging.
  1: by apply (device_keeps raw _ (fun mac => StageDeviceSchedule (device m bus) mac None)); intros; apply StageDeviceSchedule_staging.
  all: by apply guestEdit_keeps.
Qed.


(** ** Two gaps

    The phase is looked at before the lock is taken: an edit that looked while nothing
    waited stages under the change that was applied in between, which the comments of
    [refuseWhileApplying] and [lockedStage] rule out. The two steps of the handler are
    [refuseWhileApplying] and [lockedStage] (see [editing]). *)
Theorem edit_slips_in_behind_an_apply (seams : Seams W) fn timeout c0 w0 c1 w1 out :
  refuseWhileApplying c0 = None -> Apply applier seams timeout c0 w0 = (c1, w1, out) ->
  phase c1 = PhaseAwaitingConfirm -> draft w1 = Ok [] ->
  refuseWhileApplying c1 = Some waiting /\
  lockedStage h before m fn c1 w1 = (c1, after h fn (looked w1), result h fn (looked w1)).
Proof.
  intros _ _ Hp Hd. split; [unfold refuseWhileApplying, State, stateLocked; cbn [stPhase]; by rewrite decide_True|].
  rewrite lockedStage_run. pose proof (guarded_run fn w1) as Hg. rewrite Hd in Hg. cbn [guestDraftPending existsb] in Hg.
  by injection Hg as -> ->.
Qed.

(** A draft that cannot be read counts as empty for a network's name and password, though
    "a draft that cannot be read is not an empty one" ([guestEdit]): whatever waits in it
    is committed with them, without a confirmation window. *)
Theorem unread_draft_is_applied_at_once bus sid cfg c w e x l s w2 w3 :
  phase c <> PhaseAwaitingConfirm -> draft w = Err e ->
  result h (StageAccess (wifi m bus) sid cfg) (looked w) = Ok (x :: l) ->
  takeSnapshot applier (after h (StageAccess (wifi m bus) sid cfg) (looked w)) = (w2, Ok s) ->
  commit applier w2 = (w3, None) ->
  exists c', setWiFiAccess h applier before m bus sid cfg c w = (c', w3, inl (x :: l)).
Proof.
  intros Hp Hd Hr Hs Hc. unfold setWiFiAccess, ApplyNow. rewrite decide_False by done. rewrite run_off_forget.
  assert (after h (access before m bus sid cfg) w = after h (StageAccess (wifi m bus) sid cfg) (looked w) /\
    result h (access before m bus sid cfg) w = Ok (x :: l)) as [-> ->].
  { unfold access. unfold draft, looked, look in *. autorewrite with vbrw. rewrite Hd. unfold try_bind. autorewrite with vbrw. by rewrite Hr. }
  rewrite Hs, Hc. eexists. reflexivity.
Qed.
End Server.

(** ** Witnesses *)

(** A router whose draft is empty and takes what is written, and one whose draft cannot be
    read; an applier that always works. *)
Definition willing_router : router nat :=
  answering (fun argv n =>
    match argv with
    | ["uci"; "changes"] => (Ok "", n)
    | ["uci"; "set"; _] => (Ok "", S n)
    | _ => (Err (Errorf "refused" []), n)
    end).

Definition easy_applier : ConfigApplier nat := {|
  takeSnapshot n := (n, Ok (mkSnapshot "uci-1" 0 "archive"));
  commit n := (n, None);
  revertTo _ n := (n, None) |}.
Definition easy_seams : Seams nat := {|
  now n := (n, 0%Z); newToken n := (n, "t"); afterFunc _ _ n := n; stopTimer _ n := n |}.

Definition at_rest : ApplyCoordinator nat := NewApplyCoordinator.
Definition under_way : ApplyCoordinator nat := (Apply easy_applier easy_seams DefaultApplyWindow at_rest 0).1.1.


Lemma edit_slips_in_behind_an_apply_witness :
  let fn := serve in_order by_text a_manager static_wan in
  (exists c1 out, Apply easy_applier easy_seams DefaultApplyWindow at_rest 0 = (c1, 0, out) /\
    0 < after willing_router fn (looked willing_router by_text a_manager 0) /\
    lockedStage willing_router by_text a_manager fn c1 0 =
      (c1, after willing_router fn (looked willing_router by_text a_manager 0),
       result willing_router fn (looked willing_router by_text a_manager 0))).
Proof.
  intros fn. eexists _, _. split; [reflexivity|]. split; [vm_compute; lia|].
  eapply (edit_slips_in_behind_an_apply willing_router easy_applier by_text a_manager easy_seams fn DefaultApplyWindow at_rest 0);
    [reflexivity|reflexivity|reflexivity|vm_compute; reflexivity].
Defined.
