(* ===== verification/System.v ===== *)
(** * The dashboard and the probes: internal/adapters/openwrt/system.go

    What the router says of itself, its public address, and whether the tunnel carries
    traffic. The functions the manager is built with ([procCPU], [procUptime], [procMem])
    are programs of its record; the defaults are below. A float64 is a type with the
    operations the code uses ([Float64]); the reply of ubus is decoded ([BusSystem],
    [BusBoard]). *)

From S2P Require Import Prelude GoStrings GoNet Effects Network Config TunnelRoute AmneziaParse SelectiveRouting VpnManager.

Class Float64 (F : Type) := {
  ofInt : Z -> F; fdiv : F -> F -> F; fmul : F -> F -> F; fless : F -> F -> bool;
  ParseFloat : string -> F; truncated : F -> Z }.

(** ** What may be pinged *)

Definition hostChar (c : ascii) : bool :=
  bool_decide (c = "."%char) || bool_decide (c = "-"%char) || bool_decide (c = ":"%char) || is_lower c || is_upper c || is_digit c.

(** The loop is over runes: a rune that is not ASCII is refused by its first byte. *)
Definition validHost (s : string) : bool :=
  let s := TrimSpace s in
  nonempty s && (String.length s <=? 255)%nat && all_chars hostChar s.

Definition Diagnostics (target : string) : prog (res string) :=
  if negb (validHost target) then Ret (Err (Errorf "openwrt: invalid diagnostics target %q" [target])) else
  r <- ask (Exec ["ping"; "-c"; "4"; target]) ;;
  Ret (wrapping "openwrt: ping %q: %w" [target] r).

(** ** The public address *)

Definition ipServices : list string := ["http://ifconfig.me/ip"; "http://api.ipify.org"; "http://icanhazip.com"].

(** At most 64 bytes of the body are read. *)
Definition body64 (b : string) : string := String.substring 0 64 b.

Fixpoint egressFrom (via : wayOut) (urls : list string) : prog string :=
  match urls with
  | [] => Ret ""
  | url :: urls =>
      r <- ask (Fetch via url) ;;
      match r with
      | Err _ => egressFrom via urls
      | Ok b =>
          let ip := TrimSpace (body64 b) in
          match ParseIP ip with Some _ => Ret ip | None => egressFrom via urls end
      end
  end.
Definition egressIP (via : wayOut) : prog string := egressFrom via ipServices.

Section System.
Context {F : Type} `{!Float64 F, !DocumentCodec}.

Record systemManager := mkSystem {
  smVpn : vpnManager; smPlatform : string; smBus : bool; smTTL : Z;
  procCPU : prog F; procUptime : prog Z; procMem : prog (Z * Z) }.

(** What it remembers: the public address with the time it was learnt, and what came of
    asking the board, once it was asked. *)
Record remembered := mkRemembered { wanIP : string; wanAt : Z; boardAsked : option (option Board) }.

Record SystemInfo := mkSystemInfo {
  siPlatform : string; siHostname : string; siModel : string; siFirmware : string; siKernel : string;
  siUptimeSec : Z; siCPUPercent : F; siLoadAvg : option (F * F * F); siMemUsed : Z; siMemTotal : Z;
  siStorageUsed : Z; siStorageTotal : Z; siWANIP : string; siEgressIP : string; siTunnelUp : bool; siTunnelEngine : string }.

Record SysVitals := mkVitals { svCPUPercent : F; svMemUsed : Z; svMemTotal : Z; svStorageUsed : Z }.

Record PathProbe := mkProbe { ppTarget : string; ppExpected : string; ppActual : string; ppOK : bool; ppDetail : string }.

(** ** Readings *)

Definition loadScale : F := ofInt 65536.
Definition LoadAverage (r : SystemReport) : F * F * F :=
  let '(a, b, c) := srLoad r in
  (fdiv (ofInt a) loadScale, fdiv (ofInt b) loadScale, fdiv (ofInt c) loadScale).

Definition loadToPercent (numCPU : Z) (load1 : F) : F :=
  let n := if (numCPU =? 0)%Z then 1%Z else numCPU in
  let pct := fmul (fdiv load1 (ofInt n)) (ofInt 100) in
  if fless (ofInt 100) pct then ofInt 100 else pct.

Definition readUptime : prog Z :=
  r <- ask (ReadFile "/proc/uptime") ;;
  Ret (match r with
       | Err _ => 0%Z
       | Ok b => match Fields b with [] => 0%Z | f :: _ => truncated (ParseFloat f) end
       end).

Definition readLoadAsCPU (numCPU : Z) : prog F :=
  r <- ask (ReadFile "/proc/loadavg") ;;
  Ret (match r with
       | Err _ => ofInt 0
       | Ok b => match Fields b with [] => ofInt 0 | f :: _ => loadToPercent numCPU (ParseFloat f) end
       end).

(** One line of /proc/meminfo; [None] is the panic of a line with nothing after its
    colon. *)
Definition memLine (st : option (Z * Z)) (line : string) : option (Z * Z) :=
  '(total, avail) ← st;
  match Cut ":" line with
  | None => Some (total, avail)
  | Some (key, val) =>
      match Fields (TrimSpace val) with
      | [] => None
      | f :: _ =>
          let bytes := wrap64 (parseInt f * 1024) in
          Some (if String.eqb key "MemTotal" then (bytes, avail)
                else if String.eqb key "MemAvailable" then (total, bytes) else (total, avail))
      end
  end.
Definition readMem : prog (option (Z * Z)) :=
  r <- ask (ReadFile "/proc/meminfo") ;;
  Ret (match r with
       | Err _ => Some (0%Z, 0%Z)
       | Ok b => '(total, avail) ← fold_left memLine (Scanner b).1 (Some (0%Z, 0%Z)); Some (wrap64 (total - avail), total)
       end).

Section Manager.
Context (m : systemManager) (numCPU : Z).

Definition tunnelEngineKind : string := if vmInterface (smVpn m) then "kernel" else "userspace".

(** [m.bus.Board], asked once. *)
Definition cachedBoard (st : remembered) : prog (option Board * remembered) :=
  match boardAsked st with
  | Some b => Ret (b, st)
  | None =>
      r <- ask BusBoard ;;
      let b := match r with Ok b => Some b | Err _ => None end in
      Ret (b, mkRemembered (wanIP st) (wanAt st) (Some b))
  end.

Definition with_board (b : Board) (i : SystemInfo) : SystemInfo :=
  mkSystemInfo (siPlatform i) (if nonempty (BoardHostname b) then BoardHostname b else siHostname i) (BoardModel b)
    (BoardFirmware b) (BoardKernel b) (siUptimeSec i) (siCPUPercent i) (siLoadAvg i) (siMemUsed i) (siMemTotal i)
    (siStorageUsed i) (siStorageTotal i) (siWANIP i) (siEgressIP i) (siTunnelUp i) (siTunnelEngine i).

Definition first_load (r : SystemReport) : Z := (srLoad r).1.1.
Definition first_average (r : SystemReport) : F := (LoadAverage r).1.1.

Definition with_report (r : SystemReport) (i : SystemInfo) : SystemInfo :=
  let mem := (0 <? srMemTotal r)%Z in
  let root := (0 <? srRootTotal r)%Z in
  mkSystemInfo (siPlatform i) (siHostname i) (siModel i) (siFirmware i) (siKernel i)
    (if (0 <? srUptime r)%Z then srUptime r else siUptimeSec i)
    (if (0 <? first_load r)%Z then loadToPercent numCPU (first_average r) else siCPUPercent i)
    (Some (LoadAverage r))
    (if mem then wrap64 (srMemTotal r - srMemAvailable r) else siMemUsed i)
    (if mem then srMemTotal r else siMemTotal i)
    (if root then wrap64 (srRootUsed r * 1024) else siStorageUsed i)
    (if root then wrap64 (srRootTotal r * 1024) else siStorageTotal i)
    (siWANIP i) (siEgressIP i) (siTunnelUp i) (siTunnelEngine i).

Definition enrich (i : SystemInfo) (st : remembered) : prog (SystemInfo * remembered) :=
  if negb (smBus m) then Ret (i, st) else
  b <- cachedBoard st ;;
  let i := match b.1 with Some b => with_board b i | None => i end in
  r <- ask BusSystem ;;
  Ret (match r with Ok r => with_report r i | Err _ => i end, b.2).

Definition Vitals : prog SysVitals :=
  cpu <- procCPU m ;;
  mem <- procMem m ;;
  let v := mkVitals cpu mem.1 mem.2 0 in
  if negb (smBus m) then Ret v else
  r <- ask BusSystem ;;
  Ret (match r with
       | Err _ => v
       | Ok r =>
           let has := (0 <? srMemTotal r)%Z in
           mkVitals (if (0 <? first_load r)%Z then loadToPercent numCPU (first_average r) else cpu)
             (if has then wrap64 (srMemTotal r - srMemAvailable r) else mem.1) (if has then srMemTotal r else mem.2)
             (if (0 <? srRootTotal r)%Z then wrap64 (srRootUsed r * 1024) else 0%Z)
       end).

(** ** The public address, at most once a TTL *)

Definition cachedEgress (st : remembered) : prog (string * remembered) :=
  now <- ask Monotonic ;;
  if nonempty (wanIP st) && (now - wanAt st <? smTTL m)%Z then Ret (wanIP st, st) else
  ip <- egressIP Directly ;;
  if negb (nonempty ip) then Ret (wanIP st, st) else
  Ret (ip, mkRemembered ip now (boardAsked st)).

(** ** The tunnel *)

(** [m.vpn.activeDialer()]: a kernel engine has none. *)
Definition activeDialer (up : string) : prog bool :=
  if negb (nonempty up) || vmInterface (smVpn m) then Ret false else ask EngineDialer.

Definition Info (up : string) (st : remembered) : prog (SystemInfo * remembered) :=
  host <- ask Hostname ;;
  uptime <- procUptime m ;;
  mem <- procMem m ;;
  cpu <- procCPU m ;;
  e <- enrich (mkSystemInfo (smPlatform m) (match host with Ok n => n | Err _ => "" end) "" "" "" uptime cpu None
                 mem.1 mem.2 0 0 "" "" false tunnelEngineKind) st ;;
  let '(i, st) := e in
  wan <- cachedEgress st ;;
  let '(wan, st) := wan in
  dialer <- activeDialer up ;;
  egress <- (if (dialer : bool) then egressIP ThroughDialer
             else tun <- activeTunName (smVpn m) up ;;
                  if nonempty tun then egressIP (ThroughDevice tun) else Ret "") ;;
  let there := nonempty egress in
  Ret (mkSystemInfo (siPlatform i) (siHostname i) (siModel i) (siFirmware i) (siKernel i) (siUptimeSec i) (siCPUPercent i)
         (siLoadAvg i) (siMemUsed i) (siMemTotal i) (siStorageUsed i) (siStorageTotal i) wan (if there then egress else wan)
         (there && negb (String.eqb egress wan)) (siTunnelEngine i), st).

Definition ProbePath (up target expected : string) : prog PathProbe :=
  direct <- egressIP Directly ;;
  dialer <- activeDialer up ;;
  tun <- activeTunName (smVpn m) up ;;
  through <- (if (dialer : bool) then egressIP ThroughDialer
              else if nonempty tun then egressIP (ThroughDevice tun) else Ret "") ;;
  let '(actual, detail) :=
    if negb dialer && negb (nonempty tun) then (TargetDirect, "no active tunnel; egress=" +:+ direct)
    else if negb (nonempty through) then (TargetDirect, "tunnel up but no traffic flowed through it")
    else if negb (String.eqb through direct) then (TargetTunnel, "tunnel egress=" +:+ through +:+ " (direct=" +:+ direct +:+ ")")
    else (TargetDirect, "tunnel egress == direct (" +:+ direct +:+ ")") in
  Ret (mkProbe target expected actual (String.eqb actual expected) detail).
End Manager.
End System.

(** ** What the dashboard asks of the world

    The reading that is taken every three seconds never leaves the router, and the public
    address is asked for once a minute at most; the tunnel's, at every look. A name that
    begins with a dash reaches ping as an option. *)


Definition local (o : op) : Prop := match o with Fetch _ _ => False | _ => True end.
Definition asksOutside (ev : event) : Prop := match ev with Did (Fetch _ _) _ => True | _ => False end.

Section Dashboard.
Context {F : Type} `{!Float64 F, !DocumentCodec} (m : systemManager (F:=F)) (numCPU : Z).

Lemma readings_are_local : calls local readUptime /\ calls local (readLoadAsCPU numCPU (F:=F)) /\ calls local readMem.
Proof. by split_and!; split. Qed.

(** What a sampler may ask every three seconds - [Vitals] - asks nothing of the world
    outside, provided its two readings do not, as those the manager is built with. *)
Theorem vitals_stay_on_the_device {W} (h : router W) (w : W) :
  calls local (procCPU m) -> calls local (procMem m) -> Forall (fun ev => ~ asksOutside ev) (trace h (Vitals m numCPU) w).
Proof.
  intros Hc Hm. assert (calls local (Vitals m numCPU)) as Hv.
  { apply calls_bind; [done|]. intros cpu. apply calls_bind; [done|]. intros mem. cbn zeta. destruct (negb _); [done|].
    apply (calls_bind _ (ask BusSystem)); [by split|]. intros r. by destruct r. }
  eapply Forall_impl; [by apply (calls_trace local)|]. intros [o r] Ho. destruct o; cbn in *; tauto.
Qed.

(** The public address is remembered for a minute: while it is, the clock is all that is
    asked for. *)
Theorem address_is_remembered {W} (h : router W) (st : remembered) (w : W) :
  wanIP st <> "" -> ((answer h Monotonic w).1 - wanAt st < smTTL m)%Z ->
  result h (cachedEgress m st) w = (wanIP st, st) /\ Forall (fun ev => ~ asksOutside ev) (trace h (cachedEgress m st) w).
Proof.
  intros Hip Hn. unfold cachedEgress, trace, result. cbn. destruct (answer h Monotonic w) as [now w1]. cbn in Hn |- *.
  assert (nonempty (wanIP st) = true) as -> by (by destruct (wanIP st)). apply Z.ltb_lt in Hn. rewrite Hn. cbn [andb].
  cbn. split; [done|]. apply Forall_singleton. cbn. tauto.
Qed.

(** With a kernel tunnel up, every look at the dashboard asks an outside service through
    the tunnel, the remembered address notwithstanding: the stream of events looks every
    three seconds, so "at most once per TTL" (cachedEgress) does not hold of it. *)
Theorem tunnel_is_asked_at_every_look {W} (h : router W) (up : string) (st : remembered) (w : W) :
  vmInterface (smVpn m) = true -> nonempty up = true -> (forall w, nonempty (answer h EngineTun w).1 = true) ->
  Exists asksOutside (trace h (Info m numCPU up st) w).
Proof.
  intros Hk Hu Ht. unfold Info. do 4 (apply asked_later; intros ? ?). apply asked_later. intros [i st1] w1.
  apply asked_later. intros [wan st2] w2. unfold activeDialer, activeTunName. rewrite Hu, Hk. cbn [negb orb].
  rewrite !trace_bind, !Exists_app. right. left. change (result h (Ret false) w2) with false. cbn iota.
  rewrite trace_bind, Exists_app. right.
  assert (nonempty (result h (ask EngineTun) w2) = true) as Hn.
  { specialize (Ht w2). unfold result. cbn. by destruct (answer h EngineTun w2). }
  match goal with |- context [if ?b then _ else _] => replace b with true by (symmetry; exact Hn) end.
  unfold egressIP. cbn [egressFrom ipServices]. apply asked_now. unfold trace. cbn.
  destruct (answer h (Fetch _ _) _) as [r w3]. by left.
Qed.
End Dashboard.

(** What is typed as the host to ping is checked for its characters only, and a dash is one
    of them: ["-f"] reaches ping as an option (flood, run as root), not as a host. *)
Theorem dash_reaches_ping {W} (h : router W) (w : W) :
  validHost "-f" = true /\
  exists r w', perform h (Diagnostics "-f") w = (r, w', [Did (Exec ["ping"; "-c"; "4"; "-f"]) (answer h (Exec ["ping"; "-c"; "4"; "-f"]) w).1]).
Proof.
  split; [vm_compute; reflexivity|]. unfold Diagnostics. change (validHost "-f") with true. cbn.
  destruct (answer h (Exec ["ping"; "-c"; "4"; "-f"]) w) as [r w']. cbn. eauto.
Qed.
