(* ===== verification/Capabilities.v ===== *)
(** * What this device can do: internal/adapters/openwrt/capabilities.go, internal/core/capabilities.go

    The probes of the hardware, the engine that is chosen by one of them (adapter.go),
    and the platform the adapter is made for (internal/adapters/detect.go). *)

From S2P Require Import Prelude GoStrings Effects Stage Http.

(** ** The answers *)

(** [fmt.Sprintf("…: %v", err)] keeps the error. *)
Inductive detail := Said (s : string) | SaidOf (s : string) (e : err).

Record Capability := mkCapability { Available : bool; CapReason : string; Detail : detail }.

Definition able : Capability := mkCapability true "" (Said "").
Definition unable (reason : string) (d : detail) : Capability := mkCapability false reason d.

Definition CapWiFi := "wifi".
Definition CapSwitchPorts := "switch-ports".
Definition CapUSB := "usb".
Definition CapKernelTUN := "kernel-tun".
Definition CapIPv6 := "ipv6".
Definition CapDHCPServer := "dhcp-server".

Abbreviation Capabilities := (gmap string Capability).

(** [Capabilities.Available]. *)
Definition AvailableOf (c : Capabilities) (name : string) : bool :=
  match c !! name with Some entry => Available entry | None => false end.

(** ** The probes *)

Record sysProbe := mkProbes {
  sysClassNet : string; sysClassWiFi : string; sysBusUSB : string;
  sysClassSwitch : string; devNetTUN : string; procNetIPv6 : string }.

Definition newSysProbe : sysProbe :=
  mkProbes "/sys/class/net" "/sys/class/ieee80211" "/sys/bus/usb/devices" "/sys/class/switch" "/dev/net/tun"
    "/proc/net/if_inet6".

Definition listDir (path : string) : prog (res (list string)) :=
  let! entries := ask (ReadDir path) in Ret (Ok entries.*1).

Definition isDir (path : string) : prog bool :=
  r <- ask (StatMode path) ;; Ret (match r with Ok (dir, _) => dir | Err _ => false end).

Definition exists_at (path : string) : prog bool := r <- ask (Lstat path) ;; Ret (is_ok r).

(** [filepath.Join] of a clean directory, the name of an entry of it and a plain name. *)
Definition under (dir entry name : string) : string := in_dir (in_dir dir entry) name.

(** The entries for which a test of them holds, in order; and whether there is one. *)
Fixpoint those (test : string -> prog bool) (names : list string) : prog (list string) :=
  match names with
  | [] => Ret []
  | n :: names => b <- test n ;; rest <- those test names ;; Ret (if b : bool then n :: rest else rest)
  end.
Fixpoint any (test : string -> prog bool) (names : list string) : prog bool :=
  match names with
  | [] => Ret false
  | n :: names => b <- test n ;; if b : bool then Ret true else any test names
  end.

Definition kernelTunnelReason : string :=
  "this device cannot run tunnels in the kernel, so the gateway works in a fallback mode that does not serve the whole local network".

Section Probes.
Context (p : sysProbe).

Definition wifi : prog Capability :=
  radios <- listDir (sysClassWiFi p) ;;
  Ret (match radios with
       | Err _ => unable "this device has no Wi-Fi" (Said "the kernel exposes no wireless subsystem: no radio, or its driver did not load")
       | Ok [] => unable "this device has no Wi-Fi radio" (Said "")
       | Ok _ => able
       end).

Definition dhcpServer : prog Capability :=
  devices <- listDir (sysClassNet p) ;;
  match devices with
  | Err _ => Ret (unable "cannot tell how many network ports this device has" (Said ("cannot read " +:+ sysClassNet p)))
  | Ok devices =>
      ports <- those (fun dev => exists_at (under (sysClassNet p) dev "device")) devices ;;
      let no := unable "this device has a single network port and no Wi-Fi, so there is no local network to hand addresses out on"
                  (Said ("physical network interfaces: " +:+ Itoa (Z.of_nat (length ports)) +:+ " [" +:+ Join " " ports +:+ "], no radio")) in
      if (2 <=? length ports)%nat then Ret able else
      radio <- wifi ;; Ret (if Available radio then able else no)
  end.

Definition noSwitch : Capability :=
  unable "this device has no managed switch, so its ports cannot be controlled separately" (Said "").

Definition switchPorts : prog Capability :=
  devices <- listDir (sysClassNet p) ;;
  match devices with
  | Err _ => Ret (unable "cannot tell whether this device has a managed switch" (Said ("cannot read " +:+ sysClassNet p)))
  | Ok devices =>
      dsa <- any (fun dev => isDir (under (sysClassNet p) dev "dsa")) devices ;;
      if dsa : bool then Ret able else
      switches <- listDir (sysClassSwitch p) ;;
      Ret (match switches with Ok (_ :: _) => able | _ => noSwitch end)
  end.

Definition usb : prog Capability :=
  entries <- listDir (sysBusUSB p) ;;
  Ret (match entries with
       | Err _ => unable "this device has no USB port" (Said "the kernel has no USB support compiled in")
       | Ok [] => unable "this device has no USB port" (Said "")
       | Ok _ => able
       end).

Definition kernelTUN : prog Capability :=
  info <- ask (StatMode (devNetTUN p)) ;;
  match info with
  | Err _ => Ret (unable kernelTunnelReason (Said "/dev/net/tun is missing; installing the kmod-tun package adds it"))
  | Ok (_, chardev) =>
      if negb chardev then Ret (unable kernelTunnelReason (Said "/dev/net/tun exists but is not a character device")) else
      f <- ask (OpenRW (devNetTUN p)) ;;
      Ret (match f with
           | Err e => unable kernelTunnelReason (SaidOf "/dev/net/tun cannot be opened: " e)
           | Ok _ => able
           end)
  end.

Definition ipv6 : prog Capability :=
  r <- ask (StatMode (procNetIPv6 p)) ;;
  Ret (match r with
       | Err _ => unable "this device does not support IPv6" (Said "the kernel was built without IPv6")
       | Ok _ => able
       end).

(** [sysProbe.Capabilities]; the elements of the literal are evaluated in order. *)
Definition probeAll : prog Capabilities :=
  a <- wifi ;; b <- switchPorts ;; c <- usb ;; d <- kernelTUN ;; e <- ipv6 ;; f <- dhcpServer ;;
  Ret {[CapWiFi := a; CapSwitchPorts := b; CapUSB := c; CapKernelTUN := d; CapIPv6 := e; CapDHCPServer := f]}.

(** Whether the kernel engine is chosen. *)
Definition chooseEngine : prog bool := c <- kernelTUN ;; Ret (Available c).
End Probes.

(** ** The adapter at start

    [openwrt.New] with the part of [NewWithEngine] that asks the device: the engine and
    the capabilities the adapter keeps. *)
Definition newOpenWrt : prog (bool * Capabilities) :=
  kernel <- chooseEngine newSysProbe ;; caps <- probeAll newSysProbe ;; Ret (kernel, caps).

Inductive Platform := PlatformOpenWrt | PlatformUnsupported.

Definition DetectPlatform : prog Platform :=
  r <- ask (StatMode "/etc/openwrt_release") ;;
  Ret (if is_ok r then PlatformOpenWrt else PlatformUnsupported).

Definition ErrUnsupportedPlatform : err := Errorf "adapters: unsupported platform" [].

(** [adapters.New]. *)
Definition newAdapter : prog (res (bool * Capabilities)) :=
  platform <- DetectPlatform ;;
  match platform with
  | PlatformOpenWrt => a <- newOpenWrt ;; Ret (Ok a)
  | PlatformUnsupported =>
      Ret (Err (Wrapf "%w: /etc/openwrt_release not found. VeilBridge manages an OpenWrt router; to look at the panel on this host, run with -demo"
                  [] ErrUnsupportedPlatform))
  end.

(** [getCapabilities] of internal/api/server.go: what an adapter that can probe detected,
    if it detected anything. *)
Definition getCapabilities (probe : option (option Capabilities)) : Capabilities + httpError :=
  inl (match probe with Some (Some detected) => detected | _ => ∅ end).

(** ** Every probe only looks *)

Definition looks (o : op) : Prop :=
  match o with ReadDir _ | StatMode _ | Lstat _ => True | OpenRW f => f = "/dev/net/tun" | _ => False end.

Lemma listDir_looks f : calls looks (listDir f).
Proof. apply calls_try; [by split|done]. Qed.

Lemma any_looks test names : (forall n, calls looks (test n)) -> calls looks (any test names).
Proof. intros Ht. induction names as [|n names IH]; [done|]. apply calls_bind; [done|]. by intros []. Qed.

Lemma those_looks test names : (forall n, calls looks (test n)) -> calls looks (those test names).
Proof. intros Ht. induction names as [|n names IH]; [done|]. apply calls_bind; [done|]. intros b. by apply calls_bind. Qed.

Create HintDb caps.
#[local] Hint Resolve listDir_looks any_looks those_looks : caps.

Lemma isDir_looks f : calls looks (isDir f).
Proof. by repeat split. Qed.
Lemma exists_looks f : calls looks (exists_at f).
Proof. by repeat split. Qed.
#[local] Hint Resolve isDir_looks exists_looks : caps.

Lemma wifi_looks p : calls looks (wifi p).
Proof. by apply calls_bind; [auto with caps|]. Qed.

Lemma kernelTUN_looks : calls looks (kernelTUN newSysProbe).
Proof. split; [done|]. intros [[? []]|]; by repeat split. Qed.

Lemma probeAll_looks : calls looks (probeAll newSysProbe).
Proof.
  apply calls_bind; [apply wifi_looks|intros a]. apply calls_bind; [|intros b].
  { apply calls_bind; [auto with caps|]. intros [l|e]; [|done]. apply calls_bind; [eauto with caps|]. intros []; [done|].
    by apply calls_bind; [auto with caps|]. }
  apply calls_bind; [by apply calls_bind; [auto with caps|]|intros c]. apply calls_bind; [apply kernelTUN_looks|intros d].
  apply calls_bind; [by repeat split|intros e]. apply calls_bind; [|done].
  apply calls_bind; [auto with caps|]. intros [l|er]; [|done]. apply calls_bind; [eauto with caps|]. intros ports.
  destruct (_ <=? _)%nat; [done|]. by apply calls_bind; [apply wifi_looks|].
Qed.

Lemma newOpenWrt_looks : calls looks newOpenWrt.
Proof.
  apply calls_bind; [apply calls_bind; [apply kernelTUN_looks|done]|]. intros kernel.
  apply calls_bind; [apply probeAll_looks|done].
Qed.

(** ** What a device shows

    The kernel's account of the hardware, as the files under /sys, /proc and /dev show it
    while the daemon starts. *)
Record hardware := mkHardware {
  entriesOf : string -> option (list string); there : string -> bool;
  modeOf : string -> option (bool * bool); opensRW : string -> bool }.

Section Hardware.
Context {W : Type} (h : router W) (d : hardware).

Record shows : Prop := {
  shows_dir f w : match (answer h (ReadDir f) w).1 with Ok l => Some l.*1 | Err _ => None end = entriesOf d f;
  shows_mode f w : match (answer h (StatMode f) w).1 with Ok m => Some m | Err _ => None end = modeOf d f;
  shows_file f w : is_ok (answer h (Lstat f) w).1 = there d f;
  shows_open f w : is_ok (answer h (OpenRW f) w).1 = opensRW d f }.

(** The physical facts. *)
Definition hasEntry (f : string) : bool := match entriesOf d f with Some (_ :: _) => true | _ => false end.
Definition netDevices : option (list string) := entriesOf d "/sys/class/net".
Definition physicalPort (dev : string) : bool := there d (under "/sys/class/net" dev "device").
Definition conduit (dev : string) : bool :=
  match modeOf d (under "/sys/class/net" dev "dsa") with Some (dir, _) => dir | None => false end.
Definition fact (name : string) : bool :=
  if String.eqb name CapWiFi then hasEntry "/sys/class/ieee80211"
  else if String.eqb name CapUSB then hasEntry "/sys/bus/usb/devices"
  else if String.eqb name CapKernelTUN then
    match modeOf d "/dev/net/tun" with Some (_, chardev) => chardev && opensRW d "/dev/net/tun" | None => false end
  else if String.eqb name CapIPv6 then bool_decide (is_Some (modeOf d "/proc/net/if_inet6"))
  else if String.eqb name CapSwitchPorts then
    match netDevices with Some devs => existsb conduit devs || hasEntry "/sys/class/switch" | None => false end
  else if String.eqb name CapDHCPServer then
    match netDevices with
    | Some devs => (2 <=? length (List.filter physicalPort devs))%nat || hasEntry "/sys/class/ieee80211"
    | None => false
    end
  else false.

Context (Hd : shows).

Lemma result_listDir f w : match result h (listDir f) w with Ok l => Some l | Err _ => None end = entriesOf d f.
Proof.
  rewrite <- (shows_dir Hd f w). unfold listDir, try_bind, result. cbn.
  destruct (answer h (ReadDir f) w) as [[l|e] w1]; reflexivity.
Qed.

Lemma result_isDir f w : result h (isDir f) w = match modeOf d f with Some (dir, _) => dir | None => false end.
Proof.
  rewrite <- (shows_mode Hd f w). unfold isDir, result. cbn. by destruct (answer h (StatMode f) w) as [[[? ?]|e] w1].
Qed.

Lemma result_exists f w : result h (exists_at f) w = there d f.
Proof. rewrite <- (shows_file Hd f w). unfold exists_at, result. cbn. by destruct (answer h (Lstat f) w). Qed.

Lemma result_those test b names w : (forall n w, result h (test n) w = b n) ->
  result h (those test names) w = List.filter b names.
Proof.
  intros Ht. revert w. induction names as [|n names IH]; intros w; [done|]. cbn [those List.filter].
  rewrite !result_bind, Ht, IH. by destruct (b n).
Qed.

Lemma result_any test b names w : (forall n w, result h (test n) w = b n) -> result h (any test names) w = existsb b names.
Proof.
  intros Ht. revert w. induction names as [|n names IH]; intros w; [done|]. cbn [any existsb].
  rewrite result_bind, Ht. by destruct (b n).
Qed.

(** An answer to a question: a yes explains nothing, a no says why. *)
Definition honest (yes : bool) (c : Capability) : Prop :=
  Available c = yes /\ (if yes then c = able else nonempty (CapReason c) = true).

Lemma result_wifi w : honest (hasEntry "/sys/class/ieee80211") (result h (wifi newSysProbe) w).
Proof.
  unfold wifi, hasEntry. rewrite result_bind. cbn [sysClassWiFi newSysProbe].
  rewrite <- (result_listDir _ w). by destruct (result h (listDir _) w) as [[|? ?]|e].
Qed.

Lemma result_usb w : honest (hasEntry "/sys/bus/usb/devices") (result h (usb newSysProbe) w).
Proof.
  unfold usb, hasEntry. rewrite result_bind. cbn [sysBusUSB newSysProbe].
  rewrite <- (result_listDir _ w). by destruct (result h (listDir _) w) as [[|? ?]|e].
Qed.

Lemma result_ipv6 w : honest (fact CapIPv6) (result h (ipv6 newSysProbe) w).
Proof.
  change (fact CapIPv6) with (bool_decide (is_Some (modeOf d "/proc/net/if_inet6"))).
  rewrite <- (shows_mode Hd _ w). unfold ipv6, result. cbn. by destruct (answer h (StatMode _) w) as [[|] ?].
Qed.

Lemma result_kernelTUN w : honest (fact CapKernelTUN) (result h (kernelTUN newSysProbe) w).
Proof.
  change (fact CapKernelTUN) with (match modeOf d "/dev/net/tun" with Some (_, c) => c && opensRW d "/dev/net/tun" | None => false end).
  rewrite <- (shows_mode Hd _ w). unfold kernelTUN, result. cbn.
  destruct (answer h (StatMode _) w) as [[[dir []]|e] w1]; cbn; [|done..].
  rewrite <- (shows_open Hd _ w1). by destruct (answer h (OpenRW _) w1) as [[|] ?].
Qed.

Lemma result_switchPorts w : honest (fact CapSwitchPorts) (result h (switchPorts newSysProbe) w).
Proof.
  change (fact CapSwitchPorts) with (match netDevices with Some devs => existsb conduit devs || hasEntry "/sys/class/switch" | None => false end).
  unfold switchPorts, netDevices, hasEntry. rewrite result_bind. cbn [sysClassNet sysClassSwitch newSysProbe].
  rewrite <- (result_listDir _ w). set (w1 := after h _ w). destruct (result h (listDir _) w) as [devs|e]; [|done].
  rewrite result_bind, (result_any _ conduit) by (intros; apply result_isDir).
  destruct (existsb conduit devs); [done|]. rewrite result_bind. set (w2 := after h _ w1).
  rewrite <- (result_listDir _ w2). by destruct (result h (listDir _) w2) as [[|? ?]|e].
Qed.

Lemma result_dhcpServer w : honest (fact CapDHCPServer) (result h (dhcpServer newSysProbe) w).
Proof.
  change (fact CapDHCPServer) with
    (match netDevices with Some devs => (2 <=? length (List.filter physicalPort devs))%nat || hasEntry "/sys/class/ieee80211" | None => false end).
  unfold dhcpServer, netDevices. rewrite result_bind. cbn [sysClassNet newSysProbe].
  rewrite <- (result_listDir _ w). set (w1 := after h _ w). destruct (result h (listDir _) w) as [devs|e]; [|done].
  rewrite result_bind, (result_those _ physicalPort) by (intros; apply result_exists). cbn zeta.
  destruct (2 <=? _)%nat; [done|]. rewrite result_bind. set (w2 := after h _ w1). destruct (result_wifi w2) as [-> _].
  cbn [orb]. by destruct (hasEntry _).
Qed.

Definition capabilityNames : list string := [CapWiFi; CapSwitchPorts; CapUSB; CapKernelTUN; CapIPv6; CapDHCPServer].

Lemma fact_elsewhere name : name ∉ capabilityNames -> fact name = false.
Proof.
  unfold capabilityNames. rewrite !not_elem_of_cons. intros (? & ? & ? & ? & ? & ? & _). unfold fact.
  by repeat match goal with |- context [String.eqb ?a ?b] => assert (String.eqb a b = false) as -> by (by apply String.eqb_neq) end.
Qed.

Lemma newOpenWrt_facts w :
  let '(kernel, caps) := result h newOpenWrt w in
  kernel = fact CapKernelTUN /\
  (forall name, name ∈ capabilityNames -> exists c, caps !! name = Some c /\ honest (fact name) c) /\
  (forall name, name ∉ capabilityNames -> caps !! name = None).
Proof.
  destruct (result h newOpenWrt w) as [kernel caps] eqn:E.
  unfold newOpenWrt, chooseEngine, probeAll in E. rewrite !result_bind in E. cbn [result perform fst snd] in E.
  injection E as <- <-. split_and!; [apply result_kernelTUN|..]; intros name Hn.
  - repeat (apply elem_of_cons in Hn as [->|Hn]); try (eexists; split; [reflexivity|]);
      auto using result_wifi, result_switchPorts, result_usb, result_kernelTUN, result_ipv6, result_dhcpServer.
    by apply elem_of_nil in Hn.
  - unfold capabilityNames in Hn. rewrite !not_elem_of_cons in Hn. rewrite !lookup_insert_ne by (intros <-; tauto).
    apply lookup_singleton_ne. intros <-. tauto.
Qed.

(** What a device can do is what its hardware shows. On a router whose files under
    /sys, /proc and /dev hold still while the daemon starts, each of the six capabilities
    is answered yes exactly when the kernel shows the thing itself (a radio, a switch of
    either kind, a USB bus, a tunnel device that opens, IPv6, two physical ports or a
    radio), a yes carries no excuse and every no a reason, no other name is available, and
    the engine that is chosen is the one the tunnel capability speaks of. On any router
    the probing looks at files and opens the tunnel device, and does nothing else. *)
Theorem capabilities_are_the_hardware (w : W) :
  let '(kernel, caps) := result h newOpenWrt w in
  (forall name, name ∈ capabilityNames -> exists c, caps !! name = Some c /\ honest (fact name) c) /\
  (forall name, AvailableOf caps name = fact name) /\
  kernel = AvailableOf caps CapKernelTUN /\
  Forall (fun ev => match ev with Did o _ => looks o end) (trace h newOpenWrt w).
Proof.
  pose proof (newOpenWrt_facts w) as Hf. destruct (result h newOpenWrt w) as [kernel caps]. destruct Hf as (-> & Hc & Hno).
  assert (forall name, AvailableOf caps name = fact name) as Ha.
  { intros name. unfold AvailableOf. destruct (decide (name ∈ capabilityNames)) as [Hn|Hn].
    - by destruct (Hc name Hn) as (c & -> & [-> _]).
    - by rewrite (Hno name Hn), fact_elsewhere. }
  split_and!; [done..|by rewrite Ha|]. apply (calls_trace looks), newOpenWrt_looks.
Qed.
End Hardware.

(** ** Two devices: the stands of the comment in capabilities.go *)

Definition standNet (devs : list string) (f : string) : option (list string) :=
  if String.eqb f "/sys/class/net" then Some devs else if String.eqb f "/sys/bus/usb/devices" then Some ["usb1"] else None.

(** The x86 stand: two ports, USB, no radio and no switch. *)
Definition x86 : hardware :=
  mkHardware (standNet ["br-lan"; "eth0"; "eth1"; "lo"]) (fun f => contains ["/sys/class/net/eth0/device"; "/sys/class/net/eth1/device"] f)
    (fun f => if String.eqb f "/dev/net/tun" then Some (false, true) else None) (fun _ => true).

(** A router whose switch has a swconfig driver. *)
Definition ath79 : hardware :=
  mkHardware (fun f => if String.eqb f "/sys/class/switch" then Some ["switch0"] else standNet ["eth0"; "lo"] f)
    (fun f => String.eqb f "/sys/class/net/eth0/device") (fun _ => None) (fun _ => false).

(** The router that shows [d]. *)
Definition showing_router (d : hardware) : router unit :=
  mkRouter unit (fun o w => (match o return ans o with
    | ReadDir f => match entriesOf d f with Some l => Ok (map (fun n => (n, true)) l) | None => Err ErrNotExist end
    | StatMode f => match modeOf d f with Some m => Ok m | None => Err ErrNotExist end
    | Lstat f => if there d f then Ok tt else Err ErrNotExist
    | OpenRW f => if opensRW d f then Ok tt else Err ErrNotExist
    | o => refuse o
    end, w)).

Lemma showing_router_shows d : shows (showing_router d) d.
Proof.
  split; intros f w; cbn.
  - destruct (entriesOf d f) as [l|]; [|done]. f_equal. induction l as [|n l IH]; cbn; [done|]. by f_equal.
  - by destruct (modeOf d f).
  - by destruct (there d f).
  - by destruct (opensRW d f).
Qed.

Lemma capabilities_are_the_hardware_witness :
  (let '(kernel, caps) := result (showing_router x86) newOpenWrt tt in
   (forall name, name ∈ capabilityNames -> exists c, caps !! name = Some c /\ honest (fact x86 name) c) /\
   (forall name, AvailableOf caps name = fact x86 name) /\
   kernel = AvailableOf caps CapKernelTUN /\
   Forall (fun ev => match ev with Did o _ => looks o end) (trace (showing_router x86) newOpenWrt tt)) /\
  map (fact x86) capabilityNames = [false; false; true; true; false; true].
Proof.
  split; [exact (capabilities_are_the_hardware (showing_router x86) x86 (showing_router_shows x86) tt)|vm_compute; reflexivity].
Defined.

(** Finding: "the old swconfig API is deliberately not probed", says the comment on
    [switchPorts]; a switch under /sys/class/switch is taken for one. *)
Theorem swconfig_is_probed w : Available (result (showing_router ath79) (switchPorts newSysProbe) w) = true.
Proof. by destruct w. Qed.

(** Finding: the engine and the capability are said to be one measurement that cannot
    drift apart ([chooseEngine]); the tunnel device is opened twice. When it begins to
    work in between, the panel says that tunnels run in the kernel, and they do not. *)
Theorem engine_and_capability_are_measured_twice :
  exists (h : router nat), let '(kernel, caps) := result h newOpenWrt 0 in
    kernel = false /\ AvailableOf caps CapKernelTUN = true.
Proof.
  exists (mkRouter nat (fun o n => match o return ans o * nat with
    | StatMode _ => (Ok (false, true), n)
    | OpenRW _ => (if (n =? 0)%nat then Err ErrNotExist else Ok tt, S n)
    | o => (refuse o, n)
    end)). by vm_compute.
Qed.
