(* ===== verification/ApiPanel.v ===== *)
(** * The web interface and the panel's own affairs: internal/api

    Who may ask (tokens.go, login and requireAuth of server.go), the screens that are read,
    the notes on devices (devices.go), the nodes and the configuration file, and how many
    live streams there are (events.go). golang-jwt is the class [JWT]: it signs, and tells
    whether a token was signed with a key and has not expired. *)

From S2P Require Import Prelude GoStrings Effects Network Firewall Lan Routes Devices DeviceSources DeviceWatch.
From S2P Require Import WiFi WiFiStatus Config AmneziaParse SelectiveRouting VpnManager System Http Api.

(** ** Tokens *)

(** [jwt.RegisteredClaims], in seconds. *)
Record claims := mkClaims { Issuer : string; ClaimSubject : string; ExpiresAt : Z; IssuedAt : Z }.

Class JWT := {
  SignedString : claims -> string -> res string;
  ParseToken : string -> string -> Z -> bool;
  Parse_Signed c key token key' now : SignedString c key = Ok token ->
    ParseToken token key' now = true <-> key' = key /\ (now < ExpiresAt c)%Z;
  Signed_nonempty c key token : SignedString c key = Ok token -> nonempty token = true }.

Definition tokenTTL : Z := (12 * 3600)%Z.

Record tokenIssuer := mkIssuer { issuerKey : string }.
Definition newTokenIssuer (passwordHash : string) : tokenIssuer := mkIssuer ("veilbridge-v1:" +:+ passwordHash).

Section Tokens.
Context `{!JWT}.

Definition issue (t : tokenIssuer) : prog (res (string * Z)) :=
  if negb (nonempty (issuerKey t)) then Ret (Err (Errorf "api: no signing key (password not set)" [])) else
  now1 <- ask Now ;;
  now2 <- ask Now ;;
  let exp := (now1 + tokenTTL)%Z in
  Ret (match SignedString (mkClaims "veilbridge" "admin" exp now2) (issuerKey t) with
       | Err e => Err (Wrapf "api: sign token: %w" [] e)
       | Ok signed => Ok (signed, exp)
       end).

Definition verify (t : tokenIssuer) (raw : string) : prog bool :=
  if negb (nonempty (issuerKey t)) || negb (nonempty raw) then Ret false else
  now <- ask Now ;; Ret (ParseToken raw (issuerKey t) now).

(** Whether the request goes on to its handler, given its Authorization header. *)
Definition requireAuth (t : tokenIssuer) (auth : string) : prog (option httpError) :=
  let raw := TrimPrefix "Bearer " auth in
  if String.eqb raw auth then Ret (Some (plainly 401 "missing or invalid token")) else
  ok <- verify t raw ;;
  Ret (if ok then None else Some (plainly 401 "missing or invalid token")).
End Tokens.

(** ** Reading *)

Definition readAnswer {A} (absent : option (err * string)) (what : string) (r : res A) : A + httpError :=
  match r with
  | Ok a => inl a
  | Err e =>
      inr (match absent with
           | Some (gone, words) =>
               if Is e gone then because 404 words e
               else if Is e ErrNotImplemented then because 501 what e else because 502 what e
           | None => if Is e ErrNotImplemented then because 501 what e else because 502 what e
           end)
  end.

Section Panel.
Context `{!JWT, !PasswordHash, !DocumentCodec}.
Context (rng : forall A : Type, gmap string A -> list (string * A)) (before : string -> string -> bool).
Context (decodeNft : string -> option (list nftObject)) (parseFloat : string -> option Z).
Context (m : networkManager) (bus : bool) (store : Store) (vm : vpnManager) (rm : routingManager).

Definition listInterfaces : prog (list NetworkInterface + httpError) :=
  r <- Interfaces m ;; Ret (readAnswer None "interfaces" r).
Definition getWAN : prog (WANStatus + httpError) :=
  r <- WANInfo m ;;
  Ret (match r with Err e => if Is e ErrNoWAN then inr (because 404 "no wan interface" e) else readAnswer None "wan" r | _ => readAnswer None "wan" r end).
Definition getLAN : prog (LANStatus + httpError) :=
  r <- LANInfo m ;; Ret (readAnswer (Some (ErrNoLAN, "no lan interface")) "lan" r).
Definition getFirewall : prog (FirewallStatus + httpError) := r <- FirewallInfo m ;; Ret (readAnswer None "firewall" r).
Definition getStaticRoutes : prog (RoutesStatus + httpError) := r <- StaticRoutes m ;; Ret (readAnswer None "static routes" r).

(** ** Login *)

(** The token with its expiry, and the issuer from then on. *)
Definition login (t : tokenIssuer) (password : string) : prog ((string * Z + httpError) * tokenIssuer) :=
  doc <- LoadDocument store ;;
  match doc with
  | Err e => Ret (inr (because 500 "load config" e), t)
  | Ok doc =>
      if negb (VerifyPassword doc password) then Ret (inr (plainly 401 "invalid password"), t) else
      let t := newTokenIssuer (SettingsPasswordHash (DocSettings doc)) in
      r <- issue t ;;
      Ret (match r with Err e => inr (because 500 "issue token" e) | Ok tok => inl tok end, t)
  end.

(** The issuer of [New]. *)
Definition firstIssuer (doc : Document) : tokenIssuer := newTokenIssuer (SettingsPasswordHash (DocSettings doc)).

(** ** Notes on devices *)

Definition noted (r : res unit) : unit + httpError :=
  match r with
  | Ok _ => inl tt
  | Err e =>
      inr (if Is e ErrTooManyDevices then showing 409 e
           else because 500 "saving the panel's notes about devices" e)
  end.

Definition nameDevice (raw name : string) : prog (unit + httpError) :=
  match pathMAC raw with
  | inr e => Ret (inr e)
  | inl mac =>
      match CleanDeviceName name with
      | Err e => Ret (inr (refusal (FieldError "name" e)))
      | Ok name => r <- Update store (SetDeviceName mac name) ;; Ret (noted r)
      end
  end.

Fixpoint normalized (raws : list string) : res (list string) :=
  match raws with
  | [] => Ok []
  | raw :: raws => let? mac := NormalizeMAC raw in let? macs := normalized raws in Ok (mac :: macs)
  end.

Definition markDevicesKnown (raws : list string) : prog (unit + httpError) :=
  match normalized raws with
  | Err e => Ret (inr (refusal (FieldError "macs" e)))
  | Ok macs => r <- Update store (MarkDevicesKnown macs) ;; Ret (noted r)
  end.

Definition forgetDevice (raw : string) : prog (unit + httpError) :=
  match pathMAC raw with
  | inr e => Ret (inr e)
  | inl mac => r <- Update store (fun d => ((ForgetDevice mac d).1, Ok tt)) ;; Ret (noted r)
  end.

(** The list with the panel's notes, and the memory of the device manager. *)
Definition listDevices (from : string) (mem : memory) : prog ((DeviceList + httpError) * memory) :=
  r <- ListDevices rng decodeNft parseFloat (device m bus) mem ;;
  let '(list_, mem) := r in
  match readAnswer (Some (ErrNoLAN, "no lan interface")) "devices" list_ with
  | inr e => Ret (inr e, mem)
  | inl l =>
      doc <- LoadDocument store ;;
      Ret (match doc with
           | Err e => inr (because 500 "reading the panel's notes about devices" e)
           | Ok doc =>
               inl (mkDeviceList (MarkHere (MergeDevices (dlDevices l) (DocDevices doc)) from)
                      (dlWatchingSec l) true true (dlTraffic l) (dlClock l))
           end, mem)
  end.

Definition wakeDevice (raw : string) (mem : memory) : prog (unit + httpError) :=
  match pathMAC raw with
  | inr e => Ret (inr e)
  | inl mac =>
      r <- WakeDevice (device m bus) mem mac ;;
      Ret (match r with
           | Ok _ => inl tt
           | Err e => inr (if Is e ErrNoLAN then because 404 "no lan interface" e else refusal e)
           end)
  end.

(** ** Wi-Fi, read: wifi.go *)

Definition getWiFiPassword (sid : string) : prog (string + httpError) :=
  r <- WiFiPassword (wifi m bus) sid ;;
  Ret (match r with Ok p => inl p | Err e => inr (wifiError "wifi password" e) end).

(** The screen, with how the caller is connected. *)
Definition getWiFi (from : string) (mem : memory) : prog ((WiFiStatus * option WiFiHere + httpError) * memory) :=
  r <- Status rng (wifi m bus) ;;
  match readAnswer (Some (ErrNoWiFi, "no radio on this device")) "wifi" r with
  | inr e => Ret (inr e, mem)
  | inl st =>
      l <- ListDevices rng decodeNft parseFloat (device m bus) mem ;;
      let '(list_, mem) := l in
      Ret (inl (st, match list_ with
                    | Ok l => Some (WiFiHereFrom (MarkHere (dlDevices l) from) (wsRadios st))
                    | Err _ => None
                    end), mem)
  end.

(** ** Nodes and the configuration file *)

Fixpoint withStatus (up : string) (nodes : list Node) : prog (list (Node * option NodeStatus)) :=
  match nodes with
  | [] => Ret []
  | n :: nodes =>
      st <- StatusOf vm up (NodeID n) ;;
      rest <- withStatus up nodes ;;
      Ret ((n, match st with Ok st => Some st | Err _ => None end) :: rest)
  end.

Definition listNodes (up : string) : prog (list (Node * option NodeStatus) + httpError) :=
  r <- ListNodes vm ;;
  match r with
  | Err e => Ret (inr (because 500 "list nodes" e))
  | Ok nodes => l <- withStatus up nodes ;; Ret (inl l)
  end.

Definition importNodes (kind content url : string) : prog (list Node + httpError) :=
  if String.eqb kind "awg-config" then
    r <- ImportConfig vm content ;; Ret (match r with Ok l => inl l | Err e => inr (because 400 "import failed" e) end)
  else if String.eqb kind "subscription" then
    r <- ImportSubscription url ;; Ret (match r with Ok l => inl l | Err e => inr (because 400 "import failed" e) end)
  else Ret (inr (plainly 400 ("unknown import kind: " +:+ kind))).

Definition removeNode (up id : string) : prog ((unit + httpError) * string) :=
  r <- RemoveNode vm up id ;;
  Ret (match r.1 with Ok _ => inl tt | Err e => inr (because 404 "remove node" e) end, r.2).

Definition nodeStatus (up id : string) : prog (NodeStatus + httpError) :=
  r <- StatusOf vm up id ;;
  Ret (match r with Ok st => inl st | Err e => inr (because 404 "node status" e) end).

Definition listRoutes : prog (list RouteRule + httpError) :=
  r <- ListRules rm ;; Ret (match r with Ok rules => inl rules | Err e => inr (because 500 "list routes" e) end).

Definition applyRoutes : prog (unit + httpError) :=
  r <- ApplyRouting rm ;; Ret (match r with Ok _ => inl tt | Err e => inr (because 502 "apply routes" e) end).

Definition exportConfig : prog (Document + httpError) :=
  r <- LoadDocument store ;; Ret (match r with Ok d => inl d | Err e => inr (because 500 "export config" e) end).

Definition importConfig (raw : string) : prog (unit + httpError) :=
  match UnmarshalDocument raw with
  | Err e => Ret (inr (because 400 "parse config" e))
  | Ok doc =>
      r <- SaveDocument store doc ;;
      Ret (match r with Ok _ => inl tt | Err e => inr (because 500 "save config" e) end)
  end.
End Panel.

(** ** The system page *)
Section SystemPage.
Context {F : Type} `{!Float64 F, !DocumentCodec} (sm : systemManager (F:=F)) (numCPU : Z).

(** [Info] of this adapter reports no error. *)
Definition getSystem (up : string) (st : System.remembered) : prog ((SystemInfo + httpError) * System.remembered) :=
  r <- Info sm numCPU up st ;; Ret (inl r.1, r.2).

Definition activateNode (up id : string) (st : System.remembered)
    : prog ((SystemInfo + httpError) * string * System.remembered) :=
  r <- Activate (smVpn sm) up id ;;
  match r.1 with
  | Err e => Ret (inr (because 502 "activate node" e), r.2, st)
  | Ok _ => i <- Info sm numCPU r.2 st ;; Ret (inl i.1, r.2, i.2)
  end.

Definition probePath (up target expectedVia : string) : prog (PathProbe + httpError) :=
  probe <- ProbePath sm up target expectedVia ;; Ret (inl probe).

Definition diagnostics (target : string) : prog (string * string + httpError) :=
  r <- Diagnostics target ;;
  Ret (match r with Ok out => inl (target, out) | Err e => inr (because 400 "diagnostics" e) end).

(** The frame of the system topic: the snapshot and the newest sample, if there is one. *)
Definition sendSystem {S} (live : list S) (up : string) (st : System.remembered)
    : prog ((SystemInfo * option S) * System.remembered) :=
  r <- Info sm numCPU up st ;; Ret ((r.1, last live), r.2).
End SystemPage.

(** ** Live streams: events.go

    The counter, the streams that are served, and those that were counted but are being
    turned away. Each call of the atomic counter is a step. *)

Definition maxStreams : Z := 8.

Record streams := mkStreams { counted : Z; served : nat; leaving : nat }.

Inductive stream_step : streams -> streams -> Prop :=
| stream_opens n s l : (n + 1 <= maxStreams)%Z -> stream_step (mkStreams n s l) (mkStreams (n + 1) (S s) l)
| stream_is_too_many n s l : (maxStreams < n + 1)%Z -> stream_step (mkStreams n s l) (mkStreams (n + 1) s (S l))
| stream_is_turned_away n s l : stream_step (mkStreams n s (S l)) (mkStreams (n - 1) s l)
| stream_ends n s l : stream_step (mkStreams n (S s) l) (mkStreams (n - 1) s l).
