(* ===== verification/PanelThms.v ===== *)
(** * Who may ask, and how many may listen

    A token opens the panel for twelve hours and for the password it was given for; but
    with no password set, anybody can sign one, and a password changed by another process
    does not close the panel to the tokens of the old one. At most eight live streams are
    served. *)

From S2P Require Import Prelude GoStrings Effects DeviceMem Config ConfigThms ConfigMem Http Api ApiPanel.

Lemma newTokenIssuer_inj a b : newTokenIssuer a = newTokenIssuer b -> a = b.
Proof. intros [= E]. by apply append_inj_l in E. Qed.

Section Sessions.
Context `{!JWT, !PasswordHash, !DocumentCodec} {W : Type} (h : router W) (store : Store).

(** The clock as a request finds it. *)
Definition clock (w : W) : Z := (answer h Now w).1.

Lemma result_now w : result h (ask Now) w = clock w.
Proof. unfold result, clock. cbn. by destruct (answer h Now w). Qed.

Lemma requireAuth_token t token w : nonempty token = true -> nonempty (issuerKey t) = true ->
  result h (requireAuth t ("Bearer " +:+ token)) w =
  if ParseToken token (issuerKey t) (clock w) then None else Some (plainly 401 "missing or invalid token").
Proof.
  intros Ht Hk. unfold requireAuth. rewrite TrimPrefix_app.
  assert (String.eqb token ("Bearer " +:+ token) = false) as ->.
  { apply String.eqb_neq. intros E. apply (f_equal String.length) in E. rewrite append_length in E. cbn in E. lia. }
  unfold verify. rewrite Ht, Hk. cbn [negb orb]. rewrite !result_bind, result_now. reflexivity.
Qed.

Lemma requireAuth_signed c t0 t token w : SignedString c (issuerKey t0) = Ok token -> nonempty (issuerKey t) = true ->
  result h (requireAuth t ("Bearer " +:+ token)) w = None <-> issuerKey t = issuerKey t0 /\ (clock w < ExpiresAt c)%Z.
Proof.
  intros Hs Hk. rewrite requireAuth_token; [|by eapply Signed_nonempty|done].
  rewrite <- (Parse_Signed c (issuerKey t0) token (issuerKey t) (clock w) Hs). by destruct (ParseToken _ _ _).
Qed.

Lemma issue_signs t w token exp : result h (issue t) w = Ok (token, exp) ->
  exp = (clock w + tokenTTL)%Z /\ exists c, SignedString c (issuerKey t) = Ok token /\ ExpiresAt c = exp.
Proof.
  unfold issue. destruct (negb _); [done|]. rewrite !result_bind, result_now. cbn zeta. generalize (result h (ask Now) (after h (ask Now) w)).
  intros now2. cbn. destruct (SignedString _ _) as [signed|e] eqn:E; [|done]. intros [= <- <-]. split; [done|]. by eexists.
Qed.

(** What a login hands out. *)
Lemma login_signs t0 t1 password token exp w : result h (login store t0 password) w = (inl (token, exp), t1) ->
  exists d c, result h (LoadDocument store) w = Ok d /\ VerifyPassword d password = true /\ t1 = firstIssuer d /\
    exp = (clock (after h (LoadDocument store) w) + tokenTTL)%Z /\
    SignedString c (issuerKey t1) = Ok token /\ ExpiresAt c = exp.
Proof.
  unfold login. rewrite result_bind. destruct (result h (LoadDocument store) w) as [d|e]; [|done].
  destruct (VerifyPassword d password) eqn:Ev; [|done]. cbn [negb]. cbn zeta. rewrite result_bind.
  set (wl := after h (LoadDocument store) w).
  destruct (result h (issue _) wl) as [[tok ex]|e] eqn:Ei; [|done]. cbn. intros [= <- <- <-].
  apply issue_signs in Ei as (Hexp & c & Hs & Hc). by exists d, c.
Qed.

(** C30. A token is a session of twelve hours and of one password. Who gets one has shown
    the password of the configuration file, and a request that bears it goes on to its
    handler exactly until twelve hours after the login, and exactly while the panel's key
    is made of the same password hash - whatever the router's clock and files do. *)
Theorem token_opens_the_panel_for_its_password (t0 t1 : tokenIssuer) (password token : string) (exp : Z) (w : W) :
  result h (login store t0 password) w = (inl (token, exp), t1) ->
  exists d, result h (LoadDocument store) w = Ok d /\ VerifyPassword d password = true /\ t1 = firstIssuer d /\
    exp = (clock (after h (LoadDocument store) w) + 12 * 3600)%Z /\
    forall d' w', result h (requireAuth (firstIssuer d') ("Bearer " +:+ token)) w' = None <->
      SettingsPasswordHash (DocSettings d') = SettingsPasswordHash (DocSettings d) /\ (clock w' < exp)%Z.
Proof.
  intros (d & c & Hd & Hv & -> & He & Hs & Hc)%login_signs. exists d. split_and!; try done.
  intros d' w'. rewrite (requireAuth_signed c _ _ _ _ Hs) by done. rewrite Hc. unfold firstIssuer.
  split; intros [Hk Hw]; (split; [|done]); [|by rewrite Hk].
  apply newTokenIssuer_inj. unfold newTokenIssuer in *. cbn in Hk. by rewrite Hk.
Qed.

(** With no password set the key is a constant of the source: whoever signs with it is the
    administrator, although the comment on [New] says that everything is rejected. *)
Theorem without_a_password_anybody_signs (d : Document) (c : claims) (token : string) (w : W) :
  SettingsPasswordHash (DocSettings d) = "" -> (clock w < ExpiresAt c)%Z -> SignedString c "veilbridge-v1:" = Ok token ->
  (forall password, VerifyPassword d password = false) /\
  result h (requireAuth (firstIssuer d) ("Bearer " +:+ token)) w = None.
Proof.
  intros Hd Hc Hs. split; [intros p; unfold VerifyPassword; by rewrite Hd|].
  apply (requireAuth_signed c (mkIssuer "veilbridge-v1:") _ _ _ Hs); [done|]. unfold firstIssuer. by rewrite Hd.
Qed.

(** The panel takes its key from the file at its start and at a login only. Once another
    process has changed the password ([veilbridged -set-password], an import), the tokens
    of the old one go on opening it, although "changing the admin password invalidates all
    outstanding tokens" (tokens.go). *)
Theorem old_tokens_outlive_the_password (t0 t1 : tokenIssuer) (password token raw : string) (exp : Z) (w : W) :
  result h (login store t0 password) w = (inl (token, exp), t1) ->
  let w' := after h (importConfig store raw) (after h (login store t0 password) w) in
  (clock w' < exp)%Z -> result h (requireAuth t1 ("Bearer " +:+ token)) w' = None.
Proof.
  intros (d & c & _ & _ & -> & _ & Hs & Hc)%login_signs w' Hw. apply (requireAuth_signed c _ _ _ _ Hs); [done|]. by rewrite Hc.
Qed.
End Sessions.

(** ** Live streams *)

Inductive stream_reach : streams -> Prop :=
| no_stream : stream_reach (mkStreams 0 0 0)
| stream_after s s' : stream_reach s -> stream_step s s' -> stream_reach s'.

(** However connections come and go, at most eight streams are served, and the counter is
    the number of those that are and of those being turned away: it comes back to zero. *)
Theorem at_most_eight_streams s : stream_reach s ->
  (served s <= 8)%nat /\ counted s = (Z.of_nat (served s) + Z.of_nat (leaving s))%Z.
Proof.
  induction 1 as [|s s' _ [IH1 IH2] Hstep]; [cbn; lia|]. inversion Hstep; subst; cbn in *; unfold maxStreams in *; lia.
Qed.

(** ** A witness: keys that are kept in the token *)

Definition signed_text (c : claims) (key : string) : string :=
  bits (encode (key, Issuer c, ClaimSubject c, ExpiresAt c, IssuedAt c)).

#[export, refine] Instance open_jwt : JWT := {
  SignedString c key := Ok (signed_text c key);
  ParseToken token key now :=
    match (n ← unbits token; decode n) : option (string * string * string * Z * Z) with
    | Some (k, _, _, exp, _) => String.eqb key k && (now <? exp)%Z
    | None => false
    end }.
Proof.
  - intros c key token key' now [= <-]. unfold signed_text. rewrite unbits_bits. cbn [option_bind mbind]. rewrite decode_encode.
    rewrite andb_true_iff, String.eqb_eq, Z.ltb_lt. done.
  - intros c key token [= <-]. apply bits_nonempty.
Defined.

#[export, refine] Instance open_hash : PasswordHash := {
  GenerateFromPassword p := Ok ("h" +:+ p);
  CompareHashAndPassword h p := String.eqb h ("h" +:+ p) }.
Proof. intros p h [= <-]. split; [done|apply String.eqb_refl]. Defined.

Definition protected : Document := (SetPassword "secret" Default).1.
Definition protected_files : gmap string string :=
  {[storePath the_store := match MarshalIndent protected with Ok b => b | Err _ => "" end]}.

(** The files, with a clock that stands. *)
Definition panel_router : router (gmap string string) :=
  mkRouter (gmap string string) (fun o w =>
    match o return ans o * gmap string string with
    | Now => (1000%Z, w)
    | o => answer store_in_memory o w
    end).

Lemma token_opens_the_panel_for_its_password_witness :
  exists token t1, result panel_router (login the_store (mkIssuer "") "secret") protected_files = (inl (token, 44200%Z), t1) /\
  exists d, result panel_router (LoadDocument the_store) protected_files = Ok d /\ VerifyPassword d "secret" = true /\
    t1 = firstIssuer d /\
    44200%Z = (clock panel_router (after panel_router (LoadDocument the_store) protected_files) + 12 * 3600)%Z /\
    forall d' w', result panel_router (requireAuth (firstIssuer d') ("Bearer " +:+ token)) w' = None <->
      SettingsPasswordHash (DocSettings d') = SettingsPasswordHash (DocSettings d) /\ (clock panel_router w' < 44200)%Z.
Proof.
  eexists _, _. split; [vm_compute; reflexivity|].
  apply (token_opens_the_panel_for_its_password panel_router the_store (mkIssuer "") _ "secret"). vm_compute. reflexivity.
Defined.
