(* ===== verification/ApiSurface.v ===== *)
(** * The surface of the web interface: which requests there are, and what a live stream says

    The registration of the operations (server.go, devices.go, wifi.go, events.go of
    internal/api), who is let through to a handler, and the loop of GET /events. The
    operations are registered with Huma on a [http.ServeMux]: a pattern answers the requests
    of its method whose path has its segments, a GET pattern those of HEAD too, and the
    middlewares of the operation run before its handler. *)

From S2P Require Import Prelude GoStrings Effects Apply Network WiFi Config ConfigMem AmneziaParse VpnManager System Metrics Http Api ApiPanel PanelThms.
From S2P Require Import Devices DeviceSources DeviceWatch DeviceMem.

(** ** Operations

    [opAuthed] is whether the middlewares are [authed]; [DefaultStatus] 0 is not set. *)
Record Operation := mkOperation {
  OperationID : string; Method : string; Path : string; opAuthed : bool; DefaultStatus : Z; Errors : list Z }.

Definition authOperations : list Operation := [
   mkOperation "login" "POST" "/auth/login" false 0 []].

Definition nodeOperations : list Operation := [
   mkOperation "listNodes" "GET" "/nodes" true 0 [];
   mkOperation "importNodes" "POST" "/nodes/import" true 201 [];
   mkOperation "removeNode" "DELETE" "/nodes/{id}" true 204 [];
   mkOperation "activateNode" "POST" "/nodes/{id}/activate" true 0 [];
   mkOperation "nodeStatus" "GET" "/nodes/{id}/status" true 0 []].

Definition routeOperations : list Operation := [
   mkOperation "listRoutes" "GET" "/routes" true 0 [];
   mkOperation "addRoute" "POST" "/routes" true 201 [];
   mkOperation "updateRoute" "PUT" "/routes/{id}" true 0 [];
   mkOperation "deleteRoute" "DELETE" "/routes/{id}" true 204 [];
   mkOperation "applyRoutes" "POST" "/routes/apply" true 0 []].

Definition applyOperations : list Operation := [
   mkOperation "applyConfig" "POST" "/apply" true 0 [];
   mkOperation "confirmApply" "POST" "/apply/confirm" true 0 [];
   mkOperation "revertApply" "POST" "/apply/revert" true 0 [];
   mkOperation "applyState" "GET" "/apply" true 0 []].

Definition capabilityOperations : list Operation := [
   mkOperation "getCapabilities" "GET" "/capabilities" true 0 []].

Definition metricsOperations : list Operation := [
   mkOperation "getMetrics" "GET" "/system/metrics" true 0 []].

Definition networkOperations : list Operation := [
   mkOperation "listInterfaces" "GET" "/network/interfaces" true 0 [];
   mkOperation "stageWAN" "PUT" "/network/wan" true 0 [];
   mkOperation "stagedChanges" "GET" "/apply/changes" true 0 [];
   mkOperation "discardStaged" "DELETE" "/apply/changes" true 204 [];
   mkOperation "getWAN" "GET" "/network/wan" true 0 [];
   mkOperation "getLAN" "GET" "/network/lan" true 0 [];
   mkOperation "getFirewall" "GET" "/firewall" true 0 [];
   mkOperation "stagePortForward" "PUT" "/firewall/port-forwards" true 0 [];
   mkOperation "removePortForward" "DELETE" "/firewall/port-forwards/{id}" true 0 [];
   mkOperation "stageFirewallRule" "PUT" "/firewall/rules" true 0 [];
   mkOperation "removeFirewallRule" "DELETE" "/firewall/rules/{id}" true 0 [];
   mkOperation "moveFirewallRule" "POST" "/firewall/rules/{id}/move" true 0 [];
   mkOperation "stageLAN" "PUT" "/network/lan" true 0 [];
   mkOperation "stageHandout" "PUT" "/network/lan/handout" true 0 [];
   mkOperation "stageReservation" "PUT" "/network/lan/reservations" true 0 [];
   mkOperation "removeReservation" "DELETE" "/network/lan/reservations/{id}" true 0 []].

Definition staticRouteOperations : list Operation := [
   mkOperation "getStaticRoutes" "GET" "/network/routes" true 0 [];
   mkOperation "stageStaticRoute" "PUT" "/network/routes" true 0 [];
   mkOperation "removeStaticRoute" "DELETE" "/network/routes/{id}" true 0 []].

Definition systemOperations : list Operation := [
   mkOperation "getSystem" "GET" "/system" true 0 [];
   mkOperation "probePath" "POST" "/system/probe" true 0 [];
   mkOperation "diagnostics" "GET" "/system/diagnostics" true 0 []].

Definition configOperations : list Operation := [
   mkOperation "exportConfig" "GET" "/config/export" true 0 [];
   mkOperation "importConfig" "POST" "/config/import" true 0 []].

Definition eventOperations : list Operation := [
   mkOperation "events" "GET" "/events" true 0 []].

Definition registerDevices : list Operation := [
   mkOperation "listDevices" "GET" "/devices" true 0 [404; 501; 502]%Z;
   mkOperation "nameDevice" "PUT" "/devices/{mac}/name" true 204 [];
   mkOperation "markDevicesKnown" "POST" "/devices/known" true 204 [];
   mkOperation "stageDeviceInternet" "PUT" "/devices/{mac}/internet" true 0 [400; 409; 501]%Z;
   mkOperation "stageDeviceSchedule" "PUT" "/devices/{mac}/schedule" true 0 [400; 409; 501]%Z;
   mkOperation "removeDeviceSchedule" "DELETE" "/devices/{mac}/schedule" true 0 [400; 409; 501]%Z;
   mkOperation "wakeDevice" "POST" "/devices/{mac}/wake" true 204 [400; 404; 501]%Z;
   mkOperation "forgetDevice" "DELETE" "/devices/{mac}" true 204 []].

Definition guestErrors : list Z := [400; 404; 409; 422; 501; 502]%Z.
Definition registerWiFi : list Operation := [
   mkOperation "getWiFi" "GET" "/wifi" true 0 [404; 501; 502]%Z;
   mkOperation "getWiFiPassword" "GET" "/wifi/networks/{id}/password" true 0 [404; 501]%Z;
   mkOperation "stageWiFiRadio" "PUT" "/wifi/radios/{id}" true 0 [400; 404; 409; 501]%Z;
   mkOperation "stageWiFiCountry" "PUT" "/wifi/country" true 0 [400; 404; 409; 501]%Z;
   mkOperation "setWiFiAccess" "PUT" "/wifi/networks/{id}" true 0 [400; 404; 409; 501]%Z;
   mkOperation "stageWiFiGuest" "POST" "/wifi/guest" true 0 guestErrors;
   mkOperation "stageWiFiGuestEnabled" "PUT" "/wifi/guest" true 0 guestErrors;
   mkOperation "removeWiFiGuest" "DELETE" "/wifi/guest" true 0 guestErrors].

(** In the order of [register]. *)
Definition register : list Operation :=
  authOperations ++ nodeOperations ++ routeOperations ++ applyOperations ++ capabilityOperations ++ eventOperations ++
  metricsOperations ++ networkOperations ++ registerDevices ++ registerWiFi ++ staticRouteOperations ++ systemOperations ++
  configOperations.

#[export] Instance Operation_eq_dec : EqDecision Operation.
Proof. solve_decision. Defined.

(** ** Requests

    [rqPath] is what follows [/api/v1]. *)
Record Request := mkRequest { rqMethod : string; rqPath : string; rqAuthorization : string }.

Definition wildcard (seg : string) : bool := HasPrefix "{" seg.
Definition segmentMatches (pat seg : string) : bool := if wildcard pat then nonempty seg else String.eqb pat seg.
Fixpoint pathMatches (pat path : list string) : bool :=
  match pat, path with
  | [], [] => true
  | p :: pat, s :: path => segmentMatches p s && pathMatches pat path
  | _, _ => false
  end.
Definition methodMatches (pat method : string) : bool :=
  String.eqb pat method || String.eqb pat "GET" && String.eqb method "HEAD".
Definition answers (op : Operation) (r : Request) : bool :=
  methodMatches (Method op) (rqMethod r) && pathMatches (Split "/" (Path op)) (Split "/" (rqPath r)).

(** The middlewares of an operation: [None] goes on to its handler. *)
Definition entry `{!JWT} (t : tokenIssuer) (r : Request) (op : Operation) : prog (option httpError) :=
  if opAuthed op then requireAuth t (rqAuthorization r) else Ret None.

(** ** What is read *)

(** [getMetrics]; an empty list is an empty list. *)
Definition getMetrics {F} (h : History F) : list (Sample F) * list (Sample F) * Z := (Live h, Day h, Size h).

(** [observeDevices], stopped after [ticks] of its timer. *)
Section Observed.
Context (rng : forall A : Type, gmap string A -> list (string * A)).
Context (decodeNft : string -> option (list nftObject)) (parseFloat : string -> option Z) (d : deviceManager).
Fixpoint observeDevices (ticks : nat) (mem : memory) : prog memory :=
  mem <- ObserveDevices rng decodeNft parseFloat d mem ;;
  match ticks with 0 => Ret mem | S ticks => observeDevices ticks mem end.
End Observed.

(** ** A live stream *)
Section Stream.
Context {F S : Type} `{!Float64 F, !DocumentCodec} (sm : systemManager (F:=F)) (numCPU : Z).

(** What [err.Error()] says; the state of the transaction keeps the text alone. *)
Context (text : err -> string).

Inductive frame :=
| SystemFrame (info : SystemInfo (F:=F) * option S)
| ApplyFrame (st : ApplyState)
| TooMany.

(** What the select of the loop picks, with whether the frame could be sent: the state of
    the transaction at that moment; the samples and the node that is active. *)
Inductive tick :=
| ApplyTick (st : ApplyState) (sent : bool)
| SystemTick (live : list S) (up : string) (sent : bool).

(** The struct that is compared. *)
Definition shownState (st : ApplyState) : ApplyPhase * string * option Z * string * string * Z :=
  (stPhase st, stToken st, stDeadline st, stSnapshotID st, match stErr st with Some e => text e | None => "" end,
   stWindowSeconds st).

(** The frames that reach the browser, until it or the daemon ends the stream. *)
Fixpoint streamLoop (lastApply : ApplyState) (st : System.remembered) (ticks : list tick) : prog (list frame) :=
  match ticks with
  | [] => Ret []
  | ApplyTick now sent :: ticks =>
      if decide (shownState now = shownState lastApply) then streamLoop lastApply st ticks
      else if sent then rest <- streamLoop now st ticks ;; Ret (ApplyFrame now :: rest)
      else Ret []
  | SystemTick live up sent :: ticks =>
      r <- sendSystem sm numCPU live up st ;;
      if sent then rest <- streamLoop lastApply r.2 ticks ;; Ret (SystemFrame r.1 :: rest) else Ret []
  end.

(** The stream that is the [n]th: the first two frames are sent whatever becomes of them. *)
Definition streamEvents (n : Z) (live : list S) (up : string) (st : System.remembered) (first : ApplyState)
    (sentSystem sentApply : bool) (ticks : list tick) : prog (list frame) :=
  if (maxStreams <? n)%Z then Ret (if sentSystem then [TooMany] else []) else
  r <- sendSystem sm numCPU live up st ;;
  rest <- streamLoop first r.2 ticks ;;
  Ret ((if sentSystem then [SystemFrame r.1] else []) ++ (if sentApply then [ApplyFrame first] else []) ++ rest).
End Stream.

(** ** Who is let in *)

(** A request that two patterns answer is one both describe. *)
Fixpoint overlap (a b : list string) : bool :=
  match a, b with
  | [], [] => true
  | x :: a, y :: b => (wildcard x || wildcard y || String.eqb x y) && overlap a b
  | _, _ => false
  end.

Lemma pathMatches_overlap a b path : pathMatches a path = true -> pathMatches b path = true -> overlap a b = true.
Proof.
  revert b path. induction a as [|x a IH]; intros [|y b] [|s path]; cbn [pathMatches overlap]; try done.
  rewrite !andb_true_iff. intros [Hx Ha] [Hy Hb]. split; [|by eapply IH]. unfold segmentMatches in *.
  destruct (wildcard x), (wildcard y); try done. apply String.eqb_eq in Hx, Hy. by rewrite Hx, Hy, String.eqb_refl.
Qed.

Definition rival (a b : Operation) : bool :=
  String.eqb (Method a) (Method b) && overlap (Split "/" (Path a)) (Split "/" (Path b)).

Lemma no_rivals : forallb (fun a => forallb (fun b => negb (rival a b) || bool_decide (a = b)) register) register = true.
Proof. vm_compute. reflexivity. Qed.

Lemma no_head : forallb (fun a => negb (String.eqb (Method a) "HEAD")) register = true.
Proof. vm_compute. reflexivity. Qed.

Lemma one_operation a b r : a ∈ register -> b ∈ register -> answers a r = true -> answers b r = true -> a = b.
Proof.
  intros Ha Hb. unfold answers. rewrite !andb_true_iff. intros [Ma Pa] [Mb Pb].
  pose proof no_rivals as Hr. rewrite forallb_forall in Hr. specialize (Hr a (proj1 (list_elem_of_In _ _) Ha)).
  rewrite forallb_forall in Hr. specialize (Hr b (proj1 (list_elem_of_In _ _) Hb)).
  pose proof no_head as Hh. rewrite forallb_forall in Hh.
  assert (String.eqb (Method a) (Method b) = true) as Hm.
  { pose proof (Hh a (proj1 (list_elem_of_In _ _) Ha)) as Na. pose proof (Hh b (proj1 (list_elem_of_In _ _) Hb)) as Nb.
    unfold methodMatches in *. rewrite orb_true_iff, andb_true_iff, !String.eqb_eq in Ma, Mb.
    apply negb_true_iff, String.eqb_neq in Na, Nb. apply String.eqb_eq. intuition congruence. }
  unfold rival in Hr. rewrite Hm, (pathMatches_overlap _ _ _ Pa Pb) in Hr. cbn in Hr. by apply bool_decide_eq_true_1 in Hr.
Qed.

Lemma login_is_unguarded op : op ∈ register -> opAuthed op = negb (String.eqb (OperationID op) "login").
Proof.
  intros Hop. assert (forallb (fun op => Bool.eqb (opAuthed op) (negb (String.eqb (OperationID op) "login"))) register = true) as H
    by (vm_compute; reflexivity).
  rewrite forallb_forall in H. apply Bool.eqb_prop, (H op), list_elem_of_In, Hop.
Qed.

Section Entry.
Context `{!JWT} {W : Type} (h : router W).

(** A request that shows a token signed with this key which has not expired. *)
Definition bears (t : tokenIssuer) (auth : string) (now : Z) : Prop :=
  exists token, auth = "Bearer " +:+ token /\ nonempty token = true /\ nonempty (issuerKey t) = true /\
    ParseToken token (issuerKey t) now = true.

Lemma TrimPrefix_changes p s : TrimPrefix p s <> s -> s = p +:+ TrimPrefix p s.
Proof. unfold TrimPrefix. destruct (HasPrefix p s) eqn:E; [|done]. intros _. by apply HasPrefix_split. Qed.

Lemma requireAuth_bears t auth w : result h (requireAuth t auth) w = None <-> bears t auth (PanelThms.clock h w).
Proof.
  split.
  - unfold requireAuth. cbn zeta. destruct (String.eqb_spec (TrimPrefix "Bearer " auth) auth) as [E|E]; [done|].
    apply TrimPrefix_changes in E. set (raw := TrimPrefix "Bearer " auth) in *. rewrite result_bind. unfold verify.
    destruct (nonempty (issuerKey t)) eqn:Hk, (nonempty raw) eqn:Hraw; cbn [negb orb]; try done.
    rewrite result_bind, result_now. cbn. destruct (ParseToken _ _ _) eqn:Ep; [|done]. intros _. by exists raw.
  - intros (token & -> & Ht & Hk & Hp). rewrite requireAuth_token by done. by rewrite Hp.
Qed.

Lemma requireAuth_asks t auth w : Forall (fun ev => match ev with Did o _ => o = Now end) (trace h (requireAuth t auth) w).
Proof.
  apply (calls_trace (fun o => o = Now)). unfold requireAuth. destruct (String.eqb _ _); [done|].
  apply calls_bind; [|done]. unfold verify. destruct (_ || _); [done|]. by repeat split.
Qed.

(** C22. Login is the one open door. Whatever a request asks for, at most one operation
    answers it; unless that is the login, its handler runs exactly when the request shows a
    token signed with the panel's key that has not expired - otherwise nothing at all is
    asked of the router but the time. *)
Theorem only_login_is_open (t : tokenIssuer) (r : Request) (op : Operation) (w : W) :
  op ∈ register -> answers op r = true ->
  (forall op', op' ∈ register -> answers op' r = true -> op' = op) /\
  (result h (entry t r op) w = None <-> OperationID op = "login" \/ bears t (rqAuthorization r) (PanelThms.clock h w)) /\
  Forall (fun ev => match ev with Did o _ => o = Now end) (trace h (entry t r op) w).
Proof.
  intros Hop Hr. split; [intros op' Hop' Hr'; by eapply one_operation|]. unfold entry. rewrite login_is_unguarded by done.
  destruct (String.eqb_spec (OperationID op) "login") as [E|E]; cbn [negb].
  - split; [|done]. split; [by left|done].
  - rewrite requireAuth_bears. split; [|apply requireAuth_asks]. split; [by right|]. by intros [?|?].
Qed.
End Entry.

Definition asking : Request := mkRequest "DELETE" "/firewall/rules/cfg1292bd" "".

Lemma only_login_is_open_witness :
  exists op, OperationID op = "removeFirewallRule" /\
  (op ∈ register /\ answers op asking = true) /\
  (forall op', op' ∈ register -> answers op' asking = true -> op' = op) /\
  (result panel_router (entry (mkIssuer "veilbridge-v1:x") asking op) ∅ = None <->
     OperationID op = "login" \/ bears (mkIssuer "veilbridge-v1:x") (rqAuthorization asking) (PanelThms.clock panel_router ∅)) /\
  Forall (fun ev => match ev with Did o _ => o = Now end) (trace panel_router (entry (mkIssuer "veilbridge-v1:x") asking op) ∅).
Proof.
  set (op := mkOperation "removeFirewallRule" "DELETE" "/firewall/rules/{id}" true 0 []). exists op.
  assert (op ∈ register) as H1 by (apply list_elem_of_In; vm_compute; tauto).
  assert (answers op asking = true) as H2 by (vm_compute; reflexivity).
  split; [reflexivity|]. split; [by split|]. exact (only_login_is_open panel_router (mkIssuer "veilbridge-v1:x") asking op ∅ H1 H2).
Defined.

(** ** What a live stream shows *)
Section StreamThms.
Context {F S : Type} `{!Float64 F, !DocumentCodec} (sm : systemManager (F:=F)) (numCPU : Z) (text : err -> string).
Context {W : Type} (h : router W).

Abbreviation same a b := (shownState text a = shownState text b).
Definition applyFrames (l : list (frame (F:=F) (S:=S))) : list ApplyState :=
  omap (fun f => match f with ApplyFrame st => Some st | _ => None end) l.
Definition polled (l : list (tick (S:=S))) : list ApplyState :=
  omap (fun t => match t with ApplyTick st _ => Some st | _ => None end) l.
Definition delivered (t : tick (S:=S)) : bool := match t with ApplyTick _ sent | SystemTick _ _ sent => sent end.

Lemma last_cons {A} (x d : A) l : List.last (x :: l) d = List.last l x.
Proof. revert x d. induction l as [|y l IH]; intros x d; [done|]. change (List.last (y :: l) d = List.last (y :: l) x). by rewrite !IH. Qed.

Lemma last_same (a b : ApplyState) l : same a b -> same (List.last l a) (List.last l b).
Proof. intros E. destruct l; [done|]. by rewrite !last_cons. Qed.

Lemma streamLoop_frames lastApply st ticks w : forallb delivered ticks = true ->
  let frames := applyFrames (result h (streamLoop sm numCPU text lastApply st ticks) w) in
  sublist frames (polled ticks) /\
  same (List.last frames lastApply) (List.last (polled ticks) lastApply) /\
  Sorted (fun a b => ~ same a b) (lastApply :: frames).
Proof.
  revert lastApply st w. induction ticks as [|[now sent|live up sent] ticks IH]; intros lastApply st w; cbn [forallb];
    [intros _; split_and!; by repeat constructor|..]; rewrite andb_true_iff; intros [Hs Hd]; cbn in Hs; subst sent;
    cbn [streamLoop].
  - change (polled (ApplyTick now true :: ticks)) with (now :: polled ticks). destruct (decide (same now lastApply)) as [E|E].
    + specialize (IH lastApply st w Hd) as (H1 & H2 & H3). cbn zeta. split_and!; [by apply sublist_cons| |done].
      rewrite H2, last_cons. by apply last_same.
    + specialize (IH now st w Hd) as (H1 & H2 & H3). cbn zeta. rewrite result_bind.
      set (rest := result h (streamLoop _ _ _ now st ticks) w) in *.
      change (applyFrames (result h _ _)) with (now :: applyFrames rest). rewrite !last_cons.
      split_and!; [by apply sublist_skip|done|]. constructor; [done|]. constructor. naive_solver.
  - cbn zeta. rewrite !result_bind. by apply IH.
Qed.

(** What a live stream says of the transaction. However the transaction moves between the
    looks, as long as the browser is there the states it is told are states that were seen,
    in their order; no two that follow each other look the same; and after every look the
    last one told is the one last seen - a reverted change is never left on the screen. *)
Theorem stream_shows_every_state (n : Z) (live : list S) (up : string) (st : System.remembered) (first : ApplyState)
    (ticks : list (tick (S:=S))) (w : W) :
  (n <= maxStreams)%Z -> forallb delivered ticks = true ->
  exists told, applyFrames (result h (streamEvents sm numCPU text n live up st first true true ticks) w) = first :: told /\
    sublist told (polled ticks) /\
    same (List.last told first) (List.last (polled ticks) first) /\
    Sorted (fun a b => ~ same a b) (first :: told).
Proof.
  intros Hn Hd. unfold streamEvents. apply Z.ltb_ge in Hn as ->. rewrite !result_bind. cbn [result perform fst app].
  set (r := result h (sendSystem sm numCPU live up st) w). set (w1 := after h _ w).
  eexists. split; [reflexivity|]. apply (streamLoop_frames first r.2 ticks w1 Hd).
Qed.
End StreamThms.

(** ** The statuses an operation declares *)
Section Declared.
Context {W : Type} (h : router W) (before : string -> string -> bool) (m : networkManager).

(** Whatever a guest edit is answered, its operation declares it. *)
Theorem guest_answers_are_declared (what : string) (fn : prog (res (list ConfigChange))) (c : ApplyCoordinator W) (w : W) :
  match (guestEdit h before m what fn c w).2 with inl _ => True | inr e => hStatus e ∈ guestErrors end.
Proof.
  unfold guestEdit. destruct (Apply.Stage _ c w) as [[c1 w1] e]. cbn [snd].
  generalize (match e with Some e => Err e | None => result h (onEmptyDraft before m fn) w end). intros r.
  unfold guestAnswer, wifiError, refusal, guestErrors. destruct r as [changes|er]; [done|]. repeat case_match; cbn; set_solver.
Qed.
End Declared.

(** Finding: the other edits of Wi-Fi and of a device can be answered 502 - the draft could
    not be read - which their operations, and the specification made of them, do not have. *)
Theorem unreadable_draft_is_undeclared :
  let h := answering (fun (_ : list string) (w : unit) => (Err (Errorf "refused" []), w)) in
  let m := mkManager true true "/etc/config" in
  forall op, op ∈ [mkOperation "stageWiFiRadio" "PUT" "/wifi/radios/{id}" true 0 [400; 404; 409; 501]%Z;
                   mkOperation "stageDeviceInternet" "PUT" "/devices/{mac}/internet" true 0 [400; 409; 501]%Z] ->
  op ∈ register /\
  let answer := if String.eqb (OperationID op) "stageWiFiRadio"
                then stageWiFiRadio h (fun _ _ => true) m true "radio0" (mkRadioConfig true "auto" 0) NewApplyCoordinator tt
                else stageDeviceInternet h (fun _ _ => true) m true "02:00:5e:00:53:10" false NewApplyCoordinator tt in
  match answer.2 with inl _ => False | inr e => hStatus e = 502%Z /\ existsb (Z.eqb (hStatus e)) (Errors op) = false end.
Proof.
  intros h m op [->|[->|[]%elem_of_nil]%elem_of_cons]%elem_of_cons;
    (split; [apply list_elem_of_In; vm_compute; tauto|]); by vm_compute.
Qed.
