(* ===== verification/Daemon.v ===== *)
(** * The daemon: cmd/veilbridged/main.go

    What the program does with its flags, and the order in which it starts: a change that
    was never confirmed is undone, then the tunnel and the marking of its traffic are
    brought back, then the panel is served. The HTTP server, its shutdown and the sampling
    of vital signs, which begins just before serving, are not here; what is printed is a
    call of its own ([Say]). The text of the OpenAPI specification is Huma's. *)

From S2P Require Import Prelude GoStrings Apply ApplySpec ApplyThms Effects Network Stage UciApplier UciApplierThms Config ConfigMem TunnelRoute AmneziaParse.
From S2P Require Import SelectiveRouting SelectiveRoutingThms VpnManager Restore Capabilities Http Api ApiPanel PanelThms Device DeviceMem.

(** ** The flags *)

Record flags := mkFlags {
  configPath : string; listen : string; dev : bool; setPass : string; dumpOpenAPI : bool; demo : bool;
  showVersion : bool; restoreNet : bool; restorePointID : string; listPoints : bool; force : bool }.

(** The adapter that was made; the one of the demonstration touches nothing. *)
Inductive madeAdapter := DemoAdapter | RouterAdapter (kernel : bool) (caps : Capabilities).

Section Main.
Context `{!RecordCodec, !DocumentCodec, !PasswordHash}.
Context (members : string -> res (list member)) (shownTaken : string -> string) (shownTime until : Z -> string).
Context (build : string) (spec : res string).

Definition fatal {A} (format : string) (args : list string) : prog (A + Z) := _ <- ask (Say format args) ;; Ret (inr 1%Z).

(** ** Commands that end the program *)

Definition emergencyRestore (list_ : bool) (point : string) (force_ : bool) : prog Z :=
  r <- restore members shownTaken shownTime until newEmergency (mkRestoreOptions list_ point force_) ;;
  match r with
  | Ok _ => Ret 0%Z
  | Err e => if Is e ErrChangePending then Ret 2%Z else _ <- ask (Say "restore: %v" []) ;; Ret 1%Z
  end.

Definition openAPIHeader : string :=
"# GENERATED — do not edit by hand.
# Produced from the Go handler types (code-first, Huma — DESIGN D-8) via:
#   go run ./cmd/veilbridged -dump-openapi > api/openapi.yaml
# CI regenerates this and fails on drift (git diff --exit-code).
".

(** [api.New] loads the configuration; the stand-in adapter is not asked anything. *)
Definition dumpSpec (store : Store) : prog (res unit) :=
  let! _ := LoadDocument store in
  let* text := spec in
  _ <- ask (Say openAPIHeader []) ;; _ <- ask (Say text []) ;; Ret (Ok tt).

Definition setPassword (store : Store) (pw : string) : prog (res unit) :=
  let! doc := LoadDocument store in
  let '(doc, r) := SetPassword pw doc in
  match r with Err e => Ret (Err e) | Ok _ => SaveDocument store doc end.

Definition ending (fmt : string) (p : prog (res unit)) : prog Z :=
  r <- p ;; match r with Ok _ => Ret 0%Z | Err _ => _ <- ask (Say fmt []) ;; Ret 1%Z end.

(** The exit code, unless the daemon is to start. *)
Definition commands (f : flags) : prog (option Z) :=
  let store := NewStore (configPath f) in
  if showVersion f then _ <- ask (Say build []) ;; Ret (Some 0%Z) else
  if restoreNet f || nonempty (restorePointID f) || listPoints f then
    code <- emergencyRestore (listPoints f) (restorePointID f) (force f) ;; Ret (Some code) else
  if dumpOpenAPI f then code <- ending "dump-openapi: %v" (dumpSpec store) ;; Ret (Some code) else
  if nonempty (setPass f) then
    code <- ending "set-password: %v" (setPassword store (setPass f)) ;;
    _ <- (if (code =? 0)%Z then ask (Say "admin password set" []) else Ret tt) ;; Ret (Some code)
  else Ret None.

(** ** Starting *)

(** The configuration, the adapter and the signing key; or an exit code. *)
Definition prepare (f : flags) : prog (Document * madeAdapter * tokenIssuer + Z) :=
  let store := NewStore (configPath f) in
  doc <- LoadDocument store ;;
  match doc with
  | Err _ => fatal "load config: %v" []
  | Ok doc =>
      _ <- (if nonempty (SettingsPasswordHash (DocSettings doc)) then Ret tt
            else ask (Say "WARNING: no admin password set — the API will reject all logins. Run with -set-password <pw> first." [])) ;;
      made <- (if demo f
               then _ <- ask (Say "DEMO MODE: sample data, no OS access and no real tunnels" []) ;; Ret (Ok DemoAdapter)
               else r <- newAdapter ;; Ret (match r with Ok (kernel, caps) => Ok (RouterAdapter kernel caps) | Err e => Err e end)) ;;
      match made with
      | Err _ => fatal "init adapter: %v" []
      | Ok a =>
          again <- LoadDocument store ;;
          match again with
          | Err _ => fatal "init api: %v" []
          | Ok doc2 => Ret (inl (doc, a, firstIssuer doc2))
          end
      end
  end.

(** What is said of the recovery. *)
Definition tellRecovered (r : bool * option err) : prog unit :=
  match r with
  | (_, Some _) => ask (Say "WARNING: a configuration change was applied but never confirmed, and it could not be undone: %v" [])
  | (true, None) => ask (Say "undid a configuration change that was never confirmed (the daemon stopped inside the confirmation window)" [])
  | (false, None) => Ret tt
  end.

Definition newNetworkManager : networkManager := mkManager true true "/etc/config".

(** [Restore] of the router's adapter: the node brought back in the background, and
    whether the marking is retried there. *)
Definition bringUp (f : flags) (a : madeAdapter) : prog (option string * bool) :=
  match a with
  | DemoAdapter => Ret (None, false)
  | RouterAdapter kernel _ =>
      r <- RestoreAdapter (mkVpn (NewStore (configPath f)) kernel true) (lanDevices newNetworkManager) ;;
      let '(e, node, retry) := r in
      _ <- (match e with Err _ => ask (Say "WARNING: could not restore the tunnel and routing: %v" []) | Ok _ => Ret tt end) ;;
      Ret (node, retry)
  end.

Definition address (f : flags) (doc : Document) : string :=
  if nonempty (listen f) then listen f
  else if nonempty (ListenAddr (DocSettings doc)) then ListenAddr (DocSettings doc) else ":8080".

Section Start.
Context {W : Type} (h : router W) (applier : ConfigApplier W) (j : ApplyJournal W) (loader : SnapshotLoader W).

(** The daemon as it begins to serve, with what the recovery reported. *)
Record daemon := mkDaemon {
  dAddr : string; dIssuer : tokenIssuer; dCoordinator : ApplyCoordinator W; dRecovered : bool * option err;
  dNode : option string; dRetry : bool }.

Inductive outcome := Exits (code : Z) | Serves (d : daemon).

Definition main (f : flags) (w : W) : outcome * W :=
  let w1 := after h (commands f) w in
  match result h (commands f) w with
  | Some code => (Exits code, w1)
  | None =>
      let w2 := after h (prepare f) w1 in
      match result h (prepare f) w1 with
      | inr code => (Exits code, w2)
      | inl (doc, a, issuer) =>
          let c := newCoordinator (match a with DemoAdapter => None | RouterAdapter _ _ => Some j end) in
          let '(c, w3, r) := RecoverPendingApply applier loader c w2 in
          let w4 := after h (tellRecovered r) w3 in
          let up := result h (bringUp f a) w4 in
          (Serves (mkDaemon (address f doc) issuer c r up.1 up.2), after h (bringUp f a) w4)
      end
  end.
End Start.
End Main.

(** ** What a start may do before the panel is served *)

(** Reading, probing, printing, the marking of traffic and its rules. *)
Definition startup (o : op) : Prop :=
  match o with
  | ReadFile _ | ReadDir _ | StatMode _ | Lstat _ | OpenRW _ | SysExists _ | BusInterfaces | MkdirTemp _ | Symlink _ _
  | RemoveAll _ | RunNft _ | Say _ _ => True
  | Exec (p :: args) => p = ipProgram \/ exists dir rest, p :: args = "uci" :: "-q" :: "-c" :: dir :: rest
  | _ => False
  end.

Lemma startup_looks o : looks o -> startup o.
Proof. by destruct o. Qed.

Lemma say_startup {A} fmt args (k : unit -> prog A) : (forall u, calls startup (k u)) -> calls startup (prog_bind (ask (Say fmt args)) k).
Proof. intros Hk. by split. Qed.

Section Startup.
Context `{Doc : !DocumentCodec}.

Lemma LoadDocument_startup s : calls startup (LoadDocument s).
Proof. split; [done|]. intros [b|e]; cbn; [|done]. repeat (break_match; try done). Qed.

Lemma newAdapter_startup : calls startup newAdapter.
Proof.
  apply calls_bind; [by apply calls_bind; [split|]|]. intros [|]; [|done]. apply calls_bind; [|done].
  eapply calls_weaken; [apply startup_looks|apply newOpenWrt_looks].
Qed.

Lemma ensureRules_startup m : calls startup (ensureRules m).
Proof. unfold ensureRules. destruct (_ || _); [done|]. apply Ensure_calls; [by left|done]. Qed.

Lemma lanDevices_startup m : calls startup (lanDevices m).
Proof.
  unfold lanDevices. destruct (negb _); [done|]. apply calls_try.
  - unfold withCommitted. destruct (negb _); [done|]. apply calls_try; [by split|]. intros d. apply calls_bind.
    + apply calls_try; [by split|]. intros u. split; [|done]. right. eauto.
    + intros out. by apply (calls_bind _ (ask (RemoveAll d))); [split|].
  - intros out. apply calls_try; [|by intros more; break_match]. break_match; [done|].
    apply calls_try; [|done]. eapply calls_weaken; [|apply Interfaces_calls]. by intros o ->.
Qed.

Lemma RestoreAdapter_startup m lan : calls startup lan -> calls startup (RestoreAdapter m lan).
Proof.
  intros Hl. apply calls_bind.
  - apply calls_bind.
    + destruct (_ && _); [|done]. apply calls_bind; [|done]. apply Ensure_calls; [by left|done].
    + intros e. apply calls_bind; [apply LoadDocument_startup|]. by intros [d|er].
  - intros t. apply calls_bind; [|done]. apply calls_try; [apply LoadDocument_startup|]. intros d.
    apply calls_try; [apply calls_bind; [apply ensureRules_startup|done]|]. intros u.
    apply calls_try; [by apply calls_try|]. intros g. apply calls_try; [done|]. intros s. by split.
Qed.

Lemma bringUp_startup f a : calls startup (bringUp f a).
Proof.
  destruct a as [|kernel caps]; [done|]. apply calls_bind; [apply RestoreAdapter_startup, lanDevices_startup|].
  intros [[e node] retry]. apply calls_bind; [by destruct e|done].
Qed.

Lemma tellRecovered_startup r : calls startup (tellRecovered r).
Proof. by destruct r as [[] []]. Qed.

Lemma prepare_startup f : calls startup (prepare f).
Proof.
  apply calls_bind; [apply LoadDocument_startup|]. intros [doc|e]; [|by apply say_startup].
  apply calls_bind; [by destruct (nonempty _)|]. intros u. apply calls_bind.
  - destruct (demo f); [by apply say_startup|]. apply calls_bind; [apply newAdapter_startup|]. by intros [[]|].
  - intros [a|e]; [|by apply say_startup]. apply calls_bind; [apply LoadDocument_startup|].
    intros [doc2|e]; [done|by apply say_startup].
Qed.
End Startup.

(** ** The order of the start *)
Section Order.
Context `{Codec : !RecordCodec, Doc : !DocumentCodec, !PasswordHash}.
Context (members : string -> res (list member)) (shownTaken : string -> string) (shownTime until : Z -> string).
Context (build : string) (spec : res string).
Context {W Config : Type} (h : router W) (v : Views W Config).
Context (applier : ConfigApplier W) (j : ApplyJournal W) (loader : SnapshotLoader W) (seams : Seams W).

Abbreviation commands_of f := (commands members shownTaken shownTime until build spec f).
Abbreviation main_of f w := (main members shownTaken shownTime until build spec h applier j loader f w).

(** Reading, probing and marking touch neither the configuration nor the journal and the
    snapshots of the transaction. *)
Class QuietStart := quiet_start o w : startup o -> frame v w (answer h o w).2 /\ kept v (answer h o w).2 = kept v w.

Lemma after_quiet `{QuietStart} {A} (p : prog A) w : calls startup p ->
  frame v w (after h p w) /\ kept v (after h p w) = kept v w.
Proof.
  unfold after, frame. revert w. induction p as [a|o k IH]; intros w; cbn; [done|]. intros [Ho Hk].
  pose proof (quiet_start o w Ho) as ((El & Er & Ei) & Ek). destruct (answer h o w) as [r w1]. cbn in *.
  specialize (IH r w1 (Hk r)). destruct (perform h (k r) w1) as [[a w2] tr]. cbn in *.
  destruct IH as ((-> & -> & ->) & ->). done.
Qed.

(** A start asks nothing before its preparations. *)
Lemma commands_none f w : result h (commands_of f) w = None ->
  after h (commands_of f) w = w /\ showVersion f = false /\ restoreNet f = false /\ restorePointID f = "" /\
  listPoints f = false /\ dumpOpenAPI f = false /\ setPass f = "".
Proof.
  unfold commands. destruct (showVersion f); [by rewrite result_bind|].
  destruct (restoreNet f), (listPoints f), (restorePointID f) as [|c s]; cbn [orb nonempty]; try by rewrite result_bind.
  destruct (dumpOpenAPI f); [by rewrite result_bind|]. destruct (setPass f) as [|c s]; [done|].
  cbn [nonempty]. by rewrite !result_bind.
Qed.

Lemma fatal_exits {A} fmt args w : result h (fatal (A:=A) fmt args) w = inr 1%Z.
Proof. unfold fatal. by rewrite result_bind. Qed.

(** Without -demo the adapter is the router's. *)
Lemma prepare_router f w doc a issuer : demo f = false -> result h (prepare f) w = inl (doc, a, issuer) ->
  exists kernel caps, a = RouterAdapter kernel caps.
Proof.
  intros Hd. unfold prepare. rewrite Hd, result_bind. destruct (result h (LoadDocument _) w) as [d|e]; [|by rewrite fatal_exits].
  rewrite !result_bind. destruct (result h newAdapter _) as [[kernel caps]|e]; cbn [result perform fst]; [|by rewrite fatal_exits].
  rewrite result_bind. destruct (result h (LoadDocument _) _) as [d2|e]; [|by rewrite fatal_exits]. intros [= <- <- <-]. eauto.
Qed.


(** The emergency commands work without the panel: they never serve it, and the exit code
    tells a change that undoes itself (2) from a failure (1) and from success (0). *)
Theorem emergency_never_serves (f : flags) (w : W) :
  showVersion f = false -> restoreNet f || nonempty (restorePointID f) || listPoints f = true ->
  (main_of f w).1 =
  Exits (match result h (restore members shownTaken shownTime until newEmergency
                           (mkRestoreOptions (listPoints f) (restorePointID f) (force f))) w with
         | Ok _ => 0 | Err e => if Is e ErrChangePending then 2 else 1 end)%Z.
Proof.
  intros Hv He. unfold main, commands. rewrite Hv, He. rewrite result_bind. unfold emergencyRestore. rewrite result_bind.
  destruct (result h (restore _ _ _ _ _ _) w) as [u|e]; [done|]. destruct (Is e ErrChangePending); [done|]. by rewrite result_bind.
Qed.
End Order.

(** ** A witness: the world in memory of ApplyThms.v, in the middle of a confirmation window *)

Definition start_router : router Mem.World :=
  mkRouter Mem.World (fun o w => (match o return ans o with
    | StatMode f => if String.eqb f "/etc/openwrt_release" then Ok (false, false) else Err ErrNotExist
    | ReadFile _ | ReadDir _ | Lstat _ => Err ErrNotExist
    | o => refuse o
    end, w)).

Lemma start_is_quiet : QuietStart start_router Mem.views.
Proof. by intros o w _; destruct o. Qed.

Definition no_flags : flags := mkFlags "" "" false "" false false false false "" false false.

(** A change was committed and journalled, and nobody confirmed it. *)
Definition unconfirmed : Mem.World :=
  Mem.mkWorld "new" "" (Some (mkRecord "uci-0" "token" 90)) {["uci-0" := "old"]} ["token"] 1 Mem.healthy.

Definition started : outcome * Mem.World :=
  main (fun _ => Err ErrNotExist) id Itoa Itoa "v0.1" (Ok "openapi: 3.1.0") start_router Mem.applier Mem.journal Mem.loader no_flags unconfirmed.

